(* ===== verification/_CoqProject ===== *)
-Q . S2P
Prelude.v
Primitives.v
Crypto.v
X3DH.v
Ratchet.v
RatchetSession.v
RatchetSkip.v
Proto.v
Envelope.v
Badger.v
Dht.v
GroupState.v
Storage.v
StorageProps.v
Runtime.v
Topic.v
GroupService.v
GroupServiceProps.v
PublicGroup.v
PublicGroupProps.v
Exchange.v
Channel.v
ChannelProps.v
Calls.v
CallProps.v
CallSteps.v
MemStore.v
MemProps.v
GroupCall.v
GroupCallProps.v
Float64.v
GoText.v
GoFormat.v
PeerPrune.v
Metrics.v
Node.v
NodeInfo.v
NodeProps.v
Subscription.v
Files.v
PeerKey.v
Reputation.v
ReputationProps.v
Mailbox.v
MailboxProps.v
MailboxStreams.v
MailboxNode.v
MailboxNodeProps.v
MultiDevice.v
Fanout.v
MultiDeviceProps.v
Messages.v
Messaging.v
MessagingProps.v
AddrBook.v
AddrBookProps.v
ContactTracker.v
ContactTrackerProps.v
Identity.v
IdentityProps.v
Document.v
DocumentProps.v
IdentityStore.v
MediaCodec.v
MediaCodecProps.v
MediaService.v
AppConfig.v
Startup.v
ConfigLoader.v
Run.v
StartupProps.v
Dialing.v
Bootstrap.v
Display.v
Cli.v
CliNetwork.v
CliCommands.v
Interactive.v
CliProps.v
DomainErrors.v
