(* ===== verification/Prelude.v ===== *)
(** * Babylon Tower: a verification library

    Babylon Tower (src/, Go) is a peer-to-peer messenger.  This library models
    the parts of it that carry its own logic and proves what they guarantee, or
    shows where they fall short.  This file is the shared prelude: bytes, machine
    integers, encodings, errors and the state-and-error monad.

    ** The program and its parts

    An identity (pkg/identity) has Ed25519 and X25519 keys, derived from a
    mnemonic, and publishes a signed document under its name.  What the program
    sends today are signed envelopes, encrypted to a contact's key and published
    to the contact's topic (pkg/messaging, over the node of pkg/ipfsnode), whose
    addresses are in the address book and followed by the contact tracker
    (pkg/peerstore).  The protocol built beside it: two parties agree on a secret
    by X3DH and talk through a Double Ratchet session (pkg/ratchet, over
    pkg/crypto); messages travel in signed envelopes (pkg/protocol).  Groups,
    public groups and channels (pkg/groups) are signed states that services
    keep, cache and write to a storage (pkg/storage, on BadgerDB or in memory).
    Calls between two parties and of groups are state machines over signalling
    messages (pkg/rtc).  Nodes observe each other and attest to it
    (pkg/reputation), keep messages for those who are offline (pkg/mailbox), and
    an identity may have several devices (pkg/multidevice).  The program itself
    (cmd/messenger) reads its configuration (pkg/config), starts a node and the
    messaging, and obeys the commands of a terminal (pkg/cli).

    ** The files

    Foundations.
    - Prelude: bytes as [list Byte.byte], [uint32] and [uint64] as [Z] with
      [u32] and [u64] written out, hex and endian encodings, [outcome] (result,
      error or panic), the monad [GoM] and field update.
    - Primitives: the class of cryptographic algorithms with its documented
      laws, and [toy], an instance that computes.
    - Proto: protocol-buffer messages as records and the class [Codec].
    - Badger: the key-value store as the class [KV], its laws, and [gmap_kv].
      Dht: the distributed hash table likewise.  Files: the file system likewise.
    - Runtime: [Sys], an object with the random bytes and clock readings it will
      get; [respects], what an operation may change.
    - Exchange: sorting by exchange, shared by several services.  Float64: IEEE
      754 numbers.  GoText, GoFormat: Go's strings, number formats and durations.
    - DomainErrors (pkg/errors): errors with a domain and a cause.

    Components, each followed by the file with its theorems.
    - Crypto (pkg/crypto), X3DH and Ratchet (pkg/ratchet), RatchetSession and
      RatchetSkip.
    - Envelope (pkg/protocol/envelope.go).
    - Storage, StorageProps (pkg/storage: badger.go, groups.go, channels.go);
      MemStore, MemProps (memory.go).
    - GroupState (pkg/groups/state.go), GroupService, GroupServiceProps
      (service.go), PublicGroup, PublicGroupProps (public.go), Channel,
      ChannelProps (channel.go).
    - Calls, CallProps, CallSteps (pkg/rtc: session.go, signaling.go,
      manager.go); GroupCall, GroupCallProps (groupcall.go); MediaCodec,
      MediaCodecProps (codec.go); MediaService (media.go).
    - Reputation, ReputationProps (pkg/reputation).
    - Mailbox, MailboxProps, MailboxStreams (pkg/mailbox: storage.go, deposit.go,
      retrieval.go); MailboxNode, MailboxNodeProps (announcement.go, manager.go).
    - MultiDevice, Fanout, MultiDeviceProps (pkg/multidevice).
    - Identity, IdentityProps (pkg/identity: keys.go, identity.go,
      identity_v1.go); Document, DocumentProps (identity_document.go,
      dht_identity.go); IdentityStore (pkg/storage/identity_v1.go).
    - Metrics, Node, NodeInfo, NodeProps, Subscription, PeerKey, Topic
      (pkg/ipfsnode: metrics.go, node.go, pubsub.go); Dialing, Bootstrap (starting
      and stopping a node, dialling in parallel); PeerPrune (the peers a node
      remembers, in pkg/storage).
    - Messages, Messaging, MessagingProps (pkg/messaging).
    - AddrBook, AddrBookProps, ContactTracker, ContactTrackerProps
      (pkg/peerstore).
    - AppConfig, ConfigLoader (pkg/config).
    - Display, Cli, CliNetwork, CliCommands, Interactive, CliProps (pkg/cli: what
      is printed, the commands, the loop, the displays that refresh themselves).
    - Startup, StartupProps, Run (cmd/messenger).

    A Go struct is a record, a method a definition of the same name over the
    state it changes; where two packages use one name, one of them has a prefix.
    Loops are recursive functions over the list they go through.

    ** What the theorems show

    - Agreement and secrecy of state: both ends of X3DH compute one secret; in
      every interleaving of a conversation what is received decrypts to what was
      sent; messages of a chain decrypt in any order; the cache of skipped keys
      stays within its bound; but a repeated message moves a session on.
    - Signed data: what is signed determines the fields of an envelope, though
      not its kind; accepted group updates have a higher epoch and an admin's
      signature; updates a service makes are accepted by its peers; a split brain
      resolves to the first state of the highest rank, whose epoch and creator do
      not depend on the order; device certificates verify, with another division
      into fields, too.
    - Storage: distinct records have distinct keys, what is saved is read back,
      messages come back in order; the storage in memory and the one on the
      key-value store answer alike, but for reading messages and posts, listings of
      peers with a limit, and pruning.
    - State machines: calls only move forward in all runs, unanswered offers end,
      who can change a call; who can be in a group call, and who can end it.
    - Invariants and bounds: records of peers stay well formed; no window holds
      more messages than the rate limit, or one if the limit is 0; merging vector
      clocks is a join, but no message between devices leads to it.
    - Mailboxes: a message deposited by one client is retrieved by the other; a
      mailbox that is full stays full; rejections never reach the sender.
    - Messages of contacts: a message that was sent is received by the holder of
      the recipient's key, and is in the histories of both; anyone can put an
      envelope under a signature of their own.
    - Identities: an identity that publishes its document is found under its name
      and recovered from its mnemonic; the signed bytes determine a document but
      for the division into fields of its lists; prekeys refine a finite map.
    - Nodes: the key of a node stays the same from start to start; what is counted
      of connections follows from the events; a subscription delivers in order.
    - Address books: a book that was saved is reopened; it never grows over its
      bound; what a refresh writes, and what it loses; presence after a restart.
    - Nodes that dial: never more at a time than configured, and the wait ends.
    - Codecs: what two ends answer each other is common to both.
    - The program: configuration comes from the environment, the file and the
      defaults, in this order; the identity and the peers persist from run to run;
      a run closes what it opened, in whatever way it ends, but for a node whose
      start failed and a terminal whose loop failed.
    - The terminal: a line typed in a chat is shown at the contact's terminal, or
      the user is told; which modes it can be in; a contact that was added is
      found.
    - What does not work: the program never starts, since go-log refuses to set
      the level of a logger nobody made; an interactive display may never be left;
      a service that was restarted receives nothing; a contact that is offline is
      counted as online; messages between the devices of an identity are never
      accepted.

    ** Assumptions

    Code outside the repository is a parameter: primitives, codecs, the
    key-value store, the DHT, the file system, libp2p ([Libp2p] of Node), BIP39,
    the calendar, opening streams, publishing, uuids, base58, JSON ([BookLaws]: what
    is read back, for texts that are UTF-8), viper ([ViperLaws]), go-log
    ([LogsLaws]), and the texts of foreign errors and times ([Terminal]).  Its laws
    are classes with an instance each ([toy_laws], [gmap_kv_laws],
    [countable_codec_laws], [gmap_dht_laws], [gmap_files_laws]); the examples
    compute with them.  No
    secrecy, unforgeability or collision resistance is assumed.  The order in
    which Go walks through a map is an argument wherever it can be seen.

    ** Fuel

    Two loops are not structural.  The proof of work (PublicGroup) runs on fuel
    that [ComputeProofOfWork_correct] shows to be enough: it ends within
    [pow_rounds].  The loop that advances a sender key (GroupService) runs on
    fuel too, and [advance_to_ends] says for which indices it ends and that it
    never ends for the last one.  [skipMessages] of the ratchet recurses on the
    number of messages, which the code bounds.

    ** What is not modelled

    A method holds its object's mutex from beginning to end and is one step;
    where a callback takes the mutex again (Calls) the mutex is modelled.  Data
    races between methods that forget a mutex are findings, not part of the
    model.  What is logged, contexts, timeouts and tickers are left out: what a
    ticker runs is a step.  Generated code (pkg/proto), test utilities, flags,
    signals and the help text of cmd/messenger, making and closing the terminal
    (readline), the options libp2p is set up with and two calls of encoding/json
    (pkg/rtc/codec.go) are not modelled: they are input and output, tables, or
    calls of libraries. *)
From stdpp Require Export base gmap strings list fin_maps pretty.
From Stdlib Require Export ZArith Lia.
From Stdlib.Strings Require Export Byte Ascii.

#[global] Open Scope Z_scope.
Declare Scope go_scope.
Delimit Scope go_scope with go.

(** ** Bytes and byte slices *)

#[export] Instance byte_eq_dec : EqDecision Byte.byte := Byte.byte_eq_dec.

#[export] Program Instance byte_countable : Countable Byte.byte :=
  inj_countable Byte.to_N Byte.of_N _.
Next Obligation. intros b. apply Byte.of_to_N. Qed.

Abbreviation bytes := (list Byte.byte).

(** [byteZ z] is Go's conversion [byte(z)]: the low eight bits. *)
Definition byteZ (z : Z) : Byte.byte :=
  match Byte.of_N (Z.to_N (Z.land z 255)) with Some b => b | None => Byte.x00 end.

Definition byte_val (b : Byte.byte) : Z := Z.of_N (Byte.to_N b).

(** [str s] is [[]byte(s)]. *)
Definition str (s : string) : bytes := String.list_byte_of_string s.

(** [zeros n] is [make([]byte, n)]. *)
Definition zeros (n : nat) : bytes := replicate n Byte.x00.

#[global] Arguments zeros : simpl never.
#[global] Arguments str : simpl never.
#[global] Arguments byteZ : simpl never.

Lemma byte_val_range b : 0 <= byte_val b < 256.
Proof. destruct b; unfold byte_val; simpl; lia. Qed.

Lemma byte_val_byteZ z : byte_val (byteZ z) = Z.land z 255.
Proof.
  unfold byteZ, byte_val.
  assert (0 <= Z.land z 255 < 256) as Hr.
  { change 255 with (Z.ones 8). rewrite Z.land_ones by lia. apply Z.mod_pos_bound. lia. }
  destruct (Byte.of_N _) as [b|] eqn:E.
  - apply Byte.to_of_N in E. rewrite E. rewrite Z2N.id; lia.
  - apply Byte.of_N_None_iff in E. lia.
Qed.

Lemma byteZ_byte_val b : byteZ (byte_val b) = b.
Proof. destruct b; reflexivity. Qed.

Lemma byte_val_inj x y : byte_val x = byte_val y -> x = y.
Proof. intros E. by rewrite <- (byteZ_byte_val x), E, byteZ_byte_val. Qed.

(** Go's [<] on strings: bytewise lexicographic. *)
Fixpoint bytes_ltb (a b : bytes) : bool :=
  match a, b with
  | _, [] => false
  | [], _ :: _ => true
  | x :: a', y :: b' =>
      (byte_val x <? byte_val y) || ((byte_val x =? byte_val y) && bytes_ltb a' b')
  end.

Lemma bytes_ltb_irrefl a : bytes_ltb a a = false.
Proof. induction a as [|x a IH]; cbn; [done|]. by rewrite Z.ltb_irrefl, Z.eqb_refl, IH. Qed.

Lemma bytes_ltb_trans a b c : bytes_ltb a b = true -> bytes_ltb b c = true -> bytes_ltb a c = true.
Proof.
  revert b c; induction a as [|x a IH]; intros [|y b] [|z c]; cbn; try done.
  rewrite !orb_true_iff, !andb_true_iff, !Z.ltb_lt, !Z.eqb_eq.
  intros [?|[? ?]] [?|[? ?]]; [left; lia..|right]. split; [lia|]. by eapply IH.
Qed.

Lemma bytes_ltb_total a b : bytes_ltb a b = false -> bytes_ltb b a = false -> a = b.
Proof.
  revert b; induction a as [|x a IH]; intros [|y b]; cbn; try done.
  rewrite !orb_false_iff, !andb_false_iff, !Z.ltb_ge, !Z.eqb_neq.
  intros [? [?|Hab]] [? [?|Hba]]; try lia. f_equal; [apply byte_val_inj; lia|by apply IH].
Qed.

(** ** Machine integers *)

Definition u8 (z : Z) : Z := z mod 2 ^ 8.
Definition u32 (z : Z) : Z := z mod 2 ^ 32.
Definition u64 (z : Z) : Z := z mod 2 ^ 64.

(** A 64-bit [int]. *)
Definition i64 (z : Z) : Z := (z + 2 ^ 63) mod 2 ^ 64 - 2 ^ 63.

Lemma u32_small z : 0 <= z < 2 ^ 32 -> u32 z = z.
Proof. apply Z.mod_small. Qed.
Lemma u64_small z : 0 <= z < 2 ^ 64 -> u64 z = z.
Proof. apply Z.mod_small. Qed.
Lemma u32_range z : 0 <= u32 z < 2 ^ 32.
Proof. apply Z.mod_pos_bound. lia. Qed.
Lemma u64_range z : 0 <= u64 z < 2 ^ 64.
Proof. apply Z.mod_pos_bound. lia. Qed.

#[global] Arguments u8 : simpl never.
#[global] Arguments u32 : simpl never.
#[global] Arguments u64 : simpl never.

(** Little- and big-endian encodings ([binary.LittleEndian.PutUint32] and
    friends, and the shifting loops the sources write out by hand). *)
Fixpoint le_encode (n : nat) (v : Z) : bytes :=
  match n with
  | O => []
  | S n' => byteZ v :: le_encode n' (Z.shiftr v 8)
  end.

Fixpoint le_decode (b : bytes) : Z :=
  match b with
  | [] => 0
  | x :: b' => byte_val x + 256 * le_decode b'
  end.

Definition be_encode (n : nat) (v : Z) : bytes := rev (le_encode n v).
Definition be_decode (b : bytes) : Z := le_decode (rev b).

Lemma le_encode_length n v : length (le_encode n v) = n.
Proof. revert v; induction n; intros v; simpl; [done|]. by rewrite IHn. Qed.

Lemma le_decode_encode n v :
  0 <= v < 256 ^ Z.of_nat n -> le_decode (le_encode n v) = v.
Proof.
  revert v; induction n as [|n IH]; intros v Hv; cbn [le_encode le_decode].
  - change (256 ^ Z.of_nat 0) with 1 in Hv. lia.
  - rewrite Nat2Z.inj_succ, Z.pow_succ_r in Hv by lia.
    rewrite byte_val_byteZ. change 255 with (Z.ones 8).
    rewrite Z.land_ones, Z.shiftr_div_pow2 by lia.
    change (2 ^ 8) with 256. pose proof (Z.div_mod v 256).
    rewrite IH; [lia|]. split; [apply Z.div_pos; lia|].
    apply Z.div_lt_upper_bound; lia.
Qed.

Lemma le_encode_inj n v1 v2 :
  0 <= v1 < 256 ^ Z.of_nat n -> 0 <= v2 < 256 ^ Z.of_nat n ->
  le_encode n v1 = le_encode n v2 -> v1 = v2.
Proof.
  intros H1 H2 E. rewrite <- (le_decode_encode n v1 H1), E. by apply le_decode_encode.
Qed.

Lemma be_encode_length n v : length (be_encode n v) = n.
Proof. unfold be_encode. by rewrite length_rev, le_encode_length. Qed.

Lemma be_decode_encode n v :
  0 <= v < 256 ^ Z.of_nat n -> be_decode (be_encode n v) = v.
Proof. intros H. unfold be_decode, be_encode. rewrite rev_involutive. by apply le_decode_encode. Qed.

Lemma le_decode_app a b : le_decode (a ++ b) = le_decode a + 256 ^ Z.of_nat (length a) * le_decode b.
Proof.
  induction a as [|x a IH]; cbn [app le_decode length]; [change (256 ^ Z.of_nat 0) with 1; lia|].
  rewrite IH, Nat2Z.inj_succ, Z.pow_succ_r by lia. lia.
Qed.

Lemma le_decode_range b : 0 <= le_decode b < 256 ^ Z.of_nat (length b).
Proof.
  induction b as [|x b IH]; cbn [le_decode length]; [change (256 ^ Z.of_nat 0) with 1; lia|].
  rewrite Nat2Z.inj_succ, Z.pow_succ_r by lia. pose proof (byte_val_range x). lia.
Qed.

Lemma be_decode_cons x b : be_decode (x :: b) = byte_val x * 256 ^ Z.of_nat (length b) + be_decode b.
Proof.
  unfold be_decode. cbn [rev]. rewrite le_decode_app, length_rev. cbn [le_decode]. lia.
Qed.

Lemma le_encode_decode b : le_encode (length b) (le_decode b) = b.
Proof.
  induction b as [|x b IH]; cbn [length le_encode le_decode]; [done|].
  pose proof (byte_val_range x). f_equal.
  - rewrite <- (byteZ_byte_val x) at 2. unfold byteZ. do 3 f_equal.
    change 255 with (Z.ones 8). rewrite !Z.land_ones by lia. change (2 ^ 8) with 256.
    rewrite (Z.mul_comm 256), Z_mod_plus_full. done.
  - rewrite Z.shiftr_div_pow2 by lia. change (2 ^ 8) with 256.
    rewrite (Z.mul_comm 256), Z.div_add, Z.div_small by lia. apply IH.
Qed.

Lemma be_encode_decode b : be_encode (length b) (be_decode b) = b.
Proof.
  unfold be_encode, be_decode. rewrite <- (length_rev b), le_encode_decode. apply rev_involutive.
Qed.

Lemma be_decode_range b : 0 <= be_decode b < 256 ^ Z.of_nat (length b).
Proof. unfold be_decode. rewrite <- length_rev. apply le_decode_range. Qed.

(** Big-endian numbers of one width are ordered as their encodings. *)
Lemma be_decode_mono a b s t :
  length a = length b -> bytes_ltb (b ++ t) (a ++ s) = false -> be_decode a <= be_decode b.
Proof.
  revert b; induction a as [|x a IH]; intros [|y b]; cbn [length app bytes_ltb]; try done.
  intros [= Hl]. rewrite orb_false_iff, andb_false_iff, Z.ltb_ge, Z.eqb_neq, !be_decode_cons, Hl.
  pose proof (be_decode_range a) as Ra. pose proof (be_decode_range b) as Rb. rewrite Hl in Ra.
  intros [Hle [Hne|Hlt]]; [nia|]. specialize (IH b Hl Hlt). nia.
Qed.

Lemma bytes_ltb_app p a b : bytes_ltb (p ++ a) (p ++ b) = bytes_ltb a b.
Proof. induction p as [|x p IH]; cbn; [done|]. by rewrite Z.ltb_irrefl, Z.eqb_refl. Qed.

(** ** encoding/hex *)

Definition hex_digit (n : Z) : ascii :=
  if n <? 10 then ascii_of_N (Z.to_N (48 + n)) else ascii_of_N (Z.to_N (87 + n)).

(** [hex.EncodeToString]: two lower-case digits per byte. *)
Fixpoint hex (b : bytes) : string :=
  match b with
  | [] => EmptyString
  | x :: b' =>
      String (hex_digit (byte_val x / 16)) (String (hex_digit (byte_val x mod 16)) (hex b'))
  end.

Definition unhex_digit (a : ascii) : option Z :=
  let n := Z.of_N (N_of_ascii a) in
  if (48 <=? n) && (n <=? 57) then Some (n - 48)
  else if (97 <=? n) && (n <=? 102) then Some (n - 87)
  else if (65 <=? n) && (n <=? 70) then Some (n - 55)
  else None.

(** [hex.DecodeString]: fails on an odd length or a digit out of range. *)
Fixpoint unhex (s : string) : option bytes :=
  match s with
  | EmptyString => Some []
  | String a (String b s') =>
      match unhex_digit a, unhex_digit b, unhex s' with
      | Some h, Some l, Some r => Some (byteZ (16 * h + l) :: r)
      | _, _, _ => None
      end
  | String _ EmptyString => None
  end.

Lemma unhex_hex b : unhex (hex b) = Some b.
Proof.
  induction b as [|x b IH]; [done|]. cbn [hex unhex]. rewrite IH.
  by destruct x; vm_compute.
Qed.

#[export] Instance hex_inj : Inj (=) (=) hex.
Proof. intros a b E. apply (f_equal unhex) in E. rewrite !unhex_hex in E. by injection E. Qed.

Lemma str_app a b : str (a +:+ b) = str a ++ str b.
Proof. unfold str, String.list_byte_of_string. induction a as [|x a IH]; cbn; [done|]. exact (f_equal (cons (Ascii.byte_of_ascii x)) IH). Qed.

#[export] Instance str_inj : Inj (=) (=) str.
Proof.
  intros a b E. rewrite <- (String.string_of_list_byte_of_string a), <- (String.string_of_list_byte_of_string b).
  unfold str in E. by rewrite E.
Qed.

(** The text of an encoding contains hexadecimal digits only. *)
Lemma hex_no_colon b : Byte.x3a ∉ str (hex b).
Proof.
  induction b as [|x b IH]; [apply not_elem_of_nil|]. unfold str, String.list_byte_of_string in *. cbn.
  rewrite !not_elem_of_cons. split; [|split; [|done]]; by destruct x; vm_compute.
Qed.

Lemma Forall2_elem_of_l {A B} (P : A -> B -> Prop) l k x :
  Forall2 P l k -> x ∈ l -> exists y, y ∈ k /\ P x y.
Proof.
  induction 1 as [|a b l k Hab H IH]; [by intros ?%not_elem_of_nil|].
  intros [->|Hx]%elem_of_cons; [exists b; split; [left|done]|].
  destruct (IH Hx) as (y & ? & ?). exists y. split; [by right|done].
Qed.

(** Splitting at the first occurrence of a separator. *)
Lemma app_sep_inj {A} (x : A) l1 l2 k1 k2 :
  x ∉ l1 -> x ∉ l2 -> l1 ++ x :: k1 = l2 ++ x :: k2 -> l1 = l2 /\ k1 = k2.
Proof.
  revert l2; induction l1 as [|a l1 IH]; intros [|b l2]; cbn; try (by intros _ _ [= ->]).
  - intros _ H [= -> _]. exfalso. apply H. left.
  - intros H _ [= -> _]. exfalso. apply H. left.
  - intros [? ?]%not_elem_of_cons [? ?]%not_elem_of_cons [= -> E].
    by destruct (IH l2) as [-> ->].
Qed.

(** ** Errors and outcomes

    A Go [error] is either created with a text, wrapped by [fmt.Errorf] with
    [%w], or comes from code outside the repository.  An operation ends with a
    result, an error, or a run-time panic. *)
Inductive error :=
  | ErrText (text : string)
  | ErrWrap (context : string) (inner : error)
  | ErrExt (origin : string).

#[export] Instance error_eq_dec : EqDecision error.
Proof. solve_decision. Defined.

(** [errors.Is]. *)
Fixpoint errors_Is (e target : error) : bool :=
  bool_decide (e = target) ||
  match e with ErrWrap _ e' => errors_Is e' target | _ => false end.

Inductive outcome (A : Type) :=
  | Ok (a : A)
  | Err (e : error)
  | Panic.
Arguments Ok {A} a.
Arguments Err {A} e.
Arguments Panic {A}.

#[export] Instance outcome_ret : MRet outcome := @Ok.
#[export] Instance outcome_bind : MBind outcome := fun A B k m =>
  match m with Ok a => k a | Err e => Err e | Panic => Panic end.

Definition is_Ok {A} (o : outcome A) : bool := match o with Ok _ => true | _ => false end.

(** [if err != nil { return ..., fmt.Errorf("ctx: %w", err) }] *)
Definition wrapErr {A} (ctx : string) (m : outcome A) : outcome A :=
  match m with Err e => Err (ErrWrap ctx e) | _ => m end.

(** A call to code outside the repository that may fail. *)
Definition ext {A} (origin : string) (o : option A) : outcome A :=
  match o with Some a => Ok a | None => Err (ErrExt origin) end.

(** A call that succeeded went through: [outcome_split] splits a hypothesis
    [x ← m; k x = Ok b] into the successes of its parts, [outcome_inv] simplifies them, and [outcome_simpl]
    replays them in the goal. *)
Lemma outcome_bind_Ok {A B} (m : outcome A) (k : A -> outcome B) b :
  (x ← m; k x) = Ok b <-> exists a, m = Ok a /\ k a = Ok b.
Proof. destruct m; cbn; split; [eauto| |done| |done|]; intros (? & [=] & ?); by subst. Qed.

Lemma wrapErr_Ok {A} ctx (m : outcome A) a : wrapErr ctx m = Ok a <-> m = Ok a.
Proof. by destruct m. Qed.

Lemma ext_Ok {A} origin (o : option A) a : ext origin o = Ok a <-> o = Some a.
Proof. destruct o; cbn; split; intros [=]; by subst. Qed.

Lemma outcome_ret_Ok {A} (a b : A) : mret a = Ok b <-> a = b.
Proof. split; [by intros [= ->] | by intros ->]. Qed.

Ltac outcome_split :=
  repeat match goal with
  | H : mbind _ _ = Ok _ |- _ => apply (proj1 (outcome_bind_Ok _ _ _)) in H as (? & ? & H); cbv beta in H
  | H : wrapErr _ _ = Ok _ |- _ => apply (proj1 (wrapErr_Ok _ _ _)) in H
  | H : ext _ _ = Ok _ |- _ => apply (proj1 (ext_Ok _ _ _)) in H
  | H : mret _ = Ok _ |- _ => apply (proj1 (outcome_ret_Ok _ _)) in H
  | H : Ok _ = Ok _ |- _ => apply (proj1 (outcome_ret_Ok _ _)) in H
  | H : Err _ = Ok _ |- _ => discriminate H
  | H : Panic = Ok _ |- _ => discriminate H
  end.
Ltac outcome_inv := outcome_split; simplify_eq/=.

Ltac outcome_simpl :=
  repeat (match goal with H : _ = Ok _ |- _ => rewrite H | H : _ = Some _ |- _ => rewrite H end;
          cbn [mbind mret outcome_bind outcome_ret wrapErr ext]).

(** Stateful operations: the state reached is kept also when the operation
    returns an error, as it is in Go. *)
Definition GoM (S A : Type) : Type := S -> S * outcome A.

#[export] Instance GoM_ret {S} : MRet (GoM S) := fun A a s => (s, Ok a).
#[export] Instance GoM_bind {S} : MBind (GoM S) := fun A B k m s =>
  match m s with
  | (s', Ok a) => k a s'
  | (s', Err e) => (s', Err e)
  | (s', Panic) => (s', Panic)
  end.

Section GoM.
Context {S : Type}.

Definition get : GoM S S := fun s => (s, Ok s).
Definition put (s' : S) : GoM S unit := fun _ => (s', Ok tt).
Definition modify (f : S -> S) : GoM S unit := fun s => (f s, Ok tt).
Definition throw {A} (e : error) : GoM S A := fun s => (s, Err e).
Definition panic {A} : GoM S A := fun s => (s, Panic).
Definition lift {A} (o : outcome A) : GoM S A := fun s => (s, o).
Definition wrap {A} (ctx : string) (m : GoM S A) : GoM S A := fun s =>
  match m s with (s', r) => (s', wrapErr ctx r) end.
(** [if !cond { return err }] *)
Definition ensure (cond : bool) (e : error) : GoM S unit :=
  if cond then mret tt else throw e.
End GoM.

Lemma bind_Ok {S A B} (m : GoM S A) (k : A -> GoM S B) s s' a :
  m s = (s', Ok a) -> (x ← m; k x) s = k a s'.
Proof. intros H. unfold mbind, GoM_bind. by rewrite H. Qed.

Lemma bind_Err {S A B} (m : GoM S A) (k : A -> GoM S B) s s' e :
  m s = (s', Err e) -> (x ← m; k x) s = (s', Err e).
Proof. intros H. unfold mbind, GoM_bind. by rewrite H. Qed.

Lemma bind_Panic {S A B} (m : GoM S A) (k : A -> GoM S B) s s' :
  m s = (s', Panic) -> (x ← m; k x) s = (s', Panic).
Proof. intros H. unfold mbind, GoM_bind. by rewrite H. Qed.

(** The state and the outcome of a run. *)
Lemma run_pair {S A} (m : GoM S A) s r : (m s).2 = r -> m s = ((m s).1, r).
Proof. intros <-. apply surjective_pairing. Qed.

(** [go_run] runs the monadic operations of the goal as far as their outcomes
    are known. *)
Ltac go_run :=
  repeat progress (cbv beta iota delta
    [mbind mret GoM_bind GoM_ret outcome_bind outcome_ret get put modify throw panic lift wrap
     ensure wrapErr ext]; cbn).

(** Running an operation of a component inside a larger state. *)
Definition zoom {S T A} (g : S -> T) (p : T -> S -> S) (m : GoM T A) : GoM S A := fun s =>
  match m (g s) with (t, r) => (p t s, r) end.

(** ** Field update

    [r <| f := v |>] is the record [r] with field [f] set to [v]; a record
    type takes part by declaring its expansion into a constructor applied to
    its own projections. *)
Class Eta (R : Type) := eta : R -> R.
#[global] Hint Mode Eta ! : typeclass_instances.

Class Setter {R T : Type} (p : R -> T) := set_field : T -> R -> R.

Ltac solve_setter p :=
  lazymatch type of p with
  | ?R -> ?T =>
      let e := constr:(_ : Eta R) in
      let e := eval hnf in e in
      exact (fun (v : T) (r : R) =>
        ltac:(let t := eval cbv beta in (e r) in
              lazymatch (eval pattern (p r) in t) with
              | ?F _ => let t' := eval cbv beta in (F v) in exact t'
              end))
  end.

#[export] Hint Extern 0 (Setter ?p) => solve_setter p : typeclass_instances.

Notation "r <| f := v |>" := (set_field (p := f) v r)
  (at level 12, left associativity, f at next level, v at level 99).
