(* ===== verification/Primitives.v ===== *)
(** * Cryptographic primitives

    The algorithms the sources call but do not contain: X25519, HKDF-SHA256,
    HMAC-SHA256, SHA-256, the two ChaCha20-Poly1305 AEADs and Ed25519.
    [Primitives] lists the functions, [PrimitiveLaws] the documented facts the
    theorems rely on (lengths, Diffie-Hellman agreement, opening what was
    sealed, verifying what was signed).  No secrecy, unforgeability or
    collision resistance is assumed anywhere.  [toy] is a small computable
    implementation that satisfies the laws; the concrete examples of the
    development run on it. *)
From S2P Require Import Prelude.

Class Primitives := {
  (** [curve25519.X25519 scalar point]; [None] is its error return. *)
  x25519 : bytes -> bytes -> option bytes;
  (** Reading [n] bytes from [hkdf.New(sha256.New, secret, salt, info)]. *)
  hkdf : bytes -> bytes -> bytes -> nat -> option bytes;
  hmac_raw : bytes -> bytes -> bytes;
  sha256 : bytes -> bytes;
  (** [Seal]/[Open] of [chacha20poly1305.New(key)] (12-byte nonces). *)
  seal : bytes -> bytes -> bytes -> bytes -> bytes;
  open : bytes -> bytes -> bytes -> bytes -> option bytes;
  (** [Seal]/[Open] of [chacha20poly1305.NewX(key)] (24-byte nonces). *)
  sealX : bytes -> bytes -> bytes -> bytes -> bytes;
  openX : bytes -> bytes -> bytes -> bytes -> option bytes;
  (** Ed25519 (RFC 8032): public key of a 32-byte seed, signature, check. *)
  ed_pub : bytes -> bytes;
  ed_sign : bytes -> bytes -> bytes;
  ed_verify : bytes -> bytes -> bytes -> bool;
}.

(** [curve25519.Basepoint]: the u-coordinate 9. *)
Definition Basepoint : bytes := Byte.x09 :: zeros 31.

Class PrimitiveLaws (P : Primitives) : Prop := {
  x25519_length k u s : x25519 k u = Some s -> length s = 32%nat;
  x25519_base k : length k = 32%nat -> is_Some (x25519 k Basepoint);
  x25519_honest a b B :
    length a = 32%nat -> length b = 32%nat -> x25519 b Basepoint = Some B ->
    is_Some (x25519 a B);
  x25519_agree a b A B :
    x25519 a Basepoint = Some A -> x25519 b Basepoint = Some B ->
    x25519 a B = x25519 b A;
  hkdf_length s t i n : Z.of_nat n <= 8160 ->
    exists o, hkdf s t i n = Some o /\ length o = n;
  hmac_length k d : length (hmac_raw k d) = 32%nat;
  sha256_length d : length (sha256 d) = 32%nat;
  open_seal k n p ad :
    length k = 32%nat -> length n = 12%nat -> open k n (seal k n p ad) ad = Some p;
  openX_sealX k n p ad :
    length k = 32%nat -> length n = 24%nat -> openX k n (sealX k n p ad) ad = Some p;
  sealX_length k n p ad : length (sealX k n p ad) = (length p + 16)%nat;
  ed_pub_length s : length s = 32%nat -> length (ed_pub s) = 32%nat;
  ed_sign_length k m : length (ed_sign k m) = 64%nat;
  ed_verify_sign s m :
    length s = 32%nat -> ed_verify (ed_pub s) m (ed_sign (s ++ ed_pub s) m) = true;
}.

(** ** The standard library's [crypto/ed25519] *)
Section Ed25519.
Context `{P : Primitives}.

(** [ed25519.Sign] panics unless the private key has 64 bytes. *)
Definition ed25519_Sign (priv msg : bytes) : outcome bytes :=
  if (length priv =? 64)%nat then Ok (ed_sign priv msg) else Panic.

(** [ed25519.Verify] panics unless the public key has 32 bytes; a signature
    of the wrong length is just invalid. *)
Definition ed25519_Verify (pub msg sig : bytes) : outcome bool :=
  if (length pub =? 32)%nat
  then Ok ((length sig =? 64)%nat && ed_verify pub msg sig)
  else Panic.

(** [priv.Public()]. *)
Definition ed25519_Public (priv : bytes) : bytes := drop 32 priv.

(** [ed25519.GenerateKey] on the 32 random bytes it reads. *)
Definition ed25519_GenerateKey (rnd : option bytes) : outcome (bytes * bytes) :=
  seed ← ext "rand.Reader" rnd;
  mret (ed_pub seed, seed ++ ed_pub seed).

(** [priv] is a key pair's private half and [pub] its public half. *)
Definition ed_keypair (pub priv : bytes) : Prop :=
  exists seed, length seed = 32%nat /\ pub = ed_pub seed /\ priv = seed ++ ed_pub seed.

Context `{!PrimitiveLaws P}.

Lemma ed_keypair_lengths pub priv :
  ed_keypair pub priv -> length pub = 32%nat /\ length priv = 64%nat.
Proof.
  intros (seed & Hl & -> & ->). rewrite length_app, ed_pub_length, Hl by done. lia.
Qed.

Lemma ed25519_Sign_Ok pub priv m :
  ed_keypair pub priv -> ed25519_Sign priv m = Ok (ed_sign priv m).
Proof. intros H. unfold ed25519_Sign. by rewrite (proj2 (ed_keypair_lengths _ _ H)). Qed.

Lemma ed25519_Verify_Sign pub priv m :
  ed_keypair pub priv -> ed25519_Verify pub m (ed_sign priv m) = Ok true.
Proof.
  intros H. unfold ed25519_Verify.
  rewrite (proj1 (ed_keypair_lengths _ _ H)), ed_sign_length. simpl.
  destruct H as (seed & Hl & -> & ->). by rewrite ed_verify_sign.
Qed.
End Ed25519.

(** ** A computable implementation *)
Module Toy.
Definition hash (b : bytes) : bytes :=
  le_encode 4 (fold_left (fun h x => Z.land (h * 33 + byte_val x + 1) 4294967295) b 1) ++ zeros 28.

Fixpoint blocks (n : nat) (seed : bytes) : bytes :=
  match n with
  | O => []
  | S n' => let h := hash seed in h ++ blocks n' h
  end.

Definition xor_bytes (a b : bytes) : bytes :=
  zip_with (fun x y => byteZ (Z.lxor (byte_val x) (byte_val y))) a b.

Definition dh (k u : bytes) : option bytes :=
  if (length k =? 32)%nat && (length u =? 32)%nat then Some (xor_bytes k u) else None.

Definition expand (s t i : bytes) (n : nat) : option bytes :=
  if Z.of_nat n <=? 8160 then Some (take n (blocks (S (n / 32)) (t ++ s ++ i))) else None.

Definition tag (k n p ad : bytes) : bytes := take 16 (hash (k ++ n ++ p ++ ad)).

Definition toy_seal (k n p ad : bytes) : bytes := p ++ tag k n p ad.

Definition toy_open (k n c ad : bytes) : option bytes :=
  let p := take (length c - 16) c in
  if decide (drop (length c - 16) c = tag k n p ad) then Some p else None.

Definition sign (priv m : bytes) : bytes := hash (drop 32 priv ++ m) ++ zeros 32.

Definition verify (pub m s : bytes) : bool :=
  bool_decide (s = hash (pub ++ m) ++ zeros 32).

Lemma hash_length b : length (hash b) = 32%nat.
Proof. unfold hash. by rewrite length_app, le_encode_length. Qed.

Lemma blocks_length n s : length (blocks n s) = (32 * n)%nat.
Proof.
  revert s; induction n as [|n IH]; intros s; [done|].
  cbn [blocks]. rewrite length_app, IH, hash_length. lia.
Qed.

Lemma open_seal k n p ad : toy_open k n (toy_seal k n p ad) ad = Some p.
Proof.
  unfold toy_open, toy_seal.
  assert (length (tag k n p ad) = 16%nat) as Hl.
  { unfold tag. by rewrite length_take, hash_length. }
  rewrite length_app, Hl, Nat.add_sub, take_app_length, drop_app_length.
  by rewrite decide_True.
Qed.

Lemma xor_length a b : length a = length b -> length (xor_bytes a b) = length a.
Proof. intros H. unfold xor_bytes. rewrite length_zip_with_l_eq; lia. Qed.
End Toy.

#[export] Instance toy : Primitives := {|
  x25519 := Toy.dh;
  hkdf := Toy.expand;
  hmac_raw := fun k d => Toy.hash (k ++ Byte.x5c :: d);
  sha256 := Toy.hash;
  seal := Toy.toy_seal; open := Toy.toy_open;
  sealX := Toy.toy_seal; openX := Toy.toy_open;
  ed_pub := Toy.hash; ed_sign := Toy.sign; ed_verify := Toy.verify;
|}.

Lemma toy_xor_byte x y z :
  byteZ (Z.lxor (byte_val x) (byte_val (byteZ (Z.lxor (byte_val y) (byte_val z))))) =
  byteZ (Z.lxor (byte_val y) (byte_val (byteZ (Z.lxor (byte_val x) (byte_val z))))).
Proof.
  assert (forall a, Z.land (byte_val a) 255 = byte_val a) as H1 by by intros [].
  assert (forall a b, Z.land (Z.lxor (byte_val a) (byte_val b)) 255 =
                      Z.lxor (byte_val a) (byte_val b)) as H2.
  { intros a b. rewrite <- (H1 a), <- (H1 b) at 2. apply Z.bits_inj'. intros n Hn.
    rewrite !Z.land_spec, !Z.lxor_spec, !Z.land_spec. by destruct (Z.testbit (byte_val a) n), (Z.testbit (byte_val b) n), (Z.testbit 255 n). }
  rewrite !byte_val_byteZ, !H2, <- !Z.lxor_assoc. do 2 f_equal. apply Z.lxor_comm.
Qed.

Lemma toy_xor_swap a b c :
  Toy.xor_bytes a (Toy.xor_bytes b c) = Toy.xor_bytes b (Toy.xor_bytes a c).
Proof.
  unfold Toy.xor_bytes. revert b c; induction a as [|x a IH]; intros [|y b] [|z c]; simpl; try done.
  f_equal; [apply toy_xor_byte | apply IH].
Qed.

Lemma toy_dh_Some a b :
  length a = 32%nat -> length b = 32%nat -> Toy.dh a b = Some (Toy.xor_bytes a b).
Proof. intros Ha Hb. unfold Toy.dh. by rewrite Ha, Hb. Qed.

Lemma toy_dh_inv a b s :
  Toy.dh a b = Some s ->
  length a = 32%nat /\ length b = 32%nat /\ s = Toy.xor_bytes a b.
Proof.
  unfold Toy.dh. destruct (length a =? 32)%nat eqn:Ea, (length b =? 32)%nat eqn:Eb; try done.
  apply Nat.eqb_eq in Ea, Eb. intros H. by injection H as <-.
Qed.

#[export] Instance toy_laws : PrimitiveLaws toy.
Proof.
  split; cbn -[Toy.hash].
  - intros k u s (Hk & Hu & ->)%toy_dh_inv. rewrite Toy.xor_length; congruence.
  - intros k Hk. by rewrite toy_dh_Some.
  - intros a b B Ha Hb (_ & H9 & ->)%toy_dh_inv.
    rewrite toy_dh_Some; [done..|]. rewrite Toy.xor_length; congruence.
  - intros a b A B (Ha & H9 & ->)%toy_dh_inv (Hb & _ & ->)%toy_dh_inv.
    rewrite !toy_dh_Some by (rewrite ?Toy.xor_length; congruence).
    f_equal. apply toy_xor_swap.
  - intros s t i n Hn. unfold Toy.expand. rewrite (proj2 (Z.leb_le _ _) Hn).
    eexists; split; [done|]. rewrite length_take, Toy.blocks_length.
    pose proof (Nat.div_mod_eq n 32). pose proof (Nat.mod_upper_bound n 32). lia.
  - intros k d. apply Toy.hash_length.
  - intros d. apply Toy.hash_length.
  - intros. apply Toy.open_seal.
  - intros. apply Toy.open_seal.
  - intros. unfold Toy.toy_seal, Toy.tag. by rewrite length_app, length_take, Toy.hash_length.
  - intros s _. apply Toy.hash_length.
  - intros k m. unfold Toy.sign. by rewrite length_app, Toy.hash_length.
  - intros s m Hs. unfold Toy.verify, Toy.sign. apply bool_decide_eq_true.
    by rewrite drop_app_length' by done.
Qed.
