(* ===== verification/Crypto.v ===== *)
(** * pkg/crypto: the repository's wrappers around the primitives

    One definition per exported function of [src/pkg/crypto/crypto.go] and
    [sign.go].  Randomness is an argument: [Some b] when [rand.Reader] filled
    the buffer with [b], [None] when reading failed.  The context of a wrapped
    error is the format string of the [fmt.Errorf] call, without its numbers. *)
From S2P Require Import Prelude Primitives.

Definition NonceSize : nat := 24.
Definition KeySize : nat := 32.
Definition SharedSecretSize : nat := 32.
Definition SignatureSize : nat := 64.

Definition ErrDecryptionFailed : error := ErrText "decryption failed".
Definition ErrInvalidKeySize : error := ErrText "invalid key size".
Definition ErrInvalidNonceSize : error := ErrText "invalid nonce size".
Definition ErrInvalidPrivateKey : error := ErrText "invalid private key".

(** [if len(b) != n { return err }] *)
Definition check_len (b : bytes) (n : nat) (e : error) : outcome unit :=
  if (length b =? n)%nat then mret tt else Err e.

Lemma check_len_ok b n e : length b = n -> check_len b n e = Ok tt.
Proof. intros <-. unfold check_len. by rewrite Nat.eqb_refl. Qed.

Lemma check_len_err b n e : length b <> n -> check_len b n e = Err e.
Proof. intros H. unfold check_len. by rewrite (proj2 (Nat.eqb_neq _ _) H). Qed.

Lemma check_len_inv b n e u : check_len b n e = Ok u -> length b = n.
Proof. unfold check_len. destruct (length b =? n)%nat eqn:E; [|done]. by intros _; apply Nat.eqb_eq. Qed.

Section Crypto.
Context `{P : Primitives}.

Definition ComputeSharedSecret (privKey pubKey : bytes) : outcome bytes :=
  _ ← check_len privKey SharedSecretSize (ErrText "private key must be %d bytes, got %d");
  _ ← check_len pubKey SharedSecretSize (ErrText "public key must be %d bytes, got %d");
  wrapErr "X25519 key agreement failed" (ext "curve25519.X25519" (x25519 privKey pubKey)).

Definition GenerateNonce (rnd : option bytes) : outcome bytes :=
  wrapErr "failed to generate nonce" (ext "rand.Reader" rnd).

Definition Encrypt (key nonce plaintext : bytes) : outcome bytes :=
  _ ← check_len key KeySize (ErrWrap "key must be %d bytes, got %d" ErrInvalidKeySize);
  _ ← check_len nonce NonceSize (ErrWrap "nonce must be %d bytes, got %d" ErrInvalidNonceSize);
  mret (sealX key nonce plaintext []).

Definition Decrypt (key nonce ciphertext : bytes) : outcome bytes :=
  _ ← check_len key KeySize (ErrWrap "key must be %d bytes, got %d" ErrInvalidKeySize);
  _ ← check_len nonce NonceSize (ErrWrap "nonce must be %d bytes, got %d" ErrInvalidNonceSize);
  match openX key nonce ciphertext [] with
  | Some plaintext => mret plaintext
  | None => Err (ErrWrap "%w: %v" ErrDecryptionFailed)
  end.

(** A non-positive length is refused; [io.ReadFull] fails when more than
    [255 * 32] bytes are asked for. *)
Definition DeriveKey (ikm salt info : bytes) (len : Z) : outcome bytes :=
  if len <=? 0 then Err (ErrText "key length must be positive")
  else wrapErr "failed to derive key" (ext "hkdf" (hkdf ikm salt info (Z.to_nat len))).

Definition GenerateKey (rnd : option bytes) : outcome bytes :=
  wrapErr "failed to generate key" (ext "rand.Reader" rnd).

(** Returns the public key first. *)
Definition GenerateX25519KeyPair (rnd : option bytes) : outcome (bytes * bytes) :=
  privKey ← wrapErr "failed to generate private key" (ext "rand.Reader" rnd);
  result ← wrapErr "failed to compute public key" (ext "curve25519.X25519" (x25519 privKey Basepoint));
  mret (result, privKey).

Definition EncryptWithSharedSecret (rnd : option bytes) (sharedSecret plaintext : bytes)
    : outcome (bytes * bytes) :=
  _ ← check_len sharedSecret SharedSecretSize (ErrText "shared secret must be %d bytes");
  key ← wrapErr "failed to derive encryption key" (DeriveKey sharedSecret [] (str "encryption") 32);
  nonce ← GenerateNonce rnd;
  ciphertext ← Encrypt key nonce plaintext;
  mret (nonce, ciphertext).

Definition DecryptWithSharedSecret (sharedSecret nonce ciphertext : bytes) : outcome bytes :=
  _ ← check_len sharedSecret SharedSecretSize (ErrText "shared secret must be %d bytes");
  key ← wrapErr "failed to derive encryption key" (DeriveKey sharedSecret [] (str "encryption") 32);
  Decrypt key nonce ciphertext.

Definition Sign (privKey message : bytes) : outcome bytes :=
  _ ← check_len privKey 64 (ErrWrap "%w: expected %d bytes, got %d" ErrInvalidPrivateKey);
  ed25519_Sign privKey message.

(** Unlike [ed25519.Verify], never panics. *)
Definition Verify (pubKey message signature : bytes) : bool :=
  if negb (length pubKey =? 32)%nat then false
  else if negb (length signature =? SignatureSize)%nat then false
  else ed_verify pubKey message signature.

Definition ValidatePublicKey (pubKey : bytes) : bool := (length pubKey =? 32)%nat.

Definition ValidatePrivateKey (privKey : bytes) : bool :=
  if negb (length privKey =? 64)%nat then false
  else match Sign privKey (str "test") with
       | Ok signature => Verify (ed25519_Public privKey) (str "test") signature
       | _ => false
       end.

Definition SignAndEncode (privKey message : bytes) : outcome string :=
  signature ← Sign privKey message;
  mret (hex signature).

(** [fmt.Sscanf] of two characters with ["%02x"] into a byte: blanks are skipped,
    and what comes after the digits is not looked at. *)
Definition sscanf_byte (a b : ascii) : option Z :=
  match unhex_digit a, unhex_digit b with
  | Some h, Some l => Some (16 * h + l)
  | Some h, None => Some h
  | None, l => if bool_decide (a ∈ [" "; "009"; "011"; "012"; "013"]%char) then l else None
  end.

Fixpoint scan_pairs (s : string) : outcome bytes :=
  match s with
  | String a (String b s') =>
      match sscanf_byte a b with
      | Some z => result ← scan_pairs s'; mret (byteZ z :: result)
      | None => Err (ErrExt "fmt.Sscanf")
      end
  | _ => mret []
  end.

Definition hexDecode (s : string) : outcome bytes :=
  if negb (Nat.even (String.length s)) then Err (ErrText "odd length hex string") else scan_pairs s.

Definition VerifyAndDecode (pubKey message : bytes) (signatureHex : string) : bool :=
  match hexDecode signatureHex with
  | Ok signature => Verify pubKey message signature
  | _ => false
  end.

(** The seed is what [ed25519.GenerateKey] reads from [rand.Reader]. *)
Definition GenerateEd25519KeyPair (rnd : option bytes) : outcome (bytes * bytes) :=
  wrapErr "failed to generate Ed25519 key pair" (ext "rand.Reader" (seed ← rnd; Some (ed_pub seed, seed ++ ed_pub seed))).

Definition RandomBytes (rnd : option bytes) (len : Z) : outcome bytes :=
  if len <=? 0 then Err (ErrText "length must be positive")
  else wrapErr "failed to generate random bytes" (ext "rand.Reader" rnd).

(** ** Lemmas the other components use *)
Context `{!PrimitiveLaws P}.

Lemma DeriveKey_32 ikm salt info :
  exists key, DeriveKey ikm salt info 32 = Ok key /\ length key = 32%nat.
Proof.
  unfold DeriveKey. change (32 <=? 0) with false. cbv iota.
  destruct (hkdf_length ikm salt info (Z.to_nat 32)) as (o & -> & Ho); [lia|].
  exists o. split; [done|]. lia.
Qed.

Lemma Encrypt_Ok key nonce p :
  length key = 32%nat -> length nonce = 24%nat -> Encrypt key nonce p = Ok (sealX key nonce p []).
Proof. intros Hk Hn. unfold Encrypt. by rewrite !check_len_ok. Qed.

(** The nonce check is the second one: whatever the key, a nonce of a length
    other than 24 makes [Encrypt] and [Decrypt] fail. *)
Lemma Encrypt_bad_nonce key nonce p : length nonce <> NonceSize -> is_Ok (Encrypt key nonce p) = false.
Proof.
  intros H. unfold Encrypt. destruct (check_len key _ _); [|done..].
  cbn. by rewrite check_len_err.
Qed.

Lemma Decrypt_bad_nonce key nonce c : length nonce <> NonceSize -> is_Ok (Decrypt key nonce c) = false.
Proof.
  intros H. unfold Decrypt. destruct (check_len key _ _); [|done..].
  cbn. by rewrite check_len_err.
Qed.

Lemma Decrypt_Encrypt key nonce p c : Encrypt key nonce p = Ok c -> Decrypt key nonce c = Ok p.
Proof.
  unfold Encrypt, Decrypt. intros H. outcome_inv. outcome_simpl.
  rewrite openX_sealX; [done|by eapply check_len_inv..].
Qed.

Lemma Sign_Ok pub priv m : ed_keypair pub priv -> exists s, Sign priv m = Ok s.
Proof.
  intros Hkp. unfold Sign. rewrite check_len_ok by apply (ed_keypair_lengths _ _ Hkp).
  eexists. cbn. by rewrite (ed25519_Sign_Ok _ _ _ Hkp).
Qed.

Lemma Verify_Sign pub priv m s : ed_keypair pub priv -> Sign priv m = Ok s -> Verify pub m s = true.
Proof.
  intros Hkp. pose proof (ed_keypair_lengths _ _ Hkp) as [Hp Hs].
  unfold Sign. rewrite check_len_ok by done. cbn. rewrite (ed25519_Sign_Ok _ _ _ Hkp).
  intros H. injection H as <-. unfold Verify. rewrite Hp, ed_sign_length. cbn.
  destruct Hkp as (seed & ? & -> & ->). by rewrite ed_verify_sign.
Qed.

(** Sealing with a shared secret and opening with the same secret gives
    the plaintext back: both sides derive the same key from the secret, and
    the nonce travels with the ciphertext. *)
Theorem shared_secret_roundtrip rnd secret p nonce c :
  EncryptWithSharedSecret rnd secret p = Ok (nonce, c) ->
  DecryptWithSharedSecret secret nonce c = Ok p.
Proof.
  unfold EncryptWithSharedSecret, DecryptWithSharedSecret. intros H. outcome_inv.
  outcome_simpl. by apply Decrypt_Encrypt.
Qed.

Lemma scan_pairs_hex b : scan_pairs (hex b) = Ok b.
Proof.
  induction b as [|x b IH]; [done|]. cbn [hex scan_pairs]. rewrite IH.
  by destruct x; vm_compute.
Qed.

Lemma hexDecode_hex b : hexDecode (hex b) = Ok b.
Proof.
  unfold hexDecode. assert (Nat.even (String.length (hex b)) = true) as ->.
  { induction b as [|x b IH]; [done|exact IH]. }
  apply scan_pairs_hex.
Qed.

(** A signature made with a generated key verifies in its hexadecimal form. *)
Lemma VerifyAndDecode_SignAndEncode rnd pub priv m t :
  length rnd = 32%nat -> GenerateEd25519KeyPair (Some rnd) = Ok (pub, priv) ->
  SignAndEncode priv m = Ok t -> VerifyAndDecode pub m t = true.
Proof.
  intros Hl [= <- <-]. unfold SignAndEncode. destruct (Sign _ m) as [s| |] eqn:HS; [|done..].
  intros [= <-]. unfold VerifyAndDecode. rewrite hexDecode_hex.
  eapply Verify_Sign, HS. by exists rnd.
Qed.

(** [hexDecode] reads texts [hex.DecodeString] refuses: one digit and anything. *)
Lemma hexDecode_lenient : hexDecode "5 z5f" = Err (ErrText "odd length hex string") /\
  hexDecode "5 fz" = Ok [Byte.x05; Byte.x0f] /\ hexDecode " 5" = Ok [Byte.x05] /\ unhex "5 fz" = None.
Proof. by vm_compute. Qed.

(** [ValidatePrivateKey] accepts every generated private key. *)
Lemma ValidatePrivateKey_generated pub priv : ed_keypair pub priv -> ValidatePrivateKey priv = true.
Proof.
  intros Hkp. pose proof (ed_keypair_lengths _ _ Hkp) as [_ Hl].
  unfold ValidatePrivateKey. rewrite Hl, Nat.eqb_refl. cbn [negb].
  destruct (Sign_Ok _ _ (str "test") Hkp) as (s & HS). rewrite HS.
  assert (ed25519_Public priv = pub) as ->.
  { destruct Hkp as (seed & ? & -> & ->). unfold ed25519_Public. by rewrite drop_app_length'. }
  by eapply Verify_Sign.
Qed.
End Crypto.

Lemma shared_secret_roundtrip_witness :
  exists nonce c,
    EncryptWithSharedSecret (P := toy) (Some (zeros 24)) (le_encode 32 77) (str "hello") = Ok (nonce, c) /\
    DecryptWithSharedSecret (P := toy) (le_encode 32 77) nonce c = Ok (str "hello").
Proof.
  eexists _, _. split; [vm_compute; reflexivity|].
  apply (shared_secret_roundtrip (P := toy) (Some (zeros 24))). vm_compute. reflexivity.
Defined.
