(* ===== verification/X3DH.v ===== *)
(** * pkg/ratchet/x3dh.go: key agreement and key derivation

    [X3DHInitiator] and [X3DHResponder], the two chain KDFs, the nonce
    derivation and X25519 key generation.  The 32 random bytes a key pair is
    generated from are an argument.  The wiping of local temporaries
    ([zeroBytes] on buffers that are not read again) is not observable and is
    left out here; wiping of memory that stays reachable is in [Ratchet]. *)
From S2P Require Import Prelude Primitives.

Definition CipherSuiteXChaCha20Poly1305 : Z := 1.
Definition KeySize32 : nat := 32.
Definition MaxSkippedKeys : nat := 256.

Record X3DHResult := mkX3DHResult {
  SharedSecret : bytes;
  AuthenticatedData : bytes;
  UsedOPKID : Z;
  CipherSuite : Z;
  EphemeralPub : option bytes;
}.

Section X3DH.
Context `{P : Primitives}.

Definition generateX25519KeyPair (rnd : option bytes) : outcome (bytes * bytes) :=
  priv ← wrapErr "failed to generate random seed" (ext "rand.Reader" rnd);
  result ← wrapErr "X25519 derivation failed" (ext "curve25519.X25519" (x25519 priv Basepoint));
  mret (priv, result).

Definition hmacSHA256 (key data : bytes) : bytes := hmac_raw key data.

(** Root key KDF; the fall-back is the dead branch of the code. *)
Definition KDF_RK (rootKey dhOutput : bytes) : bytes * bytes :=
  match hkdf dhOutput rootKey (str "BabylonTowerRatchet") 64 with
  | None => (zeros 32, zeros 32)
  | Some output => (take 32 output, take 32 (drop 32 output))
  end.

(** Chain key KDF: (new chain key, message key). *)
Definition KDF_CK (chainKey : bytes) : bytes * bytes :=
  (hmacSHA256 chainKey [Byte.x01], hmacSHA256 chainKey [Byte.x02]).

Definition DeriveNonce (messageKey : bytes) (counter : Z) : outcome bytes :=
  let counterBytes := le_encode 4 counter in
  wrapErr "failed to derive nonce" (ext "hkdf" (hkdf messageKey (str "nonce") counterBytes 12)).

Definition x3dh_info (initiatorIK responderIK : bytes) : bytes :=
  (str "BabylonTowerX3DH" ++ initiatorIK) ++ responderIK.

Definition dh_step (name : string) (k u : bytes) : outcome bytes :=
  wrapErr name (ext "curve25519.X25519" (x25519 k u)).

Definition X3DHInitiator (rnd : option bytes)
    (localIKDHPriv localIKDHPub remoteIKDHPub remoteSPKPub : bytes)
    (remoteOPKPub : option bytes) : outcome X3DHResult :=
  '(ekPriv, ekPub) ← wrapErr "failed to generate ephemeral key" (generateX25519KeyPair rnd);
  dh1 ← dh_step "DH1 computation failed" localIKDHPriv remoteSPKPub;
  dh2 ← dh_step "DH2 computation failed" ekPriv remoteIKDHPub;
  dh3 ← dh_step "DH3 computation failed" ekPriv remoteSPKPub;
  dh4 ← match remoteOPKPub with
        | Some opk => dh_step "DH4 computation failed" ekPriv opk
        | None => mret []
        end;
  let input := match remoteOPKPub with
               | Some _ => ((dh1 ++ dh2) ++ dh3) ++ dh4
               | None => (dh1 ++ dh2) ++ dh3
               end in
  let info := x3dh_info localIKDHPub remoteIKDHPub in
  sk ← wrapErr "failed to derive shared secret" (ext "hkdf" (hkdf input (zeros KeySize32) info KeySize32));
  let ad := localIKDHPub ++ remoteIKDHPub in
  mret (mkX3DHResult sk ad 0 CipherSuiteXChaCha20Poly1305 (Some ekPub)).

Definition X3DHResponder
    (localIKDHPriv localIKDHPub localSPKPriv : bytes) (localOPKPriv : option bytes)
    (remoteIKDHPub ekPub : bytes) : outcome X3DHResult :=
  dh1 ← dh_step "DH1 computation failed" localSPKPriv remoteIKDHPub;
  dh2 ← dh_step "DH2 computation failed" localIKDHPriv ekPub;
  dh3 ← dh_step "DH3 computation failed" localSPKPriv ekPub;
  dh4 ← match localOPKPriv with
        | Some opk => dh_step "DH4 computation failed" opk ekPub
        | None => mret []
        end;
  let input := match localOPKPriv with
               | Some _ => ((dh1 ++ dh2) ++ dh3) ++ dh4
               | None => (dh1 ++ dh2) ++ dh3
               end in
  let info := x3dh_info remoteIKDHPub localIKDHPub in
  sk ← wrapErr "failed to derive shared secret" (ext "hkdf" (hkdf input (zeros KeySize32) info KeySize32));
  let ad := remoteIKDHPub ++ localIKDHPub in
  mret (mkX3DHResult sk ad 0 CipherSuiteXChaCha20Poly1305 None).

#[global] Arguments x3dh_info : simpl never.

(** [priv] is 32 bytes and [pub] its X25519 public key. *)
Definition dh_keypair (priv pub : bytes) : Prop :=
  length priv = 32%nat /\ x25519 priv Basepoint = Some pub.

Context `{!PrimitiveLaws P}.

Lemma dh_keypair_agree a A b B :
  dh_keypair a A -> dh_keypair b B ->
  exists s, x25519 a B = Some s /\ x25519 b A = Some s.
Proof.
  intros [Ha HA] [Hb HB].
  destruct (x25519_honest a b B Ha Hb HB) as [s Hs]. exists s.
  split; [done|]. by rewrite <- (x25519_agree a b A B).
Qed.

Lemma dh_keypair_exists priv : length priv = 32%nat -> exists pub, dh_keypair priv pub.
Proof. intros Hl. destruct (x25519_base priv Hl) as [pub ?]. by exists pub. Qed.

Lemma generateX25519KeyPair_Ok priv pub :
  dh_keypair priv pub -> generateX25519KeyPair (Some priv) = Ok (priv, pub).
Proof. intros [_ H]. unfold generateX25519KeyPair. cbn. by rewrite H. Qed.

Lemma generateX25519KeyPair_inv rnd priv pub :
  generateX25519KeyPair rnd = Ok (priv, pub) -> rnd = Some priv /\ x25519 priv Basepoint = Some pub.
Proof. unfold generateX25519KeyPair. intros H. outcome_inv. done. Qed.

Lemma KDF_RK_lengths rk d : length (KDF_RK rk d).1 = 32%nat /\ length (KDF_RK rk d).2 = 32%nat.
Proof.
  unfold KDF_RK. destruct (hkdf_length d rk (str "BabylonTowerRatchet") 64) as (o & -> & Ho); [lia|].
  cbn. rewrite !length_take, length_drop. lia.
Qed.

Lemma KDF_CK_length ck : length (KDF_CK ck).2 = 32%nat.
Proof. apply hmac_length. Qed.

Lemma DeriveNonce_Ok mk n : exists nonce, DeriveNonce mk n = Ok nonce /\ length nonce = 12%nat.
Proof.
  unfold DeriveNonce. destruct (hkdf_length mk (str "nonce") (le_encode 4 n) 12) as (o & -> & Ho); [lia|].
  by exists o.
Qed.

(** C4. X3DH key agreement.  When initiator and responder hold the identity,
    signed and (optionally) one-time prekeys of each other, both run to
    completion without error and end with the same 32-byte shared secret and
    the same associated data: the initiator's four Diffie-Hellman values are
    those the responder recomputes from the ephemeral public key. *)
Theorem x3dh_agreement ikA IKA ikB IKB spk SPK (opk : option (bytes * bytes)) ek EK :
  dh_keypair ikA IKA -> dh_keypair ikB IKB -> dh_keypair spk SPK -> dh_keypair ek EK ->
  (forall p q, opk = Some (p, q) -> dh_keypair p q) ->
  exists rA rB,
    X3DHInitiator (Some ek) ikA IKA IKB SPK (snd <$> opk) = Ok rA /\
    X3DHResponder ikB IKB spk (fst <$> opk) IKA EK = Ok rB /\
    EphemeralPub rA = Some EK /\
    length (SharedSecret rA) = 32%nat /\
    SharedSecret rB = SharedSecret rA /\
    AuthenticatedData rB = AuthenticatedData rA.
Proof.
  intros HA HB HS HE HO.
  destruct (dh_keypair_agree _ _ _ _ HA HS) as (d1 & E1 & E1').
  destruct (dh_keypair_agree _ _ _ _ HE HB) as (d2 & E2 & E2').
  destruct (dh_keypair_agree _ _ _ _ HE HS) as (d3 & E3 & E3').
  unfold X3DHInitiator, X3DHResponder, dh_step.
  rewrite (generateX25519KeyPair_Ok _ _ HE). cbn [wrapErr mbind outcome_bind].
  rewrite E1, E1', E2, E2', E3, E3'. cbn [ext wrapErr mbind outcome_bind].
  destruct opk as [[p q]|]; cbn -[KeySize32].
  - destruct (dh_keypair_agree _ _ _ _ HE (HO p q eq_refl)) as (d4 & E4 & E4').
    rewrite E4, E4'. cbn -[KeySize32].
    destruct (hkdf_length (((d1 ++ d2) ++ d3) ++ d4) (zeros KeySize32)
                (x3dh_info IKA IKB) KeySize32) as (o & -> & Ho); [unfold KeySize32; lia|].
    cbn. eauto 10.
  - destruct (hkdf_length ((d1 ++ d2) ++ d3) (zeros KeySize32)
                (x3dh_info IKA IKB) KeySize32) as (o & -> & Ho); [unfold KeySize32; lia|].
    cbn. eauto 10.
Qed.
End X3DH.

(** The agreement at concrete keys, with a one-time prekey. *)
Lemma x3dh_agreement_witness :
  let key n := le_encode 32 n in
  let pub n := Toy.xor_bytes (key n) Basepoint in
  exists rA rB,
    X3DHInitiator (Some (key 7)) (key 1) (pub 1) (pub 2) (pub 3) (Some (pub 4)) = Ok rA /\
    X3DHResponder (key 2) (pub 2) (key 3) (Some (key 4)) (pub 1) (pub 7) = Ok rB /\
    EphemeralPub rA = Some (pub 7) /\
    length (SharedSecret rA) = 32%nat /\
    SharedSecret rB = SharedSecret rA /\
    AuthenticatedData rB = AuthenticatedData rA.
Proof.
  intros key pub.
  apply (x3dh_agreement (P := toy) (key 1) (pub 1) (key 2) (pub 2) (key 3) (pub 3)
           (Some (key 4, pub 4)) (key 7) (pub 7)); try (split; vm_compute; reflexivity).
  intros p q H. injection H as <- <-. split; vm_compute; reflexivity.
Defined.
