(* ===== verification/Ratchet.v ===== *)
(** * pkg/ratchet: the Double Ratchet session

    [DoubleRatchetState] is the Go struct.  Slices whose nil-ness the code
    tests ([SendingChainKey], [ReceivingChainKey]) and the public-key pointers
    are options of values: the arrays behind the public keys are never written
    after their creation.  The private ratchet key is a pointer whose array the
    code wipes in place, and at the responder it is the caller's signed prekey,
    so private keys live in a heap ([World]) and the state holds a location.
    The clock is an argument of the operations that read it, and so are the
    random bytes of the key pair an operation may generate. *)
From S2P Require Import Prelude Primitives X3DH.

Definition loc := positive.

Record DoubleRatchetState := mkDR {
  SessionID : string;
  LocalIdentityPub : bytes;
  RemoteIdentityPub : bytes;
  DHSendingKeyPriv : option loc;
  DHSendingKeyPub : option bytes;
  DHReceivingKeyPub : option bytes;
  RootKey : bytes;
  SendingChainKey : option bytes;
  SendingChainCount : Z;
  PreviousSendingChainLen : Z;
  ReceivingChainKey : option bytes;
  ReceivingChainCount : Z;
  SkippedKeys : gmap string bytes;
  CreatedAt : Z;
  LastUsedAt : Z;
  CipherSuiteID : Z;
  IsInitiator : bool;
}.

#[export] Instance eta_DR : Eta DoubleRatchetState := fun s =>
  mkDR (SessionID s) (LocalIdentityPub s) (RemoteIdentityPub s) (DHSendingKeyPriv s)
    (DHSendingKeyPub s) (DHReceivingKeyPub s) (RootKey s) (SendingChainKey s)
    (SendingChainCount s) (PreviousSendingChainLen s) (ReceivingChainKey s)
    (ReceivingChainCount s) (SkippedKeys s) (CreatedAt s) (LastUsedAt s)
    (CipherSuiteID s) (IsInitiator s).

(** A session and the memory holding the private keys it points to. *)
Record World := mkWorld { heap : gmap loc bytes; st : DoubleRatchetState }.

#[export] Instance eta_World : Eta World := fun w => mkWorld (heap w) (st w).

Record RatchetHeader := mkHeader {
  DHRatchetPub : option bytes;
  PreviousChainLen : Z;
  MessageNumber : Z;
}.

Record EncryptedMessage := mkEncryptedMessage {
  Header : RatchetHeader;
  Ciphertext : bytes;
  Nonce : bytes;
}.

Abbreviation R := (GoM World).

Definition upd (f : DoubleRatchetState -> DoubleRatchetState) : R unit :=
  modify (fun w => w <| st := f (st w) |>).

Definition getS : R DoubleRatchetState := fun w => (w, Ok (st w)).

(** Reading [p[:]] through a pointer that may be nil. *)
Definition deref (p : option loc) : R bytes := fun w =>
  match p with
  | None => (w, Panic)
  | Some l => match heap w !! l with Some b => (w, Ok b) | None => (w, Panic) end
  end.

Definition alloc (b : bytes) : R loc := fun w =>
  let l := fresh (dom (heap w)) in
  (w <| heap := <[l := b]> (heap w) |>, Ok l).

(** [zeroBytes(p[:])] *)
Definition zeroBytes (l : loc) : R unit :=
  modify (fun w => w <| heap := alter (fun b => zeros (length b)) l (heap w) |>).

(** [equalKeys]: [hmac.Equal] on equal lengths is equality. *)
Definition equalKeys (a b : bytes) : bool :=
  if negb (length a =? length b)%nat then false else bool_decide (a = b).

(** [skippedKeyString]: [fmt.Sprintf("%x:%d", ...)]. *)
Definition skippedKeyString (dhPub : option bytes) (counter : Z) : string :=
  match dhPub with
  | None => ("nil:" +:+ pretty counter)%string
  | Some p => (hex p +:+ ":" +:+ pretty counter)%string
  end.

Section Ratchet.
Context `{P : Primitives}.

(** ** Session creation *)

Definition NewDoubleRatchetStateInitiator (rnd : option bytes) (now1 now2 : Z)
    (h : gmap loc bytes) (sessionID : string)
    (localIdentityPub remoteIdentityPub sharedSecret remoteSPKPub : bytes) : outcome World :=
  '(dhSendingPriv, dhSendingPub) ←
    wrapErr "failed to generate ratchet key pair" (generateX25519KeyPair rnd);
  dhOutput ← wrapErr "initial DH ratchet failed"
    (ext "curve25519.X25519" (x25519 dhSendingPriv remoteSPKPub));
  let '(newRootKey, newChainKey) := KDF_RK sharedSecret dhOutput in
  let l := fresh (dom h) in
  mret (mkWorld (<[l := dhSendingPriv]> h)
    (mkDR sessionID localIdentityPub remoteIdentityPub (Some l) (Some dhSendingPub)
       (Some remoteSPKPub) newRootKey (Some newChainKey) 0 0 None 0 ∅ now1 now2
       CipherSuiteXChaCha20Poly1305 true)).

(** The responder's first ratchet key is the signed prekey itself: the state
    keeps the caller's pointer. *)
Definition NewDoubleRatchetStateResponder (now1 now2 : Z) (h : gmap loc bytes)
    (sessionID : string) (localIdentityPub remoteIdentityPub sharedSecret : bytes)
    (localSPKPriv : loc) (localSPKPub : bytes) : outcome World :=
  mret (mkWorld h
    (mkDR sessionID localIdentityPub remoteIdentityPub (Some localSPKPriv) (Some localSPKPub)
       None sharedSecret None 0 0 None 0 ∅ now1 now2 CipherSuiteXChaCha20Poly1305 false)).

(** ** Ratchet steps *)

Definition dhRatchetSend (rnd : option bytes) : R unit :=
  s ← getS;
  match DHReceivingKeyPub s with
  | None => throw (ErrText "no receiving key set")
  | Some rpub =>
      '(newPriv, newPub) ← lift (generateX25519KeyPair rnd);
      l ← alloc newPriv;
      match x25519 newPriv rpub with
      | None => _ ← zeroBytes l; throw (ErrExt "curve25519.X25519")
      | Some dhOutput =>
          let '(newRootKey, newChainKey) := KDF_RK (RootKey s) dhOutput in
          _ ← match DHSendingKeyPriv s with Some old => zeroBytes old | None => mret tt end;
          upd (fun s => s
            <| PreviousSendingChainLen := SendingChainCount s |>
            <| DHSendingKeyPriv := Some l |>
            <| DHSendingKeyPub := Some newPub |>
            <| RootKey := newRootKey |>
            <| SendingChainKey := Some newChainKey |>
            <| SendingChainCount := 0 |>)
      end
  end.

(** HMAC treats a nil key as the empty one. *)
Definition chain_bytes (ck : option bytes) : bytes := default [] ck.

(** [if len(s.SkippedKeys) < MaxSkippedKeys { s.SkippedKeys[key] = k }] *)
Definition cacheKey (key : string) (k : bytes) (m : gmap string bytes) : gmap string bytes :=
  if (size m <? MaxSkippedKeys)%nat then <[key := k]> m else m.

(** One iteration of the loops of [advanceReceivingChain] and
    [cacheSkippedKeys]: derive, cache the skipped key, count. *)
Definition advance1 (s : DoubleRatchetState) : DoubleRatchetState :=
  let '(newChainKey, skippedKey) := KDF_CK (chain_bytes (ReceivingChainKey s)) in
  s <| ReceivingChainKey := Some newChainKey |>
    <| SkippedKeys := cacheKey (skippedKeyString (DHReceivingKeyPub s) (ReceivingChainCount s))
                        skippedKey (SkippedKeys s) |>
    <| ReceivingChainCount := u32 (ReceivingChainCount s + 1) |>.

(** [for s.ReceivingChainCount < target { ... }]: the counter is below the
    32-bit target, so the loop body runs exactly [target - count] times. *)
Definition advance_loop (target : Z) (s : DoubleRatchetState) : DoubleRatchetState :=
  Nat.iter (Z.to_nat (target - ReceivingChainCount s)) advance1 s.

Definition advanceReceivingChain (targetNum : Z) : R unit := upd (advance_loop targetNum).

Definition cacheSkippedKeys (prevChainLen : Z) : R unit :=
  s ← getS;
  match ReceivingChainKey s with
  | None => mret tt
  | Some _ => upd (advance_loop prevChainLen)
  end.

(** The loop of [skipMessages] works on local copies of the chain key and the
    counter; only the cache is written. *)
Fixpoint skip_loop (n : nat) (pub : option bytes) (count : Z) (ck : bytes)
    (m : gmap string bytes) : gmap string bytes :=
  match n with
  | O => m
  | S n' =>
      let '(newChainKey, skippedKey) := KDF_CK ck in
      skip_loop n' pub (u32 (count + 1)) newChainKey
        (cacheKey (skippedKeyString pub count) skippedKey m)
  end.

Definition skipMessages (h : RatchetHeader) : R unit :=
  s ← getS;
  match ReceivingChainKey s with
  | None => throw (ErrText "receiving chain not initialized")
  | Some ck =>
      upd (fun s => s <| SkippedKeys :=
        skip_loop (Z.to_nat (MessageNumber h - ReceivingChainCount s)) (DHReceivingKeyPub s)
          (ReceivingChainCount s) ck (SkippedKeys s) |>)
  end.

Definition dhRatchetReceive (rnd : option bytes) (h : RatchetHeader) (hpub : bytes) : R unit :=
  _ ← cacheSkippedKeys (PreviousChainLen h);
  s ← getS;
  priv ← deref (DHSendingKeyPriv s);
  dhOutput ← lift (ext "curve25519.X25519" (x25519 priv hpub));
  let '(newRootKey, newChainKey) := KDF_RK (RootKey s) dhOutput in
  _ ← upd (fun s => s
    <| RootKey := newRootKey |>
    <| ReceivingChainKey := Some newChainKey |>
    <| ReceivingChainCount := 0 |>
    <| DHReceivingKeyPub := DHRatchetPub h |>);
  dhRatchetSend rnd.

Definition getSkippedKey (h : RatchetHeader) : R (option bytes) := fun w =>
  let key := skippedKeyString (DHRatchetPub h) (MessageNumber h) in
  let k := SkippedKeys (st w) !! key in
  (w <| st := st w <| SkippedKeys := delete key (SkippedKeys (st w)) |> |>, Ok k).

Definition decryptWithKey (messageKey : bytes) (counter : Z) (ciphertext ad : bytes)
    : outcome bytes :=
  nonce ← DeriveNonce messageKey counter;
  if negb (length messageKey =? 32)%nat then Err (ErrExt "chacha20poly1305.New")
  else match open messageKey nonce ciphertext ad with
       | Some plaintext => mret plaintext
       | None => Err (ErrWrap "decryption failed" (ErrExt "aead.Open"))
       end.

(** ** Encryption and decryption *)

Definition Encrypt (rnd : option bytes) (now : Z) (plaintext ad : bytes) : R EncryptedMessage :=
  s0 ← getS;
  _ ← match SendingChainKey s0 with
      | None => wrap "DH ratchet failed" (dhRatchetSend rnd)
      | Some _ => mret tt
      end;
  s ← getS;
  let '(newChainKey, messageKey) := KDF_CK (chain_bytes (SendingChainKey s)) in
  _ ← upd (fun s => s <| SendingChainKey := Some newChainKey |>);
  nonce ← lift (DeriveNonce messageKey (SendingChainCount s));
  if negb (length messageKey =? 32)%nat
  then throw (ErrWrap "failed to create AEAD" (ErrExt "chacha20poly1305.New"))
  else
    let ciphertext := seal messageKey nonce plaintext ad in
    let header := mkHeader (DHSendingKeyPub s) (PreviousSendingChainLen s) (SendingChainCount s) in
    _ ← upd (fun s => s <| SendingChainCount := u32 (SendingChainCount s + 1) |>
                       <| LastUsedAt := now |>);
    mret (mkEncryptedMessage header ciphertext nonce).

(** The step that brings the receiving side to the header's ratchet key. *)
Definition receiveHeader (rnd : option bytes) (h : RatchetHeader) : R unit :=
  s ← getS;
  match DHRatchetPub h, DHReceivingKeyPub s with
  | Some hpub, Some rpub =>
      if negb (equalKeys hpub rpub)
      then wrap "DH ratchet failed" (dhRatchetReceive rnd h hpub)
      else mret tt
  | Some hpub, None =>
      _ ← upd (fun s => s <| DHReceivingKeyPub := DHRatchetPub h |>);
      priv ← deref (DHSendingKeyPriv s);
      dhOutput ← wrap "initial DH ratchet failed"
        (lift (ext "curve25519.X25519" (x25519 priv hpub)));
      let '(newRootKey, newChainKey) := KDF_RK (RootKey s) dhOutput in
      upd (fun s => s
        <| RootKey := newRootKey |>
        <| ReceivingChainKey := Some newChainKey |>
        <| ReceivingChainCount := 0 |>)
  | None, _ => mret tt
  end.

(** The key is taken from the chain: skip up to the message, derive, open. *)
Definition decryptFromChain (now : Z) (h : RatchetHeader) (ciphertext ad : bytes) : R bytes :=
  s1 ← getS;
  _ ← (if MessageNumber h >? ReceivingChainCount s1
       then wrap "failed to skip messages" (skipMessages h) else mret tt);
  _ ← wrap "failed to advance chain" (advanceReceivingChain (MessageNumber h));
  s ← getS;
  let '(newChainKey, messageKey) := KDF_CK (chain_bytes (ReceivingChainKey s)) in
  _ ← upd (fun s => s
    <| ReceivingChainKey := Some newChainKey |>
    <| ReceivingChainCount := u32 (ReceivingChainCount s + 1) |>
    <| LastUsedAt := now |>);
  lift (decryptWithKey messageKey (MessageNumber h) ciphertext ad).

Definition Decrypt (rnd : option bytes) (now : Z) (h : RatchetHeader) (ciphertext ad : bytes)
    : R bytes :=
  _ ← receiveHeader rnd h;
  skippedKey ← getSkippedKey h;
  match skippedKey with
  | Some k =>
      match decryptWithKey k (MessageNumber h) ciphertext ad with
      | Ok plaintext => mret plaintext
      | Panic => panic
      | Err _ => decryptFromChain now h ciphertext ad
      end
  | None => decryptFromChain now h ciphertext ad
  end.
End Ratchet.

(** ** The serialisable form of a session *)

Record SkippedKey := mkSkippedKey { DHRatchetPub' : bytes; Counter : Z; Key : bytes }.

Record SessionState := mkSessionState {
  ss_SessionID : string;
  ss_LocalIdentityPub : bytes;
  ss_RemoteIdentityPub : bytes;
  ss_DHSendingKeyPub : bytes;
  ss_DHReceivingPub : bytes;
  ss_RootKey : bytes;
  ss_SendingChainKey : option bytes;
  ss_SendingChainCounter : Z;
  ss_ReceivingChainKey : option bytes;
  ss_ReceivingChainCounter : Z;
  ss_SkippedKeys : list SkippedKey;
  ss_CreatedAt : Z;
  ss_LastUsedAt : Z;
  ss_CipherSuiteID : Z;
  ss_IsInitiator : bool;
}.

(** [GetSessionState]; [range] is the order in which the run iterates over the
    map.  Only the keys are copied: neither their ratchet key nor their counter. *)
Definition GetSessionState (range : gmap string bytes -> list (string * bytes))
    (s : DoubleRatchetState) : SessionState :=
  mkSessionState (SessionID s) (LocalIdentityPub s) (RemoteIdentityPub s)
    (default [] (DHSendingKeyPub s)) (default [] (DHReceivingKeyPub s)) (RootKey s)
    (SendingChainKey s) (SendingChainCount s) (ReceivingChainKey s) (ReceivingChainCount s)
    ((fun '(_, key) => mkSkippedKey [] 0 key) <$> range (SkippedKeys s))
    (CreatedAt s) (LastUsedAt s) (CipherSuiteID s) (IsInitiator s).
