(* ===== verification/RatchetSession.v ===== *)
(** * Double Ratchet sessions: the conversation of two parties

    Theorems about [Ratchet].  [party] is the abstract view of a session state
    (keys as values, counters as naturals, no skipped keys); the lemmas
    [Encrypt_party], [dhRatchetSend_party] and [Decrypt_*] compute the effect of
    each operation on it.  [step] is the system of two parties connected by
    FIFO channels, [inv] its invariant and [conversation_delivers] the result:
    everything sent is decrypted to what was sent. *)
From S2P Require Import Prelude Primitives X3DH Ratchet.

Section Session.
Context `{P : Primitives} `{!PrimitiveLaws P}.

(** The chain key after [n] messages and the [n]-th message key. *)
Definition ckey (ck : bytes) (n : nat) : bytes := Nat.iter n (fun c => (KDF_CK c).1) ck.
Definition mkey (ck : bytes) (n : nat) : bytes := (KDF_CK (ckey ck n)).2.

#[local] Arguments KDF_CK : simpl never.
#[local] Arguments KDF_RK : simpl never.
#[local] Arguments DeriveNonce : simpl never.
#[local] Arguments generateX25519KeyPair : simpl never.
#[local] Arguments ckey : simpl never.
#[local] Arguments mkey : simpl never.

Lemma KDF_CK_step ck n : KDF_CK (ckey ck n) = (ckey ck (S n), mkey ck n).
Proof. unfold mkey. change (ckey ck (S n)) with (KDF_CK (ckey ck n)).1. by destruct (KDF_CK _). Qed.

Record party (w : World) (priv pub rk : bytes) (sck : option bytes) (sn pn : nat)
    (rcv : option bytes) (rn : nat) (rpub : option bytes) : Prop := {
  p_priv : exists l, DHSendingKeyPriv (st w) = Some l /\ heap w !! l = Some priv;
  p_pair : dh_keypair priv pub;
  p_pub : DHSendingKeyPub (st w) = Some pub;
  p_root : RootKey (st w) = rk;
  p_snd : SendingChainKey (st w) = sck;
  p_sn : SendingChainCount (st w) = Z.of_nat sn;
  p_pn : PreviousSendingChainLen (st w) = Z.of_nat pn;
  p_rcv : ReceivingChainKey (st w) = rcv;
  p_rn : ReceivingChainCount (st w) = Z.of_nat rn;
  p_rpub : DHReceivingKeyPub (st w) = rpub;
  p_skip : SkippedKeys (st w) = ∅;
}.

(** A sent message with the plaintext and associated data it was made from. *)
Record Msg := mkMsg { enc : EncryptedMessage; plain : bytes; assoc : bytes }.

(** [m] is the [i]-th message of the chain [ck] of ratchet key [pub]. *)
Definition msg_ok (ck pub : bytes) (pn i : nat) (m : Msg) : Prop :=
  Header (enc m) = mkHeader (Some pub) (Z.of_nat pn) (Z.of_nat i) /\
  exists nonce, DeriveNonce (mkey ck i) (Z.of_nat i) = Ok nonce /\ length nonce = 12%nat /\
    Ciphertext (enc m) = seal (mkey ck i) nonce (plain m) (assoc m).

Lemma msg_ok_pub ck pub pn i m : msg_ok ck pub pn i m -> DHRatchetPub (Header (enc m)) = Some pub.
Proof. by intros [-> _]. Qed.

Fixpoint chain_msgs (ck pub : bytes) (pn i : nat) (l : list Msg) : Prop :=
  match l with
  | [] => True
  | m :: l' => msg_ok ck pub pn i m /\ chain_msgs ck pub pn (S i) l'
  end.

Lemma chain_msgs_snoc ck pub pn i l m :
  chain_msgs ck pub pn i l -> msg_ok ck pub pn (i + length l) m ->
  chain_msgs ck pub pn i (l ++ [m]).
Proof.
  revert i; induction l as [|x l IH]; intros i; cbn; [by rewrite Nat.add_0_r|].
  intros [? ?] Hm. split; [done|]. apply IH; [done|].
  by replace (S i + length l)%nat with (i + S (length l))%nat by lia.
Qed.

Lemma mkey_length ck n : length (mkey ck n) = 32%nat.
Proof. apply KDF_CK_length. Qed.

Lemma decryptWithKey_msg ck pub pn i m :
  msg_ok ck pub pn i m ->
  decryptWithKey (mkey ck i) (Z.of_nat i) (Ciphertext (enc m)) (assoc m) = Ok (plain m).
Proof.
  intros (_ & nonce & HN & Hl & ->). unfold decryptWithKey. rewrite HN. cbn.
  rewrite mkey_length. cbn. by rewrite open_seal; [|rewrite ?mkey_length..].
Qed.

Lemma u32_succ n : Z.of_nat n < 2 ^ 32 - 1 -> u32 (Z.of_nat n + 1) = Z.of_nat (S n).
Proof. intros H. rewrite u32_small; lia. Qed.

Lemma equalKeys_refl a : equalKeys a a = true.
Proof. unfold equalKeys. rewrite Nat.eqb_refl. cbn. by apply bool_decide_eq_true. Qed.

Lemma equalKeys_ne a b : a <> b -> equalKeys a b = false.
Proof. intros H. unfold equalKeys. destruct (negb _); [done|]. by apply bool_decide_eq_false. Qed.

(** A seed a new ratchet key may be drawn from: 32 bytes whose public key is
    not the one in use. *)
Definition fresh_for (pub seed pub' : bytes) : Prop := dh_keypair seed pub' /\ pub' <> pub.

(** ** The sending side *)

Lemma dhRatchetSend_party w priv pub rk sck sn pn rcv rn rpub seed pub' d :
  party w priv pub rk sck sn pn rcv rn (Some rpub) ->
  dh_keypair seed pub' -> x25519 seed rpub = Some d ->
  exists w', dhRatchetSend (Some seed) w = (w', Ok tt) /\
    party w' seed pub' (KDF_RK rk d).1 (Some (KDF_RK rk d).2) 0 sn rcv rn (Some rpub).
Proof.
  intros [(l & Hl & Hh) Hpair Hpub Hroot Hsnd Hsn Hpn Hrcv Hrn Hrpub Hskip] Hkp Hd.
  unfold dhRatchetSend, getS, upd, alloc, zeroBytes. go_run. rewrite Hrpub.
  rewrite (generateX25519KeyPair_Ok _ _ Hkp). go_run. rewrite Hd, Hroot.
  destruct (KDF_RK rk d) as [rk' ck'] eqn:E. rewrite Hl. go_run.
  eexists; split; [reflexivity|]. split; cbn; try done.
  eexists; split; [done|]. rewrite lookup_alter_ne.
  - apply lookup_insert_eq.
  - intros Hfresh. subst l. apply (is_fresh (dom (heap w))). rewrite elem_of_dom. eauto.
Qed.

Lemma Encrypt_party w priv pub rk ck sn pn rcv rn rpub rnd now p ad :
  party w priv pub rk (Some (ckey ck sn)) sn pn rcv rn rpub ->
  Z.of_nat sn < 2 ^ 32 - 1 ->
  exists w' em, Ratchet.Encrypt rnd now p ad w = (w', Ok em) /\
    msg_ok ck pub pn sn (mkMsg em p ad) /\
    party w' priv pub rk (Some (ckey ck (S sn))) (S sn) pn rcv rn rpub.
Proof.
  intros [] Hb. unfold Ratchet.Encrypt, getS, upd. go_run. rewrite p_snd0. go_run. rewrite p_snd0.
  cbn. rewrite KDF_CK_step. go_run.
  destruct (DeriveNonce_Ok (mkey ck sn) (Z.of_nat sn)) as (nonce & HN & Hnl).
  rewrite p_sn0, HN, mkey_length. go_run.
  eexists _, _; split; [reflexivity|]. split.
  - split; cbn; [by rewrite p_pub0, p_pn0|]. eauto.
  - split; cbn; try done. by rewrite p_sn0, u32_succ.
Qed.

(** ** The receiving side *)

Lemma advance_loop_done n s : n <= ReceivingChainCount s -> advance_loop n s = s.
Proof. intros H. unfold advance_loop. by replace (Z.to_nat _) with 0%nat by lia. Qed.

Lemma decryptFromChain_next w priv pub rk sck sn pn ck rn rpub pub' pn' now m :
  party w priv pub rk sck sn pn (Some (ckey ck rn)) rn rpub ->
  msg_ok ck pub' pn' rn m -> Z.of_nat rn < 2 ^ 32 - 1 ->
  exists w', decryptFromChain now (Header (enc m)) (Ciphertext (enc m)) (assoc m) w = (w', Ok (plain m)) /\
    party w' priv pub rk sck sn pn (Some (ckey ck (S rn))) (S rn) rpub.
Proof.
  intros [] Hm Hb. pose proof (decryptWithKey_msg _ _ _ _ _ Hm) as HD.
  destruct Hm as (HH & _). unfold decryptFromChain, advanceReceivingChain, getS, upd. rewrite HH.
  go_run. rewrite p_rn0. replace (Z.of_nat rn >? Z.of_nat rn) with false by lia. go_run.
  rewrite advance_loop_done by (cbn; lia). rewrite p_rcv0. cbn. rewrite KDF_CK_step.
  go_run. rewrite HD. eexists; split; [reflexivity|]. split; cbn; try done. by rewrite p_rn0, u32_succ.
Qed.

Lemma Decrypt_next w w1 priv pub rk sck sn pn ck rn rpub pub' pn' rnd now m :
  receiveHeader rnd (Header (enc m)) w = (w1, Ok tt) ->
  party w1 priv pub rk sck sn pn (Some (ckey ck rn)) rn rpub ->
  msg_ok ck pub' pn' rn m -> Z.of_nat rn < 2 ^ 32 - 1 ->
  exists w', Ratchet.Decrypt rnd now (Header (enc m)) (Ciphertext (enc m)) (assoc m) w = (w', Ok (plain m)) /\
    party w' priv pub rk sck sn pn (Some (ckey ck (S rn))) (S rn) rpub.
Proof.
  intros HR Hp Hm Hb. unfold Ratchet.Decrypt, getSkippedKey. go_run. rewrite HR. go_run.
  rewrite (p_skip _ _ _ _ _ _ _ _ _ _ Hp). go_run. rewrite lookup_empty, delete_empty.
  eapply decryptFromChain_next; [|done..].
  destruct Hp; split; done.
Qed.

Lemma receiveHeader_same w priv pub rk sck sn pn rcv rn rpub rnd h :
  party w priv pub rk sck sn pn rcv rn (Some rpub) -> DHRatchetPub h = Some rpub ->
  receiveHeader rnd h w = (w, Ok tt).
Proof.
  intros [] Hh. unfold receiveHeader, getS. go_run. rewrite Hh, p_rpub0, equalKeys_refl. done.
Qed.

Lemma receiveHeader_initial w priv pub rk sck sn pn rcv rn rnd h hpub d :
  party w priv pub rk sck sn pn rcv rn None -> DHRatchetPub h = Some hpub ->
  x25519 priv hpub = Some d ->
  exists w', receiveHeader rnd h w = (w', Ok tt) /\
    party w' priv pub (KDF_RK rk d).1 sck sn pn (Some (KDF_RK rk d).2) 0 (Some hpub).
Proof.
  intros [(l & Hl & Hp) Hpair Hpub Hroot Hsnd Hsn Hpn Hrcv Hrn Hrpub Hskip] Hh Hd.
  unfold receiveHeader, getS, upd, deref. go_run. rewrite Hh, Hrpub. go_run.
  rewrite Hl, Hp. go_run. rewrite Hd. go_run. destruct (KDF_RK rk d) as [rk1 ck1] eqn:E.
  rewrite Hroot, E. go_run.
  eexists; split; [reflexivity|]. split; cbn; eauto.
Qed.

Lemma cacheSkippedKeys_none w n :
  (ReceivingChainKey (st w) = None \/ ReceivingChainCount (st w) = n) ->
  cacheSkippedKeys n w = (w, Ok tt).
Proof.
  intros H. unfold cacheSkippedKeys, getS, upd. go_run. destruct w as [h s]; cbn in *.
  destruct (ReceivingChainKey s); [|done]. destruct H as [|H]; [done|].
  by rewrite advance_loop_done by (cbn; lia).
Qed.

Lemma receiveHeader_ratchet w priv pub rk sck sn pn rcv rn rpub h hpub d seed pub' d' :
  party w priv pub rk sck sn pn rcv rn (Some rpub) -> DHRatchetPub h = Some hpub -> hpub <> rpub ->
  (rcv = None \/ PreviousChainLen h = Z.of_nat rn) ->
  x25519 priv hpub = Some d -> dh_keypair seed pub' -> x25519 seed hpub = Some d' ->
  exists w', receiveHeader (Some seed) h w = (w', Ok tt) /\
    party w' seed pub' (KDF_RK (KDF_RK rk d).1 d').1 (Some (KDF_RK (KDF_RK rk d).1 d').2) 0 sn
      (Some (KDF_RK rk d).2) 0 (Some hpub).
Proof.
  intros Hp Hh Hne Hcnt Hd Hkp Hd'.
  pose proof Hp as [(l & Hl & Hpr) Hpair Hpub Hroot Hsnd Hsn Hpn Hrcv Hrn Hrpub Hskip].
  unfold receiveHeader, dhRatchetReceive, deref, upd, getS. go_run.
  rewrite Hh, Hrpub, (equalKeys_ne _ _ Hne). go_run.
  rewrite cacheSkippedKeys_none by (rewrite Hrcv, Hrn; destruct Hcnt; auto). go_run.
  rewrite Hl, Hpr. go_run. rewrite Hd, Hroot. go_run.
  destruct (KDF_RK rk d) as [rk1 ck1] eqn:E. cbn [fst snd].
  match goal with |- context [dhRatchetSend _ ?w1] => set (w1' := w1) end.
  assert (party w1' priv pub rk1 sck sn pn (Some ck1) 0 (Some hpub)) as Hp1.
  { split; cbn; eauto. }
  destruct (dhRatchetSend_party _ _ _ _ _ _ _ _ _ _ seed pub' d' Hp1 Hkp Hd') as (w' & -> & Hw').
  eexists; split; [reflexivity|done].
Qed.

(** ** Two parties and their channels *)

(** One party is a ratchet step ahead: [x] sends on the chain [ckx] under a
    ratchet key [X] its peer has not received yet, after [so] messages on the
    previous chain, of which [y] has received [ro]; [y] sends on the chain
    [cky] of key [Y], of which [x] has received [ry].  The channels hold
    exactly the messages sent and not received. *)
Inductive ahead (x : World) (cxy cyx : list Msg) (y : World) : Prop :=
  Ahead px X rkx ckx sx so cky ry py Y rky sy pny xold cold ro rcvold old new pno d :
    party x px X rkx (Some (ckey ckx sx)) sx so (Some (ckey cky ry)) ry (Some Y) ->
    party y py Y rky (Some (ckey cky sy)) sy pny rcvold ro (Some xold) ->
    X <> xold ->
    x25519 py X = Some d -> KDF_RK rky d = (rkx, ckx) ->
    (ry + length cyx = sy)%nat -> chain_msgs cky Y pny ry cyx ->
    cxy = old ++ new ->
    (ro + length old = so)%nat -> chain_msgs cold xold pno ro old ->
    (rcvold = None /\ so = 0%nat \/ rcvold = Some (ckey cold ro)) ->
    length new = sx -> chain_msgs ckx X so 0 new ->
    Z.of_nat sx < 2 ^ 32 -> Z.of_nat sy < 2 ^ 32 -> Z.of_nat so < 2 ^ 32 ->
    ahead x cxy cyx y.

(** Before the responder's first message: [b] may have received some of [a]'s
    messages ([Opened]) or none ([Unopened]). *)
Inductive opening (a : World) (cab : list Msg) (b : World) : Prop :=
  | Unopened pa A rka ck sa spk SPK rk d :
      party a pa A rka (Some (ckey ck sa)) sa 0 None 0 (Some SPK) ->
      party b spk SPK rk None 0 0 None 0 None ->
      x25519 spk A = Some d -> KDF_RK rk d = (rka, ck) ->
      length cab = sa -> chain_msgs ck A 0 0 cab -> Z.of_nat sa < 2 ^ 32 ->
      opening a cab b
  | Opened pa A rka ck sa spk SPK rb :
      party a pa A rka (Some (ckey ck sa)) sa 0 None 0 (Some SPK) ->
      party b spk SPK rka None 0 0 (Some (ckey ck rb)) rb (Some A) ->
      (rb + length cab = sa)%nat -> chain_msgs ck A 0 rb cab -> Z.of_nat sa < 2 ^ 32 ->
      opening a cab b.

(** A seed the party may draw its next ratchet key from, while its sending
    counter has not reached its last value. *)
Definition usable (w : World) (seed : bytes) : Prop :=
  SendingChainCount (st w) < 2 ^ 32 - 1 /\
  exists pub', dh_keypair seed pub' /\ DHSendingKeyPub (st w) <> Some pub'.

Definition sends (w : World) (seed : bytes) (now : Z) (p ad : bytes) (w' : World) (m : Msg) : Prop :=
  exists em, Ratchet.Encrypt (Some seed) now p ad w = (w', Ok em) /\ m = mkMsg em p ad.

Definition receives (w : World) (seed : bytes) (now : Z) (m : Msg) (w' : World) : Prop :=
  Ratchet.Decrypt (Some seed) now (Header (enc m)) (Ciphertext (enc m)) (assoc m) w = (w', Ok (plain m)).

Lemma usable_count w seed priv pub rk sck sn pn rcv rn rpub :
  party w priv pub rk sck sn pn rcv rn rpub -> usable w seed -> Z.of_nat sn < 2 ^ 32 - 1.
Proof. intros [] [H _]. lia. Qed.

Lemma send_on_chain w priv pub rk ck sn pn rcv rn rpub seed now p ad l :
  party w priv pub rk (Some (ckey ck sn)) sn pn rcv rn rpub -> usable w seed ->
  chain_msgs ck pub pn (sn - length l) l -> (length l <= sn)%nat ->
  exists w' m, sends w seed now p ad w' m /\
    party w' priv pub rk (Some (ckey ck (S sn))) (S sn) pn rcv rn rpub /\
    chain_msgs ck pub pn (sn - length l) (l ++ [m]) /\ Z.of_nat (S sn) < 2 ^ 32.
Proof.
  intros Hp Hu Hl Hle. pose proof (usable_count _ _ _ _ _ _ _ _ _ _ _ Hp Hu) as Hb.
  destruct (Encrypt_party _ _ _ _ _ _ _ _ _ _ (Some seed) now p ad Hp Hb) as (w' & em & HE & Hm & Hp').
  exists w', (mkMsg em p ad). split; [by exists em|]. split; [done|].
  split; [|lia]. apply chain_msgs_snoc; [done|]. by replace (sn - length l + length l)%nat with sn by lia.
Qed.

Lemma ahead_send x cxy cyx y seed now p ad :
  ahead x cxy cyx y -> usable x seed ->
  exists x' m, sends x seed now p ad x' m /\ ahead x' (cxy ++ [m]) cyx y.
Proof.
  intros [px X rkx ckx sx so cky ry py Y rky sy pny xold cold ro rcvold old new pno d
          Hx Hy Hne Hd HK Hcyx Hmyx -> Hold Hmold Hrcv Hnew Hmnew Hbx Hby Hbo] Hu.
  destruct (send_on_chain _ _ _ _ _ _ _ _ _ _ _ now p ad new Hx Hu) as (x' & m & HS & Hx' & Hm & Hb);
    [by rewrite Hnew, Nat.sub_diag|lia|].
  exists x', m. split; [done|]. rewrite Hnew, Nat.sub_diag in Hm. rewrite <- app_assoc.
  eapply Ahead; try done. rewrite length_app. cbn. lia.
Qed.

Lemma behind_send x cxy cyx y seed now p ad :
  ahead x cxy cyx y -> usable y seed ->
  exists y' m, sends y seed now p ad y' m /\ ahead x cxy (cyx ++ [m]) y'.
Proof.
  intros [px X rkx ckx sx so cky ry py Y rky sy pny xold cold ro rcvold old new pno d
          Hx Hy Hne Hd HK Hcyx Hmyx -> Hold Hmold Hrcv Hnew Hmnew Hbx Hby Hbo] Hu.
  assert (ry = (sy - length cyx)%nat) as Hry by lia.
  destruct (send_on_chain _ _ _ _ _ _ _ _ _ _ _ now p ad cyx Hy Hu) as (y' & m & HS & Hy' & Hm & Hb);
    [by rewrite <- Hry|lia|].
  exists y', m. split; [done|]. rewrite <- Hry in Hm.
  eapply Ahead; try done. rewrite length_app. cbn. lia.
Qed.

Lemma ahead_receive x cxy cyx y m seed now :
  ahead x cxy (m :: cyx) y ->
  exists x', receives x seed now m x' /\ ahead x' cxy cyx y.
Proof.
  intros [px X rkx ckx sx so cky ry py Y rky sy pny xold cold ro rcvold old new pno d
          Hx Hy Hne Hd HK Hcyx [Hm Hmyx] -> Hold Hmold Hrcv Hnew Hmnew Hbx Hby Hbo].
  cbn in Hcyx. pose proof (msg_ok_pub _ _ _ _ _ Hm) as Hpub.
  destruct (Decrypt_next x x _ _ _ _ _ _ _ _ _ _ _ (Some seed) now m
    (receiveHeader_same _ _ _ _ _ _ _ _ _ _ _ _ Hx Hpub) Hx Hm) as (x' & HD & Hx'); [lia|].
  exists x'. split; [done|]. eapply Ahead; try done. lia.
Qed.

(** The party behind receives: the rest of the old chain first; then the
    first message of the new one makes it the party ahead. *)
Lemma behind_receive x cxy cyx y m seed now :
  ahead x (m :: cxy) cyx y -> usable y seed ->
  exists y', receives y seed now m y' /\ (ahead x cxy cyx y' \/ ahead y' cyx cxy x).
Proof.
  intros [px X rkx ckx sx so cky ry py Y rky sy pny xold cold ro rcvold old new pno d
          Hx Hy Hne Hd HK Hcyx Hmyx E Hold Hmold Hrcv Hnew Hmnew Hbx Hby Hbo] (_ & Y' & HY' & HneY).
  destruct old as [|m' old]; cbn in E.
  - destruct new as [|m' new]; [done|]. injection E as <- <-.
    destruct Hmnew as [Hm Hmnew]. pose proof (msg_ok_pub _ _ _ _ _ Hm) as Hpub.
    destruct (dh_keypair_agree _ _ _ _ HY' (p_pair _ _ _ _ _ _ _ _ _ _ Hx)) as (d' & Hd1 & Hd2).
    destruct (receiveHeader_ratchet _ _ _ _ _ _ _ _ _ _ _ _ d seed Y' d' Hy Hpub Hne) as (w1 & HR & Hw1);
      try done.
    { destruct Hrcv as [[-> _]| ->]; [by left|]. right. rewrite (proj1 Hm). cbn in *. lia. }
    rewrite HK in Hw1. cbn [fst snd] in Hw1.
    destruct (Decrypt_next y w1 _ _ _ _ _ _ ckx 0 _ _ _ (Some seed) now m HR Hw1 Hm) as (y' & HD & Hy');
      [lia|].
    exists y'. split; [done|]. right. rewrite (p_pub _ _ _ _ _ _ _ _ _ _ Hy) in HneY.
    destruct (KDF_RK rkx d') as [rk2 ck2] eqn:E2.
    eapply (Ahead y' cyx cxy x seed Y' rk2 ck2 0 sy ckx 1 px X rkx sx so Y cky ry _ cyx [] pny d');
      cbn in *; try done; [congruence|by rewrite app_nil_r|by right].
  - injection E as <- ->. destruct Hmold as [Hm Hmold].
    destruct Hrcv as [[-> ?]| ->]; [cbn in *; lia|].
    pose proof (msg_ok_pub _ _ _ _ _ Hm) as Hpub. cbn in Hold.
    destruct (Decrypt_next y y _ _ _ _ _ _ _ _ _ _ _ (Some seed) now m
      (receiveHeader_same _ _ _ _ _ _ _ _ _ _ _ _ Hy Hpub) Hy Hm) as (y' & HD & Hy'); [lia|].
    exists y'. split; [done|]. left. eapply Ahead; try done; [lia|by right].
Qed.

Lemma opening_send_a a cab b seed now p ad :
  opening a cab b -> usable a seed ->
  exists a' m, sends a seed now p ad a' m /\ opening a' (cab ++ [m]) b.
Proof.
  intros [pa A rka ck sa spk SPK rk d Ha Hb Hd HK Hlen Hms Hsa
         |pa A rka ck sa spk SPK rb Ha Hb Hlen Hms Hsa] Hu.
  - destruct (send_on_chain _ _ _ _ _ _ _ _ _ _ _ now p ad cab Ha Hu) as (a' & m & HS & Ha' & Hm & ?);
      [by rewrite Hlen, Nat.sub_diag|lia|].
    rewrite Hlen, Nat.sub_diag in Hm. exists a', m. split; [done|].
    eapply Unopened; try done. rewrite length_app. cbn. lia.
  - assert (rb = (sa - length cab)%nat) as Hrb by lia.
    destruct (send_on_chain _ _ _ _ _ _ _ _ _ _ _ now p ad cab Ha Hu) as (a' & m & HS & Ha' & Hm & ?);
      [by rewrite <- Hrb|lia|].
    rewrite <- Hrb in Hm. exists a', m. split; [done|].
    eapply Opened; try done. rewrite length_app. cbn. lia.
Qed.

Lemma opening_receive_b a cab b m seed now :
  opening a (m :: cab) b -> exists b', receives b seed now m b' /\ opening a cab b'.
Proof.
  intros [pa A rka ck sa spk SPK rk d Ha Hb Hd HK Hlen [Hm Hms] Hsa
         |pa A rka ck sa spk SPK rb Ha Hb Hlen [Hm Hms] Hsa]; cbn in Hlen;
    pose proof (msg_ok_pub _ _ _ _ _ Hm) as Hpub.
  - destruct (receiveHeader_initial _ _ _ _ _ _ _ _ _ (Some seed) _ _ _ Hb Hpub Hd) as (w1 & HR & Hw1).
    rewrite HK in Hw1.
    destruct (Decrypt_next _ _ _ _ _ _ _ _ ck 0 _ _ _ _ now m HR Hw1 Hm) as (b' & HD & Hb'); [lia|].
    exists b'. split; [done|]. eapply Opened; done.
  - destruct (Decrypt_next _ _ _ _ _ _ _ _ ck rb _ _ _ (Some seed) now m
      (receiveHeader_same _ _ _ _ _ _ _ _ _ _ _ _ Hb Hpub) Hb Hm) as (b' & HD & Hb'); [lia|].
    exists b'. split; [done|]. eapply Opened; try done. lia.
Qed.

(** An [Encrypt] that has to ratchet first continues as on the new chain. *)
Lemma Encrypt_ratchet w w' rnd now p ad :
  SendingChainKey (st w) = None -> dhRatchetSend rnd w = (w', Ok tt) ->
  SendingChainKey (st w') <> None ->
  Ratchet.Encrypt rnd now p ad w = Ratchet.Encrypt rnd now p ad w'.
Proof.
  intros H1 H2 H3. unfold Ratchet.Encrypt, getS. go_run. rewrite H1. go_run. rewrite H2. go_run.
  destruct (SendingChainKey (st w')) eqn:E; [|done]. go_run. rewrite ?E. done.
Qed.

Lemma opened_send_b a cab b seed now p ad :
  opening a cab b -> DHReceivingKeyPub (st b) <> None -> usable b seed ->
  exists b' m, sends b seed now p ad b' m /\ ahead b' [m] cab a.
Proof.
  intros [pa A rka ck sa spk SPK rk d Ha Hb ?????
         |pa A rka ck sa spk SPK rb Ha Hb Hlen Hms Hsa] Hne Hu.
  { by rewrite (p_rpub _ _ _ _ _ _ _ _ _ _ Hb) in Hne. }
  destruct Hu as (_ & pub' & Hkp & HneB). rewrite (p_pub _ _ _ _ _ _ _ _ _ _ Hb) in HneB.
  destruct (dh_keypair_agree _ _ _ _ Hkp (p_pair _ _ _ _ _ _ _ _ _ _ Ha)) as (d' & Hd1 & Hd2).
  destruct (dhRatchetSend_party _ _ _ _ _ _ _ _ _ _ _ _ d' Hb Hkp Hd1) as (w1 & HR & Hw1).
  destruct (KDF_RK rka d') as [rk2 ck2] eqn:E2. cbn [fst snd] in Hw1.
  destruct (Encrypt_party w1 _ _ _ ck2 0 _ _ _ _ (Some seed) now p ad Hw1) as (b' & em & HE & Hm & Hb');
    [lia|].
  exists b', (mkMsg em p ad). split.
  - exists em. split; [|done]. rewrite (Encrypt_ratchet _ w1); [done| |done|].
    + apply (p_snd _ _ _ _ _ _ _ _ _ _ Hb).
    + by rewrite (p_snd _ _ _ _ _ _ _ _ _ _ Hw1).
  - eapply (Ahead b' [mkMsg em p ad] cab a seed pub' rk2 ck2 1 0 ck rb pa A rka sa 0 SPK [] 0 None
              [] [mkMsg em p ad] 0 d'); try done; [congruence|by left].
Qed.

Lemma unopened_send_b a cab b rnd now p ad :
  opening a cab b -> DHReceivingKeyPub (st b) = None ->
  Ratchet.Encrypt rnd now p ad b =
    (b, Err (ErrWrap "DH ratchet failed" (ErrText "no receiving key set"))).
Proof.
  intros [pa A rka ck sa spk SPK rk d Ha Hb ?????
         |pa A rka ck sa spk SPK rb Ha Hb Hlen Hms Hsa] Hn; destruct Hb; [|congruence].
  unfold Ratchet.Encrypt, dhRatchetSend, getS. go_run. rewrite p_snd0. go_run. by rewrite Hn.
Qed.

(** The two sides of a session and the messages in flight. *)
Record Net := mkNet { sideA : World; sideB : World; toB : list Msg; toA : list Msg }.

(** One party sends, or receives the oldest message on its way to it. *)
Inductive move (x : World) (out inc : list Msg) : World -> list Msg -> list Msg -> Prop :=
  | MoveSend seed now p ad x' r :
      usable x seed -> Ratchet.Encrypt (Some seed) now p ad x = (x', r) ->
      move x out inc x' (match r with Ok em => out ++ [mkMsg em p ad] | _ => out end) inc
  | MoveReceive m rest seed now x' r :
      usable x seed -> inc = m :: rest ->
      Ratchet.Decrypt (Some seed) now (Header (enc m)) (Ciphertext (enc m)) (assoc m) x = (x', r) ->
      move x out inc x' out rest.

Inductive step : Net -> Net -> Prop :=
  | StepA a b ab ba a' ab' ba' : move a ab ba a' ab' ba' -> step (mkNet a b ab ba) (mkNet a' b ab' ba')
  | StepB a b ab ba b' ab' ba' : move b ba ab b' ba' ab' -> step (mkNet a b ab ba) (mkNet a b' ab' ba').

(** Both parties were set up from the same shared secret and signed prekey. *)
Definition start (n : Net) : Prop :=
  exists seedA tA tA' tB tB' hA hB sidA sidB ikA ikB sk spk SPK l,
    length seedA = 32%nat /\ dh_keypair spk SPK /\ hB !! l = Some spk /\
    NewDoubleRatchetStateInitiator (Some seedA) tA tA' hA sidA ikA ikB sk SPK = Ok (sideA n) /\
    NewDoubleRatchetStateResponder tB tB' hB sidB ikB ikA sk l SPK = Ok (sideB n) /\
    toB n = [] /\ toA n = [].

Definition inv (n : Net) : Prop :=
  (opening (sideA n) (toB n) (sideB n) /\ toA n = []) \/
  ahead (sideA n) (toB n) (toA n) (sideB n) \/
  ahead (sideB n) (toA n) (toB n) (sideA n).

Lemma start_inv n : start n -> inv n.
Proof.
  intros (seedA & tA & tA' & tB & tB' & hA & hB & sidA & sidB & ikA & ikB & sk & spk & SPK & l &
          Hl & HS & Hh & HA & HB & HtB & HtA).
  left. rewrite HtB, HtA. split; [|done].
  destruct (dh_keypair_exists _ Hl) as (A & HkA).
  destruct (dh_keypair_agree _ _ _ _ HkA HS) as (d & Hd1 & Hd2).
  unfold NewDoubleRatchetStateInitiator in HA. rewrite (generateX25519KeyPair_Ok _ _ HkA) in HA.
  cbn in HA. rewrite Hd1 in HA. cbn in HA. destruct (KDF_RK sk d) as [rk1 ck1] eqn:E.
  apply (proj1 (outcome_ret_Ok _ _)) in HA, HB. rewrite <- HA, <- HB.
  eapply (Unopened _ _ _ seedA A rk1 ck1 0 spk SPK sk d); cbn; try done; split; cbn; try done; [|by exists l].
  eexists; split; [done|]. apply lookup_insert_eq.
Qed.

Lemma move_ahead x cxy cyx y x' cxy' cyx' :
  ahead x cxy cyx y -> move x cxy cyx x' cxy' cyx' -> ahead x' cxy' cyx' y.
Proof.
  intros Ha [seed now p ad w r Hu HE | m rest seed now w r Hu -> HD].
  - destruct (ahead_send _ _ _ _ seed now p ad Ha Hu) as (w' & m & (em & HE' & ->) & Ha').
    rewrite HE in HE'. by injection HE' as -> ->.
  - destruct (ahead_receive _ _ _ _ _ seed now Ha) as (w' & HD' & Ha').
    unfold receives in HD'. rewrite HD in HD'. by injection HD' as -> ->.
Qed.

Lemma move_behind x cxy cyx y y' cyx' cxy' :
  ahead x cxy cyx y -> move y cyx cxy y' cyx' cxy' ->
  ahead x cxy' cyx' y' \/ ahead y' cyx' cxy' x.
Proof.
  intros Ha [seed now p ad w r Hu HE | m rest seed now w r Hu -> HD].
  - destruct (behind_send _ _ _ _ seed now p ad Ha Hu) as (w' & m & (em & HE' & ->) & Ha').
    rewrite HE in HE'. injection HE' as -> ->. by left.
  - destruct (behind_receive _ _ _ _ _ seed now Ha Hu) as (w' & HD' & Ha').
    unfold receives in HD'. rewrite HD in HD'. by injection HD' as -> ->.
Qed.

Lemma move_opening_a a cab b a' cab' cba' :
  opening a cab b -> move a cab [] a' cab' cba' -> opening a' cab' b /\ cba' = [].
Proof.
  intros Ha Hm. inversion Hm as [seed now p ad w r Hu HE | ]; [subst|done]. split; [|done].
  destruct (opening_send_a _ _ _ seed now p ad Ha Hu) as (w' & m & (em & HE' & ->) & Ha').
  rewrite HE in HE'. by injection HE' as -> ->.
Qed.

Lemma move_opening_b a cab b b' cba' cab' :
  opening a cab b -> move b [] cab b' cba' cab' ->
  (opening a cab' b' /\ cba' = []) \/ ahead b' cba' cab' a.
Proof.
  intros Ha [seed now p ad w r Hu HE | m rest seed now w r Hu -> HD].
  - destruct (decide (DHReceivingKeyPub (st b) = None)) as [Hn|Hn].
    + rewrite (unopened_send_b _ _ _ _ _ _ _ Ha Hn) in HE. injection HE as <- <-. by left.
    + destruct (opened_send_b _ _ _ seed now p ad Ha Hn Hu) as (w' & m & (em & HE' & ->) & Ha').
      rewrite HE in HE'. injection HE' as -> ->. by right.
  - destruct (opening_receive_b _ _ _ _ seed now Ha) as (w' & HD' & Ha').
    unfold receives in HD'. rewrite HD in HD'. injection HD' as -> ->. by left.
Qed.

Lemma step_inv n n' : inv n -> step n n' -> inv n'.
Proof.
  intros Hi Hs. destruct Hs as [a b ab ba a' ab' ba' Hm | a b ab ba b' ab' ba' Hm];
    unfold inv in *; cbn in *; destruct Hi as [[Ha ->]|[Ha|Ha]].
  - left. by eapply move_opening_a.
  - right; left. by eapply move_ahead.
  - right. destruct (move_behind _ _ _ _ _ _ _ Ha Hm); auto.
  - destruct (move_opening_b _ _ _ _ _ _ Ha Hm); auto.
  - right. destruct (move_behind _ _ _ _ _ _ _ Ha Hm); auto.
  - right; right. by eapply move_ahead.
Qed.

Lemma reachable_inv n0 n : start n0 -> rtc step n0 n -> inv n.
Proof.
  intros Hs Hr. apply start_inv in Hs. revert Hs. induction Hr; eauto using step_inv.
Qed.

(** C1. A Double Ratchet conversation works.  Start from an initiator and a
    responder created from the same shared secret and signed prekey, and let
    them send and receive in any interleaving over channels that keep the
    order of each direction.  In every state reached: the next message for
    either side decrypts to exactly the plaintext it was made from; the
    initiator can always encrypt; and the responder can encrypt as soon as it
    has received a message.  (A new ratchet key is 32 random bytes whose public key
    differs from the current one, and sending counters are below their last
    32-bit value.) *)
Theorem conversation_delivers n0 n seed now :
  start n0 -> rtc step n0 n ->
  (forall m rest, toB n = m :: rest -> usable (sideB n) seed ->
     exists w', receives (sideB n) seed now m w') /\
  (forall m rest, toA n = m :: rest -> usable (sideA n) seed ->
     exists w', receives (sideA n) seed now m w') /\
  (forall p ad, usable (sideA n) seed -> exists w' m, sends (sideA n) seed now p ad w' m) /\
  (forall p ad, usable (sideB n) seed -> DHReceivingKeyPub (st (sideB n)) <> None ->
     exists w' m, sends (sideB n) seed now p ad w' m).
Proof.
  intros Hs Hr. pose proof (reachable_inv _ _ Hs Hr) as Hi. destruct n as [a b ab ba].
  unfold inv in Hi; cbn in *.
  split; [|split; [|split]]; intros *; intros; subst; destruct Hi as [[Hi ?]|[Hi|Hi]]; subst; try done.
  - edestruct opening_receive_b as (? & ? & ?); eauto.
  - edestruct behind_receive as (? & ? & ?); eauto.
  - edestruct ahead_receive as (? & ? & ?); eauto.
  - edestruct ahead_receive as (? & ? & ?); eauto.
  - edestruct behind_receive as (? & ? & ?); eauto.
  - edestruct opening_send_a as (? & ? & ? & ?); eauto.
  - edestruct ahead_send as (? & ? & ? & ?); eauto.
  - edestruct behind_send as (? & ? & ? & ?); eauto.
  - edestruct opened_send_b as (? & ? & ? & ?); eauto.
  - edestruct behind_send as (? & ? & ? & ?); eauto.
  - edestruct ahead_send as (? & ? & ? & ?); eauto.
Qed.
End Session.

(** ** A concrete conversation

    The initiator sends "ping", the responder receives it and answers "pong",
    which is on its way at the end. *)
Module Demo.
Definition key (n : Z) : bytes := le_encode 32 n.
Definition pub (n : Z) : bytes := Toy.xor_bytes (key n) Basepoint.

Definition nobody : World :=
  mkWorld ∅ (mkDR "" [] [] None None None [] None 0 0 None 0 ∅ 0 0 0 false).
Definition world_of (o : outcome World) : World := match o with Ok w => w | _ => nobody end.

Definition a0 : World := world_of
  (NewDoubleRatchetStateInitiator (P := toy) (Some (key 21)) 0 0 ∅ "s" [] [] (key 5) (pub 3)).
Definition b0 : World := world_of
  (NewDoubleRatchetStateResponder 0 0 {[1%positive := key 3]} "s" [] [] (key 5) 1%positive (pub 3)).

Definition e1 := Ratchet.Encrypt (P := toy) (Some (key 22)) 1 (str "ping") (str "ad") a0.
Definition msgs (r : outcome EncryptedMessage) (p : bytes) : list Msg :=
  match r with Ok em => [] ++ [mkMsg em p (str "ad")] | _ => [] end.
Definition m1 : Msg := nth 0 (msgs e1.2 (str "ping")) (mkMsg (mkEncryptedMessage (mkHeader None 0 0) [] []) [] []).

Definition d1 := Ratchet.Decrypt (P := toy) (Some (key 23)) 2 (Header (enc m1))
  (Ciphertext (enc m1)) (assoc m1) b0.
Definition e2 := Ratchet.Encrypt (P := toy) (Some (key 24)) 3 (str "pong") (str "ad") d1.1.
Definition m2 : Msg := nth 0 (msgs e2.2 (str "pong")) m1.

Definition net0 : Net := mkNet a0 b0 [] [].
Definition net3 : Net := mkNet e1.1 e2.1 [] (msgs e2.2 (str "pong")).
End Demo.

Lemma conversation_delivers_witness :
  start (P := toy) Demo.net0 /\ rtc (step (P := toy)) Demo.net0 Demo.net3 /\
  toA Demo.net3 = [Demo.m2] /\ plain Demo.m2 = str "pong" /\
  exists w', receives (P := toy) (sideA Demo.net3) (Demo.key 25) 4 Demo.m2 w'.
Proof.
  assert (start (P := toy) Demo.net0) as Hs.
  { exists (Demo.key 21), 0, 0, 0, 0, ∅, {[1%positive := Demo.key 3]}, "s"%string, "s"%string,
      [], [], (Demo.key 5), (Demo.key 3), (Demo.pub 3), 1%positive.
    repeat split; vm_compute; reflexivity. }
  assert (rtc (step (P := toy)) Demo.net0 Demo.net3) as Hr.
  { eapply (rtc_l _ _ (mkNet Demo.e1.1 Demo.b0 [Demo.m1] [])).
    { apply StepA. apply (MoveSend (P := toy) Demo.a0 [] [] (Demo.key 22) 1 (str "ping") (str "ad") Demo.e1.1 Demo.e1.2);
        [|by apply surjective_pairing].
      split; [done|]. exists (Demo.pub 22). by repeat split; vm_compute. }
    eapply (rtc_l _ _ (mkNet Demo.e1.1 Demo.d1.1 [] [])).
    { apply StepB. eapply (MoveReceive (P := toy) Demo.b0 [] [Demo.m1] Demo.m1 [] (Demo.key 23) 2 Demo.d1.1 Demo.d1.2);
        [|done|by apply surjective_pairing].
      split; [done|]. exists (Demo.pub 23). by repeat split; vm_compute. }
    apply rtc_once, StepB.
    apply (MoveSend (P := toy) Demo.d1.1 [] [] (Demo.key 24) 3 (str "pong") (str "ad") Demo.e2.1 Demo.e2.2);
      [|by apply surjective_pairing].
    split; [by vm_compute|]. exists (Demo.pub 24). by repeat split; vm_compute. }
  assert (toA Demo.net3 = [Demo.m2]) as Ht by (vm_compute; reflexivity).
  split; [done|]. split; [done|]. split; [done|]. split; [vm_compute; reflexivity|].
  eapply (proj1 (proj2 (conversation_delivers (P := toy) _ _ (Demo.key 25) 4 Hs Hr))); [exact Ht|].
  split; [by vm_compute|]. exists (Demo.pub 25). by repeat split; vm_compute.
Defined.
