(* ===== verification/RatchetSkip.v ===== *)
(** * Double Ratchet sessions: skipped, late and repeated messages

    The cache of skipped message keys: messages of one chain decrypt in any
    order ([out_of_order_delivers]), the cache stays within [MaxSkippedKeys]
    ([skipped_keys_bounded]), and what happens to a session when a message
    comes twice ([replay_advances_chain]) and to the caller's signed prekey when
    the responder first answers ([responder_wipes_prekey]). *)
From S2P Require Import Prelude Primitives X3DH Ratchet RatchetSession.

Section Skip.
Context `{P : Primitives} `{!PrimitiveLaws P}.

#[local] Arguments KDF_CK : simpl never.
#[local] Arguments KDF_RK : simpl never.
#[local] Arguments DeriveNonce : simpl never.
#[local] Arguments generateX25519KeyPair : simpl never.
#[local] Arguments ckey : simpl never.
#[local] Arguments mkey : simpl never.
#[local] Arguments skippedKeyString : simpl never.

Lemma skippedKeyString_inj pub i j :
  skippedKeyString (Some pub) i = skippedKeyString (Some pub) j -> i = j.
Proof. unfold skippedKeyString. intros H. by simplify_eq. Qed.

(** [m] caches exactly the keys below [c] of the chain that are not in [del]. *)
Definition cache_ok (ck pub : bytes) (m : gmap string bytes) (c : nat) (del : list nat) : Prop :=
  (forall i, m !! skippedKeyString (Some pub) (Z.of_nat i) =
     if decide (i < c /\ i ∉ del)%nat then Some (mkey ck i) else None) /\
  (size m <= c)%nat /\ Forall (fun i => i < c)%nat del.

Lemma cacheKey_present k v m : m !! k = Some v -> cacheKey k v m = m.
Proof. intros H. unfold cacheKey. destruct (_ <? _)%nat; [|done]. by apply insert_id. Qed.

Lemma cache_ok_skip ck pub m c del :
  cache_ok ck pub m c del -> (c < 256)%nat ->
  cache_ok ck pub (cacheKey (skippedKeyString (Some pub) (Z.of_nat c)) (mkey ck c) m) (S c) del.
Proof.
  intros (Hm & Hs & Hd) Hc. unfold cacheKey, MaxSkippedKeys.
  rewrite (proj2 (Nat.ltb_lt _ _)) by lia.
  assert (forall i, i ∈ del -> i < c)%nat as Hd' by by apply Forall_forall.
  split; [|split].
  - intros i. destruct (decide (i = c)) as [->|Hne].
    + rewrite lookup_insert_eq, decide_True; [done|]. split; [lia|]. intros H%Hd'. lia.
    + rewrite lookup_insert_ne by (intros H%skippedKeyString_inj; lia). rewrite Hm.
      apply decide_ext. split; intros []; (split; [lia|done]).
  - rewrite map_size_insert, Hm, decide_False by lia. cbn. lia.
  - eapply Forall_impl; [done|]. cbn. lia.
Qed.

Lemma skip_loop_ok ck pub n m c del :
  cache_ok ck pub m c del -> (c + n <= 256)%nat ->
  cache_ok ck pub (skip_loop n (Some pub) (Z.of_nat c) (ckey ck c) m) (c + n) del.
Proof.
  revert m c; induction n as [|n IH]; intros m c Hm Hc; cbn; [by rewrite Nat.add_0_r|].
  rewrite KDF_CK_step, u32_succ by lia. rewrite <- Nat.add_succ_comm.
  apply IH; [|lia]. apply cache_ok_skip; [done|lia].
Qed.

(** The second pass over the same messages finds their keys cached. *)
Lemma advance_loop_cached ck pub n s c :
  ReceivingChainKey s = Some (ckey ck c) -> ReceivingChainCount s = Z.of_nat c ->
  DHReceivingKeyPub s = Some pub -> Z.of_nat (c + n) < 2 ^ 32 - 1 ->
  (forall i, (c <= i < c + n)%nat ->
     SkippedKeys s !! skippedKeyString (Some pub) (Z.of_nat i) = Some (mkey ck i)) ->
  advance_loop (Z.of_nat (c + n)) s =
    s <| ReceivingChainKey := Some (ckey ck (c + n)) |> <| ReceivingChainCount := Z.of_nat (c + n) |>.
Proof.
  intros Hk Hc Hp Hb Hm. unfold advance_loop. rewrite Hc.
  replace (Z.to_nat (Z.of_nat (c + n) - Z.of_nat c)) with n by lia.
  revert s c Hk Hc Hp Hb Hm; induction n as [|n IH]; intros s c Hk Hc Hp Hb Hm.
  - rewrite Nat.add_0_r. cbn. destruct s; cbn in *; by subst.
  - rewrite Nat.iter_succ_r.
    assert (advance1 s = s <| ReceivingChainKey := Some (ckey ck (S c)) |>
                           <| ReceivingChainCount := Z.of_nat (S c) |>) as ->.
    { unfold advance1. rewrite Hk. cbn. rewrite KDF_CK_step, Hp, Hc, u32_succ by lia.
      rewrite cacheKey_present by (apply Hm; lia). by destruct s. }
    rewrite (IH _ (S c)); cbn; try done; [|lia|intros; apply Hm; lia].
    by rewrite <- Nat.add_succ_comm.
Qed.

(** ** Any order of one chain's messages *)

Record receiver (w : World) (ck pub : bytes) (c : nat) (del : list nat) : Prop := {
  r_rcv : ReceivingChainKey (st w) = Some (ckey ck c);
  r_cnt : ReceivingChainCount (st w) = Z.of_nat c;
  r_pub : DHReceivingKeyPub (st w) = Some pub;
  r_cache : cache_ok ck pub (SkippedKeys (st w)) c del;
}.

Lemma receiver_header w ck pub c del rnd h :
  receiver w ck pub c del -> DHRatchetPub h = Some pub -> receiveHeader rnd h w = (w, Ok tt).
Proof. intros [] Hh. unfold receiveHeader, getS. go_run. by rewrite Hh, r_pub0, equalKeys_refl. Qed.

(** A message below the counter that has not been delivered is in the cache. *)
Lemma Decrypt_late w ck pub pn c del i rnd now m :
  receiver w ck pub c del -> (i < c)%nat -> i ∉ del -> msg_ok ck pub pn i m ->
  exists w', Ratchet.Decrypt rnd now (Header (enc m)) (Ciphertext (enc m)) (assoc m) w = (w', Ok (plain m)) /\
    receiver w' ck pub c (i :: del).
Proof.
  intros Hr Hi Hd Hm. pose proof (decryptWithKey_msg _ _ _ _ _ Hm) as HD.
  unfold Ratchet.Decrypt, getSkippedKey. go_run.
  rewrite (receiver_header _ _ _ _ _ _ _ Hr (msg_ok_pub _ _ _ _ _ Hm)). go_run.
  destruct Hm as [HH _]. rewrite HH in *. destruct Hr as [Hrcv Hcnt Hpub (Hmap & Hsz & Hdel)]. cbn.
  rewrite Hmap, decide_True by done. rewrite HD. eexists; split; [reflexivity|].
  split; cbn; try done. split; [|split; [|by constructor]].
  - intros j. destruct (decide (j = i)) as [->|Hne].
    + rewrite lookup_delete_eq, decide_False; [done|]. rewrite elem_of_cons. tauto.
    + rewrite lookup_delete_ne by (intros H%skippedKeyString_inj; lia). rewrite Hmap.
      apply decide_ext. rewrite elem_of_cons. tauto.
  - rewrite map_size_delete, Hmap, decide_True by done. lia.
Qed.

(** A message at or above the counter: the keys before it are cached first
    ([skip_to]), then the chain is advanced over them a second time. *)
Lemma skip_to w ck pub c del n h :
  receiver w ck pub c del -> MessageNumber h = Z.of_nat (c + n) ->
  (if MessageNumber h >? ReceivingChainCount (st w)
   then wrap "failed to skip messages" (skipMessages h) else mret tt) w =
  (w <| st := st w <| SkippedKeys :=
     skip_loop n (Some pub) (Z.of_nat c) (ckey ck c) (SkippedKeys (st w)) |> |>, Ok tt).
Proof.
  intros [Hrcv Hcnt Hpub Hc] Hh. rewrite Hh, Hcnt.
  destruct (Z.gtb_spec (Z.of_nat (c + n)) (Z.of_nat c)) as [Hgt|Hle].
  - unfold skipMessages, getS, upd. go_run. rewrite Hrcv. go_run. rewrite Hcnt, Hpub, Hh.
    by replace (Z.to_nat (Z.of_nat (c + n) - Z.of_nat c)) with n by lia.
  - assert (n = 0%nat) as -> by lia. cbn. by destruct w as [h' []].
Qed.

Lemma decryptFromChain_skip w ck pub pn c del n now m :
  receiver w ck pub c del -> (c + n <= 256)%nat -> msg_ok ck pub pn (c + n) m ->
  exists w', decryptFromChain now (Header (enc m)) (Ciphertext (enc m)) (assoc m) w = (w', Ok (plain m)) /\
    receiver w' ck pub (S (c + n)) ((c + n)%nat :: del).
Proof.
  intros Hr Hn Hm. pose proof (decryptWithKey_msg _ _ _ _ _ Hm) as HD.
  destruct Hm as [HH _]. pose proof (f_equal MessageNumber HH) as HN. cbn in HN.
  unfold decryptFromChain, advanceReceivingChain, getS, upd.
  rewrite (bind_Ok _ _ w w (st w)), (bind_Ok _ _ _ _ _ (skip_to w ck pub c del n _ Hr HN)) by done.
  destruct Hr as [Hrcv Hcnt Hpub Hc].
  pose proof (skip_loop_ok ck pub n _ c del Hc Hn) as (Hmap & Hsz & Hdel).
  rewrite HH. go_run. rewrite (advance_loop_cached ck pub n _ c); cbn; try done; [|lia|].
  2: { intros i Hi. rewrite Hmap, decide_True; [done|]. split; [lia|].
       intros Hin. destruct Hc as (_ & _ & Hd). rewrite Forall_forall in Hd. specialize (Hd _ Hin). lia. }
  rewrite KDF_CK_step, HD. eexists; split; [reflexivity|].
  split; cbn; try done; [by rewrite u32_succ by lia|].
  split; [|split; [lia|]].
  - intros i. rewrite Hmap. apply decide_ext. rewrite elem_of_cons. split; [|intuition lia].
    intros []. split; [lia|]. intros [->|]; [lia|done].
  - constructor; [lia|]. eapply Forall_impl; [done|]. cbn. lia.
Qed.

Lemma Decrypt_ahead w ck pub pn c del n rnd now m :
  receiver w ck pub c del -> (c + n <= 256)%nat -> msg_ok ck pub pn (c + n) m ->
  exists w', Ratchet.Decrypt rnd now (Header (enc m)) (Ciphertext (enc m)) (assoc m) w = (w', Ok (plain m)) /\
    receiver w' ck pub (S (c + n)) ((c + n)%nat :: del).
Proof.
  intros Hr Hn Hm. unfold Ratchet.Decrypt, getSkippedKey. go_run.
  rewrite (receiver_header _ _ _ _ _ _ _ Hr (msg_ok_pub _ _ _ _ _ Hm)). go_run.
  assert (SkippedKeys (st w) !! skippedKeyString (DHRatchetPub (Header (enc m)))
            (MessageNumber (Header (enc m))) = None) as Hnone.
  { destruct Hr as [_ _ _ (Hmap & _)], Hm as [-> _]. cbn. rewrite Hmap, decide_False; [done|lia]. }
  rewrite Hnone, delete_id by done. eapply decryptFromChain_skip; [|done..].
  destruct Hr. by split.
Qed.

(** Decrypting a list of messages one after the other. *)
Fixpoint receive_all (rnd : option bytes) (now : Z) (ms : list Msg) (w : World) : list (outcome bytes) :=
  match ms with
  | [] => []
  | m :: ms' =>
      let '(w', r) := Ratchet.Decrypt rnd now (Header (enc m)) (Ciphertext (enc m)) (assoc m) w in
      r :: receive_all rnd now ms' w'
  end.

Lemma receive_all_ok ck pub pn rnd now (ns : list nat) ms w c del :
  receiver w ck pub c del -> NoDup ns -> Forall (fun i => i <= 256 /\ i ∉ del)%nat ns ->
  Forall2 (msg_ok ck pub pn) ns ms ->
  receive_all rnd now ms w = Ok ∘ plain <$> ms.
Proof.
  intros Hr Hnd Hall Hms. revert w c del Hr Hnd Hall.
  induction Hms as [|i m ns ms Hm Hms IH]; intros w c del Hr Hnd Hall; [done|].
  apply NoDup_cons in Hnd as [Hi Hnd]. apply Forall_cons in Hall as [[Hle Hdel] Hall].
  assert (forall del', Forall (fun j => j <= 256 /\ j ∉ i :: del')%nat ns <->
                       Forall (fun j => j <= 256 /\ j ∉ del')%nat ns) as Hcons.
  { intros del'. rewrite !Forall_forall. setoid_rewrite elem_of_cons.
    split; intros H j Hj; specialize (H j Hj); intuition; by subst. }
  cbn. destruct (decide (i < c)%nat) as [Hlt|Hge].
  - destruct (Decrypt_late _ _ _ _ _ _ _ rnd now m Hr Hlt Hdel Hm) as (w' & -> & Hr').
    f_equal. eapply IH; [done|done|]. by apply Hcons.
  - replace i with (c + (i - c))%nat in Hm, Hle by lia.
    destruct (Decrypt_ahead _ _ _ _ _ _ _ rnd now m Hr Hle Hm) as (w' & -> & Hr').
    f_equal. replace (c + (i - c))%nat with i in Hr' by lia.
    eapply IH; [done|done|]. by apply Hcons.
Qed.

(** C5. Messages of one sending chain may arrive in any order.  For a party
    at the start of a receiving chain with an empty cache, any sequence of
    distinct messages of that chain whose numbers are at most
    [MaxSkippedKeys] decrypts, one after the other, to the plaintexts they
    were made from, whatever their order and whichever messages are missing. *)
Theorem out_of_order_delivers ck pub pn rnd now (ns : list nat) ms w :
  ReceivingChainKey (st w) = Some ck -> ReceivingChainCount (st w) = 0 ->
  DHReceivingKeyPub (st w) = Some pub -> SkippedKeys (st w) = ∅ ->
  NoDup ns -> Forall (fun i => i <= MaxSkippedKeys)%nat ns ->
  Forall2 (msg_ok ck pub pn) ns ms ->
  receive_all rnd now ms w = Ok ∘ plain <$> ms.
Proof.
  intros Hk Hc Hp Hs Hnd Hle Hms. eapply (receive_all_ok ck pub pn rnd now ns ms w 0 []); try done.
  - split; try done. rewrite Hs. split; [|by split].
    intros i. rewrite lookup_empty, decide_False; [done|lia].
  - eapply Forall_impl; [done|]. cbn. intros i Hi. split; [done|apply not_elem_of_nil].
Qed.

(** ** The size of the cache *)

Definition bounded (w : World) : Prop := (size (SkippedKeys (st w)) <= MaxSkippedKeys)%nat.
Definition keeps {A} (m : GoM World A) : Prop := forall w, bounded w -> bounded (m w).1.

Lemma keeps_bind {A B} (m : GoM World A) (k : A -> GoM World B) :
  keeps m -> (forall a, keeps (k a)) -> keeps (x ← m; k x).
Proof.
  intros Hm Hk w Hw. specialize (Hm w Hw). unfold mbind, GoM_bind.
  destruct (m w) as [w' [a| |]]; cbn in *; [|done..]. by apply Hk.
Qed.

Lemma keeps_upd f :
  (forall s, (size (SkippedKeys s) <= MaxSkippedKeys)%nat ->
             (size (SkippedKeys (f s)) <= MaxSkippedKeys)%nat) -> keeps (upd f).
Proof. intros Hf w Hw. by apply Hf. Qed.

Lemma keeps_ret {A} (a : A) : keeps (mret a). Proof. by intros w. Qed.
Lemma keeps_throw {A} e : keeps (throw (A := A) e). Proof. by intros w. Qed.
Lemma keeps_panic {A} : keeps (panic (A := A)). Proof. by intros w. Qed.
Lemma keeps_lift {A} (o : outcome A) : keeps (lift o). Proof. by intros w. Qed.
Lemma keeps_getS : keeps getS. Proof. by intros w. Qed.
Lemma keeps_alloc b : keeps (alloc b). Proof. by intros w. Qed.
Lemma keeps_zeroBytes l : keeps (zeroBytes l). Proof. by intros w. Qed.
Lemma keeps_wrap {A} c (m : GoM World A) : keeps m -> keeps (wrap c m).
Proof. intros Hm w Hw. specialize (Hm w Hw). unfold wrap. by destruct (m w). Qed.

Lemma keeps_deref p : keeps (deref p).
Proof. intros w. unfold deref. destruct p as [l|]; [|done]. by destruct (heap w !! l). Qed.

Lemma cacheKey_bounded k v m :
  (size m <= MaxSkippedKeys)%nat -> (size (cacheKey k v m) <= MaxSkippedKeys)%nat.
Proof.
  intros H. unfold cacheKey. destruct (_ <? _)%nat eqn:E; [|done].
  apply Nat.ltb_lt in E. rewrite map_size_insert. destruct (m !! k); cbn; lia.
Qed.

Lemma advance_loop_bounded n s :
  (size (SkippedKeys s) <= MaxSkippedKeys)%nat ->
  (size (SkippedKeys (advance_loop n s)) <= MaxSkippedKeys)%nat.
Proof.
  intros H. unfold advance_loop. apply Nat.iter_invariant; [|done].
  intros x Hx. unfold advance1. destruct (KDF_CK _). cbn. by apply cacheKey_bounded.
Qed.

Lemma skip_loop_bounded n pub c ck m :
  (size m <= MaxSkippedKeys)%nat -> (size (skip_loop n pub c ck m) <= MaxSkippedKeys)%nat.
Proof.
  revert c ck m; induction n as [|n IH]; intros c ck m Hm; cbn; [done|].
  destruct (KDF_CK ck). apply IH. by apply cacheKey_bounded.
Qed.

Lemma keeps_getSkippedKey h : keeps (getSkippedKey h).
Proof.
  intros w Hw. unfold bounded in *. cbn. rewrite map_size_delete.
  destruct (_ !! _); cbn; [|done]. lia.
Qed.

Create HintDb keeps discriminated.
#[local] Hint Resolve keeps_bind keeps_upd keeps_ret keeps_throw keeps_panic keeps_lift keeps_getS
  keeps_alloc keeps_zeroBytes keeps_wrap keeps_deref keeps_getSkippedKey
  advance_loop_bounded skip_loop_bounded : keeps.

Ltac keeps :=
  repeat first
    [ progress intros | done | solve [eauto 2 with keeps]
    | match goal with
      | |- keeps (mbind _ _) => apply keeps_bind
      | |- keeps (wrap _ _) => apply keeps_wrap
      | |- keeps (upd _) => apply keeps_upd; intros; cbn
      | |- keeps (match ?x with _ => _ end) => destruct x
      | |- (size (match ?x with _ => _ end) <= _)%nat => destruct x
      end ].

Lemma keeps_dhRatchetSend rnd : keeps (dhRatchetSend rnd).
Proof. unfold dhRatchetSend. keeps. Qed.
#[local] Hint Resolve keeps_dhRatchetSend : keeps.

Lemma keeps_receiveHeader rnd h : keeps (receiveHeader rnd h).
Proof. unfold receiveHeader, dhRatchetReceive, cacheSkippedKeys. keeps. Qed.

Lemma keeps_decryptFromChain now h c ad : keeps (decryptFromChain now h c ad).
Proof. unfold decryptFromChain, advanceReceivingChain, skipMessages. keeps. Qed.
#[local] Hint Resolve keeps_receiveHeader keeps_decryptFromChain : keeps.

(** C7. The cache of skipped message keys never grows beyond [MaxSkippedKeys],
    whatever headers and ciphertexts arrive and however the calls end. *)
Theorem skipped_keys_bounded rnd now w :
  (size (SkippedKeys (st w)) <= MaxSkippedKeys)%nat ->
  (forall p ad, size (SkippedKeys (st (Ratchet.Encrypt rnd now p ad w).1)) <= MaxSkippedKeys)%nat /\
  (forall h c ad, size (SkippedKeys (st (Ratchet.Decrypt rnd now h c ad w).1)) <= MaxSkippedKeys)%nat.
Proof.
  intros Hw. split; intros.
  - apply (fun H : keeps (Ratchet.Encrypt rnd now p ad) => H w Hw). unfold Ratchet.Encrypt. keeps.
  - apply (fun H : keeps (Ratchet.Decrypt rnd now h c ad) => H w Hw). unfold Ratchet.Decrypt. keeps.
Qed.

(** A repeated message desynchronises the session.  A header of the current
    ratchet key whose number is below the receiving counter and whose key is no
    longer cached is not refused: whatever it carries, the receiving chain key
    moves one step on and the counter is incremented, and the message key of
    the next expected message is spent on it. *)
Theorem replay_advances_chain rnd now h c ad w pub ck :
  DHReceivingKeyPub (st w) = Some pub -> ReceivingChainKey (st w) = Some ck ->
  DHRatchetPub h = Some pub -> MessageNumber h < ReceivingChainCount (st w) ->
  SkippedKeys (st w) !! skippedKeyString (Some pub) (MessageNumber h) = None ->
  Ratchet.Decrypt rnd now h c ad w =
    (w <| st := st w <| ReceivingChainKey := Some (KDF_CK ck).1 |>
                     <| ReceivingChainCount := u32 (ReceivingChainCount (st w) + 1) |>
                     <| LastUsedAt := now |> |>,
     decryptWithKey (KDF_CK ck).2 (MessageNumber h) c ad).
Proof.
  intros Hp Hk Hh Hn Hs. unfold Ratchet.Decrypt, receiveHeader, getSkippedKey, getS. go_run.
  rewrite Hh, Hp, equalKeys_refl. go_run. rewrite Hs, delete_id by done.
  unfold decryptFromChain, advanceReceivingChain, getS, upd. go_run.
  rewrite (Z.gtb_ltb (MessageNumber h)), (proj2 (Z.ltb_ge _ _)) by lia. go_run.
  rewrite advance_loop_done by (cbn; lia). cbn. rewrite Hk. cbn. destruct (KDF_CK ck). go_run.
  by destruct w as [? []].
Qed.

(** The responder's first answer destroys the caller's signed prekey.  The
    state created by [NewDoubleRatchetStateResponder] shares the array of the
    signed prekey it was given; the ratchet step of the first [Encrypt] wipes
    the private key it replaces, so the caller's prekey is all zeros
    afterwards although it serves other sessions. *)
Theorem responder_wipes_prekey seed now p ad w w' l spk em :
  SendingChainKey (st w) = None -> DHSendingKeyPriv (st w) = Some l -> heap w !! l = Some spk ->
  Ratchet.Encrypt (Some seed) now p ad w = (w', Ok em) ->
  heap w' !! l = Some (zeros (length spk)).
Proof.
  intros Hs Hl Hh HE. destruct (dhRatchetSend (Some seed) w) as [w1 r1] eqn:HR.
  assert (r1 = Ok tt) as ->.
  { unfold Ratchet.Encrypt, getS in HE. revert HE. go_run. rewrite Hs. go_run. rewrite HR.
    by destruct r1 as [[]| |]. }
  assert (heap w1 !! l = Some (zeros (length spk)) /\ SendingChainKey (st w1) <> None) as [H1 H2].
  { unfold dhRatchetSend, getS, alloc, zeroBytes, upd in HR. revert HR. go_run.
    destruct (DHReceivingKeyPub (st w)); [|done]. go_run.
    destruct (generateX25519KeyPair (Some seed)) as [[priv pub]| |]; [|done..]. go_run.
    destruct (x25519 priv _) as [d|]; [|done]. destruct (KDF_RK _ d) as [rk ck]. rewrite Hl. go_run.
    intros [= <-]. cbn. split; [|done].
    rewrite lookup_alter_eq, lookup_insert_ne, Hh; [done|].
    intros Hf.  apply (is_fresh (dom (heap w))). rewrite elem_of_dom, Hf. eauto. }
  rewrite (Encrypt_ratchet w w1) in HE by done.
  revert HE. unfold Ratchet.Encrypt, getS, upd. go_run.
  destruct (SendingChainKey (st w1)) as [ck|] eqn:E; [|done]. go_run. rewrite E. cbn.
  destruct (KDF_CK ck) as [ck' mk]. go_run. destruct (DeriveNonce _ _) as [n| |]; [|done..].
  destruct (negb _); [done|]. go_run. by intros [= <- <-].
Qed.
End Skip.

(** ** Concrete runs: two messages, then the first one again *)
Module SkipDemo.
Definition e2 := Ratchet.Encrypt (P := toy) (Some (Demo.key 31)) 5 (str "two") (str "ad") Demo.e1.1.
Definition m2 : Msg := nth 0 (Demo.msgs e2.2 (str "two")) Demo.m1.
Definition header0 : World :=
  (receiveHeader (P := toy) (Some (Demo.key 32)) (Header (enc Demo.m1)) Demo.b0).1.
Definition recv (m : Msg) (w : World) :=
  Ratchet.Decrypt (P := toy) (Some (Demo.key 33)) 6 (Header (enc m)) (Ciphertext (enc m)) (assoc m) w.
Definition chain : bytes := default [] (ReceivingChainKey (st header0)).
End SkipDemo.

(** The second message first, then the first one. *)
Lemma out_of_order_delivers_witness :
  plain <$> [SkipDemo.m2; Demo.m1] = [str "two"; str "ping"] /\
  receive_all (P := toy) None 7 [SkipDemo.m2; Demo.m1] SkipDemo.header0 =
    Ok ∘ plain <$> [SkipDemo.m2; Demo.m1].
Proof.
  split; [vm_compute; reflexivity|].
  apply (out_of_order_delivers (P := toy) SkipDemo.chain (Demo.pub 21) 0 None 7 [1%nat; 0%nat]
           [SkipDemo.m2; Demo.m1]).
  1-4: vm_compute; reflexivity.
  - apply (bool_decide_unpack (NoDup [1%nat; 0%nat])). done.
  - repeat constructor; apply Nat.leb_le; reflexivity.
  - constructor; [|constructor; [|constructor]].
    + split; [vm_compute; reflexivity|].
      exists (Nonce (enc SkipDemo.m2)). split; [|split]; vm_compute; reflexivity.
    + split; [vm_compute; reflexivity|].
      exists (Nonce (enc Demo.m1)). split; [|split]; vm_compute; reflexivity.
Defined.

Lemma skipped_keys_bounded_witness :
  (size (SkippedKeys (st (SkipDemo.recv SkipDemo.m2 Demo.b0).1)) <= MaxSkippedKeys)%nat.
Proof.
  apply (skipped_keys_bounded (P := toy) (Some (Demo.key 33)) 6 Demo.b0).
  apply Nat.leb_le. vm_compute. reflexivity.
Defined.

(** After the first message came a second time the second one, which is
    genuine and in order, no longer decrypts. *)
Lemma replay_advances_chain_witness :
  let w := Demo.d1.1 in
  Demo.d1.2 = Ok (str "ping") /\
  (SkipDemo.recv SkipDemo.m2 w).2 = Ok (str "two") /\
  ReceivingChainCount (st (SkipDemo.recv Demo.m1 w).1) = 2 /\
  is_Ok (SkipDemo.recv SkipDemo.m2 (SkipDemo.recv Demo.m1 w).1).2 = false.
Proof.
  intros w. split; [vm_compute; reflexivity|]. split; [vm_compute; reflexivity|].
  split; [|vm_compute; reflexivity].
  unfold SkipDemo.recv.
  rewrite (replay_advances_chain (P := toy) (Some (Demo.key 33)) 6 (Header (enc Demo.m1))
             (Ciphertext (enc Demo.m1)) (assoc Demo.m1) w (Demo.pub 21)
             (default [] (ReceivingChainKey (st w)))); vm_compute; reflexivity.
Defined.

Lemma responder_wipes_prekey_witness :
  heap Demo.d1.1 !! 1%positive = Some (Demo.key 3) /\
  heap Demo.e2.1 !! 1%positive = Some (zeros 32).
Proof.
  split; [vm_compute; reflexivity|].
  eapply (responder_wipes_prekey (P := toy) (Demo.key 24) 3 (str "pong") (str "ad") Demo.d1.1 Demo.e2.1 1%positive
           (Demo.key 3)); vm_compute; reflexivity.
Defined.
