(* ===== verification/Proto.v ===== *)
(** * Protocol buffers

    The generated message code ([pkg/proto]) is not modelled: a message type is
    a record of the fields the sources use, and [proto.Marshal] and
    [proto.Unmarshal] are the two functions of the class [Codec], with the
    round trip as the only law.  [countable_codec] is a concrete codec for any
    countable type; the concrete examples run on it. *)
From S2P Require Import Prelude.

Class Codec (A : Type) := {
  marshal : A -> option bytes;
  unmarshal : bytes -> option A;
}.

Class CodecLaws (A : Type) {C : Codec A} : Prop := {
  unmarshal_marshal a b : marshal a = Some b -> unmarshal b = Some a;
}.

(** Messages that are always valid. *)
Class CodecTotal (A : Type) {C : Codec A} : Prop := { marshal_total (a : A) : is_Some (marshal a) }.

(** [proto.Marshal] and [proto.Unmarshal] with the error text of their caller. *)
Definition proto_Marshal {A} `{Codec A} (a : A) : outcome bytes := ext "proto.Marshal" (marshal a).
Definition proto_Unmarshal {A} `{Codec A} (b : bytes) : outcome A := ext "proto.Unmarshal" (unmarshal b).

Section Countable.
Context {A : Type} `{Countable A}.

Definition encode_bytes (a : A) : bytes :=
  let p := encode a in le_encode (Z.to_nat (Z.log2 (Z.pos p) / 8 + 1)) (Z.pos p).

Definition decode_bytes (b : bytes) : option A :=
  match le_decode b with Z.pos p => decode p | _ => None end.

Lemma decode_encode_bytes a : decode_bytes (encode_bytes a) = Some a.
Proof.
  unfold decode_bytes, encode_bytes. rewrite le_decode_encode; [apply decode_encode|].
  split; [done|]. pose proof (Z.log2_nonneg (Z.pos (encode a))) as H0.
  pose proof (Z.div_pos (Z.log2 (Z.pos (encode a))) 8 H0).
  rewrite Z2Nat.id by lia. change 256 with (2 ^ 8). rewrite <- Z.pow_mul_r by lia.
  apply Z.log2_lt_pow2; [done|].
  pose proof (Z.div_mod (Z.log2 (Z.pos (encode a))) 8 ltac:(lia)).
  pose proof (Z.mod_pos_bound (Z.log2 (Z.pos (encode a))) 8 ltac:(lia)). lia.
Qed.

Definition countable_codec : Codec A := {| marshal a := Some (encode_bytes a); unmarshal := decode_bytes |}.

Lemma countable_codec_laws : CodecLaws A (C := countable_codec).
Proof. split. intros a b [= <-]. apply decode_encode_bytes. Qed.
End Countable.

#[export] Instance countable_total {A} `{Countable A} : CodecTotal A (C := countable_codec).
Proof. split; by eauto. Qed.
