(* ===== verification/Envelope.v ===== *)
(** * pkg/protocol/envelope.go: the protocol v1 envelope

    [EnvelopeBuilder], [Build] with its signature, [VerifyEnvelope], the topic
    derivations and the payload parsers.  [serializeForSigning] and the
    serialisation inlined in [VerifyEnvelope] are translated separately.
    Slices whose length only is tested are byte lists (nil is the empty list);
    the header pointer is an option. *)
From S2P Require Import Prelude Primitives Proto.

Definition ProtocolVersion1 : Z := 1.
Definition DefaultCipherSuite : Z := 1.

Definition TopicDMPrefix : string := "babylon-dm-".
Definition TopicGroupPrefix : string := "babylon-grp-".
Definition TopicChannelPrefix : string := "babylon-ch-".
Definition TopicRevocationPrefix : string := "babylon-rev-".
Definition TopicSyncPrefix : string := "babylon-sync-".

(** [pb.X3DHHeader] *)
Record X3DHHeader := mkX3DHHeader {
  InitiatorIdentityDhPub : bytes;
  EphemeralPub : bytes;
  SignedPrekeyId : Z;
  OneTimePrekeyId : Z;
  xh_CipherSuiteId : Z;
}.

(** [pb.BabylonEnvelope] *)
Record BabylonEnvelope := mkEnvelope {
  ProtocolVersion : Z;
  MessageType : Z;
  SenderIdentity : bytes;
  RecipientIdentity : bytes;
  Timestamp : Z;
  MessageId : bytes;
  GroupId : bytes;
  ChannelId : bytes;
  Payload : bytes;
  SenderDeviceId : bytes;
  Signature : bytes;
  CipherSuiteId : Z;
  X3DhHeader : bytes;
}.

#[export] Instance eta_Envelope : Eta BabylonEnvelope := fun e =>
  mkEnvelope (ProtocolVersion e) (MessageType e) (SenderIdentity e) (RecipientIdentity e)
    (Timestamp e) (MessageId e) (GroupId e) (ChannelId e) (Payload e) (SenderDeviceId e)
    (Signature e) (CipherSuiteId e) (X3DhHeader e).

Record EnvelopeBuilder := mkBuilder {
  messageType : Z;
  senderIdentity : bytes;
  senderDeviceID : bytes;
  senderPrivKey : bytes;
  recipientIdentity : bytes;
  groupID : bytes;
  channelID : bytes;
  payload : bytes;
  x3dhHeader : option X3DHHeader;
  cipherSuiteID : Z;
}.

#[export] Instance eta_Builder : Eta EnvelopeBuilder := fun b =>
  mkBuilder (messageType b) (senderIdentity b) (senderDeviceID b) (senderPrivKey b)
    (recipientIdentity b) (groupID b) (channelID b) (payload b) (x3dhHeader b) (cipherSuiteID b).

Definition NewEnvelopeBuilder (senderIdentity senderDeviceID senderPrivKey : bytes) : EnvelopeBuilder :=
  mkBuilder 0 senderIdentity senderDeviceID senderPrivKey [] [] [] [] None DefaultCipherSuite.

(** The setters, under their Go names where they do not clash with the fields
    of the envelope. *)
Definition setMessageType (mt : Z) (b : EnvelopeBuilder) : EnvelopeBuilder := b <| messageType := mt |>.
Definition Recipient (r : bytes) (b : EnvelopeBuilder) : EnvelopeBuilder := b <| recipientIdentity := r |>.
Definition Group (g : bytes) (b : EnvelopeBuilder) : EnvelopeBuilder := b <| groupID := g |>.
Definition Channel (c : bytes) (b : EnvelopeBuilder) : EnvelopeBuilder := b <| channelID := c |>.
Definition setPayload (p : bytes) (b : EnvelopeBuilder) : EnvelopeBuilder := b <| payload := p |>.
Definition setX3DHHeader (h : option X3DHHeader) (b : EnvelopeBuilder) : EnvelopeBuilder :=
  b <| x3dhHeader := h |>.
Definition CipherSuite (s : Z) (b : EnvelopeBuilder) : EnvelopeBuilder := b <| cipherSuiteID := s |>.

(** [if len(x) > 0 { data = append(data, x...) }] *)
Definition append_opt (data x : bytes) : bytes :=
  if (0 <? length x)%nat then data ++ x else data.

Definition serializeForSigning (env : BabylonEnvelope) : bytes :=
  let data := le_encode 4 (ProtocolVersion env) in
  let data := data ++ le_encode 4 (u32 (MessageType env)) in
  let data := data ++ SenderIdentity env in
  let data := append_opt data (RecipientIdentity env) in
  let data := data ++ le_encode 8 (Timestamp env) in
  let data := data ++ MessageId env in
  let data := append_opt data (GroupId env) in
  let data := append_opt data (ChannelId env) in
  let data := if (0 <? length (Payload env))%nat
              then (data ++ le_encode 4 (u32 (Z.of_nat (length (Payload env))))) ++ Payload env
              else data in
  data ++ SenderDeviceId env.

Section Envelope.
Context `{P : Primitives} `{!Codec X3DHHeader}.

Definition signEnvelope (b : EnvelopeBuilder) (env : BabylonEnvelope) : outcome bytes :=
  ed25519_Sign (senderPrivKey b) (serializeForSigning env).

(** [rnd]: the 16 random bytes of the message id; [now]: [time.Now().Unix()]. *)
Definition Build (rnd : option bytes) (now : Z) (b : EnvelopeBuilder) : outcome BabylonEnvelope :=
  messageID ← wrapErr "failed to generate message ID" (ext "rand.Reader" rnd);
  x3dhHeaderBytes ← match x3dhHeader b with
                    | Some h => wrapErr "failed to marshal X3DH header" (proto_Marshal h)
                    | None => mret []
                    end;
  let envelope := mkEnvelope ProtocolVersion1 (messageType b) (senderIdentity b)
    (recipientIdentity b) (u64 now) messageID (groupID b) (channelID b) (payload b)
    (senderDeviceID b) [] (cipherSuiteID b) x3dhHeaderBytes in
  signature ← wrapErr "failed to sign envelope" (signEnvelope b envelope);
  mret (envelope <| Signature := signature |>).

Definition VerifyEnvelope (env : BabylonEnvelope) : outcome unit :=
  if negb (length (SenderIdentity env) =? 32)%nat then Err (ErrText "invalid sender identity length")
  else
    let data := [] ++ le_encode 4 (ProtocolVersion env) in
    let data := data ++ le_encode 4 (u32 (MessageType env)) in
    let data := data ++ SenderIdentity env in
    let data := append_opt data (RecipientIdentity env) in
    let data := data ++ le_encode 8 (Timestamp env) in
    let data := data ++ MessageId env in
    let data := append_opt data (GroupId env) in
    let data := append_opt data (ChannelId env) in
    let data := if (0 <? length (Payload env))%nat
                then (data ++ le_encode 4 (u32 (Z.of_nat (length (Payload env))))) ++ Payload env
                else data in
    let data := data ++ SenderDeviceId env in
    ok ← ed25519_Verify (SenderIdentity env) data (Signature env);
    if negb ok then Err (ErrText "invalid envelope signature") else mret tt.

Definition derive_topic (prefix : string) (key : bytes) : string :=
  let hash := sha256 key in
  (prefix +:+ hex (take 8 hash))%string.

Definition DeriveDMTopic (recipientIdentity : bytes) : string := derive_topic TopicDMPrefix recipientIdentity.
Definition DeriveGroupTopic (groupID : bytes) : string := derive_topic TopicGroupPrefix groupID.
Definition DeriveChannelTopic (channelID : bytes) : string := derive_topic TopicChannelPrefix channelID.
Definition DeriveRevocationTopic (identityPub : bytes) : string := derive_topic TopicRevocationPrefix identityPub.
Definition DeriveSyncTopic (rootIdentityPub : bytes) : string := derive_topic TopicSyncPrefix rootIdentityPub.

Definition ParseX3DHHeader (headerBytes : bytes) : outcome X3DHHeader :=
  wrapErr "failed to unmarshal X3DH header" (proto_Unmarshal headerBytes).

(** The messages inside a payload are generated types. *)
Definition ParseDMPayload {DMPayload} `{!Codec DMPayload} (payloadBytes : bytes) : outcome DMPayload :=
  wrapErr "failed to unmarshal DM payload" (proto_Unmarshal payloadBytes).
Definition ParseGroupPayload {GroupPayload} `{!Codec GroupPayload} (payloadBytes : bytes) : outcome GroupPayload :=
  wrapErr "failed to unmarshal group payload" (proto_Unmarshal payloadBytes).

(** ** Properties *)

Lemma append_opt_app d x : append_opt d x = d ++ x.
Proof. unfold append_opt. destruct x; cbn; [by rewrite app_nil_r|done]. Qed.

(** The payload as it is signed: prefixed with its length, absent when empty. *)
Definition payload_part (p : bytes) : bytes :=
  match p with [] => [] | _ => le_encode 4 (u32 (Z.of_nat (length p))) ++ p end.

Lemma serializeForSigning_app env :
  serializeForSigning env =
    le_encode 4 (ProtocolVersion env) ++ le_encode 4 (u32 (MessageType env)) ++ SenderIdentity env ++
    RecipientIdentity env ++ le_encode 8 (Timestamp env) ++ MessageId env ++ GroupId env ++
    ChannelId env ++ payload_part (Payload env) ++ SenderDeviceId env.
Proof.
  unfold serializeForSigning. rewrite !append_opt_app.
  destruct (Payload env) as [|b p]; cbn -[le_encode]; by rewrite <- ?app_assoc.
Qed.

(** The two copies of the serialisation agree. *)
Lemma VerifyEnvelope_eq env :
  VerifyEnvelope env =
    if negb (length (SenderIdentity env) =? 32)%nat then Err (ErrText "invalid sender identity length")
    else ok ← ed25519_Verify (SenderIdentity env) (serializeForSigning env) (Signature env);
         if negb ok then Err (ErrText "invalid envelope signature") else mret tt.
Proof. reflexivity. Qed.

Context `{!PrimitiveLaws P} `{!CodecLaws X3DHHeader}.

(** Every envelope built is accepted.  With an Ed25519 key pair as sender,
    16 random bytes and a header that can be marshalled, [Build] returns an
    envelope; [VerifyEnvelope] accepts it; it carries the fields given to the
    builder; and its header field parses back to the header that was set. *)
Theorem build_verifies b rnd now :
  ed_keypair (senderIdentity b) (senderPrivKey b) ->
  (forall h, x3dhHeader b = Some h -> is_Some (marshal h)) ->
  exists env, Build (Some rnd) now b = Ok env /\ VerifyEnvelope env = Ok tt /\
    SenderIdentity env = senderIdentity b /\ RecipientIdentity env = recipientIdentity b /\
    Payload env = payload b /\ MessageId env = rnd /\
    (forall h, x3dhHeader b = Some h -> ParseX3DHHeader (X3DhHeader env) = Ok h).
Proof.
  intros Hkp Hm. unfold Build, signEnvelope, proto_Marshal.
  assert (exists hb, match x3dhHeader b with
                     | Some h => wrapErr "failed to marshal X3DH header" (ext "proto.Marshal" (marshal h))
                     | None => mret [] end = Ok hb /\
                     forall h, x3dhHeader b = Some h -> ParseX3DHHeader hb = Ok h) as (hb & -> & Hhb).
  { destruct (x3dhHeader b) as [h|]; [|by exists []].
    destruct (Hm h eq_refl) as [hb Hhb]. rewrite Hhb. exists hb. split; [done|].
    intros h' [= <-]. unfold ParseX3DHHeader, proto_Unmarshal. by rewrite (unmarshal_marshal _ _ Hhb). }
  cbn [mbind outcome_bind ext wrapErr]. rewrite (ed25519_Sign_Ok _ _ _ Hkp). cbn [mbind outcome_bind wrapErr].
  eexists; split; [reflexivity|]. rewrite VerifyEnvelope_eq. cbn [SenderIdentity set_field].
  rewrite (proj1 (ed_keypair_lengths _ _ Hkp)). cbn -[serializeForSigning].
  change (serializeForSigning (mkEnvelope _ _ _ _ _ _ _ _ _ _ ?s _ _)) with
    (serializeForSigning (mkEnvelope ProtocolVersion1 (messageType b) (senderIdentity b)
       (recipientIdentity b) (u64 now) rnd (groupID b) (channelID b) (payload b)
       (senderDeviceID b) [] (cipherSuiteID b) hb)).
  by rewrite (ed25519_Verify_Sign _ _ _ Hkp).
Qed.
End Envelope.

(** ** What a signature covers *)

(** The fields are within their Go types. *)
Definition in_range (e : BabylonEnvelope) : Prop :=
  0 <= ProtocolVersion e < 2 ^ 32 /\ - 2 ^ 31 <= MessageType e < 2 ^ 31 /\
  0 <= Timestamp e < 2 ^ 64 /\ Z.of_nat (length (Payload e)) < 2 ^ 32.

(** The identity-like fields of the two envelopes have the same lengths. *)
Definition same_lengths (e1 e2 : BabylonEnvelope) : Prop :=
  length (SenderIdentity e1) = length (SenderIdentity e2) /\
  length (RecipientIdentity e1) = length (RecipientIdentity e2) /\
  length (MessageId e1) = length (MessageId e2) /\
  length (GroupId e1) = length (GroupId e2) /\
  length (ChannelId e1) = length (ChannelId e2) /\
  length (SenderDeviceId e1) = length (SenderDeviceId e2).

Lemma payload_part_inj p1 p2 :
  Z.of_nat (length p1) < 2 ^ 32 -> Z.of_nat (length p2) < 2 ^ 32 ->
  payload_part p1 = payload_part p2 -> p1 = p2.
Proof.
  intros H1 H2 E. destruct p1 as [|x p1], p2 as [|y p2]; try done; unfold payload_part in E.
  by apply app_inj_1 in E as [_ E]; [|by rewrite !le_encode_length].
Qed.

Lemma uint32_of_int32_inj a b :
  - 2 ^ 31 <= a < 2 ^ 31 -> - 2 ^ 31 <= b < 2 ^ 31 -> u32 a = u32 b -> a = b.
Proof.
  intros Ha Hb E. unfold u32 in E.
  pose proof (Z.div_mod a (2 ^ 32)). pose proof (Z.div_mod b (2 ^ 32)).
  pose proof (Z.mod_pos_bound a (2 ^ 32)). nia.
Qed.

(** C11. The signed bytes determine the signed fields.  For two envelopes whose
    identities, identifiers and device ids have the same lengths and whose numbers are
    in the ranges of their Go types, equal signing data means that all ten signed fields are equal; in particular the payload,
    of any length, cannot be shifted into its neighbours.  The lengths matter: a group id
    can be read as a channel id ([group_channel_confusion]). *)
Theorem signing_injective e1 e2 :
  in_range e1 -> in_range e2 -> same_lengths e1 e2 ->
  serializeForSigning e1 = serializeForSigning e2 ->
  ProtocolVersion e1 = ProtocolVersion e2 /\ MessageType e1 = MessageType e2 /\
  SenderIdentity e1 = SenderIdentity e2 /\ RecipientIdentity e1 = RecipientIdentity e2 /\
  Timestamp e1 = Timestamp e2 /\ MessageId e1 = MessageId e2 /\ GroupId e1 = GroupId e2 /\
  ChannelId e1 = ChannelId e2 /\ Payload e1 = Payload e2 /\ SenderDeviceId e1 = SenderDeviceId e2.
Proof.
  intros (Hv1 & Ht1 & Hts1 & Hp1) (Hv2 & Ht2 & Hts2 & Hp2) (L1 & L2 & L3 & L4 & L5 & L6).
  rewrite !serializeForSigning_app. intros E.
  do 8 (let H := fresh "F" in apply app_inj_1 in E as [H E]; [|by rewrite ?le_encode_length]).
  apply app_inj_2 in E as [F' E]; [|done].
  apply le_encode_inj in F, F0, F3; try (pose proof (u32_range (MessageType e1)));
    try (pose proof (u32_range (MessageType e2))); try (cbn in *; lia).
  apply uint32_of_int32_inj in F0; [|done..]. apply payload_part_inj in F'; [|done..]. by repeat split.
Qed.

Section Confusion.
Context `{P : Primitives} `{!PrimitiveLaws P}.

(** The signature does not tell a group id from a channel id, and does not
    cover the key-agreement header and the cipher suite.  An accepted envelope
    addressed to a group is still accepted when the same id is presented as a
    channel id, and with any other header and cipher suite. *)
Theorem group_channel_confusion env header suite :
  ChannelId env = [] ->
  VerifyEnvelope env = Ok tt ->
  VerifyEnvelope (env <| ChannelId := GroupId env |> <| GroupId := [] |>
                      <| X3DhHeader := header |> <| CipherSuiteId := suite |>) = Ok tt.
Proof.
  intros Hc. rewrite !VerifyEnvelope_eq, !serializeForSigning_app. cbn. by rewrite Hc.
Qed.
End Confusion.

(** ** A concrete envelope *)
Module EnvelopeDemo.
#[export] Instance X3DHHeader_eq_dec : EqDecision X3DHHeader.
Proof. solve_decision. Defined.

#[export] Program Instance X3DHHeader_countable : Countable X3DHHeader :=
  inj_countable'
    (fun h => (InitiatorIdentityDhPub h, EphemeralPub h, SignedPrekeyId h, OneTimePrekeyId h, xh_CipherSuiteId h))
    (fun '(a, b, c, d, e) => mkX3DHHeader a b c d e) _.
Next Obligation. by intros []. Qed.

#[export] Instance X3DHHeader_codec : Codec X3DHHeader := countable_codec.
#[export] Instance X3DHHeader_codec_laws : CodecLaws X3DHHeader := countable_codec_laws.

Definition seed : bytes := le_encode 32 5.
Definition header : X3DHHeader := mkX3DHHeader [Byte.x01] [Byte.x02; Byte.x03] 4 5 1.

Definition builder : EnvelopeBuilder :=
  setMessageType 20 (Group (zeros 32) (setPayload (str "hello") (setX3DHHeader (Some header)
    (NewEnvelopeBuilder (ed_pub seed) (zeros 16) (seed ++ ed_pub seed))))).

Lemma builder_keypair : ed_keypair (senderIdentity builder) (senderPrivKey builder).
Proof. by exists seed. Qed.

Definition sent : outcome BabylonEnvelope := Build (Some (zeros 16)) 1700000000 builder.
Definition env : BabylonEnvelope :=
  match sent with Ok e => e | _ => mkEnvelope 0 0 [] [] 0 [] [] [] [] [] [] 0 [] end.
End EnvelopeDemo.
Import EnvelopeDemo.

Lemma build_verifies_witness :
  exists env, Build (Some (zeros 16)) 1700000000 EnvelopeDemo.builder = Ok env /\
    VerifyEnvelope env = Ok tt /\ Payload env = str "hello" /\
    ParseX3DHHeader (X3DhHeader env) = Ok EnvelopeDemo.header.
Proof.
  destruct (build_verifies EnvelopeDemo.builder (zeros 16) 1700000000) as (env & HB & HV & _ & _ & HP & _ & Hh).
  - apply EnvelopeDemo.builder_keypair.
  - intros h [= <-]. by eexists.
  - exists env. split; [exact HB|]. split; [exact HV|]. split; [exact HP|]. by apply Hh.
Defined.

Lemma signing_injective_witness :
  let e1 := EnvelopeDemo.env in
  let e2 := e1 <| Signature := [] |> in
  serializeForSigning e1 = serializeForSigning e2 /\ Payload e1 = Payload e2.
Proof.
  intros e1 e2. assert (serializeForSigning e1 = serializeForSigning e2) as E by reflexivity.
  split; [exact E|]. apply (signing_injective e1 e2); [..|exact E]; by repeat split; vm_compute.
Defined.

Lemma group_channel_confusion_witness :
  GroupId EnvelopeDemo.env = zeros 32 /\
  VerifyEnvelope (EnvelopeDemo.env <| ChannelId := GroupId EnvelopeDemo.env |> <| GroupId := [] |>
                    <| X3DhHeader := [] |> <| CipherSuiteId := 7 |>) = Ok tt.
Proof.
  split; [vm_compute; reflexivity|].
  apply (group_channel_confusion EnvelopeDemo.env [] 7); vm_compute; reflexivity.
Defined.
