(* ===== verification/Badger.v ===== *)
(** * The key-value store behind the storage package

    BadgerDB is outside the repository: [KV] is the part of its interface the
    sources use (a transaction that sets or deletes one key, reading a key,
    iterating over a prefix in key order) and [KVLaws] its documented behaviour.
    [None] is an error of the store; a missing key is [Some None].  [gmap_kv] is
    an in-memory store that satisfies the laws. *)
From S2P Require Import Prelude.
From stdpp Require Import sorting.

Definition key_le (a b : bytes * bytes) : Prop := bytes_ltb b.1 a.1 = false.

Class KV := {
  kv : Type;
  kv_set : bytes -> bytes -> kv -> option kv;
  kv_delete : bytes -> kv -> option kv;
  kv_get : bytes -> kv -> option (option bytes);
  kv_scan : bytes -> kv -> option (list (bytes * bytes));
}.

Class KVLaws (K : KV) : Prop := {
  kv_get_set k v d d' : kv_set k v d = Some d' -> kv_get k d' = Some (Some v);
  kv_get_set_ne k v d d' k' : kv_set k v d = Some d' -> k' <> k -> kv_get k' d' = kv_get k' d;
  kv_get_delete k d d' : kv_delete k d = Some d' -> kv_get k d' = Some None;
  kv_get_delete_ne k d d' k' : kv_delete k d = Some d' -> k' <> k -> kv_get k' d' = kv_get k' d;
  kv_scan_spec p d l : kv_scan p d = Some l ->
    NoDup l.*1 /\ StronglySorted key_le l /\
    forall k v, (k, v) ∈ l <-> p `prefix_of` k /\ kv_get k d = Some (Some v);
}.

(** A store without failures. *)
Class KVTotal (K : KV) : Prop := {
  kv_set_total k v d : is_Some (kv_set k v d);
  kv_delete_total k d : is_Some (kv_delete k d);
  kv_scan_total p d : is_Some (kv_scan p d);
}.

#[export] Instance key_le_dec : RelDecision key_le.
Proof. intros a b. unfold key_le. apply _. Defined.

#[export] Instance key_le_total : Total key_le.
Proof.
  intros a b. unfold key_le. destruct (bytes_ltb b.1 a.1) eqn:E; [right|by left].
  destruct (bytes_ltb a.1 b.1) eqn:E'; [|done].
  pose proof (bytes_ltb_trans _ _ _ E E') as H. by rewrite bytes_ltb_irrefl in H.
Qed.

#[export] Instance key_le_trans : Transitive key_le.
Proof.
  intros a b c Hab Hbc. unfold key_le in *. apply not_true_is_false. intros Hca.
  destruct (bytes_ltb a.1 b.1) eqn:E.
  - by rewrite (bytes_ltb_trans _ _ _ Hca E) in Hbc.
  - rewrite (bytes_ltb_total _ _ Hab E) in Hbc. by rewrite Hca in Hbc.
Qed.

Lemma sublist_fst {A B} (l l' : list (A * B)) : sublist l l' -> sublist l.*1 l'.*1.
Proof. induction 1; cbn; by constructor. Qed.

#[export] Instance gmap_kv : KV := {|
  kv := gmap bytes bytes;
  kv_set k v d := Some (<[k := v]> d);
  kv_delete k d := Some (delete k d);
  kv_get k d := Some (d !! k);
  kv_scan p d := Some (merge_sort key_le (filter (fun kv => p `prefix_of` kv.1) (map_to_list d)));
|}.

#[export] Instance gmap_kv_laws : KVLaws gmap_kv.
Proof.
  split; cbn.
  - intros k v d d' [= <-]. by rewrite lookup_insert_eq.
  - intros k v d d' k' [= <-] Hne. by rewrite lookup_insert_ne.
  - intros k d d' [= <-]. by rewrite lookup_delete_eq.
  - intros k d d' k' [= <-] Hne. by rewrite lookup_delete_ne.
  - intros p d l [= <-].
    set (f := filter (fun kv : bytes * bytes => p `prefix_of` kv.1) (map_to_list d)).
    pose proof (merge_sort_Permutation key_le f) as Hp. split; [|split].
    + rewrite Hp. eapply sublist_NoDup; [apply (NoDup_fst_map_to_list d)|].
      apply sublist_fst, sublist_filter.
    + apply StronglySorted_merge_sort; apply _.
    + intros k v. rewrite Hp. unfold f. rewrite list_elem_of_filter, elem_of_map_to_list. cbn.
      split; intros [? ?]; split; congruence.
Qed.

#[export] Instance gmap_kv_total : KVTotal gmap_kv.
Proof. split; by eauto. Qed.

(** [db.Update] with one [Set] or [Delete] and [db.View] with one [Get], with the error
    text of the caller; [missing] is what the caller makes of a missing key. *)
Section Txn.
Context `{K : KV}.

Definition db_set (ctx : string) (k v : bytes) : GoM kv unit := fun d =>
  match kv_set k v d with
  | Some d' => (d', Ok tt)
  | None => (d, Err (ErrWrap ctx (ErrExt "badger")))
  end.

Definition db_delete (ctx : string) (k : bytes) : GoM kv unit := fun d =>
  match kv_delete k d with
  | Some d' => (d', Ok tt)
  | None => (d, Err (ErrWrap ctx (ErrExt "badger")))
  end.

Definition db_get {A} (ctx : string) (missing : outcome A) (parse : bytes -> outcome A) (k : bytes)
    : GoM kv A := fun d =>
  (d, match kv_get k d with
      | None => Err (ErrWrap ctx (ErrExt "badger"))
      | Some None => missing
      | Some (Some data) => wrapErr ctx (parse data)
      end).

(** Iteration over a prefix, parsing every value, stopping at the first error. *)
Definition db_list {A} (ctx : string) (p : bytes) (parse : bytes -> outcome A) : GoM kv (list A) := fun d =>
  (d, match kv_scan p d with
      | None => Err (ErrWrap ctx (ErrExt "badger"))
      | Some l => wrapErr ctx (foldr (fun kv r => a ← parse kv.2; t ← r; mret (a :: t)) (mret []) l)
      end).

Lemma db_list_Ok {A} ctx p (parse : bytes -> outcome A) d l r :
  kv_scan p d = Some l -> Forall2 (fun kv a => parse kv.2 = Ok a) l r -> db_list ctx p parse d = (d, Ok r).
Proof.
  intros Hs Hp. unfold db_list. rewrite Hs. f_equal. clear Hs.
  assert (foldr (fun (kv : bytes * bytes) (r : outcome (list A)) => a ← parse kv.2; t ← r; mret (a :: t)) (mret []) l = Ok r) as ->; [|done].
  induction Hp as [|x a l r Hx _ IH]; cbn; [done|]. by rewrite Hx, IH.
Qed.
End Txn.
