(* ===== verification/Dht.v ===== *)
(** * The distributed hash table

    The DHT is outside the repository: [Dht] is what the sources use of it (the
    node's [PutToDHT] and [GetFromDHT] among others), an error being [None] and a
    missing record [Some None], and [DhtLaws] says that what was put is found
    under its key and nowhere else, for as long as nothing else is put there.
    [gmap_dht] is a table that satisfies the laws. *)
From S2P Require Import Prelude.

Class Dht := {
  dht : Type;
  PutValue : string -> bytes -> dht -> option dht;
  GetValue : string -> dht -> option (option bytes);
}.

Class DhtLaws (D : Dht) : Prop := {
  GetValue_PutValue k v d d' : PutValue k v d = Some d' -> GetValue k d' = Some (Some v);
  GetValue_PutValue_ne k v d d' k' : PutValue k v d = Some d' -> k' <> k -> GetValue k' d' = GetValue k' d;
}.

#[export] Instance gmap_dht : Dht := {|
  dht := gmap string bytes;
  PutValue k v d := Some (<[k := v]> d);
  GetValue k d := Some (d !! k);
|}.

#[export] Instance gmap_dht_laws : DhtLaws gmap_dht.
Proof.
  split; cbn.
  - intros k v d d' [= <-]. by rewrite lookup_insert_eq.
  - intros k v d d' k' [= <-] Hne. by rewrite lookup_insert_ne.
Qed.

(** A network without failures. *)
Class DhtTotal (D : Dht) : Prop := { PutValue_total k v d : is_Some (PutValue k v d) }.
#[export] Instance gmap_dht_total : DhtTotal gmap_dht.
Proof. split; by eexists. Qed.
