(* ===== verification/GroupState.v ===== *)
(** * pkg/groups/state.go: group state, signed updates, sender keys

    The group state and its members, signing and verification, validation of
    state updates received from others, the split-brain rule, membership
    operations and the sender-key chain.  Enumerations are the [int32] values of
    the code.  A method that writes the receiver returns the new value; it is
    applied to states that share no member list with others. *)
From S2P Require Import Prelude Primitives Proto.

Definition GroupIDSize : nat := 32.
Definition MaxGroupNameLength : Z := 128.
Definition MaxGroupDescriptionLength : Z := 512.
Definition MaxGroupMembers : Z := 1000.

(** GroupType *)
Definition PrivateGroup : Z := 0.
Definition PublicGroup : Z := 1.
Definition PrivateChannel : Z := 2.
Definition PublicChannel : Z := 3.

(** GroupRole *)
Definition Member : Z := 0.
Definition Admin : Z := 1.
Definition Owner : Z := 2.

Record GroupMember := mkMember {
  Ed25519Pubkey : bytes;
  X25519Pubkey : bytes;
  DisplayName : string;
  JoinedAt : Z;
  Role : Z;
}.

#[export] Instance GroupMember_eq_dec : EqDecision GroupMember.
Proof. solve_decision. Defined.

#[export] Instance eta_Member : Eta GroupMember := fun m =>
  mkMember (Ed25519Pubkey m) (X25519Pubkey m) (DisplayName m) (JoinedAt m) (Role m).

Record GroupState := mkGroupState {
  GroupID : bytes;
  Epoch : Z;
  Name : string;
  Description : string;
  AvatarCID : string;
  Type_ : Z;
  Members : list GroupMember;
  CreatorPubkey : bytes;
  CreatedAt : Z;
  UpdatedAt : Z;
  StateSignature : bytes;
  PreviousStateHash : bytes;
}.

#[export] Instance GroupState_eq_dec : EqDecision GroupState.
Proof. solve_decision. Defined.

#[export] Instance eta_GroupState : Eta GroupState := fun g =>
  mkGroupState (GroupID g) (Epoch g) (Name g) (Description g) (AvatarCID g) (Type_ g) (Members g)
    (CreatorPubkey g) (CreatedAt g) (UpdatedAt g) (StateSignature g) (PreviousStateHash g).

Record GroupStateUpdate := mkUpdate {
  NewState : GroupState;
  upd_PreviousStateHash : bytes;
  UpdaterPubkey : bytes;
  UpdaterSignature : bytes;
}.

Record SenderKey := mkSenderKey {
  sk_GroupID : bytes;
  SenderPubkey : bytes;
  ChainKey : bytes;
  SigningKey : bytes;
  SigningKeyPriv : bytes;
  ChainIndex : Z;
  sk_Epoch : Z;
}.

#[export] Instance eta_SenderKey : Eta SenderKey := fun k =>
  mkSenderKey (sk_GroupID k) (SenderPubkey k) (ChainKey k) (SigningKey k) (SigningKeyPriv k)
    (ChainIndex k) (sk_Epoch k).

(** [pb.GroupMember], [pb.GroupState] and [pb.SenderKeyDistribution] *)
Record pbGroupMember := mkPbMember {
  pm_Ed25519Pubkey : bytes; pm_X25519Pubkey : bytes; pm_DisplayName : string;
  pm_JoinedAt : Z; pm_Role : Z;
}.

Record pbGroupState := mkPbState {
  pg_GroupId : bytes; pg_Epoch : Z; pg_Name : string; pg_Description : string;
  pg_AvatarCid : string; pg_Type : Z; pg_Members : list pbGroupMember; pg_CreatorPubkey : bytes;
  pg_CreatedAt : Z; pg_UpdatedAt : Z; pg_StateSignature : bytes; pg_PreviousHash : bytes;
}.

Record pbSenderKeyDistribution := mkPbSenderKey {
  pk_GroupId : bytes; pk_Epoch : Z; pk_SenderPub : bytes; pk_ChainKey : bytes;
  pk_SigningKey : bytes; pk_ChainIndex : Z;
}.

(** ** Conversions *)

Definition member_ToProto (m : GroupMember) : pbGroupMember :=
  mkPbMember (Ed25519Pubkey m) (X25519Pubkey m) (DisplayName m) (JoinedAt m) (Role m).

Definition ToProto (gs : GroupState) : pbGroupState :=
  mkPbState (GroupID gs) (Epoch gs) (Name gs) (Description gs) (AvatarCID gs) (Type_ gs)
    (member_ToProto <$> Members gs) (CreatorPubkey gs) (CreatedAt gs) (UpdatedAt gs)
    (StateSignature gs) (PreviousStateHash gs).

Definition member_FromProto (m : pbGroupMember) : GroupMember :=
  mkMember (pm_Ed25519Pubkey m) (pm_X25519Pubkey m) (pm_DisplayName m) (pm_JoinedAt m) (pm_Role m).

Definition FromProto (p : pbGroupState) : GroupState :=
  mkGroupState (pg_GroupId p) (pg_Epoch p) (pg_Name p) (pg_Description p) (pg_AvatarCid p) (pg_Type p)
    (member_FromProto <$> pg_Members p) (pg_CreatorPubkey p) (pg_CreatedAt p) (pg_UpdatedAt p)
    (pg_StateSignature p) (pg_PreviousHash p).

Definition SenderKey_ToProto (sk : SenderKey) : pbSenderKeyDistribution :=
  mkPbSenderKey (sk_GroupID sk) (sk_Epoch sk) (SenderPubkey sk) (ChainKey sk) (SigningKey sk) (ChainIndex sk).

Definition SenderKeyFromProto (p : pbSenderKeyDistribution) (signingKeyPriv : bytes) : SenderKey :=
  mkSenderKey (pk_GroupId p) (pk_SenderPub p) (pk_ChainKey p) (pk_SigningKey p) signingKeyPriv
    (pk_ChainIndex p) (pk_Epoch p).

Lemma FromProto_ToProto gs : FromProto (ToProto gs) = gs.
Proof.
  destruct gs. unfold FromProto, ToProto; cbn. f_equal. rewrite <- list_fmap_compose.
  rewrite <- (list_fmap_id Members0) at 2. apply list_fmap_ext. by intros ? [] ?.
Qed.

(** ** Membership *)

Fixpoint find_member (pubkey : bytes) (ms : list GroupMember) : option GroupMember :=
  match ms with
  | [] => None
  | m :: ms' => if decide (Ed25519Pubkey m = pubkey) then Some m else find_member pubkey ms'
  end.

Definition IsMember (gs : GroupState) (pubkey : bytes) : bool :=
  match find_member pubkey (Members gs) with Some _ => true | None => false end.

Definition GetMemberRole (gs : GroupState) (pubkey : bytes) : Z :=
  match find_member pubkey (Members gs) with Some m => Role m | None => -1 end.

Definition AddMember (now : Z) (member : GroupMember) (gs : GroupState) : outcome GroupState :=
  if MaxGroupMembers <=? Z.of_nat (length (Members gs))
  then Err (ErrText "group has reached maximum member limit of %d")
  else if IsMember gs (Ed25519Pubkey member) then Err (ErrText "member already in group")
  else mret (gs <| Members := Members gs ++ [member] |> <| UpdatedAt := u64 now |>).

(** [append(Members[:i], Members[i+1:]...)] at the first member with the key. *)
Fixpoint remove_first (pubkey : bytes) (ms : list GroupMember) : list GroupMember :=
  match ms with
  | [] => []
  | m :: ms' => if decide (Ed25519Pubkey m = pubkey) then ms' else m :: remove_first pubkey ms'
  end.

Definition RemoveMember (now : Z) (pubkey : bytes) (gs : GroupState) : outcome GroupState :=
  match find_member pubkey (Members gs) with
  | None => Err (ErrText "member not found")
  | Some _ =>
      if decide (pubkey = CreatorPubkey gs) then Err (ErrText "cannot remove group creator")
      else mret (gs <| Members := remove_first pubkey (Members gs) |> <| UpdatedAt := u64 now |>)
  end.

(** ** Split brain *)

Definition better (state best : GroupState) : bool :=
  (Epoch best <? Epoch state) ||
  ((Epoch state =? Epoch best) && bytes_ltb (CreatorPubkey state) (CreatorPubkey best)).

Definition ResolveSplitBrain (states : list GroupState) : option GroupState :=
  match states with
  | [] => None
  | s :: rest => Some (fold_left (fun best state => if better state best then state else best) rest s)
  end.

Section Signed.
Context `{P : Primitives} `{!Codec pbGroupState}.

Definition NewGroupState (rnd : option bytes) (now : Z) (name description : string) (groupType : Z)
    (creatorPubkey creatorX25519Pubkey : bytes) : outcome GroupState :=
  groupID ← wrapErr "failed to generate group ID" (ext "rand.Reader" rnd);
  if Z.of_nat (String.length name) >? MaxGroupNameLength
  then Err (ErrText "group name exceeds maximum length of %d")
  else if Z.of_nat (String.length description) >? MaxGroupDescriptionLength
  then Err (ErrText "group description exceeds maximum length of %d")
  else
    let members := [mkMember creatorPubkey creatorX25519Pubkey "Creator" (u64 now) Owner] in
    mret (mkGroupState groupID 1 name description "" groupType members creatorPubkey
            (u64 now) (u64 now) [] []).

Definition Serialize (gs : GroupState) : outcome bytes :=
  wrapErr "failed to marshal group state" (proto_Marshal (ToProto gs)).

Definition ComputeHash (gs : GroupState) : outcome bytes :=
  data ← Serialize gs; mret (sha256 data).

(** The copy of the state that is signed: every field but the signature. *)
Definition copyState (gs : GroupState) : GroupState :=
  mkGroupState (GroupID gs) (Epoch gs) (Name gs) (Description gs) (AvatarCID gs) (Type_ gs)
    (Members gs) (CreatorPubkey gs) (CreatedAt gs) (UpdatedAt gs) [] (PreviousStateHash gs).

Definition Sign (privKey : bytes) (gs : GroupState) : outcome GroupState :=
  data ← wrapErr "failed to serialize state" (Serialize (copyState gs));
  signature ← ed25519_Sign privKey data;
  mret (gs <| StateSignature := signature |>).

Definition VerifySignature (pubKey : bytes) (gs : GroupState) : outcome bool :=
  if (length (StateSignature gs) =? 0)%nat then mret false
  else match Serialize (copyState gs) with
       | Ok data => ed25519_Verify pubKey data (StateSignature gs)
       | Err _ => mret false
       | Panic => Panic
       end.

Definition is_admin_of (gs : GroupState) (pubkey : bytes) : bool :=
  existsb (fun m => bool_decide (Ed25519Pubkey m = pubkey) &&
                    ((Role m =? Admin) || (Role m =? Owner))) (Members gs).

Definition ValidateStateUpdate (update : GroupStateUpdate) (currentState : GroupState) : outcome unit :=
  currentHash ← wrapErr "failed to compute current state hash" (ComputeHash currentState);
  if (0 <? length (upd_PreviousStateHash update))%nat && (0 <? length (PreviousStateHash currentState))%nat
     && negb (bool_decide (upd_PreviousStateHash update = currentHash))
  then Err (ErrText "previous state hash mismatch")
  else if Epoch (NewState update) <=? Epoch currentState
  then Err (ErrText "epoch must be strictly increasing: current=%d, new=%d")
  else if negb (is_admin_of currentState (UpdaterPubkey update))
  then Err (ErrText "updater is not an admin or owner")
  else
    data ← wrapErr "failed to serialize new state" (Serialize (copyState (NewState update)));
    ok ← ed25519_Verify (UpdaterPubkey update) data (UpdaterSignature update);
    if negb ok then Err (ErrText "invalid updater signature") else mret tt.

(** ** Sender keys *)

(** [rnd] fills the chain key, [seed] is what [ed25519.GenerateKey] reads. *)
Definition GenerateSenderKey (rnd seed : option bytes) (groupID senderPubkey : bytes) : outcome SenderKey :=
  chainKey ← wrapErr "failed to generate chain key" (ext "rand.Reader" rnd);
  '(_, signingKeyPriv) ← wrapErr "failed to generate signing key" (ed25519_GenerateKey seed);
  let signingKey := ed25519_Public signingKeyPriv in
  mret (mkSenderKey groupID senderPubkey chainKey signingKey signingKeyPriv 0 1).

Definition DeriveMessageKey (sk : SenderKey) : bytes * SenderKey :=
  let chainIndexBytes := be_encode 4 (ChainIndex sk) in
  let hkdfInput := str "bt-sk-msg" ++ chainIndexBytes in
  let messageKey := sha256 (ChainKey sk ++ hkdfInput) in
  let advanceInput := str "bt-sk-chain" ++ str "advance" in
  (messageKey, sk <| ChainKey := sha256 (ChainKey sk ++ advanceInput) |>
                  <| ChainIndex := u32 (ChainIndex sk + 1) |>).
End Signed.

(** ** Membership: lemmas and theorems *)

Definition keys (ms : list GroupMember) : list bytes := Ed25519Pubkey <$> ms.
#[global] Arguments keys : simpl never.

Lemma keys_cons m ms : keys (m :: ms) = Ed25519Pubkey m :: keys ms.
Proof. done. Qed.

(** No key twice, the creator present, at most the maximal number. *)
Definition wf (gs : GroupState) : Prop :=
  NoDup (keys (Members gs)) /\ CreatorPubkey gs ∈ keys (Members gs) /\
  Z.of_nat (length (Members gs)) <= MaxGroupMembers.

Lemma find_member_None k ms : find_member k ms = None <-> k ∉ keys ms.
Proof.
  induction ms as [|m ms IH]; cbn; [split; [intros _; apply not_elem_of_nil|done]|].
  rewrite keys_cons, not_elem_of_cons. destruct (decide _) as [E|E].
  - split; [done|intros [? _]; congruence].
  - rewrite IH. split; [by split|by intros []].
Qed.

Lemma IsMember_keys gs k : IsMember gs k = true <-> k ∈ keys (Members gs).
Proof.
  unfold IsMember. pose proof (find_member_None k (Members gs)) as H.
  destruct (find_member _ _); split; try done; intros.
  - destruct (decide (k ∈ keys (Members gs))) as [|n]; [done|]. by apply H in n.
  - exfalso. by apply (proj1 H eq_refl).
Qed.

Lemma IsMember_not gs k : IsMember gs k = false <-> k ∉ keys (Members gs).
Proof. rewrite <- IsMember_keys. by destruct (IsMember gs k). Qed.

Lemma filter_absent k ms : k ∉ keys ms -> filter (fun m => Ed25519Pubkey m <> k) ms = ms.
Proof.
  induction ms as [|m ms IH]; cbn; [done|]. rewrite keys_cons. intros [Hm Hms]%not_elem_of_cons.
  case_decide; [|congruence]. f_equal. by apply IH.
Qed.

Lemma remove_first_filter k ms :
  NoDup (keys ms) -> remove_first k ms = filter (fun m => Ed25519Pubkey m <> k) ms.
Proof.
  induction ms as [|m ms IH]; cbn; [done|]. rewrite keys_cons. intros [Hn Hnd]%NoDup_cons.
  destruct (decide (Ed25519Pubkey m = k)) as [<-|Hne]; case_decide; try done; [|f_equal; by apply IH].
  symmetry. by apply filter_absent.
Qed.

Lemma keys_filter k ms :
  keys (filter (fun m => Ed25519Pubkey m <> k) ms) = filter (fun k' => k' <> k) (keys ms).
Proof.
  induction ms as [|m ms IH]; [done|]. unfold keys in *. cbn.
  case_decide; cbn; [f_equal; apply IH|apply IH].
Qed.

(** Adding a member.  [AddMember] succeeds exactly when the group is below
    its limit and the key is new.  It then appends the member and changes
    nothing else but the time of update; a well-formed group stays well formed
    (no key twice, the creator present, within the limit). *)
Theorem AddMember_correct now m gs :
  (is_Ok (AddMember now m gs) = true <->
     Z.of_nat (length (Members gs)) < MaxGroupMembers /\ IsMember gs (Ed25519Pubkey m) = false) /\
  forall gs', AddMember now m gs = Ok gs' ->
    gs' = gs <| Members := Members gs ++ [m] |> <| UpdatedAt := u64 now |> /\
    (forall k, IsMember gs' k = true <-> IsMember gs k = true \/ k = Ed25519Pubkey m) /\
    (wf gs -> wf gs').
Proof.
  unfold AddMember. destruct (MaxGroupMembers <=? _) eqn:El; [split; [split; [done|lia]|done]|].
  destruct (IsMember gs (Ed25519Pubkey m)) eqn:Em; [split; [split; [done|by intros []]|done]|].
  split; [split; [intros _; split; [lia|done]|done]|].
  intros gs' [= <-]. split; [done|]. cbn.
  assert (keys (Members gs ++ [m]) = keys (Members gs) ++ [Ed25519Pubkey m]) as Hk
    by (unfold keys; by rewrite fmap_app).
  split.
  - intros k. rewrite !IsMember_keys. cbn. rewrite Hk, elem_of_app, list_elem_of_singleton. done.
  - intros (Hnd & Hc & Hl). apply IsMember_not in Em. split; [|split]; cbn.
    + rewrite Hk. apply NoDup_app. split; [done|]. split; [|apply NoDup_singleton].
      intros x Hx ->%list_elem_of_singleton. done.
    + rewrite Hk, elem_of_app. by left.
    + rewrite length_app. cbn. lia.
Qed.

(** Removing a member.  In a well-formed group [RemoveMember] succeeds
    exactly for the members other than the creator; it then removes that member
    and nobody else, and the group stays well formed. *)
Theorem RemoveMember_correct now k gs :
  wf gs ->
  (is_Ok (RemoveMember now k gs) = true <-> IsMember gs k = true /\ k <> CreatorPubkey gs) /\
  forall gs', RemoveMember now k gs = Ok gs' ->
    Members gs' = filter (fun m => Ed25519Pubkey m <> k) (Members gs) /\
    Epoch gs' = Epoch gs /\ CreatorPubkey gs' = CreatorPubkey gs /\
    (forall k', IsMember gs' k' = true <-> IsMember gs k' = true /\ k' <> k) /\
    wf gs'.
Proof.
  intros (Hnd & Hc & Hl). unfold RemoveMember.
  assert (IsMember gs k = match find_member k (Members gs) with Some _ => true | None => false end) as HI by done.
  destruct (find_member k (Members gs)); [|split; [rewrite HI; naive_solver|done]].
  destruct (decide (k = CreatorPubkey gs)) as [->|Hne]; [split; [rewrite HI; split; [done|by intros []]|done]|].
  split; [rewrite HI; naive_solver|]. intros gs' [= <-]. cbn.
  rewrite remove_first_filter by done. split; [done|]. split; [done|]. split; [done|].
  split.
  - intros k'. rewrite !IsMember_keys. cbn. rewrite keys_filter.
    rewrite list_elem_of_filter. tauto.
  - split; [|split]; cbn.
    + rewrite keys_filter. by apply NoDup_filter.
    + rewrite keys_filter, list_elem_of_filter. done.
    + pose proof (length_filter (fun m => Ed25519Pubkey m <> k) (Members gs)). lia.
Qed.

(** ** Split brain *)

(** [best] is not worse than [s]. *)
Definition at_least (best s : GroupState) : Prop := better s best = false.

Lemma at_least_order r s :
  at_least r s -> Epoch s <= Epoch r /\
    (Epoch s = Epoch r -> bytes_ltb (CreatorPubkey s) (CreatorPubkey r) = false).
Proof.
  unfold at_least, better. rewrite orb_false_iff, andb_false_iff, Z.ltb_ge, Z.eqb_neq.
  intros [? [?|?]]; (split; [lia|]); [by intros ?|done].
Qed.

Lemma better_trans a b c : better a b = true -> better b c = true -> better a c = true.
Proof.
  unfold better. rewrite !orb_true_iff, !andb_true_iff, !Z.ltb_lt, !Z.eqb_eq.
  intros [?|[? ?]] [?|[? ?]]; [left; lia..|right]. split; [lia|]. by eapply bytes_ltb_trans.
Qed.

Lemma better_total a b :
  at_least a b -> at_least b a -> Epoch a = Epoch b /\ CreatorPubkey a = CreatorPubkey b.
Proof.
  unfold at_least, better. rewrite !orb_false_iff, !andb_false_iff, !Z.ltb_ge, !Z.eqb_neq.
  intros [? [?|?]] [? [?|?]]; try lia. split; [lia|]. by apply bytes_ltb_total.
Qed.

Lemma at_least_trans a b c : at_least a b -> at_least b c -> at_least a c.
Proof.
  unfold at_least. intros Hab Hbc. apply not_true_is_false. intros Hca.
  destruct (better a b) eqn:E.
  - by rewrite (better_trans c a b) in Hbc.
  - destruct (better_total a b) as [He Hc]; [done|done|].
    unfold better in *. rewrite He, Hc in Hca. by rewrite Hca in Hbc.
Qed.

Lemma fold_best rest s :
  let r := fold_left (fun best state => if better state best then state else best) rest s in
  r ∈ s :: rest /\ forall x, x ∈ s :: rest -> at_least r x.
Proof.
  revert s; induction rest as [|x rest IH]; intros s; cbn.
  - split; [by apply list_elem_of_here|]. intros x ->%list_elem_of_singleton.
    unfold at_least, better. rewrite Z.ltb_irrefl, Z.eqb_refl, bytes_ltb_irrefl. done.
  - destruct (better x s) eqn:E; [destruct (IH x) as [Hin Hmax]|destruct (IH s) as [Hin Hmax]].
    + split; [by right|]. intros y [->|Hy]%elem_of_cons; [|by apply Hmax].
      apply at_least_trans with x; [apply Hmax; left|].
      unfold at_least. apply not_true_is_false. intros H.
      pose proof (better_trans _ _ _ E H) as Hxx. revert Hxx.
      unfold better. by rewrite Z.ltb_irrefl, Z.eqb_refl, bytes_ltb_irrefl.
    + split; [apply elem_of_cons in Hin as [->|Hin]; [left|right; by right]|].
      intros y [->|[->|Hy]%elem_of_cons]%elem_of_cons.
      * apply Hmax. left.
      * apply at_least_trans with s; [apply Hmax; left|done].
      * apply Hmax. by right.
Qed.

Lemma fold_first s rest :
  let r := fold_left (fun best state => if better state best then state else best) rest s in
  exists before after, s :: rest = before ++ r :: after /\ Forall (fun x => better r x = true) before.
Proof.
  revert s; induction rest as [|x rest IH]; intros s; cbn [fold_left]; [by exists [], []|].
  destruct (better x s) eqn:E.
  - destruct (IH x) as (b & a & Hs & Hb). exists (s :: b), a. split; [by rewrite Hs|]. constructor; [|done].
    destruct b as [|y b]; injection Hs as Hx Ha; [by rewrite <- Hx|].
    apply Forall_cons in Hb as [Hy _]. rewrite <- Hx in Hy. by eapply better_trans.
  - destruct (IH s) as (b & a & Hs & Hb). destruct b as [|y b]; injection Hs as Hx Ha; [exists [], (x :: rest); cbn; split; [by rewrite <- Hx|constructor]|].
    rewrite <- Hx in Hb. apply Forall_cons in Hb as [Hy Hb]. exists (s :: x :: b), a. split; [exact (f_equal (fun l => s :: x :: l) Ha)|]. constructor; [done|]. constructor; [|done].
    destruct (better _ x) eqn:Er; [done|]. rewrite <- Hy. symmetry. by apply (at_least_trans s x).
Qed.

Lemma fold_stays s rest : Forall (fun x => better x s = false) rest ->
  fold_left (fun best state => if better state best then state else best) rest s = s.
Proof. induction 1 as [|x rest Hx H IH]; cbn; [done|]. by rewrite Hx. Qed.

(** [a] has the higher epoch, or the same epoch and the lower creator key. *)
Definition outranks (a b : GroupState) : Prop :=
  Epoch b < Epoch a \/ (Epoch a = Epoch b /\ bytes_ltb (CreatorPubkey a) (CreatorPubkey b) = true).
Definition same_rank (a b : GroupState) : Prop := Epoch a = Epoch b /\ CreatorPubkey a = CreatorPubkey b.

Lemma better_outranks a b : better a b = true <-> outranks a b.
Proof. unfold better, outranks. by rewrite orb_true_iff, andb_true_iff, Z.ltb_lt, Z.eqb_eq. Qed.

(** C26. How split brains are resolved.  [ResolveSplitBrain] answers nothing only on no states; its answer is
    the first of the states that no other outranks, by epoch and then by lower creator key.  Peers
    that hold the same states in different orders agree on epoch and creator, and on the state
    if no two of that rank differ; if two do, each of them is the answer for some order. *)
Theorem ResolveSplitBrain_correct states :
  (ResolveSplitBrain states = None <-> states = []) /\
  forall r, ResolveSplitBrain states = Some r ->
    (exists before after, states = before ++ r :: after /\ Forall (outranks r) before /\ Forall (fun s => ~ outranks s r) after) /\
    (forall states' r', Permutation states states' -> ResolveSplitBrain states' = Some r' ->
       same_rank r' r /\ ((forall s, s ∈ states -> same_rank s r -> s = r) -> r' = r)) /\
    (forall s, s ∈ states -> same_rank s r -> exists states', Permutation states states' /\ ResolveSplitBrain states' = Some s).
Proof.
  split; [by destruct states|].
  assert (forall l r, ResolveSplitBrain l = Some r -> r ∈ l /\ forall s, s ∈ l -> at_least r s) as Hmax.
  { intros [|s l] r; cbn; [done|]. intros [= <-]. apply fold_best. }
  intros r Hr. destruct (Hmax _ _ Hr) as [Hin Hall]. split; [|split].
  - destruct states as [|s l]; [done|]. injection Hr as Hr. destruct (fold_first s l) as (b & a & Hs & Hb). rewrite Hr in Hs, Hb.
    exists b, a. split; [done|]. split; [by apply (Forall_impl _ _ _ Hb); intros x ?%better_outranks|].
    apply Forall_forall. intros x Hx. rewrite <- better_outranks, not_true_iff_false. apply Hall. rewrite Hs. apply elem_of_app. right. by right.
  - intros states' r' Hp Hr'. destruct (Hmax _ _ Hr') as [Hin' Hall'].
    assert (same_rank r' r) as Hsame by (apply better_total; [apply Hall'|apply Hall]; [by rewrite <- Hp|by rewrite Hp]).
    split; [done|]. intros Hu. apply Hu; [by rewrite Hp|done].
  - intros s Hs [He Hc]. destruct (proj1 (elem_of_Permutation states s) Hs) as [l Hl]. exists (s :: l). split; [done|]. cbn. f_equal. apply fold_stays, Forall_forall.
    intros x Hx. pose proof (Hall x) as H. rewrite Hl, elem_of_cons in H. specialize (H (or_intror Hx)).
    unfold at_least, better in *. by rewrite He, Hc.
Qed.

(** ** Signatures and updates *)

Section Updates.
Context `{P : Primitives} `{!PrimitiveLaws P} `{!Codec pbGroupState}.

Lemma is_admin_of_spec gs k :
  is_admin_of gs k = true <->
  exists m, m ∈ Members gs /\ Ed25519Pubkey m = k /\ (Role m = Admin \/ Role m = Owner).
Proof.
  unfold is_admin_of. rewrite existsb_exists. setoid_rewrite <- list_elem_of_In.
  setoid_rewrite andb_true_iff. setoid_rewrite orb_true_iff. setoid_rewrite bool_decide_eq_true.
  setoid_rewrite Z.eqb_eq. done.
Qed.

Lemma Serialize_unsigned gs sig :
  Serialize (copyState (gs <| StateSignature := sig |>)) = Serialize (copyState gs).
Proof. done. Qed.

Lemma Sign_inv priv gs gs' :
  Sign priv gs = Ok gs' ->
  exists data, Serialize (copyState gs) = Ok data /\ length priv = 64%nat /\
    gs' = gs <| StateSignature := ed_sign priv data |>.
Proof.
  unfold Sign, ed25519_Sign. intros H. outcome_inv.
  destruct (length priv =? 64)%nat eqn:E; [|done]. apply Nat.eqb_eq in E. outcome_inv. eauto.
Qed.

Lemma Sign_state_Ok pub priv gs data :
  ed_keypair pub priv -> Serialize (copyState gs) = Ok data ->
  Sign priv gs = Ok (gs <| StateSignature := ed_sign priv data |>).
Proof. intros Hkp Hd. unfold Sign. rewrite Hd. cbn. by rewrite (ed25519_Sign_Ok _ _ _ Hkp). Qed.

(** A signed state verifies.  Signing with the private half of a key pair
    changes nothing but the signature, and the result verifies under the public
    half; a state without a signature never verifies. *)
Theorem Sign_VerifySignature pub priv gs gs' :
  ed_keypair pub priv -> Sign priv gs = Ok gs' ->
  copyState gs' = copyState gs /\ VerifySignature pub gs' = Ok true /\
  VerifySignature pub (copyState gs) = Ok false.
Proof.
  intros Hkp (data & Hd & Hl & ->)%Sign_inv. split; [done|]. split; [|done].
  unfold VerifySignature. rewrite Serialize_unsigned, Hd. cbn. rewrite ed_sign_length. cbn.
  by apply (ed25519_Verify_Sign _ _ _ Hkp).
Qed.

Lemma ValidateStateUpdate_inv u cur :
  ValidateStateUpdate u cur = Ok tt ->
  exists hash data,
    ComputeHash cur = Ok hash /\ Serialize (copyState (NewState u)) = Ok data /\
    Epoch cur < Epoch (NewState u) /\ is_admin_of cur (UpdaterPubkey u) = true /\
    ed25519_Verify (UpdaterPubkey u) data (UpdaterSignature u) = Ok true /\
    (upd_PreviousStateHash u <> [] -> PreviousStateHash cur <> [] -> upd_PreviousStateHash u = hash).
Proof.
  unfold ValidateStateUpdate. intros H. outcome_inv.
  destruct (_ && _) eqn:E1; [done|]. destruct (_ <=? _) eqn:E2; [done|].
  destruct (is_admin_of _ _) eqn:E3; [|done]. cbn [negb] in *. outcome_inv.
  match goal with H : (if negb ?b then _ else _) = _ |- _ => destruct b eqn:E; [|done] end.
  eexists _, _. do 2 (split; [done|]). split; [by apply Z.leb_gt|]. do 2 (split; [done|]).
  intros Hu Hc. destruct (upd_PreviousStateHash u), (PreviousStateHash cur); try done. cbn in E1.
  by case_bool_decide.
Qed.

Lemma ValidateStateUpdate_Ok u cur hash data :
  ComputeHash cur = Ok hash -> Serialize (copyState (NewState u)) = Ok data ->
  Epoch cur < Epoch (NewState u) -> is_admin_of cur (UpdaterPubkey u) = true ->
  ed25519_Verify (UpdaterPubkey u) data (UpdaterSignature u) = Ok true ->
  (upd_PreviousStateHash u <> [] -> PreviousStateHash cur <> [] -> upd_PreviousStateHash u = hash) ->
  ValidateStateUpdate u cur = Ok tt.
Proof.
  intros Hh Hd He Ha Hv Hp. unfold ValidateStateUpdate. rewrite Hh. cbn.
  replace ((0 <? length (upd_PreviousStateHash u))%nat && (0 <? length (PreviousStateHash cur))%nat
           && negb (bool_decide (upd_PreviousStateHash u = hash))) with false.
  - rewrite (proj2 (Z.leb_gt _ _)) by done. rewrite Ha, Hd. cbn. by rewrite Hv.
  - destruct (upd_PreviousStateHash u), (PreviousStateHash cur); try done.
    rewrite bool_decide_eq_true_2; [done|]. by apply Hp.
Qed.

(** C10. What an accepted update guarantees.  If [ValidateStateUpdate] accepts, the
    epoch is strictly larger, the updater is an admin or owner of the current
    state, its signature covers every field of the new state, and the stated
    previous hash, where both sides have one, is the hash of the current state.
    In particular an accepted update is not accepted a second time. *)
Theorem ValidateStateUpdate_sound u cur :
  ValidateStateUpdate u cur = Ok tt ->
  Epoch cur < Epoch (NewState u) /\
  (exists m, m ∈ Members cur /\ Ed25519Pubkey m = UpdaterPubkey u /\ (Role m = Admin \/ Role m = Owner)) /\
  (exists data, Serialize (copyState (NewState u)) = Ok data /\
                ed_verify (UpdaterPubkey u) data (UpdaterSignature u) = true) /\
  (upd_PreviousStateHash u <> [] -> PreviousStateHash cur <> [] ->
     ComputeHash cur = Ok (upd_PreviousStateHash u)) /\
  ValidateStateUpdate u (NewState u) <> Ok tt.
Proof.
  intros (hash & data & Hh & Hd & He & Ha & Hv & Hp)%ValidateStateUpdate_inv.
  split; [done|]. split; [by apply is_admin_of_spec|]. split; [|split].
  - exists data. split; [done|]. unfold ed25519_Verify in Hv.
    destruct (_ =? _)%nat; [|done]. injection Hv as Hv. by apply andb_true_iff in Hv as [_ Hv].
  - intros Hu Hc. by rewrite (Hp Hu Hc).
  - intros (? & ? & ? & ? & ? & _)%ValidateStateUpdate_inv. lia.
Qed.

(** The hash chain can be left out.  An update that is accepted is also
    accepted without its previous hash, which no signature covers; and a state
    that has no previous hash itself accepts any.  So the check does not tie
    an update to the state it was made from. *)
Theorem update_hash_bypass u cur :
  ValidateStateUpdate u cur = Ok tt ->
  ValidateStateUpdate (mkUpdate (NewState u) [] (UpdaterPubkey u) (UpdaterSignature u)) cur = Ok tt /\
  (PreviousStateHash cur = [] -> forall h,
     ValidateStateUpdate (mkUpdate (NewState u) h (UpdaterPubkey u) (UpdaterSignature u)) cur = Ok tt).
Proof.
  intros (hash & data & Hh & Hd & He & Ha & Hv & Hp)%ValidateStateUpdate_inv.
  split; [|intros Hc h]; by eapply ValidateStateUpdate_Ok.
Qed.
End Updates.

(** ** Concrete states *)
Module GroupDemo.
#[export] Instance pbGroupMember_eq_dec : EqDecision pbGroupMember.
Proof. solve_decision. Defined.
#[export] Instance pbGroupState_eq_dec : EqDecision pbGroupState.
Proof. solve_decision. Defined.

(** A record is encoded as the list of its encoded fields. *)
Definition member_fields (m : pbGroupMember) : list positive :=
  [encode (pm_Ed25519Pubkey m); encode (pm_X25519Pubkey m); encode (pm_DisplayName m);
   encode (pm_JoinedAt m); encode (pm_Role m)].
Definition member_of_fields (l : list positive) : option pbGroupMember :=
  match l with
  | [a; b; c; d; e] =>
      a ← decode a; b ← decode b; c ← decode c; d ← decode d; e ← decode e; Some (mkPbMember a b c d e)
  | _ => None
  end.

#[export] Instance pbGroupMember_countable : Countable pbGroupMember.
Proof.
  apply (inj_countable member_fields member_of_fields).
  intros []. unfold member_of_fields, member_fields. cbn -[encode decode]. by rewrite !decode_encode.
Defined.

Definition state_fields (g : pbGroupState) : list positive :=
  [encode (pg_GroupId g); encode (pg_Epoch g); encode (pg_Name g); encode (pg_Description g);
   encode (pg_AvatarCid g); encode (pg_Type g); encode (pg_Members g);
   encode (pg_CreatorPubkey g); encode (pg_CreatedAt g); encode (pg_UpdatedAt g);
   encode (pg_StateSignature g); encode (pg_PreviousHash g)].
Definition state_of_fields (l : list positive) : option pbGroupState :=
  match l with
  | [a; b; c; d; e; f; g; h; i; j; k; l] =>
      a ← decode a; b ← decode b; c ← decode c; d ← decode d; e ← decode e; f ← decode f;
      g ← decode g; h ← decode h; i ← decode i; j ← decode j; k ← decode k; l ← decode l;
      Some (mkPbState a b c d e f g h i j k l)
  | _ => None
  end.

#[export] Instance pbGroupState_countable : Countable pbGroupState.
Proof.
  apply (inj_countable state_fields state_of_fields).
  intros []. unfold state_of_fields, state_fields. cbn -[encode decode]. by rewrite !decode_encode.
Defined.

#[export] Instance pbGroupState_codec : Codec pbGroupState := countable_codec.

Definition seed : bytes := le_encode 32 11.
Definition pub : bytes := ed_pub seed.
Definition priv : bytes := seed ++ ed_pub seed.

Lemma keypair : ed_keypair pub priv.
Proof. by exists seed. Qed.

Definition dummy : GroupState := mkGroupState [] 0 "" "" "" 0 [] [] 0 0 [] [].
Definition state_of (o : outcome GroupState) : GroupState := match o with Ok g => g | _ => dummy end.

Definition g1 : GroupState :=
  state_of (NewGroupState (Some (zeros 32)) 100 "friends" "" PrivateGroup pub (zeros 32)).
Definition bob : GroupMember := mkMember (le_encode 32 12) (zeros 32) "Bob" 101 Member.
Definition g2 : GroupState := state_of (AddMember 101 bob g1) <| Epoch := 2 |>.
Definition signed2 : GroupState := state_of (Sign priv g2).
Definition update : GroupStateUpdate := mkUpdate signed2 (zeros 32) pub (StateSignature signed2).
End GroupDemo.
Import GroupDemo.

Lemma RemoveMember_correct_witness :
  exists gs', RemoveMember 102 (Ed25519Pubkey bob) g2 = Ok gs' /\ wf gs' /\
    IsMember g2 (Ed25519Pubkey bob) = true.
Proof.
  assert (wf g2) as Hwf.
  { split; [|split]; [apply (bool_decide_unpack (NoDup (keys (Members g2)))); vm_compute; exact I
                     |apply (bool_decide_unpack (CreatorPubkey g2 ∈ keys (Members g2))); vm_compute; exact I
                     |vm_compute; discriminate]. }
  destruct (RemoveMember_correct 102 (Ed25519Pubkey bob) g2 Hwf) as [_ Hr].
  eexists. split; [vm_compute; reflexivity|]. split; [|vm_compute; reflexivity].
  apply Hr. vm_compute. reflexivity.
Defined.

Lemma Sign_VerifySignature_witness :
  Sign priv g2 = Ok signed2 /\ VerifySignature pub signed2 = Ok true.
Proof.
  assert (Sign priv g2 = Ok signed2) as E by (vm_compute; reflexivity).
  split; [exact E|]. exact (proj1 (proj2 (Sign_VerifySignature pub priv g2 signed2 keypair E))).
Defined.

Lemma ValidateStateUpdate_sound_witness :
  ValidateStateUpdate update g1 = Ok tt /\ Epoch g1 < Epoch (NewState update).
Proof.
  assert (ValidateStateUpdate update g1 = Ok tt) as E by (vm_compute; reflexivity).
  split; [exact E|]. exact (proj1 (ValidateStateUpdate_sound update g1 E)).
Defined.

Lemma update_hash_bypass_witness :
  ValidateStateUpdate (mkUpdate signed2 [] pub (StateSignature signed2)) g1 = Ok tt.
Proof.
  assert (ValidateStateUpdate update g1 = Ok tt) as E by (vm_compute; reflexivity).
  exact (proj1 (update_hash_bypass update g1 E)).
Defined.

Lemma ResolveSplitBrain_correct_witness :
  ResolveSplitBrain [g1; g2] = Some g2 /\
  forall r', ResolveSplitBrain [g2; g1] = Some r' -> r' = g2.
Proof.
  assert (ResolveSplitBrain [g1; g2] = Some g2) as E by (vm_compute; reflexivity).
  split; [exact E|]. intros r' H.
  destruct (ResolveSplitBrain_correct [g1; g2]) as [_ Hc]. destruct (Hc g2 E) as (_ & Hp & _).
  apply (Hp [g2; g1] r' (Permutation_swap g2 g1 []) H).
  intros s [->|[->|[]%not_elem_of_nil]%elem_of_cons]%elem_of_cons [He _]; [vm_compute in He; discriminate|reflexivity].
Defined.

Lemma AddMember_correct_witness :
  exists gs', AddMember 101 bob g1 = Ok gs' /\ IsMember gs' (Ed25519Pubkey bob) = true.
Proof.
  destruct (AddMember_correct 101 bob g1) as [[_ Hok] Hr].
  assert (AddMember 101 bob g1 = Ok (state_of (AddMember 101 bob g1))) as E by (vm_compute; reflexivity).
  exists (state_of (AddMember 101 bob g1)). split; [exact E|].
  destruct (Hr _ E) as (_ & Hm & _). apply Hm. right. reflexivity.
Defined.
