(* ===== verification/Storage.v ===== *)
(** * pkg/storage: records in the key-value store

    The Badger-backed storage ([badger.go], [groups.go], [channels.go]): keys,
    contacts, messages, peers, configuration, blacklist, groups, sender keys and
    channels, each operation over the store interface of [Badger].  A lookup
    that reports a missing key by a nil result returns an option.  Times of the
    JSON records are nanoseconds; base58 is a parameter.  Debug logging is left
    out except for the slices it takes, which panic on short identifiers (the
    capacity of a slice is its length). *)
From S2P Require Import Prelude Proto Badger GroupState.

Definition contactPrefix : string := "c:".
Definition messagePrefix : string := "m:".
Definition peerPrefix : string := "p:".
Definition configPrefix : string := "cfg:".
Definition groupPrefix : string := "g:".
Definition senderKeyPrefix : string := "sk:".
Definition blacklistPrefix : string := "bl:".
Definition channelPrefix : string := "ch:".
Definition channelPostPrefix : string := "chp:".
Definition timestampSize : nat := 8.

Definition ErrGroupNotFound : error := ErrText "group not found".
Definition ErrSenderKeyNotFound : error := ErrText "sender key not found".

(** [pb.Contact], [pb.Envelope], [pb.SignedEnvelope] *)
Record Contact := mkContact {
  c_PublicKey : bytes; c_DisplayName : string; c_CreatedAt : Z; c_X25519PublicKey : bytes;
  c_PeerId : string; c_Multiaddrs : list string; c_LastSeen : Z;
}.

Record Envelope := mkEnv { e_Ciphertext : bytes; e_EphemeralPubkey : bytes; e_Nonce : bytes }.

Record SignedEnvelope := mkSignedEnv {
  se_Envelope : bytes; se_Signature : bytes; se_SenderPubkey : bytes; se_EncryptedEphemeralPriv : bytes;
}.

Record MessageWithKey := mkMessageWithKey {
  mk_Envelope : SignedEnvelope; mk_Timestamp : Z; mk_Nonce : bytes;
}.

Record PeerRecord := mkPeerRecord {
  PeerID : string; Multiaddrs : list string; FirstSeen : Z; LastSeen : Z; LastConnected : Z;
  ConnectCount : Z; FailCount : Z; Source : string; Protocols : list string; LatencyMs : Z;
}.

(** A zero [ExpiresAt] is [None]. *)
Record BlacklistEntry := mkBlacklistEntry {
  b_PeerID : string; b_Reason : string; b_BlacklistedAt : Z; b_ExpiresAt : option Z;
}.

(** [pb.ChannelState]; [pb.ChannelPost] with its content kept as an encoded value. *)
Record pbChannelState := mkPbChannel {
  pc_ChannelId : bytes; pc_Name : string; pc_Description : string; pc_AvatarCid : string;
  pc_Type : Z; pc_OwnerPubkey : bytes; pc_CreatedAt : Z; pc_UpdatedAt : Z; pc_LatestPostCid : bytes;
  pc_SubscriberCount : Z; pc_StateSignature : bytes;
}.

#[export] Instance eta_pbChannel : Eta pbChannelState := fun c =>
  mkPbChannel (pc_ChannelId c) (pc_Name c) (pc_Description c) (pc_AvatarCid c) (pc_Type c)
    (pc_OwnerPubkey c) (pc_CreatedAt c) (pc_UpdatedAt c) (pc_LatestPostCid c) (pc_SubscriberCount c)
    (pc_StateSignature c).

Inductive pbContent :=
  | NoContent
  | Text (text language : string)
  | Media (cid contentType : string) (sizeBytes : Z) (filename : string) (thumbnail mediaKey mediaHash : bytes)
      (width height durationMs : Z)
  | Edit (targetMessageId : bytes) (newText : string) (editTimestamp : Z)
  | DeleteMsg (targetMessageId : bytes).

Record pbChannelPost := mkPbPost {
  pp_PostId : bytes; pp_ChannelId : bytes; pp_AuthorPubkey : bytes; pp_Timestamp : Z;
  pp_Content : pbContent; pp_PreviousPostCid : bytes; pp_Signature : bytes;
}.

(** ** Keys *)

Definition messageKey (contactPubKey : bytes) (timestamp : Z) (nonce : bytes) : bytes :=
  ((str messagePrefix ++ contactPubKey) ++ be_encode 8 timestamp) ++ nonce.
Definition contactKey (pubKey : bytes) : bytes := str contactPrefix ++ pubKey.
Definition peerKey (peerID : string) : bytes := str peerPrefix ++ str peerID.
Definition configKey (key : string) : bytes := str configPrefix ++ str key.
Definition blacklistKey (peerID : string) : bytes := str blacklistPrefix ++ str peerID.
Definition groupKey (groupID : bytes) : bytes := str groupPrefix ++ str (hex groupID).
Definition senderKeyKey (groupID senderPubkey : bytes) : bytes :=
  ((str senderKeyPrefix ++ str (hex groupID)) ++ [Byte.x3a]) ++ str (hex senderPubkey).
Definition channelKey (channelID : bytes) : bytes := str channelPrefix ++ str (hex channelID).
Definition channelPostKey (channelID postID : bytes) : bytes :=
  ((str channelPostPrefix ++ str (hex channelID)) ++ [Byte.x3a]) ++ str (hex postID).

(** The slice [x[:8]] taken for a log line. *)
Definition log_slice {S} (x : bytes) : GoM S unit :=
  if (length x <? 8)%nat then panic else mret tt.

Section Storage.
Context `{K : KV} `{!Codec Contact} `{!Codec Envelope} `{!Codec SignedEnvelope} `{!Codec PeerRecord}
  `{!Codec BlacklistEntry} `{!Codec pbGroupState} `{!Codec pbSenderKeyDistribution}
  `{!Codec pbChannelState} `{!Codec pbChannelPost}.

Abbreviation S := (GoM kv).

(** Deleting every key with a prefix in one transaction. *)
Definition db_delete_prefix (ctx : string) (p : bytes) : S unit := fun d =>
  match kv_scan p d with
  | None => (d, Err (ErrWrap ctx (ErrExt "badger")))
  | Some l =>
      match fold_left (fun od kv => d' ← od; kv_delete kv.1 d') l (Some d) with
      | Some d' => (d', Ok tt)
      | None => (d, Err (ErrWrap ctx (ErrExt "badger")))
      end
  end.

(** ** Contacts *)

Definition AddContact (contact : Contact) : S unit :=
  data ← lift (wrapErr "failed to marshal contact" (proto_Marshal contact));
  db_set "failed to store contact" (contactKey (c_PublicKey contact)) data.

Definition GetContact (pubKey : bytes) : S (option Contact) :=
  db_get "failed to retrieve contact" (mret None) (fun data => c ← proto_Unmarshal data; mret (Some c))
    (contactKey pubKey).

Definition GetContactByBase58 (base58_Decode : string -> option bytes) (s : string) : S (option Contact) :=
  pubKey ← lift (wrapErr "failed to decode base58 public key" (ext "base58.Decode" (base58_Decode s)));
  GetContact pubKey.

Definition GetContactX25519Key (pubKey : bytes) : S bytes :=
  contact ← GetContact pubKey;
  match contact with
  | None => throw (ErrText "contact not found")
  | Some c => if (length (c_X25519PublicKey c) =? 0)%nat
              then throw (ErrText "contact X25519 public key not stored")
              else mret (c_X25519PublicKey c)
  end.

Definition ListContacts : S (list Contact) :=
  db_list "failed to list contacts" (str contactPrefix) proto_Unmarshal.

Definition DeleteContact (pubKey : bytes) : S unit :=
  db_delete "failed to delete contact" (contactKey pubKey).

(** ** Messages *)

Definition AddMessage (now : Z) (contactPubKey : bytes) (envelope : SignedEnvelope) : S unit :=
  env ← lift (wrapErr "failed to parse envelope" (proto_Unmarshal (A := Envelope) (se_Envelope envelope)));
  let key := messageKey contactPubKey (u64 now) (e_Nonce env) in
  data ← lift (wrapErr "failed to marshal envelope" (proto_Marshal envelope));
  db_set "failed to store message" key data.

Definition messagesPrefix (contactPubKey : bytes) : bytes := str messagePrefix ++ contactPubKey.

(** The loop of [GetMessagesWithTimestamps] over the items of the iterator. *)
Fixpoint messages_loop (limit offset : Z) (tsStart : nat) (items : list (bytes * bytes))
    (skipped count : Z) : outcome (list MessageWithKey) :=
  match items with
  | [] => mret []
  | (key, data) :: rest =>
      if skipped <? offset then messages_loop limit offset tsStart rest (skipped + 1) count
      else if (limit >? 0) && (count >=? limit) then mret []
      else if (length key <? tsStart + timestampSize)%nat
      then messages_loop limit offset tsStart rest skipped count
      else if (length key <=? tsStart + timestampSize)%nat
      then messages_loop limit offset tsStart rest skipped count
      else
        envelope ← proto_Unmarshal data;
        messages ← messages_loop limit offset tsStart rest skipped (count + 1);
        mret (mkMessageWithKey envelope (be_decode (take timestampSize (drop tsStart key)))
                (drop (tsStart + timestampSize) key) :: messages)
  end.

Definition GetMessagesWithTimestamps (contactPubKey : bytes) (limit offset : Z) : S (list MessageWithKey) :=
  fun d =>
  (d, match kv_scan (messagesPrefix contactPubKey) d with
      | None => Err (ErrWrap "failed to retrieve messages" (ErrExt "badger"))
      | Some items =>
          wrapErr "failed to retrieve messages"
            (messages_loop limit offset (String.length messagePrefix + length contactPubKey)%nat items 0 0)
      end).

Definition GetMessages (contactPubKey : bytes) (limit offset : Z) : S (list SignedEnvelope) :=
  messages ← GetMessagesWithTimestamps contactPubKey limit offset;
  mret (mk_Envelope <$> messages).

Definition DeleteMessages (contactPubKey : bytes) : S unit :=
  db_delete_prefix "failed to delete messages" (messagesPrefix contactPubKey).

(** ** Peers, configuration, blacklist *)

Definition AddPeer (peer : PeerRecord) : S unit :=
  data ← lift (wrapErr "failed to marshal peer record" (ext "json.Marshal" (marshal peer)));
  db_set "failed to store peer" (peerKey (PeerID peer)) data.

Definition GetPeer (peerID : string) : S (option PeerRecord) :=
  db_get "failed to retrieve peer" (mret None)
    (fun data => p ← ext "json.Unmarshal" (unmarshal data); mret (Some p)) (peerKey peerID).

(** The iteration stops at the limit, before reading the next record. *)
Definition ListPeers (limit : Z) : S (list PeerRecord) := fun d =>
  (d, match kv_scan (str peerPrefix) d with
      | None => Err (ErrWrap "failed to list peers" (ErrExt "badger"))
      | Some l =>
          let l := if limit >? 0 then take (Z.to_nat limit) l else l in
          wrapErr "failed to list peers"
            (foldr (fun kv r => p ← ext "json.Unmarshal" (unmarshal kv.2); t ← r; mret (p :: t)) (mret []) l)
      end).

Definition ListPeersBySource (source : string) : S (list PeerRecord) :=
  peers ← db_list "failed to list peers by source" (str peerPrefix)
            (fun data => ext "json.Unmarshal" (unmarshal data));
  mret (filter (fun p => Source p = source) peers).

Definition DeletePeer (peerID : string) : S unit := db_delete "failed to delete peer" (peerKey peerID).

Definition GetConfig (key : string) : S bytes :=
  db_get "failed to retrieve config" (mret []) mret (configKey key).

Definition SetConfig (key : string) (value : bytes) : S unit :=
  db_set "failed to store config" (configKey key) value.

(** The argument is a Go string, that is any byte sequence. *)
Definition DeleteConfig (key : bytes) : S unit :=
  db_delete "failed to delete config" (str configPrefix ++ key).

Definition BlacklistPeer (now : Z) (peerID reason : string) : S unit :=
  let entry := mkBlacklistEntry peerID reason now None in
  data ← lift (wrapErr "failed to marshal blacklist entry" (ext "json.Marshal" (marshal entry)));
  db_set "failed to store blacklist entry" (blacklistKey peerID) data.

Definition IsExpired (now : Z) (b : BlacklistEntry) : bool :=
  match b_ExpiresAt b with None => false | Some t => now >? t end.

(** The second component tells whether the clean-up goroutine was started. *)
Definition IsBlacklisted (now : Z) (peerID : string) : S (bool * bool) :=
  entry ← db_get "failed to check blacklist" (mret None)
            (fun data => e ← ext "json.Unmarshal" (unmarshal data); mret (Some e)) (blacklistKey peerID);
  match entry with
  | None => mret (false, false)
  | Some e => if IsExpired now e then mret (false, true) else mret (true, false)
  end.

(** The body of that goroutine. *)
Definition blacklist_cleanup (peerID : string) : S unit := DeleteConfig (blacklistKey peerID).

Definition ListBlacklisted (now : Z) : S (list BlacklistEntry) :=
  entries ← db_list "failed to list blacklisted peers" (str blacklistPrefix)
              (fun data => ext "json.Unmarshal" (unmarshal data));
  mret (filter (fun e => IsExpired now e = false) entries).

Definition RemoveFromBlacklist (peerID : string) : S unit :=
  db_delete "failed to remove from blacklist" (blacklistKey peerID).

(** ** Groups and sender keys *)

Definition SaveGroup (group : pbGroupState) : S unit :=
  data ← lift (wrapErr "failed to marshal group state" (proto_Marshal group));
  _ ← db_set "failed to store group" (groupKey (pg_GroupId group)) data;
  log_slice (pg_GroupId group).

Definition GetGroup (groupID : bytes) : S pbGroupState :=
  db_get "failed to get group" (Err ErrGroupNotFound) proto_Unmarshal (groupKey groupID).

Definition ListGroups : S (list pbGroupState) :=
  db_list "failed to list groups" (str groupPrefix) proto_Unmarshal.

Definition DeleteGroup (groupID : bytes) : S unit :=
  _ ← db_delete "failed to delete group" (groupKey groupID);
  log_slice groupID.

Definition SaveSenderKey (sk : pbSenderKeyDistribution) : S unit :=
  data ← lift (wrapErr "failed to marshal sender key" (proto_Marshal sk));
  _ ← db_set "failed to store sender key" (senderKeyKey (pk_GroupId sk) (pk_SenderPub sk)) data;
  _ ← log_slice (pk_GroupId sk);
  log_slice (pk_SenderPub sk).

Definition GetSenderKey (groupID senderPubkey : bytes) : S pbSenderKeyDistribution :=
  db_get "failed to get sender key" (Err ErrSenderKeyNotFound) proto_Unmarshal
    (senderKeyKey groupID senderPubkey).

Definition senderKeysPrefix (groupID : bytes) : bytes :=
  (str senderKeyPrefix ++ str (hex groupID)) ++ [Byte.x3a].

Definition ListSenderKeys (groupID : bytes) : S (list pbSenderKeyDistribution) :=
  db_list "failed to list sender keys" (senderKeysPrefix groupID) proto_Unmarshal.

Definition DeleteSenderKey (groupID senderPubkey : bytes) : S unit :=
  db_delete "failed to delete sender key" (senderKeyKey groupID senderPubkey).

Definition DeleteAllSenderKeys (groupID : bytes) : S unit :=
  db_delete_prefix "failed to delete sender keys" (senderKeysPrefix groupID).

(** ** Channels *)

Definition SaveChannel (channel : pbChannelState) : S unit :=
  data ← lift (wrapErr "failed to marshal channel state" (proto_Marshal channel));
  _ ← db_set "failed to store channel" (channelKey (pc_ChannelId channel)) data;
  log_slice (pc_ChannelId channel).

Definition GetChannel (channelID : bytes) : S pbChannelState :=
  db_get "failed to get channel" (Err ErrGroupNotFound) proto_Unmarshal (channelKey channelID).

Definition ListChannels : S (list pbChannelState) :=
  db_list "failed to list channels" (str channelPrefix) proto_Unmarshal.

Definition DeleteChannel (channelID : bytes) : S unit :=
  _ ← db_delete "failed to delete channel" (channelKey channelID);
  log_slice channelID.

(** [getChannelTxn], whose errors its only caller ignores. *)
Definition getChannelTxn (d : kv) (channelID : bytes) : option pbChannelState :=
  match kv_get (channelKey channelID) d with
  | Some (Some data) => unmarshal data
  | _ => None
  end.

(** One transaction: the post, then the channel it belongs to. *)
Definition SaveChannelPost (post : pbChannelPost) : S unit :=
  data ← lift (wrapErr "failed to marshal channel post" (proto_Marshal post));
  _ ← (fun d =>
         let txn :=
           d1 ← ext "badger" (kv_set (channelPostKey (pp_ChannelId post) (pp_PostId post)) data d);
           match getChannelTxn d1 (pp_ChannelId post) with
           | None => mret d1
           | Some channel =>
               let channel := channel <| pc_LatestPostCid := pp_PreviousPostCid post |>
                                      <| pc_UpdatedAt := pp_Timestamp post |> in
               match marshal channel with
               | None => mret d1
               | Some channelData =>
                   wrapErr "failed to update channel"
                     (ext "badger" (kv_set (channelKey (pp_ChannelId post)) channelData d1))
               end
           end in
         match wrapErr "failed to store channel post" txn with
         | Ok d' => (d', Ok tt)
         | Err e => (d, Err e)
         | Panic => (d, Panic)
         end);
  _ ← log_slice (pp_PostId post);
  log_slice (pp_ChannelId post).

Definition channelPostsPrefix (channelID : bytes) : bytes :=
  (str channelPostPrefix ++ str (hex channelID)) ++ [Byte.x3a].

Fixpoint posts_loop (limit offset : Z) (prefix : bytes) (items : list (bytes * bytes)) (count found : Z)
    : outcome (list pbChannelPost) :=
  match items with
  | [] => mret []
  | (key, data) :: rest =>
      if (length prefix <? length key)%nat && bool_decide (drop (length prefix) key = str "idx")
      then posts_loop limit offset prefix rest count found
      else if count <? offset then posts_loop limit offset prefix rest (count + 1) found
      else if (limit >? 0) && (found >=? limit) then mret []
      else
        post ← proto_Unmarshal data;
        posts ← posts_loop limit offset prefix rest count (found + 1);
        mret (post :: posts)
  end.

Definition GetChannelPosts (channelID : bytes) (limit offset : Z) : S (list pbChannelPost) := fun d =>
  (d, match kv_scan (channelPostsPrefix channelID) d with
      | None => Err (ErrWrap "failed to list channel posts" (ErrExt "badger"))
      | Some items =>
          wrapErr "failed to list channel posts" (posts_loop limit offset (channelPostsPrefix channelID) items 0 0)
      end).

Definition GetLatestChannelPostCID (channelID : bytes) : S bytes :=
  db_get "failed to get latest post CID" (mret [])
    (fun data => channel ← proto_Unmarshal data; mret (pc_LatestPostCid channel)) (channelKey channelID).
End Storage.

(** ** The storage interface

    The group and channel services that take a [storage.Storage] use these four
    of its methods; [badger_storage] is the Badger implementation of them. *)
Class StorageI := {
  st : Type;
  st_SaveGroup : pbGroupState -> GoM st unit;
  st_SaveChannel : pbChannelState -> GoM st unit;
  st_DeleteChannel : bytes -> GoM st unit;
  st_SaveChannelPost : pbChannelPost -> GoM st unit;
}.

Definition badger_storage `{K : KV} `{!Codec pbGroupState} `{!Codec pbChannelState} `{!Codec pbChannelPost}
    : StorageI := {|
  st := kv;
  st_SaveGroup := SaveGroup;
  st_SaveChannel := SaveChannel;
  st_DeleteChannel := DeleteChannel;
  st_SaveChannelPost := SaveChannelPost;
|}.
