(* ===== verification/StorageProps.v ===== *)
(** * pkg/storage: what the storage guarantees

    Theorems about [Storage] over any store that satisfies [KVLaws]: distinct
    records have distinct keys, what is written is read back and nothing else
    changes, messages come back in the order of their times, deletion by prefix
    is exact; and two operations that do not do what they are for. *)
From Stdlib Require Import Sorting.Sorted.
From S2P Require Import Prelude Proto Badger GroupState Storage.
#[local] Open Scope Z_scope.

(** ** Keys *)

(** The records of the storage package. *)
Inductive StoreKey :=
  | KContact (pubKey : bytes)
  | KMessage (contactPubKey : bytes) (timestamp : Z) (nonce : bytes)
  | KPeer (peerID : string)
  | KConfig (key : string)
  | KBlacklist (peerID : string)
  | KGroup (groupID : bytes)
  | KSenderKey (groupID senderPubkey : bytes)
  | KChannel (channelID : bytes)
  | KChannelPost (channelID postID : bytes).

Definition key_bytes (k : StoreKey) : bytes :=
  match k with
  | KContact p => contactKey p
  | KMessage c t n => messageKey c t n
  | KPeer p => peerKey p
  | KConfig c => configKey c
  | KBlacklist p => blacklistKey p
  | KGroup g => groupKey g
  | KSenderKey g s => senderKeyKey g s
  | KChannel c => channelKey c
  | KChannelPost c p => channelPostKey c p
  end.

(** Contacts of messages are Ed25519 keys, times are 64-bit. *)
Definition key_ok (k : StoreKey) : Prop :=
  match k with
  | KMessage c t _ => length c = 32%nat /\ 0 <= t < 2 ^ 64
  | _ => True
  end.

Lemma messageKey_app c t n : messageKey c t n = str messagePrefix ++ c ++ be_encode 8 t ++ n.
Proof. unfold messageKey. by rewrite <- !app_assoc. Qed.

Lemma senderKeyKey_app g s : senderKeyKey g s = str senderKeyPrefix ++ str (hex g) ++ Byte.x3a :: str (hex s).
Proof. unfold senderKeyKey. by rewrite <- !app_assoc. Qed.

Lemma channelPostKey_app c p :
  channelPostKey c p = str channelPostPrefix ++ str (hex c) ++ Byte.x3a :: str (hex p).
Proof. unfold channelPostKey. by rewrite <- !app_assoc. Qed.

Lemma be_encode_inj n v1 v2 :
  0 <= v1 < 256 ^ Z.of_nat n -> 0 <= v2 < 256 ^ Z.of_nat n -> be_encode n v1 = be_encode n v2 -> v1 = v2.
Proof. intros H1 H2 E. by rewrite <- (be_decode_encode n v1 H1), E, be_decode_encode. Qed.

Lemma hex_pair_inj a b c d :
  str (hex a) ++ Byte.x3a :: str (hex b) = str (hex c) ++ Byte.x3a :: str (hex d) -> a = c /\ b = d.
Proof.
  intros [E1 E2]%app_sep_inj; [|apply hex_no_colon..]. split; [by apply (inj hex), (inj str)|].
  by apply (inj hex), (inj str).
Qed.

(** The kinds of records have different prefixes, none a prefix of another. *)
Lemma prefixes_distinct :
  forall p q x y,
    p ∈ [contactPrefix; messagePrefix; peerPrefix; configPrefix; blacklistPrefix; groupPrefix;
         senderKeyPrefix; channelPrefix; channelPostPrefix] ->
    q ∈ [contactPrefix; messagePrefix; peerPrefix; configPrefix; blacklistPrefix; groupPrefix;
         senderKeyPrefix; channelPrefix; channelPostPrefix] ->
    str p ++ x = str q ++ y -> p = q.
Proof.
  intros p q x y Hp Hq.
  repeat (apply elem_of_cons in Hp as [->|Hp]; [|]); [..|by apply not_elem_of_nil in Hp];
    repeat (apply elem_of_cons in Hq as [->|Hq]; [|]); try (by apply not_elem_of_nil in Hq); try done.
Qed.

(** No two records share a key: the keys are injective in their parts and the
    nine kinds never collide. *)
Lemma key_bytes_inj k1 k2 :
  key_ok k1 -> key_ok k2 -> key_bytes k1 = key_bytes k2 -> k1 = k2.
Proof.
  intros H1 H2 E.
  destruct k1, k2; cbn [key_bytes key_ok] in *;
    rewrite ?messageKey_app, ?senderKeyKey_app, ?channelPostKey_app in E; try discriminate E;
    unfold contactKey, peerKey, configKey, blacklistKey, groupKey, channelKey in E;
    apply app_inv_head in E; try (by apply (inj str) in E as ->); try (by apply hex_pair_inj in E as [-> ->]).
  - by subst.
  - destruct H1 as [L1 R1], H2 as [L2 R2]. apply app_inj_1 in E as [-> E]; [|congruence].
    apply app_inj_1 in E as [E ->]; [|by rewrite !be_encode_length].
    by apply be_encode_inj in E as ->.
  - by apply (inj str), (inj hex) in E as ->.
  - by apply (inj str), (inj hex) in E as ->.
Qed.

(** ** Writing and reading back *)

Section Props.
Context `{K : KV} `{!KVLaws K}.

(** No other record changed from [d] to [d']. *)
Definition frame (k : StoreKey) (d d' : kv) : Prop :=
  forall k', key_ok k' -> k' <> k -> kv_get (key_bytes k') d' = kv_get (key_bytes k') d.

Lemma frame_set k v d d' : key_ok k -> kv_set (key_bytes k) v d = Some d' -> frame k d d'.
Proof.
  intros Hk Hs k' Hk' Hne. apply (kv_get_set_ne _ _ _ _ _ Hs). intros E. by apply Hne, key_bytes_inj.
Qed.

Lemma frame_delete k d d' : key_ok k -> kv_delete (key_bytes k) d = Some d' -> frame k d d'.
Proof.
  intros Hk Hs k' Hk' Hne. apply (kv_get_delete_ne _ _ _ _ Hs). intros E. by apply Hne, key_bytes_inj.
Qed.

Lemma db_set_Ok ctx k v d d' : db_set ctx k v d = (d', Ok tt) -> kv_set k v d = Some d'.
Proof. unfold db_set. destruct (kv_set k v d); [|done]. by intros [= ->]. Qed.

Lemma db_delete_Ok ctx k d d' : db_delete ctx k d = (d', Ok tt) -> kv_delete k d = Some d'.
Proof. unfold db_delete. destruct (kv_delete k d); [|done]. by intros [= ->]. Qed.

Lemma db_get_found {A} ctx missing (parse : bytes -> outcome A) k v a d :
  kv_get k d = Some (Some v) -> parse v = Ok a -> db_get ctx missing parse k d = (d, Ok a).
Proof. intros Hk Hp. unfold db_get. by rewrite Hk, Hp. Qed.

(** A save is a marshalling and a write, possibly followed by a log line. *)
Lemma save_inv {A} `{Codec A} ctx ctx' (a : A) k (after : GoM kv unit) d d' :
  (forall x, (after x).1 = x) ->
  (data ← lift (wrapErr ctx (proto_Marshal a)); _ ← db_set ctx' k data; after) d = (d', Ok tt) ->
  exists data, marshal a = Some data /\ kv_set k data d = Some d'.
Proof.
  intros Ha. unfold proto_Marshal, lift. unfold mbind, GoM_bind.
  destruct (marshal a) as [data|]; [|done]. cbn. unfold db_set.
  destruct (kv_set k data d) as [d1|] eqn:E; [|done]. intros Hd. exists data. split; [done|].
  specialize (Ha d1). rewrite Hd in Ha. cbn in Ha. by rewrite E, Ha.
Qed.

(** However a save ends, it has written nothing or that one key. *)
Lemma save_state {A} `{Codec A} ctx ctx' (a : A) k (after : GoM kv unit) d :
  (forall x, (after x).1 = x) ->
  let d' := ((data ← lift (wrapErr ctx (proto_Marshal a)); _ ← db_set ctx' k data; after) d).1 in
  d' = d \/ exists data, kv_set k data d = Some d'.
Proof.
  intros Ha. unfold proto_Marshal, lift. unfold mbind, GoM_bind.
  destruct (marshal a) as [data|]; [|by left]. cbn. unfold db_set.
  destruct (kv_set k data d) as [d1|] eqn:E; [|by left]. right. exists data. by rewrite Ha.
Qed.

Lemma log_slice_state {S} x (s : S) : (log_slice x s).1 = s.
Proof. unfold log_slice. by destruct (_ <? _)%nat. Qed.

Lemma log_slices_state {S} x y (s : S) : ((_ ← log_slice x; log_slice y) s).1 = s.
Proof. unfold log_slice, mbind, GoM_bind. by repeat destruct (_ <? _)%nat. Qed.

Lemma SaveGroup_GetGroup `{!Codec pbGroupState} `{!CodecLaws pbGroupState} g d d' :
  SaveGroup g d = (d', Ok tt) ->
  Storage.GetGroup (pg_GroupId g) d' = (d', Ok g) /\ frame (KGroup (pg_GroupId g)) d d'.
Proof.
  intros (data & Em & H)%save_inv; [|apply log_slice_state].
  split; [|by eapply (frame_set (KGroup (pg_GroupId g)))].
  eapply db_get_found; [by apply (kv_get_set (groupKey (pg_GroupId g)) data d)|].
  unfold proto_Unmarshal. by rewrite (unmarshal_marshal _ _ Em).
Qed.

Context `{!Codec Contact} `{!Codec PeerRecord} `{!Codec pbGroupState} `{!Codec pbSenderKeyDistribution}
  `{!Codec pbChannelState} `{!CodecLaws Contact} `{!CodecLaws PeerRecord} `{!CodecLaws pbGroupState}
  `{!CodecLaws pbSenderKeyDistribution} `{!CodecLaws pbChannelState}.

(** What is saved is read back, and nothing else changes.  After a successful
    save of a contact, a peer, a configuration value, a group, a sender key or a
    channel, the corresponding lookup returns exactly that record, and every
    other record of the storage, of any kind, is as before. *)
Theorem save_then_get d d' :
  (forall c, AddContact c d = (d', Ok tt) ->
     GetContact (c_PublicKey c) d' = (d', Ok (Some c)) /\ frame (KContact (c_PublicKey c)) d d') /\
  (forall p, AddPeer p d = (d', Ok tt) ->
     GetPeer (PeerID p) d' = (d', Ok (Some p)) /\ frame (KPeer (PeerID p)) d d') /\
  (forall k v, SetConfig k v d = (d', Ok tt) ->
     GetConfig k d' = (d', Ok v) /\ frame (KConfig k) d d') /\
  (forall g, SaveGroup g d = (d', Ok tt) ->
     GetGroup (pg_GroupId g) d' = (d', Ok g) /\ frame (KGroup (pg_GroupId g)) d d') /\
  (forall sk, SaveSenderKey sk d = (d', Ok tt) ->
     GetSenderKey (pk_GroupId sk) (pk_SenderPub sk) d' = (d', Ok sk) /\
     frame (KSenderKey (pk_GroupId sk) (pk_SenderPub sk)) d d') /\
  (forall c, SaveChannel c d = (d', Ok tt) ->
     GetChannel (pc_ChannelId c) d' = (d', Ok c) /\ frame (KChannel (pc_ChannelId c)) d d').
Proof.
  assert (forall k v, key_ok k -> kv_set (key_bytes k) v d = Some d' ->
            kv_get (key_bytes k) d' = Some (Some v) /\ frame k d d') as Hset.
  { intros k v Hk Hs. split; [by eapply kv_get_set|by eapply frame_set]. }
  split; [|split; [|split; [|split; [|split]]]].
  - intros c H. unfold AddContact in H. unfold mbind, GoM_bind, lift, proto_Marshal in H.
    destruct (marshal c) as [data|] eqn:Em; [|done]. apply db_set_Ok in H.
    destruct (Hset (KContact (c_PublicKey c)) data I H) as [Hg Hf]. split; [|done].
    eapply db_get_found; [exact Hg|]. unfold proto_Unmarshal. by rewrite (unmarshal_marshal _ _ Em).
  - intros p H. unfold AddPeer in H. unfold mbind, GoM_bind, lift in H.
    destruct (marshal p) as [data|] eqn:Em; [|done]. apply db_set_Ok in H.
    destruct (Hset (KPeer (PeerID p)) data I H) as [Hg Hf]. split; [|done].
    eapply db_get_found; [exact Hg|]. by rewrite (unmarshal_marshal _ _ Em).
  - intros k v H%db_set_Ok. destruct (Hset (KConfig k) v I H) as [Hg Hf]. split; [|done].
    by eapply db_get_found.
  - intros g. apply SaveGroup_GetGroup.
  - intros sk (data & Em & H)%save_inv; [|apply log_slices_state].
    destruct (Hset (KSenderKey (pk_GroupId sk) (pk_SenderPub sk)) data I H) as [Hg Hf]. split; [|done].
    eapply db_get_found; [exact Hg|]. unfold proto_Unmarshal. by rewrite (unmarshal_marshal _ _ Em).
  - intros c (data & Em & H)%save_inv; [|apply log_slice_state].
    destruct (Hset (KChannel (pc_ChannelId c)) data I H) as [Hg Hf]. split; [|done].
    eapply db_get_found; [exact Hg|]. unfold proto_Unmarshal. by rewrite (unmarshal_marshal _ _ Em).
Qed.
End Props.

(** ** Messages *)

Section Messages.
Context `{K : KV} `{!KVLaws K} `{!Codec Envelope} `{!Codec SignedEnvelope}
  `{!CodecLaws SignedEnvelope}.

#[local] Arguments messagesPrefix : simpl never.

Lemma messageKey_prefix c t n : messagesPrefix c `prefix_of` messageKey c t n.
Proof. unfold messagesPrefix. rewrite messageKey_app. exists (be_encode 8 t ++ n). by rewrite <- app_assoc. Qed.

Lemma messagesPrefix_length c : length (messagesPrefix c) = (String.length messagePrefix + length c)%nat.
Proof. unfold messagesPrefix. by rewrite length_app. Qed.

(** A key long enough for a time and a nonce is the key of that message. *)
Lemma messageKey_parse c key :
  messagesPrefix c `prefix_of` key ->
  (length (messagesPrefix c) + timestampSize < length key)%nat ->
  key = messageKey c (be_decode (take timestampSize (drop (length (messagesPrefix c)) key)))
          (drop (length (messagesPrefix c) + timestampSize) key).
Proof.
  intros [t ->] Hl. rewrite length_app in Hl.
  rewrite messageKey_app, <- drop_drop, drop_app_length. unfold timestampSize in *.
  assert (length (take 8 t) = 8%nat) as H8 by (rewrite length_take; lia).
  pose proof (be_encode_decode (take 8 t)) as He. rewrite H8 in He. rewrite He, take_drop.
  unfold messagesPrefix. by rewrite <- app_assoc.
Qed.

(** [m] was read from the item [kv]. *)
Definition from_item (tsStart : nat) (m : MessageWithKey) (item : bytes * bytes) : Prop :=
  (tsStart + timestampSize < length item.1)%nat /\ unmarshal item.2 = Some (mk_Envelope m) /\
  mk_Timestamp m = be_decode (take timestampSize (drop tsStart item.1)) /\
  mk_Nonce m = drop (tsStart + timestampSize) item.1.

Lemma messages_loop_items limit offset ts items skipped count ms :
  messages_loop limit offset ts items skipped count = Ok ms ->
  exists items', sublist items' items /\ Forall2 (from_item ts) ms items'.
Proof.
  revert skipped count ms; induction items as [|[key data] rest IH]; intros skipped count ms; cbn [messages_loop].
  - intros [= <-]. by exists [].
  - intros H.
    assert (forall s k, messages_loop limit offset ts rest s k = Ok ms ->
              exists items', sublist items' ((key, data) :: rest) /\ Forall2 (from_item ts) ms items') as Hskip.
    { intros s k (items' & Hs & Hf)%IH. exists items'. split; [by apply sublist_cons|done]. }
    destruct (skipped <? offset); [by eapply Hskip|].
    destruct (_ && _); [injection H as <-; exists []; split; [apply sublist_nil_l|constructor]|].
    destruct (length key <? _)%nat eqn:E1; [by eapply Hskip|].
    destruct (length key <=? _)%nat eqn:E2; [by eapply Hskip|].
    unfold proto_Unmarshal in H. outcome_inv.
    match goal with H : messages_loop _ _ _ _ _ _ = Ok _ |- _ => apply IH in H as (items' & Hs & Hf) end.
    exists ((key, data) :: items'). split; [by apply sublist_skip|]. constructor; [|done].
    apply Nat.leb_gt in E2. by split.
Qed.

Lemma messages_loop_limit limit offset ts items skipped count ms :
  messages_loop limit offset ts items skipped count = Ok ms -> 0 < limit -> 0 <= count <= limit ->
  count + Z.of_nat (length ms) <= limit.
Proof.
  revert skipped count ms; induction items as [|[key data] rest IH]; intros skipped count ms;
    cbn [messages_loop]; intros H Hl Hc; [injection H as <-; cbn; lia|].
  destruct (skipped <? offset); [by eapply IH|].
  destruct (_ && _) eqn:E0; [injection H as <-; cbn; lia|].
  destruct (length key <? _)%nat; [by eapply IH|]. destruct (length key <=? _)%nat; [by eapply IH|].
  outcome_inv. apply andb_false_iff in E0.
  match goal with H : messages_loop _ _ _ _ _ _ = Ok _ |- _ => apply IH in H; [cbn; lia|lia|lia] end.
Qed.

(** The items of a scan are ordered, so the times read from them are. *)
Lemma from_items_sorted p ms items :
  StronglySorted key_le items -> Forall (fun kv : bytes * bytes => p `prefix_of` kv.1) items ->
  Forall2 (from_item (length p)) ms items ->
  StronglySorted (fun a b => mk_Timestamp a <= mk_Timestamp b) ms.
Proof.
  intros Hs Hp Hf. revert Hs Hp; induction Hf as [|m [k v] ms items Hm Hf IH]; intros Hs Hp; [constructor|].
  apply StronglySorted_inv in Hs as [Hs Hle]. apply Forall_cons in Hp as [Hk Hp].
  constructor; [by apply IH|]. apply Forall_forall. intros m' Hm'.
  destruct (Forall2_elem_of_l _ _ _ _ Hf Hm') as ([k' v'] & Hin & Hl' & _ & Ht' & _).
  destruct Hm as (Hl & _ & Ht & _). rewrite Ht, Ht'. clear Ht Ht'.
  rewrite Forall_forall in Hle, Hp. specialize (Hle _ Hin). specialize (Hp _ Hin).
  unfold key_le in Hle. cbn in *. destruct Hk as [s ->], Hp as [s' ->].
  rewrite bytes_ltb_app in Hle. rewrite !drop_app_length. rewrite !length_app in *. unfold timestampSize in *.
  apply (be_decode_mono _ _ (drop 8 s) (drop 8 s')); [rewrite !length_take; lia|by rewrite !take_drop].
Qed.

(** C24. Messages come back oldest first.  For every limit and offset the messages
    returned for a contact are ordered by their time, each is the envelope
    stored for that contact under that time and nonce, at most [limit] are
    returned when a limit is given, and the store is not changed. *)
Theorem messages_chronological c limit offset d d' ms :
  GetMessagesWithTimestamps c limit offset d = (d', Ok ms) ->
  d' = d /\
  StronglySorted (fun a b => mk_Timestamp a <= mk_Timestamp b) ms /\
  (forall m, m ∈ ms -> exists data,
     kv_get (messageKey c (mk_Timestamp m) (mk_Nonce m)) d = Some (Some data) /\
     unmarshal data = Some (mk_Envelope m)) /\
  (0 < limit -> Z.of_nat (length ms) <= limit).
Proof.
  unfold GetMessagesWithTimestamps. rewrite <- messagesPrefix_length.
  destruct (kv_scan _ d) as [items|] eqn:Es; [|done].
  intros [= <- H]. apply (proj1 (wrapErr_Ok _ _ _)) in H. split; [done|].
  destruct (kv_scan_spec _ _ _ Es) as (_ & Hsort & Hitems).
  pose proof (messages_loop_limit _ _ _ _ _ _ _ H) as Hlim.
  apply messages_loop_items in H as (items' & Hsub & Hf).
  assert (Forall (fun kv : bytes * bytes => messagesPrefix c `prefix_of` kv.1) items') as Hp.
  { apply Forall_forall. intros [k v] Hin.
    by apply (proj1 (Hitems k v)), (sublist_subseteq _ _ Hsub). }
  split; [|split].
  - eapply from_items_sorted; [|done|done]. clear -Hsort Hsub. revert Hsort.
    induction Hsub as [|x l l' Hsub IH|x l l' Hsub IH]; intros Hs; [done|..].
    + apply StronglySorted_inv in Hs as [Hs Hle]. constructor; [by apply IH|].
      rewrite Forall_forall in *. intros y Hy. by apply Hle, (sublist_subseteq _ _ Hsub).
    + apply StronglySorted_inv in Hs as [Hs _]. by apply IH.
  - intros m Hm. destruct (Forall2_elem_of_l _ _ _ _ Hf Hm) as ([k v] & Hin & Hl & Hu & Ht & Hn).
    exists v. split; [|done]. rewrite Forall_forall in Hp. pose proof (Hp _ Hin) as Hk. cbn [fst snd] in *.
    rewrite Ht, Hn, <- messageKey_parse by done.
    by apply (proj1 (Hitems k v)), (sublist_subseteq _ _ Hsub).
  - intros Hl. specialize (Hlim Hl). lia.
Qed.

Lemma messages_loop_all ts items count ms key data :
  messages_loop 0 0 ts items 0 count = Ok ms -> (key, data) ∈ items ->
  (ts + timestampSize < length key)%nat ->
  exists m, m ∈ ms /\ from_item ts m (key, data).
Proof.
  revert count ms; induction items as [|[k v] rest IH]; intros count ms; cbn [messages_loop]; [by intros _ ?%not_elem_of_nil|].
  intros H Hin Hl. cbn [Z.ltb Z.gtb Z.compare andb] in H. apply elem_of_cons in Hin as [[= <- <-]|Hin].
  - rewrite (proj2 (Nat.ltb_ge _ _)), (proj2 (Nat.leb_gt _ _)) in H by lia.
    unfold proto_Unmarshal in H. outcome_inv. eexists. split; [left|]. by split.
  - destruct (length k <? _)%nat; [by eapply IH|]. destruct (length k <=? _)%nat; [by eapply IH|].
    outcome_inv. match goal with H : messages_loop _ _ _ _ _ _ = Ok _ |- _ => eapply IH in H as (m & ? & ?) end;
      [|done|done]. exists m. split; [by right|done].
Qed.

(** A stored message is found again.  After a successful [AddMessage] the
    unlimited listing of that contact contains the envelope, under the time of
    storing and the nonce of the envelope (which must not be empty), and no
    other record changed. *)
Theorem AddMessage_GetMessages now c env d d' ms inner :
  length c = 32%nat -> unmarshal (se_Envelope env) = Some inner -> e_Nonce inner <> [] ->
  AddMessage now c env d = (d', Ok tt) ->
  GetMessagesWithTimestamps c 0 0 d' = (d', Ok ms) ->
  mkMessageWithKey env (u64 now) (e_Nonce inner) ∈ ms /\
  frame (KMessage c (u64 now) (e_Nonce inner)) d d'.
Proof.
  intros Hc Hi Hn HA HG. unfold AddMessage, mbind, GoM_bind, lift, proto_Unmarshal, proto_Marshal in HA.
  rewrite Hi in HA. cbn in HA. destruct (marshal env) as [data|] eqn:Em; [|done]. apply db_set_Ok in HA.
  assert (key_ok (KMessage c (u64 now) (e_Nonce inner))) as Hk by (split; [done|apply u64_range]).
  split; [|by eapply frame_set].
  pose proof (kv_get_set _ _ _ _ HA) as Hg. unfold GetMessagesWithTimestamps in HG.
  destruct (kv_scan _ d') as [items|] eqn:Es; [|done]. injection HG as HG. apply (proj1 (wrapErr_Ok _ _ _)) in HG.
  change (S (S (length c))) with (String.length messagePrefix + length c)%nat in HG.
  rewrite <- messagesPrefix_length in HG.
  destruct (kv_scan_spec _ _ _ Es) as (_ & _ & Hitems).
  assert ((messageKey c (u64 now) (e_Nonce inner), data) ∈ items) as Hin.
  { apply Hitems. split; [apply messageKey_prefix|done]. }
  pose proof (messageKey_app c (u64 now) (e_Nonce inner)) as Hma.
  assert (messageKey c (u64 now) (e_Nonce inner) =
            messagesPrefix c ++ be_encode 8 (u64 now) ++ e_Nonce inner) as Hmk.
  { unfold messagesPrefix. by rewrite Hma, <- app_assoc. }
  destruct (messages_loop_all _ _ _ _ _ _ HG Hin) as ([e t n] & Hm & (Hl & Hu & Ht & Hno)).
  { rewrite Hmk, !length_app, be_encode_length. unfold timestampSize.
    assert (length (e_Nonce inner) <> 0%nat) by (by intros ?%length_zero_iff_nil). lia. }
  cbn [fst snd mk_Envelope mk_Timestamp mk_Nonce] in Hu, Ht, Hno. rewrite (unmarshal_marshal _ _ Em) in Hu. injection Hu as <-.
  rewrite Hmk, drop_app_length, take_app_length' in Ht by (by rewrite be_encode_length).
  rewrite be_decode_encode in Ht by (apply u64_range).
  rewrite Hmk, <- drop_drop, drop_app_length, drop_app_length' in Hno by (by rewrite be_encode_length).
  by subst.
Qed.
End Messages.

(** ** Deletion by prefix *)

Section Deletion.
Context `{K : KV} `{!KVLaws K}.

Lemma fold_delete_spec (l : list (bytes * bytes)) d d' :
  fold_left (fun od kv => d' ← od; kv_delete kv.1 d') l (Some d) = Some d' ->
  forall k, (k ∈ l.*1 -> kv_get k d' = Some None) /\ (k ∉ l.*1 -> kv_get k d' = kv_get k d).
Proof.
  revert d; induction l as [|[k v] l IH]; intros d; cbn.
  - intros [= <-] k. split; [by intros ?%not_elem_of_nil|done].
  - destruct (kv_delete k d) as [d1|] eqn:E.
    + intros H k'. destruct (IH _ H k') as [H1 H2]. split.
      * intros [->|Hin]%elem_of_cons; [|by apply H1].
        destruct (decide (k ∈ l.*1)) as [Hin|Hn]; [by apply H1|]. rewrite H2 by done.
        by eapply kv_get_delete.
      * intros [Hne Hn]%not_elem_of_cons. rewrite H2 by done. by eapply kv_get_delete_ne.
    + intros H. exfalso. clear -H. induction l as [|x l IH]; [done|]. by apply IH.
Qed.

Lemma db_delete_prefix_spec ctx p d d' :
  db_delete_prefix ctx p d = (d', Ok tt) ->
  (forall k v, p `prefix_of` k -> kv_get k d = Some (Some v) -> kv_get k d' = Some None) /\
  (forall k, ~ p `prefix_of` k -> kv_get k d' = kv_get k d).
Proof.
  unfold db_delete_prefix. destruct (kv_scan p d) as [l|] eqn:Es; [|done].
  destruct (fold_left _ l (Some d)) as [d1|] eqn:Ef; [|done]. intros [= ->].
  pose proof (fold_delete_spec _ _ _ Ef) as Hd. destruct (kv_scan_spec _ _ _ Es) as (_ & _ & Hl).
  split.
  - intros k v Hp Hg. apply Hd. apply list_elem_of_fmap. exists (k, v). split; [done|]. by apply Hl.
  - intros k Hp. apply Hd. intros ([k' v] & -> & Hin)%list_elem_of_fmap. by apply Hp, (Hl k' v).
Qed.

Lemma messagesPrefix_key c k :
  length c = 32%nat -> key_ok k -> messagesPrefix c `prefix_of` key_bytes k <->
  exists t n, k = KMessage c t n.
Proof.
  intros Hc Hk. split; [|intros (t & n & ->); apply messageKey_prefix].
  intros [x E]. unfold messagesPrefix in E. rewrite <- app_assoc in E.
  destruct k; cbn [key_bytes] in E; rewrite ?messageKey_app, ?senderKeyKey_app, ?channelPostKey_app in E;
    try discriminate E.
  apply app_inv_head in E. destruct Hk as [Hl _]. apply app_inj_1 in E as [-> _]; [|congruence]. eauto.
Qed.

Lemma senderKeysPrefix_key g k :
  senderKeysPrefix g `prefix_of` key_bytes k <-> exists s, k = KSenderKey g s.
Proof.
  split.
  - intros [x E]. unfold senderKeysPrefix in E. rewrite <- !app_assoc in E.
    destruct k; cbn [key_bytes] in E; rewrite ?messageKey_app, ?senderKeyKey_app, ?channelPostKey_app in E;
      try discriminate E.
    apply app_inv_head, app_sep_inj in E as [E _]; [|apply hex_no_colon..].
    apply (inj str), (inj hex) in E as ->. eauto.
  - intros [s ->]. cbn. unfold senderKeyKey, senderKeysPrefix. by eexists.
Qed.

(** Deletion by prefix is exact.  [DeleteMessages] removes every stored
    message of the contact and [DeleteAllSenderKeys] every stored sender key of
    the group; all other records, of those and of every other kind, keep their
    values. *)
Theorem delete_exact d d' :
  (forall c, length c = 32%nat -> DeleteMessages c d = (d', Ok tt) ->
     (forall t n v, kv_get (messageKey c t n) d = Some (Some v) -> kv_get (messageKey c t n) d' = Some None) /\
     (forall k, key_ok k -> ~ (exists t n, k = KMessage c t n) ->
        kv_get (key_bytes k) d' = kv_get (key_bytes k) d)) /\
  (forall g, DeleteAllSenderKeys g d = (d', Ok tt) ->
     (forall s v, kv_get (senderKeyKey g s) d = Some (Some v) -> kv_get (senderKeyKey g s) d' = Some None) /\
     (forall k, key_ok k -> ~ (exists s, k = KSenderKey g s) ->
        kv_get (key_bytes k) d' = kv_get (key_bytes k) d)).
Proof.
  split.
  - intros c Hc [H1 H2]%db_delete_prefix_spec. split.
    + intros t n v. apply H1, messageKey_prefix.
    + intros k Hk Hn. apply H2. by rewrite messagesPrefix_key.
  - intros g [H1 H2]%db_delete_prefix_spec. split.
    + intros s v. apply H1. apply (senderKeysPrefix_key g (KSenderKey g s)). eauto.
    + intros k Hk Hn. apply H2. by rewrite senderKeysPrefix_key.
Qed.

(** The clean-up of an expired blacklist entry does not remove it.  The
    goroutine started by [IsBlacklisted] passes the entry's key to
    [DeleteConfig], which deletes the configuration value of that name: every
    blacklist entry is still there afterwards. *)
Theorem blacklist_cleanup_keeps_entry peerID d d' :
  blacklist_cleanup peerID d = (d', Ok tt) ->
  (forall p, kv_get (blacklistKey p) d' = kv_get (blacklistKey p) d) /\
  kv_get (configKey (blacklistPrefix +:+ peerID)) d' = Some None.
Proof.
  intros H%db_delete_Ok. split.
  - intros p. eapply kv_get_delete_ne; [done|]. discriminate.
  - unfold configKey. rewrite str_app. by eapply kv_get_delete.
Qed.

Context `{!Codec pbChannelPost} `{!Codec pbChannelState} `{!CodecLaws pbChannelState}.

(** Saving a post sets the channel's latest post to the wrong one.  After
    [SaveChannelPost] of a post in a stored channel the latest post of the
    channel is the post {e before} the saved one, not the saved post. *)
Theorem SaveChannelPost_latest post channel data d d' :
  kv_get (channelKey (pp_ChannelId post)) d = Some (Some data) -> unmarshal data = Some channel ->
  (forall c : pbChannelState, is_Some (marshal c)) ->
  SaveChannelPost post d = (d', Ok tt) ->
  GetLatestChannelPostCID (pp_ChannelId post) d' = (d', Ok (pp_PreviousPostCid post)).
Proof.
  intros Hg Hu Hm HS. unfold SaveChannelPost, mbind, GoM_bind, lift, proto_Marshal in HS.
  destruct (marshal post) as [pd|]; [|done]. cbn in HS. unfold ext in HS.
  destruct (kv_set (channelPostKey _ _) pd d) as [d1|] eqn:E1; [|done]. cbn in HS.
  assert (kv_get (channelKey (pp_ChannelId post)) d1 = Some (Some data)) as Hg1.
  { rewrite <- Hg. apply (frame_set (KChannelPost (pp_ChannelId post) (pp_PostId post)) _ _ _ I E1
                            (KChannel (pp_ChannelId post)) I). done. }
  unfold getChannelTxn in HS. rewrite Hg1, Hu in HS.
  set (channel' := channel <| pc_LatestPostCid := pp_PreviousPostCid post |> <| pc_UpdatedAt := pp_Timestamp post |>) in HS.
  destruct (Hm channel') as [cd Hcd]. rewrite Hcd in HS.
  destruct (kv_set (channelKey _) cd d1) as [d2|] eqn:E2; [|done]. cbn in HS.
  assert (d2 = d') as ->.
  { pose proof (log_slices_state (pp_PostId post) (pp_ChannelId post) d2) as Hl.
    unfold mbind, GoM_bind in Hl. rewrite HS in Hl. done. }
  unfold GetLatestChannelPostCID. eapply db_get_found; [by eapply kv_get_set|].
  unfold proto_Unmarshal. by rewrite (unmarshal_marshal _ _ Hcd).
Qed.
End Deletion.

(** ** Concrete stores *)
Module StorageDemo.
(** The types a run does not use get a codec that refuses everything. *)
Definition no_codec (A : Type) : Codec A := {| marshal _ := None; unmarshal _ := None |}.
Lemma no_codec_laws A : CodecLaws A (C := no_codec A).
Proof. by split. Qed.

#[export] Instance SignedEnvelope_eq_dec : EqDecision SignedEnvelope.
Proof. solve_decision. Defined.
#[export] Instance pbChannelState_eq_dec : EqDecision pbChannelState.
Proof. solve_decision. Defined.

Definition envelope_of (l : list positive) : option SignedEnvelope :=
  match l with
  | [a; b; c; d] => a ← decode a; b ← decode b; c ← decode c; d ← decode d; Some (mkSignedEnv a b c d)
  | _ => None
  end.
#[export] Instance SignedEnvelope_countable : Countable SignedEnvelope.
Proof.
  apply (inj_countable (fun e => [encode (se_Envelope e); encode (se_Signature e); encode (se_SenderPubkey e);
                                  encode (se_EncryptedEphemeralPriv e)]) envelope_of).
  intros []. unfold envelope_of. cbn -[encode decode]. by rewrite !decode_encode.
Defined.

Definition channel_of (l : list positive) : option pbChannelState :=
  match l with
  | [a; b; c; d; e; f; g; h; i; j; k] =>
      a ← decode a; b ← decode b; c ← decode c; d ← decode d; e ← decode e; f ← decode f; g ← decode g;
      h ← decode h; i ← decode i; j ← decode j; k ← decode k; Some (mkPbChannel a b c d e f g h i j k)
  | _ => None
  end.
#[export] Instance pbChannelState_countable : Countable pbChannelState.
Proof.
  apply (inj_countable
    (fun c => [encode (pc_ChannelId c); encode (pc_Name c); encode (pc_Description c); encode (pc_AvatarCid c);
               encode (pc_Type c); encode (pc_OwnerPubkey c); encode (pc_CreatedAt c); encode (pc_UpdatedAt c);
               encode (pc_LatestPostCid c); encode (pc_SubscriberCount c); encode (pc_StateSignature c)]) channel_of).
  intros []. unfold channel_of. cbn -[encode decode]. by rewrite !decode_encode.
Defined.

#[export] Instance SignedEnvelope_codec : Codec SignedEnvelope := countable_codec.
#[export] Instance SignedEnvelope_laws : CodecLaws SignedEnvelope := countable_codec_laws.
#[export] Instance pbChannelState_codec : Codec pbChannelState := countable_codec.
#[export] Instance pbChannelState_laws : CodecLaws pbChannelState := countable_codec_laws.
(** The inner envelope is its nonce. *)
#[export] Instance Envelope_codec : Codec Envelope :=
  {| marshal e := Some (e_Nonce e); unmarshal b := Some (mkEnv [] [] b) |}.
#[export] Instance pbChannelPost_codec : Codec pbChannelPost :=
  {| marshal p := Some (pp_PostId p); unmarshal _ := None |}.

Definition contact : bytes := zeros 32.
Definition env1 : SignedEnvelope := mkSignedEnv [Byte.x01] [] [] [].
Definition env2 : SignedEnvelope := mkSignedEnv [Byte.x02] [] [] [].
(** The later message is stored first. *)
Definition db1 : kv := (AddMessage 300 contact env2 (∅ : gmap bytes bytes)).1.
Definition db2 : kv := (AddMessage 200 contact env1 db1).1.
Definition listed : list MessageWithKey :=
  [mkMessageWithKey env1 200 [Byte.x01]; mkMessageWithKey env2 300 [Byte.x02]].

Definition channel : pbChannelState := mkPbChannel (zeros 32) "news" "" "" 3 [] 1 1 [Byte.x07] 0 [].
Definition post : pbChannelPost := mkPbPost (zeros 16) (zeros 32) [] 5 NoContent [Byte.x07] [].
Definition db3 : kv := (SaveChannel channel (∅ : gmap bytes bytes)).1.
End StorageDemo.
Import StorageDemo GroupDemo.

Lemma save_then_get_witness :
  let g := ToProto GroupDemo.g2 in
  let d' := (SaveGroup g (∅ : gmap bytes bytes)).1 in
  GetGroup (pg_GroupId g) d' = (d', Ok g).
Proof.
  intros g d'. assert (SaveGroup g (∅ : gmap bytes bytes) = (d', Ok tt)) as E
    by (apply run_pair; vm_compute; reflexivity).
  destruct (@save_then_get gmap_kv gmap_kv_laws (no_codec _) (no_codec _) GroupDemo.pbGroupState_codec (no_codec _)
              _ (no_codec_laws _) (no_codec_laws _) countable_codec_laws (no_codec_laws _) _
              (∅ : gmap bytes bytes) d') as (_ & _ & _ & H & _).
  exact (proj1 (H g E)).
Defined.

Lemma messages_chronological_witness :
  GetMessagesWithTimestamps contact 0 0 db2 = (db2, Ok listed) /\
  StronglySorted (fun a b => mk_Timestamp a <= mk_Timestamp b) listed.
Proof.
  assert (GetMessagesWithTimestamps contact 0 0 db2 = (db2, Ok listed)) as E
    by (apply (run_pair (GetMessagesWithTimestamps contact 0 0)); vm_compute; reflexivity).
  split; [exact E|]. exact (proj1 (proj2 (messages_chronological contact 0 0 db2 db2 listed E))).
Defined.

Lemma AddMessage_GetMessages_witness :
  mkMessageWithKey env1 200 [Byte.x01] ∈ listed /\ AddMessage 200 contact env1 db1 = (db2, Ok tt).
Proof.
  assert (AddMessage 200 contact env1 db1 = (db2, Ok tt)) as EA
    by (apply run_pair; vm_compute; reflexivity).
  assert (GetMessagesWithTimestamps contact 0 0 db2 = (db2, Ok listed)) as EG
    by (apply (run_pair (GetMessagesWithTimestamps contact 0 0)); vm_compute; reflexivity).
  split; [|exact EA].
  exact (proj1 (AddMessage_GetMessages 200 contact env1 db1 db2 listed (mkEnv [] [] [Byte.x01])
                  eq_refl eq_refl ltac:(discriminate) EA EG)).
Defined.

Lemma delete_exact_witness :
  let d' := (DeleteMessages contact db2).1 in
  kv_get (messageKey contact 200 [Byte.x01]) d' = Some None.
Proof.
  intros d'. assert (DeleteMessages contact db2 = (d', Ok tt)) as E by (apply run_pair; vm_compute; reflexivity).
  destruct (delete_exact db2 d') as [H _]. destruct (H contact eq_refl E) as [Hm _].
  apply (Hm 200 [Byte.x01] (encode_bytes env1)). vm_compute. reflexivity.
Defined.

Lemma blacklist_cleanup_keeps_entry_witness :
  let d := {[blacklistKey "peer" := [Byte.x01]]} : gmap bytes bytes in
  let d' := (blacklist_cleanup "peer" d).1 in
  kv_get (blacklistKey "peer") d' = Some (Some [Byte.x01]).
Proof.
  intros d d'. assert (blacklist_cleanup "peer" d = (d', Ok tt)) as E by (apply run_pair; vm_compute; reflexivity).
  rewrite (proj1 (blacklist_cleanup_keeps_entry (K := gmap_kv) "peer" d d' E) "peer"%string). vm_compute. reflexivity.
Defined.

Lemma SaveChannelPost_latest_witness :
  let d' := (SaveChannelPost post db3).1 in
  GetLatestChannelPostCID (zeros 32) d' = (d', Ok [Byte.x07]) /\ pp_PostId post <> [Byte.x07].
Proof.
  intros d'. split; [|discriminate].
  assert (SaveChannelPost post db3 = (d', Ok tt)) as E by (apply run_pair; vm_compute; reflexivity).
  refine (SaveChannelPost_latest post channel (encode_bytes channel) db3 d' _ _ _ E).
  - vm_compute. reflexivity.
  - vm_compute. reflexivity.
  - intros c. eexists. reflexivity.
Defined.
