(* ===== verification/Runtime.v ===== *)
(** * The environment of a service

    A service method runs in a system [Sys]: the object it belongs to and the
    environment it reads, that is the random bytes and the clock readings it
    will be given, in order.  A reading of [n] random bytes either fails or
    yields exactly [n] bytes.  Methods hold the service's mutex from beginning to
    end, so a method is one step. *)
From S2P Require Import Prelude.

Record Env := mkEnvironment { rands : nat -> option bytes; clock : nat -> Z }.

Record Sys (X : Type) := mkSys { env : Env; obj : X }.
Arguments mkSys {X} env obj.
Arguments env {X} s.
Arguments obj {X} s.

#[export] Instance eta_Sys X : Eta (Sys X) := fun s => mkSys (env s) (obj s).

Section Runtime.
Context {X : Type}.

(** The first [n] bytes read, padded to the requested length. *)
Definition fit (n : nat) (b : bytes) : bytes := take n (b ++ zeros n).

Definition rand_opt (n : nat) : GoM (Sys X) (option bytes) := fun s =>
  (mkSys (mkEnvironment (fun i => rands (env s) (S i)) (clock (env s))) (obj s),
   Ok (fit n <$> rands (env s) 0)).

(** [time.Now().Unix()] *)
Definition time_now : GoM (Sys X) Z := fun s =>
  (mkSys (mkEnvironment (rands (env s)) (fun i => clock (env s) (S i))) (obj s), Ok (clock (env s) 0%nat)).

(** [generateSSRC] of pkg/rtc: four random bytes, or the clock when there are none. *)
Definition generateSSRC : GoM (Sys X) Z :=
  b ← rand_opt 4;
  match b with
  | Some b => mret (be_decode b)
  | None => now ← time_now; mret (Z.land now 4294967295)
  end.

Definition self : GoM (Sys X) X := fun s => (s, Ok (obj s)).
Definition update (f : X -> X) : GoM (Sys X) unit := fun s => (mkSys (env s) (f (obj s)), Ok tt).

(** Running an operation of a part of the object. *)
Definition on {T A} (g : X -> T) (p : T -> X -> X) (m : GoM T A) : GoM (Sys X) A :=
  zoom (fun s => g (obj s)) (fun t s => mkSys (env s) (p t (obj s))) m.

(** Running a method of a part of the object, in the same environment. *)
Definition within {T A} (g : X -> T) (p : T -> X -> X) (m : GoM (Sys T) A) : GoM (Sys X) A := fun w =>
  match m (mkSys (env w) (g (obj w))) with (w', r) => (mkSys (env w') (p (obj w') (obj w)), r) end.
End Runtime.

Lemma fit_length n b : length (fit n b) = n.
Proof. unfold fit, zeros. rewrite length_take, length_app, length_replicate. lia. Qed.

(** ** Instants

    An instant is a number of nanoseconds.  [t.Unix()] as a [uint64]; [time.Unix(secs, 0)],
    whose count of seconds from the year 1 wraps around; and
    [t.Add(time.Duration(secs) * time.Second)]. *)
Definition SecondNs : Z := 1000000000.
Definition unixToInternal : Z := 62135596800.
Definition to_unix (t : Z) : Z := u64 (t / SecondNs).
Definition of_unix (secs : Z) : Z := (i64 (i64 secs + unixToInternal) - unixToInternal) * SecondNs.
Definition add_secs (t secs : Z) : Z := t + i64 (i64 secs * SecondNs).

(** Instants a time in seconds stands for. *)
Definition in_time (t : Z) : Prop := 0 <= t / SecondNs < 2 ^ 63 - unixToInternal.

Lemma of_to_unix t : in_time t -> of_unix (to_unix t) = t / SecondNs * SecondNs.
Proof.
  intros H. unfold in_time, of_unix, to_unix, unixToInternal, i64 in *. rewrite u64_small by lia.
  rewrite (Z.mod_small (t / SecondNs + 2 ^ 63)) by lia. rewrite Z.mod_small by lia. f_equal. lia.
Qed.

(** ** Runs that succeed

    [run_split] splits a hypothesis [m w = (w', Ok a)] into the successes of the parts of [m]. *)
Section Runs.
Context {X : Type}.
Implicit Types w : Sys X.

Lemma run_bind {S A B} (m : GoM S A) (k : A -> GoM S B) (w w' : S) b :
  (x ← m; k x) w = (w', Ok b) <-> exists a (w1 : S), m w = (w1, Ok a) /\ k a w1 = (w', Ok b).
Proof.
  unfold mbind, GoM_bind. split.
  - destruct (m w) as [w1 [a|e|]]; [|by intros [=]..]. by intros H; exists a, w1.
  - by intros (a & w1 & -> & H).
Qed.
Lemma run_ret {S A} (w w' : S) (a b : A) : mret (M := GoM S) a w = (w', Ok b) <-> w' = w /\ b = a.
Proof. split; [by intros [= <- <-]|by intros [-> ->]]. Qed.
Lemma run_lift {S A} (w w' : S) (o : outcome A) a : lift o w = (w', Ok a) <-> w' = w /\ o = Ok a.
Proof. split; [by intros [= <- <-]|by intros [-> ->]]. Qed.
Lemma run_wrap {S A} (w w' : S) ctx (m : GoM S A) a : wrap ctx m w = (w', Ok a) <-> m w = (w', Ok a).
Proof. unfold wrap. destruct (m w) as [w1 [b|e|]]; cbn; split; by intros [=]; subst. Qed.
Lemma run_self w w' x : self w = (w', Ok x) <-> w' = w /\ x = obj w.
Proof. split; [by intros [= <- <-]|by intros [-> ->]]. Qed.
Lemma run_update w w' f u : update f w = (w', Ok u) <-> w' = mkSys (env w) (f (obj w)).
Proof. destruct u. split; [by intros [= <-]|by intros ->]. Qed.
Lemma run_time w w' t :
  time_now w = (w', Ok t) <-> w' = mkSys (mkEnvironment (rands (env w)) (fun i => clock (env w) (S i))) (obj w) /\ t = clock (env w) 0%nat.
Proof. split; [by intros [= <- <-]|by intros [-> ->]]. Qed.
Lemma run_rand w w' n b :
  rand_opt n w = (w', Ok b) <->
  w' = mkSys (mkEnvironment (fun i => rands (env w) (S i)) (clock (env w))) (obj w) /\ b = fit n <$> rands (env w) 0.
Proof. split; [by intros [= <- <-]|by intros [-> ->]]. Qed.
Lemma run_throw {S A} (w w' : S) e (a : A) : throw e w = (w', Ok a) <-> False.
Proof. split; [by intros [=]|done]. Qed.
Lemma run_panic {S A} (w w' : S) (a : A) : panic w = (w', Ok a) <-> False.
Proof. split; [by intros [=]|done]. Qed.
End Runs.

Ltac run_split :=
  repeat match goal with
  | H : mbind _ _ _ = (_, Ok _) |- _ => apply (proj1 (run_bind _ _ _ _ _)) in H as (? & ? & ? & H); cbv beta in H
  | H : mret _ _ = (_, Ok _) |- _ => apply (proj1 (run_ret _ _ _ _)) in H as [? ?]
  | H : lift _ _ = (_, Ok _) |- _ => apply (proj1 (run_lift _ _ _ _)) in H as [? H]
  | H : wrap _ _ _ = (_, Ok _) |- _ => apply (proj1 (run_wrap _ _ _ _ _)) in H
  | H : self _ = (_, Ok _) |- _ => apply (proj1 (run_self _ _ _)) in H as [? ?]
  | H : update _ _ = (_, Ok _) |- _ => apply (proj1 (run_update _ _ _ _)) in H
  | H : time_now _ = (_, Ok _) |- _ => apply (proj1 (run_time _ _ _)) in H as [? ?]
  | H : rand_opt _ _ = (_, Ok _) |- _ => apply (proj1 (run_rand _ _ _ _)) in H as [? ?]
  | H : throw _ _ = (_, Ok _) |- _ => destruct (proj1 (run_throw _ _ _ _) H)
  | H : panic _ = (_, Ok _) |- _ => destruct (proj1 (run_panic _ _ _) H)
  | p : (_ * _)%type |- _ => destruct p
  | H : ?w = ?t |- _ => match type of w with Sys _ => first [subst w | subst t] end
  end.

(** ** What an operation may change

    [respects R m]: whatever way [m] ends, the object it leaves is related to the
    one it found. *)
Section Respects.
Context {X : Type} (R : X -> X -> Prop) `{!PreOrder R}.

Definition respects {A} (m : GoM (Sys X) A) : Prop := forall w, R (obj w) (obj (m w).1).

Lemma respects_pure {A} (m : GoM (Sys X) A) : (forall w, obj (m w).1 = obj w) -> respects m.
Proof. intros H w. by rewrite H. Qed.

Lemma respects_bind {A B} (m : GoM (Sys X) A) (k : A -> GoM (Sys X) B) :
  respects m -> (forall a, respects (k a)) -> respects (x ← m; k x).
Proof.
  intros Hm Hk w. unfold mbind, GoM_bind. specialize (Hm w).
  destruct (m w) as [w' [a|e|]]; cbn in *; [|done..]. etrans; [exact Hm|apply Hk].
Qed.

Lemma respects_update (f : X -> X) : (forall x, R x (f x)) -> respects (update f).
Proof. intros H w. apply H. Qed.
End Respects.

Lemma respects_weaken {X} (R R' : X -> X -> Prop) {A} (m : GoM (Sys X) A) :
  (forall x y, R x y -> R' x y) -> respects R m -> respects R' m.
Proof. intros H Hm w. apply H, Hm. Qed.

Ltac pure_respects := apply respects_pure; [apply _|intros; reflexivity].

Create HintDb respects discriminated.
#[export] Hint Extern 0 (respects _ (mret _)) => pure_respects : respects.
#[export] Hint Extern 0 (respects _ (throw _)) => pure_respects : respects.
#[export] Hint Extern 0 (respects _ panic) => pure_respects : respects.
#[export] Hint Extern 0 (respects _ (lift _)) => pure_respects : respects.
#[export] Hint Extern 0 (respects _ self) => pure_respects : respects.
#[export] Hint Extern 0 (respects _ time_now) => pure_respects : respects.
#[export] Hint Extern 0 (respects _ (rand_opt _)) => pure_respects : respects.
