(* ===== verification/Topic.v ===== *)
(** * pkg/ipfsnode: the topic of a public key

    What is published for the owner of a key goes to the topic derived from it. *)
From S2P Require Import Prelude Primitives.

Section Topic.
Context `{P : Primitives}.

Definition TopicFromPublicKey (pubKey : bytes) : string := "babylon-" +:+ hex (take 8 (sha256 pubKey)).
End Topic.
