(* ===== verification/GroupService.v ===== *)
(** * pkg/groups/service.go: the private group service

    The service keeps the group states it takes part in and the sender keys of
    their members, and writes both to the storage.  Each exported method is one
    definition.  The loop of [DecryptGroupMessage] that advances a sender key
    runs on fuel. *)
From S2P Require Import Prelude Primitives Proto Badger GroupState Storage Runtime.

Definition ErrGroupNotFound : error := ErrText "group not found".
Definition ErrMemberNotFound : error := ErrText "member not found".
Definition ErrAlreadyMember : error := ErrText "already a member".
Definition ErrNotAuthorized : error := ErrText "not authorized".
Definition ErrInvalidEpoch : error := ErrText "invalid epoch".
Definition ErrSenderKeyNotFound : error := ErrText "sender key not found".

(** Not an error of the code: the loop did not end within the fuel. *)
Definition OutOfFuel : error := ErrExt "fuel".

(** [pb.GroupPayload] with its ciphertext content. *)
Record GroupPayload := mkGroupPayload {
  gp_Epoch : Z; gp_ChainIndex : Z; gp_Ciphertext : bytes; gp_SenderGroupSignature : bytes;
}.

Record Service `{K : KV} := mkService {
  s_storage : kv;
  identitySignPub : bytes;
  identitySignPriv : bytes;
  identityX25519Pub : bytes;
  groups : gmap string GroupState;
  senderKeys : gmap string (gmap string SenderKey);
}.

Section Service.
Context `{P : Primitives} `{K : KV} `{!Codec pbGroupState} `{!Codec pbSenderKeyDistribution}.

#[export] Instance eta_Service : Eta Service := fun s =>
  mkService _ (s_storage s) (identitySignPub s) (identitySignPriv s) (identityX25519Pub s)
    (groups s) (senderKeys s).

Abbreviation M := (GoM (Sys Service)).

Definition NewService (storage : kv) (identitySignPub identitySignPriv : bytes)
    (opts : list (Service -> Service)) : Service :=
  fold_left (fun s opt => opt s) opts (mkService _ storage identitySignPub identitySignPriv [] ∅ ∅).

Definition WithX25519PublicKey (x25519Pub : bytes) : Service -> Service :=
  fun s => s <| identityX25519Pub := x25519Pub |>.

Definition on_storage {A} (m : GoM kv A) : M A := on s_storage (fun d s => s <| s_storage := d |>) m.

Definition storeGroup (state : GroupState) : M unit := on_storage (SaveGroup (ToProto state)).

Definition storeSenderKey (senderKey : SenderKey) : M unit :=
  on_storage (SaveSenderKey (SenderKey_ToProto senderKey)).

Definition initializeSenderKeysForGroup (groupID : bytes) : M unit :=
  update (fun s => match senderKeys s !! hex groupID with
                   | Some _ => s
                   | None => s <| senderKeys := <[hex groupID := ∅]> (senderKeys s) |>
                   end).

(** [s.senderKeys[groupKey][senderKey] = sk]: panics when the inner map is nil. *)
Definition putSenderKey (groupKey senderPub : string) (sk : SenderKey) : M unit :=
  s ← self;
  match senderKeys s !! groupKey with
  | None => panic
  | Some inner => update (fun s => s <| senderKeys := <[groupKey := <[senderPub := sk]> inner]> (senderKeys s) |>)
  end.

Definition putGroup (groupKey : string) (state : GroupState) : M unit :=
  update (fun s => s <| groups := <[groupKey := state]> (groups s) |>).

(** The role of the first member with the key. *)
Definition isMemberWithRole (state : GroupState) (pubkey : bytes) (roles : list Z) : bool :=
  match find_member pubkey (Members state) with
  | Some m => bool_decide (Role m ∈ roles)
  | None => false
  end.

Definition CreateGroup (name description : string) (groupType : Z) : M GroupState :=
  s ← self;
  let x25519Pubkey := if (length (identityX25519Pub s) =? 0)%nat then zeros 32 else identityX25519Pub s in
  rnd ← rand_opt GroupIDSize;
  now ← time_now;
  state ← lift (wrapErr "failed to create group state"
            (NewGroupState rnd now name description groupType (identitySignPub s) x25519Pubkey));
  state ← lift (wrapErr "failed to sign group state" (Sign (identitySignPriv s) state));
  _ ← wrap "failed to store group" (storeGroup state);
  rnd ← rand_opt 32;
  seed ← rand_opt 32;
  senderKey ← lift (wrapErr "failed to generate sender key"
                (GenerateSenderKey rnd seed (GroupID state) (identitySignPub s)));
  _ ← initializeSenderKeysForGroup (GroupID state);
  _ ← putSenderKey (hex (GroupID state)) (hex (identitySignPub s)) senderKey;
  _ ← wrap "failed to store sender key" (storeSenderKey senderKey);
  _ ← putGroup (hex (GroupID state)) state;
  mret state.

(** The part [AddMember] and [RemoveMember] share: sign the next state, store and
    cache it. *)
Definition commitState (groupKey : string) (newState : GroupState) : M GroupState :=
  s ← self;
  newState ← lift (wrapErr "failed to sign new state" (Sign (identitySignPriv s) newState));
  _ ← wrap "failed to store updated group" (storeGroup newState);
  _ ← putGroup groupKey newState;
  mret newState.

Definition AddMember (groupID memberPubkey memberX25519Pubkey : bytes) (displayName : string) (role : Z)
    : M GroupState :=
  s ← self;
  let groupKey := hex groupID in
  match groups s !! groupKey with
  | None => throw ErrGroupNotFound
  | Some state =>
      if negb (isMemberWithRole state (identitySignPub s) [Admin; Owner]) then throw ErrNotAuthorized
      else if IsMember state memberPubkey then throw ErrAlreadyMember
      else
        previousHash ← lift (wrapErr "failed to compute state hash" (ComputeHash state));
        joinedAt ← time_now;
        updatedAt ← time_now;
        commitState groupKey
          (mkGroupState (GroupID state) (u64 (Epoch state + 1)) (Name state) (Description state)
             (AvatarCID state) (Type_ state)
             (Members state ++ [mkMember memberPubkey memberX25519Pubkey displayName (u64 joinedAt) role])
             (CreatorPubkey state) (CreatedAt state) (u64 updatedAt) [] previousHash)
  end.

(** The loop of [rotateAllSenderKeys] over the members. *)
Fixpoint rotate_loop (state : GroupState) (members : list GroupMember) : M unit :=
  match members with
  | [] => mret tt
  | member :: rest =>
      rnd ← rand_opt 32;
      seed ← rand_opt 32;
      senderKey ← lift (wrapErr "failed to generate sender key for member %x"
                    (GenerateSenderKey rnd seed (GroupID state) (Ed25519Pubkey member)));
      s ← self;
      let groupKey := hex (GroupID state) in
      let memberKey := hex (Ed25519Pubkey member) in
      let senderKey := senderKey <| sk_Epoch := Epoch state |> in
      let senderKey := match senderKeys s !! groupKey ≫= lookup memberKey with
                       | Some old => senderKey <| ChainIndex := ChainIndex old |>
                       | None => senderKey
                       end in
      _ ← putSenderKey groupKey memberKey senderKey;
      _ ← wrap "failed to store rotated sender key" (storeSenderKey senderKey);
      rotate_loop state rest
  end.

Definition rotateAllSenderKeys (state : GroupState) : M unit := rotate_loop state (Members state).

Definition RemoveMember (groupID memberPubkey : bytes) : M GroupState :=
  s ← self;
  let groupKey := hex groupID in
  match groups s !! groupKey with
  | None => throw ErrGroupNotFound
  | Some state =>
      if negb (isMemberWithRole state (identitySignPub s) [Admin; Owner]) then throw ErrNotAuthorized
      else
        previousHash ← lift (wrapErr "failed to compute state hash" (ComputeHash state));
        let newMembers := filter (fun m => Ed25519Pubkey m <> memberPubkey) (Members state) in
        updatedAt ← time_now;
        newState ← commitState groupKey
          (mkGroupState (GroupID state) (u64 (Epoch state + 1)) (Name state) (Description state)
             (AvatarCID state) (Type_ state) newMembers
             (CreatorPubkey state) (CreatedAt state) (u64 updatedAt) [] previousHash);
        _ ← wrap "failed to rotate sender keys" (rotateAllSenderKeys newState);
        mret newState
  end.

(** The sender key of a group member, with the errors of the two lookups. *)
Definition lookupSenderKey (groupKey memberKey : string) : M SenderKey :=
  s ← self;
  match senderKeys s !! groupKey with
  | None => throw ErrGroupNotFound
  | Some inner => match inner !! memberKey with
                  | None => throw ErrSenderKeyNotFound
                  | Some sk => mret sk
                  end
  end.

(** The XChaCha20-Poly1305 nonce derived from a message key. *)
Definition message_nonce (messageKey info : bytes) : outcome bytes :=
  wrapErr "failed to generate nonce" (ext "hkdf" (hkdf messageKey (str "nonce") info 24)).

Definition EncryptGroupMessage (groupID plaintext : bytes) : M GroupPayload :=
  s ← self;
  let groupKey := hex groupID in
  senderKey ← lookupSenderKey groupKey (hex (identitySignPub s));
  let '(messageKey, senderKey) := DeriveMessageKey senderKey in
  _ ← putSenderKey groupKey (hex (identitySignPub s)) senderKey;
  nonce ← lift (message_nonce messageKey []);
  if negb (length messageKey =? 32)%nat
  then throw (ErrWrap "failed to create cipher" (ErrExt "chacha20poly1305.NewX"))
  else
    let ciphertext := sealX messageKey nonce plaintext groupID in
    signature ← lift (ed25519_Sign (SigningKeyPriv senderKey) (groupID ++ ciphertext));
    _ ← wrap "failed to store updated sender key" (storeSenderKey senderKey);
    mret (mkGroupPayload (sk_Epoch senderKey) (u32 (ChainIndex senderKey - 1)) ciphertext signature).

(** [for senderKey.ChainIndex <= target { senderKey.DeriveMessageKey() }] *)
Fixpoint advance_to (fuel : nat) (target : Z) (sk : SenderKey) : option SenderKey :=
  if ChainIndex sk <=? target then
    match fuel with
    | O => None
    | S fuel' => advance_to fuel' target (DeriveMessageKey sk).2
    end
  else Some sk.

Definition deriveMessageKeyAtIndex (senderKey : SenderKey) (targetIndex : Z) : outcome bytes :=
  if negb (targetIndex =? u32 (ChainIndex senderKey - 1))
  then Err (ErrText "out-of-order message key derivation not implemented")
  else
    let hkdfInput := str "bt-sk-msg" ++ be_encode 4 targetIndex in
    mret (sha256 (ChainKey senderKey ++ hkdfInput)).

Definition DecryptGroupMessage (fuel : nat) (groupID senderPubkey : bytes) (payload : GroupPayload) : M bytes :=
  let groupKey := hex groupID in
  senderKey ← lookupSenderKey groupKey (hex senderPubkey);
  if negb (gp_Epoch payload =? sk_Epoch senderKey) then throw ErrInvalidEpoch
  else if gp_ChainIndex payload <? ChainIndex senderKey
  then throw (ErrText "skipped message key not implemented")
  else
    match advance_to fuel (gp_ChainIndex payload) senderKey with
    | None => throw OutOfFuel
    | Some senderKey =>
        _ ← putSenderKey groupKey (hex senderPubkey) senderKey;
        messageKey ← lift (wrapErr "failed to derive message key at index"
                       (deriveMessageKeyAtIndex senderKey (gp_ChainIndex payload)));
        nonce ← lift (message_nonce messageKey (be_encode 4 (gp_ChainIndex payload)));
        if negb (length messageKey =? 32)%nat
        then throw (ErrWrap "failed to create cipher" (ErrExt "chacha20poly1305.NewX"))
        else if (length (gp_Ciphertext payload) =? 0)%nat then throw (ErrText "no ciphertext in payload")
        else
          match openX messageKey nonce (gp_Ciphertext payload) groupID with
          | None => throw (ErrWrap "decryption failed" (ErrExt "aead.Open"))
          | Some plaintext =>
              ok ← lift (ed25519_Verify (SigningKey senderKey) (groupID ++ gp_Ciphertext payload)
                           (gp_SenderGroupSignature payload));
              if negb ok then throw (ErrText "signature verification failed") else mret plaintext
          end
    end.

Definition GetGroup (groupID : bytes) : M GroupState :=
  s ← self;
  match groups s !! hex groupID with None => throw ErrGroupNotFound | Some state => mret state end.

(** The order of the map iteration is [range]. *)
Definition ListGroups (range : gmap string GroupState -> list (string * GroupState)) : M (list GroupState) :=
  s ← self; mret (snd <$> range (groups s)).

Definition GetSenderKeyDistributionMessage (groupID memberPubkey : bytes) : M pbSenderKeyDistribution :=
  s ← self;
  senderKey ← lookupSenderKey (hex groupID) (hex (identitySignPub s));
  mret (SenderKey_ToProto senderKey).

Definition ImportSenderKey (distribution : pbSenderKeyDistribution) (signingKeyPriv : bytes) : M unit :=
  let senderKey := SenderKeyFromProto distribution signingKeyPriv in
  _ ← initializeSenderKeysForGroup (sk_GroupID senderKey);
  putSenderKey (hex (sk_GroupID senderKey)) (hex (SenderPubkey senderKey)) senderKey.
End Service.
