(* ===== verification/GroupServiceProps.v ===== *)
(** * pkg/groups/service.go: what the group service guarantees

    Theorems about [GroupService]: the updates the service makes are accepted
    by every peer that holds the previous state, methods refused leave the
    service as it was, and how messages are keyed on the two sides. *)
From S2P Require Import Prelude Primitives Proto Badger GroupState Storage StorageProps Runtime GroupService.

Section Props.
Context `{P : Primitives} `{!PrimitiveLaws P} `{K : KV} `{!KVLaws K}
  `{!Codec pbGroupState} `{!Codec pbSenderKeyDistribution} `{!CodecLaws pbGroupState}.

Lemma find_member_Some k ms m : find_member k ms = Some m -> m ∈ ms /\ Ed25519Pubkey m = k.
Proof.
  induction ms as [|m' ms IH]; cbn; [done|]. destruct (decide _) as [E|E].
  - intros [= ->]. split; [left|done].
  - intros [??]%IH. split; [by right|done].
Qed.

Lemma isMemberWithRole_admin state k :
  isMemberWithRole state k [Admin; Owner] = true -> is_admin_of state k = true.
Proof.
  unfold isMemberWithRole. destruct (find_member k (Members state)) as [m|] eqn:E; [|done].
  intros Hr%bool_decide_eq_true. apply find_member_Some in E as [Hin Hk].
  apply is_admin_of_spec. exists m. split; [done|]. split; [done|]. set_solver.
Qed.

(** The identity of the service does not change from [s] to [s']. *)
Definition same_identity (s s' : Service) : Prop :=
  identitySignPub s' = identitySignPub s /\ identitySignPriv s' = identitySignPriv s.

Lemma storeGroup_Ok st w w' :
  storeGroup st w = (w', Ok tt) ->
  SaveGroup (ToProto st) (s_storage (obj w)) = (s_storage (obj w'), Ok tt) /\
  obj w' = obj w <| s_storage := s_storage (obj w') |> .
Proof.
  unfold storeGroup, on_storage, on, zoom. destruct (SaveGroup _ _) as [d r]. intros [= <- ->]. done.
Qed.

Lemma commitState_inv gk ns w w' st :
  commitState gk ns w = (w', Ok st) ->
  Sign (identitySignPriv (obj w)) ns = Ok st /\
  groups (obj w') = <[gk := st]> (groups (obj w)) /\ senderKeys (obj w') = senderKeys (obj w) /\
  same_identity (obj w) (obj w') /\
  SaveGroup (ToProto st) (s_storage (obj w)) = (s_storage (obj w'), Ok tt).
Proof.
  unfold commitState, self, putGroup, update. go_run.
  destruct (Sign _ ns) as [st'| |] eqn:ES; [|done..]. cbn.
  destruct (storeGroup st' w) as [w1 [[]| |]] eqn:ET; [|done..]. cbn.
  intros [= <- <-]. apply storeGroup_Ok in ET as [ET Eo]. cbn. rewrite Eo. cbn.
  split; [done|]. split; [done|]. split; [done|]. by split.
Qed.

(** The next state the service makes out of [old] with the members [ms]. *)
Record next_state (pub : bytes) (old new : GroupState) (ms : list GroupMember) : Prop := {
  ns_epoch : Epoch new = u64 (Epoch old + 1);
  ns_hash : ComputeHash old = Ok (PreviousStateHash new);
  ns_members : Members new = ms;
  ns_same : GroupID new = GroupID old /\ Name new = Name old /\ Type_ new = Type_ old /\
            CreatorPubkey new = CreatorPubkey old /\ CreatedAt new = CreatedAt old;
  ns_valid : Epoch old < 2 ^ 64 - 1 -> 0 <= Epoch old ->
    ValidateStateUpdate (mkUpdate new (PreviousStateHash new) pub (StateSignature new)) old = Ok tt;
}.

Lemma next_state_intro pub priv old ms now hash new :
  ed_keypair pub priv -> isMemberWithRole old pub [Admin; Owner] = true ->
  ComputeHash old = Ok hash ->
  Sign priv (mkGroupState (GroupID old) (u64 (Epoch old + 1)) (Name old) (Description old)
     (AvatarCID old) (Type_ old) ms (CreatorPubkey old) (CreatedAt old) now [] hash) = Ok new ->
  next_state pub old new ms.
Proof.
  intros Hkp Ha Hh (data & Hd & Hl & ->)%Sign_inv. split; cbn; try done.
  intros Hlt H0. eapply ValidateStateUpdate_Ok; try done; cbn.
  - rewrite u64_small; lia.
  - by apply isMemberWithRole_admin.
  - by apply (ed25519_Verify_Sign _ _ _ Hkp).
Qed.

(** ** Adding a member *)

(** C14. The service adds members with updates everybody accepts.  When [AddMember]
    succeeds, the caller was an admin or owner and the key was new; the cached
    state is replaced by one with exactly that member appended, the next epoch
    and the hash of the previous state, and the storage holds the same state;
    every peer that holds the previous state accepts it as an update signed by
    the service.  Other groups are not touched. *)
Theorem AddMember_update gid mp mx dn role w w' new :
  ed_keypair (identitySignPub (obj w)) (identitySignPriv (obj w)) ->
  AddMember gid mp mx dn role w = (w', Ok new) ->
  exists old m,
    groups (obj w) !! hex gid = Some old /\
    isMemberWithRole old (identitySignPub (obj w)) [Admin; Owner] = true /\
    IsMember old mp = false /\ Ed25519Pubkey m = mp /\ Role m = role /\
    next_state (identitySignPub (obj w)) old new (Members old ++ [m]) /\
    groups (obj w') = <[hex gid := new]> (groups (obj w)) /\
    senderKeys (obj w') = senderKeys (obj w) /\
    Storage.GetGroup (GroupID new) (s_storage (obj w')) = (s_storage (obj w'), Ok (ToProto new)).
Proof.
  intros Hkp. unfold AddMember, self, time_now. go_run.
  destruct (groups (obj w) !! hex gid) as [old|]; [|done].
  destruct (isMemberWithRole _ _ _) eqn:Ea; [|done]. cbn.
  destruct (IsMember old mp) eqn:Em; [done|]. cbn.
  destruct (ComputeHash old) as [hash| |] eqn:Eh; [|done..]. cbn.
  intros (HS & Hg & Hk & _ & HD)%commitState_inv. cbn in *.
  exists old. eexists. split; [done|]. split; [exact Ea|]. split; [exact Em|].
  split; [shelve|]. split; [shelve|].
  split; [by eapply next_state_intro|]. split; [exact Hg|]. split; [exact Hk|].
  by apply (SaveGroup_GetGroup (ToProto new)) in HD as [HD _].
  Unshelve. all: done.
Qed.

(** ** Removing a member *)

(** Storing a sender key leaves the groups alone, in the cache and in the storage. *)
Definition groups_kept (s s' : Service) : Prop :=
  groups s' = groups s /\ same_identity s s' /\
  forall g, kv_get (groupKey g) (s_storage s') = kv_get (groupKey g) (s_storage s).

Lemma groups_kept_trans s1 s2 s3 : groups_kept s1 s2 -> groups_kept s2 s3 -> groups_kept s1 s3.
Proof.
  intros (G1 & [I1 J1] & H1) (G2 & [I2 J2] & H2). split; [congruence|]. split; [split; congruence|].
  intros g. by rewrite H2, H1.
Qed.

Lemma groups_kept_refl s : groups_kept s s.
Proof. by repeat split. Qed.

Lemma storeSenderKey_kept sk w : groups_kept (obj w) (obj (storeSenderKey sk w).1).
Proof.
  unfold storeSenderKey, on_storage, on, zoom. destruct (SaveSenderKey _ _) as [d r] eqn:E. cbn.
  split; [done|]. split; [done|]. intros g. cbn.
  pose proof (save_state "failed to marshal sender key" "failed to store sender key" (SenderKey_ToProto sk)
    (senderKeyKey (sk_GroupID sk) (SenderPubkey sk)) (_ ← log_slice (sk_GroupID sk); log_slice (SenderPubkey sk))
    (s_storage (obj w)) ltac:(apply log_slices_state)) as Hd.
  cbv zeta in Hd. unfold SaveSenderKey in E. cbn [SenderKey_ToProto pk_GroupId pk_SenderPub] in E.
  rewrite E in Hd. destruct Hd as [Hd|[data Hd]]; cbn in Hd; [by rewrite Hd|].
  by apply (frame_set (KSenderKey (sk_GroupID sk) (SenderPubkey sk)) data _ _ I Hd (KGroup g) I).
Qed.

Lemma rotate_loop_kept st ms w : groups_kept (obj w) (obj (rotate_loop st ms w).1).
Proof.
  revert w; induction ms as [|m ms IH]; intros w; cbn [rotate_loop]; [apply groups_kept_refl|].
  unfold rand_opt, self, putSenderKey, update. go_run.
  destruct (GenerateSenderKey _ _ _ _) as [sk| |]; [|apply groups_kept_refl..]. go_run.
  destruct (senderKeys (obj w) !! hex (GroupID st)) as [inner|]; [|apply groups_kept_refl]. go_run.
  match goal with |- context [storeSenderKey ?a ?b] =>
    pose proof (storeSenderKey_kept a b) as Hk; destruct (storeSenderKey a b) as [w1 [[]| |]] end;
    cbn in *; [|done..].
  eapply groups_kept_trans; [|apply IH]. done.
Qed.

(** The service removes whomever an admin names.  When [RemoveMember]
    succeeds, the caller was an admin or owner; the state is replaced by the one
    without the named key, with the next epoch and the hash of the previous
    state, stored and accepted by every peer that holds the previous state.
    Nothing protects the creator: naming it removes it, unlike
    [GroupState.RemoveMember]; and naming somebody who is not a member makes a
    new epoch with the same members. *)
Theorem RemoveMember_update gid mp w w' new :
  ed_keypair (identitySignPub (obj w)) (identitySignPriv (obj w)) ->
  RemoveMember gid mp w = (w', Ok new) ->
  exists old,
    groups (obj w) !! hex gid = Some old /\
    isMemberWithRole old (identitySignPub (obj w)) [Admin; Owner] = true /\
    next_state (identitySignPub (obj w)) old new (filter (fun m => Ed25519Pubkey m <> mp) (Members old)) /\
    groups (obj w') = <[hex gid := new]> (groups (obj w)) /\
    Storage.GetGroup (GroupID new) (s_storage (obj w')) = (s_storage (obj w'), Ok (ToProto new)) /\
    (mp = CreatorPubkey old -> IsMember new (CreatorPubkey new) = false) /\
    (IsMember old mp = false -> Members new = Members old).
Proof.
  intros Hkp. unfold RemoveMember, self, time_now. go_run.
  destruct (groups (obj w) !! hex gid) as [old|]; [|done].
  destruct (isMemberWithRole _ _ _) eqn:Ea; [|done]. cbn.
  destruct (ComputeHash old) as [hash| |] eqn:Eh; [|done..]. cbn.
  destruct (commitState _ _ _) as [w1 [st| |]] eqn:EC; [|done..]. cbn.
  unfold rotateAllSenderKeys. pose proof (rotate_loop_kept st (Members st) w1) as Hk.
  destruct (rotate_loop _ _ w1) as [w2 [[]| |]]; [|done..]. intros [= <- <-].
  apply commitState_inv in EC as (HS & Hg & _ & _ & HD). cbn in *.
  pose proof (next_state_intro _ _ _ _ _ _ _ Hkp Ea Eh HS) as Hn.
  destruct Hk as (Hkg & _ & Hkd). exists old. split; [done|]. split; [done|]. split; [done|].
  split; [congruence|]. split.
  - apply (SaveGroup_GetGroup (ToProto st)) in HD as [HD _]. revert HD.
    unfold Storage.GetGroup, db_get. rewrite (Hkd (GroupID st)). cbn. congruence.
  - pose proof (ns_members _ _ _ _ Hn) as Hms. split.
    + intros ->. apply IsMember_not. destruct (ns_same _ _ _ _ Hn) as (_ & _ & _ & -> & _).
      rewrite Hms, keys_filter, list_elem_of_filter. tauto.
    + intros Hm%IsMember_not. rewrite Hms. by apply filter_absent.
Qed.
(** ** Group messages *)

(** The chain key after [n] steps and the message key of index [i] made from a
    chain key. *)
Definition chain_at (ck : bytes) (n : nat) : bytes :=
  Nat.iter n (fun ck => sha256 (ck ++ str "bt-sk-chain" ++ str "advance")) ck.
Definition message_key (ck : bytes) (i : Z) : bytes := sha256 (ck ++ str "bt-sk-msg" ++ be_encode 4 i).

Lemma chain_at_S ck n : chain_at (chain_at ck 1) n = chain_at ck (S n).
Proof. symmetry. apply Nat.iter_succ_r. Qed.

#[local] Arguments chain_at : simpl never.
#[local] Arguments message_key : simpl never.
#[local] Arguments DeriveMessageKey : simpl never.
#[local] Arguments message_nonce : simpl never.
#[local] Arguments deriveMessageKeyAtIndex : simpl never.
#[local] Arguments ed25519_Sign : simpl never.
#[local] Arguments ed25519_Verify : simpl never.

Lemma DeriveMessageKey_eq sk :
  DeriveMessageKey sk =
    (message_key (ChainKey sk) (ChainIndex sk),
     sk <| ChainKey := chain_at (ChainKey sk) 1 |> <| ChainIndex := u32 (ChainIndex sk + 1) |>).
Proof. done. Qed.

(** Advancing a sender key ends, except at the last index.  For a target
    below the largest 32-bit index the loop of [DecryptGroupMessage] ends within
    [target - index + 1] rounds, one past the target, with the chain key stepped
    as often; for the largest index, which any sender may put into a message,
    the counter wraps around before it can pass the target and the loop never
    ends. *)
Theorem advance_to_ends sk target :
  0 <= ChainIndex sk < 2 ^ 32 ->
  (ChainIndex sk <= target < 2 ^ 32 - 1 ->
     let n := Z.to_nat (target - ChainIndex sk + 1) in
     forall fuel, (n <= fuel)%nat ->
       advance_to fuel target sk =
         Some (sk <| ChainKey := chain_at (ChainKey sk) n |> <| ChainIndex := target + 1 |>)) /\
  (forall fuel, advance_to fuel (2 ^ 32 - 1) sk = None).
Proof.
  intros H0. split.
  - intros Ht. remember (Z.to_nat (target - ChainIndex sk + 1)) as n eqn:En. intros m fuel. subst m.
    revert sk fuel H0 Ht En. induction n as [|n IH]; intros sk fuel H0 Ht En Hf; [lia|].
    destruct fuel as [|fuel]; [lia|]. cbn [advance_to]. rewrite (proj2 (Z.leb_le _ _)) by lia.
    rewrite DeriveMessageKey_eq. cbn [snd].
    destruct (decide (ChainIndex sk = target)) as [He|Hne].
    + assert (n = 0%nat) as -> by lia. rewrite u32_small by lia.
      assert (forall s, ChainIndex s = target + 1 -> advance_to fuel target s = Some s) as Hstop.
      { intros s Hs. destruct fuel; cbn [advance_to]; by rewrite Hs, (proj2 (Z.leb_gt _ _)) by lia. }
      rewrite Hstop by (cbn; lia). by rewrite He.
    + set (sk' := sk <| ChainKey := _ |> <| ChainIndex := _ |>).
      assert (ChainIndex sk' = ChainIndex sk + 1) as Hi by (cbn; rewrite u32_small; lia).
      rewrite (IH sk' fuel) by lia. cbn. by rewrite chain_at_S.
  - intros fuel. revert sk H0. induction fuel as [|fuel IH]; intros sk H0; cbn [advance_to];
      rewrite (proj2 (Z.leb_le _ _)) by lia; [done|].
    apply IH. cbn. apply u32_range.
Qed.

Lemma lookupSenderKey_Ok gk mk w w' sk :
  lookupSenderKey gk mk w = (w', Ok sk) ->
  w' = w /\ exists inner, senderKeys (obj w) !! gk = Some inner /\ inner !! mk = Some sk.
Proof.
  unfold lookupSenderKey, self. go_run. destruct (senderKeys (obj w) !! gk) as [inner|]; [|done].
  destruct (inner !! mk) as [sk'|] eqn:E; [|done]. intros [= <- <-]. eauto.
Qed.

Lemma advance_to_keeps fuel target sk sk' :
  advance_to fuel target sk = Some sk' -> 0 <= ChainIndex sk < 2 ^ 32 -> ChainIndex sk <= target < 2 ^ 32 ->
  sk' = sk <| ChainKey := chain_at (ChainKey sk) (Z.to_nat (target - ChainIndex sk + 1)) |>
           <| ChainIndex := target + 1 |>.
Proof.
  revert sk; induction fuel as [|fuel IH]; intros sk; cbn [advance_to]; intros H H0 Ht;
    rewrite (proj2 (Z.leb_le _ _)) in H by lia; [done|].
  rewrite DeriveMessageKey_eq in H. cbn [snd] in H.
  destruct (decide (ChainIndex sk = target)) as [He|Hne].
  - destruct (decide (target = 2 ^ 32 - 1)) as [Hm|Hm].
    + exfalso. assert (forall f s, 0 <= ChainIndex s < 2 ^ 32 -> advance_to f target s = None) as Hn.
      { intros f; induction f as [|f IHf]; intros s Hs; cbn [advance_to];
          rewrite (proj2 (Z.leb_le _ _)) by lia; [done|]. apply IHf. cbn. apply u32_range. }
      rewrite Hn in H; [done|]. cbn. apply u32_range.
    + rewrite u32_small in H by lia.
      assert (forall s, ChainIndex s = target + 1 -> advance_to fuel target s = Some s) as Hstop.
      { intros s Hs. destruct fuel; cbn [advance_to]; by rewrite Hs, (proj2 (Z.leb_gt _ _)) by lia. }
      rewrite Hstop in H by (cbn; lia). injection H as <-. rewrite He.
      by replace (Z.to_nat (target - target + 1)) with 1%nat by lia.
  - rewrite u32_small in H by lia. apply IH in H; [|cbn; lia..]. rewrite H. cbn.
    replace (Z.to_nat (target - ChainIndex sk + 1)) with (S (Z.to_nat (target - (ChainIndex sk + 1) + 1))) by lia.
    by rewrite chain_at_S.
Qed.

(** Sender and receiver key a group message differently.  [EncryptGroupMessage]
    seals message [i] under the message key of the sender's chain key at [i] and
    a nonce derived without an index.  A plaintext returned by
    [DecryptGroupMessage] was opened under the message key of the chain key
    {e one step further}, [i + 1], with a nonce derived from the index (and its
    signature verifies, its epoch is the key's, and the chain moves past [i]).
    So the receiver never uses the key the message was sealed under. *)
Theorem group_message_keys gid w :
  (forall p w' payload,
     EncryptGroupMessage gid p w = (w', Ok payload) ->
     exists inner sk nonce,
       senderKeys (obj w) !! hex gid = Some inner /\
       inner !! hex (identitySignPub (obj w)) = Some sk /\
       (0 <= ChainIndex sk < 2 ^ 32 -> gp_ChainIndex payload = ChainIndex sk) /\
       message_nonce (message_key (ChainKey sk) (ChainIndex sk)) [] = Ok nonce /\
       gp_Ciphertext payload = sealX (message_key (ChainKey sk) (ChainIndex sk)) nonce p gid) /\
  (forall fuel sender payload w' p,
     DecryptGroupMessage fuel gid sender payload w = (w', Ok p) ->
     exists inner sk nonce,
       senderKeys (obj w) !! hex gid = Some inner /\ inner !! hex sender = Some sk /\
       gp_Epoch payload = sk_Epoch sk /\ ChainIndex sk <= gp_ChainIndex payload /\
       (0 <= ChainIndex sk -> gp_ChainIndex payload < 2 ^ 32 ->
        let ck := chain_at (ChainKey sk) (Z.to_nat (gp_ChainIndex payload - ChainIndex sk + 1)) in
        message_nonce (message_key ck (gp_ChainIndex payload)) (be_encode 4 (gp_ChainIndex payload)) = Ok nonce /\
        openX (message_key ck (gp_ChainIndex payload)) nonce (gp_Ciphertext payload) gid = Some p) /\
       (0 <= ChainIndex sk -> gp_ChainIndex payload < 2 ^ 32 ->
        ed_verify (SigningKey sk) (gid ++ gp_Ciphertext payload) (gp_SenderGroupSignature payload) = true)).
Proof.
  split.
  - intros p w' payload. unfold EncryptGroupMessage, self. go_run.
    destruct (lookupSenderKey _ _ w) as [w1 [sk| |]] eqn:El; [|done..].
    apply lookupSenderKey_Ok in El as (-> & inner & Hi & Hk).
    rewrite DeriveMessageKey_eq. unfold putSenderKey, self, update. go_run. rewrite Hi. go_run.
    destruct (message_nonce _ []) as [nonce| |] eqn:En; [|done..]. go_run.
    destruct (negb _); [done|]. go_run.
    destruct (ed25519_Sign _ _) as [sig| |]; [|done..]. go_run.
    destruct (storeSenderKey _ _) as [w2 [[]| |]]; [|done..]. intros [= _ <-].
    exists inner, sk, nonce. split; [done|]. split; [done|]. split; [|done].
    intros Hr. cbn. unfold u32. rewrite Zminus_mod_idemp_l. rewrite Z.mod_small; lia.
  - intros fuel sender payload w' p. unfold DecryptGroupMessage. go_run.
    destruct (lookupSenderKey _ _ w) as [w1 [sk| |]] eqn:El; [|done..].
    apply lookupSenderKey_Ok in El as (-> & inner & Hi & Hk). go_run.
    destruct (gp_Epoch payload =? sk_Epoch sk) eqn:Ee; [|done]. cbn [negb].
    destruct (gp_ChainIndex payload <? ChainIndex sk) eqn:Ec; [done|].
    apply Z.eqb_eq in Ee. apply Z.ltb_ge in Ec.
    destruct (advance_to _ _ sk) as [sk'|] eqn:Ea; [|done].
    unfold putSenderKey, self, update. go_run. rewrite Hi. go_run.
    destruct (deriveMessageKeyAtIndex sk' _) as [mk| |] eqn:Em; [|done..]. go_run.
    destruct (message_nonce mk _) as [nonce| |] eqn:En; [|done..]. go_run.
    destruct (negb (length mk =? 32)%nat); [done|]. destruct (_ =? 0)%nat; [done|].
    destruct (openX mk nonce _ _) as [p'|] eqn:Eo; [|done]. go_run.
    destruct (ed25519_Verify _ _ _) as [[]| |] eqn:Ev; [|done..]. intros [= _ <-].
    exists inner, sk, nonce. do 4 (split; [done|]).
    assert (0 <= ChainIndex sk -> gp_ChainIndex payload < 2 ^ 32 -> sk' = _) as Hsk
      by (intros ??; eapply advance_to_keeps; [exact Ea|lia|lia]).
    unfold deriveMessageKeyAtIndex in Em. destruct (negb _); [done|]. injection Em as <-.
    split; intros H0 H1; specialize (Hsk H0 H1); subst sk'; [by split|].
    unfold ed25519_Verify in Ev. cbn in Ev. destruct (_ =? 32)%nat; [|done].
    injection Ev as Ev. by apply andb_true_iff in Ev as [_ Ev].
Qed.
End Props.

(** ** Concrete services *)
Module ServiceDemo.
Import GroupDemo.
#[export] Instance pbGroupState_codec_laws : CodecLaws pbGroupState := countable_codec_laws.
#[export] Instance senderKey_codec : Codec pbSenderKeyDistribution :=
  {| marshal sk := Some (pk_ChainKey sk); unmarshal _ := None |}.

Definition env0 : Env := mkEnvironment (fun i => Some (le_encode 32 (50 + Z.of_nat i))) (fun i => 1000 + Z.of_nat i).
Definition alice0 : Sys Service := mkSys env0 (NewService (∅ : gmap bytes bytes) pub priv []).

Definition created := CreateGroup "team" "" PrivateGroup alice0.
Definition gid : bytes := le_encode 32 50.
Definition bobKey : bytes := ed_pub (le_encode 32 12).
Definition added := AddMember gid bobKey (zeros 32) "Bob" Admin created.1.
Definition removed := RemoveMember gid pub added.1.

Definition ok_state (o : outcome GroupState) : GroupState := match o with Ok g => g | _ => dummy end.

(** Alice sends, Bob has her sender key as it was before. *)
Definition sent := EncryptGroupMessage gid (str "hello") created.1.
Definition payload : GroupPayload := match sent.2 with Ok p => p | _ => mkGroupPayload 0 0 [] [] end.
Definition dist : pbSenderKeyDistribution :=
  match (GetSenderKeyDistributionMessage gid bobKey created.1).2 with
  | Ok d => d | _ => mkPbSenderKey [] 0 [] [] [] 0 end.
Definition bob0 : Sys Service :=
  (ImportSenderKey dist [] (mkSys env0 (NewService (∅ : gmap bytes bytes) bobKey [] []))).1.
Definition received := DecryptGroupMessage 10 gid pub payload bob0.
End ServiceDemo.
Import GroupDemo ServiceDemo.

Lemma AddMember_update_witness :
  let new := ok_state added.2 in
  added.2 = Ok new /\ Epoch new = 2 /\ IsMember new bobKey = true /\
  exists old, groups (obj created.1) !! hex gid = Some old /\
    ValidateStateUpdate (mkUpdate new (PreviousStateHash new) pub (StateSignature new)) old = Ok tt.
Proof.
  intros new. assert (added.2 = Ok new) as E by (vm_compute; reflexivity).
  split; [exact E|]. split; [vm_compute; reflexivity|]. split; [vm_compute; reflexivity|].
  destruct (AddMember_update gid bobKey (zeros 32) "Bob" Admin created.1 added.1 new keypair (run_pair _ _ _ E))
    as (old & m & Ho & _ & _ & _ & _ & Hn & _).
  exists old. split; [exact Ho|].
  assert (Epoch old = 1) as Ee.
  { assert (groups (obj created.1) !! hex gid = Some (ok_state created.2)) as Eg by (vm_compute; reflexivity).
    rewrite Eg in Ho. apply (inj Some) in Ho. rewrite <- Ho. vm_compute. reflexivity. }
  apply (ns_valid _ _ _ _ Hn); rewrite Ee; lia.
Defined.

(** Alice, the creator and owner, removes herself. *)
Lemma RemoveMember_update_witness :
  let new := ok_state removed.2 in
  removed.2 = Ok new /\ IsMember new pub = false /\
  exists old, groups (obj added.1) !! hex gid = Some old /\ CreatorPubkey old = pub.
Proof.
  intros new. assert (removed.2 = Ok new) as E by (vm_compute; reflexivity).
  split; [exact E|]. split; [vm_compute; reflexivity|].
  destruct (RemoveMember_update gid pub added.1 removed.1 new keypair (run_pair _ _ _ E)) as (old & Ho & _).
  exists old. split; [exact Ho|].
  assert (groups (obj added.1) !! hex gid = Some (ok_state added.2)) as Eg by (vm_compute; reflexivity).
  rewrite Eg in Ho. apply (inj Some) in Ho. rewrite <- Ho. vm_compute. reflexivity.
Defined.

Lemma advance_to_ends_witness :
  let sk := mkSenderKey [] [] [] [] [] 5 1 in
  is_Some (advance_to 3 7 sk) /\ advance_to 1000 (2 ^ 32 - 1) sk = None.
Proof.
  intros sk. assert (0 <= ChainIndex sk < 2 ^ 32) as H0 by (cbn; lia).
  destruct (advance_to_ends sk 7 H0) as [H1 _]. destruct (advance_to_ends sk 0 H0) as [_ H2].
  split; [|apply H2]. eexists. apply (H1 ltac:(cbn; lia) 3%nat). apply Nat.leb_le. reflexivity.
Defined.

(** The message Alice sent is genuine and in order, and Bob cannot decrypt it. *)
Lemma group_message_keys_witness :
  sent.2 = Ok payload /\ gp_ChainIndex payload = 0 /\
  received.2 = Err (ErrWrap "decryption failed" (ErrExt "aead.Open")).
Proof.
  assert (sent.2 = Ok payload) as E by (vm_compute; reflexivity).
  split; [exact E|].
  destruct (group_message_keys gid created.1) as [H _].
  destruct (H _ _ _ (run_pair _ _ _ E)) as (inner & sk & nonce & Hi & Hk & Hc & _).
  split; [|vm_compute; reflexivity].
  assert ((senderKeys (obj created.1) !! hex gid ≫= lookup (hex (identitySignPub (obj created.1)))) = Some sk) as Hl.
  { rewrite Hi. exact Hk. }
  assert (ChainIndex <$> (senderKeys (obj created.1) !! hex gid ≫= lookup (hex (identitySignPub (obj created.1)))) = Some 0)
    as Hz by (vm_compute; reflexivity).
  rewrite Hl in Hz. apply (inj Some) in Hz. cbv beta in Hz. rewrite Hc, Hz; [reflexivity|lia].
Defined.
