(* ===== verification/PublicGroup.v ===== *)
(** * pkg/groups/public.go: moderated public groups

    [PublicGroupService] with bans, mutes and the per-sender rate limit, the
    signed moderation actions and the proof of work.  The service changes a
    group state in place: a step that fails halfway leaves the changes made so
    far.  Maps of maps are read as empty and panic on writing when the inner map
    does not exist.  The proof-of-work loop runs on fuel; it ends within
    [pow_rounds]. *)
From S2P Require Import Prelude Primitives Proto GroupState Storage Runtime GroupService.

Definition ErrNotModerator : error := ErrText "not a moderator".
Definition ErrAlreadyBanned : error := ErrText "member already banned".
Definition ErrAlreadyMuted : error := ErrText "member already muted".

Definition ActionBan : string := "ban".
Definition ActionMute : string := "mute".
Definition ActionDeleteMessage : string := "delete_message".

Record BannedMember := mkBanned { bn_Pubkey : bytes; BannedAt : Z; bn_Reason : string; bn_Moderator : bytes }.

Record MutedMember := mkMuted {
  mt_Pubkey : bytes; MutedAt : Z; DurationSec : Z; ExpiresAt : Z; mt_Reason : string; mt_Moderator : bytes;
}.

Record ModerationAction := mkAction {
  TargetMemberPubkey : bytes;
  ActionType : string;
  Reason : string;
  DurationSeconds : Z;
  TargetMessageID : bytes;
  ModeratorPubkey : bytes;
  ma_Timestamp : Z;
  ma_Signature : bytes;
}.

#[export] Instance eta_Action : Eta ModerationAction := fun a =>
  mkAction (TargetMemberPubkey a) (ActionType a) (Reason a) (DurationSeconds a) (TargetMessageID a)
    (ModeratorPubkey a) (ma_Timestamp a) (ma_Signature a).

(** [pb.ModerationAction] *)
Record pbModerationAction := mkPbAction {
  pa_TargetMemberPubkey : bytes; pa_ActionType : string; pa_Reason : string; pa_DurationSeconds : Z;
  pa_TargetMessageId : bytes; pa_ModeratorPubkey : bytes; pa_Timestamp : Z; pa_Signature : bytes;
}.

#[export] Instance eta_pbAction : Eta pbModerationAction := fun a =>
  mkPbAction (pa_TargetMemberPubkey a) (pa_ActionType a) (pa_Reason a) (pa_DurationSeconds a)
    (pa_TargetMessageId a) (pa_ModeratorPubkey a) (pa_Timestamp a) (pa_Signature a).

Definition action_ToProto (ma : ModerationAction) : pbModerationAction :=
  mkPbAction (TargetMemberPubkey ma) (ActionType ma) (Reason ma) (DurationSeconds ma) (TargetMessageID ma)
    (ModeratorPubkey ma) (ma_Timestamp ma) (ma_Signature ma).

Definition ModerationActionFromProto (p : pbModerationAction) : ModerationAction :=
  mkAction (pa_TargetMemberPubkey p) (pa_ActionType p) (pa_Reason p) (pa_DurationSeconds p)
    (pa_TargetMessageId p) (pa_ModeratorPubkey p) (pa_Timestamp p) (pa_Signature p).

Record PublicGroupService `{I : StorageI} := mkPublic {
  p_storage : st;
  p_identitySignPub : bytes;
  p_identitySignPriv : bytes;
  p_groups : gmap string GroupState;
  banned : gmap string (gmap string BannedMember);
  muted : gmap string (gmap string MutedMember);
  rateLimits : gmap string (gmap string (list Z));
}.

(** ** Proof of work *)

Section ProofOfWork.
Context `{P : Primitives}.

(** [hash[0] < difficulty] for the SHA-256 of the data and a nonce. *)
Definition pow_ok (data nonce : bytes) (difficulty : Z) : bool :=
  byte_val (hd Byte.x00 (sha256 (data ++ nonce))) <? difficulty.

Fixpoint pow_loop (fuel : nat) (data : bytes) (difficulty nonce : Z) : outcome Z :=
  match fuel with
  | O => Err OutOfFuel
  | S fuel' =>
      let nonce := u64 (nonce + 1) in
      if pow_ok data (le_encode 8 nonce) difficulty then mret nonce
      else if nonce >? 1000000 then Err (ErrText "proof of work failed after max attempts")
      else pow_loop fuel' data difficulty nonce
  end.

Definition pow_rounds : nat := Z.to_nat 1000001.

Definition ComputeProofOfWork (data : bytes) (difficulty : Z) : outcome bytes :=
  nonce ← pow_loop pow_rounds data difficulty 0;
  mret (le_encode 8 nonce).

Definition VerifyProofOfWork (data nonce : bytes) (difficulty : Z) : bool :=
  if negb (length nonce =? 8)%nat then false else pow_ok data nonce difficulty.
End ProofOfWork.

(** ** The sliding window of [CheckRateLimit] on one sender's times *)
Definition check_window (timestamps : option (list Z)) (maxMessages windowSec now : Z) : list Z * bool :=
  match timestamps with
  | None => ([now], true)
  | Some timestamps =>
      let cutoff := u64 (now - windowSec) in
      let validTimestamps := filter (fun ts => cutoff < ts) timestamps in
      if maxMessages <=? Z.of_nat (length validTimestamps) then (validTimestamps, false)
      else (validTimestamps ++ [now], true)
  end.

Section Public.
Context `{P : Primitives} `{I : StorageI} `{!Codec pbGroupState} `{!Codec pbModerationAction}.

#[export] Instance eta_Public : Eta PublicGroupService := fun s =>
  mkPublic _ (p_storage s) (p_identitySignPub s) (p_identitySignPriv s) (p_groups s) (banned s) (muted s)
    (rateLimits s).

Abbreviation M := (GoM (Sys PublicGroupService)).

(** ** Moderation actions *)

Definition action_Serialize (ma : ModerationAction) : outcome bytes :=
  let protoMA := action_ToProto ma <| pa_Signature := [] |> in
  proto_Marshal protoMA.

Definition action_Sign (privKey : bytes) (ma : ModerationAction) : outcome ModerationAction :=
  data ← wrapErr "failed to serialize" (action_Serialize ma);
  signature ← ed25519_Sign privKey data;
  mret (ma <| ma_Signature := signature |>).

Definition action_Verify (pubKey : bytes) (ma : ModerationAction) : outcome bool :=
  match action_Serialize ma with
  | Err _ => mret false
  | Panic => Panic
  | Ok data => ed25519_Verify pubKey data (ma_Signature ma)
  end.

Definition GenerateRandomID (size : nat) : M bytes :=
  r ← rand_opt size; lift (ext "rand.Reader" r).

(** ** The service *)

Definition NewPublicGroupService (storage : st) (identitySignPub identitySignPriv : bytes) : PublicGroupService :=
  mkPublic _ storage identitySignPub identitySignPriv ∅ ∅ ∅ ∅.

Definition p_storeGroup (state : GroupState) : M unit :=
  on p_storage (fun d s => s <| p_storage := d |>) (st_SaveGroup (ToProto state)).

Definition set_group (groupKey : string) (state : GroupState) : M unit :=
  update (fun s => s <| p_groups := <[groupKey := state]> (p_groups s) |>).

Definition CreatePublicGroup (name description : string) : M GroupState :=
  s ← self;
  rnd ← rand_opt GroupIDSize;
  now ← time_now;
  state ← lift (wrapErr "failed to create group state"
            (NewGroupState rnd now name description PublicGroup (p_identitySignPub s) (zeros 32)));
  state ← lift (wrapErr "failed to sign group state" (Sign (p_identitySignPriv s) state));
  _ ← wrap "failed to store group" (p_storeGroup state);
  let groupKey := hex (GroupID state) in
  _ ← set_group groupKey state;
  _ ← update (fun s => s <| banned := <[groupKey := ∅]> (banned s) |>
                        <| muted := <[groupKey := ∅]> (muted s) |>
                        <| rateLimits := <[groupKey := ∅]> (rateLimits s) |>);
  mret state.

(** The checks every moderation method starts with. *)
Definition moderator (groupKey : string) : M GroupState :=
  s ← self;
  match p_groups s !! groupKey with
  | None => throw ErrGroupNotFound
  | Some state =>
      if negb (isMemberWithRole state (p_identitySignPub s) [Admin; Owner]) then throw ErrNotAuthorized
      else mret state
  end.

Definition lookup2 {A} (m : gmap string (gmap string A)) (k1 k2 : string) : option A :=
  match m !! k1 with Some inner => inner !! k2 | None => None end.

Definition BanMember (groupID memberPubkey : bytes) (reason : string) : M ModerationAction :=
  let groupKey := hex groupID in
  let memberKey := hex memberPubkey in
  state ← moderator groupKey;
  s ← self;
  match lookup2 (banned s) groupKey memberKey with
  | Some _ => throw ErrAlreadyBanned
  | None =>
      now ← time_now;
      action ← lift (wrapErr "failed to sign moderation action"
                 (action_Sign (p_identitySignPriv s)
                    (mkAction memberPubkey ActionBan reason 0 [] (p_identitySignPub s) (u64 now) [])));
      _ ← match banned s !! groupKey with
          | None => panic
          | Some inner =>
              update (fun s => s <| banned := <[groupKey := <[memberKey :=
                mkBanned memberPubkey (ma_Timestamp action) reason (p_identitySignPub s)]> inner]> (banned s) |>)
          end;
      now ← time_now;
      state ← lift (wrapErr "failed to remove member" (GroupState.RemoveMember now memberPubkey state));
      _ ← set_group groupKey state;
      now ← time_now;
      let state := state <| Epoch := u64 (Epoch state + 1) |> <| UpdatedAt := u64 now |> in
      _ ← set_group groupKey state;
      state ← lift (wrapErr "failed to sign updated state" (Sign (p_identitySignPriv s) state));
      _ ← set_group groupKey state;
      _ ← wrap "failed to store updated group" (p_storeGroup state);
      mret action
  end.

Definition MuteMember (groupID memberPubkey : bytes) (reason : string) (durationSec : Z) : M ModerationAction :=
  let groupKey := hex groupID in
  let memberKey := hex memberPubkey in
  _ ← moderator groupKey;
  s ← self;
  now ← time_now;
  let now := u64 now in
  let expiresAt := u64 (now + durationSec) in
  if match lookup2 (muted s) groupKey memberKey with Some m => now <? ExpiresAt m | None => false end
  then throw ErrAlreadyMuted
  else
    action ← lift (wrapErr "failed to sign moderation action"
               (action_Sign (p_identitySignPriv s)
                  (mkAction memberPubkey ActionMute reason durationSec [] (p_identitySignPub s) now [])));
    _ ← match muted s !! groupKey with
        | None => panic
        | Some inner =>
            update (fun s => s <| muted := <[groupKey := <[memberKey :=
              mkMuted memberPubkey now durationSec expiresAt reason (p_identitySignPub s)]> inner]> (muted s) |>)
        end;
    mret action.

Definition DeleteMessage (groupID messageID : bytes) (reason : string) : M ModerationAction :=
  _ ← moderator (hex groupID);
  s ← self;
  now ← time_now;
  lift (wrapErr "failed to sign moderation action"
    (action_Sign (p_identitySignPriv s)
       (mkAction [] ActionDeleteMessage reason 0 messageID (p_identitySignPub s) (u64 now) []))).

Definition IsBanned (groupID memberPubkey : bytes) : M bool :=
  s ← self;
  mret (match lookup2 (banned s) (hex groupID) (hex memberPubkey) with Some _ => true | None => false end).

(** An expired mute is deleted by the check itself. *)
Definition IsMuted (groupID memberPubkey : bytes) : M bool :=
  let groupKey := hex groupID in
  let memberKey := hex memberPubkey in
  s ← self;
  match lookup2 (muted s) groupKey memberKey with
  | None => mret false
  | Some m =>
      now ← time_now;
      if ExpiresAt m <=? u64 now
      then _ ← update (fun s => s <| muted := alter (delete memberKey) groupKey (muted s) |>); mret false
      else mret true
  end.

Definition CheckRateLimit (groupID senderPubkey : bytes) (maxMessages windowSec : Z) : M bool :=
  let groupKey := hex groupID in
  let senderKey := hex senderPubkey in
  now ← time_now;
  s ← self;
  match rateLimits s !! groupKey with
  | None => panic
  | Some inner =>
      let '(timestamps, allowed) := check_window (inner !! senderKey) maxMessages windowSec (u64 now) in
      _ ← update (fun s => s <| rateLimits := <[groupKey := <[senderKey := timestamps]> inner]> (rateLimits s) |>);
      mret allowed
  end.

Definition ban_action (b : BannedMember) : ModerationAction :=
  mkAction (bn_Pubkey b) ActionBan (bn_Reason b) 0 [] (bn_Moderator b) (BannedAt b) [].
Definition mute_action (m : MutedMember) : ModerationAction :=
  mkAction (mt_Pubkey m) ActionMute (mt_Reason m) (DurationSec m) [] (mt_Moderator m) (MutedAt m) [].

(** [bans] and [mutes] are the entries in the order of the map iterations; a
    negative limit makes the slice expression panic. *)
Definition GetModerationActions (bans : gmap string BannedMember -> list BannedMember)
    (mutes : gmap string MutedMember -> list MutedMember) (groupID : bytes) (limit : Z)
    : M (list ModerationAction) :=
  s ← self;
  let groupKey := hex groupID in
  let actions := (ban_action <$> bans (default ∅ (banned s !! groupKey))) ++
                 (mute_action <$> mutes (default ∅ (muted s !! groupKey))) in
  if Z.of_nat (length actions) >? limit
  then if limit <? 0 then panic else mret (take (Z.to_nat limit) actions)
  else mret actions.
End Public.
