(* ===== verification/PublicGroupProps.v ===== *)
(** * pkg/groups/public.go: what moderation guarantees

    Theorems about [PublicGroup]: the proof of work that is computed is
    accepted and its search ends, the rate limit bounds every window, a mute
    lasts exactly as long as it says, and what a ban does. *)
From S2P Require Import Prelude Primitives Proto Badger GroupState Storage Runtime GroupService PublicGroup.

(** ** Proof of work *)

Section ProofOfWork.
Context `{P : Primitives}.

Lemma pow_loop_spec data d fuel nonce :
  0 <= nonce <= 1000000 -> 1000001 - nonce <= Z.of_nat fuel ->
  match pow_loop fuel data d nonce with
  | Ok k => nonce < k <= 1000001 /\ pow_ok data (le_encode 8 k) d = true /\
            forall j, nonce < j < k -> pow_ok data (le_encode 8 j) d = false
  | Err e => e = ErrText "proof of work failed after max attempts" /\
             forall j, nonce < j <= 1000001 -> pow_ok data (le_encode 8 j) d = false
  | Panic => False
  end.
Proof.
  revert nonce; induction fuel as [|fuel IH]; intros nonce Hn Hf; [lia|].
  cbn [pow_loop]. rewrite u64_small by lia.
  destruct (pow_ok data (le_encode 8 (nonce + 1)) d) eqn:E.
  - cbn. split; [lia|]. split; [done|]. intros; lia.
  - destruct (nonce + 1 >? 1000000) eqn:Eg.
    + split; [done|]. intros j Hj. by replace j with (nonce + 1) by lia.
    + specialize (IH (nonce + 1) ltac:(lia) ltac:(lia)).
      destruct (pow_loop fuel data d (nonce + 1)) as [k|e|]; [| |done].
      * destruct IH as (Hk & Hok & Hmin). split; [lia|]. split; [done|]. intros j Hj.
        destruct (decide (j = nonce + 1)) as [->|]; [done|]. apply Hmin. lia.
      * destruct IH as (-> & Hall). split; [done|]. intros j Hj.
        destruct (decide (j = nonce + 1)) as [->|]; [done|]. apply Hall. lia.
Qed.

(** Proof of work: what is computed is accepted, and the search ends.
    [ComputeProofOfWork] always answers within its rounds.  A nonce it returns
    is the encoding of the least number from 1 on whose hash passes and is
    accepted by [VerifyProofOfWork] for the same data and difficulty; it fails
    only when none of the numbers up to 1000001 passes. *)
Theorem ComputeProofOfWork_correct data d :
  match ComputeProofOfWork data d with
  | Ok nonce =>
      VerifyProofOfWork data nonce d = true /\
      exists k, 1 <= k <= 1000001 /\ nonce = le_encode 8 k /\
        forall j, 1 <= j < k -> VerifyProofOfWork data (le_encode 8 j) d = false
  | Err e =>
      e = ErrText "proof of work failed after max attempts" /\
      forall j, 1 <= j <= 1000001 -> VerifyProofOfWork data (le_encode 8 j) d = false
  | Panic => False
  end.
Proof.
  assert (forall j, VerifyProofOfWork data (le_encode 8 j) d = pow_ok data (le_encode 8 j) d) as HV.
  { intros j. unfold VerifyProofOfWork. by rewrite le_encode_length. }
  pose proof (pow_loop_spec data d pow_rounds 0 ltac:(lia)) as H.
  unfold ComputeProofOfWork. unfold pow_rounds in *. rewrite Z2Nat.id in H by lia. specialize (H ltac:(lia)).
  destruct (pow_loop _ data d 0) as [k|e|]; cbv beta iota delta [mbind outcome_bind mret outcome_ret].
  - destruct H as (Hk & Hok & Hmin). rewrite HV. split; [done|]. exists k. split; [lia|]. split; [done|].
    intros j Hj. rewrite HV. apply Hmin. lia.
  - destruct H as (-> & Hall). split; [done|]. intros j Hj. rewrite HV. apply Hall. lia.
  - done.
Qed.
End ProofOfWork.

(** ** The rate limit *)

Section Public.
Context `{P : Primitives} `{!PrimitiveLaws P} `{I : StorageI} `{!Codec pbGroupState} `{!Codec pbModerationAction}.

(** [n] calls for one sender, with the clock reading each used and its answer. *)
Fixpoint run_checks (n : nat) (gid sender : bytes) (maxMessages windowSec : Z) (s : Sys PublicGroupService)
    : list (Z * bool) :=
  match n with
  | O => []
  | S n' =>
      let now := clock (env s) 0%nat in
      match CheckRateLimit gid sender maxMessages windowSec s with
      | (s', Ok allowed) => (now, allowed) :: run_checks n' gid sender maxMessages windowSec s'
      | (s', _) => []
      end
  end.

(** The times of the messages that were let through. *)
Definition allowed_times (l : list (Z * bool)) : list Z := (filter (fun tb => tb.2 = true) l).*1.

(** How many of [ts] lie in the window that ends at [t]. *)
Definition in_window (w t : Z) (ts : list Z) : list Z := filter (fun x => t - w < x /\ x <= t) ts.

Definition stored (gid sender : bytes) (s : Sys PublicGroupService) : option (list Z) :=
  lookup2 (rateLimits (obj s)) (hex gid) (hex sender).

Lemma CheckRateLimit_run gid sender m w s inner :
  rateLimits (obj s) !! hex gid = Some inner ->
  exists s',
    CheckRateLimit gid sender m w s =
      (s', Ok (check_window (stored gid sender s) m w (u64 (clock (env s) 0%nat))).2) /\
    clock (env s') = (fun i => clock (env s) (S i)) /\
    stored gid sender s' = Some (check_window (stored gid sender s) m w (u64 (clock (env s) 0%nat))).1 /\
    exists inner', rateLimits (obj s') !! hex gid = Some inner'.
Proof.
  intros Hi. unfold CheckRateLimit, time_now, self, update, stored, lookup2. go_run. rewrite Hi.
  destruct (check_window _ _ _ _) as [ts b]. cbn. eexists. split; [reflexivity|].
  split; [done|]. cbn. rewrite !lookup_insert_eq. split; [done|]. by eexists.
Qed.

(** The stored times are the allowed ones of the current window, and they are
    at most [max 1 m]. *)
Definition limit_inv (m w last : Z) (hist : list Z) (st : option (list Z)) : Prop :=
  (st = None -> hist = []) /\
  (forall x, x ∈ hist -> x <= last) /\
  (forall ts, st = Some ts -> forall t, last <= t -> length (in_window w t hist) = length (in_window w t ts)) /\
  (forall ts, st = Some ts -> Z.of_nat (length ts) <= Z.max 1 m).

Lemma in_window_app w t a b : in_window w t (a ++ b) = in_window w t a ++ in_window w t b.
Proof. apply filter_app. Qed.

Lemma in_window_filter w now t ts :
  now <= t -> length (in_window w t (filter (fun x => now - w < x) ts)) = length (in_window w t ts).
Proof.
  intros Ht. unfold in_window. rewrite list_filter_filter. f_equal. apply list_filter_iff. intros x. lia.
Qed.

Lemma limit_inv_step m w last now hist st :
  0 <= w <= now -> last <= now -> now < 2 ^ 64 -> limit_inv m w last hist st ->
  limit_inv m w now (if (check_window st m w now).2 then hist ++ [now] else hist)
    (Some (check_window st m w now).1).
Proof.
  intros Hw Hl Hb (H1 & H2 & H3 & H4). unfold check_window. destruct st as [ts|].
  - rewrite u64_small by lia.
    assert (forall t, now <= t -> length (in_window w t hist) =
              length (in_window w t (filter (fun x => now - w < x) ts))) as Heq.
    { intros t Ht. rewrite in_window_filter by done. apply H3; [done|lia]. }
    pose proof (length_filter (fun x => now - w < x) ts). specialize (H4 ts eq_refl).
    destruct (m <=? _) eqn:Em; cbn; (split; [done|]); (split; [|split]).
    + intros x Hx. specialize (H2 x Hx). lia.
    + intros ts' [= <-] t Ht. by apply Heq.
    + intros ts' [= <-]. lia.
    + intros x [Hx|Hx]%elem_of_app; [specialize (H2 x Hx); lia|].
      apply list_elem_of_singleton in Hx as ->. lia.
    + intros ts' [= <-] t Ht. rewrite !in_window_app, !length_app, Heq by done. done.
    + intros ts' [= <-]. rewrite length_app. cbn. apply Z.leb_gt in Em. lia.
  - cbn. rewrite (H1 eq_refl). cbn. split; [done|]. split; [|split].
    + intros x Hx. apply list_elem_of_singleton in Hx as ->. lia.
    + by intros ts' [= <-].
    + intros ts' [= <-]. cbn. lia.
Qed.

Lemma in_window_length w t ts : (length (in_window w t ts) <= length ts)%nat.
Proof. apply length_filter. Qed.

Lemma run_checks_bound n gid sender m w s inner last hist t :
  rateLimits (obj s) !! hex gid = Some inner -> 0 <= w -> last <= t ->
  (forall i, (i < n)%nat -> last <= clock (env s) i <= t /\ w <= clock (env s) i < 2 ^ 64) ->
  (forall i, (S i < n)%nat -> clock (env s) i <= clock (env s) (S i)) ->
  limit_inv m w last hist (stored gid sender s) ->
  Z.of_nat (length (in_window w t (hist ++ allowed_times (run_checks n gid sender m w s)))) <= Z.max 1 m.
Proof.
  revert s inner last hist; induction n as [|n IH]; intros s inner last hist Hi Hw Hlt Hc Hmono Hinv;
    cbn [run_checks].
  - unfold allowed_times. rewrite filter_nil. cbn. rewrite app_nil_r. destruct Hinv as (H1 & _ & H3 & H4).
    destruct (stored gid sender s) as [ts|]; [|rewrite H1 by done; cbn; lia].
    rewrite (H3 ts eq_refl t Hlt). pose proof (in_window_length w t ts). specialize (H4 ts eq_refl). lia.
  - destruct (CheckRateLimit_run gid sender m w s inner Hi) as (s' & HR & Hclk & Hst & inner' & Hi').
    rewrite HR. destruct (Hc 0%nat ltac:(lia)) as [Hl Hr]. rewrite u64_small in * by lia.
    set (now := clock (env s) 0%nat) in *.
    pose proof (limit_inv_step m w last now hist (stored gid sender s) ltac:(lia) ltac:(lia) ltac:(lia) Hinv) as Hinv'.
    rewrite <- Hst in Hinv'. destruct (check_window (stored gid sender s) m w now) as [ts a].
    cbn [fst snd] in *.
    assert (hist ++ allowed_times ((now, a) :: run_checks n gid sender m w s') =
            (if a then hist ++ [now] else hist) ++ allowed_times (run_checks n gid sender m w s')) as ->.
    { unfold allowed_times. rewrite filter_cons. cbn. destruct a; cbn; [|done]. by rewrite <- app_assoc. }
    apply (IH s' inner' now); try done; rewrite ?Hclk; [lia| |].
    + intros i Hin. destruct (Hc (S i) ltac:(lia)). split; [split; [|lia]|lia].
      clear -Hmono Hin. unfold now. induction i as [|i IHi]; [apply Hmono; lia|].
      etrans; [apply IHi; lia|apply Hmono; lia].
    + intros i Hin. apply Hmono. lia.
Qed.

(** C36. The rate limit holds in every window.  For a sender without earlier
    messages in a known group, a clock that does not go back and a window no
    longer than the time since 1970 (the difference of a longer one wraps around, and
    nothing is limited): however many messages are checked, of
    those let through no more than [maxMessages] (at least one, since the first
    message is always let through) lie in any window of [windowSec] seconds up
    to a time after the last check. *)
Theorem rate_limit_holds n gid sender maxMessages windowSec s inner t :
  rateLimits (obj s) !! hex gid = Some inner -> inner !! hex sender = None ->
  0 <= windowSec -> 0 <= t ->
  (forall i, (i < n)%nat -> windowSec <= clock (env s) i < 2 ^ 64 /\ clock (env s) i <= t) ->
  (forall i, (S i < n)%nat -> clock (env s) i <= clock (env s) (S i)) ->
  Z.of_nat (length (in_window windowSec t
    (allowed_times (run_checks n gid sender maxMessages windowSec s)))) <= Z.max 1 maxMessages.
Proof.
  intros Hi Hs Hw H0 Hc Hmono.
  apply (run_checks_bound n gid sender maxMessages windowSec s inner 0 [] t Hi Hw H0); try done.
  - intros i Hin. specialize (Hc i Hin). lia.
  - unfold stored, lookup2. rewrite Hi, Hs. split; [done|]. split; [by intros ? ?%not_elem_of_nil|]. done.
Qed.

(** ** Mutes *)

Lemma moderator_run gk s st :
  moderator gk s = (s, Ok st) <->
  p_groups (obj s) !! gk = Some st /\ isMemberWithRole st (p_identitySignPub (obj s)) [Admin; Owner] = true.
Proof.
  unfold moderator, self. go_run. destruct (p_groups (obj s) !! gk) as [st'|]; [|by split; [|intros []]].
  destruct (isMemberWithRole st' _ _) eqn:E; cbn; split.
  - intros [= ->]. done.
  - by intros [[= ->] _].
  - done.
  - intros [[= ->] ?]. congruence.
Qed.

Lemma moderator_inv gk s s' r : moderator gk s = (s', r) -> s' = s.
Proof.
  unfold moderator, self. go_run. destruct (p_groups (obj s) !! gk); [|by intros [= <- _]].
  destruct (isMemberWithRole _ _ _); by intros [= <- _].
Qed.

(** A mute lasts exactly as long as it says.  After a successful
    [MuteMember] at time [now] the member is muted at a time [t] exactly when
    [t] is before the expiry [now + durationSec], computed in 64 bits: a
    duration that overflows them ends the mute early, possibly at once.  The
    check that finds the mute expired removes it; no other member's mute
    changes, in this group or another. *)
Theorem MuteMember_lasts gid k reason d s s' action :
  MuteMember gid k reason d s = (s', Ok action) ->
  let now := u64 (clock (env s) 0%nat) in
  DurationSeconds action = d /\ ma_Timestamp action = now /\
  (forall t s1, obj s1 = obj s' -> clock (env s1) 0%nat = t ->
     exists s2, IsMuted gid k s1 = (s2, Ok (u64 t <? u64 (now + d))) /\
       forall gid' k', (hex gid', hex k') <> (hex gid, hex k) ->
         lookup2 (muted (obj s2)) (hex gid') (hex k') = lookup2 (muted (obj s1)) (hex gid') (hex k')) /\
  (forall gid' k', (hex gid', hex k') <> (hex gid, hex k) ->
     lookup2 (muted (obj s')) (hex gid') (hex k') = lookup2 (muted (obj s)) (hex gid') (hex k')).
Proof.
  unfold MuteMember. unfold mbind at 1, GoM_bind at 1.
  destruct (moderator (hex gid) s) as [s0 r] eqn:Em. pose proof (moderator_inv _ _ _ _ Em) as ->.
  destruct r as [st'| |]; [|done..]. unfold self, time_now, update. go_run.
  set (now := u64 (clock (env s) 0%nat)).
  destruct (match lookup2 _ _ _ with Some _ => _ | None => _ end); [done|].
  destruct (action_Sign _ _) as [a| |] eqn:Ea; [|done..]. go_run.
  destruct (muted (obj s) !! hex gid) as [inner|] eqn:Ei; [|done]. go_run.
  intros [= <- <-]. unfold action_Sign in Ea. outcome_inv. cbn.
  split; [done|]. split; [done|].
  assert (forall gid' k' (v : MutedMember), (hex gid', hex k') <> (hex gid, hex k) ->
    lookup2 (<[hex gid := <[hex k := v]> inner]> (muted (obj s))) (hex gid') (hex k') =
    lookup2 (muted (obj s)) (hex gid') (hex k')) as Hframe.
  { intros gid' k' v Hne. unfold lookup2. destruct (decide (hex gid' = hex gid)) as [E|E].
    - rewrite E, lookup_insert_eq, Ei, lookup_insert_ne; [done|]. congruence.
    - by rewrite lookup_insert_ne. }
  split; [|intros gid' k' Hne; by apply Hframe].
  intros t s1 Ho Hc. unfold IsMuted, self, time_now, update. go_run. rewrite Ho. cbn.
  unfold lookup2 at 1. rewrite lookup_insert_eq, lookup_insert_eq. go_run. rewrite Hc.
  rewrite Z.leb_antisym. destruct (u64 t <? u64 (now + d)) eqn:Et; cbn.
  - eexists. split; [reflexivity|]. intros gid' k' Hne. cbn. by rewrite Ho.
  - eexists. split; [reflexivity|]. intros gid' k' Hne. cbn. rewrite Ho. cbn.
    unfold lookup2. destruct (decide (hex gid' = hex gid)) as [E|E].
    + rewrite E, lookup_alter_eq, !lookup_insert_eq. cbn. rewrite lookup_delete_ne, lookup_insert_ne; [done|..]; congruence.
    + by rewrite lookup_alter_ne, !lookup_insert_ne.
Qed.

(** ** Bans *)

Lemma action_Sign_Ok pub priv a :
  ed_keypair pub priv -> (forall p : pbModerationAction, is_Some (marshal p)) ->
  exists sig, action_Sign priv a = Ok (a <| ma_Signature := sig |>).
Proof.
  intros Hkp Hc. unfold action_Sign, action_Serialize, proto_Marshal.
  destruct (Hc (action_ToProto a <| pa_Signature := [] |>)) as [d ->]. cbn.
  rewrite (ed25519_Sign_Ok _ _ _ Hkp). cbn. by eexists.
Qed.

Lemma action_Sign_Verify pub priv a a' :
  ed_keypair pub priv -> action_Sign priv a = Ok a' -> action_Verify pub a' = Ok true.
Proof.
  intros Hkp. unfold action_Sign, action_Verify.
  destruct (action_Serialize a) as [d| |] eqn:Hd; cbn; [|done..].
  rewrite (ed25519_Sign_Ok _ _ _ Hkp). intros [= <-].
  change (action_Serialize (a <| ma_Signature := ed_sign priv d |>)) with (action_Serialize a).
  rewrite Hd. by apply (ed25519_Verify_Sign _ _ _ Hkp).
Qed.

(** [BanMember] once the caller is a moderator, the target is not banned yet
    and the group has its ban table: the ban is in place before anything else
    can fail. *)
Lemma BanMember_start gid k reason s s' r old inner pub action :
  ed_keypair pub (p_identitySignPriv (obj s)) ->
  moderator (hex gid) s = (s, Ok old) -> banned (obj s) !! hex gid = Some inner -> inner !! hex k = None ->
  action_Sign (p_identitySignPriv (obj s))
    (mkAction k ActionBan reason 0 [] (p_identitySignPub (obj s)) (u64 (clock (env s) 0%nat)) []) = Ok action ->
  BanMember gid k reason s = (s', r) ->
  (exists b, banned (obj s') = <[hex gid := <[hex k := b]> inner]> (banned (obj s))) /\
  p_identitySignPub (obj s') = p_identitySignPub (obj s) /\
  match GroupState.RemoveMember (clock (env s) 1%nat) k old with
  | Ok new => exists gs, p_groups (obj s') = <[hex gid := gs]> (p_groups (obj s)) /\
                Members gs = Members new /\ Epoch gs = u64 (Epoch old + 1) /\
                (forall a, r = Ok a -> a = action /\ VerifySignature pub gs = Ok true)
  | Err e => r = Err (ErrWrap "failed to remove member" e) /\ p_groups (obj s') = p_groups (obj s)
  | Panic => False
  end.
Proof.
  intros Hkp Hm Hi Hk Ha. unfold BanMember. unfold mbind at 1, GoM_bind at 1. rewrite Hm.
  unfold self, time_now, update, lookup2, set_group. go_run. rewrite Hi, Hk. go_run. rewrite Ha. go_run.
  destruct (GroupState.RemoveMember _ k old) as [new|e|] eqn:Er.
  - assert (Epoch new = Epoch old) as He.
    { unfold GroupState.RemoveMember in Er. destruct (find_member _ _); [|done].
      destruct (decide _); [done|]. by injection Er as <-. }
    go_run. destruct (Sign _ _) as [gs|e|] eqn:Es; go_run.
    1: pose proof (Sign_inv _ _ _ Es) as (data & Hd & _ & ->); unfold p_storeGroup, on, zoom;
       destruct (st_SaveGroup _ _) as [d [[]|e|]]; cbn.
    all: intros [= <- <-]; cbn; (split; [by eexists|]); (split; [done|]); eexists;
         (split; [by rewrite ?insert_insert_eq|]); (split; [done|]); (split; [cbn; by rewrite He|]); try done.
    intros a [= <-]. split; [done|]. unfold VerifySignature. cbn. rewrite ed_sign_length. cbn.
    rewrite Serialize_unsigned, Hd. by apply (ed25519_Verify_Sign _ _ _ Hkp).
  - go_run. intros [= <- <-]. cbn. split; [by eexists|]. by split.
  - unfold GroupState.RemoveMember in Er. destruct (find_member _ _); [|done]. by destruct (decide _).
Qed.

Lemma IsBanned_run gid k s inner b :
  banned (obj s) !! hex gid = Some inner -> inner !! hex k = Some b -> IsBanned gid k s = (s, Ok true).
Proof. intros Hi Hk. unfold IsBanned, self, lookup2. go_run. by rewrite Hi, Hk. Qed.

(** What a ban does.  A moderator bans a key that is not banned yet in a
    group with a ban table, and the action can be serialised.  Whatever
    [BanMember] answers, the key is banned from then on.  On success the answer
    is the action, which verifies under the moderator's key; the group's new
    state verifies, has the next epoch, and its members are those of a
    successful [RemoveMember].  If the key is not a member, or is the creator,
    [BanMember] returns an error and leaves the group as it was, but the ban
    stays: banning again answers [ErrAlreadyBanned]. *)
Theorem BanMember_effect gid k reason s s' r old inner pub :
  ed_keypair pub (p_identitySignPriv (obj s)) ->
  p_groups (obj s) !! hex gid = Some old ->
  isMemberWithRole old (p_identitySignPub (obj s)) [Admin; Owner] = true ->
  banned (obj s) !! hex gid = Some inner -> inner !! hex k = None ->
  (forall a : pbModerationAction, is_Some (marshal a)) ->
  BanMember gid k reason s = (s', r) ->
  IsBanned gid k s' = (s', Ok true) /\
  (forall action, r = Ok action ->
     TargetMemberPubkey action = k /\ ActionType action = ActionBan /\ action_Verify pub action = Ok true /\
     exists new removed, p_groups (obj s') !! hex gid = Some new /\
       GroupState.RemoveMember (clock (env s) 1%nat) k old = Ok removed /\ Members new = Members removed /\
       Epoch new = u64 (Epoch old + 1) /\ VerifySignature pub new = Ok true) /\
  (IsMember old k = false \/ k = CreatorPubkey old ->
     (exists e, r = Err (ErrWrap "failed to remove member" e)) /\ p_groups (obj s') = p_groups (obj s) /\
     BanMember gid k reason s' = (s', Err ErrAlreadyBanned)).
Proof.
  intros Hkp Hg Hr Hi Hk Hcodec HB.
  assert (moderator (hex gid) s = (s, Ok old)) as Hm by by apply moderator_run.
  destruct (action_Sign_Ok pub _ (mkAction k ActionBan reason 0 [] (p_identitySignPub (obj s))
    (u64 (clock (env s) 0%nat)) []) Hkp Hcodec) as [sig Ha].
  destruct (BanMember_start gid k reason s s' r old inner pub _ Hkp Hm Hi Hk Ha HB) as ([b Hb] & Hp & Hrm).
  assert (banned (obj s') !! hex gid = Some (<[hex k := b]> inner)) as Hi' by by rewrite Hb, lookup_insert_eq.
  split; [|split].
  - eapply IsBanned_run; [exact Hi'|]. apply lookup_insert_eq.
  - intros action ->. destruct (GroupState.RemoveMember _ k old) as [new|e|]; [| |done].
    + destruct Hrm as (gs & Hgs & HM & HE & HV). destruct (HV _ eq_refl) as [-> HV'].
      split; [done|]. split; [done|]. split; [by eapply action_Sign_Verify|].
      exists gs, new. rewrite Hgs, lookup_insert_eq. done.
    + by destruct Hrm as [[=] _].
  - intros Hno. assert (exists e, GroupState.RemoveMember (clock (env s) 1%nat) k old = Err e) as [e He].
    { unfold GroupState.RemoveMember, IsMember in *. destruct (find_member k (Members old)); [|by eexists].
      destruct (decide _); [by eexists|destruct Hno; [done|congruence]]. }
    rewrite He in Hrm. destruct Hrm as [-> Hgs]. split; [by eexists|]. split; [done|].
    assert (moderator (hex gid) s' = (s', Ok old)) as Hm'.
    { apply moderator_run. by rewrite Hgs, Hp. }
    unfold BanMember. unfold mbind at 1, GoM_bind at 1. rewrite Hm'.
    unfold self, lookup2. go_run. by rewrite Hi', lookup_insert_eq.
Qed.
End Public.

(** ** A concrete service

    Alice's public group on a Badger store; Bob joins through the state that
    [CreatePublicGroup] shares with its caller. *)
Module PublicDemo.
Import GroupDemo.
#[export] Instance action_codec : Codec pbModerationAction :=
  {| marshal a := Some (pa_TargetMemberPubkey a ++ str (pa_ActionType a) ++ le_encode 8 (pa_DurationSeconds a) ++
                        le_encode 8 (pa_Timestamp a) ++ pa_ModeratorPubkey a);
     unmarshal _ := None |}.
#[export] Instance channel_codec : Codec pbChannelState := {| marshal _ := Some []; unmarshal _ := None |}.
#[export] Instance post_codec : Codec pbChannelPost := {| marshal _ := Some []; unmarshal _ := None |}.
#[export] Instance public_storage : StorageI := badger_storage (K := gmap_kv).

Definition envP : Env := mkEnvironment (fun i => Some (le_encode 32 (50 + Z.of_nat i))) (fun i => 1000 + Z.of_nat i).
Definition start : Sys PublicGroupService := mkSys envP (NewPublicGroupService (∅ : gmap bytes bytes) pub priv).
Definition created := CreatePublicGroup "plaza" "" start.
Definition gid : bytes := le_encode 32 50.
Definition joined : Sys PublicGroupService :=
  let state := match created.2 with Ok g => g | _ => dummy end in
  match GroupState.AddMember 1001 bob state with
  | Ok state' => (set_group (hex gid) state' created.1).1
  | _ => created.1
  end.
Definition bobKey : bytes := Ed25519Pubkey bob.
Definition stranger : bytes := le_encode 32 13.
Definition bannedBob := BanMember gid bobKey "spam" joined.
Definition bannedStranger := BanMember gid stranger "spam" joined.
Definition mutedBob := MuteMember gid bobKey "noise" 60 joined.
Definition ok_action (o : outcome ModerationAction) : ModerationAction :=
  match o with Ok a => a | _ => mkAction [] "" "" 0 [] [] 0 [] end.
End PublicDemo.
Import GroupDemo PublicDemo.

(** Bob is muted for a minute: he still is after half of it and no longer is
    at its end. *)
Lemma MuteMember_lasts_witness :
  exists action, mutedBob.2 = Ok action /\
  forall t s1, obj s1 = obj mutedBob.1 -> clock (env s1) 0%nat = t ->
    (IsMuted gid bobKey s1).2 = Ok (u64 t <? u64 (1001 + 60)).
Proof.
  exists (ok_action mutedBob.2).
  assert (mutedBob.2 = Ok (ok_action mutedBob.2)) as E by (vm_compute; reflexivity).
  assert (clock (env joined) 0%nat = 1001) as Hc0 by (vm_compute; reflexivity).
  revert E Hc0. generalize (ok_action mutedBob.2). unfold mutedBob. generalize joined.
  intros s action E Hc0. split; [exact E|]. intros t s1 Ho Hc.
  destruct (MuteMember_lasts gid bobKey "noise" 60 s _ action (run_pair _ _ _ E)) as (_ & _ & H & _).
  rewrite Hc0, (u64_small 1001) in H by lia. destruct (H t s1 Ho Hc) as (s2 & -> & _). reflexivity.
Defined.

(** Six messages, one a second, with at most two in three seconds. *)
Lemma rate_limit_holds_witness :
  map snd (run_checks 6 gid bobKey 2 3 joined) = [true; true; false; true; true; false] /\
  Z.of_nat (length (in_window 3 1006 (allowed_times (run_checks 6 gid bobKey 2 3 joined)))) <= Z.max 1 2.
Proof.
  split; [vm_compute; reflexivity|].
  assert (rateLimits (obj joined) !! hex gid = Some ∅) as Hi by (vm_compute; reflexivity).
  assert (forall i, clock (env joined) i = 1000 + Z.of_nat (S i)) as Hc by (vm_compute; reflexivity).
  revert Hi Hc. generalize joined. intros s Hi Hc.
  apply (rate_limit_holds 6 gid bobKey 2 3 s ∅ 1006 Hi (lookup_empty _));
    [lia|lia|intros i Hin; rewrite Hc; lia|intros i Hin; rewrite !Hc; lia].
Defined.

(** Bob can be banned; a stranger cannot be removed but is banned all the same. *)
Lemma BanMember_effect_witness :
  bannedBob.2 = Ok (ok_action bannedBob.2) /\ (IsBanned gid bobKey bannedBob.1).2 = Ok true /\
  (exists e, bannedStranger.2 = Err (ErrWrap "failed to remove member" e)) /\
  (IsBanned gid stranger bannedStranger.1).2 = Ok true.
Proof.
  split; [vm_compute; reflexivity|].
  assert (exists old, p_groups (obj joined) !! hex gid = Some old /\ IsMember old stranger = false /\
    isMemberWithRole old (p_identitySignPub (obj joined)) [Admin; Owner] = true) as (old & Hg & Hno & Hr).
  { destruct (p_groups (obj joined) !! hex gid) as [old|] eqn:E;
      [|vm_compute in E; discriminate E]. exists old. split; [done|].
    assert (option_map (fun g => IsMember g stranger) (p_groups (obj joined) !! hex gid) = Some false) as H1
      by (vm_compute; reflexivity).
    assert (option_map (fun g => isMemberWithRole g (p_identitySignPub (obj joined)) [Admin; Owner])
      (p_groups (obj joined) !! hex gid) = Some true) as H2 by (vm_compute; reflexivity).
    rewrite E in H1, H2. split; [by apply (inj Some) in H1|by apply (inj Some) in H2]. }
  assert (banned (obj joined) !! hex gid = Some ∅) as Hi by (vm_compute; reflexivity).
  assert (p_identitySignPriv (obj joined) = priv) as Hp by (vm_compute; reflexivity).
  unfold bannedBob, bannedStranger. revert Hg Hr Hi Hp. generalize joined. intros s Hg Hr Hi Hp.
  pose proof keypair as Hkp. rewrite <- Hp in Hkp.
  assert (forall a : pbModerationAction, is_Some (marshal a)) as Hc by (intros a; by eexists).
  pose proof (BanMember_effect gid bobKey "spam" s _ _ old ∅ pub Hkp Hg Hr Hi (lookup_empty _) Hc
    (surjective_pairing _)) as [-> _].
  pose proof (BanMember_effect gid stranger "spam" s _ _ old ∅ pub Hkp Hg Hr Hi (lookup_empty _) Hc
    (surjective_pairing _)) as (-> & _ & H). destruct (H (or_introl Hno)) as [He _]. done.
Defined.
