(* ===== verification/Exchange.v ===== *)
(** * Sorting by exchange

    The loop [for i ... { for j := i+1 ... { if less(l[i], l[j]) { swap } } }]
    that several services sort with, over a comparison [lt], and its
    correctness: a permutation in which nothing is followed by something it is
    [lt] than, when [lt] is a strict weak order on the elements. *)
From Stdlib Require Import Sorting.Sorted.
From S2P Require Import Prelude.
#[local] Open Scope nat_scope.

Section Exchange.
Context {A : Type} (lt : A -> A -> bool).

Definition swap (i j : nat) (l : list A) : list A :=
  match l !! i, l !! j with
  | Some x, Some y => <[j := x]> (<[i := y]> l)
  | _, _ => l
  end.

Definition at_lt (l : list A) (i j : nat) : bool :=
  match l !! i, l !! j with
  | Some x, Some y => lt x y
  | _, _ => false
  end.

(** [for j := ...; j < len(l); j++], [n] rounds before the end. *)
Fixpoint sort_inner (n i : nat) (l : list A) : list A :=
  match n with
  | O => l
  | S n' => sort_inner n' i (let j := length l - n in if at_lt l i j then swap i j l else l)
  end.

(** [for i := ...; i < len(l)-1; i++], [n] rounds before the end. *)
Fixpoint sort_outer (n : nat) (l : list A) : list A :=
  match n with
  | O => l
  | S n' => let i := length l - 1 - n in sort_outer n' (sort_inner (length l - (i + 1)) i l)
  end.

Definition exchange_sort (l : list A) : list A := sort_outer (length l - 1) l.

(** ** One inner loop carries the last in the order to position [i] *)

Fixpoint carry (x : A) (rest : list A) : A * list A :=
  match rest with
  | [] => (x, [])
  | r :: rest' =>
      if lt x r
      then let '(y, l) := carry r rest' in (y, x :: l)
      else let '(y, l) := carry x rest' in (y, r :: l)
  end.

Lemma carry_length x rest : length (carry x rest).2 = length rest.
Proof.
  revert x; induction rest as [|r rest IH]; intros x; cbn; [done|].
  destruct (lt x r); [specialize (IH r); destruct (carry r rest)|specialize (IH x); destruct (carry x rest)];
    cbn in *; by rewrite IH.
Qed.

Lemma carry_perm x rest : Permutation ((carry x rest).1 :: (carry x rest).2) (x :: rest).
Proof.
  revert x; induction rest as [|r rest IH]; intros x; cbn [carry]; [done|]. destruct (lt x r).
  - specialize (IH r). destruct (carry r rest) as [y l]. cbn in *. by rewrite Permutation_swap, IH.
  - specialize (IH x). destruct (carry x rest) as [y l]. cbn in *. by rewrite Permutation_swap, IH, Permutation_swap.
Qed.

Lemma lookup_at (pre : list A) x l i : i = length pre -> (pre ++ x :: l) !! i = Some x.
Proof. intros ->. by apply list_lookup_middle. Qed.

Lemma list_insert_middle (pre : list A) x y l i : i = length pre -> <[i := y]> (pre ++ x :: l) = pre ++ y :: l.
Proof. intros ->. rewrite <- (Nat.add_0_r (length pre)). by rewrite insert_app_r. Qed.

Lemma swap_at pre x mid r rest i j :
  i = length pre -> j = length (pre ++ x :: mid) ->
  swap i j (pre ++ x :: mid ++ r :: rest) = pre ++ r :: mid ++ x :: rest.
Proof.
  intros -> ->. unfold swap. rewrite lookup_at by done.
  assert (pre ++ x :: mid ++ r :: rest = (pre ++ x :: mid) ++ r :: rest) as Ea by by rewrite <- app_assoc.
  rewrite Ea, lookup_at by done. rewrite <- Ea.
  rewrite (list_insert_middle pre) by done.
  replace (pre ++ r :: mid ++ r :: rest) with ((pre ++ r :: mid) ++ r :: rest) by by rewrite <- app_assoc.
  rewrite (list_insert_middle (pre ++ r :: mid)) by (rewrite !length_app; done). by rewrite <- app_assoc.
Qed.

Lemma sort_inner_carry n pre x mid rest :
  length rest = n ->
  sort_inner n (length pre) (pre ++ x :: mid ++ rest) = pre ++ (carry x rest).1 :: mid ++ (carry x rest).2.
Proof.
  revert x mid rest; induction n as [|n IH]; intros x mid [|r rest]; cbn [length]; try done.
  intros [= Hl]. cbn [sort_inner].
  assert (length (pre ++ x :: mid ++ r :: rest) - S n = length (pre ++ x :: mid)) as Ej.
  { rewrite !length_app. cbn. rewrite length_app. cbn. lia. }
  rewrite Ej. unfold at_lt. rewrite lookup_at by done.
  assert ((pre ++ x :: mid ++ r :: rest) !! length (pre ++ x :: mid) = Some r) as ->.
  { change (x :: mid ++ r :: rest) with ((x :: mid) ++ r :: rest). rewrite app_assoc. by apply lookup_at. }
  cbn [carry]. destruct (lt x r).
  - rewrite swap_at by done. specialize (IH r (mid ++ [x]) rest Hl). rewrite <- !app_assoc in IH. cbn in IH.
    rewrite IH. by destruct (carry r rest).
  - specialize (IH x (mid ++ [r]) rest Hl). rewrite <- !app_assoc in IH. cbn in IH.
    rewrite IH. by destruct (carry x rest).
Qed.

(** The whole sort: carry, then sort what is left. *)
Fixpoint carry_sort (n : nat) (l : list A) : list A :=
  match n, l with
  | S n', x :: rest => (carry x rest).1 :: carry_sort n' (carry x rest).2
  | _, _ => l
  end.

Lemma sort_outer_carry n pre l :
  length l = S n -> sort_outer n (pre ++ l) = pre ++ carry_sort n l.
Proof.
  revert pre l; induction n as [|n IH]; intros pre l Hl; [done|].
  destruct l as [|x rest]; [done|]. injection Hl as Hl. cbn [sort_outer carry_sort].
  assert (length (pre ++ x :: rest) - 1 - S n = length pre) as ->.
  { rewrite length_app. cbn. lia. }
  assert (length (pre ++ x :: rest) - (length pre + 1) = length rest) as ->.
  { rewrite length_app. cbn. lia. }
  pose proof (sort_inner_carry (length rest) pre x [] rest eq_refl) as Hi. cbn [app] in Hi. rewrite Hi.
  specialize (IH (pre ++ [(carry x rest).1]) (carry x rest).2). rewrite <- !app_assoc in IH. cbn in IH.
  apply IH. by rewrite carry_length.
Qed.

Lemma carry_sort_perm n l : Permutation (carry_sort n l) l.
Proof.
  revert l; induction n as [|n IH]; intros [|x rest]; cbn; try done. by rewrite IH, carry_perm.
Qed.

Lemma exchange_sort_perm l : Permutation (exchange_sort l) l.
Proof.
  unfold exchange_sort. destruct l as [|x l]; [done|].
  pose proof (sort_outer_carry (length (x :: l) - 1) [] (x :: l) ltac:(cbn; lia)) as Ho. cbn [app] in Ho.
  rewrite Ho. apply carry_sort_perm.
Qed.

Section Ordered.
Context (P : A -> Prop).
Hypothesis lt_irrefl : forall x, P x -> lt x x = false.
Hypothesis lt_trans : forall x y z, P x -> P y -> P z -> lt x y = true -> lt y z = true -> lt x z = true.
Hypothesis ge_trans : forall x y z, P x -> P y -> P z -> lt x y = false -> lt y z = false -> lt x z = false.

Lemma carry_max x rest : Forall P (x :: rest) -> Forall (fun p => lt (carry x rest).1 p = false) (x :: rest).
Proof.
  revert x; induction rest as [|r rest IH]; intros x Hall; cbn [carry].
  - apply Forall_cons in Hall as [Hx _]. constructor; [by apply lt_irrefl|constructor].
  - apply Forall_cons in Hall as [Hx Hall]. pose proof Hall as [Hr Hrest]%Forall_cons.
    destruct (lt x r) eqn:E.
    + pose proof (carry_perm r rest) as Hp. specialize (IH r Hall). destruct (carry r rest) as [y l]. cbn in *.
      assert (P y) as Hy by (eapply Forall_forall; [exact Hall|]; rewrite <- Hp; left).
      constructor; [|done]. apply Forall_cons in IH as [Hyr _]. apply not_true_is_false. intros Hyx.
      by rewrite (lt_trans y x r) in Hyr.
    + assert (Forall P (x :: rest)) as Hall' by by constructor.
      pose proof (carry_perm x rest) as Hp. specialize (IH x Hall'). destruct (carry x rest) as [y l]. cbn in *.
      assert (P y) as Hy by (eapply Forall_forall; [exact Hall'|]; rewrite <- Hp; left).
      apply Forall_cons in IH as [Hyx IH]. constructor; [done|]. constructor; [|done]. by apply (ge_trans y x r).
Qed.

Lemma carry_sort_sorted n l :
  length l <= S n -> Forall P l -> StronglySorted (fun a b => lt a b = false) (carry_sort n l).
Proof.
  revert l; induction n as [|n IH]; intros [|x rest] Hl HP; cbn in *; try constructor.
  - destruct rest; [constructor|cbn in Hl; lia].
  - destruct rest; [constructor|cbn in Hl; lia].
  - apply IH; [rewrite carry_length; lia|]. apply Forall_forall. intros y Hy.
    eapply Forall_forall; [exact HP|]. rewrite <- (carry_perm x rest). by right.
  - apply List.Forall_forall. intros y Hy%list_elem_of_In. rewrite carry_sort_perm in Hy.
    eapply Forall_forall in HP as H; [|by rewrite <- (carry_perm x rest); right].
    pose proof (carry_max x rest HP) as Hm. rewrite Forall_forall in Hm. apply Hm.
    rewrite <- (carry_perm x rest). by right.
Qed.

Lemma exchange_sort_sorted l : Forall P l -> StronglySorted (fun a b => lt a b = false) (exchange_sort l).
Proof.
  intros HP. unfold exchange_sort. destruct l as [|x l]; [constructor|].
  pose proof (sort_outer_carry (length (x :: l) - 1) [] (x :: l) ltac:(cbn; lia)) as Ho. cbn [app] in Ho.
  rewrite Ho. apply carry_sort_sorted; [cbn; lia|done].
Qed.
End Ordered.
End Exchange.
