(* ===== verification/Channel.v ===== *)
(** * pkg/groups/channel.go: channels and their posts

    [ChannelService] caches channel states, posts and subscribers and writes
    through to a storage.  A channel state is changed in place: what was changed
    before a step fails stays.  The map iterations of [GetPosts] and
    [ListChannels] have an order the language does not fix; it is an argument. *)
From S2P Require Import Prelude Primitives Proto GroupState Storage Runtime GroupService PublicGroup Exchange.

Definition ErrNotChannelOwner : error := ErrText "not channel owner".
Definition ErrChannelNotFound : error := ErrText "channel not found".
Definition ErrInvalidChannelType : error := ErrText "invalid channel type".

Record ChannelState := mkChannelState {
  ChannelID : bytes;
  cs_Name : string;
  cs_Description : string;
  cs_AvatarCID : string;
  cs_Type : Z;
  OwnerPubkey : bytes;
  cs_CreatedAt : Z;
  cs_UpdatedAt : Z;
  LatestPostCID : bytes;
  SubscriberCount : Z;
  cs_StateSignature : bytes;
}.

#[export] Instance eta_ChannelState : Eta ChannelState := fun c =>
  mkChannelState (ChannelID c) (cs_Name c) (cs_Description c) (cs_AvatarCID c) (cs_Type c) (OwnerPubkey c)
    (cs_CreatedAt c) (cs_UpdatedAt c) (LatestPostCID c) (SubscriberCount c) (cs_StateSignature c).

(** The dynamic types [ToProto] distinguishes in a post's content; a value of
    any other type matters through what [json.Marshal] makes of it. *)
Inductive Content :=
  | TextContent (text language : string)
  | MediaContent (cid contentType : string) (sizeBytes : Z) (filename : string) (thumbnail mediaKey mediaHash : bytes)
      (width height durationMs : Z)
  | EditContent (targetMessageId : bytes) (newText : string) (editTimestamp : Z)
  | DeleteContent (targetMessageId : bytes)
  | RawContent (data : bytes)
  | OtherContent (json : option bytes).

Record ChannelPost := mkPost {
  PostID : bytes;
  cp_ChannelID : bytes;
  AuthorPubkey : bytes;
  cp_Timestamp : Z;
  cp_Content : Content;
  PreviousPostCID : bytes;
  cp_Signature : bytes;
}.

#[export] Instance eta_ChannelPost : Eta ChannelPost := fun p =>
  mkPost (PostID p) (cp_ChannelID p) (AuthorPubkey p) (cp_Timestamp p) (cp_Content p) (PreviousPostCID p)
    (cp_Signature p).

#[export] Instance eta_pbPost : Eta pbChannelPost := fun p =>
  mkPbPost (pp_PostId p) (pp_ChannelId p) (pp_AuthorPubkey p) (pp_Timestamp p) (pp_Content p)
    (pp_PreviousPostCid p) (pp_Signature p).

(** ** Conversions *)

Definition channel_ToProto (cs : ChannelState) : pbChannelState :=
  mkPbChannel (ChannelID cs) (cs_Name cs) (cs_Description cs) (cs_AvatarCID cs) (cs_Type cs) (OwnerPubkey cs)
    (cs_CreatedAt cs) (cs_UpdatedAt cs) (LatestPostCID cs) (SubscriberCount cs) (cs_StateSignature cs).

Definition ChannelStateFromProto (p : pbChannelState) : ChannelState :=
  mkChannelState (pc_ChannelId p) (pc_Name p) (pc_Description p) (pc_AvatarCid p) (pc_Type p) (pc_OwnerPubkey p)
    (pc_CreatedAt p) (pc_UpdatedAt p) (pc_LatestPostCid p) (pc_SubscriberCount p) (pc_StateSignature p).

(** [string(b)] *)
Definition go_string (b : bytes) : string := String.string_of_list_byte b.

Definition content_ToProto (content : Content) : outcome pbContent :=
  match content with
  | TextContent t l => mret (Text t l)
  | MediaContent cid ty size name thumb key hash w h d => mret (Media cid ty size name thumb key hash w h d)
  | EditContent target t ts => mret (Edit target t ts)
  | DeleteContent target => mret (DeleteMsg target)
  | RawContent b => mret (Text (go_string b) "")
  | OtherContent (Some jsonData) => mret (Text (go_string jsonData) "")
  | OtherContent None => Err (ErrText "unsupported content type: %T")
  end.

Definition post_ToProto (cp : ChannelPost) : outcome pbChannelPost :=
  content ← content_ToProto (cp_Content cp);
  mret (mkPbPost (PostID cp) (cp_ChannelID cp) (AuthorPubkey cp) (cp_Timestamp cp) content
          (PreviousPostCID cp) (cp_Signature cp)).

Definition content_FromProto (c : pbContent) : Content :=
  match c with
  | Text t l => TextContent t l
  | Media cid ty size name thumb key hash w h d => MediaContent cid ty size name thumb key hash w h d
  | Edit target t ts => EditContent target t ts
  | DeleteMsg target => DeleteContent target
  | NoContent => RawContent []
  end.

Definition ChannelPostFromProto (p : pbChannelPost) : ChannelPost :=
  mkPost (pp_PostId p) (pp_ChannelId p) (pp_AuthorPubkey p) (pp_Timestamp p) (content_FromProto (pp_Content p))
    (pp_PreviousPostCid p) (pp_Signature p).

(** ** Signatures *)

Section Signatures.
Context `{P : Primitives} `{!Codec pbChannelState} `{!Codec pbChannelPost}.

Definition channel_Serialize (cs : ChannelState) : outcome bytes :=
  proto_Marshal (channel_ToProto cs <| pc_StateSignature := [] |>).

Definition channel_Sign (privKey : bytes) (cs : ChannelState) : outcome ChannelState :=
  data ← wrapErr "failed to serialize" (channel_Serialize cs);
  signature ← ed25519_Sign privKey data;
  mret (cs <| cs_StateSignature := signature |>).

Definition channel_Verify (pubKey : bytes) (cs : ChannelState) : outcome bool :=
  if (length (cs_StateSignature cs) =? 0)%nat then mret false
  else match channel_Serialize cs with
       | Err _ => mret false
       | Panic => Panic
       | Ok data => ed25519_Verify pubKey data (cs_StateSignature cs)
       end.

Definition post_Serialize (cp : ChannelPost) : outcome bytes :=
  protoCP ← post_ToProto cp;
  proto_Marshal (protoCP <| pp_Signature := [] |>).

Definition post_Sign (privKey : bytes) (cp : ChannelPost) : outcome ChannelPost :=
  data ← wrapErr "failed to serialize" (post_Serialize cp);
  signature ← ed25519_Sign privKey data;
  mret (cp <| cp_Signature := signature |>).

Definition post_Verify (pubKey : bytes) (cp : ChannelPost) : outcome bool :=
  if (length (cp_Signature cp) =? 0)%nat then mret false
  else match post_Serialize cp with
       | Err _ => mret false
       | Panic => Panic
       | Ok data => ed25519_Verify pubKey data (cp_Signature cp)
       end.

Definition ComputeChannelID (name : string) : bytes := take 16 (sha256 (str name)).
Definition GetChannelTopic (channelID : bytes) : string :=
  "babylon-ch-" +:+ hex (take 8 (sha256 channelID)).
End Signatures.

(** ** The exchange sort of [GetPosts] *)

Definition older (pi pj : ChannelPost) : bool := cp_Timestamp pi <? cp_Timestamp pj.

Definition sort_posts (posts : list ChannelPost) : list ChannelPost := exchange_sort older posts.

(** [posts[offset:]] and then [posts[:limit]]; a negative offset panics. *)
Definition page (limit offset : Z) (posts : list ChannelPost) : outcome (list ChannelPost) :=
  if offset >=? Z.of_nat (length posts) then mret []
  else if offset <? 0 then Panic
  else
    let posts := drop (Z.to_nat offset) posts in
    if (limit >? 0) && (Z.of_nat (length posts) >? limit) then mret (take (Z.to_nat limit) posts)
    else mret posts.

(** ** The service *)

Record ChannelService `{I : StorageI} := mkChannelService {
  c_storage : st;
  c_identitySignPub : bytes;
  c_identitySignPriv : bytes;
  channels : gmap string ChannelState;
  posts : gmap string (gmap string ChannelPost);
  subscribers : gmap string (gmap string Z);
}.

Section Channels.
Context `{P : Primitives} `{I : StorageI} `{!Codec pbChannelState} `{!Codec pbChannelPost}.

#[export] Instance eta_ChannelService : Eta ChannelService := fun s =>
  mkChannelService _ (c_storage s) (c_identitySignPub s) (c_identitySignPriv s) (channels s) (posts s) (subscribers s).

Abbreviation M := (GoM (Sys ChannelService)).

Definition NewChannelService (storage : st) (identitySignPub identitySignPriv : bytes) : ChannelService :=
  mkChannelService _ storage identitySignPub identitySignPriv ∅ ∅ ∅.

Definition on_channel_storage {A} (m : GoM st A) : M A := on c_storage (fun d s => s <| c_storage := d |>) m.

Definition storeChannel (state : ChannelState) : M unit := on_channel_storage (st_SaveChannel (channel_ToProto state)).

Definition storePost (post : ChannelPost) : M unit :=
  protoPost ← lift (wrapErr "failed to convert post to proto" (post_ToProto post));
  on_channel_storage (st_SaveChannelPost protoPost).

Definition set_channel (channelKey : string) (state : ChannelState) : M unit :=
  update (fun s => s <| channels := <[channelKey := state]> (channels s) |>).

Definition CreateChannel (name description : string) (channelType : Z) : M ChannelState :=
  s ← self;
  if negb ((channelType =? PrivateChannel) || (channelType =? PublicChannel)) then throw ErrInvalidChannelType
  else
    rnd ← rand_opt 32;
    channelID ← match rnd with
                | None => mret (zeros 32)
                | Some _ => rnd ← rand_opt 32; mret (default (zeros 32) rnd)
                end;
    now ← time_now;
    let now := u64 now in
    state ← lift (wrapErr "failed to sign channel state"
              (channel_Sign (c_identitySignPriv s)
                 (mkChannelState channelID name description "" channelType (c_identitySignPub s) now now [] 0 [])));
    _ ← wrap "failed to store channel" (storeChannel state);
    let channelKey := hex channelID in
    _ ← set_channel channelKey state;
    _ ← update (fun s => s <| posts := <[channelKey := ∅]> (posts s) |>);
    _ ← (if channelType =? PublicChannel
         then update (fun s => s <| subscribers := <[channelKey := ∅]> (subscribers s) |>)
         else mret tt);
    mret state.

Definition CreatePost (channelID : bytes) (content : Content) : M ChannelPost :=
  s ← self;
  let channelKey := hex channelID in
  match channels s !! channelKey with
  | None => throw ErrChannelNotFound
  | Some state =>
      if (cs_Type state =? PrivateChannel) && negb (bool_decide (OwnerPubkey state = c_identitySignPub s))
      then throw ErrNotChannelOwner
      else
        rnd ← rand_opt 16;
        let postID := default (zeros 16) rnd in
        now ← time_now;
        let now := u64 now in
        post ← lift (wrapErr "failed to sign channel post"
                 (post_Sign (c_identitySignPriv s)
                    (mkPost postID channelID (c_identitySignPub s) now content (LatestPostCID state) [])));
        _ ← wrap "failed to store channel post" (storePost post);
        let state := state <| LatestPostCID := postID |> <| cs_UpdatedAt := now |> in
        _ ← set_channel channelKey state;
        state ← lift (wrapErr "failed to sign updated channel" (channel_Sign (c_identitySignPriv s) state));
        _ ← set_channel channelKey state;
        _ ← wrap "failed to update channel" (storeChannel state);
        _ ← update (fun s => s <| posts :=
              <[channelKey := <[hex postID := post]> (default ∅ (posts s !! channelKey))]> (posts s) |>);
        _ ← (if cs_Type state =? PublicChannel
             then set_channel channelKey (state <| SubscriberCount := u64 (SubscriberCount state + 1) |>)
             else mret tt);
        mret post
  end.

(** [order] lists the posts of a channel in the order of the map iteration. *)
Definition GetPosts (order : gmap string ChannelPost -> list ChannelPost) (channelID : bytes) (limit offset : Z)
    : M (list ChannelPost) :=
  s ← self;
  match posts s !! hex channelID with
  | None => mret []
  | Some postsMap => lift (page limit offset (sort_posts (order postsMap)))
  end.

Definition Subscribe (channelID subscriberPubkey : bytes) : M unit :=
  s ← self;
  let channelKey := hex channelID in
  match channels s !! channelKey with
  | None => throw ErrChannelNotFound
  | Some state =>
      if negb (cs_Type state =? PublicChannel) then throw ErrInvalidChannelType
      else
        now ← time_now;
        let subs := <[hex subscriberPubkey := u64 now]> (default ∅ (subscribers s !! channelKey)) in
        _ ← update (fun s => s <| subscribers := <[channelKey := subs]> (subscribers s) |>);
        let state := state <| SubscriberCount := u64 (Z.of_nat (size subs)) |> in
        _ ← set_channel channelKey state;
        storeChannel state
  end.

(** Deleting from a map that does not exist does nothing; its length is zero. *)
Definition Unsubscribe (channelID subscriberPubkey : bytes) : M unit :=
  s ← self;
  let channelKey := hex channelID in
  match channels s !! channelKey with
  | None => throw ErrChannelNotFound
  | Some state =>
      let subs := alter (delete (hex subscriberPubkey)) channelKey (subscribers s) in
      _ ← update (fun s => s <| subscribers := subs |>);
      let state := state <| SubscriberCount := u64 (Z.of_nat (size (default ∅ (subs !! channelKey)))) |> in
      _ ← set_channel channelKey state;
      storeChannel state
  end.

Definition IsSubscribed (channelID subscriberPubkey : bytes) : M bool :=
  s ← self;
  mret (match lookup2 (subscribers s) (hex channelID) (hex subscriberPubkey) with Some _ => true | None => false end).

Definition GetChannel (channelID : bytes) : M ChannelState :=
  s ← self;
  match channels s !! hex channelID with Some state => mret state | None => throw ErrChannelNotFound end.

Definition ListChannels (order : gmap string ChannelState -> list ChannelState) : M (list ChannelState) :=
  s ← self; mret (order (channels s)).

Definition DeleteChannel (channelID : bytes) : M unit :=
  s ← self;
  let channelKey := hex channelID in
  match channels s !! channelKey with
  | None => throw ErrChannelNotFound
  | Some state =>
      if negb (bool_decide (OwnerPubkey state = c_identitySignPub s)) then throw ErrNotChannelOwner
      else
        _ ← wrap "failed to delete channel" (on_channel_storage (st_DeleteChannel channelID));
        update (fun s => s <| channels := delete channelKey (channels s) |>
                          <| posts := delete channelKey (posts s) |>
                          <| subscribers := delete channelKey (subscribers s) |>)
  end.
End Channels.
