(* ===== verification/ChannelProps.v ===== *)
(** * pkg/groups/channel.go: what channels guarantee

    Theorems about [Channel]: posts come back newest first, posts of a channel
    form a chain whose head the store knows, and what subscriptions do to the
    signed state. *)
From Stdlib Require Import Sorting.Sorted.
From S2P Require Import Prelude Primitives Proto Badger GroupState Storage StorageProps Runtime GroupService PublicGroup Exchange Channel.
#[local] Open Scope Z_scope.

(** ** The order of the posts *)

Definition newer_first (a b : ChannelPost) : Prop := cp_Timestamp b <= cp_Timestamp a.

Lemma sort_posts_spec l : Permutation (sort_posts l) l /\ StronglySorted newer_first (sort_posts l).
Proof.
  split; [apply exchange_sort_perm|].
  assert (StronglySorted (fun a b => older a b = false) (sort_posts l)) as H.
  { apply (exchange_sort_sorted older (fun _ => True)); [| | |by apply Forall_true]; unfold older; intros;
      rewrite ?Z.ltb_lt, ?Z.ltb_ge in *; lia. }
  induction H as [|a l' H IH HF]; constructor; [done|]. eapply List.Forall_impl; [|exact HF].
  intros b Hb. by apply Z.ltb_ge.
Qed.

(** ** Pages *)

Section Reading.
Context `{P : Primitives} `{I : StorageI} `{!Codec pbChannelState} `{!Codec pbChannelPost}.

(** Posts come back newest first.  [GetPosts] changes nothing.  Whatever the
    order in which the channel's posts are iterated, a page is the part from
    [offset] on, at most [limit] posts long if [limit] is positive, of one
    arrangement of all of them by falling time; a channel without cached posts
    and an offset past the end give nothing, and a negative offset panics. *)
Theorem GetPosts_newest_first order cid limit offset s :
  (forall m, Permutation (order m) (map_to_list m).*2) ->
  exists r, GetPosts order cid limit offset s = (s, r) /\
  match posts (obj s) !! hex cid with
  | None => r = Ok []
  | Some m =>
      exists sorted, Permutation sorted (map_to_list m).*2 /\ StronglySorted newer_first sorted /\
        r = if Z.of_nat (size m) <=? offset then Ok []
            else if offset <? 0 then Panic
            else let rest := drop (Z.to_nat offset) sorted in
                 Ok (if 0 <? limit then take (Z.to_nat limit) rest else rest)
  end.
Proof.
  intros Ho. unfold GetPosts, self. go_run. destruct (posts (obj s) !! hex cid) as [m|]; [|by eexists].
  eexists. split; [reflexivity|]. destruct (sort_posts_spec (order m)) as [Hp Hs].
  exists (sort_posts (order m)). split; [by rewrite Hp|]. split; [done|].
  unfold page. assert (length (sort_posts (order m)) = size m) as Hl.
  { rewrite (Permutation_length Hp), (Permutation_length (Ho m)), length_fmap. apply length_map_to_list. }
  rewrite Hl, Z.geb_leb, !Z.gtb_ltb. destruct (_ <=? offset); [done|]. destruct (offset <? 0); [done|].
  destruct (0 <? limit) eqn:El; [|done]. cbn [andb]. apply Z.ltb_lt in El.
  destruct (Z.ltb_spec limit (Z.of_nat (length (drop (Z.to_nat offset) (sort_posts (order m)))))); [done|].
  cbn. by rewrite take_ge by lia.
Qed.
End Reading.

(** ** Posting *)

Section Posting.
Context `{P : Primitives} `{!PrimitiveLaws P} `{I : StorageI} `{!Codec pbChannelState} `{!Codec pbChannelPost}.

Lemma channel_Sign_inv priv cs cs' :
  channel_Sign priv cs = Ok cs' -> exists sig, cs' = cs <| cs_StateSignature := sig |>.
Proof. unfold channel_Sign. intros H. outcome_inv. by eexists. Qed.

Lemma channel_Sign_Verify pub priv cs cs' :
  ed_keypair pub priv -> channel_Sign priv cs = Ok cs' -> channel_Verify pub cs' = Ok true.
Proof.
  intros Hkp. unfold channel_Sign, channel_Verify.
  destruct (channel_Serialize cs) as [d| |] eqn:Hd; cbn; [|done..].
  rewrite (ed25519_Sign_Ok _ _ _ Hkp). intros [= <-]. cbn. rewrite ed_sign_length. cbn.
  change (channel_Serialize (cs <| cs_StateSignature := ed_sign priv d |>)) with (channel_Serialize cs).
  rewrite Hd. by apply (ed25519_Verify_Sign _ _ _ Hkp).
Qed.

Lemma post_Sign_inv priv cp cp' :
  post_Sign priv cp = Ok cp' -> exists sig, cp' = cp <| cp_Signature := sig |>.
Proof. unfold post_Sign. intros H. outcome_inv. by eexists. Qed.

Lemma post_Serialize_unsigned cp sig : post_Serialize (cp <| cp_Signature := sig |>) = post_Serialize cp.
Proof. unfold post_Serialize, post_ToProto. cbn. by destruct (content_ToProto (cp_Content cp)). Qed.

Lemma post_Sign_Verify pub priv cp cp' :
  ed_keypair pub priv -> post_Sign priv cp = Ok cp' -> post_Verify pub cp' = Ok true.
Proof.
  intros Hkp. unfold post_Sign, post_Verify.
  destruct (post_Serialize cp) as [d| |] eqn:Hd; cbn; [|done..].
  rewrite (ed25519_Sign_Ok _ _ _ Hkp). intros [= <-]. cbn. rewrite ed_sign_length. cbn.
  rewrite post_Serialize_unsigned, Hd. by apply (ed25519_Verify_Sign _ _ _ Hkp).
Qed.

Lemma on_channel_storage_obj {A} (m : GoM st A) s :
  exists d r, m (c_storage (obj s)) = (d, r) /\
    on_channel_storage m s = (mkSys (env s) (obj s <| c_storage := d |>), r).
Proof. unfold on_channel_storage, on, zoom. destruct (m _) as [d r]. by exists d, r. Qed.

(** What a successful [CreatePost] did: [old] is the channel before, [new] the
    signed channel that was stored. *)
Record posted (cid : bytes) (content : Content) (s s' : Sys ChannelService) (post : ChannelPost)
    (old new : ChannelState) : Prop := {
  po_old : channels (obj s) !! hex cid = Some old;
  po_new : channels (obj s') !! hex cid =
    Some (if cs_Type old =? PublicChannel then new <| SubscriberCount := u64 (SubscriberCount old + 1) |> else new);
  po_link : PreviousPostCID post = LatestPostCID old /\ LatestPostCID new = PostID post;
  po_same : ChannelID new = ChannelID old /\ cs_Type new = cs_Type old /\ OwnerPubkey new = OwnerPubkey old /\
            SubscriberCount new = SubscriberCount old;
  po_post : cp_Content post = content /\ cp_ChannelID post = cid /\ length (PostID post) = 16%nat;
  po_author : AuthorPubkey post = c_identitySignPub (obj s);
  po_allowed : cs_Type old = PrivateChannel -> OwnerPubkey old = c_identitySignPub (obj s);
  po_cached : lookup2 (posts (obj s')) (hex cid) (hex (PostID post)) = Some post;
  po_identity : c_identitySignPub (obj s') = c_identitySignPub (obj s) /\
                c_identitySignPriv (obj s') = c_identitySignPriv (obj s);
  po_subscribers : subscribers (obj s') = subscribers (obj s);
  po_signed : exists unsigned_post unsigned_state,
    post_Sign (c_identitySignPriv (obj s)) unsigned_post = Ok post /\
    channel_Sign (c_identitySignPriv (obj s)) unsigned_state = Ok new;
  po_stored : exists d, st_SaveChannel (channel_ToProto new) d = (c_storage (obj s'), Ok tt);
}.

Lemma CreatePost_posted cid content s s' post :
  CreatePost cid content s = (s', Ok post) -> exists old new, posted cid content s s' post old new.
Proof.
  unfold CreatePost, self, rand_opt, time_now, storePost, storeChannel, set_channel, update. go_run.
  destruct (channels (obj s) !! hex cid) as [old|] eqn:Eo; [|done].
  destruct ((cs_Type old =? PrivateChannel) && _) eqn:Ea; [done|]. go_run.
  destruct (post_Sign _ _) as [p| |] eqn:Ep; [|done..]. go_run.
  destruct (post_ToProto p) as [pp| |]; [|done..]. go_run.
  unfold on_channel_storage at 1, on, zoom. destruct (st_SaveChannelPost _ _) as [d1 [[]| |]]; [|done..]. go_run.
  destruct (channel_Sign _ _) as [new| |] eqn:Es; [|done..]. go_run.
  unfold on_channel_storage, on, zoom. cbn. destruct (st_SaveChannel _ _) as [d2 [[]| |]] eqn:Ed; [|done..]. go_run.
  pose proof (channel_Sign_inv _ _ _ Es) as [sg ->]. pose proof (post_Sign_inv _ _ _ Ep) as [sg' ->]. cbn.
  assert (cs_Type old = PrivateChannel -> OwnerPubkey old = c_identitySignPub (obj s)) as Hown.
  { intros E. apply andb_false_iff in Ea as [Ea|Ea]; [apply Z.eqb_neq in Ea; done|].
    apply negb_false_iff, bool_decide_eq_true in Ea. done. }
  assert (length (default (zeros 16) (fit 16 <$> rands (env s) 0)) = 16%nat) as Hlen.
  { destruct (rands (env s) 0); [apply fit_length|by apply length_replicate]. }
  destruct (cs_Type old =? PublicChannel) eqn:Et; cbn; intros [= <- <-];
    (eexists; eexists; constructor; cbn;
      [exact Eo|rewrite Et; by rewrite ?insert_insert_eq, lookup_insert_eq|done..| | |done|done|
       do 2 eexists; split; [exact Ep|exact Es]|by exists d1]);
    try done; unfold lookup2; by rewrite !lookup_insert_eq.
Qed.
End Posting.

(** ** The chain of posts *)

Section Chain.
Context `{P : Primitives} `{!PrimitiveLaws P} `{K : KV} `{!KVLaws K} `{!Codec pbGroupState}
  `{!Codec pbChannelState} `{!Codec pbChannelPost} `{!CodecLaws pbChannelState}.
#[local] Existing Instance badger_storage.

Lemma SaveChannel_latest (c : pbChannelState) (d d' : kv) :
  SaveChannel c d = (d', Ok tt) -> GetLatestChannelPostCID (pc_ChannelId c) d' = (d', Ok (pc_LatestPostCid c)).
Proof.
  intros (data & Em & H)%save_inv; [|apply log_slice_state].
  eapply db_get_found; [by apply (kv_get_set (channelKey (pc_ChannelId c)) data d)|].
  unfold proto_Unmarshal. by rewrite (unmarshal_marshal _ _ Em).
Qed.

(** Posting several contents to one channel. *)
Fixpoint create_posts (cid : bytes) (contents : list Content) : GoM (Sys ChannelService) (list ChannelPost) :=
  match contents with
  | [] => mret []
  | c :: rest => p ← CreatePost cid c; ps ← create_posts cid rest; mret (p :: ps)
  end.

(** Every post names the post before it. *)
Fixpoint linked (prev : bytes) (ps : list ChannelPost) : Prop :=
  match ps with
  | [] => True
  | p :: rest => PreviousPostCID p = prev /\ linked (PostID p) rest
  end.

Definition last_id (prev : bytes) (ps : list ChannelPost) : bytes :=
  match last ps with Some p => PostID p | None => prev end.

Lemma last_id_cons prev p ps : last_id prev (p :: ps) = last_id (PostID p) ps.
Proof. unfold last_id. rewrite last_cons. by destruct (last ps). Qed.

(** C23. Posts form a chain.  When a sequence of contents is posted to a stored
    channel, every post carries its content, verifies under the author's key and
    names the post before it by its post id, the first one what the channel had as latest
    post until then; and what the store has as latest post of the channel is the
    post id of the last one posted.  The fields are called, and documented as, CIDs:
    they hold none. *)
Theorem posts_linked pub cid contents s s' ch ps :
  ed_keypair pub (c_identitySignPriv (obj s)) ->
  channels (obj s) !! hex cid = Some ch -> ChannelID ch = cid ->
  GetLatestChannelPostCID cid (c_storage (obj s)) = (c_storage (obj s), Ok (LatestPostCID ch)) ->
  create_posts cid contents s = (s', Ok ps) ->
  map cp_Content ps = contents /\ linked (LatestPostCID ch) ps /\
  Forall (fun p => post_Verify pub p = Ok true /\ cp_ChannelID p = cid /\ AuthorPubkey p = c_identitySignPub (obj s)) ps /\
  GetLatestChannelPostCID cid (c_storage (obj s')) = (c_storage (obj s'), Ok (last_id (LatestPostCID ch) ps)).
Proof.
  intros Hkp. revert s ch ps Hkp; induction contents as [|c rest IH]; intros s ch ps Hkp Hc Hid Hlast.
  - cbn. intros [= <- <-]. done.
  - cbn [create_posts]. unfold mbind at 1, GoM_bind at 1.
    destruct (CreatePost cid c s) as [s1 [p| |]] eqn:Ep; [|done..].
    apply CreatePost_posted in Ep as (old & new & [Ho Hn Hl Hs Hp Ha _ _ Hi _ Hsg [d Hst]]).
    rewrite Hc in Ho. injection Ho as <-. unfold mbind at 1, GoM_bind at 1.
    destruct (create_posts cid rest s1) as [s2 [qs| |]] eqn:Eq; [|done..]. intros [= <- <-].
    destruct Hl as [Hprev Hnew], Hs as (Hnid & _), Hp as (Hcont & Hcid & _), Hi as [Hi1 Hi2].
    apply SaveChannel_latest in Hst. cbn in Hst. rewrite Hnid, Hid, Hnew in Hst.
    edestruct (IH s1) as (H1 & H2 & H3 & H4); [rewrite Hi2; exact Hkp|exact Hn|destruct (_ =? _); cbn; congruence| |exact Eq|].
    { rewrite Hst. by destruct (cs_Type ch =? PublicChannel); cbn; rewrite Hnew. }
    assert (LatestPostCID (if cs_Type ch =? PublicChannel
              then new <| SubscriberCount := u64 (SubscriberCount ch + 1) |> else new) = PostID p) as E
      by (by destruct (_ =? _)).
    rewrite E in *. rewrite last_id_cons. cbn. rewrite Hcont, H1. split; [done|]. split; [done|].
    split; [|done]. constructor; [|by rewrite Hi1 in H3].
    destruct Hsg as (up & _ & Hsp & _). split; [by eapply post_Sign_Verify|done].
Qed.
End Chain.

(** ** Subscriptions *)

Section Subscriptions.
Context `{P : Primitives} `{!PrimitiveLaws P} `{I : StorageI} `{!Codec pbChannelState} `{!Codec pbChannelPost}
  `{!CodecLaws pbChannelState}.

(** The signature of [old] does not cover [new]. *)
Definition stale (old new : ChannelState) : Prop :=
  cs_StateSignature new = cs_StateSignature old /\
  forall d d', channel_Serialize old = Ok d -> channel_Serialize new = Ok d' -> d' <> d.

Lemma count_stale old n :
  n <> SubscriberCount old -> stale old (old <| SubscriberCount := n |>).
Proof.
  intros Hn. split; [done|]. unfold channel_Serialize, proto_Marshal. intros d d' Hd Hd' ->.
  outcome_inv. apply unmarshal_marshal in Hd, Hd'. rewrite Hd in Hd'. by injection Hd' as E.
Qed.

(** The subscriber count.  After [Subscribe] the subscriber is subscribed and
    the count of the channel that is cached and stored is the number of
    subscribers; after [Unsubscribe] the subscriber is not subscribed, the others
    are as before, and the count is again their number.  When either changes the
    count, the channel keeps the signature of the state before, which was made
    over other bytes.  A post to a public channel adds one to the cached count
    although nobody subscribed. *)
Theorem subscriber_count cid k s s' old :
  channels (obj s) !! hex cid = Some old ->
  (Subscribe cid k s = (s', Ok tt) ->
     exists subs, subscribers (obj s') !! hex cid = Some subs /\ is_Some (subs !! hex k) /\
       let new := old <| SubscriberCount := u64 (Z.of_nat (size subs)) |> in
       cs_Type old = PublicChannel /\ channels (obj s') !! hex cid = Some new /\
       (exists d, st_SaveChannel (channel_ToProto new) d = (c_storage (obj s'), Ok tt)) /\
       (SubscriberCount new <> SubscriberCount old -> stale old new)) /\
  (Unsubscribe cid k s = (s', Ok tt) ->
     let subs := default ∅ (subscribers (obj s') !! hex cid) in
     subs = delete (hex k) (default ∅ (subscribers (obj s) !! hex cid)) /\
     let new := old <| SubscriberCount := u64 (Z.of_nat (size subs)) |> in
     channels (obj s') !! hex cid = Some new /\
     (exists d, st_SaveChannel (channel_ToProto new) d = (c_storage (obj s'), Ok tt)) /\
     (SubscriberCount new <> SubscriberCount old -> stale old new)) /\
  (forall content post, CreatePost cid content s = (s', Ok post) -> cs_Type old = PublicChannel ->
     subscribers (obj s') = subscribers (obj s) /\
     exists new, channels (obj s') !! hex cid = Some new /\ SubscriberCount new = u64 (SubscriberCount old + 1)).
Proof.
  intros Ho. split; [|split].
  - unfold Subscribe, self, time_now, set_channel, update, storeChannel. go_run. rewrite Ho.
    destruct (cs_Type old =? PublicChannel) eqn:Et; [|done]. cbn [negb]. go_run.
    unfold on_channel_storage, on, zoom. cbn.
    destruct (st_SaveChannel _ _) as [d [[]| |]] eqn:Ed; [|done..]. intros [= <-]. cbn.
    eexists. split; [apply lookup_insert_eq|]. split; [rewrite lookup_insert_eq; by eexists|].
    apply Z.eqb_eq in Et. split; [done|]. split; [apply lookup_insert_eq|]. split; [by eexists|]. apply count_stale.
  - unfold Unsubscribe, self, set_channel, update, storeChannel. go_run. rewrite Ho. go_run.
    unfold on_channel_storage, on, zoom. cbn.
    destruct (st_SaveChannel _ _) as [d [[]| |]] eqn:Ed; [|done..]. intros [= <-]. cbn.
    rewrite lookup_alter_eq in *. split; [destruct (subscribers (obj s) !! hex cid); cbn; [done|by rewrite delete_empty]|].
    split; [by rewrite lookup_insert_eq|]. split; [by eexists|]. apply count_stale.
  - intros content post (old' & new & [Ho' Hn _ Hs _ _ _ _ _ Hsub _ _])%CreatePost_posted Ht.
    rewrite Ho in Ho'. injection Ho' as <-. rewrite Ht in Hn. split; [done|]. by eexists.
Qed.
End Subscriptions.

(** ** A concrete service

    Alice's public channel on a Badger store. *)
Module ChannelDemo.
Import GroupDemo StorageDemo.
#[export] Instance post_codec : Codec pbChannelPost :=
  {| marshal p := Some (pp_PostId p ++ pp_PreviousPostCid p); unmarshal _ := None |}.
#[export] Instance channel_storage : StorageI := badger_storage (K := gmap_kv).

Definition envC : Env := mkEnvironment (fun i => Some (le_encode 32 (50 + Z.of_nat i))) (fun i => 1000 + Z.of_nat i).
Definition start : Sys ChannelService := mkSys envC (NewChannelService (∅ : gmap bytes bytes) pub priv).
Definition created := CreateChannel "news" "" PublicChannel start.
Definition cid : bytes := le_encode 32 51.
Definition contents : list Content := [TextContent "one" ""; RawContent (str "two"); TextContent "three" ""].
(** A service that has three posts of the channel cached. *)
Definition post_at (t : Z) : ChannelPost := mkPost (le_encode 16 t) cid pub t (RawContent []) [] [].
Definition cached : Sys ChannelService :=
  mkSys envC (NewChannelService (∅ : gmap bytes bytes) pub priv
    <| posts := {[ hex cid := {[ "a" := post_at 5; "b" := post_at 7; "c" := post_at 3 ]} ]} |>).
Definition ids (o : outcome (list ChannelPost)) : list bytes :=
  match o with Ok ps => map PostID ps | _ => [] end.
End ChannelDemo.
Import GroupDemo StorageDemo ChannelDemo.

Lemma posts_linked_witness :
  let run := create_posts (K := gmap_kv) cid contents created.1 in
  exists ps, run.2 = Ok ps /\ map cp_Content ps = contents /\ linked [] ps /\
    GetLatestChannelPostCID (K := gmap_kv) cid (c_storage (obj run.1)) =
      (c_storage (obj run.1), Ok (le_encode 16 54)).
Proof.
  assert (ids (create_posts (K := gmap_kv) cid contents created.1).2 = [le_encode 16 52; le_encode 16 53; le_encode 16 54])
    as Hids by (vm_compute; reflexivity).
  assert ((fun c => (ChannelID c, LatestPostCID c)) <$> (channels (obj created.1) !! hex cid) = Some (cid, []))
    as H0 by (vm_compute; reflexivity).
  assert ((GetLatestChannelPostCID (K := gmap_kv) cid (c_storage (obj created.1))).2 = Ok []) as Hg
    by (vm_compute; reflexivity).
  assert (c_identitySignPriv (obj created.1) = priv) as Hp by (vm_compute; reflexivity).
  revert Hids H0 Hg Hp. generalize created.1. intros s Hids H0 Hg Hp. cbv zeta.
  destruct (channels (obj s) !! hex cid) as [ch|] eqn:Hc; [|discriminate H0]. apply (inj Some) in H0.
  pose proof (f_equal fst H0) as Hid. pose proof (f_equal snd H0) as Hl. cbn [fst snd] in Hid, Hl.
  destruct (create_posts cid contents s) as [s' [ps| |]] eqn:E; [|discriminate Hids..].
  pose proof keypair as Hkp. rewrite <- Hp in Hkp. rewrite <- Hl in Hg.
  destruct (posts_linked (K := gmap_kv) pub cid contents s s' ch ps Hkp Hc Hid (run_pair _ _ _ Hg) E)
    as (H1 & H2 & _ & H4).
  exists ps. split; [reflexivity|]. split; [exact H1|]. rewrite Hl in H2, H4. split; [exact H2|]. cbn [fst].
  rewrite H4. do 2 f_equal. unfold last_id. cbn in Hids.
  destruct ps as [|p1 [|p2 [|p3 [|]]]]; try discriminate Hids. by injection Hids.
Defined.

Lemma GetPosts_newest_first_witness :
  exists page, GetPosts (fun m => (map_to_list m).*2) cid 2 0 cached = (cached, Ok page) /\
    map cp_Timestamp page = [7; 5].
Proof.
  destruct (GetPosts_newest_first (fun m => (map_to_list m).*2) cid 2 0 cached (fun m => Permutation_refl _))
    as (r & E & _).
  rewrite E. assert ((GetPosts (fun m => (map_to_list m).*2) cid 2 0 cached).2 = r) as Hr by by rewrite E.
  clear E. exists (match r with Ok p => p | _ => [] end).
  assert (is_Ok r = true /\ map cp_Timestamp (match r with Ok p => p | _ => [] end) = [7; 5]) as [H1 H2].
  { rewrite <- Hr. vm_compute. split; reflexivity. }
  clear Hr. destruct r; [split; [reflexivity|exact H2]|discriminate H1..].
Defined.

(** One subscriber makes the signature of Alice's channel stale. *)
Lemma subscriber_count_witness :
  let s := created.1 in
  let run := Subscribe cid (le_encode 32 12) s in
  run.2 = Ok tt /\
  exists old, channels (obj s) !! hex cid = Some old /\ stale old (old <| SubscriberCount := 1 |>) /\
    channels (obj run.1) !! hex cid = Some (old <| SubscriberCount := 1 |>).
Proof.
  assert ((Subscribe cid (le_encode 32 12) created.1).2 = Ok tt) as Hok by (vm_compute; reflexivity).
  assert (SubscriberCount <$> (channels (obj created.1) !! hex cid) = Some 0) as H0 by (vm_compute; reflexivity).
  assert ((fun m => Z.of_nat (size m)) <$> (subscribers (obj (Subscribe cid (le_encode 32 12) created.1).1) !! hex cid) = Some 1)
    as Hs by (vm_compute; reflexivity).
  revert Hok H0 Hs. generalize created.1. intros s Hok H0 Hs. cbv zeta. split; [exact Hok|].
  destruct (channels (obj s) !! hex cid) as [old|] eqn:Ho; [|discriminate H0].
  apply (inj Some) in H0. exists old. split; [reflexivity|].
  destruct (subscriber_count cid (le_encode 32 12) s (Subscribe cid (le_encode 32 12) s).1 old Ho) as [H _].
  destruct (H (run_pair _ _ _ Hok)) as (subs & Hsub & _ & _ & Hn & _ & Hst).
  rewrite Hsub in Hs. apply (inj Some) in Hs. cbv beta in Hs. rewrite Hs in Hn, Hst.
  split; [apply Hst; cbn; rewrite H0; discriminate|exact Hn].
Defined.
