(* ===== verification/Calls.v ===== *)
(** * pkg/rtc: one-to-one calls (session.go, signaling.go, manager.go)

    The state of a [CallManager] with its [SessionManager] and
    [SignalingService]: the sessions, the current call, whether the manager's
    mutex is held, the messages handed to [sendSignalingMessage] (which only logs
    them), the user callbacks run and the goroutines started.  Every method of
    the session manager holds its own mutex from beginning to end and is one
    step.  The manager's mutex is modelled, because callbacks take it again: a
    goroutine that locks it while it holds it is [stuck] and does not go on.
    Instants are nanoseconds since the epoch.  Map iterations go in the order of
    [iter]; call ids come from [uuid_of], the uuid package on 16 random bytes. *)
From S2P Require Import Prelude Primitives Crypto Proto Runtime.

Definition CallStateIdle : string := "idle".
Definition CallStateOffered : string := "offered".
Definition CallStateAccepted : string := "accepted".
Definition CallStateConnecting : string := "connecting".
Definition CallStateActive : string := "active".
Definition CallStateEnded : string := "ended".

Definition CallTypeAudio : string := "audio".
Definition CallTypeVideo : string := "video".

Definition HangupNormal : string := "normal".
Definition HangupTimeout : string := "timeout".
Definition HangupError : string := "error".

Definition Second : Z := 1000000000.
Definition OfferTimeout : Z := 60 * Second.

Definition ErrCallNotFound : error := ErrText "call not found".
Definition ErrCallAlreadyExists : error := ErrText "call already exists".
Definition ErrInvalidCallState : error := ErrText "invalid call state".
Definition ErrInvalidSignalingMessage : error := ErrText "invalid signaling message".
Definition ErrPeerInCall : error := ErrText "peer is already in a call".
Definition ErrNoActiveCall : error := ErrText "no active call".
Definition ErrAlreadyInCall : error := ErrText "already in call: %s".

(** [pb.MessageType] *)
Definition RTC_OFFER : Z := 80.
Definition RTC_ANSWER : Z := 81.
Definition RTC_ICE_CANDIDATE : Z := 82.
Definition RTC_HANGUP : Z := 83.

Record CallSession := mkCall {
  CallID : string;
  LocalIdentity : bytes;
  RemoteIdentity : bytes;
  CallType : string;
  State : string;
  CreatedAt : Z;
  UpdatedAt : Z;
  ExpiresAt : Z;
  LocalSDP : string;
  RemoteSDP : string;
  LocalICECandidates : list string;
  RemoteICECandidates : list string;
  MediaKey : bytes;
  SSRCLocal : Z;
  SSRCRemote : Z;
  ConnectedAt : option Z;
  EndedAt : option Z;
  HangupReason : string;
}.

#[export] Instance eta_CallSession : Eta CallSession := fun c =>
  mkCall (CallID c) (LocalIdentity c) (RemoteIdentity c) (CallType c) (State c) (CreatedAt c) (UpdatedAt c)
    (ExpiresAt c) (LocalSDP c) (RemoteSDP c) (LocalICECandidates c) (RemoteICECandidates c) (MediaKey c)
    (SSRCLocal c) (SSRCRemote c) (ConnectedAt c) (EndedAt c) (HangupReason c).

(** The generated message types. *)
Record RTCOffer := mkOffer { of_Sdp : string; of_CallId : string; of_Video : bool }.
Record RTCAnswer := mkAnswer { an_Sdp : string; an_CallId : string }.
Record RTCIceCandidate := mkIce { ic_Candidate : string; ic_SdpMid : string; ic_SdpMlineIdx : Z; ic_CallId : string }.
Record RTCHangup := mkHangup { hu_CallId : string; hu_Reason : string }.

Record pbCallSession := mkPbCall {
  pcs_CallId : string; pcs_LocalIdentity : bytes; pcs_RemoteIdentity : bytes; pcs_CallType : string;
  pcs_State : string; pcs_CreatedAt : Z; pcs_UpdatedAt : Z; pcs_ExpiresAt : Z; pcs_LocalSdp : string;
  pcs_RemoteSdp : string; pcs_LocalIceCandidates : list string; pcs_RemoteIceCandidates : list string;
  pcs_MediaKey : bytes; pcs_SsrcLocal : Z; pcs_SsrcRemote : Z; pcs_ConnectedAt : Z; pcs_EndedAt : Z;
  pcs_HangupReason : string;
}.

Record CallConfig := mkCallConfig {
  AutoAnswer : bool; AutoAnswerTimeout : Z; CallTimeout : Z; EnableVideo : bool; MaxICECandidates : Z; cfgICEGatherTimeout : Z;
}.
Definition ICEGatherTimeout : Z := 30 * Second.
Definition DefaultCallConfig : CallConfig := mkCallConfig false 0 0 true 20 ICEGatherTimeout.

(** Calls of the user's callbacks. *)
Inductive Event :=
  | EvCallStarted (callID : string) (remote : bytes) (callType : string)
  | EvCallConnected (callID : string)
  | EvCallEnded (callID reason : string) (duration : Z)
  | EvIncomingCall (callID : string) (remote : bytes) (callType sdp : string)
  | EvICECandidate (callID candidate : string).

(** Goroutines started that call the manager later. *)
Inductive Task :=
  | AnswerTask (callID : string)
  | TimeoutTask (callID : string).

Record CallManager := mkCallManager {
  cm_identity : bytes;
  config : CallConfig;
  sessions : gmap string CallSession;
  currentCallID : string;
  mu_held : bool;
  stuck : bool;
  outbox : list (bytes * Z * bytes);
  events : list Event;
  tasks : list Task;
}.

#[export] Instance eta_CallManager : Eta CallManager := fun c =>
  mkCallManager (cm_identity c) (config c) (sessions c) (currentCallID c) (mu_held c) (stuck c) (outbox c)
    (events c) (tasks c).

Definition NewCallManager (identityPub : bytes) (config : option CallConfig) : CallManager :=
  mkCallManager identityPub (default DefaultCallConfig config) ∅ "" false false [] [] [].

(** ** Conversions *)

Definition ToRTCOffer (s : CallSession) : RTCOffer :=
  mkOffer (LocalSDP s) (CallID s) (bool_decide (CallType s = CallTypeVideo)).
Definition ToRTCAnswer (s : CallSession) : RTCAnswer := mkAnswer (LocalSDP s) (CallID s).
Definition ToRTCIceCandidate (candidate sdpMid : string) (mlineIdx : Z) (s : CallSession) : RTCIceCandidate :=
  mkIce candidate sdpMid mlineIdx (CallID s).
Definition ToRTCHangup (reason : string) (s : CallSession) : RTCHangup := mkHangup (CallID s) reason.

(** [uint64(t.Unix())] and [time.Unix(int64(secs), 0)] *)
Definition unix_secs (t : Z) : Z := u64 (t / Second).
Definition unixTime (secs : Z) : Z := (if secs <? 2 ^ 63 then secs else secs - 2 ^ 64) * Second.

Definition call_ToProto (s : CallSession) : pbCallSession :=
  mkPbCall (CallID s) (LocalIdentity s) (RemoteIdentity s) (CallType s) (State s) (unix_secs (CreatedAt s))
    (unix_secs (UpdatedAt s)) (unix_secs (ExpiresAt s)) (LocalSDP s) (RemoteSDP s) (LocalICECandidates s)
    (RemoteICECandidates s) (MediaKey s) (SSRCLocal s) (SSRCRemote s)
    (match ConnectedAt s with Some t => unix_secs t | None => 0 end)
    (match EndedAt s with Some t => unix_secs t | None => 0 end) (HangupReason s).

Definition call_FromProto (p : pbCallSession) : CallSession :=
  mkCall (pcs_CallId p) (pcs_LocalIdentity p) (pcs_RemoteIdentity p) (pcs_CallType p) (pcs_State p)
    (unixTime (pcs_CreatedAt p)) (unixTime (pcs_UpdatedAt p)) (unixTime (pcs_ExpiresAt p)) (pcs_LocalSdp p)
    (pcs_RemoteSdp p) (pcs_LocalIceCandidates p) (pcs_RemoteIceCandidates p) (pcs_MediaKey p) (pcs_SsrcLocal p)
    (pcs_SsrcRemote p)
    (if pcs_ConnectedAt p >? 0 then Some (unixTime (pcs_ConnectedAt p)) else None)
    (if pcs_EndedAt p >? 0 then Some (unixTime (pcs_EndedAt p)) else None) (pcs_HangupReason p).

Definition Marshal `{!Codec pbCallSession} (s : CallSession) : outcome bytes := proto_Marshal (call_ToProto s).
Definition UnmarshalCallSession `{!Codec pbCallSession} (data : bytes) : outcome CallSession :=
  p ← proto_Unmarshal data; mret (call_FromProto p).

Section Calls.
Context `{P : Primitives} `{!Codec RTCOffer} `{!Codec RTCAnswer} `{!Codec RTCIceCandidate} `{!Codec RTCHangup}.
Variable uuid_of : bytes -> string.
Variable iter : gmap string CallSession -> list CallSession.

Abbreviation M := (GoM (Sys CallManager)).

(** ** Locks, callbacks and goroutines *)

Definition lock : M unit :=
  s ← self;
  if mu_held s then _ ← update (fun s => s <| stuck := true |>); panic
  else update (fun s => s <| mu_held := true |>).

(** [cm.mu.Lock(); defer cm.mu.Unlock(); m] *)
Definition locked {A} (m : M A) : M A := fun w =>
  match lock w with
  | (w1, Ok _) =>
      let '(w2, r) := m w1 in
      (if stuck (obj w2) then w2 else mkSys (env w2) (obj w2 <| mu_held := false |>), r)
  | (w1, _) => (w1, Panic)
  end.

(** A call whose error is dropped or only logged. *)
Definition ignore {A} (m : M A) : M unit := fun w =>
  match m w with (w', Panic) => (w', Panic) | (w', _) => (w', Ok tt) end.

Definition emit (e : Event) : M unit := update (fun s => s <| events := events s ++ [e] |>).
Definition spawn (t : Task) : M unit := update (fun s => s <| tasks := tasks s ++ [t] |>).

(** [hex.EncodeToString(x)[:16]] in a log line. *)
Definition log_identity (x : bytes) : M unit := if (length x <? 8)%nat then panic else mret tt.

Definition put_session (callID : string) (session : CallSession) : M unit :=
  update (fun s => s <| sessions := <[callID := session]> (sessions s) |>).

Definition is_ended (session : CallSession) : bool := bool_decide (State session = CallStateEnded).

Definition active_sessions (s : CallManager) : list CallSession :=
  filter (fun session => is_ended session = false) (iter (sessions s)).

(** A session of this peer that is not over.  An empty identity is Go's nil. *)
Definition with_peer (remoteIdentity : bytes) (session : CallSession) : bool :=
  negb (length (RemoteIdentity session) =? 0)%nat &&
  bool_decide (hex (RemoteIdentity session) = hex remoteIdentity) && negb (is_ended session).

(** [CallSession.Duration] *)
Definition Duration (session : CallSession) : M Z :=
  match ConnectedAt session with
  | None => mret 0
  | Some start =>
      now ← time_now;
      mret (match EndedAt session with Some t => t | None => now end - start)
  end.

(** [CallSession.IsExpired] *)
Definition IsExpired (session : CallSession) : M bool :=
  if bool_decide (State session = CallStateOffered)
  then now ← time_now; mret (ExpiresAt session <? now)
  else mret false.

(** ** Handlers the manager registers with its session manager *)

Definition clear_current (callID : string) : M unit :=
  update (fun s => if bool_decide (currentCallID s = callID) then s <| currentCallID := "" |> else s).

Definition handleSessionEnded (session : CallSession) : M unit :=
  _ ← locked (clear_current (CallID session));
  duration ← Duration session;
  emit (EvCallEnded (CallID session) (HangupReason session) duration).

Definition handleStateChanged (session : CallSession) (oldState newState : string) : M unit :=
  if bool_decide (newState = CallStateActive) then emit (EvCallConnected (CallID session)) else mret tt.

(** ** Session manager *)

Definition GetSession (callID : string) : M CallSession :=
  s ← self;
  match sessions s !! callID with None => throw ErrCallNotFound | Some session => mret session end.

Definition GetActiveSessionWithPeer (remoteIdentity : bytes) : M CallSession :=
  s ← self;
  match filter (fun session => with_peer remoteIdentity session = true) (iter (sessions s)) with
  | session :: _ => mret session
  | [] => throw ErrCallNotFound
  end.

Definition GetAllActiveSessions : M (list CallSession) := s ← self; mret (active_sessions s).

Definition CreateOutgoingCall (remoteIdentity : bytes) (callType : string) : M CallSession :=
  s ← self;
  if existsb (with_peer remoteIdentity) (iter (sessions s)) then throw ErrCallAlreadyExists
  else
    id ← rand_opt 16;
    match id with
    | None => panic
    | Some id =>
        let callID := uuid_of id in
        now ← time_now;
        ssrcLocal ← generateSSRC;
        let session := mkCall callID (cm_identity s) remoteIdentity callType CallStateOffered now now
                         (now + OfferTimeout) "" "" [] [] [] ssrcLocal 0 None None "" in
        _ ← put_session callID session;
        mret session
    end.

Definition CreateIncomingCall (callID : string) (remoteIdentity : bytes) (callType sdp : string) : M CallSession :=
  s ← self;
  match sessions s !! callID with
  | Some _ => throw ErrCallAlreadyExists
  | None =>
      now ← time_now;
      ssrcRemote ← generateSSRC;
      ssrcLocal ← generateSSRC;
      let session := mkCall callID (cm_identity s) remoteIdentity callType CallStateOffered now now
                       (now + OfferTimeout) "" sdp [] [] [] ssrcLocal ssrcRemote None None "" in
      _ ← put_session callID session;
      _ ← log_identity remoteIdentity;
      mret session
  end.

(** The [switch] of [UpdateState]: the changed session, or nothing when the call
    has already ended. *)
Definition transition (newState : string) (session : CallSession) : M (option CallSession) :=
  if bool_decide (newState = CallStateAccepted) then
    if negb (bool_decide (State session = CallStateOffered))
    then throw (ErrWrap "cannot accept call in state %s" ErrInvalidCallState)
    else mret (Some (session <| State := CallStateAccepted |>))
  else if bool_decide (newState = CallStateConnecting) then
    if negb (bool_decide (State session = CallStateAccepted)) && negb (bool_decide (State session = CallStateOffered))
    then throw (ErrWrap "cannot connect call in state %s" ErrInvalidCallState)
    else mret (Some (session <| State := CallStateConnecting |>))
  else if bool_decide (newState = CallStateActive) then
    if negb (bool_decide (State session = CallStateConnecting)) && negb (bool_decide (State session = CallStateAccepted))
    then throw (ErrWrap "cannot activate call in state %s" ErrInvalidCallState)
    else now ← time_now; mret (Some (session <| ConnectedAt := Some now |> <| State := CallStateActive |>))
  else if bool_decide (newState = CallStateEnded) then
    if is_ended session then mret None
    else now ← time_now; mret (Some (session <| EndedAt := Some now |> <| State := CallStateEnded |>))
  else mret (Some (session <| State := newState |>)).

Definition UpdateState (callID newState : string) : M unit :=
  session ← GetSession callID;
  let oldState := State session in
  changed ← transition newState session;
  match changed with
  | None => mret tt
  | Some session =>
      now ← time_now;
      let session := session <| UpdatedAt := now |> in
      _ ← put_session callID session;
      handleStateChanged session oldState newState
  end.

Definition SetLocalSDP (callID sdp : string) : M unit :=
  session ← GetSession callID;
  now ← time_now;
  put_session callID (session <| LocalSDP := sdp |> <| UpdatedAt := now |>).

Definition SetRemoteSDP (callID sdp : string) : M unit :=
  session ← GetSession callID;
  now ← time_now;
  put_session callID (session <| RemoteSDP := sdp |> <| UpdatedAt := now |>).

Definition AddLocalICECandidate (callID candidate : string) : M unit :=
  session ← GetSession callID;
  now ← time_now;
  _ ← put_session callID (session <| LocalICECandidates := LocalICECandidates session ++ [candidate] |>
                                  <| UpdatedAt := now |>);
  emit (EvICECandidate callID candidate).

Definition AddRemoteICECandidate (callID candidate : string) : M unit :=
  session ← GetSession callID;
  now ← time_now;
  put_session callID (session <| RemoteICECandidates := RemoteICECandidates session ++ [candidate] |>
                              <| UpdatedAt := now |>).

Definition DeriveMediaKey (callID : string) (sessionRootKey : bytes) : M bytes :=
  session ← GetSession callID;
  mediaKey ← lift (wrapErr "failed to derive media key"
               (DeriveKey sessionRootKey (str callID) (str "bt-media-v1") 32));
  _ ← put_session callID (session <| MediaKey := mediaKey |>);
  mret mediaKey.

(** [SessionManager.EndCall] *)
Definition sm_EndCall (callID reason : string) : M unit :=
  session ← GetSession callID;
  if is_ended session then mret tt
  else
    now ← time_now;
    let session := session <| EndedAt := Some now |> <| HangupReason := reason |> <| State := CallStateEnded |>
                           <| UpdatedAt := now |> in
    _ ← put_session callID session;
    handleSessionEnded session.

Definition DeleteSession (callID : string) : M unit :=
  _ ← GetSession callID;
  update (fun s => s <| sessions := delete callID (sessions s) |>).

(** One round of [cleanupExpiredOffers]. *)
Definition expire (now : Z) (session : CallSession) : M unit :=
  if bool_decide (State session = CallStateOffered) && (ExpiresAt session <? now) then
    let session := session <| State := CallStateEnded |> <| HangupReason := HangupTimeout |>
                           <| EndedAt := Some now |> in
    _ ← update (fun s => s <| sessions := delete (CallID session) (sessions s) |>);
    handleSessionEnded session
  else mret tt.

Fixpoint each {A} (f : A -> M unit) (l : list A) : M unit :=
  match l with
  | [] => mret tt
  | x :: l' => _ ← f x; each f l'
  end.

Definition cleanupExpiredOffers : M unit :=
  now ← time_now;
  s ← self;
  each (expire now) (iter (sessions s)).

(** [SessionManager.Stop]: no callback runs. *)
Definition sm_Stop : M unit :=
  s ← self;
  each (fun session =>
          if is_ended session then mret tt
          else now ← time_now;
               put_session (CallID session)
                 (session <| EndedAt := Some now |> <| HangupReason := HangupNormal |> <| State := CallStateEnded |>))
    (iter (sessions s)).

(** ** Signaling: sending *)

Definition sendSignalingMessage (recipientPubKey : bytes) (messageType : Z) (payload : bytes) : M unit :=
  _ ← log_identity recipientPubKey;
  update (fun s => s <| outbox := outbox s ++ [(recipientPubKey, messageType, payload)] |>).

Definition SendOffer (remoteIdentity : bytes) (callType sdp : string) : M CallSession := fun w =>
  match GetActiveSessionWithPeer remoteIdentity w with
  | (w, Ok _) => (w, Err ErrPeerInCall)
  | (w, Panic) => (w, Panic)
  | (w, Err _) =>
      (session ← wrap "failed to create call session" (CreateOutgoingCall remoteIdentity callType);
       _ ← wrap "failed to set local SDP" (SetLocalSDP (CallID session) sdp);
       session ← GetSession (CallID session);
       offerBytes ← lift (wrapErr "failed to marshal offer" (proto_Marshal (ToRTCOffer session)));
       _ ← sendSignalingMessage remoteIdentity RTC_OFFER offerBytes;
       _ ← log_identity remoteIdentity;
       mret session) w
  end.

Definition SendAnswer (callID sdp : string) : M unit :=
  _ ← GetSession callID;
  _ ← wrap "failed to set local SDP" (SetLocalSDP callID sdp);
  session ← GetSession callID;
  answerBytes ← lift (wrapErr "failed to marshal answer" (proto_Marshal (ToRTCAnswer session)));
  sendSignalingMessage (RemoteIdentity session) RTC_ANSWER answerBytes.

Definition sig_SendICECandidate (callID candidate sdpMid : string) (mlineIdx : Z) : M unit :=
  session ← GetSession callID;
  iceBytes ← lift (wrapErr "failed to marshal ICE candidate"
               (proto_Marshal (ToRTCIceCandidate candidate sdpMid mlineIdx session)));
  sendSignalingMessage (RemoteIdentity session) RTC_ICE_CANDIDATE iceBytes.

Definition SendHangup (callID reason : string) : M unit :=
  session ← GetSession callID;
  hangupBytes ← lift (wrapErr "failed to marshal hangup" (proto_Marshal (ToRTCHangup reason session)));
  sendSignalingMessage (RemoteIdentity session) RTC_HANGUP hangupBytes.

(** ** Manager: calls of the user *)

Definition generateSDP (title : string) : string :=
  "v=0
o=- 0 0 IN IP4 127.0.0.1
s=Babylon Tower " +:+ title +:+ "
c=IN IP4 127.0.0.1
t=0 0
m=audio 9 UDP/TLS/RTP/SAVPF 111
a=rtpmap:111 opus/48000/2
a=fmtp:111 minptime=10;useinbandfec=1
m=video 9 UDP/TLS/RTP/SAVPF 96
a=rtpmap:96 VP8/90000
".
Definition generateSDPOffer (callType : string) : string := generateSDP (callType +:+ " Call").
Definition generateSDPAnswer (callType remoteSDP : string) : string := generateSDP (callType +:+ " Call (Answer)").

Definition StartOutgoingCall (remoteIdentity : bytes) (callType : string) : M string :=
  locked (
    s ← self;
    if negb (bool_decide (currentCallID s = "")) then throw ErrAlreadyInCall
    else
      let callType := if bool_decide (callType = CallTypeVideo) && negb (EnableVideo (config s))
                      then CallTypeAudio else callType in
      session ← wrap "failed to send offer" (SendOffer remoteIdentity callType (generateSDPOffer callType));
      _ ← update (fun s => s <| currentCallID := CallID session |>);
      _ ← log_identity remoteIdentity;
      _ ← emit (EvCallStarted (CallID session) remoteIdentity callType);
      _ ← (if CallTimeout (config s) >? 0 then spawn (TimeoutTask (CallID session)) else mret tt);
      mret (CallID session)).

Definition AnswerIncomingCall (callID : string) : M unit :=
  locked (
    s ← self;
    if negb (bool_decide (currentCallID s = "")) then throw ErrAlreadyInCall
    else
      session ← GetSession callID;
      _ ← wrap "failed to update call state" (UpdateState callID CallStateAccepted);
      _ ← wrap "failed to send answer" (SendAnswer callID (generateSDPAnswer (CallType session) (RemoteSDP session)));
      _ ← update (fun s => s <| currentCallID := callID |>);
      emit (EvCallStarted callID (RemoteIdentity session) (CallType session))).

Definition RejectIncomingCall (callID reason : string) : M unit :=
  _ ← GetSession callID;
  _ ← ignore (SendHangup callID reason);
  wrap "failed to end call" (sm_EndCall callID reason).

Definition EndCallByID (callID reason : string) : M unit :=
  _ ← ignore (SendHangup callID reason);
  _ ← wrap "failed to end call" (sm_EndCall callID reason);
  locked (clear_current callID).

(** [CallManager.EndCall] *)
Definition EndCall (reason : string) : M unit :=
  callID ← locked (s ← self; mret (currentCallID s));
  if bool_decide (callID = "") then throw ErrNoActiveCall else EndCallByID callID reason.

Definition SendICECandidate (candidate sdpMid : string) (mlineIdx : Z) : M unit :=
  callID ← locked (s ← self; mret (currentCallID s));
  if bool_decide (callID = "") then throw ErrNoActiveCall else sig_SendICECandidate callID candidate sdpMid mlineIdx.

Definition GetActiveCall : M CallSession :=
  callID ← locked (s ← self; mret (currentCallID s));
  if bool_decide (callID = "") then throw ErrNoActiveCall else GetSession callID.

Definition IsInCall : M bool := locked (s ← self; mret (negb (bool_decide (currentCallID s = "")))).

Definition Stop : M unit :=
  locked (
    sessions ← GetAllActiveSessions;
    _ ← each (fun session =>
                _ ← ignore (SendHangup (CallID session) HangupNormal);
                ignore (sm_EndCall (CallID session) HangupNormal)) sessions;
    sm_Stop).

(** ** Signaling: receiving, with the handlers the manager registers *)

Definition handleIncomingOffer (callID : string) (remoteIdentity : bytes) (callType sdp : string) : M unit :=
  _ ← emit (EvIncomingCall callID remoteIdentity callType sdp);
  s ← self;
  if AutoAnswer (config s) then spawn (AnswerTask callID) else mret tt.

Definition handleIncomingAnswer (callID : string) (remoteIdentity : bytes) (sdp : string) : M unit :=
  ignore (UpdateState callID CallStateConnecting).

Definition handleIncomingHangup (callID : string) (remoteIdentity : bytes) (reason : string) : M unit :=
  locked (clear_current callID).

Definition invalid {A} `{!Codec A} (what : string) (payload : bytes) : M A :=
  match unmarshal payload with
  | Some m => mret m
  | None => throw (ErrWrap what ErrInvalidSignalingMessage)
  end.

Definition handleOffer (senderIdentity payload : bytes) : M unit :=
  offer ← invalid "failed to unmarshal offer" payload;
  let callType := if of_Video offer then CallTypeVideo else CallTypeAudio in
  _ ← wrap "failed to create incoming call session"
        (CreateIncomingCall (of_CallId offer) senderIdentity callType (of_Sdp offer));
  _ ← log_identity senderIdentity;
  handleIncomingOffer (of_CallId offer) senderIdentity callType (of_Sdp offer).

Definition handleAnswer (senderIdentity payload : bytes) : M unit :=
  answer ← invalid "failed to unmarshal answer" payload;
  _ ← wrap "answer for unknown call" (GetSession (an_CallId answer));
  handleIncomingAnswer (an_CallId answer) senderIdentity (an_Sdp answer).

Definition expected_sender (what : string) (senderIdentity : bytes) (session : CallSession) : M unit :=
  if bool_decide (hex (RemoteIdentity session) = hex senderIdentity) then mret tt
  else throw (ErrWrap what ErrInvalidSignalingMessage).

Definition handleICECandidate (senderIdentity payload : bytes) : M unit :=
  ice ← invalid "failed to unmarshal ICE candidate" payload;
  session ← wrap "ICE candidate for unknown call" (GetSession (ic_CallId ice));
  _ ← expected_sender "ICE candidate from unexpected sender" senderIdentity session;
  wrap "failed to add ICE candidate" (AddRemoteICECandidate (ic_CallId ice) (ic_Candidate ice)).

Definition handleHangup (senderIdentity payload : bytes) : M unit :=
  hangup ← invalid "failed to unmarshal hangup" payload;
  s ← self;
  match sessions s !! hu_CallId hangup with
  | None => mret tt
  | Some session =>
      _ ← expected_sender "hangup from unexpected sender" senderIdentity session;
      _ ← ignore (sm_EndCall (hu_CallId hangup) (hu_Reason hangup));
      handleIncomingHangup (hu_CallId hangup) senderIdentity (hu_Reason hangup)
  end.

Definition HandleSignalingMessage (senderIdentity : bytes) (messageType : Z) (payload : bytes) : M unit :=
  if messageType =? RTC_OFFER then handleOffer senderIdentity payload
  else if messageType =? RTC_ANSWER then handleAnswer senderIdentity payload
  else if messageType =? RTC_ICE_CANDIDATE then handleICECandidate senderIdentity payload
  else if messageType =? RTC_HANGUP then handleHangup senderIdentity payload
  else throw (ErrWrap "unknown RTC message type %s" ErrInvalidSignalingMessage).

(** A goroutine gets its turn; its error is only logged. *)
Definition run_task (t : Task) : M unit :=
  match t with
  | AnswerTask callID => ignore (AnswerIncomingCall callID)
  | TimeoutTask callID => ignore (EndCallByID callID HangupTimeout)
  end.
End Calls.
