(* ===== verification/CallProps.v ===== *)
(** * pkg/rtc: what one-to-one calls guarantee

    The life cycle of calls as an invariant of every operation of the manager,
    every message received and every goroutine it started; that an unanswered
    offer ends; which messages are checked against their sender; and when
    [Stop] never returns. *)
From S2P Require Import Prelude Primitives Crypto Proto Runtime Calls.

(** ** The life of one call *)

Definition rank (state : string) : nat :=
  if bool_decide (state = CallStateOffered) then 0
  else if bool_decide (state = CallStateAccepted) then 1
  else if bool_decide (state = CallStateConnecting) then 2
  else if bool_decide (state = CallStateActive) then 3
  else if bool_decide (state = CallStateEnded) then 4
  else 5.

(** What a manager's session looks like: it is never [active] (nothing in the
    manager says that a call is), and it has an end exactly when it ended. *)
Record session_ok (id : string) (c : CallSession) : Prop := {
  ok_id : CallID c = id;
  ok_state : State c ∈ [CallStateOffered; CallStateAccepted; CallStateConnecting; CallStateEnded];
  ok_ended : is_ended c = true <-> is_Some (EndedAt c);
  ok_reason : is_ended c = false -> HangupReason c = "";
  ok_connected : ConnectedAt c = None;
}.

(** [c'] is a later state of the call [c]: its parties and times are the same,
    its state is not an earlier one, and an end is final. *)
Record advances (c c' : CallSession) : Prop := {
  adv_same : CallID c' = CallID c /\ LocalIdentity c' = LocalIdentity c /\ RemoteIdentity c' = RemoteIdentity c /\
             CallType c' = CallType c /\ CreatedAt c' = CreatedAt c /\ ExpiresAt c' = ExpiresAt c;
  adv_rank : (rank (State c) <= rank (State c'))%nat;
  adv_final : is_ended c = true ->
              State c' = State c /\ EndedAt c' = EndedAt c /\ HangupReason c' = HangupReason c;
}.

#[export] Instance advances_refl : Reflexive advances.
Proof. intros c. by constructor. Qed.

#[export] Instance advances_trans : Transitive advances.
Proof.
  intros a b c [H1 H2 H3] [G1 G2 G3]. constructor; [|lia|].
  { destruct H1 as (?&?&?&?&?&?), G1 as (?&?&?&?&?&?). repeat split; congruence. }
  intros He. destruct (H3 He) as (E1 & E2 & E3).
  assert (is_ended b = true) as Hb by (unfold is_ended in *; by rewrite E1).
  destruct (G3 Hb) as (F1 & F2 & F3). repeat split; congruence.
Qed.

(** A change that touches neither the state nor the parties. *)
Lemma advances_same_state c c' :
  CallID c' = CallID c -> LocalIdentity c' = LocalIdentity c -> RemoteIdentity c' = RemoteIdentity c ->
  CallType c' = CallType c -> CreatedAt c' = CreatedAt c -> ExpiresAt c' = ExpiresAt c ->
  State c' = State c -> EndedAt c' = EndedAt c -> HangupReason c' = HangupReason c -> advances c c'.
Proof. intros. constructor; [done| |done]. by replace (State c') with (State c). Qed.

(** ** A program logic for the manager

    Assertions speak of the sessions and the current call. *)
Abbreviation sessions_t := (gmap string CallSession).
Abbreviation assn := (sessions_t -> string -> Prop).
Abbreviation M := (GoM (Sys CallManager)).

Definition holds (Q : assn) (s : CallManager) : Prop := Q (sessions s) (currentCallID s).

(** The invariant of the manager: all sessions are in order, and the current
    call, if any, is one that has not ended. *)
Definition Inv (s : CallManager) : Prop :=
  (forall id c, sessions s !! id = Some c -> session_ok id c) /\
  (stuck s = false -> currentCallID s <> "" ->
   exists c, sessions s !! currentCallID s = Some c /\ is_ended c = false).

(** No call disappears, and every call only advances. *)
Definition keeps (s s' : CallManager) : Prop :=
  forall id c, sessions s !! id = Some c -> exists c', sessions s' !! id = Some c' /\ advances c c'.

#[export] Instance keeps_refl : Reflexive keeps.
Proof. intros s id c H. exists c. by split. Qed.

#[export] Instance keeps_trans : Transitive keeps.
Proof.
  intros a b c Hab Hbc id x H. destruct (Hab _ _ H) as (y & Hy & ?). destruct (Hbc _ _ Hy) as (z & Hz & ?).
  exists z. split; [done|]. by etrans.
Qed.

(** From a state with the invariant and [Pre], [m] keeps both and ends, if it
    ends well, in a state with [Post]. *)
Definition triple {A} (Pre : assn) (m : M A) (Post : A -> assn) : Prop :=
  forall w w' r, Inv (obj w) -> holds Pre (obj w) -> m w = (w', r) ->
    Inv (obj w') /\ keeps (obj w) (obj w') /\ forall a, r = Ok a -> holds (Post a) (obj w').

Lemma triple_ret {A} Pre (a : A) : triple Pre (mret a) (fun _ => Pre).
Proof. intros w w' r Hi Hp [= <- <-]. split; [done|]. by split. Qed.

Lemma triple_value {A} (Pre : assn) (a : A) (Q : A -> assn) :
  (forall ss cur, Pre ss cur -> Q a ss cur) -> triple Pre (mret a) Q.
Proof. intros HQ w w' r Hi Hp [= <- <-]. split; [done|]. split; [done|]. intros x [= <-]. by apply HQ. Qed.

Lemma triple_throw {A} Pre e (Post : A -> assn) : triple Pre (throw e) Post.
Proof. intros w w' r Hi Hp [= <- <-]. split; [done|]. by split. Qed.

Lemma triple_panic {A} Pre (Post : A -> assn) : triple Pre panic Post.
Proof. intros w w' r Hi Hp [= <- <-]. split; [done|]. by split. Qed.

Lemma triple_lift {A} Pre (o : outcome A) : triple Pre (lift o) (fun _ => Pre).
Proof. intros w w' r Hi Hp [= <- <-]. split; [done|]. by split. Qed.

Lemma triple_bind {A B} Pre (m : M A) (k : A -> M B) Q R :
  triple Pre m Q -> (forall a, triple (Q a) (k a) R) -> triple Pre (x ← m; k x) R.
Proof.
  intros Hm Hk w w' r Hi Hp. unfold mbind, GoM_bind. destruct (m w) as [w1 r1] eqn:E.
  destruct (Hm _ _ _ Hi Hp E) as (Hi1 & Hk1 & Hq).
  destruct r1 as [a|e|]; [|by intros [= <- <-]..]. intros E2.
  destruct (Hk a _ _ _ Hi1 (Hq a eq_refl) E2) as (Hi2 & Hk2 & Hr). split; [done|]. split; [by etrans|done].
Qed.

Lemma triple_weaken {A} (Pre Pre' : assn) (m : M A) (Q Q' : A -> assn) :
  triple Pre m Q -> (forall ss cur, Pre' ss cur -> Pre ss cur) ->
  (forall a ss cur, Q a ss cur -> Q' a ss cur) -> triple Pre' m Q'.
Proof.
  intros Hm HP HQ w w' r Hi Hp E. destruct (Hm w w' r Hi (HP _ _ Hp) E) as (? & ? & Hq).
  split; [done|]. split; [done|]. intros a Ea. by apply HQ, Hq.
Qed.

Lemma triple_wrap {A} Pre ctx (m : M A) Q : triple Pre m Q -> triple Pre (wrap ctx m) Q.
Proof.
  intros Hm w w' r Hi Hp. unfold wrap. destruct (m w) as [w1 r1] eqn:E. intros [= <- <-].
  destruct (Hm _ _ _ Hi Hp E) as (? & ? & Hq). split; [done|]. split; [done|].
  intros a Ea. apply Hq. by destruct r1.
Qed.

Lemma triple_ignore {A} Pre (m : M A) (Q : A -> assn) :
  triple Pre m Q -> triple Pre (ignore m) (fun _ _ _ => True).
Proof.
  intros Hm w w' r Hi Hp. unfold ignore. destruct (m w) as [w1 r1] eqn:E.
  destruct (Hm _ _ _ Hi Hp E) as (? & ? & _). by destruct r1; intros [= <- <-].
Qed.

Lemma triple_same {A} Pre (m : M A) :
  (forall w, obj (m w).1 = obj w) -> triple Pre m (fun _ => Pre).
Proof.
  intros Hm w w' r Hi Hp E. specialize (Hm w). rewrite E in Hm. cbn in Hm. rewrite Hm.
  split; [done|]. by split.
Qed.

Lemma triple_self Pre : triple Pre self (fun s ss cur => ss = sessions s /\ cur = currentCallID s /\ Pre ss cur).
Proof. intros w w' r Hi Hp [= <- <-]. split; [done|]. split; [done|]. by intros a [= <-]. Qed.

(** Updates of the parts assertions and invariant do not speak of. *)
Lemma triple_update_other Pre (f : CallManager -> CallManager) :
  (forall s, sessions (f s) = sessions s /\ currentCallID (f s) = currentCallID s /\ stuck (f s) = stuck s) ->
  triple Pre (update f) (fun _ => Pre).
Proof.
  intros Hf w w' r Hi Hp [= <- <-]. destruct (Hf (obj w)) as (E1 & E2 & E3). cbn. unfold Inv, keeps, holds.
  rewrite E1, E2, E3. split; [done|]. split; [|done]. intros id c H. exists c. by split.
Qed.

Lemma triple_locked {A} Pre (m : M A) Q : triple Pre m Q -> triple Pre (locked m) Q.
Proof.
  intros Hm w w' r Hi Hp. unfold locked, lock, self, update. go_run. destruct (mu_held (obj w)).
  - intros [= <- <-]. unfold Inv, keeps, holds in *. cbn. split; [split; [apply Hi|done]|]. split; [|done].
    intros id c H. exists c. by split.
  - set (w1 := mkSys (env w) (obj w <| mu_held := true |>)). destruct (m w1) as [w2 r2] eqn:E.
    intros [= <- <-]. destruct (Hm w1 w2 r2 Hi Hp E) as (Hi2 & Hk2 & Hq). by destruct (stuck (obj w2)).
Qed.

Lemma triple_each {A} Pre (f : A -> M unit) l :
  (forall x, x ∈ l -> triple Pre (f x) (fun _ => Pre)) -> triple Pre (each f l) (fun _ => Pre).
Proof.
  induction l as [|x l IH]; intros Hf; cbn [each]; [apply triple_ret|].
  apply triple_bind with (fun _ => Pre); [apply Hf; left|]. intros _. apply IH. intros y Hy. apply Hf. by right.
Qed.

(** ** The parts of the operations *)

Section Ops.
Context `{P : Primitives} `{!Codec RTCOffer} `{!Codec RTCAnswer} `{!Codec RTCIceCandidate} `{!Codec RTCHangup}.
Variable uuid_of : bytes -> string.
Variable iter : sessions_t -> list CallSession.

Lemma triple_get Pre id :
  triple Pre (GetSession id) (fun c ss cur => ss !! id = Some c /\ Pre ss cur).
Proof.
  intros w w' r Hi Hp. unfold GetSession, self. go_run. destruct (sessions (obj w) !! id) as [c|] eqn:E;
    intros [= <- <-]; (split; [done|]); (split; [done|]); [|done]. intros a [= <-]. by split.
Qed.

Lemma Inv_put s id c c' :
  Inv s -> sessions s !! id = Some c -> session_ok id c' -> is_ended c' = is_ended c ->
  Inv (s <| sessions := <[id := c']> (sessions s) |>).
Proof.
  intros [Hs Hc] Hid Hok He. split; cbn.
  - intros i x. rewrite lookup_insert_Some. intros [[<- <-]|[_ Hx]]; [done|by apply Hs].
  - intros Hst Hcur. destruct (Hc Hst Hcur) as (x & Hx & Hxe). destruct (decide (currentCallID s = id)) as [E|Hne].
    + exists c'. rewrite E, lookup_insert_eq. split; [done|]. rewrite E, Hid in Hx. congruence.
    + exists x. by rewrite lookup_insert_ne.
Qed.

Lemma keeps_put s id c c' :
  sessions s !! id = Some c -> advances c c' -> keeps s (s <| sessions := <[id := c']> (sessions s) |>).
Proof.
  intros Hid Ha i x Hx. cbn. destruct (decide (i = id)) as [->|Hne].
  - exists c'. rewrite lookup_insert_eq. rewrite Hid in Hx. by injection Hx as <-.
  - exists x. by rewrite lookup_insert_ne.
Qed.

Lemma triple_put (Pre : assn) id c c' :
  (forall ss cur, Pre ss cur -> ss !! id = Some c) ->
  (session_ok id c -> session_ok id c' /\ advances c c' /\ is_ended c' = is_ended c) ->
  triple Pre (put_session id c') (fun _ ss _ => ss !! id = Some c').
Proof.
  intros HP Hc w w' r Hi Hp [= <- <-]. apply HP in Hp. destruct (Hc (proj1 Hi _ _ Hp)) as (Hok & Ha & He).
  split; [by eapply Inv_put|]. split; [by eapply keeps_put|]. intros _ _. unfold holds. cbn. apply lookup_insert_eq.
Qed.

Lemma triple_put_new (Pre : assn) id c' :
  (forall ss cur, Pre ss cur -> ss !! id = None) -> session_ok id c' ->
  triple Pre (put_session id c') (fun _ ss _ => ss !! id = Some c').
Proof.
  intros HP Hok w w' r Hi Hp [= <- <-]. apply HP in Hp. split; [|split].
  - split; cbn.
    + intros i x. rewrite lookup_insert_Some. intros [[<- <-]|[_ Hx]]; [done|by apply Hi].
    + intros Hst Hcur. destruct (proj2 Hi Hst Hcur) as (x & Hx & Hxe). exists x.
      rewrite lookup_insert_ne; [done|]. intros E. by rewrite <- E, Hp in Hx.
  - intros i x Hx. exists x. cbn. rewrite lookup_insert_ne; [done|]. intros ->. by rewrite Hp in Hx.
  - intros _ _. unfold holds. cbn. apply lookup_insert_eq.
Qed.

Lemma triple_set_current (Pre : assn) id :
  (forall ss cur, Pre ss cur -> exists c, ss !! id = Some c /\ is_ended c = false) ->
  triple Pre (update (fun s => s <| currentCallID := id |>)) (fun _ _ _ => True).
Proof.
  intros HP w w' r Hi Hp [= <- <-]. apply HP in Hp. split; [split; [apply Hi|by intros _ _]|]. split; [|done].
  intros i x Hx. exists x. by split.
Qed.

Lemma triple_clear Pre id : triple Pre (clear_current id) (fun _ _ _ => True).
Proof.
  intros w w' r Hi _ [= <- <-]. cbn. case_bool_decide as E; [|by split].
  split; [split; [apply Hi|by intros _ []]|]. split; [|done]. intros i x Hx. exists x. by split.
Qed.

Lemma triple_time Pre : triple Pre time_now (fun _ => Pre).
Proof. by apply triple_same. Qed.
Lemma triple_rand Pre n : triple Pre (rand_opt n) (fun _ => Pre).
Proof. by apply triple_same. Qed.
Lemma triple_log Pre x : triple Pre (log_identity x) (fun _ => Pre).
Proof. apply triple_same. intros w. unfold log_identity. by destruct (_ <? _)%nat. Qed.
Lemma triple_ssrc Pre : triple Pre generateSSRC (fun _ => Pre).
Proof.
  apply triple_bind with (fun _ => Pre); [apply triple_rand|]. intros [b|]; [apply triple_ret|].
  apply triple_bind with (fun _ => Pre); [apply triple_time|]. intros. apply triple_ret.
Qed.
Lemma triple_emit Pre e : triple Pre (emit e) (fun _ => Pre).
Proof. by apply triple_update_other. Qed.
Lemma triple_spawn Pre t : triple Pre (spawn t) (fun _ => Pre).
Proof. by apply triple_update_other. Qed.
Lemma triple_send Pre k ty b : triple Pre (sendSignalingMessage k ty b) (fun _ => Pre).
Proof.
  apply triple_bind with (fun _ => Pre); [apply triple_log|]. intros _. by apply triple_update_other.
Qed.
Lemma triple_duration Pre c : triple Pre (Duration c) (fun _ => Pre).
Proof. apply triple_same. intros w. unfold Duration, time_now. by destruct (ConnectedAt c). Qed.
End Ops.

Create HintDb calls discriminated.
#[export] Hint Resolve triple_time triple_rand triple_log triple_ssrc triple_emit triple_spawn triple_send
  triple_duration triple_ret triple_throw triple_panic triple_lift triple_get triple_self triple_clear : calls.

(** [walk] goes through a sequence of operations whose triples are known. *)
Ltac walk :=
  repeat first
    [ progress (intros; cbv beta in * )
    | apply triple_wrap
    | solve [eauto 3 with calls]
    | eapply triple_bind; [solve [eauto 3 with calls | apply triple_wrap; eauto 3 with calls]|]
    | match goal with |- triple _ (match ?x with _ => _ end) _ => destruct x eqn:? end ].

(** ** The operations *)

(** One run with the invariant kept; [triple] is every run from [Pre]. *)
Definition run_ok {A} (w : Sys CallManager) (m : M A) (Post : A -> assn) : Prop :=
  forall w' r, m w = (w', r) -> Inv (obj w') /\ keeps (obj w) (obj w') /\ forall a, r = Ok a -> holds (Post a) (obj w').

Lemma run_ok_bind {A B} w (m : M A) (k : A -> M B) Q R :
  run_ok w m Q -> (forall a, triple (Q a) (k a) R) -> run_ok w (x ← m; k x) R.
Proof.
  intros Hm Hk w' r. unfold mbind, GoM_bind. destruct (m w) as [w1 r1] eqn:E.
  destruct (Hm _ _ E) as (Hi1 & Hk1 & Hq). destruct r1 as [a|e|]; [|by intros [= <- <-]..]. intros E2.
  destruct (Hk a _ _ _ Hi1 (Hq a eq_refl) E2) as (Hi2 & Hk2 & Hr). split; [done|]. split; [by etrans|done].
Qed.

Lemma run_ok_wrap {A} w ctx (m : M A) Q : run_ok w m Q -> run_ok w (wrap ctx m) Q.
Proof.
  intros Hm w' r. unfold wrap. destruct (m w) as [w1 r1] eqn:E. intros [= <- <-].
  destruct (Hm _ _ E) as (? & ? & Hq). split; [done|]. split; [done|]. intros a Ea. apply Hq. by destruct r1.
Qed.

Lemma run_ok_locked {A} w (m : M A) Q :
  Inv (obj w) -> run_ok (mkSys (env w) (obj w <| mu_held := true |>)) m Q -> run_ok w (locked m) Q.
Proof.
  intros Hi Hm w' r. unfold locked, lock, self, update. go_run. destruct (mu_held (obj w)).
  - intros [= <- <-]. unfold Inv, keeps, holds in *. cbn. split; [split; [apply Hi|done]|]. split; [|done].
    intros id c H. exists c. by split.
  - destruct (m _) as [w2 r2] eqn:E. intros [= <- <-]. destruct (Hm w2 r2 E) as (Hi2 & Hk2 & Hq).
    by destruct (stuck (obj w2)).
Qed.

Lemma run_ok_triple {A} w Pre (m : M A) Q : triple Pre m Q -> Inv (obj w) -> holds Pre (obj w) -> run_ok w m Q.
Proof. intros Hm Hi Hp w' r. by apply Hm. Qed.

Definition anything : assn := fun _ _ => True.

(** Where only the invariant matters. *)
Lemma triple_any {A} Pre (m : M A) : (forall w, (m w).1 = w) -> triple Pre m (fun _ => anything).
Proof. intros Hm w w' r Hi _ E. specialize (Hm w). rewrite E in Hm. cbn in Hm. subst w'. done. Qed.

Section Operations.
Context `{P : Primitives} `{!Codec RTCOffer} `{!Codec RTCAnswer} `{!Codec RTCIceCandidate} `{!Codec RTCHangup}.
Variable uuid_of : bytes -> string.
Variable iter : sessions_t -> list CallSession.

(** Sessions whose state and parties stay are put back in order. *)
Lemma triple_put_same (Pre : assn) id c c' :
  (forall ss cur, Pre ss cur -> ss !! id = Some c) ->
  CallID c' = CallID c -> LocalIdentity c' = LocalIdentity c -> RemoteIdentity c' = RemoteIdentity c ->
  CallType c' = CallType c -> CreatedAt c' = CreatedAt c -> ExpiresAt c' = ExpiresAt c ->
  State c' = State c -> EndedAt c' = EndedAt c -> HangupReason c' = HangupReason c -> ConnectedAt c' = ConnectedAt c ->
  triple Pre (put_session id c') (fun _ ss _ => ss !! id = Some c').
Proof.
  intros HP H1 H2 H3 H4 H5 H6 H7 H8 H9 H10. apply triple_put with c; [done|]. intros [G1 G2 G3 G4 G5].
  split; [|split; [by apply advances_same_state|unfold is_ended; by rewrite H7]].
  constructor; unfold is_ended in *; congruence || (rewrite ?H7, ?H8, ?H9; done).
Qed.

(** The call [id] exists and has not ended. *)
Definition live (id : string) : assn := fun ss _ => exists c, ss !! id = Some c /\ is_ended c = false.

Lemma triple_inv {A} (Pre : assn) (m : M A) Q :
  triple (fun ss cur => Pre ss cur /\ forall id c, ss !! id = Some c -> session_ok id c) m Q -> triple Pre m Q.
Proof. intros Hm w w' r Hi Hp. apply Hm; [done|]. split; [done|apply Hi]. Qed.

Lemma SetLocalSDP_ok id sdp : triple (live id) (SetLocalSDP id sdp) (fun _ => live id).
Proof.
  unfold SetLocalSDP. eapply triple_bind; [apply triple_get|]. intros c. cbv beta.
  eapply triple_bind; [apply triple_time|]. intros now. cbv beta.
  destruct (is_ended c) eqn:He.
  - intros w w' r Hi [Hc (c' & Hc' & He')]. congruence.
  - eapply triple_weaken; [apply (triple_put_same (fun ss _ => ss !! id = Some c) id c); done| |].
    + by intros ss cur [? _].
    + intros [] ss cur H. eexists. by split.
Qed.

Lemma AddRemoteICECandidate_ok Pre id cand : triple Pre (AddRemoteICECandidate id cand) (fun _ => anything).
Proof.
  unfold AddRemoteICECandidate. eapply triple_bind; [apply triple_get|]. intros c. cbv beta.
  eapply triple_bind; [apply triple_time|]. intros now. cbv beta.
  eapply triple_weaken; [apply (triple_put_same (fun ss _ => ss !! id = Some c) id c); done| |done].
  by intros ss cur [? _].
Qed.

(** The two transitions the manager makes. *)
Lemma transition_spec newState c :
  newState = CallStateAccepted \/ newState = CallStateConnecting ->
  transition newState c = mret (Some (c <| State := newState |>)) /\ (rank (State c) < rank newState)%nat /\
    is_ended c = false \/
  exists e, transition newState c = throw e.
Proof.
  unfold transition, is_ended. intros [-> | ->];
    rewrite ?(bool_decide_eq_true_2 _ eq_refl), ?(bool_decide_eq_false_2 (CallStateConnecting = CallStateAccepted)) by done.
  - destruct (bool_decide (State c = CallStateOffered)) eqn:E; cbn [negb]; [|right; by eexists].
    apply bool_decide_eq_true in E. rewrite E. left. split; [done|]. split; [by apply Nat.ltb_lt|done].
  - destruct (bool_decide (State c = CallStateAccepted)) eqn:E; cbn [negb andb].
    + apply bool_decide_eq_true in E. rewrite E. left. split; [done|]. split; [by apply Nat.ltb_lt|done].
    + destruct (bool_decide (State c = CallStateOffered)) eqn:E'; cbn [negb andb]; [|right; by eexists].
      apply bool_decide_eq_true in E'. rewrite E'. left. split; [done|]. split; [by apply Nat.ltb_lt|done].
Qed.

Lemma UpdateState_ok Pre id newState :
  newState = CallStateAccepted \/ newState = CallStateConnecting ->
  triple Pre (UpdateState id newState) (fun _ => live id).
Proof.
  intros Hn. unfold UpdateState. eapply triple_bind; [apply triple_get|]. intros c. cbv beta.
  destruct (transition_spec newState c Hn) as [(-> & Hr & He)|[e ->]].
  2: { intros w w' r Hi Hp [= <- <-]. split; [done|]. by split. }
  eapply triple_bind with (fun changed ss _ => changed = Some (c <| State := newState |>) /\ ss !! id = Some c).
  { intros w w' r Hi [Hp _] [= <- <-]. split; [done|]. split; [done|]. by intros a [= <-]. }
  intros [c'|]; [|by intros w w' r Hi [[=] _]].
  eapply triple_bind with (fun _ ss _ => Some c' = Some (c <| State := newState |>) /\ ss !! id = Some c); [apply triple_time|].
  intros now. cbv beta. intros w w' r Hi [[= ->] Hp]. revert w w' r Hi Hp.
  apply (triple_bind (fun ss _ => ss !! id = Some c) _ _ (fun _ => live id)).
  - eapply triple_weaken; [apply (triple_put (fun ss _ => ss !! id = Some c) id c); [done|]|done|].
    + intros [G1 G2 G3 G4 G5]. assert (is_ended (c <| State := newState |> <| UpdatedAt := now |>) = false) as He'
        by (destruct Hn as [-> | ->]; done).
      split; [|split].
      * constructor; cbn; [done|apply list_elem_of_In; destruct Hn as [-> | ->]; cbn; tauto| |by intros _; apply G4|done].
        rewrite He'. split; [done|]. intros H. apply G3 in H. congruence.
      * constructor; cbn; [done|lia|congruence].
      * by rewrite He', He.
    + intros [] ss cur H. eexists. split; [done|]. by destruct Hn as [-> | ->].
  - intros []. unfold handleStateChanged. case_bool_decide; [apply triple_emit|apply triple_ret].
Qed.

(** A session that has just ended is put back, or removed, and the manager told:
    either the current call is cleared, or the manager is stuck. *)
Lemma handleSessionEnded_inv w w' r c :
  (forall id x, sessions (obj w) !! id = Some x -> session_ok id x) ->
  (stuck (obj w) = false -> currentCallID (obj w) <> "" -> currentCallID (obj w) <> CallID c ->
   exists x, sessions (obj w) !! currentCallID (obj w) = Some x /\ is_ended x = false) ->
  handleSessionEnded c w = (w', r) ->
  Inv (obj w') /\ sessions (obj w') = sessions (obj w) /\ (r = Panic \/ r = Ok tt) /\
  (mu_held (obj w) = true -> r = Panic /\ stuck (obj w') = true /\ mu_held (obj w') = true) /\
  (mu_held (obj w) = false -> stuck (obj w) = false ->
   r = Ok tt /\ mu_held (obj w') = false /\ stuck (obj w') = false /\
   currentCallID (obj w') = if bool_decide (currentCallID (obj w) = CallID c) then "" else currentCallID (obj w)).
Proof.
  intros Hok Hcur. unfold handleSessionEnded, locked, lock, self, clear_current, update, Duration, time_now, emit, update.
  go_run. destruct (mu_held (obj w)) eqn:Eh; cbn.
  - intros [= <- <-]. cbn. split; [done|]. split; [done|]. split; [by left|]. done.
  - case_bool_decide as E; cbn; destruct (stuck (obj w)) eqn:Es; cbn; destruct (ConnectedAt c); cbn;
      intros [= <- <-]; cbn; unfold Inv; cbn; rewrite ?Es, ?Eh; (split; [split; [done|]|]); try done;
      try (intros _ H; by apply Hcur); try (by intros _ []); (split; [done|]); (split; [by right|]); done.
Qed.

Lemma sm_EndCall_ok Pre id reason : triple Pre (sm_EndCall id reason) (fun _ => anything).
Proof.
  unfold sm_EndCall. eapply triple_bind; [apply triple_get|]. intros c. cbv beta.
  destruct (is_ended c) eqn:He.
  { by apply triple_any. }
  intros w w' r Hi [Hc _]. unfold time_now, put_session, update. go_run.
  set (c' := c <| EndedAt := Some (clock (env w) 0%nat) |> <| HangupReason := reason |> <| State := CallStateEnded |>
               <| UpdatedAt := clock (env w) 0%nat |>).
  destruct (proj1 Hi _ _ Hc) as [G1 G2 G3 G4 G5].
  assert (session_ok id c') as Hok'.
  { constructor; [done|apply list_elem_of_In; cbn; tauto| |done|done]. split; [by eexists|done]. }
  intros H. apply handleSessionEnded_inv in H as (Hinv & Hs & _); cbn in *.
  - split; [done|]. split; [|done]. intros i x Hx. rewrite Hs.
    assert (advances c c') as Hadv.
    { constructor; [done| |congruence]. apply list_elem_of_In in G2.
      destruct G2 as [<-|[<-|[<-|[<-|[]]]]]; by apply Nat.leb_le. }
    apply (keeps_put (obj w) id c c' Hc Hadv i x Hx).
  - intros i x. rewrite lookup_insert_Some. intros [[<- <-]|[_ Hx]]; [done|by apply Hi].
  - intros Hst Hcur Hne. rewrite G1 in Hne. rewrite lookup_insert_ne by done. by apply Hi.
Qed.

(** ** Starting, answering and refusing a call *)

(** The next call id is not in use. *)
Definition fresh (w : Sys CallManager) : Prop :=
  forall b, rands (env w) 0%nat = Some b -> sessions (obj w) !! uuid_of (fit 16 b) = None.

Lemma new_session_ok id local remote ty now sdp l r :
  session_ok id (mkCall id local remote ty CallStateOffered now now (now + OfferTimeout) "" sdp [] [] [] l r None None "").
Proof. constructor; [done|left| |done|done]. split; [done|by intros []]. Qed.

Lemma CreateOutgoingCall_ok w remote ty :
  Inv (obj w) -> fresh w ->
  run_ok w (CreateOutgoingCall uuid_of iter remote ty) (fun c ss cur => live (CallID c) ss cur).
Proof.
  intros Hi Hf. unfold CreateOutgoingCall. intros w' r. unfold mbind at 1, GoM_bind at 1, self.
  destruct (existsb _ _); [by intros [= <- <-]|]. unfold mbind at 1, GoM_bind at 1, rand_opt.
  destruct (rands (env w) 0%nat) as [b|] eqn:Eb; cbn [fmap option_fmap option_map]; [|by intros [= <- <-]].
  specialize (Hf b Eb). set (id := uuid_of (fit 16 b)) in *.
  match goal with |- ?m ?w1 = _ -> _ =>
    refine (run_ok_triple w1 (fun ss _ => ss !! id = None) m (fun c ss cur => live (CallID c) ss cur) _ Hi Hf w' r) end.
  eapply triple_bind; [apply triple_time|]. intros now. cbv beta.
  eapply triple_bind; [apply triple_ssrc|]. intros l. cbv beta.
  eapply triple_bind; [apply (triple_put_new (fun ss _ => ss !! id = None)); [done|apply new_session_ok]|].
  intros []. apply triple_value. intros ss cur H. by eexists.
Qed.

Lemma SendOffer_ok w remote ty sdp :
  Inv (obj w) -> fresh w -> run_ok w (SendOffer uuid_of iter remote ty sdp) (fun c ss cur => live (CallID c) ss cur).
Proof.
  intros Hi Hf. unfold SendOffer. intros w' r.
  assert (forall x, (GetActiveSessionWithPeer iter remote x).1 = x) as Hsame.
  { intros x. unfold GetActiveSessionWithPeer, self. go_run. by destruct (filter _ _). }
  specialize (Hsame w). destruct (GetActiveSessionWithPeer iter remote w) as [w1 [x|e|]]; cbn in Hsame; subst w1;
    [by intros [= <- <-]| |by intros [= <- <-]].
  revert w' r. change (run_ok w (session ← wrap "failed to create call session" (CreateOutgoingCall uuid_of iter remote ty);
       _ ← wrap "failed to set local SDP" (SetLocalSDP (CallID session) sdp);
       session ← GetSession (CallID session);
       offerBytes ← lift (wrapErr "failed to marshal offer" (proto_Marshal (ToRTCOffer session)));
       _ ← sendSignalingMessage remote RTC_OFFER offerBytes;
       _ ← log_identity remote;
       mret session) (fun c ss cur => live (CallID c) ss cur)).
  eapply run_ok_bind; [by apply run_ok_wrap, CreateOutgoingCall_ok|]. intros c. cbv beta.
  eapply triple_bind; [apply triple_wrap, SetLocalSDP_ok|]. intros []. cbv beta.
  eapply triple_bind; [apply triple_get|]. intros c'. cbv beta.
  eapply triple_bind; [apply triple_lift|]. intros bytes'. cbv beta.
  eapply triple_bind; [apply triple_send|]. intros []. cbv beta.
  eapply triple_bind; [apply triple_log|]. intros []. cbv beta.
  apply triple_inv, triple_value. intros ss cur [[Hc (x & Hx & He)] Hok]. exists x.
  rewrite Hc in Hx. injection Hx as ->. by rewrite (ok_id _ _ (Hok _ _ Hc)).
Qed.

Lemma StartOutgoingCall_ok w remote ty :
  Inv (obj w) -> fresh w -> run_ok w (StartOutgoingCall uuid_of iter remote ty) (fun _ => anything).
Proof.
  intros Hi Hf. unfold StartOutgoingCall. apply run_ok_locked; [done|].
  set (w1 := mkSys (env w) (obj w <| mu_held := true |>)).
  intros w' r. unfold mbind at 1, GoM_bind at 1, self. destruct (negb _); [by intros [= <- <-]|].
  revert w' r. apply run_ok_bind with (fun c ss cur => live (CallID c) ss cur); [by apply run_ok_wrap, SendOffer_ok|].
  intros c. cbv beta.
  eapply triple_bind; [apply triple_set_current; intros ss cur H; exact H|]. intros []. cbv beta.
  eapply triple_bind; [apply triple_log|]. intros []. cbv beta.
  eapply triple_bind; [apply triple_emit|]. intros []. cbv beta.
  eapply triple_bind with (fun _ => anything); [destruct (_ >? 0); [eapply triple_weaken; [apply triple_spawn with (Pre := anything)|done|done]|by apply triple_any]|].
  intros []. by apply triple_any.
Qed.

Lemma SendHangup_ok Pre id reason : triple Pre (SendHangup id reason) (fun _ => anything).
Proof.
  unfold SendHangup. eapply triple_bind; [apply triple_get|]. intros c. cbv beta.
  eapply triple_bind; [apply triple_lift|]. intros b. cbv beta.
  eapply triple_weaken; [apply triple_send|intros ss cur H; exact H|done].
Qed.

Lemma SendAnswer_ok id sdp : triple (live id) (SendAnswer id sdp) (fun _ => live id).
Proof.
  unfold SendAnswer. eapply triple_bind; [apply triple_get|]. intros c0. cbv beta.
  eapply triple_bind; [apply triple_wrap; eapply triple_weaken; [apply SetLocalSDP_ok|by intros ss cur [_ H]|done]|].
  intros []. eapply triple_bind; [apply triple_get|]. intros c. cbv beta.
  eapply triple_bind; [apply triple_lift|]. intros b. cbv beta.
  eapply triple_weaken; [apply triple_send|intros ss cur H; exact H|]. by intros [] ss cur [_ H].
Qed.

Lemma AnswerIncomingCall_ok Pre id : triple Pre (AnswerIncomingCall id) (fun _ => anything).
Proof.
  unfold AnswerIncomingCall. apply triple_locked. eapply triple_bind; [apply triple_self|]. intros s. cbv beta.
  destruct (negb _); [apply triple_throw|]. eapply triple_bind; [apply triple_get|]. intros c. cbv beta.
  eapply triple_bind; [apply triple_wrap, UpdateState_ok; by left|]. intros []. cbv beta.
  eapply triple_bind; [apply triple_wrap, SendAnswer_ok|]. intros []. cbv beta.
  eapply triple_bind; [apply triple_set_current; intros ss cur H; exact H|]. intros []. cbv beta.
  eapply triple_weaken; [apply triple_emit with (Pre := anything)|done|done].
Qed.

Lemma RejectIncomingCall_ok Pre id reason : triple Pre (RejectIncomingCall id reason) (fun _ => anything).
Proof.
  unfold RejectIncomingCall. eapply triple_bind; [apply triple_get|]. intros c0. cbv beta.
  eapply triple_bind; [eapply triple_ignore, SendHangup_ok|]. intros []. apply triple_wrap, sm_EndCall_ok.
Qed.

Lemma EndCallByID_ok Pre id reason : triple Pre (EndCallByID id reason) (fun _ => anything).
Proof.
  unfold EndCallByID. eapply triple_bind; [eapply triple_ignore, SendHangup_ok|]. intros [].
  eapply triple_bind; [apply triple_wrap, sm_EndCall_ok|]. intros []. apply triple_locked, triple_clear.
Qed.

Lemma locked_current_ok Pre : triple Pre (locked (s ← self; mret (currentCallID s))) (fun _ => anything).
Proof. apply triple_locked. by apply triple_any. Qed.

Lemma EndCall_ok Pre reason : triple Pre (EndCall reason) (fun _ => anything).
Proof.
  unfold EndCall. eapply triple_bind; [apply locked_current_ok|]. intros id.
  case_bool_decide; [apply triple_throw|apply EndCallByID_ok].
Qed.

Lemma SendICECandidate_ok Pre cand mid i : triple Pre (SendICECandidate cand mid i) (fun _ => anything).
Proof.
  unfold SendICECandidate. eapply triple_bind; [apply locked_current_ok|]. intros id.
  case_bool_decide; [apply triple_throw|]. unfold sig_SendICECandidate.
  eapply triple_bind; [apply triple_get|]. intros c. cbv beta.
  eapply triple_bind; [apply triple_lift|]. intros b. cbv beta.
  eapply triple_weaken; [apply triple_send|intros ss cur G; exact G|done].
Qed.

(** ** Messages received *)

Lemma invalid_ok {A} `{!Codec A} Pre what payload : triple Pre (invalid (A := A) what payload) (fun _ => Pre).
Proof. unfold invalid. destruct (unmarshal payload); [apply triple_ret|apply triple_throw]. Qed.

Lemma CreateIncomingCall_ok Pre id remote ty sdp :
  triple Pre (CreateIncomingCall id remote ty sdp) (fun _ => anything).
Proof.
  unfold CreateIncomingCall. eapply triple_bind; [apply triple_self|]. intros s. cbv beta.
  destruct (sessions s !! id) eqn:E; [apply triple_throw|].
  eapply triple_bind; [apply triple_time|]. intros now. cbv beta.
  eapply triple_bind; [apply triple_ssrc|]. intros r. cbv beta.
  eapply triple_bind; [apply triple_ssrc|]. intros l. cbv beta.
  eapply triple_bind; [apply (triple_put_new _ id); [by intros ss cur (-> & _)|apply new_session_ok]|]. intros [].
  eapply triple_bind; [apply triple_log|]. intros []. by apply triple_any.
Qed.

Lemma expected_sender_ok Pre what k c : triple Pre (expected_sender what k c) (fun _ => Pre).
Proof. unfold expected_sender. case_bool_decide; [apply triple_ret|apply triple_throw]. Qed.

Lemma HandleSignalingMessage_ok Pre k ty payload : triple Pre (HandleSignalingMessage k ty payload) (fun _ => anything).
Proof.
  unfold HandleSignalingMessage. repeat case_match; [| | | |apply triple_throw].
  - unfold handleOffer. eapply triple_bind; [apply invalid_ok|]. intros offer. cbv beta.
    eapply triple_bind; [apply triple_wrap, CreateIncomingCall_ok|]. intros c0. cbv beta.
    eapply triple_bind; [apply triple_log|]. intros []. cbv beta. unfold handleIncomingOffer.
    eapply triple_bind; [apply triple_emit|]. intros []. cbv beta.
    eapply triple_bind; [apply triple_self|]. intros s. cbv beta.
    destruct (AutoAnswer _); [|by apply triple_any].
    eapply triple_weaken; [apply triple_spawn with (Pre := anything)|done|done].
  - unfold handleAnswer. eapply triple_bind; [apply invalid_ok|]. intros answer. cbv beta.
    eapply triple_bind; [apply triple_wrap, triple_get|]. intros c. cbv beta.
    eapply triple_ignore, UpdateState_ok. by right.
  - unfold handleICECandidate. eapply triple_bind; [apply invalid_ok|]. intros ice. cbv beta.
    eapply triple_bind; [apply triple_wrap, triple_get|]. intros c. cbv beta.
    eapply triple_bind; [apply expected_sender_ok|]. intros []. apply triple_wrap, AddRemoteICECandidate_ok.
  - unfold handleHangup. eapply triple_bind; [apply invalid_ok|]. intros hangup. cbv beta.
    eapply triple_bind; [apply triple_self|]. intros s. cbv beta.
    destruct (sessions s !! _); [|by apply triple_any].
    eapply triple_bind; [apply expected_sender_ok|]. intros [].
    eapply triple_bind; [eapply triple_ignore, sm_EndCall_ok|]. intros [].
    apply triple_locked, triple_clear.
Qed.

Lemma run_task_ok Pre t : triple Pre (run_task t) (fun _ => anything).
Proof.
  destruct t; cbn; eapply triple_ignore; [apply AnswerIncomingCall_ok|apply EndCallByID_ok].
Qed.
End Operations.

(** ** Expiry and shutdown *)

Section Expiry.
Context `{P : Primitives} `{!Codec RTCOffer} `{!Codec RTCAnswer} `{!Codec RTCIceCandidate} `{!Codec RTCHangup}.
Variable uuid_of : bytes -> string.
Variable iter : sessions_t -> list CallSession.
Hypothesis Hiter : forall m, Permutation (iter m) (map_to_list m).*2.

Lemma elem_of_iter m c : c ∈ iter m <-> exists id, m !! id = Some c.
Proof.
  rewrite Hiter, list_elem_of_fmap. split.
  - intros ([id x] & -> & H). exists id. by apply elem_of_map_to_list in H.
  - intros [id H]. exists (id, c). split; [done|]. by apply elem_of_map_to_list.
Qed.

(** An offer that is due at [now]. *)
Definition due (now : Z) (c : CallSession) : Prop := State c = CallStateOffered /\ ExpiresAt c < now.
#[export] Instance due_dec now c : Decision (due now c).
Proof. unfold due. apply _. Defined.

(** A round of the cleanup over [l]: what is due is deleted, nothing else; it is
    cut short only by a held mutex. *)
Lemma expire_each now l w w' r :
  Inv (obj w) -> (forall c, c ∈ l -> session_ok (CallID c) c) -> each (expire now) l w = (w', r) ->
  Inv (obj w') /\ sessions (obj w') ⊆ sessions (obj w) /\
  (forall id c, sessions (obj w) !! id = Some c -> sessions (obj w') !! id = None ->
     exists x, x ∈ l /\ CallID x = id /\ due now x) /\
  (mu_held (obj w) = false -> stuck (obj w) = false ->
     r = Ok tt /\ mu_held (obj w') = false /\ stuck (obj w') = false /\
     forall x, x ∈ l -> due now x -> sessions (obj w') !! CallID x = None).
Proof.
  revert w; induction l as [|x l IH]; intros w Hi Hl; cbn [each].
  - intros [= <- <-]. split; [done|]. split; [done|]. split; [congruence|].
    intros Hh Hs. split; [done|]. split; [done|]. split; [done|]. by intros x ?%not_elem_of_nil.
  - unfold mbind at 1, GoM_bind at 1. unfold expire at 1.
    destruct (bool_decide (State x = CallStateOffered) && (ExpiresAt x <? now)) eqn:Ed.
    + assert (due now x) as Hd.
      { apply andb_true_iff in Ed as [E1 E2]. apply bool_decide_eq_true in E1. apply Z.ltb_lt in E2. by split. }
      unfold update at 1. unfold mbind at 1, GoM_bind at 1.
      set (x' := x <| State := CallStateEnded |> <| HangupReason := HangupTimeout |> <| EndedAt := Some now |>).
      set (w1 := mkSys (env w) (obj w <| sessions := delete (CallID x') (sessions (obj w)) |>)).
      destruct (handleSessionEnded x' w1) as [w2 r2] eqn:E.
      apply handleSessionEnded_inv in E as (Hi2 & Hs2 & Hr2 & _ & Hok2).
      2: { intros id c. cbn. rewrite lookup_delete_Some. intros [_ Hc]. by apply Hi. }
      2: { cbn. intros Hst Hcur Hne. rewrite lookup_delete_ne by done. by apply Hi. }
      change (CallID x') with (CallID x) in *. cbn in Hs2, Hok2.
      destruct Hr2 as [-> | ->].
      * intros [= <- <-]. split; [done|]. rewrite Hs2. split; [apply delete_subseteq|]. split.
        -- intros id c Hc. rewrite lookup_delete_None. intros [<-|?]; [|congruence]. exists x. split; [left|by split].
        -- intros Hh Hs. by destruct (Hok2 Hh Hs) as [[=] _].
      * intros H. destruct (IH w2 Hi2 ltac:(intros c Hc; apply Hl; by right) H) as (Hi3 & Hsub & Hdel & Hdone).
        split; [done|]. rewrite Hs2 in Hsub. split; [etrans; [exact Hsub|apply delete_subseteq]|]. split.
        -- intros id c Hc Hn. destruct (decide (CallID x = id)) as [<-|Hne]; [exists x; split; [left|by split]|].
           destruct (Hdel id c) as (y & Hy & ?); [by rewrite Hs2, lookup_delete_ne|done|].
           exists y. split; [by right|done].
        -- intros Hh Hs. destruct (Hok2 Hh Hs) as (_ & Hh2 & Hst2 & _).
           destruct (Hdone Hh2 Hst2) as (Hr & Hh3 & Hst3 & Hgone). do 3 (split; [done|]).
           intros y [->|Hy]%elem_of_cons Hdy; [|by apply Hgone].
           apply not_elem_of_dom. intros Hin. apply (subseteq_dom _ _ Hsub) in Hin.
           by rewrite dom_delete, elem_of_difference, not_elem_of_singleton in Hin; destruct Hin.
    + intros H. destruct (IH w Hi ltac:(intros c Hc; apply Hl; by right) H) as (Hi3 & Hsub & Hdel & Hdone).
      split; [done|]. split; [done|]. split.
      * intros id c Hc Hn. destruct (Hdel id c Hc Hn) as (y & Hy & ?). exists y. split; [by right|done].
      * intros Hh Hs. destruct (Hdone Hh Hs) as (Hr & Hh' & Hs' & Hgone). do 3 (split; [done|]).
        intros y [->|Hy]%elem_of_cons Hd; [|by apply Hgone]. exfalso. destruct Hd as [E1 E2].
        rewrite bool_decide_eq_true_2 in Ed by done. apply Z.ltb_lt in E2. by rewrite E2 in Ed.
Qed.

(** One tick: what is due is gone, everything else is as it was. *)
Lemma tick_ok w w' r :
  Inv (obj w) -> cleanupExpiredOffers iter w = (w', r) ->
  Inv (obj w') /\
  (forall id c, sessions (obj w) !! id = Some c ->
     sessions (obj w') !! id = Some c \/ sessions (obj w') !! id = None /\ due (clock (env w) 0%nat) c) /\
  (mu_held (obj w) = false -> stuck (obj w) = false ->
     r = Ok tt /\ mu_held (obj w') = false /\ stuck (obj w') = false /\
     forall id c, sessions (obj w') !! id = Some c -> ~ due (clock (env w) 0%nat) c).
Proof.
  intros Hi. unfold cleanupExpiredOffers, time_now, self. unfold mbind at 1 2, GoM_bind at 1 2.
  set (now := clock (env w) 0%nat). set (w1 := mkSys _ (obj w)). intros H.
  assert (forall c, c ∈ iter (sessions (obj w)) -> session_ok (CallID c) c) as Hl.
  { intros c [id Hc]%elem_of_iter. apply Hi in Hc. by destruct (ok_id _ _ Hc). }
  destruct (expire_each now _ w1 w' r Hi Hl H) as (Hi' & Hsub & Hdel & Hdone). cbn in *.
  split; [done|]. split.
  - intros id c Hc. destruct (sessions (obj w') !! id) as [c'|] eqn:E.
    + left. pose proof (lookup_weaken _ _ _ _ E Hsub) as Hc'. congruence.
    + right. split; [done|]. destruct (Hdel id c Hc E) as (x & [i Hx]%elem_of_iter & Hid & Hd).
      rewrite <- Hid in Hc. rewrite (ok_id _ _ (proj1 Hi _ _ Hx)), Hx in Hc. by injection Hc as <-.
  - intros Hh Hs. destruct (Hdone Hh Hs) as (Hr & Hh' & Hs' & Hgone). do 3 (split; [done|]).
    intros id c Hc Hd. pose proof (lookup_weaken _ _ _ _ Hc Hsub) as Hc0.
    assert (c ∈ iter (sessions (obj w))) as Hin by (apply elem_of_iter; by exists id).
    pose proof (Hgone c Hin Hd) as Hn. rewrite (ok_id _ _ (proj1 Hi _ _ Hc0)) in Hn. congruence.
Qed.

(** [Stop] with a call that is not over: ending it calls back into the manager,
    whose mutex [Stop] holds. *)
Definition stop_one (session : CallSession) : M unit :=
  _ ← ignore (SendHangup (CallID session) HangupNormal);
  ignore (sm_EndCall (CallID session) HangupNormal).

Lemma SendHangup_obj id reason w :
  sessions (obj (SendHangup id reason w).1) = sessions (obj w) /\
  mu_held (obj (SendHangup id reason w).1) = mu_held (obj w) /\
  forall c, sessions (obj w) !! id = Some c -> (8 <= length (RemoteIdentity c))%nat -> (SendHangup id reason w).2 <> Panic.
Proof.
  unfold SendHangup, GetSession, self, sendSignalingMessage, log_identity, update. go_run.
  destruct (sessions (obj w) !! id) as [c|]; cbn; [|done].
  destruct (proto_Marshal _) as [b| |] eqn:Eb; cbn; [| |unfold proto_Marshal, ext in Eb; by destruct (marshal _)].
  - destruct (length (RemoteIdentity c) <=? 7)%nat eqn:El; cbn; (split; [done|]); (split; [done|]); [|done].
    intros ? [= <-] Hle. apply Nat.leb_le in El. lia.
  - done.
Qed.

Lemma stop_one_stuck w c :
  Inv (obj w) ->
  mu_held (obj w) = true -> sessions (obj w) !! CallID c = Some c -> is_ended c = false ->
  exists w', stop_one c w = (w', Panic) /\ ((8 <= length (RemoteIdentity c))%nat -> stuck (obj w') = true /\ mu_held (obj w') = true).
Proof.
  intros Hi Hh Hc He. unfold stop_one. unfold mbind at 1, GoM_bind at 1. unfold ignore at 1.
  destruct (SendHangup_obj (CallID c) HangupNormal w) as (Hs & Hm & Hp). specialize (Hp c Hc).
  destruct (SendHangup (CallID c) HangupNormal w) as [w1 r1] eqn:ES. cbn [fst snd] in *.
  apply (SendHangup_ok anything) in ES as (Hi1 & _); [|done..].
  assert (exists w', ignore (sm_EndCall (CallID c) HangupNormal) w1 = (w', Panic) /\ stuck (obj w') = true /\ mu_held (obj w') = true)
    as (w' & Hw & Hst).
  { unfold ignore, sm_EndCall, GetSession, self, time_now, put_session, update. go_run. rewrite Hs, Hc. go_run.
    rewrite He. go_run.
    match goal with |- exists w', (let (_, _) := ?m in _) = _ /\ _ => destruct m as [w2 r2] eqn:E end.
    apply handleSessionEnded_inv in E as (_ & _ & _ & Hpan & _); cbn in *.
    - destruct Hpan as (-> & Hst); [congruence|]. by exists w2.
    - intros id x. rewrite lookup_insert_Some. intros [[<- <-]|[_ Hx]]; [|by apply Hi1].
      destruct (proj1 Hi _ _ Hc) as [G1 G2 G3 G4 G5]. constructor; [done|apply list_elem_of_In; cbn; tauto| |done|done].
      split; [by eexists|done].
    - intros Hst Hcur Hne. rewrite lookup_insert_ne by done. by apply Hi1. }
  destruct r1; [rewrite Hw; by exists w'..|]. exists w1. split; [done|]. intros Hle. by destruct (Hp Hle).
Qed.

Lemma active_elem s c :
  c ∈ active_sessions iter s <-> is_ended c = false /\ exists id, sessions s !! id = Some c.
Proof. unfold active_sessions. rewrite list_elem_of_filter, elem_of_iter. done. Qed.

(** The sessions are all over: the loop of [sm_Stop] does nothing. *)
Lemma sm_Stop_idle w : active_sessions iter (obj w) = [] -> sm_Stop iter w = (w, Ok tt).
Proof.
  intros Ha. unfold sm_Stop, self. unfold mbind at 1, GoM_bind at 1.
  assert (forall c, c ∈ iter (sessions (obj w)) -> is_ended c = true) as Hl.
  { intros c Hc. destruct (is_ended c) eqn:E; [done|]. assert (c ∈ active_sessions iter (obj w)) as H.
    { apply active_elem. split; [done|]. by apply elem_of_iter. } rewrite Ha in H. by apply not_elem_of_nil in H. }
  induction (iter (sessions (obj w))) as [|c l IH]; [done|]. cbn [each]. rewrite Hl by left.
  apply IH. intros y Hy. apply Hl. by right.
Qed.

(** [Stop] holds the mutex while it runs this. *)
Definition stop_body : M unit :=
  sessions ← GetAllActiveSessions iter;
  _ ← each stop_one sessions;
  sm_Stop iter.

Lemma stop_body_spec w :
  Inv (obj w) -> mu_held (obj w) = true ->
  match active_sessions iter (obj w) with
  | [] => stop_body w = (w, Ok tt)
  | c :: l => exists w', stop_body w = (w', Panic) /\ each stop_one (c :: l) w = (w', Panic) /\
                ((8 <= length (RemoteIdentity c))%nat -> stuck (obj w') = true /\ mu_held (obj w') = true)
  end.
Proof.
  intros Hi Hh. destruct (active_sessions iter (obj w)) as [|c l] eqn:Ea;
    unfold stop_body, GetAllActiveSessions, self; go_run; rewrite Ea; cbn [each].
  - by apply sm_Stop_idle.
  - assert (c ∈ active_sessions iter (obj w)) as Hin by (rewrite Ea; left).
    apply active_elem in Hin as (He & id & Hid).
    pose proof (ok_id _ _ (proj1 Hi _ _ Hid)) as Hcid. rewrite <- Hcid in Hid.
    destruct (stop_one_stuck w c Hi Hh Hid He) as (w' & Hw & Hst). unfold mbind, GoM_bind. rewrite Hw. by exists w'.
Qed.

Lemma stop_one_ok Pre c : triple Pre (stop_one c) (fun _ => anything).
Proof.
  unfold stop_one. eapply triple_bind; [eapply triple_ignore, SendHangup_ok|]. intros [].
  eapply triple_ignore, sm_EndCall_ok.
Qed.

Lemma Stop_ok Pre : triple Pre (Stop iter) (fun _ => anything).
Proof.
  change (Stop iter) with (locked stop_body). intros w w' r Hi _. unfold locked, lock, self, update. go_run.
  destruct (mu_held (obj w)) eqn:Hh.
  - intros [= <- <-]. split; [split; [apply Hi|done]|]. split; [|done]. intros id c H. exists c. by split.
  - set (w1 := mkSys (env w) (obj w <| mu_held := true |>)).
    pose proof (stop_body_spec w1 Hi eq_refl) as Hb.
    destruct (active_sessions iter (obj w1)) as [|c l] eqn:Ea.
    + rewrite Hb. cbn. destruct (stuck (obj w)); intros [= <- <-]; (split; [exact Hi|]); (split; [|done]);
        intros id c H; exists c; by split.
    + destruct Hb as (w2 & Hb & E & _). rewrite Hb.
      destruct (triple_each anything stop_one (c :: l)) with (w := w1) (w' := w2) (r := @Panic unit) as (H1 & H2 & _);
        [intros; eapply triple_weaken; [apply stop_one_ok with (Pre := anything)|done|done]|exact Hi|done|exact E|].
      intros [= <- <-]. by destruct (stuck (obj w2)).
Qed.

(** Stopping with a call blocks for ever.  With no call that is not over
    [Stop] succeeds and changes nothing.  With one, [Stop] blocks on its own mutex
    (ending the first such call runs the manager's handler, which locks it), and
    from then on the mutex is never free: whatever needs it blocks too. *)
Theorem Stop_blocks w :
  Inv (obj w) -> mu_held (obj w) = false -> stuck (obj w) = false ->
  (forall id c, sessions (obj w) !! id = Some c -> (8 <= length (RemoteIdentity c))%nat) ->
  ((forall id c, sessions (obj w) !! id = Some c -> is_ended c = true) ->
     exists w', Stop iter w = (w', Ok tt) /\ obj w' = obj w) /\
  ((exists id c, sessions (obj w) !! id = Some c /\ is_ended c = false) ->
     exists w', Stop iter w = (w', Panic) /\ stuck (obj w') = true /\
       (forall A (m : M A), (locked m w').2 = Panic) /\
       forall remote ty id reason,
         (StartOutgoingCall uuid_of iter remote ty w').2 = Panic /\ (AnswerIncomingCall id w').2 = Panic /\
         (EndCall reason w').2 = Panic /\ (IsInCall w').2 = Panic).
Proof.
  intros Hi Hh Hs Hlen. change (Stop iter) with (locked stop_body).
  set (w1 := mkSys (env w) (obj w <| mu_held := true |>)).
  pose proof (stop_body_spec w1 Hi eq_refl) as Hb. change (active_sessions iter (obj w1)) with (active_sessions iter (obj w)) in Hb.
  assert (forall A (m : M A), locked m w = (let '(w2, r) := m w1 in
            (if stuck (obj w2) then w2 else mkSys (env w2) (obj w2 <| mu_held := false |>), r))) as Hlock.
  { intros A m. unfold locked, lock, self, update. go_run. by rewrite Hh. }
  split.
  - intros Hall. destruct (active_sessions iter (obj w)) as [|c l] eqn:Ea.
    + rewrite Hlock, Hb. eexists. split; [reflexivity|]. cbn. rewrite Hs. cbn. destruct (obj w); cbn in *. by subst.
    + assert (c ∈ active_sessions iter (obj w)) as Hin by (rewrite Ea; left).
      apply active_elem in Hin as (He & id & Hid). rewrite (Hall _ _ Hid) in He. done.
  - intros (id & c & Hid & He). destruct (active_sessions iter (obj w)) as [|c' l] eqn:Ea.
    { assert (c ∈ active_sessions iter (obj w)) as Hin by (apply active_elem; by eauto).
      rewrite Ea in Hin. by apply not_elem_of_nil in Hin. }
    destruct Hb as (w2 & Hb & _ & Hst).
    assert (c' ∈ active_sessions iter (obj w)) as Hin by (rewrite Ea; left).
    apply active_elem in Hin as (_ & id' & Hid'). destruct (Hst (Hlen _ _ Hid')) as [Hst2 Hh2].
    rewrite Hlock, Hb. cbn. rewrite Hst2. exists w2. split; [done|]. split; [done|].
    assert (forall A (m : M A), (locked m w2).2 = Panic) as Hblock.
    { intros A m. unfold locked, lock, self, update. go_run. by rewrite Hh2. }
    split; [done|]. intros remote ty i reason. do 2 (split; [apply Hblock|]). split; [|apply Hblock].
    unfold EndCall. unfold mbind at 1, GoM_bind at 1. pose proof (Hblock _ (s ← self; mret (currentCallID s))) as Hbl.
    destruct (locked _ w2) as [w3 r3]. cbn in Hbl. by rewrite Hbl.
Qed.
End Expiry.
