(* ===== verification/CallSteps.v ===== *)
(** * pkg/rtc: runs of a call manager

    Everything that can happen to a [CallManager] as one step relation: calls of
    the user, messages from anyone, ticks of the cleanup, goroutines that get
    their turn.  The life cycle of calls is an invariant of all runs; an offer
    does not stay one for ever; and what a message may do depends on its sender
    only for two of the four kinds of message. *)
From S2P Require Import Prelude Primitives Crypto Proto Runtime Calls CallProps.

(** What the user of the manager may call, and what arrives from outside. *)
Inductive Op :=
  | OpStart (remote : bytes) (callType : string)
  | OpAnswer (callID : string)
  | OpReject (callID reason : string)
  | OpEnd (reason : string)
  | OpEndByID (callID reason : string)
  | OpICE (candidate sdpMid : string) (mlineIdx : Z)
  | OpMessage (sender : bytes) (messageType : Z) (payload : bytes)
  | OpStop.

Section Steps.
Context `{P : Primitives} `{!Codec RTCOffer} `{!Codec RTCAnswer} `{!Codec RTCIceCandidate} `{!Codec RTCHangup}.
Variable uuid_of : bytes -> string.
Variable iter : sessions_t -> list CallSession.

(** Running an operation and dropping its result. *)
Definition run_op (op : Op) (w : Sys CallManager) : Sys CallManager :=
  match op with
  | OpStart remote callType => (StartOutgoingCall uuid_of iter remote callType w).1
  | OpAnswer callID => (AnswerIncomingCall callID w).1
  | OpReject callID reason => (RejectIncomingCall callID reason w).1
  | OpEnd reason => (EndCall reason w).1
  | OpEndByID callID reason => (EndCallByID callID reason w).1
  | OpICE candidate sdpMid mlineIdx => (SendICECandidate candidate sdpMid mlineIdx w).1
  | OpMessage sender messageType payload => (HandleSignalingMessage sender messageType payload w).1
  | OpStop => (Stop iter w).1
  end.

(** The uuid drawn for a new call is not in use: a uuid is unique. *)
Inductive step : Sys CallManager -> Sys CallManager -> Prop :=
  | step_op op w : fresh uuid_of w -> step w (run_op op w)
  | step_tick w : step w (cleanupExpiredOffers iter w).1
  | step_task w l t l' : tasks (obj w) = l ++ t :: l' ->
      step w (run_task t (mkSys (env w) (obj w <| tasks := l ++ l' |>))).1.

Hypothesis Hiter : forall m, Permutation (iter m) (map_to_list m).*2.

Lemma run_fst {A} (m : GoM (Sys CallManager) A) w : m w = ((m w).1, (m w).2).
Proof. apply surjective_pairing. Qed.

Lemma triple_run {A} (m : GoM (Sys CallManager) A) w :
  triple anything m (fun _ => anything) -> Inv (obj w) -> Inv (obj (m w).1) /\ keeps (obj w) (obj (m w).1).
Proof. intros Hm Hi. by destruct (Hm w _ _ Hi I (run_fst m w)) as (? & ? & _). Qed.

Lemma run_op_ok op w :
  fresh uuid_of w -> Inv (obj w) -> Inv (obj (run_op op w)) /\ keeps (obj w) (obj (run_op op w)).
Proof.
  intros Hf Hi. destruct op; cbn [run_op].
  1: by destruct (StartOutgoingCall_ok uuid_of iter w remote callType Hi Hf _ _ (run_fst _ w)) as (? & ? & _).
  all: apply triple_run; [|done].
  - apply AnswerIncomingCall_ok.
  - apply RejectIncomingCall_ok.
  - apply EndCall_ok.
  - apply EndCallByID_ok.
  - apply SendICECandidate_ok.
  - apply HandleSignalingMessage_ok.
  - by apply Stop_ok.
Qed.

(** What a step does to a call: it is kept and advances, or it was an unanswered
    offer that is past its time, and is removed. *)
Definition evolves (w w' : Sys CallManager) : Prop :=
  forall id c, sessions (obj w) !! id = Some c ->
    (exists c', sessions (obj w') !! id = Some c' /\ advances c c') \/
    (sessions (obj w') !! id = None /\ due (clock (env w) 0%nat) c).

Lemma step_ok w w' : step w w' -> Inv (obj w) -> Inv (obj w') /\ evolves w w'.
Proof.
  intros [op w0 Hf|w0|w0 l t l' Ht] Hi.
  - destruct (run_op_ok op w0 Hf Hi) as [Hi' Hk]. split; [done|]. intros id c Hc. left. by apply Hk.
  - destruct (tick_ok iter Hiter w0 _ _ Hi (run_fst _ w0)) as (Hi' & Hk & _). split; [done|]. intros id c Hc.
    destruct (Hk id c Hc) as [H|H]; [left; by exists c|by right].
  - set (w1 := mkSys (env w0) (obj w0 <| tasks := l ++ l' |>)).
    destruct (triple_run (run_task t) w1 (run_task_ok anything t) Hi) as [Hi' Hk].
    split; [done|]. intros id c Hc. left. by apply Hk.
Qed.

Lemma Inv_init k cfg e : Inv (obj (mkSys e (NewCallManager k cfg))).
Proof. split; cbn; [intros id c; by rewrite lookup_empty|by intros _ []]. Qed.

Lemma rtc_Inv w w' : rtc step w w' -> Inv (obj w) -> Inv (obj w').
Proof. induction 1 as [|w w1 w2 Hs _ IH]; [done|]. intros Hi. apply IH. by apply (step_ok _ _ Hs). Qed.

(** C8. The life of a call.  In every state that a new manager reaches by calls
    of the user, messages from anyone, cleanups and goroutines: a session is
    offered, accepted, connecting or ended, never active; it has an end exactly
    when it ended and a hangup reason only then; and the current call, unless the
    manager is stuck, is one that has not ended.  A further step keeps each call,
    with the same parties and times, in the same or a later state, and changes
    nothing about how an ended one ended; only an offer past its time disappears. *)
Theorem call_lifecycle k cfg e w w' :
  rtc step (mkSys e (NewCallManager k cfg)) w -> step w w' -> Inv (obj w) /\ Inv (obj w') /\ evolves w w'.
Proof.
  intros Hr Hs. pose proof (rtc_Inv _ _ Hr (Inv_init k cfg e)) as Hi.
  destruct (step_ok _ _ Hs Hi). done.
Qed.

(** ** Liveness *)

(** C37. An offer does not last.  In every infinite run in which the cleanup comes
    round again and again, with the mutex free and the clock past any time, every
    offer comes to an end: at some later point the call is gone or no longer
    offered. *)
Theorem offer_ends (run : nat -> Sys CallManager) :
  Inv (obj (run 0%nat)) -> (forall i, step (run i) (run (S i))) ->
  (forall i t, exists j, (i <= j)%nat /\ run (S j) = (cleanupExpiredOffers iter (run j)).1 /\
     t < clock (env (run j)) 0%nat /\ mu_held (obj (run j)) = false /\ stuck (obj (run j)) = false) ->
  forall i id c, sessions (obj (run i)) !! id = Some c -> State c = CallStateOffered ->
  exists j, (i < j)%nat /\ match sessions (obj (run j)) !! id with Some c' => State c' <> CallStateOffered | None => True end.
Proof.
  intros H0 Hstep Hfair i id c Hc Ho.
  assert (forall j, Inv (obj (run j))) as Hinv.
  { intros j. induction j as [|j IH]; [done|]. by apply (step_ok _ _ (Hstep j)). }
  destruct (Hfair i (ExpiresAt c)) as (j & Hij & Htick & Ht & Hh & Hs).
  assert (forall n, (exists j', (i < j' <= i + n)%nat /\ sessions (obj (run j')) !! id = None) \/
            exists c', sessions (obj (run (i + n)%nat)) !! id = Some c' /\ advances c c') as Hkeep.
  { intros n. induction n as [|n IH]; [right; exists c; by rewrite Nat.add_0_r|].
    destruct IH as [(j' & Hj' & Hn)|(c' & Hc' & Ha)]; [left; exists j'; split; [lia|done]|].
    replace (i + S n)%nat with (S (i + n)) by lia.
    destruct (proj2 (step_ok _ _ (Hstep (i + n)%nat) (Hinv _)) id c' Hc') as [(c2 & Hc2 & Ha2)|[Hn _]].
    - right. exists c2. split; [done|]. by etrans.
    - left. exists (S (i + n)). split; [lia|done]. }
  destruct (Hkeep (j - i)%nat) as [(j' & Hj' & Hn)|(c' & Hc' & Ha)].
  { exists j'. split; [lia|]. by rewrite Hn. }
  replace (i + (j - i))%nat with j in Hc' by lia. exists (S j). split; [lia|].
  destruct (sessions (obj (run (S j))) !! id) as [c2|] eqn:E2; [|done]. intros Ho2.
  rewrite Htick in E2. destruct (tick_ok iter Hiter (run j) _ _ (Hinv j) (run_fst _ _)) as (_ & Hk & Hlast).
  destruct (Hlast Hh Hs) as (_ & _ & _ & Hno). apply (Hno id c2 E2). split; [done|].
  destruct (Hk id c' Hc') as [E|[E _]]; [|congruence]. rewrite E in E2. injection E2 as <-.
  destruct (adv_same _ _ Ha) as (_ & _ & _ & _ & _ & ->). done.
Qed.

(** ** Who may send what *)

#[local] Arguments transition : simpl never.

(** Answers are not checked against their sender.  For a known call, an ICE
    candidate or a hangup from anyone but the other party is refused and changes
    nothing.  An answer from {e anyone}, the caller of a call that nobody has
    accepted included, puts an offered or accepted call into the connecting state,
    and the description it carries is dropped. *)
Theorem answers_unchecked w id c sender payload :
  sessions (obj w) !! id = Some c ->
  (forall ice, sender <> RemoteIdentity c -> unmarshal payload = Some ice -> ic_CallId ice = id ->
     HandleSignalingMessage sender RTC_ICE_CANDIDATE payload w =
       (w, Err (ErrWrap "ICE candidate from unexpected sender" ErrInvalidSignalingMessage))) /\
  (forall hangup, sender <> RemoteIdentity c -> unmarshal payload = Some hangup -> hu_CallId hangup = id ->
     HandleSignalingMessage sender RTC_HANGUP payload w =
       (w, Err (ErrWrap "hangup from unexpected sender" ErrInvalidSignalingMessage))) /\
  (forall answer, unmarshal payload = Some answer -> an_CallId answer = id ->
     State c = CallStateOffered \/ State c = CallStateAccepted ->
     exists w', HandleSignalingMessage sender RTC_ANSWER payload w = (w', Ok tt) /\
       exists c', sessions (obj w') !! id = Some c' /\ State c' = CallStateConnecting /\
         RemoteSDP c' = RemoteSDP c).
Proof.
  intros Hc. unfold HandleSignalingMessage. cbn [RTC_ICE_CANDIDATE RTC_HANGUP RTC_ANSWER RTC_OFFER Z.eqb Pos.eqb].
  split; [|split].
  - intros ice Hs Hu <-. cbn. unfold handleICECandidate, invalid, GetSession, self, expected_sender. rewrite Hu. go_run.
    rewrite Hc. go_run. rewrite bool_decide_eq_false_2; [done|]. by intros ?%(inj hex).
  - intros hangup Hs Hu <-. cbn. unfold handleHangup, invalid, self, expected_sender. rewrite Hu. go_run.
    rewrite Hc. go_run. rewrite bool_decide_eq_false_2; [done|]. by intros ?%(inj hex).
  - intros answer Hu <- Hst. cbn. unfold handleAnswer, invalid. rewrite Hu. unfold handleIncomingAnswer, ignore, UpdateState.
    assert (transition CallStateConnecting c = mret (Some (c <| State := CallStateConnecting |>))) as Ht.
    { destruct (transition_spec CallStateConnecting c (or_intror eq_refl)) as [(? & _)|[e He]]; [done|].
      apply (f_equal (fun m => (m w).2)) in He. unfold transition in He. by destruct Hst as [E|E]; rewrite E in He. }
    unfold GetSession, self, time_now, put_session, update. go_run. rewrite Hc. go_run. rewrite Hc. go_run. rewrite Ht. go_run.
    eexists. split; [reflexivity|]. cbn. rewrite lookup_insert_eq. eexists. split; [reflexivity|]. done.
Qed.
End Steps.

(** ** Concrete runs *)
Module CallDemo.
#[export] Instance offer_codec : Codec RTCOffer :=
  {| marshal m := Some (str (of_CallId m)); unmarshal b := Some (mkOffer "sdp" (String.string_of_list_byte b) true) |}.
#[export] Instance answer_codec : Codec RTCAnswer :=
  {| marshal m := Some (str (an_CallId m)); unmarshal b := Some (mkAnswer "sdp" (String.string_of_list_byte b)) |}.
#[export] Instance ice_codec : Codec RTCIceCandidate :=
  {| marshal m := Some (str (ic_CallId m)); unmarshal b := Some (mkIce "candidate" "0" 0 (String.string_of_list_byte b)) |}.
#[export] Instance hangup_codec : Codec RTCHangup :=
  {| marshal m := Some (str (hu_CallId m)); unmarshal b := Some (mkHangup (String.string_of_list_byte b) "bye") |}.

Definition iter (m : sessions_t) : list CallSession := (map_to_list m).*2.
Lemma iter_perm m : Permutation (iter m) (map_to_list m).*2.
Proof. done. Qed.

(** A clock that advances a hundred seconds with every reading. *)
Definition env0 : Env :=
  mkEnvironment (fun i => Some (le_encode 32 (50 + Z.of_nat i))) (fun i => 100 * Second * Z.of_nat i).
Definition alice : bytes := le_encode 32 11.
Definition bob : bytes := le_encode 32 12.
Definition idle : Sys CallManager := mkSys env0 (NewCallManager alice None).
(** Bob calls Alice. *)
Definition ringing : Sys CallManager := run_op hex iter (OpMessage bob RTC_OFFER (str "call-1")) idle.
Definition quiet (i : nat) : Sys CallManager := Nat.iter i (fun w => (cleanupExpiredOffers iter w).1) ringing.
End CallDemo.
Import CallDemo.

Lemma call_lifecycle_witness :
  rtc (step hex iter) idle ringing /\ step hex iter ringing (run_op hex iter (OpAnswer "call-1") ringing) /\
  evolves ringing (run_op hex iter (OpAnswer "call-1") ringing) /\
  State <$> (sessions (obj (run_op hex iter (OpAnswer "call-1") ringing)) !! "call-1") = Some CallStateAccepted.
Proof.
  assert (rtc (step hex iter) idle ringing) as Hr.
  { apply rtc_once. apply (step_op hex iter (OpMessage bob RTC_OFFER (str "call-1")) idle). intros b _. apply lookup_empty. }
  assert (step hex iter ringing (run_op hex iter (OpAnswer "call-1") ringing)) as Hs.
  { apply step_op. intros b Hb. assert (b = default [] (rands (env ringing) 0%nat)) as -> by by rewrite Hb.
    vm_compute. reflexivity. }
  split; [exact Hr|]. split; [exact Hs|]. split; [|vm_compute; reflexivity].
  exact (proj2 (proj2 (call_lifecycle hex iter iter_perm alice None env0 _ _ Hr Hs))).
Defined.

Lemma answers_unchecked_witness :
  (exists w', HandleSignalingMessage bob RTC_ANSWER (str "call-1") ringing = (w', Ok tt) /\
     State <$> (sessions (obj w') !! "call-1") = Some CallStateConnecting) /\
  HandleSignalingMessage alice RTC_HANGUP (str "call-1") ringing =
    (ringing, Err (ErrWrap "hangup from unexpected sender" ErrInvalidSignalingMessage)).
Proof.
  assert ((fun c => (RemoteIdentity c, State c)) <$> (sessions (obj ringing) !! "call-1") = Some (bob, CallStateOffered))
    as H by (vm_compute; reflexivity).
  revert H. generalize ringing. intros w H. destruct (sessions (obj w) !! "call-1") as [c|] eqn:Ec; [|discriminate H].
  apply (inj Some) in H. pose proof (f_equal fst H) as Hr. pose proof (f_equal snd H) as Hst. cbn [fst snd] in Hr, Hst.
  assert (String.string_of_list_byte (str "call-1") = "call-1") as Hid by reflexivity.
  destruct (answers_unchecked w "call-1" c bob (str "call-1") Ec) as (_ & _ & Ha).
  destruct (answers_unchecked w "call-1" c alice (str "call-1") Ec) as (_ & Hh & _). split.
  - destruct (Ha _ eq_refl Hid (or_introl Hst)) as (w' & Hw & c' & Hc' & Hs & _).
    exists w'. split; [exact Hw|]. rewrite Hc'. cbn. by rewrite Hs.
  - refine (Hh _ _ eq_refl Hid). rewrite Hr. vm_compute. discriminate.
Defined.

Lemma Stop_blocks_witness :
  (exists w', Stop iter idle = (w', Ok tt)) /\
  (exists w', Stop iter ringing = (w', Panic) /\ stuck (obj w') = true /\ (IsInCall w').2 = Panic).
Proof.
  assert (Inv (obj idle)) as Hidle by apply Inv_init.
  assert (Inv (obj ringing)) as Hring.
  { apply (run_op_ok hex iter iter_perm (OpMessage bob RTC_OFFER (str "call-1")) idle); [|done].
    intros b _. apply lookup_empty. }
  split.
  - assert (forall id c, sessions (obj idle) !! id = Some c -> False) as Hno
      by (intros id c; change ((∅ : sessions_t) !! id = Some c -> False); by rewrite lookup_empty).
    destruct (Stop_blocks hex iter iter_perm idle Hidle eq_refl eq_refl) as [H _]; [by intros id c ?%Hno|].
    destruct H as (w' & Hw & _); [by intros id c ?%Hno|]. by exists w'.
  - assert ((fun c => (is_ended c, length (RemoteIdentity c))) <$> (sessions (obj ringing) !! "call-1") = Some (false, 32%nat)) as H
      by (vm_compute; reflexivity).
    assert (map_to_list (sessions (obj ringing)) = [("call-1", default (mkCall "" [] [] "" "" 0 0 0 "" "" [] [] [] 0 0 None None "")
              (sessions (obj ringing) !! "call-1"))]) as Hall by (vm_compute; reflexivity).
    assert (mu_held (obj ringing) = false /\ stuck (obj ringing) = false) as [Hh Hs] by (split; vm_compute; reflexivity).
    revert Hring H Hall Hh Hs. generalize ringing. intros w Hring H Hall Hh Hs.
    destruct (sessions (obj w) !! "call-1") as [c|] eqn:Ec; [|discriminate H]. apply (inj Some) in H.
    pose proof (f_equal fst H) as He. pose proof (f_equal snd H) as Hlen. cbn [fst snd default] in *.
    destruct (Stop_blocks hex iter iter_perm w Hring Hh Hs) as [_ Hstop].
    { intros id x Hx. apply elem_of_map_to_list in Hx. rewrite Hall in Hx. apply list_elem_of_singleton in Hx.
      injection Hx as -> ->. rewrite Hlen. lia. }
    destruct Hstop as (w' & Hw & Hst & Hbl & _); [by exists "call-1", c|]. exists w'. split; [exact Hw|].
    split; [exact Hst|]. apply Hbl.
Defined.

Lemma quiet_S i : quiet (S i) = (cleanupExpiredOffers iter (quiet i)).1.
Proof. done. Qed.

(** From the first cleanup on there is nothing left, and the clock goes on. *)
Lemma quiet_after i :
  sessions (obj (quiet (S i))) = ∅ /\ mu_held (obj (quiet (S i))) = false /\ stuck (obj (quiet (S i))) = false /\
  exists k, forall n, clock (env (quiet (S i))) n = 100 * Second * Z.of_nat (n + i + k).
Proof.
  induction i as [|i IH].
  - split; [vm_compute; reflexivity|]. split; [vm_compute; reflexivity|]. split; [vm_compute; reflexivity|].
    exists 2%nat. assert (clock (env (quiet 1)) = fun n => clock env0 (S (S n))) as -> by (vm_compute; reflexivity).
    intros n. unfold env0. cbn [clock]. do 2 f_equal. lia.
  - destruct IH as (Hs & Hh & Hst & k & Hk). rewrite quiet_S. revert Hs Hh Hst Hk. generalize (quiet (S i)).
    intros w Hs Hh Hst Hk. unfold cleanupExpiredOffers, time_now, self. go_run. rewrite Hs.
    change (iter ∅) with (@nil CallSession). cbn. split; [done|]. split; [done|]. split; [done|].
    exists k. intros n. rewrite Hk. do 2 f_equal. lia.
Qed.

Lemma offer_ends_witness :
  State <$> (sessions (obj ringing) !! "call-1") = Some CallStateOffered /\
  exists j, match sessions (obj (quiet j)) !! "call-1" with Some c => State c <> CallStateOffered | None => True end.
Proof.
  assert (State <$> (sessions (obj ringing) !! "call-1") = Some CallStateOffered) as H by (vm_compute; reflexivity).
  split; [exact H|].
  assert (Inv (obj (quiet 0%nat))) as Hring.
  { apply (run_op_ok hex iter iter_perm (OpMessage bob RTC_OFFER (str "call-1")) idle); [|apply Inv_init].
    intros b _. apply lookup_empty. }
  change ringing with (quiet 0%nat) in H.
  destruct (sessions (obj (quiet 0%nat)) !! "call-1") as [c|] eqn:Ec; [|discriminate H]. apply (inj Some) in H.
  assert (forall i t, exists j, (i <= j)%nat /\ quiet (S j) = (cleanupExpiredOffers iter (quiet j)).1 /\
     t < clock (env (quiet j)) 0%nat /\ mu_held (obj (quiet j)) = false /\ stuck (obj (quiet j)) = false) as Hfair.
  { intros i t. exists (S (i + S (Z.to_nat t))). destruct (quiet_after (i + S (Z.to_nat t))) as (_ & Hh & Hst & k & Hk).
    split; [lia|]. split; [done|]. split; [|by split]. rewrite Hk. unfold Second. lia. }
  destruct (offer_ends hex iter iter_perm quiet Hring (fun i => step_tick hex iter (quiet i)) Hfair 0%nat "call-1" c Ec H)
    as (j & _ & Hj).
  by exists j.
Defined.
