(* ===== verification/MemStore.v ===== *)
(** * pkg/storage/memory.go: the storage in memory

    [MemoryStorage] with all its operations.  A map that was never made is
    [None]: it reads as empty and panics on writing.  Records are values: callers
    do not change a record after they stored it.  Map iterations go in the order
    of [order] and [order_s]. *)
From S2P Require Import Prelude Proto GroupState Badger Storage.

Record MemoryStorage := mkMemory {
  contacts : gmap bytes Contact;
  messages : gmap bytes (list SignedEnvelope);
  peers : gmap string PeerRecord;
  configs : gmap bytes bytes;
  blacklist : gmap string BlacklistEntry;
  mem_groups : option (gmap bytes pbGroupState);
  mem_senderKeys : option (gmap bytes (gmap bytes pbSenderKeyDistribution));
  mem_channels : option (gmap bytes pbChannelState);
  channelPosts : option (gmap bytes (gmap bytes pbChannelPost));
}.

#[export] Instance eta_Memory : Eta MemoryStorage := fun s =>
  mkMemory (contacts s) (messages s) (peers s) (configs s) (blacklist s) (mem_groups s) (mem_senderKeys s)
    (mem_channels s) (channelPosts s).

Definition NewMemoryStorage : MemoryStorage := mkMemory ∅ ∅ ∅ ∅ ∅ (Some ∅) (Some ∅) (Some ∅) (Some ∅).

(** Reading a map that may be nil. *)
Definition nil_map {K A} `{Countable K} (m : option (gmap K A)) : gmap K A := default ∅ m.

Section Memory.
Variable order : forall A, gmap bytes A -> list A.
Variable order_s : forall A, gmap string A -> list A.

Abbreviation M := (GoM MemoryStorage).

(** Writing to a map that may be nil. *)
Definition write_map {A} (m : option A) (f : A -> M unit) : M unit :=
  match m with None => panic | Some x => f x end.

(** ** Contacts and messages *)

Definition mem_AddContact (contact : Contact) : M unit :=
  modify (fun s => s <| contacts := <[c_PublicKey contact := contact]> (contacts s) |>).

Definition mem_GetContact (pubKey : bytes) : M (option Contact) :=
  s ← get; mret (contacts s !! pubKey).

Definition mem_GetContactByBase58 (base58_Decode : string -> option bytes) (x : string) : M (option Contact) :=
  pubKey ← lift (wrapErr "failed to decode base58 public key" (ext "base58.Decode" (base58_Decode x)));
  mem_GetContact pubKey.

Definition mem_GetContactX25519Key (pubKey : bytes) : M bytes :=
  contact ← mem_GetContact pubKey;
  match contact with
  | None => throw (ErrText "contact not found")
  | Some c => if (length (c_X25519PublicKey c) =? 0)%nat
              then throw (ErrText "contact X25519 public key not stored")
              else mret (c_X25519PublicKey c)
  end.

Definition mem_ListContacts : M (list Contact) := s ← get; mret (order _ (contacts s)).

Definition mem_DeleteContact (pubKey : bytes) : M unit :=
  modify (fun s => s <| contacts := delete pubKey (contacts s) |>).

Definition mem_AddMessage (contactPubKey : bytes) (envelope : SignedEnvelope) : M unit :=
  modify (fun s => s <| messages :=
    <[contactPubKey := default [] (messages s !! contactPubKey) ++ [envelope]]> (messages s) |>).

(** [allMessages[start:end]] panics when [start] is negative, and [make] when the sum of [start] and
    [limit] wraps around. *)
Definition mem_GetMessages (contactPubKey : bytes) (limit offset : Z) : M (list SignedEnvelope) :=
  s ← get;
  match messages s !! contactPubKey with
  | None => mret []
  | Some allMessages =>
      let len := Z.of_nat (length allMessages) in
      if offset >=? len then mret []
      else
        let sum := i64 (offset + limit) in
        let end_ := if (limit >? 0) && (sum <? len) then sum else len in
        if (offset <? 0) || (end_ <? offset) then panic
        else mret (take (Z.to_nat (end_ - offset)) (drop (Z.to_nat offset) allMessages))
  end.

Definition mem_GetMessagesWithTimestamps (contactPubKey : bytes) (limit offset : Z) : M (list MessageWithKey) :=
  envelopes ← mem_GetMessages contactPubKey limit offset;
  mret ((fun env => mkMessageWithKey env 0 []) <$> envelopes).

Definition mem_DeleteMessages (contactPubKey : bytes) : M unit :=
  modify (fun s => s <| messages := delete contactPubKey (messages s) |>).

Definition mem_Clear : M unit := modify (fun s => s <| contacts := ∅ |> <| messages := ∅ |>).

Definition mem_ContactCount : M Z := s ← get; mret (Z.of_nat (size (contacts s))).

Definition mem_MessageCount (contactPubKey : bytes) : M Z :=
  s ← get; mret (Z.of_nat (length (default [] (messages s !! contactPubKey)))).

(** [Clone] makes the first five maps only. *)
Definition mem_Clone : M MemoryStorage :=
  s ← get; mret (mkMemory (contacts s) (messages s) (peers s) (configs s) (blacklist s) None None None None).

(** ** Peers, configuration, blacklist *)

Definition mem_AddPeer (peer : PeerRecord) : M unit :=
  modify (fun s => s <| peers := <[PeerID peer := peer]> (peers s) |>).

Definition mem_GetPeer (peerID : string) : M (option PeerRecord) := s ← get; mret (peers s !! peerID).

Definition mem_ListPeers (limit : Z) : M (list PeerRecord) :=
  s ← get;
  let l := order_s _ (peers s) in
  mret (if limit >? 0 then take (Z.to_nat limit) l else l).

Definition mem_ListPeersBySource (source : string) : M (list PeerRecord) :=
  s ← get; mret (filter (fun p => Source p = source) (order_s _ (peers s))).

Definition mem_DeletePeer (peerID : string) : M unit :=
  modify (fun s => s <| peers := delete peerID (peers s) |>).

Definition mem_PrunePeers (maxAgeDays keepCount : Z) : M unit := mret tt.

Definition mem_GetConfig (key : string) : M bytes := s ← get; mret (default [] (configs s !! str key)).

Definition mem_SetConfig (key : string) (value : bytes) : M unit :=
  modify (fun s => s <| configs := <[str key := value]> (configs s) |>).

Definition mem_DeleteConfig (key : bytes) : M unit :=
  modify (fun s => s <| configs := delete key (configs s) |>).

Definition mem_BlacklistPeer (now : Z) (peerID reason : string) : M unit :=
  modify (fun s => s <| blacklist := <[peerID := mkBlacklistEntry peerID reason now None]> (blacklist s) |>).

Definition mem_IsBlacklisted (now : Z) (peerID : string) : M bool :=
  s ← get;
  mret (match blacklist s !! peerID with None => false | Some entry => negb (IsExpired now entry) end).

Definition mem_ListBlacklisted (now : Z) : M (list BlacklistEntry) :=
  s ← get; mret (filter (fun e => IsExpired now e = false) (order_s _ (blacklist s))).

Definition mem_RemoveFromBlacklist (peerID : string) : M unit :=
  modify (fun s => s <| blacklist := delete peerID (blacklist s) |>).

(** ** Groups and sender keys *)

Definition mem_SaveGroup (group : pbGroupState) : M unit :=
  s ← get;
  write_map (mem_groups s) (fun m => modify (fun s => s <| mem_groups := Some (<[pg_GroupId group := group]> m) |>)).

Definition mem_GetGroup (groupID : bytes) : M pbGroupState :=
  s ← get;
  match nil_map (mem_groups s) !! groupID with None => throw ErrGroupNotFound | Some g => mret g end.

Definition mem_ListGroups : M (list pbGroupState) := s ← get; mret (order _ (nil_map (mem_groups s))).

Definition mem_DeleteGroup (groupID : bytes) : M unit :=
  modify (fun s => s <| mem_groups := delete groupID <$> mem_groups s |>).

Definition mem_SaveSenderKey (sk : pbSenderKeyDistribution) : M unit :=
  s ← get;
  write_map (mem_senderKeys s) (fun m =>
    let inner := default ∅ (m !! pk_GroupId sk) in
    modify (fun s => s <| mem_senderKeys := Some (<[pk_GroupId sk := <[pk_SenderPub sk := sk]> inner]> m) |>)).

Definition mem_GetSenderKey (groupID senderPubkey : bytes) : M pbSenderKeyDistribution :=
  s ← get;
  match nil_map (mem_senderKeys s) !! groupID with
  | None => throw ErrSenderKeyNotFound
  | Some skMap => match skMap !! senderPubkey with None => throw ErrSenderKeyNotFound | Some sk => mret sk end
  end.

Definition mem_ListSenderKeys (groupID : bytes) : M (list pbSenderKeyDistribution) :=
  s ← get;
  match nil_map (mem_senderKeys s) !! groupID with None => mret [] | Some skMap => mret (order _ skMap) end.

Definition mem_DeleteSenderKey (groupID senderPubkey : bytes) : M unit :=
  modify (fun s => s <| mem_senderKeys := alter (delete senderPubkey) groupID <$> mem_senderKeys s |>).

Definition mem_DeleteAllSenderKeys (groupID : bytes) : M unit :=
  modify (fun s => s <| mem_senderKeys := delete groupID <$> mem_senderKeys s |>).

(** ** Channels *)

Definition mem_SaveChannel (channel : pbChannelState) : M unit :=
  s ← get;
  write_map (mem_channels s) (fun m =>
    modify (fun s => s <| mem_channels := Some (<[pc_ChannelId channel := channel]> m) |>)).

Definition mem_GetChannel (channelID : bytes) : M pbChannelState :=
  s ← get;
  match nil_map (mem_channels s) !! channelID with None => throw ErrGroupNotFound | Some c => mret c end.

Definition mem_ListChannels : M (list pbChannelState) := s ← get; mret (order _ (nil_map (mem_channels s))).

Definition mem_DeleteChannel (channelID : bytes) : M unit :=
  modify (fun s => s <| mem_channels := delete channelID <$> mem_channels s |>).

Definition mem_SaveChannelPost (post : pbChannelPost) : M unit :=
  s ← get;
  write_map (channelPosts s) (fun m =>
    let inner := default ∅ (m !! pp_ChannelId post) in
    _ ← modify (fun s => s <| channelPosts := Some (<[pp_ChannelId post := <[pp_PostId post := post]> inner]> m) |>);
    match nil_map (mem_channels s) !! pp_ChannelId post with
    | None => mret tt
    | Some channel =>
        let channel := channel <| pc_LatestPostCid := pp_PreviousPostCid post |>
                               <| pc_UpdatedAt := pp_Timestamp post |> in
        modify (fun s => s <| mem_channels := insert (pp_ChannelId post) channel <$> mem_channels s |>)
    end).

Definition mem_GetChannelPosts (channelID : bytes) (limit offset : Z) : M (list pbChannelPost) :=
  s ← get;
  match nil_map (channelPosts s) !! channelID with
  | None => mret []
  | Some postsMap =>
      let posts := order _ postsMap in
      if offset >=? Z.of_nat (length posts) then mret []
      else if offset <? 0 then panic
      else
        let posts := drop (Z.to_nat offset) posts in
        mret (if (limit >? 0) && (Z.of_nat (length posts) >? limit) then take (Z.to_nat limit) posts else posts)
  end.

Definition mem_GetLatestChannelPostCID (channelID : bytes) : M bytes :=
  s ← get;
  match nil_map (mem_channels s) !! channelID with None => mret [] | Some channel => mret (pc_LatestPostCid channel) end.
End Memory.
