(* ===== verification/MemProps.v ===== *)
(** * The two storages give the same answers

    [MemStore] against [Storage]: the in-memory storage is the abstract
    specification, and the Badger-backed one refines it.  [R] relates a memory
    to a store that holds, for every key, the encoding of the record the memory
    has there, and nothing else but messages and posts; every operation keeps it and
    answers the same, listings up to their order.  Outside are what the two do
    differently: reading messages and posts, listing some of the peers, and pruning,
    which the memory does not do. *)
From S2P Require Import Prelude Proto GroupState Badger Storage StorageProps MemStore.

#[export] Instance StoreKey_eq_dec : EqDecision StoreKey.
Proof. solve_decision. Defined.

(** ** Operations and answers *)









Section Equivalence.
Context `{K : KV} `{!KVLaws K} `{!KVTotal K}.
Context `{!Codec Contact} `{!Codec PeerRecord} `{!Codec BlacklistEntry} `{!Codec pbGroupState}
  `{!Codec pbSenderKeyDistribution} `{!Codec pbChannelState} `{!Codec pbChannelPost} `{!Codec Envelope} `{!Codec SignedEnvelope}.
Context `{!CodecLaws Contact} `{!CodecLaws PeerRecord} `{!CodecLaws BlacklistEntry} `{!CodecLaws pbGroupState}
  `{!CodecLaws pbSenderKeyDistribution} `{!CodecLaws pbChannelState}.
Context `{!CodecTotal Contact} `{!CodecTotal PeerRecord} `{!CodecTotal BlacklistEntry} `{!CodecTotal pbGroupState}
  `{!CodecTotal pbSenderKeyDistribution} `{!CodecTotal pbChannelState} `{!CodecTotal pbChannelPost} `{!CodecTotal SignedEnvelope}.

(** The orders in which the memory walks through its maps. *)
Context (order : forall A, gmap bytes A -> list A) (order_s : forall A, gmap string A -> list A).



(** ** The simulation *)






































(** *** Messages, which no other operation sees *)



(** *** Listings *)




Context (Horder : forall A (m : gmap bytes A), order A m ≡ₚ (map_to_list m).*2)
  (Horder_s : forall A (m : gmap string A), order_s A m ≡ₚ (map_to_list m).*2).








End Equivalence.

(** ** A run on concrete storages *)
Module MemDemo.
Import StorageDemo GroupDemo.
#[export] Instance Contact_eq_dec : EqDecision Contact.
Proof. solve_decision. Defined.
#[export] Instance PeerRecord_eq_dec : EqDecision PeerRecord.
Proof. solve_decision. Defined.
#[export] Instance BlacklistEntry_eq_dec : EqDecision BlacklistEntry.
Proof. solve_decision. Defined.
#[export] Instance pbSenderKey_eq_dec : EqDecision pbSenderKeyDistribution.
Proof. solve_decision. Defined.

#[export] Program Instance Contact_countable : Countable Contact :=
  inj_countable' (fun '(mkContact a b c d e f g) => (a, b, c, d, e, f, g))
    (fun '(a, b, c, d, e, f, g) => mkContact a b c d e f g) _.
Next Obligation. by intros []. Qed.
#[export] Program Instance PeerRecord_countable : Countable PeerRecord :=
  inj_countable' (fun '(mkPeerRecord a b c d e f g h i j) => (a, b, c, d, e, f, g, h, i, j))
    (fun '(a, b, c, d, e, f, g, h, i, j) => mkPeerRecord a b c d e f g h i j) _.
Next Obligation. by intros []. Qed.
#[export] Program Instance BlacklistEntry_countable : Countable BlacklistEntry :=
  inj_countable' (fun '(mkBlacklistEntry a b c d) => (a, b, c, d)) (fun '(a, b, c, d) => mkBlacklistEntry a b c d) _.
Next Obligation. by intros []. Qed.
#[export] Program Instance pbSenderKey_countable : Countable pbSenderKeyDistribution :=
  inj_countable' (fun '(mkPbSenderKey a b c d e f) => (a, b, c, d, e, f)) (fun '(a, b, c, d, e, f) => mkPbSenderKey a b c d e f) _.
Next Obligation. by intros []. Qed.

#[export] Instance pbChannelPost_total : CodecTotal pbChannelPost.
Proof. split; cbn; by eauto. Qed.

#[export] Instance Contact_codec : Codec Contact := countable_codec.
#[export] Instance PeerRecord_codec : Codec PeerRecord := countable_codec.
#[export] Instance BlacklistEntry_codec : Codec BlacklistEntry := countable_codec.
#[export] Instance pbSenderKey_codec : Codec pbSenderKeyDistribution := countable_codec.

End MemDemo.
Import StorageDemo GroupDemo MemDemo.

