(* ===== verification/GroupCall.v ===== *)
(** * pkg/rtc/groupcall.go: group calls

    A [GroupCallManager]: the sessions ever created (callers and timers hold on
    to those that are over), which of them are active, the topics subscribed to
    and the elections whose timers run.  A participant has an address, because an
    election remembers the participant itself; [sort.Slice] is a merge sort.
    The methods of a session take its mutex, so each is one step; [EndGroupCall]
    changes the manager's maps without the manager's mutex, which is outside the
    model.  The id of a new call, from the uuid package, is an argument.  Messages
    are marshalled, signed and dropped, as the code does; media streams, the
    forwarding table and the packet buffer are never used. *)
From stdpp Require Import sorting.
From S2P Require Import Prelude Primitives Crypto Proto Runtime.

Definition SFUTopologyMinParticipants : Z := 7.
Definition SFUTopologyMaxParticipants : Z := 25.

(** [pb.GroupCallType], [pb.GroupCallState], [pb.ParticipantState] *)
Definition GROUP_CALL_TYPE_MESH : Z := 0.
Definition GROUP_CALL_TYPE_SFU : Z := 1.
Definition GROUP_CALL_STATE_INITIATING : Z := 1.
Definition GROUP_CALL_STATE_ENDED : Z := 4.
Definition PARTICIPANT_STATE_JOINING : Z := 0.

Record ParticipantInfo := mkParticipant {
  address : nat; IdentityPubkey : bytes; DeviceId : bytes; DisplayName : string; ParticipantState : Z;
  JoinedAt : Z; IsOwner : bool; IsSfu : bool; Ssrc : Z;
}.

#[export] Instance eta_Participant : Eta ParticipantInfo := fun p =>
  mkParticipant (address p) (IdentityPubkey p) (DeviceId p) (DisplayName p) (ParticipantState p) (JoinedAt p)
    (IsOwner p) (IsSfu p) (Ssrc p).

Record GroupCallSession := mkGroupCall {
  CallId : string; GroupId : bytes; gc_CallType : Z; gc_State : Z; OwnerIdentity : bytes;
  Participants : list ParticipantInfo; gc_CreatedAt : Z; StartedAt : Z; gc_EndedAt : Z; gc_HangupReason : string;
  IsVideo : bool; MaxParticipants : Z; SfuIdentity : bytes; ssrcMap : gmap string Z;
}.

#[export] Instance eta_GroupCall : Eta GroupCallSession := fun s =>
  mkGroupCall (CallId s) (GroupId s) (gc_CallType s) (gc_State s) (OwnerIdentity s) (Participants s) (gc_CreatedAt s)
    (StartedAt s) (gc_EndedAt s) (gc_HangupReason s) (IsVideo s) (MaxParticipants s) (SfuIdentity s) (ssrcMap s).

Record GroupCallConfig := mkGroupCallConfig {
  AutoSwitchToSFU : bool; cfg_MaxParticipants : Z; cfg_EnableVideo : bool; MediaBufferDuration : Z;
  ParticipantInactivityTimeout : Z;
}.
Definition DefaultGroupCallConfig : GroupCallConfig :=
  mkGroupCallConfig true SFUTopologyMaxParticipants true 5000000000 30000000000.

(** A topic is subscribed to with a channel that is open or closed. *)
Record GroupCallManager := mkGroupCallManager {
  gcm_Ed25519PubKey : bytes; gcm_Ed25519PrivKey : bytes; gcm_config : GroupCallConfig;
  sessions : gmap string GroupCallSession; active : gset string; subscriptions : gmap string bool;
  elections : list (string * ParticipantInfo); next_address : nat; stopped : bool;
}.

#[export] Instance eta_GCM : Eta GroupCallManager := fun m =>
  mkGroupCallManager (gcm_Ed25519PubKey m) (gcm_Ed25519PrivKey m) (gcm_config m) (sessions m) (active m)
    (subscriptions m) (elections m) (next_address m) (stopped m).

Definition NewGroupCallManager (pub priv : bytes) (config : option GroupCallConfig) : GroupCallManager :=
  mkGroupCallManager pub priv (default DefaultGroupCallConfig config) ∅ ∅ ∅ [] 0 false.

(** The messages that are signed. *)
Record GroupCallJoin := mkJoin {
  jo_CallId : string; jo_ParticipantIdentity : bytes; jo_DeviceId : bytes; jo_DisplayName : string; jo_Timestamp : Z;
}.
Record GroupCallLeave := mkLeave {
  le_CallId : string; le_ParticipantIdentity : bytes; le_Reason : string; le_Timestamp : Z;
}.
Record GroupCallSFUElection := mkElection { el_CallId : string; el_CandidateIdentity : bytes; el_Timestamp : Z }.

Section GroupCall.
Context `{P : Primitives} `{!Codec GroupCallJoin} `{!Codec GroupCallLeave} `{!Codec GroupCallSFUElection}.

Abbreviation M := (GoM (Sys GroupCallManager)).

Definition deriveGroupCallTopic (groupID : bytes) : string :=
  "babylon-grpcall-" +:+ hex (take 8 (sha256 groupID)).
Definition computeDeviceID (identityPubkey : bytes) : bytes := take 16 (sha256 identityPubkey).

(** [hex.EncodeToString(x)[:16]] in a log line. *)
Definition log_id (x : bytes) : M unit := if (length x <? 8)%nat then panic else mret tt.

Definition put_session (callID : string) (session : GroupCallSession) : M unit :=
  update (fun m => m <| sessions := <[callID := session]> (sessions m) |>).

(** [uint64(time.Now().Unix())] *)
Definition now_secs : M Z := now ← time_now; mret (u64 (now / 1000000000)).

Definition subscribeToGroupCallTopic (groupID : bytes) : M unit :=
  let topic := deriveGroupCallTopic groupID in
  update (fun m => match subscriptions m !! topic with
                   | Some _ => m
                   | None => m <| subscriptions := <[topic := true]> (subscriptions m) |>
                   end).

(** [close] panics on a closed channel. *)
Definition Cancel (open : bool) : M unit := if open then mret tt else panic.

Definition unsubscribeFromGroupCallTopic (groupID : bytes) : M unit :=
  let topic := deriveGroupCallTopic groupID in
  m ← self;
  match subscriptions m !! topic with
  | None => mret tt
  | Some open =>
      _ ← Cancel open;
      update (fun m => m <| subscriptions := delete topic (subscriptions m) |>)
  end.

Definition new_address : M nat :=
  m ← self;
  _ ← update (fun m => m <| next_address := S (next_address m) |>);
  mret (next_address m).

Definition CreateGroupCall (callID : string) (groupID : bytes) (isVideo : bool) : M GroupCallSession :=
  m ← self;
  now ← now_secs;
  addr ← new_address;
  ssrc ← generateSSRC;
  let self_key := gcm_Ed25519PubKey m in
  let owner := mkParticipant addr self_key (computeDeviceID self_key) "Owner" PARTICIPANT_STATE_JOINING now true false ssrc in
  let session :=
    mkGroupCall callID groupID GROUP_CALL_TYPE_MESH GROUP_CALL_STATE_INITIATING self_key [owner] now 0 0 "" isVideo
      (u64 (cfg_MaxParticipants (gcm_config m))) [] {[hex self_key := ssrc]} in
  _ ← put_session callID session;
  _ ← update (fun m => m <| active := {[callID]} ∪ active m |>);
  _ ← subscribeToGroupCallTopic groupID;
  _ ← log_id groupID;
  mret session.

Definition GetGroupCall (callID : string) : M GroupCallSession :=
  m ← self;
  if bool_decide (callID ∈ active m)
  then match sessions m !! callID with Some session => mret session | None => throw (ErrText "group call not found: %s") end
  else throw (ErrText "group call not found: %s").

Definition GetAllGroupCalls : M (list GroupCallSession) :=
  m ← self; mret (omap (fun id => sessions m !! id) (elements (active m))).

Definition is_self (m : GroupCallManager) (p : ParticipantInfo) : bool :=
  bool_decide (IdentityPubkey p = gcm_Ed25519PubKey m).

(** The order of the election: hexadecimal identities. *)
Definition hex_le (p q : ParticipantInfo) : Prop :=
  bytes_ltb (str (hex (IdentityPubkey q))) (str (hex (IdentityPubkey p))) = false.
#[export] Instance hex_le_dec : RelDecision hex_le.
Proof. intros p q. unfold hex_le. apply _. Defined.

Definition sign_message {A} `{Codec A} (m : GroupCallManager) (message : A) : outcome bytes :=
  data ← proto_Marshal message;
  Sign (gcm_Ed25519PrivKey m) data.

Definition runSFUElection (callID : string) : M unit :=
  m ← self;
  match sessions m !! callID with
  | None => mret tt
  | Some session =>
      let sorted := merge_sort hex_le (Participants session) in
      match sorted with
      | [] => mret tt
      | candidate :: _ =>
          _ ← put_session callID (session <| Participants := sorted |>);
          _ ← log_id (IdentityPubkey candidate);
          now ← now_secs;
          match sign_message m (mkElection callID (IdentityPubkey candidate) now) with
          | Ok _ => update (fun m => m <| elections := elections m ++ [(callID, candidate)] |>)
          | Err _ => mret tt
          | Panic => panic
          end
      end
  end.

(** The timer of the [i]-th election runs out, unless the manager was stopped. *)
Definition confirm_election (i : nat) : M unit :=
  m ← self;
  if stopped m then mret tt
  else
    match elections m !! i with
    | None => mret tt
    | Some (callID, candidate) =>
        _ ← update (fun m => m <| elections := delete i (elections m) |>);
        match sessions m !! callID with
        | None => mret tt
        | Some session =>
            let confirm p := if (address p =? address candidate)%nat then p <| IsSfu := true |> else p in
            _ ← put_session callID (session <| Participants := confirm <$> Participants session |>
                                            <| SfuIdentity := IdentityPubkey candidate |>);
            log_id (IdentityPubkey candidate)
        end
    end.

(** The join message of [JoinGroupCall], marshalled and signed. *)
Definition join_message (m : GroupCallManager) (callID displayName : string) (deviceID : bytes) (now : Z) : outcome bytes :=
  data ← wrapErr "failed to marshal join message" (proto_Marshal (mkJoin callID (gcm_Ed25519PubKey m) deviceID displayName now));
  wrapErr "failed to sign join message" (Sign (gcm_Ed25519PrivKey m) data).

Definition JoinGroupCall (callID displayName : string) : M GroupCallSession :=
  session ← GetGroupCall callID;
  m ← self;
  if existsb (is_self m) (Participants session) then mret session
  else if u64 (Z.of_nat (length (Participants session))) >=? MaxParticipants session
  then throw (ErrText "group call is full (max %d participants)")
  else
    now ← now_secs;
    addr ← new_address;
    ssrc ← generateSSRC;
    let self_key := gcm_Ed25519PubKey m in
    let participant := mkParticipant addr self_key (computeDeviceID self_key) displayName PARTICIPANT_STATE_JOINING now
                         false false ssrc in
    let session := session <| Participants := Participants session ++ [participant] |>
                           <| ssrcMap := <[hex self_key := ssrc]> (ssrcMap session) |> in
    _ ← put_session callID session;
    _ ← (if AutoSwitchToSFU (gcm_config m) && (Z.of_nat (length (Participants session)) >=? SFUTopologyMinParticipants)
         then _ ← put_session callID (session <| gc_CallType := GROUP_CALL_TYPE_SFU |>); runSFUElection callID
         else mret tt);
    _ ← lift (join_message m callID displayName (DeviceId participant) now);
    GetGroupCall callID.

(** The first entry of our own, and the list without it. *)
Fixpoint remove_self (m : GroupCallManager) (l : list ParticipantInfo) : option (ParticipantInfo * list ParticipantInfo) :=
  match l with
  | [] => None
  | p :: rest => if is_self m p then Some (p, rest)
                 else '(q, rest') ← remove_self m rest; Some (q, p :: rest')
  end.

Definition LeaveGroupCall (callID reason : string) : M unit :=
  session ← GetGroupCall callID;
  m ← self;
  match remove_self m (Participants session) with
  | None => mret tt
  | Some (ourParticipant, rest) =>
      _ ← put_session callID (session <| Participants := rest |>);
      now ← now_secs;
      _ ← (match sign_message m (mkLeave callID (gcm_Ed25519PubKey m) reason now) with Panic => panic | _ => mret tt end);
      if IsSfu ourParticipant then runSFUElection callID else mret tt
  end.

Definition endCallInternal (session : GroupCallSession) (reason : string) : M unit :=
  now ← now_secs;
  _ ← put_session (CallId session)
        (session <| gc_State := GROUP_CALL_STATE_ENDED |> <| gc_HangupReason := reason |> <| gc_EndedAt := now |>);
  _ ← unsubscribeFromGroupCallTopic (GroupId session);
  update (fun m => m <| active := active m ∖ {[CallId session]} |>).

(** [session.Participants[0]] panics when there are no participants. *)
Definition EndGroupCall (callID reason : string) : M unit :=
  session ← GetGroupCall callID;
  m ← self;
  match Participants session with
  | [] => panic
  | p :: _ =>
      if negb (IsOwner p) || negb (is_self m p) then throw (ErrText "only the call owner can end the call")
      else endCallInternal session reason
  end.

Definition Stop : M unit :=
  calls ← GetAllGroupCalls;
  _ ← foldr (fun call (k : M unit) => _ ← endCallInternal call "manager_stopped"; k) (mret tt) calls;
  m ← self;
  _ ← foldr (fun sub (k : M unit) => _ ← Cancel sub.2; k) (mret tt) (map_to_list (subscriptions m));
  update (fun m => m <| subscriptions := (fun _ => false) <$> subscriptions m |> <| stopped := true |>).

(** ** Queries of a session *)

Definition GetParticipantCount (session : GroupCallSession) : Z := Z.of_nat (length (Participants session)).
Definition IsSFU (session : GroupCallSession) : bool := gc_CallType session =? GROUP_CALL_TYPE_SFU.
Definition is_owner (session : GroupCallSession) (identityPubkey : bytes) : bool :=
  bool_decide (OwnerIdentity session = identityPubkey).
Definition IsSFUParticipant (session : GroupCallSession) (identityPubkey : bytes) : bool :=
  bool_decide (SfuIdentity session = identityPubkey).
Definition GetParticipant (session : GroupCallSession) (identityPubkey : bytes) : outcome ParticipantInfo :=
  match filter (fun p => IdentityPubkey p = identityPubkey) (Participants session) with
  | p :: _ => Ok p
  | [] => Err (ErrText "participant not found")
  end.

(** [time.Duration(endTime-session.StartedAt) * time.Second] wraps twice. *)
Definition group_Duration (session : GroupCallSession) : M Z :=
  if StartedAt session =? 0 then mret 0
  else
    now ← now_secs;
    let endTime := if gc_EndedAt session >? 0 then gc_EndedAt session else now in
    mret (i64 (i64 (u64 (endTime - StartedAt session)) * 1000000000)).
End GroupCall.
