(* ===== verification/GroupCallProps.v ===== *)
(** * pkg/rtc/groupcall.go: what becomes of a group call

    Runs of [GroupCall]: nobody but its creator is ever in a call, and a creator
    who leaves can never end it. *)
From S2P Require Import Prelude Primitives Crypto Proto Runtime GroupCall.
#[local] Open Scope Z_scope.

Section Runs.
Context `{P : Primitives} `{!Codec GroupCallJoin} `{!Codec GroupCallLeave} `{!Codec GroupCallSFUElection}.
Abbreviation W := (Sys GroupCallManager).

(** ** Operations of a manager until it is stopped *)

Inductive GOp :=
  | GCreate (callID : string) (groupID : bytes) (isVideo : bool)
  | GJoin (callID displayName : string)
  | GLeave (callID reason : string)
  | GEnd (callID reason : string)
  | GConfirm (i : nat).

Definition group_op (o : GOp) : GoM W unit :=
  match o with
  | GCreate id group video => _ ← CreateGroupCall id group video; mret tt
  | GJoin id name => _ ← JoinGroupCall id name; mret tt
  | GLeave id reason => LeaveGroupCall id reason
  | GEnd id reason => EndGroupCall id reason
  | GConfirm i => confirm_election i
  end.

Definition group_run (w : W) (ops : list GOp) : W := fold_left (fun w o => (group_op o w).1) ops w.

Lemma now_secs_run (w : W) : exists w' t, now_secs w = (w', Ok t) /\ obj w' = obj w.
Proof. unfold now_secs, mbind, GoM_bind. cbn. eauto. Qed.

Lemma generateSSRC_run (w : W) : exists w' z, generateSSRC w = (w', Ok z) /\ obj w' = obj w.
Proof. unfold generateSSRC, mbind, GoM_bind, rand_opt. cbn. destruct (rands (env w) 0%nat); cbn; eauto. Qed.

Ltac env_step :=
  match goal with
  | |- context [now_secs ?w] =>
      let w' := fresh "w" in let E := fresh "E" in let O := fresh "O" in
      destruct (now_secs_run w) as (w' & ? & E & O); rewrite E; clear E
  | |- context [generateSSRC ?w] =>
      let w' := fresh "w" in let E := fresh "E" in let O := fresh "O" in
      destruct (generateSSRC_run w) as (w' & ? & E & O); rewrite E; clear E
  end.

(** ** The invariant *)

(** What a session can be: its creator is in it, or came back, or left. *)
Record session_ok (m : GroupCallManager) (id : string) (s : GroupCallSession) : Prop := {
  ok_id : CallId s = id;
  ok_alone : (length (Participants s) <= 1)%nat;
  ok_self : Forall (fun p => is_self m p = true /\ IsSfu p = false) (Participants s);
  ok_mesh : gc_CallType s = GROUP_CALL_TYPE_MESH;
  ok_sfu : SfuIdentity s = [];
}.

Record Inv (m : GroupCallManager) : Prop := {
  inv_sessions : forall id s, sessions m !! id = Some s -> session_ok m id s;
  inv_active : forall id, id ∈ active m -> is_Some (sessions m !! id);
  inv_elections : elections m = [];
  inv_open : forall t b, subscriptions m !! t = Some b -> b = true;
}.

(** Nobody in the session owns it. *)
Definition ownerless (id : string) (m : GroupCallManager) : Prop :=
  id ∈ active m /\ exists s, sessions m !! id = Some s /\ Forall (fun p => IsOwner p = false) (Participants s).

Lemma GetGroupCall_run id (w : W) :
  match decide (id ∈ active (obj w)), sessions (obj w) !! id with
  | left _, Some s => GetGroupCall id w = (w, Ok s)
  | _, _ => GetGroupCall id w = (w, Err (ErrText "group call not found: %s"))
  end.
Proof.
  unfold GetGroupCall, self, mbind, GoM_bind. case_bool_decide; destruct (decide _); try done.
  by destruct (_ !! id).
Qed.
(** ** Steps *)

(** The other calls of a manager, and who it is. *)
Record other_calls (id : string) (m m' : GroupCallManager) : Prop := {
  oc_sessions : forall id', id' <> id -> sessions m' !! id' = sessions m !! id';
  oc_active : forall id', id' <> id -> id' ∈ active m' <-> id' ∈ active m;
  oc_pub : gcm_Ed25519PubKey m' = gcm_Ed25519PubKey m;
}.

Lemma session_ok_pub m m' id s :
  gcm_Ed25519PubKey m' = gcm_Ed25519PubKey m -> session_ok m id s -> session_ok m' id s.
Proof. intros E []. split; try done. unfold is_self. by rewrite E. Qed.

Lemma other_calls_refl id m : other_calls id m m.
Proof. by split. Qed.

(** A changed session that is well formed leaves the manager well formed. *)
Lemma Inv_change id m m' :
  Inv m -> other_calls id m m' -> (forall s, sessions m' !! id = Some s -> session_ok m' id s) ->
  (id ∈ active m' -> is_Some (sessions m' !! id)) -> elections m' = [] ->
  (forall t b, subscriptions m' !! t = Some b -> b = true) -> Inv m'.
Proof.
  intros [Hs Ha He Ho] [Os Oa Op] Hid Hact Hel Hsub. split; [| |done|done].
  - intros id' s H. destruct (decide (id' = id)) as [->|Hne]; [by apply Hid|].
    rewrite Os in H by done. apply (session_ok_pub m); [done|]. by apply Hs.
  - intros id' H. destruct (decide (id' = id)) as [->|Hne]; [by apply Hact|].
    rewrite Oa in H by done. rewrite Os by done. by apply Ha.
Qed.

Ltac others := split; cbn; [intros; by rewrite lookup_insert_ne|intros; set_solver|done].

Lemma log_id_run x (w : W) : log_id x w = (w, Ok tt) \/ log_id x w = (w, Panic).
Proof. unfold log_id. destruct (_ <? _)%nat; [by right|by left]. Qed.

Lemma create_step id g v w :
  Inv (obj w) -> let w' := (group_op (GCreate id g v) w).1 in Inv (obj w') /\ other_calls id (obj w) (obj w').
Proof.
  intros HI. cbn [group_op]. unfold CreateGroupCall, new_address, put_session, subscribeToGroupCallTopic,
    update, self, mbind, GoM_bind.
  env_step. cbn. rewrite O. env_step. cbn. rewrite O0. cbn.
  destruct (subscriptions (obj w) !! deriveGroupCallTopic g) as [b|] eqn:Esub; cbn;
    (match goal with |- context [log_id ?x ?y] => destruct (log_id_run x y) as [-> | ->] end); cbn;
    (match goal with |- Inv ?m /\ _ => assert (other_calls id (obj w) m) as Ho by others end; split; [|exact Ho];
     apply (Inv_change id (obj w)); [done|done| | |by destruct HI|]; cbn;
       [intros s; rewrite lookup_insert_eq; intros [= <-]; split; cbn;
          [done|lia|constructor; [|constructor]; unfold is_self; cbn; by rewrite bool_decide_eq_true_2|done..]
       |intros _; by rewrite lookup_insert_eq|]).
  1, 2: by destruct HI.
  all: intros t b; rewrite lookup_insert; case_decide; [by intros [= <-]|by apply HI].
Qed.

(** A call whose first participant of our own is taken out is empty. *)
Lemma remove_self_ok m id s p rest :
  session_ok m id s -> remove_self m (Participants s) = Some (p, rest) -> rest = [] /\ IsSfu p = false.
Proof.
  intros [_ Ha Hs _ _]. destruct (Participants s) as [|q [|q' l]]; cbn in *; [done| |lia].
  apply Forall_cons in Hs as [[Hq Hsfu] _]. rewrite Hq. by intros [= <- <-].
Qed.

(** [m] with the session [id] replaced. *)
Definition with_session (id : string) (s : GroupCallSession) (m : GroupCallManager) : GroupCallManager :=
  m <| sessions := <[id := s]> (sessions m) |>.

Lemma leave_run id reason w s p rest :
  GetGroupCall id w = (w, Ok s) -> remove_self (obj w) (Participants s) = Some (p, rest) -> IsSfu p = false ->
  obj (LeaveGroupCall id reason w).1 = with_session id (s <| Participants := rest |>) (obj w).
Proof.
  intros Hg Hr Hp. unfold LeaveGroupCall, put_session, update, self, mbind, GoM_bind. rewrite Hg. cbn. rewrite Hr. cbn.
  env_step. rewrite Hp. destruct (sign_message _ _); cbn; by rewrite O.
Qed.

Lemma with_session_step id s s' m :
  Inv m -> sessions m !! id = Some s -> CallId s' = id -> gc_CallType s' = gc_CallType s -> SfuIdentity s' = SfuIdentity s ->
  (length (Participants s') <= 1)%nat -> Forall (fun p => is_self m p = true /\ IsSfu p = false) (Participants s') ->
  Inv (with_session id s' m) /\ other_calls id m (with_session id s' m).
Proof.
  intros HI Hs Hid Hty Hsfu Hl Hall. pose proof (inv_sessions _ HI id s Hs) as [_ _ _ Hmesh Hempty].
  assert (other_calls id m (with_session id s' m)) as Ho by others. split; [|done].
  apply (Inv_change id m); [done|done| |by intros _; cbn; rewrite lookup_insert_eq|by destruct HI|by destruct HI].
  intros s1. cbn. rewrite lookup_insert_eq. intros [= <-]. split; cbn; congruence || done.
Qed.

Lemma leave_step id reason w :
  Inv (obj w) ->
  let w' := (group_op (GLeave id reason) w).1 in
  Inv (obj w') /\ other_calls id (obj w) (obj w') /\ (id ∈ active (obj w) -> ownerless id (obj w')).
Proof.
  intros HI. cbn [group_op]. pose proof (GetGroupCall_run id w) as Hg.
  assert (obj (LeaveGroupCall id reason w).1 = obj w -> ~ id ∈ active (obj w) -> 
          Inv (obj (LeaveGroupCall id reason w).1) /\ other_calls id (obj w) (obj (LeaveGroupCall id reason w).1) /\
          (id ∈ active (obj w) -> ownerless id (obj (LeaveGroupCall id reason w).1))) as Hskip.
  { intros -> Hn. split; [done|]. split; [apply other_calls_refl|done]. }
  destruct (decide (id ∈ active (obj w))) as [Hact|Hact].
  2: { apply Hskip; [|done]. unfold LeaveGroupCall, mbind, GoM_bind. by rewrite Hg. }
  destruct (inv_active _ HI id Hact) as [s Hs]. rewrite Hs in Hg. pose proof (inv_sessions _ HI id s Hs) as Hok.
  destruct (remove_self (obj w) (Participants s)) as [[p rest]|] eqn:Er.
  - destruct (remove_self_ok _ _ _ _ _ Hok Er) as [-> Hp]. rewrite (leave_run _ _ _ _ _ _ Hg Er Hp). cbn zeta.
    destruct (with_session_step id s (s <| Participants := [] |>) (obj w)) as [HI' Ho]; try done;
      [apply Hok|cbn; lia|].
    split; [done|]. split; [done|]. intros _. split; [done|]. eexists. cbn. rewrite lookup_insert_eq. by split.
  - assert (obj (LeaveGroupCall id reason w).1 = obj w) as ->.
    { unfold LeaveGroupCall, self, mbind, GoM_bind. rewrite Hg. cbn. by rewrite Er. }
    split; [done|]. split; [apply other_calls_refl|]. intros _. split; [done|]. exists s. split; [done|].
    destruct Hok as [_ _ Hself _ _]. clear -Er Hself. induction (Participants s) as [|q l IH]; [constructor|].
    apply Forall_cons in Hself as [[Hq _] _]. cbn in Er. by rewrite Hq in Er.
Qed.

(** Ending a call: its first participant must be its owner and ourselves. *)
Lemma end_run id reason w s :
  Inv (obj w) -> GetGroupCall id w = (w, Ok s) -> sessions (obj w) !! id = Some s ->
  match Participants s with
  | [] => EndGroupCall id reason w = (w, Panic)
  | p :: _ =>
      if IsOwner p
      then (EndGroupCall id reason w).2 = Ok tt /\ Inv (obj (EndGroupCall id reason w).1) /\
           other_calls id (obj w) (obj (EndGroupCall id reason w).1) /\
           id ∉ active (obj (EndGroupCall id reason w).1)
      else EndGroupCall id reason w = (w, Err (ErrText "only the call owner can end the call"))
  end.
Proof.
  intros HI Hg Hs. pose proof (inv_sessions _ HI id s Hs) as Hok. pose proof Hok as [Hid Ha Hself Hmesh Hsfu].
  unfold EndGroupCall, endCallInternal, put_session, unsubscribeFromGroupCallTopic, Cancel, update, self, mbind, GoM_bind.
  rewrite Hg. cbn [obj]. destruct (Participants s) as [|p l] eqn:Ep; [done|]. apply Forall_cons in Hself as [[Hp _] _].
  rewrite Hp. destruct (IsOwner p); [|done]. cbn [negb orb]. env_step. cbn. rewrite O.
  destruct (subscriptions (obj w) !! deriveGroupCallTopic (GroupId s)) as [b|] eqn:Eb;
    [rewrite (inv_open _ HI _ _ Eb)|]; cbn; (split; [done|]);
    (match goal with |- Inv ?m /\ _ => assert (other_calls id (obj w) m) as Ho end;
     [rewrite Hid; others|split; [|split; [done|rewrite Hid; set_solver]]];
     apply (Inv_change id (obj w)); [done|done| | |by destruct HI|]; cbn; rewrite ?Hid;
       [intros s'; rewrite lookup_insert_eq; intros [= <-]; destruct Hok; by split
       |intros _; by rewrite lookup_insert_eq|]).
  - intros t b'. rewrite lookup_delete. case_decide; [done|]. by apply HI.
  - by apply HI.
Qed.

Lemma GetGroupCall_state id (w : W) : (GetGroupCall id w).1 = w.
Proof. pose proof (GetGroupCall_run id w) as H. destruct (decide _); [destruct (_ !! id)|]; by rewrite H. Qed.

(** Our own entry, added to an empty call, and the state of the join. *)
Lemma join_state id name w s :
  GetGroupCall id w = (w, Ok s) -> Participants s = [] -> exists s' p,
    obj (group_op (GJoin id name) w).1 = obj w \/
    obj (group_op (GJoin id name) w).1 = with_session id s' (obj w <| next_address := S (next_address (obj w)) |>) /\
    Participants s' = [p] /\ IdentityPubkey p = gcm_Ed25519PubKey (obj w) /\ IsSfu p = false /\ IsOwner p = false /\
    CallId s' = CallId s /\ gc_CallType s' = gc_CallType s /\ SfuIdentity s' = SfuIdentity s.
Proof.
  intros Hg Ep. cbn [group_op].
  unfold JoinGroupCall, put_session, new_address, update, self, throw, mbind, GoM_bind. rewrite Hg. cbn [obj].
  rewrite Ep. cbn [existsb length]. destruct (_ >=? MaxParticipants s).
  { cbn. exists s, (mkParticipant 0 [] [] "" 0 0 false false 0). by left. }
  env_step. cbn. rewrite O. env_step. cbn. rewrite andb_false_r. cbn.
  do 2 eexists. right. destruct (join_message _ _ _ _ _); cbn.
  1: match goal with |- context [GetGroupCall id ?w'] =>
       pose proof (GetGroupCall_state id w') as Hst; destruct (GetGroupCall id w') as [w2 []]; cbn in Hst; subst w2 end.
  all: cbn; rewrite O0; split; [reflexivity|]; done.
Qed.

Lemma join_step id name w s :
  Inv (obj w) -> GetGroupCall id w = (w, Ok s) -> sessions (obj w) !! id = Some s ->
  let m' := obj (group_op (GJoin id name) w).1 in
  Inv m' /\ other_calls id (obj w) m' /\ active m' = active (obj w) /\
  exists s', sessions m' !! id = Some s' /\
    (Participants s' = Participants s \/ Forall (fun p => IsOwner p = false) (Participants s')).
Proof.
  intros HI Hg Hs. pose proof (inv_sessions _ HI id s Hs) as Hok. destruct Hok as [Hid Ha Hself Hmesh Hsfu].
  assert (forall m', m' = obj w -> Inv m' /\ other_calls id (obj w) m' /\ active m' = active (obj w) /\
    exists s', sessions m' !! id = Some s' /\
    (Participants s' = Participants s \/ Forall (fun p => IsOwner p = false) (Participants s')))
    as Hsame by (intros ? ->; split; [done|]; split; [apply other_calls_refl|]; split; [done|]; eauto).
  destruct (Participants s) as [|p l] eqn:Ep.
  2: { apply Hsame. apply Forall_cons in Hself as [[Hp _] _]. cbn [group_op].
       unfold JoinGroupCall, self, mbind, GoM_bind. rewrite Hg. cbn [obj]. rewrite Ep. cbn [existsb]. by rewrite Hp. }
  destruct (join_state id name w s Hg Ep) as (s' & p & [E|(E & E' & Hp & Hp' & Hp'' & Hi & Ht & Hf)]);
    cbn zeta; [by apply Hsame|]. rewrite E.
  set (m1 := obj w <| next_address := S (next_address (obj w)) |>).
  assert (Inv m1) as HI1.
  { destruct HI as [Hss Hact He Ho]. split; try done. intros id' s1 H1. by apply (session_ok_pub (obj w)), Hss. }
  destruct (with_session_step id s s' m1) as [H1 [Ho1 Ho2 Ho3]]; try done; [congruence|by rewrite E'| |].
  { rewrite E'. constructor; [|constructor]. unfold is_self. by rewrite Hp, bool_decide_eq_true_2. }
  split; [done|]. split; [by split|]. split; [done|]. exists s'. split; [cbn; by rewrite lookup_insert_eq|].
  right. rewrite E'. by constructor.
Qed.
(** ** Runs *)

Definition op_call (o : GOp) : option string :=
  match o with
  | GCreate id _ _ | GJoin id _ | GLeave id _ | GEnd id _ => Some id
  | GConfirm _ => None
  end.
Definition creates (o : GOp) : option string := match o with GCreate id _ _ => Some id | _ => None end.

Lemma confirm_step i w : Inv (obj w) -> obj (confirm_election i w).1 = obj w.
Proof.
  intros HI. unfold confirm_election, self, mbind, GoM_bind. cbn. destruct (stopped (obj w)); [done|].
  by rewrite (inv_elections _ HI).
Qed.

Lemma not_active_run {A} id (w : W) (k : GroupCallSession -> GoM W A) :
  id ∉ active (obj w) -> (session ← GetGroupCall id; k session) w = (w, Err (ErrText "group call not found: %s")).
Proof.
  intros Hn. pose proof (GetGroupCall_run id w) as H. destruct (decide _); [done|].
  unfold mbind, GoM_bind. by rewrite H.
Qed.

Lemma active_session id w :
  Inv (obj w) -> id ∈ active (obj w) -> exists s, sessions (obj w) !! id = Some s /\ GetGroupCall id w = (w, Ok s).
Proof.
  intros HI Ha. destruct (inv_active _ HI id Ha) as [s Hs]. exists s. split; [done|].
  pose proof (GetGroupCall_run id w) as H. destruct (decide _); [|done]. by rewrite Hs in H.
Qed.

(** One operation keeps the manager well formed, and a call without an owner
    stays so unless a new one gets its id. *)
Lemma group_step o w :
  Inv (obj w) ->
  Inv (obj (group_op o w).1) /\
  match op_call o with
  | Some id => other_calls id (obj w) (obj (group_op o w).1) /\
      (creates o = None -> ownerless id (obj w) -> ownerless id (obj (group_op o w).1))
  | None => obj (group_op o w).1 = obj w
  end.
Proof.
  intros HI. destruct o as [id g v|id name|id reason|id reason|i]; cbn [op_call creates].
  - destruct (create_step id g v w HI) as [H1 H2]. by split; [|split].
  - destruct (decide (id ∈ active (obj w))) as [Ha|Hn].
    + destruct (active_session id w HI Ha) as (s & Hs & Hg).
      destruct (join_step id name w s HI Hg Hs) as (H1 & H2 & Hact & s' & Hs' & Hp). split; [done|]. split; [done|].
      intros _ [_ (s0 & Hs0 & Hall)]. rewrite Hs in Hs0. injection Hs0 as <-. split; [by rewrite Hact|].
      exists s'. split; [done|]. by destruct Hp as [->|?].
    + assert (JoinGroupCall id name w = (w, Err (ErrText "group call not found: %s"))) as E by by apply not_active_run.
      cbn [group_op]. unfold mbind, GoM_bind. rewrite E.
      split; [done|]. split; [apply other_calls_refl|done].
  - destruct (leave_step id reason w HI) as (H1 & H2 & H3). split; [done|]. split; [done|]. intros _ [Ha _]. by apply H3.
  - destruct (decide (id ∈ active (obj w))) as [Ha|Hn].
    + destruct (active_session id w HI Ha) as (s & Hs & Hg). pose proof (end_run id reason w s HI Hg Hs) as He.
      cbn [group_op]. destruct (Participants s) as [|p l] eqn:Ep.
      { rewrite He. split; [done|]. split; [apply other_calls_refl|done]. }
      destruct (IsOwner p) eqn:Eo; [|rewrite He; split; [done|]; split; [apply other_calls_refl|done]].
      destruct He as (_ & H1 & H2 & _). split; [done|]. split; [done|].
      intros _ [_ (s0 & Hs0 & Hall)]. rewrite Hs in Hs0. injection Hs0 as <-. rewrite Ep in Hall.
      apply Forall_cons in Hall as [Hp _]. congruence.
    + cbn [group_op]. unfold EndGroupCall. rewrite not_active_run by done.
      split; [done|]. split; [apply other_calls_refl|done].
  - cbn [group_op]. rewrite confirm_step by done. by split.
Qed.

Lemma ownerless_other id id' m m' : other_calls id' m m' -> id <> id' -> ownerless id m -> ownerless id m'.
Proof. intros [Os Oa _] Hne [Ha (s & Hs & Hp)]. split; [by apply Oa|]. exists s. by rewrite Os. Qed.

Lemma group_run_ownerless id ops w :
  Inv (obj w) -> ownerless id (obj w) -> Forall (fun o => creates o <> Some id) ops ->
  Inv (obj (group_run w ops)) /\ ownerless id (obj (group_run w ops)).
Proof.
  intros HI Ho Hops. revert w HI Ho; induction Hops as [|o ops Hc Hops IH]; intros w HI Ho; [done|]. cbn.
  destruct (group_step o w HI) as [HI' Hs]. apply IH; [done|]. destruct (op_call o) as [id'|] eqn:E; [|by rewrite Hs].
  destruct Hs as [Hoc Hown]. destruct (decide (id = id')) as [<-|Hne]; [|by eapply ownerless_other].
  apply Hown; [|done]. destruct o; cbn in *; congruence.
Qed.

Lemma group_run_Inv ops w : Inv (obj w) -> Inv (obj (group_run w ops)).
Proof. revert w; induction ops as [|o ops IH]; intros w HI; [done|]. by apply IH, group_step. Qed.

Lemma NewGroupCallManager_Inv pub priv cfg : Inv (NewGroupCallManager pub priv cfg).
Proof. split; cbn; [by intros ??|set_solver|done|by intros ??]. Qed.

(** C38. A group call belongs to its creator for good, or to nobody.  In every run
    of a manager that is not stopped, nobody but the user ever takes part in
    a call, so it never switches to SFU mode; a call whose creator is still in
    it can be ended.  Once the creator has left, whatever happens later the call
    stays in the table of active calls and every attempt to end it panics or is
    refused, after a return to the call too. *)
Theorem leaving_locks_out pub priv cfg env0 ops id reason later :
  let w := group_run (mkSys env0 (NewGroupCallManager pub priv cfg)) ops in
  id ∈ active (obj w) -> Forall (fun o => creates o <> Some id) later ->
  (forall i s, sessions (obj w) !! i = Some s ->
     (length (Participants s) <= 1)%nat /\ Forall (fun p => IdentityPubkey p = gcm_Ed25519PubKey (obj w)) (Participants s) /\
     IsSFU s = false /\ SfuIdentity s = []) /\
  (forall s p r, sessions (obj w) !! id = Some s -> head (Participants s) = Some p -> IsOwner p = true ->
     (EndGroupCall id r w).2 = Ok tt /\ id ∉ active (obj (EndGroupCall id r w).1)) /\
  let w' := group_run w (GLeave id reason :: later) in
  id ∈ active (obj w') /\
  forall r, EndGroupCall id r w' = (w', Panic) \/
            EndGroupCall id r w' = (w', Err (ErrText "only the call owner can end the call")).
Proof.
  intros w Ha Hlater. assert (Inv (obj w)) as HI by (apply group_run_Inv, NewGroupCallManager_Inv).
  split; [|split].
  - intros i s Hs. destruct (inv_sessions _ HI i s Hs) as [_ Hl Hself Hm Hsfu]. split; [done|]. split; [|split; [|done]].
    + eapply Forall_impl; [exact Hself|]. intros p [Hp _]. unfold is_self in Hp. by apply bool_decide_eq_true in Hp.
    + unfold IsSFU. by rewrite Hm.
  - intros s p r Hs Hp Ho. destruct (active_session id w HI Ha) as (s' & Hs' & Hg). rewrite Hs in Hs'. injection Hs' as <-.
    pose proof (end_run id r w s HI Hg Hs) as He. destruct (Participants s) as [|q l]; [done|]. injection Hp as ->.
    rewrite Ho in He. by destruct He as (? & _ & _ & ?).
  - cbn zeta. destruct (leave_step id reason w HI) as (HI1 & _ & Ho1).
    destruct (group_run_ownerless id later (group_op (GLeave id reason) w).1 HI1 (Ho1 Ha) Hlater) as [HI2 [Ha2 (s & Hs & Hp)]].
    cbn [group_run fold_left] in *. split; [done|]. intros r.
    destruct (active_session id _ HI2 Ha2) as (s' & Hs' & Hg). rewrite Hs in Hs'. injection Hs' as <-.
    pose proof (end_run id r _ s HI2 Hg Hs) as He. destruct (Participants s) as [|q l]; [by left|]. right.
    apply Forall_cons in Hp as [Hq _]. by rewrite Hq in He.
Qed.
End Runs.

(** ** A concrete run *)
Module GroupCallDemo.
Definition any_codec (A : Type) : Codec A := {| marshal _ := Some []; unmarshal _ := None |}.
#[export] Instance Join_codec : Codec GroupCallJoin := any_codec _.
#[export] Instance Leave_codec : Codec GroupCallLeave := any_codec _.
#[export] Instance Election_codec : Codec GroupCallSFUElection := any_codec _.

Definition env0 : Env := mkEnvironment (fun _ => None) (fun i => Z.of_nat i).
Definition created : Sys GroupCallManager :=
  group_run (P := toy) (mkSys env0 (NewGroupCallManager (zeros 32) (zeros 64) None)) [GCreate "call" (zeros 16) false].
(** The creator leaves and comes back. *)
Definition back : Sys GroupCallManager := group_run (P := toy) created [GLeave "call" "bye"; GJoin "call" "again"].
End GroupCallDemo.
Import GroupCallDemo.

Lemma leaving_locks_out_witness :
  ("call" ∈ active (obj created))%string /\ ("call" ∈ active (obj back))%string /\
  (EndGroupCall (P := toy) "call" "" created).2 = Ok tt /\
  EndGroupCall (P := toy) "call" "" back = (back, Err (ErrText "only the call owner can end the call")).
Proof.
  assert (bool_decide ("call" ∈ active (obj created)) = true)%string as Ea by (vm_compute; reflexivity).
  apply bool_decide_eq_true in Ea.
  pose proof (leaving_locks_out (P := toy) (zeros 32) (zeros 64) None env0 [GCreate "call" (zeros 16) false] "call" "bye"
    [GJoin "call" "again"] Ea ltac:(repeat constructor; discriminate)) as (_ & H1 & H2 & H3).
  assert (match sessions (obj created) !! "call"%string with
          | Some s => match head (Participants s) with Some p => IsOwner p | None => false end
          | None => false end = true) as E1 by (vm_compute; reflexivity).
  assert ((EndGroupCall (P := toy) "call" "" back).2 = Err (ErrText "only the call owner can end the call")) as E2
    by (vm_compute; reflexivity).
  split; [exact Ea|]. split; [exact H2|]. split.
  - destruct (sessions (obj created) !! "call"%string) as [s|] eqn:Es; [|discriminate E1].
    destruct (head (Participants s)) as [p|] eqn:Ep; [|discriminate E1].
    exact (proj1 (H1 s p "" Es Ep E1)).
  - destruct (H3 "") as [H|H]; [|exact H]. exfalso. apply (f_equal snd) in H. discriminate (eq_trans (eq_sym E2) H).
Defined.
