(* ===== verification/Float64.v ===== *)
(** * float64 and float32

    Go's floating-point numbers as the Standard Library's specification of IEEE
    754 ([SpecFloat]): every operation rounds to nearest, ties to even, and no
    two operations are fused.  NaN is one value.  Comparison is a strict weak
    order away from NaN. *)
From Stdlib Require Export Floats.SpecFloat.
From S2P Require Import Prelude.

Definition f64 : Type := spec_float.
Definition f32 : Type := spec_float.

Definition f64_add : f64 -> f64 -> f64 := SFadd 53 1024.
Definition f64_sub : f64 -> f64 -> f64 := SFsub 53 1024.
Definition f64_mul : f64 -> f64 -> f64 := SFmul 53 1024.
Definition f64_div : f64 -> f64 -> f64 := SFdiv 53 1024.

(** [x < y]; [x > y] is [f64_lt y x] and [x >= y] is [f64_ge x y]. *)
Definition f64_lt (x y : f64) : bool := SFltb x y.
Definition f64_ge (x y : f64) : bool := SFleb y x.

(** [float64(n)] of an integer. *)
Definition f64_of_Z (n : Z) : f64 := binary_normalize 53 1024 n 0 false.

(** The constant [n / d]. *)
Definition f64_lit (n d : Z) : f64 := f64_div (f64_of_Z n) (f64_of_Z d).

Definition signed (s : bool) (m : positive) : Z := if s then Z.neg m else Z.pos m.

(** [float32(x)] of a float64 and [float64(x)] of a float32. *)
Definition f64_to_f32 (x : f64) : f32 :=
  match x with S754_finite s m e => binary_normalize 24 128 (signed s m) e s | _ => x end.
Definition f32_to_f64 (x : f32) : f64 :=
  match x with S754_finite s m e => binary_normalize 53 1024 (signed s m) e s | _ => x end.

(** The integer part, as conversions to an integer type truncate; 0 for what is not finite. *)
Definition f64_trunc (x : f64) : Z :=
  match x with S754_finite s m e => (if s then -1 else 1) * Z.shiftl (Z.pos m) e | _ => 0 end.

Definition is_NaN (x : f64) : bool := match x with S754_nan => true | _ => false end.

Definition f64_0 : f64 := S754_zero false.
Definition f64_1 : f64 := f64_of_Z 1.

(** [if x < lo { x = lo }; if x > hi { x = hi }] *)
Definition clamp (lo hi x : f64) : f64 :=
  let x := if f64_lt x lo then lo else x in
  if f64_lt hi x then hi else x.

(** ** The order

    A number is a triple compared lexicographically: its class and sign, its
    exponent and its mantissa. *)
Definition fkey (x : f64) : Z * Z * Z :=
  match x with
  | S754_zero _ | S754_nan => (0, 0, 0)
  | S754_infinity s => (if s then -2 else 2, 0, 0)
  | S754_finite true m e => (-1, - e, - Z.pos m)
  | S754_finite false m e => (1, e, Z.pos m)
  end.

Definition fkey_lt (a b : Z * Z * Z) : Prop :=
  a.1.1 < b.1.1 \/ a.1.1 = b.1.1 /\ (a.1.2 < b.1.2 \/ a.1.2 = b.1.2 /\ a.2 < b.2).

Lemma f64_lt_spec x y :
  is_NaN x = false -> is_NaN y = false -> f64_lt x y = true <-> fkey_lt (fkey x) (fkey y).
Proof.
  unfold f64_lt, SFltb, fkey_lt. intros Hx Hy.
  destruct x as [|[]| |[] m e], y as [|[]| |[] m' e']; try discriminate; cbn; try (split; [done|lia]).
  all: try (split; intros; [lia|done]).
  - destruct (Z.compare_spec e e'); [subst|split; [done|lia]|split; [lia|done]].
    change (Pos.compare_cont Eq m m') with (m ?= m')%positive. destruct (Pos.compare_spec m m'); split; try done; lia.
  - destruct (Z.compare_spec e e'); [subst|split; [lia|done]|split; [done|lia]].
    change (Pos.compare_cont Eq m m') with (m ?= m')%positive. destruct (Pos.compare_spec m m'); split; try done; lia.
Qed.

Lemma f64_lt_irrefl x : is_NaN x = false -> f64_lt x x = false.
Proof. intros H. apply not_true_is_false. rewrite f64_lt_spec by done. unfold fkey_lt. lia. Qed.

Lemma f64_lt_trans x y z :
  is_NaN x = false -> is_NaN y = false -> is_NaN z = false ->
  f64_lt x y = true -> f64_lt y z = true -> f64_lt x z = true.
Proof. intros Hx Hy Hz. rewrite !f64_lt_spec by done. unfold fkey_lt. lia. Qed.

Lemma f64_ge_trans x y z :
  is_NaN x = false -> is_NaN y = false -> is_NaN z = false ->
  f64_lt x y = false -> f64_lt y z = false -> f64_lt x z = false.
Proof.
  intros Hx Hy Hz. rewrite <- !not_true_iff_false, !f64_lt_spec by done. unfold fkey_lt. lia.
Qed.

(** A clamped number lies between the bounds, or is NaN. *)
Lemma clamp_range lo hi x :
  is_NaN lo = false -> is_NaN hi = false -> f64_lt hi lo = false ->
  is_NaN (clamp lo hi x) = is_NaN x /\ f64_lt (clamp lo hi x) lo = false /\ f64_lt hi (clamp lo hi x) = false.
Proof.
  intros Hlo Hhi Hle. unfold clamp. destruct (f64_lt x lo) eqn:E1.
  - rewrite Hle. split; [|split; [by apply f64_lt_irrefl|done]]. rewrite Hlo. by destruct x.
  - destruct (f64_lt hi x) eqn:E2; [|done]. split; [|split; [done|by apply f64_lt_irrefl]].
    rewrite Hhi. destruct x; try done. by destruct hi.
Qed.
