(* ===== verification/GoText.v ===== *)
(** * Go's strings and formats

    What the sources use of packages [strings] and [fmt] on texts, a Go string
    being a sequence of bytes, here of [ascii].  The scanners of [fmt.Sscanf] are
    those of the verb [%d], for a text that is not split over lines. *)
From S2P Require Import Prelude.
#[local] Open Scope Z_scope.

Definition ascii_Z (c : ascii) : Z := Z.of_N (N_of_ascii c).
Definition in_range (lo c hi : ascii) : bool := (ascii_Z lo <=? ascii_Z c) && (ascii_Z c <=? ascii_Z hi).
Definition newline : ascii := ascii_of_N 10.

(** [strings.Split] at a separator of one byte. *)
Fixpoint Split (sep : ascii) (s : string) : list string :=
  match s with
  | EmptyString => [EmptyString]
  | String c r =>
      if bool_decide (c = sep) then EmptyString :: Split sep r
      else match Split sep r with
           | x :: l => String c x :: l
           | [] => [String c EmptyString]
           end
  end.

(** [strings.SplitN(s, sep, 2)]. *)
Fixpoint SplitN2 (sep : ascii) (s : string) : list string :=
  match s with
  | EmptyString => [EmptyString]
  | String c r =>
      if bool_decide (c = sep) then [EmptyString; r]
      else match SplitN2 sep r with
           | x :: l => String c x :: l
           | [] => [String c EmptyString]
           end
  end.

(** [strings.CutPrefix]; [HasPrefix] and [TrimPrefix] are its parts. *)
Fixpoint CutPrefix (p s : string) : option string :=
  match p, s with
  | EmptyString, _ => Some s
  | String a p', String b s' => if bool_decide (a = b) then CutPrefix p' s' else None
  | _, _ => None
  end.
Definition HasPrefix (s p : string) : bool := if CutPrefix p s then true else false.
Definition TrimPrefix (s p : string) : string := default s (CutPrefix p s).

(** The UTF-8 texts of the runes that [unicode.IsSpace] accepts. *)
Definition utf8 (l : list N) : string := String.string_of_list_ascii (ascii_of_N <$> l).
Definition spaces : list string := utf8 <$>
  [[9]; [10]; [11]; [12]; [13]; [32]; [194; 133]; [194; 160]; [225; 154; 128];
   [226; 128; 128]; [226; 128; 129]; [226; 128; 130]; [226; 128; 131]; [226; 128; 132]; [226; 128; 133];
   [226; 128; 134]; [226; 128; 135]; [226; 128; 136]; [226; 128; 137]; [226; 128; 138];
   [226; 128; 168]; [226; 128; 169]; [226; 128; 175]; [226; 129; 159]; [227; 128; 128]]%N.

(** Take the texts of [table] off the front, [n] of them at most. *)
Fixpoint trim_front (table : list string) (n : nat) (s : string) : string :=
  match n with
  | O => s
  | S n' => match list_find (HasPrefix s) table with
            | Some (_, p) => trim_front table n' (TrimPrefix s p)
            | None => s
            end
  end.

Definition reverse (s : string) : string := String.string_of_list_ascii (rev (String.list_ascii_of_string s)).

(** [strings.TrimSpace]; no rune above is empty, so that as many rounds as there are bytes do. *)
Definition TrimLeft (table : list string) (s : string) : string := trim_front table (String.length s) s.
Definition TrimSpace (s : string) : string :=
  reverse (TrimLeft (reverse <$> spaces) (reverse (TrimLeft spaces s))).

Definition map_string (f : ascii -> ascii) (s : string) : string :=
  String.string_of_list_ascii (f <$> String.list_ascii_of_string s).
Definition lower (c : ascii) : ascii := if in_range "A" c "Z" then ascii_of_N (N_of_ascii c + 32) else c.
Definition upper (c : ascii) : ascii := if in_range "a" c "z" then ascii_of_N (N_of_ascii c - 32) else c.

(** [strings.ToLower] and [ToUpper] on the letters of ASCII; other letters stay as they are. *)
Definition ToLower : string -> string := map_string lower.
Definition ToUpper : string -> string := map_string upper.

(** [strings.EqualFold] for an ASCII text [s]: the runes outside ASCII that fold to one of ASCII are
    the long s (C5 BF) and the Kelvin sign (E2 84 AA). *)
Definition long_s : string := utf8 [197; 191]%N.
Definition kelvin : string := utf8 [226; 132; 170]%N.
Definition fold_rune (a : ascii) (t : string) : option string :=
  match t with
  | EmptyString => None
  | String b t' =>
      if bool_decide (lower a = lower b) then Some t'
      else if bool_decide (lower a = "s"%char) then CutPrefix long_s t
      else if bool_decide (lower a = "k"%char) then CutPrefix kelvin t
      else None
  end.
Fixpoint EqualFold (s t : string) : bool :=
  match s with
  | EmptyString => bool_decide (t = EmptyString)
  | String a s' => match fold_rune a t with Some t' => EqualFold s' t' | None => false end
  end.

(** The longest run of digits in front, as a number, and whether there is one. *)
Fixpoint digits (acc : Z) (s : string) : Z :=
  match s with
  | String c r => if in_range "0" c "9" then digits (10 * acc + (ascii_Z c - 48)) r else acc
  | EmptyString => acc
  end.
Definition scanNumber (s : string) : option Z :=
  match s with
  | String c _ => if in_range "0" c "9" then Some (digits 0 s) else None
  | EmptyString => None
  end.

(** Spaces of a line. *)
Definition line_spaces : list string := filter (fun x => x <> utf8 [10]%N) spaces.

(** [fmt.Sscanf(s, "%d", &v)] for a [v] of type [int], [None] when it fails. *)
Definition Sscanf_int (s : string) : option Z :=
  let '(neg, rest) := match TrimLeft line_spaces s with
                      | String "-" r => (true, r)
                      | String "+" r => (false, r)
                      | t => (false, t)
                      end in
  n ← scanNumber rest;
  let v := if (neg : bool) then - n else n in
  if (- 2 ^ 63 <=? v) && (v <? 2 ^ 63) then Some v else None.

(** The same for a [v] of type [uint8], where no sign is accepted. *)
Definition Sscanf_uint8 (s : string) : option Z :=
  n ← scanNumber (TrimLeft line_spaces s);
  if n <? 2 ^ 8 then Some n else None.
