(* ===== verification/GoFormat.v ===== *)
(** * Go's formats and durations

    What package cli uses of [strings], [strconv], [fmt] and [time] beyond
    GoText: words, decimal numbers, padding by runes, the verb [%f] with a
    precision, and durations, which are numbers of nanoseconds. *)
From S2P Require Import Prelude GoText Float64.
#[local] Open Scope string_scope.
#[local] Open Scope Z_scope.

Definition dec (z : Z) : string := pretty z.
Definition nl : string := String newline EmptyString.

(** ** Words and numbers *)

(** [strings.Fields]; [skip] bytes of a space are still to be left out. *)
Fixpoint Fields_loop (skip : nat) (field s : string) : list string :=
  let done := if bool_decide (field = EmptyString) then [] else [field] in
  match s with
  | EmptyString => done
  | String c r =>
      match skip with
      | S skip => Fields_loop skip field r
      | O => match list_find (HasPrefix s) spaces with
             | Some (_, p) => (done ++ Fields_loop (String.length p - 1) EmptyString r)%list
             | None => Fields_loop 0 (field +:+ String c EmptyString) r
             end
      end
  end.
Definition Fields : string -> list string := Fields_loop 0 EmptyString.

Fixpoint all_digits (s : string) : bool :=
  match s with EmptyString => true | String c r => in_range "0" c "9" && all_digits r end.

(** [strconv.Atoi], [None] when it fails. *)
Definition Atoi (s : string) : option Z :=
  let '(neg, rest) := match s with String "-" r => (true, r) | String "+" r => (false, r) | _ => (false, s) end in
  if bool_decide (rest = EmptyString) || negb (all_digits rest) then None
  else
    let v := if (neg : bool) then - digits 0 rest else digits 0 rest in
    if (- 2 ^ 63 <=? v) && (v <? 2 ^ 63) then Some v else None.

(** ** Runes *)

(** The number of bytes of the rune in front; a byte that is no UTF-8 counts as a rune. *)
Definition rune_size (s : string) : nat :=
  let btw lo hi c := (lo <=? ascii_Z c) && (ascii_Z c <=? hi) in
  let cont := btw 128 191 in
  match s with
  | String a (String b r) =>
      if btw 194 223 a && cont b then 2%nat
      else
        match r with
        | String c r =>
            if cont c && ((btw 224 224 a && btw 160 191 b) || ((btw 225 236 a || btw 238 239 a) && cont b) || (btw 237 237 a && btw 128 159 b))
            then 3%nat
            else
              match r with
              | String d _ =>
                  if cont c && cont d && ((btw 240 240 a && btw 144 191 b) || (btw 241 243 a && cont b) || (btw 244 244 a && btw 128 143 b))
                  then 4%nat else 1%nat
              | _ => 1%nat
              end
        | _ => 1%nat
        end
  | _ => 1%nat
  end.

(** [utf8.ValidString]. *)
Fixpoint valid_from (skip : nat) (s : string) : bool :=
  match s with
  | EmptyString => true
  | String c r =>
      match skip with
      | S skip => valid_from skip r
      | O => ((2 <=? rune_size s)%nat || (ascii_Z c <? 128)) && valid_from (rune_size s - 1) r
      end
  end.
Definition ValidString : string -> bool := valid_from 0.

Fixpoint rune_count (skip : nat) (s : string) : nat :=
  match s with
  | EmptyString => 0
  | String _ r => match skip with S skip => rune_count skip r | O => S (rune_count (rune_size s - 1) r) end
  end.
Definition RuneCount : string -> nat := rune_count 0.

Lemma ValidString_hex b : ValidString (hex b) = true.
Proof.
  unfold ValidString. induction b as [|x b IH]; [done|]. cbn [hex valid_from].
  assert (forall c r, ascii_Z c < 128 -> rune_size (String c r) = 1%nat) as Hone.
  { intros c r Hc. unfold rune_size. assert (forall lo, 128 <= lo -> (lo <=? ascii_Z c) = false) as Hlo by (intros; lia).
    rewrite !Hlo by lia. destruct r as [|? [|? [|? ?]]]; cbn; by rewrite ?andb_false_r. }
  assert (ascii_Z (hex_digit (byte_val x / 16)) < 128 /\ ascii_Z (hex_digit (byte_val x mod 16)) < 128) as [H1 H2] by (by destruct x; vm_compute).
  rewrite !Hone by done. cbn [Nat.leb orb Nat.sub valid_from]. rewrite !(proj2 (Z.ltb_lt _ _)) by done. exact IH.
Qed.

Fixpoint repeat_string (s : string) (n : nat) : string := match n with O => EmptyString | S n => s +:+ repeat_string s n end.

(** The verb [%-ws]. *)
Definition pad_right (w : nat) (s : string) : string := s +:+ repeat_string " " (w - RuneCount s).

(** [s[:n]], which panics when there are fewer bytes. *)
Definition slice_to (n : nat) (s : string) : outcome string :=
  if (String.length s <? n)%nat then Panic else Ok (String.substring 0 n s).

(** ** Numbers with a fraction *)

Definition pad_left0 (w : nat) (s : string) : string := repeat_string "0" (w - String.length s) +:+ s.

(** [n / d] rounded to an integer, ties to even. *)
Definition div_even (n d : Z) : Z :=
  let q := n / d in
  let r := n mod d in
  if (2 * r <? d) || ((2 * r =? d) && Z.even q) then q else q + 1.

(** The verb [%.pf]. *)
Definition format_f (p : nat) (x : f64) : string :=
  let sign (s : bool) := if s then "-" else EmptyString in
  let digits n := dec (n / 10 ^ Z.of_nat p) +:+
                  (if (p =? 0)%nat then EmptyString else "." +:+ pad_left0 p (dec (n mod 10 ^ Z.of_nat p))) in
  match x with
  | S754_zero s => sign s +:+ digits 0
  | S754_infinity s => (if s then "-Inf" else "+Inf")
  | S754_nan => "NaN"
  | S754_finite s m e =>
      sign s +:+ digits (if 0 <=? e then Z.pos m * 2 ^ e * 10 ^ Z.of_nat p else div_even (Z.pos m * 10 ^ Z.of_nat p) (2 ^ (- e)))
  end.

(** ** Durations *)

Definition Microsecond : Z := 1000.
Definition Millisecond : Z := 1000000.
Definition Second : Z := 1000000000.
Definition Minute : Z := 60 * Second.
Definition Hour : Z := 60 * Minute.
Definition micro : string := utf8 [194; 181]%N.

(** The fraction of [v / 10^p], without the zeros at its end. *)
Fixpoint drop_zeros (s : string) : string := match s with String "0" r => drop_zeros r | _ => s end.
Definition fmt_frac (v : Z) (p : nat) : string :=
  match drop_zeros (reverse (pad_left0 p (dec (v mod 10 ^ Z.of_nat p)))) with
  | EmptyString => EmptyString
  | s => "." +:+ reverse s
  end.

(** [Duration.String] *)
Definition Duration_String (d : Z) : string :=
  let u := Z.abs d in
  let with_frac p unit := dec (u / 10 ^ Z.of_nat p) +:+ fmt_frac u p +:+ unit in
  let sec := u / Second in
  let s := dec (sec mod 60) +:+ fmt_frac u 9 +:+ "s" in
  (if d <? 0 then "-" else EmptyString) +:+
  (if u =? 0 then "0s"
   else if u <? Microsecond then dec u +:+ "ns"
   else if u <? Millisecond then with_frac 3%nat (micro +:+ "s")
   else if u <? Second then with_frac 6%nat "ms"
   else if sec <? 60 then s
   else if sec <? 3600 then dec (sec / 60) +:+ "m" +:+ s
   else dec (sec / 3600) +:+ "h" +:+ dec (sec / 60 mod 60) +:+ "m" +:+ s).

(** [Duration.Round], to the nearest multiple, away from zero at a tie. *)
Definition Duration_Round (m d : Z) : Z :=
  if m <=? 0 then d
  else
    let r := Z.abs d mod m in
    if d <? 0 then if 2 * r <? m then d + r else Z.max (- 2 ^ 63) (d - m + r)
    else if 2 * r <? m then d - r else Z.min (2 ^ 63 - 1) (d + m - r).

(** *** [time.ParseDuration] *)

Definition is_digit (c : ascii) : bool := in_range "0" c "9".

(** The digits in front and what follows them. *)
Fixpoint span (p : ascii -> bool) (s : string) : string * string :=
  match s with
  | String c r => if p c then (String c (span p r).1, (span p r).2) else (EmptyString, s)
  | EmptyString => (EmptyString, EmptyString)
  end.

(** [leadingFraction]: digits that no longer fit are left out; the scale is a power of ten. *)
Fixpoint fraction (f : Z) (scale : f64) (s : string) : Z * f64 :=
  match s with
  | String c r =>
      if (2 ^ 63 - 1) / 10 <? f then (f, scale)
      else
        let y := f * 10 + (ascii_Z c - 48) in
        if 2 ^ 63 <? y then (f, scale) else fraction y (f64_mul scale (f64_of_Z 10)) r
  | EmptyString => (f, scale)
  end.

Definition units : list (string * Z) :=
  [("ns", 1); ("us", Microsecond); (utf8 [194; 181]%N +:+ "s", Microsecond); (utf8 [206; 188]%N +:+ "s", Microsecond);
   ("ms", Millisecond); ("s", Second); ("m", Minute); ("h", Hour)].

Definition guard_le (v bound : Z) : option unit := if v <=? bound then Some tt else None.

(** As many rounds as there are bytes: every round takes one at least. *)
Fixpoint durations (fuel : nat) (d : Z) (s : string) : option Z :=
  match fuel, s with
  | _, EmptyString => Some d
  | O, _ => None
  | S fuel, _ =>
      let '(whole, rest) := span is_digit s in
      let v := GoText.digits 0 whole in
      _ ← guard_le v (2 ^ 63);
      let '(frac, rest) := match rest with String "." r => span is_digit r | _ => (EmptyString, rest) end in
      if bool_decide (whole = EmptyString) && bool_decide (frac = EmptyString) then None
      else
        let '(unit, rest) := span (fun c => negb (is_digit c || bool_decide (c = "."%char))) rest in
        '(_, u) ← snd <$> list_find (fun x => x.1 = unit) units;
        _ ← guard_le v (2 ^ 63 / u);
        let v := v * u in
        let '(f, scale) := fraction 0 f64_1 frac in
        let v := if 0 <? f then v + f64_trunc (f64_mul (f64_of_Z f) (f64_div (f64_of_Z u) scale)) else v in
        _ ← guard_le v (2 ^ 63);
        _ ← guard_le (d + v) (2 ^ 63);
        durations fuel (d + v) rest
  end.

Definition ParseDuration (s : string) : option Z :=
  let '(neg, s) := match s with String "-" r => (true, r) | String "+" r => (false, r) | _ => (false, s) end in
  if bool_decide (s = "0") then Some 0
  else if bool_decide (s = EmptyString) then None
  else
    d ← durations (String.length s) 0 s;
    if (neg : bool) then Some (- d) else if 2 ^ 63 - 1 <? d then None else Some d.

(** ** Examples *)

Example fields_words : Fields "  /add  k  Bob " = ["/add"; "k"; "Bob"].
Proof. vm_compute. reflexivity. Qed.
Example format_percent : format_f 1 (f64_mul (f64_lit 2 3) (f64_of_Z 100)) = "66.7" /\ format_f 0 (f64_lit 5 2) = "2".
Proof. vm_compute. done. Qed.
Example duration_texts :
  Duration_String (90 * Second + 500 * Millisecond) = "1m30.5s" /\ Duration_String (30 * Second) = "30s" /\
  Duration_String 1500 = "1.5" +:+ micro +:+ "s" /\ Duration_String (25 * Hour) = "25h0m0s".
Proof. vm_compute. done. Qed.
Example durations_parsed :
  ParseDuration "1m30s" = Some (90 * Second) /\ ParseDuration "-1.5h" = Some (- 90 * Minute) /\ ParseDuration "30" = None /\
  ParseDuration ".5s" = Some (500 * Millisecond).
Proof. vm_compute. done. Qed.
