(* ===== verification/PeerPrune.v ===== *)
(** * pkg/storage: pruning the known peers

    [PeerRecord.SuccessRate], [IsStale] of [storage.go] and [PrunePeers] of
    [badger.go], over the storage of Storage.v.  Instants are nanoseconds.
    [sort.Slice] leaves equal peers in some order: its result is an argument. *)
From Stdlib Require Import Sorting.Sorted.
From S2P Require Import Prelude Proto Badger Storage StorageProps Float64.
#[local] Open Scope Z_scope.

Definition f64_eq (x y : f64) : bool := SFeqb x y.
Definition DayNanos : Z := 24 * 3600 * 10 ^ 9.

Definition SuccessRate (p : PeerRecord) : f64 :=
  let total := i64 (ConnectCount p + FailCount p) in
  if total =? 0 then f64_0 else f64_div (f64_of_Z (ConnectCount p)) (f64_of_Z total).

(** [time.Since(p.LastSeen) > maxAge] *)
Definition IsStale (maxAge now : Z) (p : PeerRecord) : bool := maxAge <? now - LastSeen p.

(** The comparison of the sort: [a] is to come before [b]. *)
Definition ranks_before (a b : PeerRecord) : bool :=
  if negb (f64_eq (SuccessRate a) (SuccessRate b)) then f64_lt (SuccessRate b) (SuccessRate a)
  else LastSeen b <? LastSeen a.

(** The loop over the lowest-ranked peers. *)
Fixpoint mark (l : list PeerRecord) (peersToDelete : list string) : list string :=
  match l with
  | [] => peersToDelete
  | p :: l => mark l (if bool_decide (PeerID p ∈ peersToDelete) then peersToDelete else peersToDelete ++ [PeerID p])
  end.

Definition peers_to_delete (cutoff keepCount : Z) (allPeers : list PeerRecord) : list string :=
  let stale := PeerID <$> filter (fun p => LastSeen p < cutoff) allPeers in
  if (0 <? keepCount) && (keepCount <? Z.of_nat (length allPeers))
  then mark (drop (Z.to_nat keepCount) allPeers) stale else stale.

Section Prune.
Context `{K : KV} `{!Codec PeerRecord}.
Abbreviation S := (GoM kv).

(** Deleting peers in one transaction. *)
Definition delete_peers (peersToDelete : list string) : S unit := fun d =>
  match fold_left (fun od id => d' ← od; kv_delete (peerKey id) d') peersToDelete (Some d) with
  | Some d' => (d', Ok tt)
  | None => (d, Err (ErrWrap "failed to delete stale peers" (ErrExt "badger")))
  end.

Definition PrunePeers (sorted : list PeerRecord -> list PeerRecord) (now maxAgeDays keepCount : Z) : S unit :=
  let cutoff := now + i64 (- i64 (maxAgeDays * DayNanos)) in
  scanned ← db_list "failed to scan peers for pruning" (str peerPrefix) (fun data => ext "json.Unmarshal" (unmarshal data));
  let peersToDelete := peers_to_delete cutoff keepCount (sorted scanned) in
  match peersToDelete with
  | [] => mret tt
  | _ => delete_peers peersToDelete
  end.

(** ** What is left *)

Lemma mark_elem l ids id : id ∈ mark l ids <-> id ∈ ids \/ id ∈ PeerID <$> l.
Proof.
  revert ids. induction l as [|p l IH]; intros ids; cbn; [rewrite elem_of_nil; tauto|].
  rewrite IH, elem_of_cons. case_bool_decide as E.
  - assert (id = PeerID p -> id ∈ ids) by (by intros ->). tauto.
  - rewrite elem_of_app, list_elem_of_singleton. tauto.
Qed.

(** The sort has done its work: what it was given, best first. *)
Definition ranked (l sorted : list PeerRecord) : Prop :=
  sorted ≡ₚ l /\ StronglySorted (fun a b => ranks_before b a = false) sorted.

(** A peer is kept when it is fresh and among the first [keepCount]. *)
Definition kept (cutoff keepCount : Z) (sorted : list PeerRecord) (p : PeerRecord) : Prop :=
  cutoff <= LastSeen p /\ (0 < keepCount -> p ∈ take (Z.to_nat keepCount) sorted).

Lemma peers_to_delete_kept cutoff keepCount sorted p :
  NoDup (PeerID <$> sorted) -> p ∈ sorted ->
  PeerID p ∉ peers_to_delete cutoff keepCount sorted <-> kept cutoff keepCount sorted p.
Proof.
  intros Hnd Hp.
  assert (forall q, q ∈ sorted -> PeerID p = PeerID q -> p = q) as Hinj.
  { intros q Hq E. apply list_elem_of_lookup in Hp as [i Hi], Hq as [j Hj].
    assert (i = j) as ->; [|congruence]. eapply NoDup_lookup; [exact Hnd|rewrite list_lookup_fmap, Hi; done|].
    by rewrite list_lookup_fmap, Hj, E. }
  assert (PeerID p ∉ PeerID <$> filter (fun q => LastSeen q < cutoff) sorted <-> cutoff <= LastSeen p) as Hstale.
  { rewrite list_elem_of_fmap. split.
    - intros Hn. apply Z.nlt_ge. intros Hlt. apply Hn. exists p. by rewrite list_elem_of_filter.
    - intros Hle (q & E & [Hq Hin]%list_elem_of_filter). rewrite (Hinj q Hin E) in Hle. lia. }
  set (k := Z.to_nat keepCount).
  assert (PeerID p ∉ PeerID <$> drop k sorted <-> p ∈ take k sorted) as Hdrop.
  { rewrite <- (take_drop k sorted) in Hnd, Hp. rewrite fmap_app in Hnd. apply NoDup_app in Hnd as (_ & Hdis & _).
    rewrite list_elem_of_fmap. split.
    - intros Hn. apply elem_of_app in Hp as [?|Hp]; [done|]. destruct Hn. by exists p.
    - intros Ht (q & E & Hq). assert (q ∈ sorted) as Hin by (rewrite <- (take_drop k sorted), elem_of_app; by right).
      pose proof (Hinj q Hin E) as ->. apply (Hdis (PeerID q)); apply list_elem_of_fmap; by exists q. }
  unfold peers_to_delete, kept. fold k. destruct (decide (0 < keepCount < Z.of_nat (length sorted))) as [Hk|Hk].
  - replace ((0 <? keepCount) && (keepCount <? Z.of_nat (length sorted))) with true by lia.
    rewrite mark_elem. tauto.
  - replace ((0 <? keepCount) && (keepCount <? Z.of_nat (length sorted))) with false by lia.
    rewrite Hstale. split; [|by intros []]. intros Hc. split; [done|]. intros Hpos. by rewrite take_ge by (unfold k; lia).
Qed.

Lemma peers_to_delete_subset cutoff keepCount sorted id :
  id ∈ peers_to_delete cutoff keepCount sorted -> id ∈ PeerID <$> sorted.
Proof.
  assert (id ∈ PeerID <$> filter (fun p => LastSeen p < cutoff) sorted -> id ∈ PeerID <$> sorted) as Hf.
  { rewrite !list_elem_of_fmap. intros (p & -> & [_ ?]%list_elem_of_filter). by exists p. }
  unfold peers_to_delete. destruct (_ && _); [|done]. rewrite mark_elem. intros [?|H]; [by apply Hf|].
  rewrite <- (take_drop (Z.to_nat keepCount) sorted), fmap_app, elem_of_app. by right.
Qed.

Context `{!KVLaws K}.

Lemma delete_peers_get ids d d' key :
  delete_peers ids d = (d', Ok tt) ->
  kv_get key d' = if decide (key ∈ peerKey <$> ids) then Some None else kv_get key d.
Proof.
  unfold delete_peers. intros H.
  assert (fold_left (fun od id => d' ← od; kv_delete (peerKey id) d') ids (Some d) = Some d') as E.
  { destruct (fold_left _ ids (Some d)); by simplify_eq. }
  clear H. revert d E. induction ids as [|id ids IH]; intros d; cbn; [by intros [= ->]|].
  destruct (kv_delete (peerKey id) d) as [d1|] eqn:Ed.
  - intros E. rewrite (IH d1 E). destruct (decide (key = peerKey id)) as [->|Hne].
    + rewrite (kv_get_delete _ _ _ Ed), (decide_True (P := peerKey id ∈ peerKey id :: _)) by (rewrite elem_of_cons; by left).
      by case_decide.
    + rewrite (kv_get_delete_ne _ _ _ _ Ed Hne). apply decide_ext. rewrite elem_of_cons. tauto.
  - intros E. exfalso. assert (fold_left (fun od id => d' ← od; kv_delete (peerKey id) d') ids None = None) as En; [|congruence].
    clear. by induction ids.
Qed.
Lemma delete_peers_total `{!KVTotal K} ids d : exists d', delete_peers ids d = (d', Ok tt).
Proof.
  unfold delete_peers. assert (exists d', fold_left (fun od id => d' ← od; kv_delete (peerKey id) d') ids (Some d) = Some d') as [d' ->]; [|by exists d'].
  revert d. induction ids as [|id ids IH]; intros d; cbn; [by exists d|].
  destruct (kv_delete_total (peerKey id) d) as [d1 ->]. apply IH.
Qed.

(** Every record is stored under the key of its peer, as [AddPeer] does. *)
Definition peers_stored (d : kv) : Prop := forall key data,
  str peerPrefix `prefix_of` key -> kv_get key d = Some (Some data) ->
  exists p, unmarshal data = Some p /\ key = peerKey (PeerID p).

Lemma peers_scanned items d : peers_stored d -> kv_scan (str peerPrefix) d = Some items ->
  exists l, Forall2 (fun kv p => unmarshal kv.2 = Some p /\ kv.1 = peerKey (PeerID p)) items l.
Proof.
  intros Hd Hs. destruct (kv_scan_spec _ _ _ Hs) as (_ & _ & Hin).
  assert (forall k v, (k, v) ∈ items -> exists p, unmarshal v = Some p /\ k = peerKey (PeerID p)) as H.
  { intros k v [Hp Hk]%Hin. by apply Hd. }
  clear Hs Hin. induction items as [|[k v] items IH]; [by exists []|].
  destruct (H k v) as (p & Hv & ->); [rewrite elem_of_cons; by left|].
  destruct IH as [l Hl]; [intros k' v' Hkv; apply H; rewrite elem_of_cons; by right|].
  exists (p :: l). by constructor.
Qed.

#[export] Instance peerKey_inj : Inj (=) (=) peerKey.
Proof. unfold peerKey. intros a b H%app_inv_head. by apply str_inj in H. Qed.

(** All that pruning promises, over the peers [l] ranked as [sorted]. *)
Record pruned (cutoff keepCount : Z) (l sorted : list PeerRecord) (d d' : kv) : Prop := {
  pr_kept p : p ∈ l -> kept cutoff keepCount sorted p -> GetPeer (PeerID p) d' = (d', Ok (Some p));
  pr_gone p : p ∈ l -> ~ kept cutoff keepCount sorted p -> kv_get (peerKey (PeerID p)) d' = Some None;
  pr_others key : key ∉ peerKey <$> (PeerID <$> l) -> kv_get key d' = kv_get key d;
  pr_bound ps : 0 < keepCount -> NoDup ps -> Forall (kept cutoff keepCount sorted) ps -> Z.of_nat (length ps) <= keepCount;
  pr_best p q : q ∈ l -> kept cutoff keepCount sorted p -> cutoff <= LastSeen q -> ~ kept cutoff keepCount sorted q ->
    0 < keepCount /\ ranks_before q p = false;
}.

Lemma kept_best cutoff keepCount l sorted p q :
  ranked l sorted -> q ∈ l -> kept cutoff keepCount sorted p -> cutoff <= LastSeen q -> ~ kept cutoff keepCount sorted q ->
  0 < keepCount /\ ranks_before q p = false.
Proof.
  intros [HP HS] Hq [_ Hp] Hfresh Hn. destruct (decide (0 < keepCount)) as [Hk|Hk]; [|by destruct Hn].
  split; [done|]. specialize (Hp Hk). set (k := Z.to_nat keepCount) in *. rewrite <- HP in Hq.
  rewrite <- (take_drop k sorted) in Hq, HS. apply elem_of_app in Hq as [Hq|Hq]; [by destruct Hn|].
  clear -HS Hp Hq. induction (take k sorted) as [|a r IH]; [by apply not_elem_of_nil in Hp|]. cbn in HS.
  apply StronglySorted_inv in HS as [HS Ha]. apply elem_of_cons in Hp as [->|Hp]; [|by apply IH].
  rewrite Forall_forall in Ha. apply Ha, elem_of_app. by right.
Qed.

Lemma kept_bound cutoff keepCount sorted ps :
  0 < keepCount -> NoDup ps -> Forall (kept cutoff keepCount sorted) ps -> Z.of_nat (length ps) <= keepCount.
Proof.
  intros Hk Hnd Hps. assert (ps ⊆+ take (Z.to_nat keepCount) sorted) as Hs.
  { apply NoDup_submseteq; [done|]. intros p Hp. rewrite Forall_forall in Hps. by apply Hps. }
  apply submseteq_length in Hs. rewrite length_take in Hs. lia.
Qed.

Lemma read_records items l :
  Forall2 (fun kv p => unmarshal kv.2 = Some p /\ kv.1 = peerKey (PeerID p)) items l ->
  foldr (fun (kv : bytes * bytes) r => p ← ext "json.Unmarshal" (unmarshal kv.2); t ← r; mret (p :: t)) (mret []) items = Ok l.
Proof. induction 1 as [|kv p items l [Hp _] _ IH]; cbn; [done|]. by rewrite Hp, IH. Qed.

Lemma listed items l d : kv_scan (str peerPrefix) d = Some items ->
  Forall2 (fun kv p => unmarshal kv.2 = Some p /\ kv.1 = peerKey (PeerID p)) items l -> ListPeers 0 d = (d, Ok l).
Proof.
  intros Hs Hl. unfold ListPeers. rewrite Hs. cbn. by rewrite (read_records _ _ Hl).
Qed.

Lemma listed_NoDup items l d : kv_scan (str peerPrefix) d = Some items ->
  Forall2 (fun kv p => unmarshal kv.2 = Some p /\ kv.1 = peerKey (PeerID p)) items l -> NoDup (PeerID <$> l).
Proof.
  intros Hs Hl. apply (NoDup_fmap_1 peerKey). replace (peerKey <$> (PeerID <$> l)) with items.*1; [apply (kv_scan_spec _ _ _ Hs)|].
  clear Hs. induction Hl as [|kv p items l [_ Hk] _ IH]; cbn; [done|]. by rewrite Hk, IH.
Qed.

Lemma listed_get items l d p : kv_scan (str peerPrefix) d = Some items ->
  Forall2 (fun kv p => unmarshal kv.2 = Some p /\ kv.1 = peerKey (PeerID p)) items l -> p ∈ l ->
  exists data, kv_get (peerKey (PeerID p)) d = Some (Some data) /\ unmarshal data = Some p.
Proof.
  intros Hs Hl Hp. apply list_elem_of_lookup in Hp as [i Hi]. destruct (Forall2_lookup_r _ _ _ _ _ Hl Hi) as ([k data] & Hk & E & Ek). cbn in E, Ek. subst k.
  exists data. split; [|done]. apply (kv_scan_spec _ _ _ Hs). apply list_elem_of_lookup. by exists i.
Qed.

Lemma PrunePeers_run `{!KVTotal K} sorted now maxAgeDays keepCount d items l : kv_scan (str peerPrefix) d = Some items ->
  Forall2 (fun kv p => unmarshal kv.2 = Some p /\ kv.1 = peerKey (PeerID p)) items l ->
  exists d', PrunePeers sorted now maxAgeDays keepCount d = (d', Ok tt) /\
    forall key, kv_get key d' =
      if decide (key ∈ peerKey <$> peers_to_delete (now + i64 (- i64 (maxAgeDays * DayNanos))) keepCount (sorted l)) then Some None else kv_get key d.
Proof.
  intros Hs Hl. unfold PrunePeers. rewrite (bind_Ok _ _ d d l); [|apply (db_list_Ok _ _ _ _ items l Hs)].
  - cbv zeta. set (ids := peers_to_delete _ _ _). destruct (delete_peers_total ids d) as [d' Hdel]. destruct ids as [|id ids'].
    + exists d. split; [done|]. intros key. by rewrite decide_False by apply not_elem_of_nil.
    + exists d'. split; [done|]. intros key. by apply delete_peers_get.
  - eapply Forall2_impl; [exact Hl|]. intros kv p [Hp _]. by rewrite Hp.
Qed.

(** Pruning keeps exactly the peers that are fresh and rank among the first; no peer that was removed while fresh
    ranks before one that was kept, at most the given number is kept, each readable as before,
    and no other record changes. *)
Theorem prune_peers_exact `{!KVTotal K} sorted now maxAgeDays keepCount d :
  peers_stored d -> (forall l, ListPeers 0 d = (d, Ok l) -> ranked l (sorted l)) ->
  exists d' l, PrunePeers sorted now maxAgeDays keepCount d = (d', Ok tt) /\ ListPeers 0 d = (d, Ok l) /\
    pruned (now + i64 (- i64 (maxAgeDays * DayNanos))) keepCount l (sorted l) d d'.
Proof.
  intros Hd Hsorted. destruct (kv_scan_total (str peerPrefix) d) as [items Hs].
  destruct (peers_scanned _ _ Hd Hs) as [l Hl]. set (cutoff := now + i64 (- i64 (maxAgeDays * DayNanos))).
  pose proof (listed _ _ _ Hs Hl) as Hlist. pose proof (Hsorted l Hlist) as Hr. destruct (PrunePeers_run sorted now maxAgeDays keepCount d items l Hs Hl) as (d' & Hrun & Hget).
  fold cutoff in Hget. set (ids := peers_to_delete cutoff keepCount (sorted l)) in *.
  assert (forall p, p ∈ l -> peerKey (PeerID p) ∉ peerKey <$> ids <-> kept cutoff keepCount (sorted l) p) as Hkept.
  { intros p Hp. rewrite <- peers_to_delete_kept by (rewrite (proj1 Hr); eauto using listed_NoDup). by rewrite (list_elem_of_fmap_inj peerKey). }
  exists d', l. split; [done|]. split; [done|]. split.
  - intros p Hp Hk%Hkept; [|done]. unfold GetPeer, db_get. rewrite Hget, decide_False by done.
    destruct (listed_get _ _ _ _ Hs Hl Hp) as (data & -> & E). by rewrite E.
  - intros p Hp Hn. rewrite Hget, decide_True; [done|]. destruct (decide (peerKey (PeerID p) ∈ peerKey <$> ids)); [done|]. by destruct Hn; apply Hkept.
  - intros key Hkey. rewrite Hget, decide_False; [done|]. intros (id & -> & Hid)%list_elem_of_fmap. apply Hkey.
    rewrite (list_elem_of_fmap_inj peerKey), <- (proj1 Hr). by eapply peers_to_delete_subset.
  - intros ps. apply kept_bound.
  - intros p q. by apply kept_best.
Qed.
End Prune.

(** ** Three peers, of which two are to be kept *)

Module PruneDemo.
(** Five days after the instant 5. *)
Definition now : Z := 5 + 5 * DayNanos.
Definition reliable : PeerRecord := mkPeerRecord "reliable" [] 0 1 1 4 0 "" [] 0.
Definition fair : PeerRecord := mkPeerRecord "fair" [] 0 9 9 1 1 "" [] 0.
Definition poor : PeerRecord := mkPeerRecord "poor" [] 0 10 10 0 3 "" [] 0.

(** An insertion sort, as [sort.Slice] does for few elements. *)
Fixpoint place (p : PeerRecord) (l : list PeerRecord) : list PeerRecord :=
  match l with
  | q :: r => if ranks_before q p then q :: place p r else p :: l
  | [] => [p]
  end.
Definition sort_peers (l : list PeerRecord) : list PeerRecord := foldr place [] l.

Definition peers : list PeerRecord := [fair; poor; reliable].

(** A record is encoded by the name of its peer. *)
#[export] Instance PeerRecord_codec : Codec PeerRecord := {|
  marshal p := Some (str (PeerID p));
  unmarshal data := snd <$> list_find (fun p => str (PeerID p) = data) peers;
|}.
Definition store_of (l : list PeerRecord) : gmap bytes bytes :=
  foldr (fun p d => <[peerKey (PeerID p) := default [] (marshal p)]> d) ∅ l.

Lemma store_stored : peers_stored (K := gmap_kv) (store_of peers).
Proof.
  intros key data _ H. injection H as H. revert H. unfold store_of, peers. cbn [foldr].
  rewrite !lookup_insert_Some, lookup_empty.
  intros [[<- <-]|[_ [[<- <-]|[_ [[<- <-]|[_ [=]]]]]]]; eexists; (split; [vm_compute; reflexivity | reflexivity]).
Qed.
End PruneDemo.
Import PruneDemo.

(** The stale peer takes one of the two places: one peer is left, and the other fresh one is removed. *)
Lemma prune_peers_exact_witness : exists d l,
  PrunePeers (K := gmap_kv) sort_peers now 5 2 (store_of peers) = (d, Ok tt) /\
  pruned (K := gmap_kv) 5 2 l (sort_peers l) (store_of peers) d /\
  l = peers /\ ListPeers (K := gmap_kv) 0 d = (d, Ok [fair]).
Proof.
  assert (ListPeers (K := gmap_kv) 0 (store_of peers) = (store_of peers, Ok peers)) as E.
  { apply (f_equal (pair (store_of peers))). vm_compute. reflexivity. }
  destruct (@prune_peers_exact gmap_kv _ _ _ sort_peers now 5 2 (store_of peers)) as (d & l & Hp & Hl & H).
  - apply store_stored.
  - intros l Hl. rewrite E in Hl. injection Hl as <-. assert (sort_peers peers = [reliable; fair; poor]) as -> by (vm_compute; reflexivity).
    split; [exact (Permutation_cons_append [fair; poor] reliable)|]. repeat constructor; vm_compute; reflexivity.
  - exists d, l. split; [exact Hp|]. split; [exact H|]. rewrite E in Hl. injection Hl as <-. split; [reflexivity|].
    apply (f_equal fst) in Hp. cbn [fst] in Hp. rewrite <- Hp. apply (f_equal (pair _)). vm_compute. reflexivity.
Defined.
