(* ===== verification/Metrics.v ===== *)
(** * pkg/ipfsnode: network metrics and the score of a peer

    [metrics.go] whole, and from [node.go] what is kept of the connections to each
    peer.  Instants are nanoseconds, the zero time is [None]; Go's integers wrap
    around at their width. *)
From S2P Require Import Prelude Runtime Float64.

(** A 32-bit signed integer. *)
Definition i32 (z : Z) : Z := (z + 2 ^ 31) mod 2 ^ 32 - 2 ^ 31.

Definition Seconds (d : Z) : f64 :=
  f64_add (f64_of_Z (Z.quot d SecondNs)) (f64_div (f64_of_Z (Z.rem d SecondNs)) (f64_of_Z SecondNs)).
(** [int64(time.Since(start).Seconds())] *)
Definition uptime (now start : Z) : Z := f64_trunc (Seconds (now - start)).

(** ** metrics.go *)

(** Without the [PeerID], which is never set. *)
Record NetworkMetrics := mkNetworkMetrics {
  TotalConnections : Z; TotalDisconnections : Z; CurrentConnections : Z;
  DHTDiscoveries : Z; MDNSDiscoveries : Z; PeerExchangeDiscoveries : Z;
  BootstrapAttempts : Z; BootstrapSuccesses : Z; LastBootstrapTime : option Z;
  AverageLatencyMs : Z; SuccessfulMessages : Z; FailedMessages : Z; StartTime : Z; UptimeSeconds : Z;
}.
#[export] Instance eta_NetworkMetrics : Eta NetworkMetrics := fun m =>
  mkNetworkMetrics (TotalConnections m) (TotalDisconnections m) (CurrentConnections m) (DHTDiscoveries m) (MDNSDiscoveries m)
    (PeerExchangeDiscoveries m) (BootstrapAttempts m) (BootstrapSuccesses m) (LastBootstrapTime m) (AverageLatencyMs m)
    (SuccessfulMessages m) (FailedMessages m) (StartTime m) (UptimeSeconds m).

Record ConnectionEvent := mkConnectionEvent { ce_PeerID : string; ce_Connected : bool; ce_Timestamp : Z; ce_LatencyMs : Z }.

Record MetricsCollector := mkCollector {
  metrics : NetworkMetrics; connectionHistory : list ConnectionEvent; maxHistorySize : nat; discoveryBySource : gmap string Z;
}.
#[export] Instance eta_Collector : Eta MetricsCollector := fun c =>
  mkCollector (metrics c) (connectionHistory c) (maxHistorySize c) (discoveryBySource c).

Definition NewMetricsCollector (now : Z) : MetricsCollector :=
  mkCollector (mkNetworkMetrics 0 0 0 0 0 0 0 0 None 0 0 0 now 0) [] 100 ∅.

Definition addConnectionEvent (event : ConnectionEvent) (c : MetricsCollector) : MetricsCollector :=
  let history := connectionHistory c ++ [event] in
  c <| connectionHistory := if (maxHistorySize c <? length history)%nat
                            then drop (length history - maxHistorySize c) history else history |>.

Definition in_metrics (f : NetworkMetrics -> NetworkMetrics) (c : MetricsCollector) : MetricsCollector :=
  c <| metrics := f (metrics c) |>.

Definition updateAverageLatency (newLatency : Z) (m : NetworkMetrics) : outcome NetworkMetrics :=
  let total := TotalConnections m in
  if total =? 1 then Ok (m <| AverageLatencyMs := newLatency |>)
  else if total =? 0 then Panic
  else
    let oldTotal := i64 (AverageLatencyMs m * (total - 1)) in
    Ok (m <| AverageLatencyMs := i64 (Z.quot (i64 (oldTotal + newLatency)) total) |>).

Section Collector.
Abbreviation M := (GoM (Sys MetricsCollector)).

Definition RecordConnection (peerID : string) (latencyMs : Z) : M unit :=
  _ ← update (in_metrics (fun m => m <| TotalConnections := i64 (TotalConnections m + 1) |>
                                     <| CurrentConnections := i32 (CurrentConnections m + 1) |>));
  now ← time_now;
  _ ← update (in_metrics (fun m => m <| UptimeSeconds := uptime now (StartTime m) |>));
  now ← time_now;
  _ ← update (addConnectionEvent (mkConnectionEvent peerID true now latencyMs));
  c ← self;
  m ← lift (updateAverageLatency latencyMs (metrics c));
  update (fun c => c <| metrics := m |>).

Definition RecordDisconnection (peerID : string) : M unit :=
  _ ← update (in_metrics (fun m => m <| TotalDisconnections := i64 (TotalDisconnections m + 1) |>));
  _ ← update (in_metrics (fun m => if 0 <? CurrentConnections m
                                   then m <| CurrentConnections := i32 (CurrentConnections m - 1) |> else m));
  now ← time_now;
  _ ← update (in_metrics (fun m => m <| UptimeSeconds := uptime now (StartTime m) |>));
  now ← time_now;
  update (addConnectionEvent (mkConnectionEvent peerID false now 0)).

Definition count_discovery (source : string) (m : NetworkMetrics) : NetworkMetrics :=
  if bool_decide (source = "dht") then m <| DHTDiscoveries := i64 (DHTDiscoveries m + 1) |>
  else if bool_decide (source = "mdns") then m <| MDNSDiscoveries := i64 (MDNSDiscoveries m + 1) |>
  else if bool_decide (source = "peer_exchange") then m <| PeerExchangeDiscoveries := i64 (PeerExchangeDiscoveries m + 1) |>
  else m.
Definition RecordDiscovery (source : string) : M unit :=
  _ ← update (in_metrics (count_discovery source));
  update (fun c => c <| discoveryBySource := <[source := i64 (default 0 (discoveryBySource c !! source) + 1)]> (discoveryBySource c) |>).

Definition RecordBootstrapAttempt : M unit :=
  update (in_metrics (fun m => m <| BootstrapAttempts := i64 (BootstrapAttempts m + 1) |>)).
Definition RecordBootstrapSuccess : M unit :=
  now ← time_now;
  update (in_metrics (fun m => m <| BootstrapSuccesses := i64 (BootstrapSuccesses m + 1) |> <| LastBootstrapTime := Some now |>)).
Definition RecordMessageSuccess : M unit :=
  update (in_metrics (fun m => m <| SuccessfulMessages := i64 (SuccessfulMessages m + 1) |>)).
Definition RecordMessageFailure : M unit :=
  update (in_metrics (fun m => m <| FailedMessages := i64 (FailedMessages m + 1) |>)).

Definition GetMetrics : M NetworkMetrics :=
  c ← self; now ← time_now; mret (metrics c <| UptimeSeconds := uptime now (StartTime (metrics c)) |>).
Definition GetDiscoveryBySource (c : MetricsCollector) : gmap string Z := discoveryBySource c.
Definition GetConnectionHistory (c : MetricsCollector) : list ConnectionEvent := connectionHistory c.
End Collector.

Definition GetConnectionSuccessRate (c : MetricsCollector) : f64 :=
  let total := BootstrapAttempts (metrics c) in
  if total =? 0 then f64_0 else f64_div (f64_of_Z (BootstrapSuccesses (metrics c))) (f64_of_Z total).

Definition GetMessageSuccessRate (c : MetricsCollector) : f64 :=
  let total := i64 (SuccessfulMessages (metrics c) + FailedMessages (metrics c)) in
  if total =? 0 then f64_1 else f64_div (f64_of_Z (SuccessfulMessages (metrics c))) (f64_of_Z total).

(** ** The score of a peer *)

Record PeerScore := mkPeerScore {
  ps_PeerID : string; ConnectCount : Z; DisconnectCount : Z; FailCount : Z; SuccessCount : Z;
  LastConnected : option Z; LastDisconnected : option Z; LatencyMs : Z; Score : f64;
}.
#[export] Instance eta_PeerScore : Eta PeerScore := fun s =>
  mkPeerScore (ps_PeerID s) (ConnectCount s) (DisconnectCount s) (FailCount s) (SuccessCount s) (LastConnected s)
    (LastDisconnected s) (LatencyMs s) (Score s).

Definition HourNs : Z := 3600 * SecondNs.
Definition f64_half : f64 := f64_lit 1 2.

Definition disconnect_penalty (p : PeerScore) : f64 :=
  if 5 <? DisconnectCount p then
    let penalty := f64_mul (f64_lit 1 10) (f64_of_Z (i64 (DisconnectCount p - 5))) in
    if f64_lt (f64_lit 3 10) penalty then f64_lit 3 10 else penalty
  else f64_0.

Definition recency_bonus (now : Z) (p : PeerScore) : f64 :=
  match LastConnected p with
  | None => f64_0
  | Some t => if now - t <? HourNs then f64_lit 1 10 else if now - t <? 24 * HourNs then f64_lit 5 100 else f64_0
  end.

(** The clock is read when there was a connection; without any attempt the default is
    returned and nothing is stored. *)
Definition computeScore (now : Z) (p : PeerScore) : PeerScore * f64 :=
  let total := i64 (ConnectCount p + FailCount p) in
  if total =? 0 then (p, f64_half)
  else
    let successRate := f64_div (f64_of_Z (SuccessCount p)) (f64_of_Z total) in
    let score := f64_add (f64_sub successRate (disconnect_penalty p)) (recency_bonus now p) in
    let score := if f64_lt score f64_0 then f64_0 else score in
    let score := if f64_lt f64_1 score then f64_1 else score in
    (p <| Score := score |>, score).

(** The event recorded, then the score. *)
Definition record_event (connected failed : bool) (now : Z) (s : PeerScore) : PeerScore :=
  if connected && negb failed then
    s <| ConnectCount := i64 (ConnectCount s + 1) |> <| SuccessCount := i64 (SuccessCount s + 1) |> <| LastConnected := Some now |>
  else if failed then s <| FailCount := i64 (FailCount s + 1) |>
  else s <| DisconnectCount := i64 (DisconnectCount s + 1) |> <| LastDisconnected := Some now |>.

Definition new_score (peerID : string) : PeerScore := mkPeerScore peerID 0 0 0 0 None None 0 f64_0.

(** [n.peerScores] *)
Abbreviation PeerScores := (gmap string PeerScore).

Definition updatePeerScore (peerID : string) (connected failed : bool) : GoM (Sys PeerScores) unit :=
  scores ← self;
  let score := default (new_score peerID) (scores !! peerID) in
  now ← (if negb failed then time_now else mret 0);
  let score := record_event connected failed now score in
  now ← (if (negb (i64 (ConnectCount score + FailCount score) =? 0)) && negb (bool_decide (LastConnected score = None))
         then time_now else mret 0);
  update (fun scores => <[peerID := (computeScore now score).1]> scores).

Definition getPeerScore (peerID : string) (scores : PeerScores) : f64 :=
  match scores !! peerID with Some score => Score score | None => f64_half end.

(** In the order of the iteration. *)
Definition getLowScorePeers (order : list string) (threshold : f64) (scores : PeerScores) : list string :=
  filter (fun id => match scores !! id with Some s => f64_lt (Score s) threshold | None => false end = true) order.
