(* ===== verification/Node.v ===== *)
(** * pkg/ipfsnode: the node

    The operations of [node.go] and [pubsub.go] the other packages use, and the
    upkeep of connections.  libp2p (host, DHT, PubSub, peer ids and
    multiaddresses) is outside the repository: [Libp2p] lists what is called, a
    call that may fail or time out returning an option.  What goes on in the
    network is its state [net].  Here a node is started or not; [Start],
    [Stop] and bootstrapping are in Bootstrap.v. *)
From S2P Require Import Prelude Primitives Runtime Float64 Metrics Topic.

Class Libp2p := {
  net : Type;
  pid : Type; pid_eq :: EqDecision pid;
  maddr : Type;
  peer_Decode : string -> option pid;
  peer_String : pid -> string;
  peer_bytes : pid -> bytes;
  NewMultiaddr : string -> option maddr;
  maddr_String : maddr -> string;
  AddrInfoFromP2pAddr : maddr -> option (pid * list maddr);
  host_ID : net -> pid;
  host_Addrs : net -> list maddr;
  host_Connect : pid -> list maddr -> net -> net * bool;
  host_Peers : net -> list pid;
  host_ConnAddrs : pid -> net -> list maddr;
  peerstore_Protocols : pid -> net -> option (list string);
  host_Connected : pid -> net -> bool;
  host_ClosePeer : pid -> net -> net * bool;
  peerstore_Addrs : pid -> net -> list maddr;
  dht_FindPeer : pid -> net -> option (pid * list maddr);
  dht_GetClosestPeers : pid -> net -> option (list pid);
  dht_RoutingTable : net -> list pid;
  dht_Provide : string -> net -> net * bool;
  cid_of : bytes -> option string;
  ps_Join : string -> net -> option net;
  ps_Subscribe : string -> net -> option net;
  ps_Publish : string -> bytes -> net -> option net;
  ps_ListPeers : string -> net -> list pid;
}.

Definition ErrNodeNotStarted : error := ErrText "IPFS node not started".
Definition ErrGetFailed : error := ErrText "failed to get data from IPFS".

(** [peer.AddrInfo] *)
Record AddrInfo `{L : Libp2p} := mkAddrInfo { ai_ID : pid; ai_Addrs : list maddr }.
Arguments mkAddrInfo {L} ai_ID ai_Addrs.

(** [n.pubsub != nil] is [n_pubsub]; the handles of joined topics are their names. *)
Record Node `{L : Libp2p} := mkNode {
  isStarted : bool; n_pubsub : bool; topicCache : gset string; peerScores : PeerScores; n_metrics : MetricsCollector;
  lastHealthCheck : option Z; mdnsCount : Z; lastPeerFound : option Z; peerCount : Z; bootstrapPeers : list string; the_net : net;
}.
Arguments Node L : clear implicits.
Arguments mkNode {L}.
#[export] Instance eta_Node `{L : Libp2p} : Eta (Node L) := fun n =>
  mkNode (isStarted n) (n_pubsub n) (topicCache n) (peerScores n) (n_metrics n) (lastHealthCheck n) (mdnsCount n) (lastPeerFound n)
    (peerCount n) (bootstrapPeers n) (the_net n).

Record TopicInfo := mkTopicInfo { ti_Topic : string; MeshSize : Z; FanoutSize : Z; SubscribedPeers : Z }.

Section Node.
Context `{P : Primitives} {L : Libp2p}.
Abbreviation M := (GoM (Sys (Node L))).

(** Calls into libp2p: one that changes the network or fails, and one that may do both. *)
Definition call (ctx origin : string) (f : net -> option net) : M unit :=
  n ← self;
  net ← lift (wrapErr ctx (ext origin (f (the_net n))));
  update (fun n => n <| the_net := net |>).
Definition call_bool (f : net -> net * bool) : M bool :=
  n ← self;
  _ ← update (fun n => n <| the_net := (f (the_net n)).1 |>);
  mret (f (the_net n)).2.

(** ** pubsub.go *)

Definition getOrJoin (topic : string) : M unit :=
  n ← self;
  if bool_decide (topic ∈ topicCache n) then mret tt
  else
    _ ← call "failed to join topic" "pubsub.Join" (ps_Join topic);
    update (fun n => n <| topicCache := {[topic]} ∪ topicCache n |>).

Definition closeAll : M unit := update (fun n => n <| topicCache := ∅ |>).

(** The checks at the beginning of the PubSub operations. *)
Definition pubsub_ready : M unit :=
  n ← self;
  if negb (isStarted n) then throw ErrNodeNotStarted
  else if negb (n_pubsub n) then throw (ErrText "PubSub not initialized")
  else mret tt.

(** The subscription is what it is subscribed to. *)
Definition Subscribe (topic : string) : M string :=
  _ ← pubsub_ready;
  _ ← getOrJoin topic;
  _ ← call "failed to subscribe" "pubsub.Subscribe" (ps_Subscribe topic);
  mret topic.

Definition Publish (topic : string) (data : bytes) : M unit :=
  _ ← pubsub_ready;
  _ ← getOrJoin topic;
  call "failed to publish" "pubsub.Publish" (ps_Publish topic data).

Definition PublishTo (pubKey data : bytes) : M unit := Publish (TopicFromPublicKey pubKey) data.

(** The wait is left at the first tick or at the timeout, whichever comes first: nothing
    of it shows in the result. *)
Definition PublishWithPeerWait (topic : string) (data : bytes) (timeout : Z) : M unit :=
  _ ← pubsub_ready;
  _ ← getOrJoin topic;
  call "failed to publish" "pubsub.Publish" (ps_Publish topic data).

Definition ListPeers (topic : string) : M (list pid) :=
  n ← self; mret (if n_pubsub n then ps_ListPeers topic (the_net n) else []).

Definition GetTopicInfo (topic : string) : M (option TopicInfo) :=
  n ← self;
  mret (if negb (n_pubsub n) then None
        else let size := Z.of_nat (length (ps_ListPeers topic (the_net n))) in Some (mkTopicInfo topic size 0 size)).

(** ** node.go: peers *)

Definition ConnectToPeer (addr : string) : M unit :=
  n ← self;
  if negb (isStarted n) then throw ErrNodeNotStarted
  else
    ma ← lift (wrapErr "invalid multiaddr" (ext "multiaddr" (NewMultiaddr addr)));
    '(id, addrs) ← lift (wrapErr "failed to parse peer addr" (ext "peer" (AddrInfoFromP2pAddr ma)));
    connected ← call_bool (host_Connect id addrs);
    if negb connected then throw (ErrWrap "failed to connect to peer" (ErrExt "host.Connect")) else mret tt.

(** The DHT's answer, or else what is known of the peer closest to the one looked for. *)
Definition FindPeer (peerID : string) : M AddrInfo :=
  n ← self;
  if negb (isStarted n) then throw ErrNodeNotStarted
  else
    parsedID ← lift (wrapErr "invalid peer ID" (ext "peer.Decode" (peer_Decode peerID)));
    match dht_FindPeer parsedID (the_net n) with
    | Some (id, (_ :: _) as addrs) => mret (mkAddrInfo id addrs)
    | _ =>
        closest ← lift (wrapErr "DHT FindPeer and GetClosestPeers failed" (ext "dht" (dht_GetClosestPeers parsedID (the_net n))));
        match closest with
        | [] => throw (ErrText "peer not found in DHT routing table")
        | first :: _ =>
            let addrs := peerstore_Addrs first (the_net n) in
            if (0 <? length addrs)%nat then mret (mkAddrInfo first addrs)
            else throw (ErrText "closest peer found but no addresses available")
        end
    end.

Definition HandlePeerFound (info : AddrInfo) : M unit :=
  _ ← update (fun n => n <| mdnsCount := i32 (mdnsCount n + 1) |>);
  now ← time_now;
  _ ← update (fun n => n <| lastPeerFound := Some now |>);
  _ ← call_bool (host_Connect (ai_ID info) (ai_Addrs info));
  mret tt.

(** The store of blocks is not there: no identifier is ever resolved. *)
Definition Get (cid_Parse : string -> bool) (cidStr : string) : M bytes :=
  n ← self;
  if negb (isStarted n) then throw ErrNodeNotStarted
  else if negb (cid_Parse cidStr) then throw (ErrWrap "%w: invalid CID: %v" ErrGetFailed)
  else throw (ErrWrap "%w: direct block fetch not implemented in PoC" ErrGetFailed).

(** ** node.go: upkeep of connections *)

Definition with_scores {A} (m : GoM (Sys PeerScores) A) : M A := within peerScores (fun t n => n <| peerScores := t |>) m.
Definition with_metrics {A} (m : GoM (Sys MetricsCollector) A) : M A := within n_metrics (fun t n => n <| n_metrics := t |>) m.

(** The loop of [reconnectToLowScorePeers] from its [i]-th peer on. *)
Fixpoint reconnect_loop (i : nat) (peers : list string) : M unit :=
  match peers with
  | [] => mret tt
  | peerID :: peers =>
      if (5 <=? i)%nat then mret tt
      else
        _ ← match peer_Decode peerID with
            | None => mret tt
            | Some id =>
                n ← self;
                if host_Connected id (the_net n) then mret tt
                else
                  let addrs := peerstore_Addrs id (the_net n) in
                  if (length addrs =? 0)%nat then mret tt
                  else
                    connected ← call_bool (host_Connect id addrs);
                    if negb connected then with_scores (updatePeerScore peerID false true) else mret tt
            end;
        reconnect_loop (S i) peers
  end.

(** [order] is the order in which the scores are walked through. *)
Definition reconnectToLowScorePeers (order : list string) : M unit :=
  n ← self; reconnect_loop 0 (getLowScorePeers order (f64_lit 4 10) (peerScores n)).

Fixpoint prune_loop (max : nat) (peers : list string) : M unit :=
  match peers, max with
  | [], _ | _, O => mret tt
  | peerID :: peers, S max' =>
      match peer_Decode peerID with
      | None => prune_loop max peers
      | Some id =>
          n ← self;
          if negb (host_Connected id (the_net n)) then prune_loop max peers
          else
            _ ← call_bool (host_ClosePeer id);
            _ ← with_metrics (RecordDisconnection peerID);
            prune_loop max' peers
      end
  end.

(** The threshold and the greatest number of peers to close. *)
Definition prune_limits (peerCount : nat) : option (f64 * nat) :=
  if (100 <? peerCount)%nat then Some (f64_lit 3 10, 20%nat)
  else if (50 <? peerCount)%nat then Some (f64_lit 25 100, 10%nat)
  else if (20 <? peerCount)%nat then Some (f64_lit 2 10, 5%nat)
  else None.

Definition performHealthCheck (order order' : list string) : M unit :=
  now ← time_now;
  _ ← update (fun n => n <| lastHealthCheck := Some now |>);
  n ← self;
  let peerCount := length (host_Peers (the_net n)) in
  _ ← (if (peerCount <? 5)%nat then reconnectToLowScorePeers order else mret tt);
  match prune_limits peerCount with
  | None => mret tt
  | Some (threshold, max) => n ← self; prune_loop max (getLowScorePeers order' threshold (peerScores n))
  end.
End Node.
