(* ===== verification/NodeInfo.v ===== *)
(** * pkg/ipfsnode: what a node tells, and what it is told

    The rest of the operations of [node.go] and [pubsub.go] of a node that has
    been set up: its identity, its connections, the state of the DHT and the
    metrics; the events of connections; connecting to the configured peers and to
    a local node; advertising.  A node has a host and a DHT when it has PubSub. *)
From S2P Require Import Prelude Primitives Runtime Float64 Metrics Node.

Definition ErrAddFailed : error := ErrText "failed to add data to IPFS".

Record PeerInfo := mkPeerInfo { pi_ID : string; pi_Addresses : list string; pi_Protocols : list string; pi_Connected : bool }.
Record NetworkInfo := mkNetworkInfo {
  ni_PeerID : string; ni_Multiaddrs : list string; ni_ListenAddrs : list string; ni_ConnectedPeers : list PeerInfo;
  ni_ConnectedPeerCount : Z; ni_IsStarted : bool;
}.
Record DHTInfo := mkDHTInfo {
  di_IsStarted : bool; di_Mode : string; di_RoutingTableSize : Z; di_RoutingTablePeers : list string; di_ConnectedPeerCount : Z;
  di_HasBootstrapConnection : bool;
}.
Record MDnsStats := mkMDnsStats { TotalDiscoveries : Z; md_LastPeerFound : option Z }.
Record MetricsFull := mkMetricsFull {
  mf_Metrics : NetworkMetrics; mf_PeerID : string; mf_DHTInfo : DHTInfo; mf_MDnsStats : MDnsStats; mf_DiscoveryBySource : gmap string Z;
  mf_ConnectionSuccessRate : f64; mf_MessageSuccessRate : f64;
}.

Section NodeInfo.
Context `{P : Primitives} {L : Libp2p}.
Abbreviation M := (GoM (Sys (Node L))).

(** ** Queries *)

Definition node_PeerID (n : Node L) : string := if n_pubsub n then peer_String (host_ID (the_net n)) else "".
Definition node_Multiaddrs (n : Node L) : list string := if n_pubsub n then maddr_String <$> host_Addrs (the_net n) else [].

Definition peer_info (n : Node L) (p : pid) : PeerInfo :=
  mkPeerInfo (peer_String p) (maddr_String <$> host_ConnAddrs p (the_net n)) (default [] (peerstore_Protocols p (the_net n))) true.
Definition ConnectedPeers (n : Node L) : list PeerInfo := if n_pubsub n then peer_info n <$> host_Peers (the_net n) else [].

Definition GetNetworkInfo (n : Node L) : NetworkInfo :=
  let peers := ConnectedPeers n in
  mkNetworkInfo (node_PeerID n) (node_Multiaddrs n) (node_Multiaddrs n) peers (Z.of_nat (length peers)) (isStarted n).

Definition GetDHTInfo (n : Node L) : DHTInfo :=
  if negb (isStarted n) || negb (n_pubsub n) then mkDHTInfo (isStarted n) "" 0 [] 0 false
  else
    let peers := dht_RoutingTable (the_net n) in
    let count := Z.of_nat (length (host_Peers (the_net n))) in
    mkDHTInfo true "auto" (Z.of_nat (length peers)) (peer_String <$> peers) count (0 <? count).

Definition GetMDnsStats (n : Node L) : MDnsStats := mkMDnsStats (mdnsCount n) (lastPeerFound n).

Definition GetMetricsFull : M MetricsFull :=
  n ← self;
  m ← with_metrics GetMetrics;
  mret (mkMetricsFull m (node_PeerID n) (GetDHTInfo n) (GetMDnsStats n) (GetDiscoveryBySource (n_metrics n))
          (GetConnectionSuccessRate (n_metrics n)) (GetMessageSuccessRate (n_metrics n))).

(** ** Events *)

(** The two changes of the connectedness of a peer that are followed. *)
Inductive peer_event := Connected (p : pid) | NotConnected (p : pid).

Definition handlePeerEvent (evt : peer_event) : M unit :=
  match evt with
  | Connected p =>
      _ ← update (fun n => n <| peerCount := i32 (peerCount n + 1) |>);
      _ ← with_scores (updatePeerScore (peer_String p) true false);
      with_metrics (RecordConnection (peer_String p) 0)
  | NotConnected p =>
      _ ← update (fun n => n <| peerCount := i32 (peerCount n - 1) |>);
      _ ← with_scores (updatePeerScore (peer_String p) false false);
      with_metrics (RecordDisconnection (peer_String p))
  end.

(** A peer of the discovery channel. *)
Definition discovered (info : AddrInfo) : M unit :=
  n ← self;
  if bool_decide (ai_ID info = host_ID (the_net n)) || (length (ai_Addrs info) =? 0)%nat then mret tt
  else _ ← call_bool (host_Connect (ai_ID info) (ai_Addrs info)); mret tt.

(** ** Connecting and advertising *)

(** The number of peers connected, which is only logged. *)
Fixpoint bootstrap_loop (addrs : list string) (connected : nat) : M nat :=
  match addrs with
  | [] => mret connected
  | addr :: addrs =>
      match (ma ← NewMultiaddr addr; AddrInfoFromP2pAddr ma) with
      | None => bootstrap_loop addrs connected
      | Some (id, l) =>
          ok ← call_bool (host_Connect id l);
          bootstrap_loop addrs (if ok : bool then S connected else connected)
      end
  end.

Definition ConnectToBootstrapPeers : M unit :=
  n ← self;
  if negb (isStarted n) then throw ErrNodeNotStarted else _ ← bootstrap_loop (bootstrapPeers n) 0; mret tt.

Definition contains (s sub : string) : bool := match String.index 0 sub s with Some _ => true | None => false end.

Definition ConnectToLocalNode (multiaddrStr peerID : string) : M unit :=
  n ← self;
  if negb (isStarted n) then throw ErrNodeNotStarted
  else ConnectToPeer (if contains multiaddrStr "/p2p/" || contains multiaddrStr "/ipfs/" then multiaddrStr
                      else multiaddrStr +:+ "/p2p/" +:+ peerID).

Definition Add (data : bytes) : M string :=
  n ← self;
  if negb (isStarted n) then throw ErrNodeNotStarted
  else
    match cid_of data with
    | None => throw (ErrWrap "%w: %v" ErrAddFailed)
    | Some c => _ ← call_bool (dht_Provide c); mret c
    end.

Definition AdvertiseSelf : M unit :=
  n ← self;
  if negb (isStarted n) then throw ErrNodeNotStarted
  else
    let id := host_ID (the_net n) in
    peerCID ← lift (wrapErr "failed to hash peer ID" (ext "multihash" (cid_of (peer_bytes id))));
    _ ← call_bool (dht_Provide peerCID);
    n ← self;
    _ ← lift (wrapErr "failed to advertise self" (ext "dht" (dht_GetClosestPeers id (the_net n))));
    mret tt.

(** The state of the routing table at each tick, before the time is over. *)
Fixpoint wait_ticks (sizes : list nat) : outcome unit :=
  match sizes with
  | [] => Err (ErrText "DHT bootstrap timeout after %s (routing table has %d peers)")
  | size :: sizes => if (0 <? size)%nat then Ok tt else wait_ticks sizes
  end.
Definition WaitForDHT (sizes : list nat) : M unit :=
  n ← self; if negb (isStarted n) then throw ErrNodeNotStarted else lift (wait_ticks sizes).
End NodeInfo.
