(* ===== verification/NodeProps.v ===== *)
(** * pkg/ipfsnode: what is kept of connections

    The counters, the history of the metrics and the scores of peers, as functions
    of the events that were handled. *)
From S2P Require Import Prelude Primitives Runtime Float64 Metrics Node NodeInfo.
#[local] Open Scope Z_scope.
#[local] Arguments i64 : simpl never.
#[local] Arguments i32 : simpl never.
#[local] Arguments uptime : simpl never.

Section Props.
Context `{P : Primitives} {L : Libp2p}.
Implicit Types (w : Sys (Node L)) (evts : list peer_event).

Definition is_connected (e : peer_event) : bool := match e with Connected _ => true | NotConnected _ => false end.
Definition event_peer (e : peer_event) : string := match e with Connected p | NotConnected p => peer_String p end.

(** The events of a kind, and those of a peer among them. *)
Definition events (kind : bool) evts : Z := Z.of_nat (length (filter (fun e => is_connected e = kind) evts)).
Definition events_of (id : string) (kind : bool) evts : Z :=
  Z.of_nat (length (filter (fun e => is_connected e = kind /\ event_peer e = id) evts)).

(** Open connections: a disconnection that is not of an open one does not count. *)
Definition open_connections evts : Z :=
  foldl (fun k e => if is_connected e then k + 1 else if 0 <? k then k - 1 else k) 0 evts.

Definition last_n {A} (n : nat) (l : list A) : list A := drop (length l - n) l.

Fixpoint handle_events evts : GoM (Sys (Node L)) unit :=
  match evts with [] => mret tt | e :: evts => _ ← handlePeerEvent e; handle_events evts end.

(** What a node knows after the events [past]. *)
Record tracks (past : list peer_event) (n : Node L) : Prop := {
  tr_total : TotalConnections (metrics (n_metrics n)) = events true past /\
    TotalDisconnections (metrics (n_metrics n)) = events false past;
  tr_current : CurrentConnections (metrics (n_metrics n)) = open_connections past;
  tr_count : peerCount n = events true past - events false past;
  tr_latency : AverageLatencyMs (metrics (n_metrics n)) = 0;
  tr_history : maxHistorySize (n_metrics n) = 100%nat /\
    (fun c => (ce_PeerID c, ce_Connected c)) <$> connectionHistory (n_metrics n) =
      last_n 100 ((fun e => (event_peer e, is_connected e)) <$> past);
  tr_scores : forall id, match peerScores n !! id with
    | Some s => ConnectCount s = events_of id true past /\ SuccessCount s = events_of id true past /\
                DisconnectCount s = events_of id false past /\ FailCount s = 0
    | None => events_of id true past = 0 /\ events_of id false past = 0
    end;
}.

(** ** Counting *)

Definition one (b : bool) : Z := if b then 1 else 0.

Lemma events_snoc kind past e : events kind (past ++ [e]) = events kind past + one (Bool.eqb (is_connected e) kind).
Proof.
  unfold events. rewrite filter_app, length_app, filter_cons, filter_nil. unfold one.
  case_decide as E; [rewrite E, Bool.eqb_reflx|rewrite (proj2 (Bool.eqb_false_iff _ _)) by done]; cbn; lia.
Qed.
Lemma events_of_snoc id kind past e :
  events_of id kind (past ++ [e]) = events_of id kind past + if decide (event_peer e = id) then one (Bool.eqb (is_connected e) kind) else 0.
Proof.
  unfold events_of. rewrite filter_app, length_app, filter_cons, filter_nil.
  destruct (decide (event_peer e = id)) as [E|E], (is_connected e) eqn:Ek, kind; case_decide as Hd; cbn; try lia; exfalso; intuition congruence.
Qed.
Lemma events_range kind past : 0 <= events kind past <= Z.of_nat (length past).
Proof. unfold events. pose proof (length_filter (fun e => is_connected e = kind) past). lia. Qed.
Lemma events_of_range id kind past : 0 <= events_of id kind past <= Z.of_nat (length past).
Proof. unfold events_of. pose proof (length_filter (fun e => is_connected e = kind /\ event_peer e = id) past). lia. Qed.
Lemma open_snoc past e :
  open_connections (past ++ [e]) =
    (if is_connected e then open_connections past + 1 else if 0 <? open_connections past then open_connections past - 1 else open_connections past).
Proof. unfold open_connections. by rewrite foldl_app. Qed.
Lemma open_range past : 0 <= open_connections past <= Z.of_nat (length past).
Proof.
  induction past as [|e past IH] using rev_ind; [done|]. rewrite open_snoc, length_app. cbn.
  destruct (is_connected e); [lia|]. destruct (0 <? _) eqn:E; [apply Z.ltb_lt in E|]; lia.
Qed.

Lemma last_n_snoc {A} n (l : list A) x : last_n (S n) (last_n (S n) l ++ [x]) = last_n (S n) (l ++ [x]).
Proof.
  unfold last_n. rewrite !length_app, length_drop. cbn.
  destruct (decide (length l < S n)%nat) as [Hl|Hl].
  - replace (length l - S n)%nat with 0%nat by lia. rewrite drop_0. f_equal. lia.
  - replace (length l - (length l - S n) + 1 - S n)%nat with 1%nat by lia.
    rewrite (drop_app_le l [x]) by lia. replace (length l + 1 - S n)%nat with (length l - S n + 1)%nat by lia.
    rewrite drop_app_le by (rewrite length_drop; lia). by rewrite drop_drop.
Qed.
Lemma last_n_fmap {A B} (f : A -> B) n l : f <$> last_n n l = last_n n (f <$> l).
Proof. unfold last_n. by rewrite fmap_drop, length_fmap. Qed.

Lemma addConnectionEvent_last event c :
  connectionHistory (addConnectionEvent event c) = last_n (maxHistorySize c) (connectionHistory c ++ [event]).
Proof.
  unfold last_n. change (connectionHistory (addConnectionEvent event c)) with
    (let h := connectionHistory c ++ [event] in if (maxHistorySize c <? length h)%nat then drop (length h - maxHistorySize c) h else h).
  cbv zeta. destruct (maxHistorySize c <? length (connectionHistory c ++ [event]))%nat eqn:E; [done|]. apply Nat.ltb_ge in E.
  by replace (length (connectionHistory c ++ [event]) - maxHistorySize c)%nat with 0%nat by lia.
Qed.

Lemma addConnectionEvent_rest event c :
  metrics (addConnectionEvent event c) = metrics c /\ maxHistorySize (addConnectionEvent event c) = maxHistorySize c.
Proof. done. Qed.

Lemma i32_small z : - 2 ^ 31 <= z < 2 ^ 31 -> i32 z = z.
Proof. intros H. unfold i32. rewrite Z.mod_small by lia. lia. Qed.
Lemma i64_small z : - 2 ^ 63 <= z < 2 ^ 63 -> i64 z = z.
Proof. intros H. unfold i64. rewrite Z.mod_small by lia. lia. Qed.

(** ** The parts of an event *)

Lemma computeScore_counts now p :
  let p' := (computeScore now p).1 in
  ConnectCount p' = ConnectCount p /\ SuccessCount p' = SuccessCount p /\ DisconnectCount p' = DisconnectCount p /\ FailCount p' = FailCount p.
Proof. unfold computeScore. by destruct (_ =? 0). Qed.

Lemma updatePeerScore_run id kind (w : Sys PeerScores) :
  exists env' s, updatePeerScore id kind false w = (mkSys env' (<[id := s]> (obj w)), Ok tt) /\
    let s0 := default (new_score id) (obj w !! id) in
    ConnectCount s = (if kind then i64 (ConnectCount s0 + 1) else ConnectCount s0) /\
    SuccessCount s = (if kind then i64 (SuccessCount s0 + 1) else SuccessCount s0) /\
    DisconnectCount s = (if kind then DisconnectCount s0 else i64 (DisconnectCount s0 + 1)) /\ FailCount s = FailCount s0.
Proof.
  unfold updatePeerScore, self, time_now, update, mbind, GoM_bind. cbn.
  match goal with |- context [negb (?a =? 0) && negb ?b] => destruct (negb (a =? 0) && negb b) end; cbn;
    match goal with |- context [computeScore ?t ?p] => pose proof (computeScore_counts t p) as Hc end;
    eexists _, _; (split; [reflexivity|]); cbn zeta in Hc; destruct Hc as (-> & -> & -> & ->); by destruct kind.
Qed.

Lemma RecordConnection_run id (w : Sys MetricsCollector) :
  let c := obj w in let m := metrics c in
  AverageLatencyMs m = 0 -> 0 <= TotalConnections m < 2 ^ 31 ->
  exists w' : Sys MetricsCollector, RecordConnection id 0 w = (w', Ok tt) /\
    TotalConnections (metrics (obj w')) = TotalConnections m + 1 /\ TotalDisconnections (metrics (obj w')) = TotalDisconnections m /\
    CurrentConnections (metrics (obj w')) = i32 (CurrentConnections m + 1) /\ AverageLatencyMs (metrics (obj w')) = 0 /\
    maxHistorySize (obj w') = maxHistorySize c /\
    exists t, connectionHistory (obj w') = last_n (maxHistorySize c) (connectionHistory c ++ [mkConnectionEvent id true t 0]).
Proof.
  intros c m Hl Ht. unfold RecordConnection, self, time_now, update, lift, mbind, GoM_bind. cbn -[addConnectionEvent].
  unfold updateAverageLatency. rewrite !(proj1 (addConnectionEvent_rest _ _)). cbn -[addConnectionEvent]. fold c m.
  rewrite (i64_small (TotalConnections m + 1)) by lia.
  destruct (Z.eqb_spec (TotalConnections m + 1) 1) as [E1|E1];
    [|rewrite (proj2 (Z.eqb_neq (TotalConnections m + 1) 0)) by lia]; cbn -[addConnectionEvent];
    eexists; (split; [reflexivity|]); cbn -[addConnectionEvent]; rewrite ?Hl, addConnectionEvent_last; cbn; repeat split; by eexists.
Qed.

Lemma RecordDisconnection_run id (w : Sys MetricsCollector) :
  let c := obj w in let m := metrics c in
  0 <= TotalDisconnections m < 2 ^ 31 -> 
  exists w' : Sys MetricsCollector, RecordDisconnection id w = (w', Ok tt) /\
    TotalConnections (metrics (obj w')) = TotalConnections m /\ TotalDisconnections (metrics (obj w')) = TotalDisconnections m + 1 /\
    CurrentConnections (metrics (obj w')) = (if 0 <? CurrentConnections m then i32 (CurrentConnections m - 1) else CurrentConnections m) /\
    AverageLatencyMs (metrics (obj w')) = AverageLatencyMs m /\
    maxHistorySize (obj w') = maxHistorySize c /\
    exists t, connectionHistory (obj w') = last_n (maxHistorySize c) (connectionHistory c ++ [mkConnectionEvent id false t 0]).
Proof.
  intros c m Ht. unfold RecordDisconnection, self, time_now, update, lift, mbind, GoM_bind. cbn -[addConnectionEvent].
  eexists. split; [reflexivity|]. cbn -[addConnectionEvent]. rewrite addConnectionEvent_last, (proj1 (addConnectionEvent_rest _ _)), (proj2 (addConnectionEvent_rest _ _)).
  cbn. fold c m. destruct (0 <? CurrentConnections m) eqn:E; cbn; rewrite (i64_small (TotalDisconnections m + 1)) by lia;
    repeat split; by eexists.
Qed.

(** ** An event *)

Lemma with_scores_run (m : GoM (Sys PeerScores) unit) (w : Sys (Node L)) env' s :
  m (mkSys (env w) (peerScores (obj w))) = (mkSys env' s, Ok tt) -> with_scores m w = (mkSys env' (obj w <| peerScores := s |>), Ok tt).
Proof. intros H. unfold with_scores, within. by rewrite H. Qed.
Lemma with_metrics_run (m : GoM (Sys MetricsCollector) unit) (w : Sys (Node L)) (w1 : Sys MetricsCollector) :
  m (mkSys (env w) (n_metrics (obj w))) = (w1, Ok tt) -> with_metrics m w = (mkSys (env w1) (obj w <| n_metrics := obj w1 |>), Ok tt).
Proof. intros H. unfold with_metrics, within. by rewrite H. Qed.

Lemma handlePeerEvent_tracks past e w :
  tracks past (obj w) -> Z.of_nat (length past) < 2 ^ 31 - 1 ->
  exists w', handlePeerEvent e w = (w', Ok tt) /\ tracks (past ++ [e]) (obj w').
Proof.
  intros [[Ht Hd] Hc Hn Hl [Hm Hh] Hs] Hlen. pose proof (events_range true past) as R1. pose proof (events_range false past) as R2.
  pose proof (open_range past) as R3.
  assert (forall id, let s0 := default (new_score id) (peerScores (obj w) !! id) in
    ConnectCount s0 = events_of id true past /\ SuccessCount s0 = events_of id true past /\ DisconnectCount s0 = events_of id false past /\ FailCount s0 = 0) as Hs0.
  { intros id. specialize (Hs id). destruct (peerScores (obj w) !! id); cbn; [done|]. by destruct Hs as [-> ->]. }
  set (w0 := mkSys (env w) (obj w <| peerCount := i32 (peerCount (obj w) + (if is_connected e then 1 else -1)) |>)).
  destruct (updatePeerScore_run (event_peer e) (is_connected e) (mkSys (env w0) (peerScores (obj w0)))) as (ev1 & s & Hsc & Hcnt).
  pose proof (with_scores_run _ w0 _ _ Hsc) as H1. set (w1 := mkSys ev1 _) in H1.
  assert (exists w2 : Sys MetricsCollector,
    (if is_connected e then RecordConnection (event_peer e) 0 else RecordDisconnection (event_peer e)) (mkSys (env w1) (n_metrics (obj w1))) = (w2, Ok tt) /\
    TotalConnections (metrics (obj w2)) = events true (past ++ [e]) /\ TotalDisconnections (metrics (obj w2)) = events false (past ++ [e]) /\
    CurrentConnections (metrics (obj w2)) = open_connections (past ++ [e]) /\ AverageLatencyMs (metrics (obj w2)) = 0 /\
    maxHistorySize (obj w2) = 100%nat /\ exists t, connectionHistory (obj w2) = last_n 100 (connectionHistory (n_metrics (obj w)) ++ [mkConnectionEvent (event_peer e) (is_connected e) t 0])) as
    (w2 & H2 & Ht2 & Hd2 & Hc2 & Hl2 & Hm2 & t & Hh2).
  { rewrite !events_snoc, open_snoc. destruct (is_connected e).
    - destruct (RecordConnection_run (event_peer e) (mkSys (env w1) (n_metrics (obj w1)))) as (w2 & Hr & A & B & C & D & E & t & F); cbn in *; [done|lia|].
      exists w2. rewrite Hr, A, B, C, D, E, F, Ht, Hd, Hc, Hm. rewrite i32_small by lia. repeat split; try (cbn; lia). by eexists.
    - destruct (RecordDisconnection_run (event_peer e) (mkSys (env w1) (n_metrics (obj w1)))) as (w2 & Hr & A & B & C & D & E & t & F); cbn in *; [lia|].
      exists w2. rewrite Hr, A, B, C, D, E, F, Ht, Hd, Hc, Hm. rewrite i32_small by lia. repeat split; try (cbn; lia). by eexists. }
  assert (handlePeerEvent e w = (mkSys (env w2) (obj w1 <| n_metrics := obj w2 |>), Ok tt)) as Hrun.
  { pose proof (with_metrics_run _ w1 w2 H2) as H3. destruct e as [p|p]; unfold handlePeerEvent; cbn [is_connected event_peer] in *;
      rewrite (bind_Ok (update _) _ w w0 tt) by (unfold update, w0; repeat f_equal; lia);
      by rewrite (bind_Ok _ _ w0 w1 tt H1). }
  eexists. split; [exact Hrun|]. unfold w1, w0. split; cbn.
  - done.
  - done.
  - rewrite !events_snoc, Hn. destruct (is_connected e); cbn; rewrite i32_small by lia; lia.
  - done.
  - split; [done|]. rewrite Hh2, last_n_fmap, fmap_app, Hh. cbn. rewrite fmap_app. apply last_n_snoc.
  - intros id. rewrite !events_of_snoc. cbn in Hcnt. destruct (decide (id = event_peer e)) as [->|Hne].
    + rewrite lookup_insert_eq. destruct (Hs0 (event_peer e)) as (A & B & C & D). cbn in *. destruct Hcnt as (-> & -> & -> & ->). rewrite A, B, C, D.
      pose proof (events_of_range (event_peer e) true past). pose proof (events_of_range (event_peer e) false past).
      rewrite !decide_True by done. destruct (is_connected e); rewrite ?i64_small by lia; cbn; repeat split; lia.
    + rewrite lookup_insert_ne by done. specialize (Hs id).
      rewrite !decide_False by done. destruct (peerScores (obj w) !! id); [|lia]. by rewrite !Z.add_0_r.
Qed.

(** C27. What a node knows of its connections follows from the events: after any sequence of fewer than
    2^31 - 1 events the totals are the numbers of connections and disconnections, the current
    connections those still open, never negative, while the peer count is the difference; the
    history is the last hundred events in order; and the score of every peer counts its events. *)
Theorem connections_tracked evts w :
  tracks [] (obj w) -> Z.of_nat (length evts) < 2 ^ 31 - 1 ->
  exists w', handle_events evts w = (w', Ok tt) /\ tracks evts (obj w').
Proof.
  intros H0. enough (forall past w, tracks past (obj w) -> Z.of_nat (length (past ++ evts)) < 2 ^ 31 - 1 ->
    exists w', handle_events evts w = (w', Ok tt) /\ tracks (past ++ evts) (obj w')) as H by (by apply (H [])).
  clear. induction evts as [|e evts IH]; intros past w Ht Hl; [exists w; by rewrite app_nil_r|].
  destruct (handlePeerEvent_tracks past e w Ht) as (w1 & H1 & Ht1); [rewrite length_app in Hl; cbn in Hl; lia|].
  destruct (IH _ w1 Ht1) as (w' & H2 & Ht2); [by rewrite <- app_assoc|]. exists w'. cbn [handle_events].
  rewrite (bind_Ok _ _ _ _ _ H1), H2. by rewrite <- app_assoc in Ht2.
Qed.
End Props.

(** ** Examples *)
Module NodeDemo.
(** A network that keeps what is published; every peer is unknown to the DHT. *)
#[export] Instance demo_p2p : Libp2p := {|
  net := list (string * bytes);
  pid := string; maddr := string;
  peer_Decode s := Some s; peer_String s := s; peer_bytes := str;
  NewMultiaddr s := Some s; maddr_String s := s;
  AddrInfoFromP2pAddr a := Some (a, [a]);
  host_Connect _ _ n := (n, true); host_ID _ := "me"; host_Addrs _ := []; host_Peers _ := []; host_ConnAddrs _ _ := []; peerstore_Protocols _ _ := None; host_Connected _ _ := false; host_ClosePeer _ n := (n, true);
  peerstore_Addrs _ _ := ["/ip4/127.0.0.1/tcp/4001"];
  dht_FindPeer _ _ := None; dht_GetClosestPeers _ _ := Some ["other"]; dht_RoutingTable _ := []; dht_Provide _ n := (n, true); cid_of _ := None;
  ps_Join _ n := Some n; ps_Subscribe _ n := Some n;
  ps_Publish t d n := Some (n ++ [(t, d)]); ps_ListPeers _ _ := [];
|}.

Definition node : Node demo_p2p := mkNode true true ∅ ∅ (NewMetricsCollector 0) None 0 None 0 [] [].
Definition world : Sys (Node demo_p2p) := mkSys (mkEnvironment (fun _ => None) (fun n => Z.of_nat n * SecondNs)) node.
Definition seen : list peer_event := [NotConnected (L := demo_p2p) "a"; Connected (L := demo_p2p) "b"; Connected (L := demo_p2p) "a"].
Lemma node_new : tracks [] node.
Proof. split; cbn; try done. Qed.
End NodeDemo.
Import NodeDemo.

(** A disconnection that comes first makes the peer count differ from the open connections. *)
Lemma connections_tracked_witness :
  exists w', handle_events seen world = (w', Ok tt) /\ CurrentConnections (metrics (n_metrics (obj w'))) = 2 /\ peerCount (obj w') = 1.
Proof.
  destruct (connections_tracked seen world node_new) as (w' & Hr & Ht); [vm_compute; reflexivity|].
  exists w'. split; [exact Hr|]. rewrite (tr_current _ _ Ht), (tr_count _ _ Ht). split; vm_compute; reflexivity.
Defined.
