(* ===== verification/Subscription.v ===== *)
(** * pkg/ipfsnode: a subscription

    [Subscription] of [pubsub.go]: a goroutine moves messages from PubSub to a
    bounded channel until the context is cancelled.  A subscription is a state
    machine; its events are what the goroutine, PubSub, [Close], the context of the
    node and the receivers do, in whatever order they come. *)
From S2P Require Import Prelude.

(** [Message]; peer ids are their texts here. *)
Record Message := mkMessage { ms_Data : bytes; ms_From : string; ms_Topic : string; ms_SeqNo : bytes }.

(** [closed] is what [IsClosed] returns; [cancelled] the context; [ended] that the goroutine has closed both
    channels; [inHand] the message it is about to send. *)
Record Subscription := mkSubscription {
  s_topic : string; closed : bool; cancelled : bool; ended : bool; msgChan : list Message; errChan : list string; inHand : option Message;
}.
#[export] Instance eta_Subscription : Eta Subscription := fun s =>
  mkSubscription (s_topic s) (closed s) (cancelled s) (ended s) (msgChan s) (errChan s) (inHand s).

Definition msgCapacity : nat := 32.
Definition errCapacity : nat := 1.
Definition newSubscription (topic : string) : Subscription := mkSubscription topic false false false [] [] None.

Inductive sub_event :=
  | Next (m : Message)      (* PubSub has a message for the goroutine *)
  | NextErr (e : string)    (* PubSub returns an error *)
  | Send                    (* the goroutine sends the message in hand *)
  | Done                    (* the goroutine sees the cancelled context *)
  | CloseSub                (* Close *)
  | CancelNode              (* the context of the node is cancelled *)
  | Receive (m : Message)   (* a receiver takes a message *)
  | ReceiveErr (e : string).

Definition Close (s : Subscription) : Subscription := if closed s then s else s <| closed := true |> <| cancelled := true |>.
Definition IsClosed (s : Subscription) : bool := closed s.

(** A step of the subscription. *)
Inductive sub_step : Subscription -> sub_event -> Subscription -> Prop :=
  | step_next s m : ended s = false -> inHand s = None -> sub_step s (Next m) (s <| inHand := Some m |>)
  | step_err s e : ended s = false -> inHand s = None -> cancelled s = false ->
      sub_step s (NextErr e) (if (length (errChan s) <? errCapacity)%nat then s <| errChan := errChan s ++ [e] |> else s)
  | step_send s m : ended s = false -> inHand s = Some m -> (length (msgChan s) < msgCapacity)%nat ->
      sub_step s Send (s <| msgChan := msgChan s ++ [m] |> <| inHand := None |>)
  | step_done s : ended s = false -> cancelled s = true ->
      sub_step s Done (s <| closed := true |> <| ended := true |> <| inHand := None |>)
  | step_close s : sub_step s CloseSub (Close s)
  | step_cancel s : sub_step s CancelNode (s <| cancelled := true |>)
  | step_receive s m rest : msgChan s = m :: rest -> sub_step s (Receive m) (s <| msgChan := rest |>)
  | step_receive_err s e rest : errChan s = e :: rest -> sub_step s (ReceiveErr e) (s <| errChan := rest |>).

(** What a subscription may have gone through. *)
Inductive sub_trace (topic : string) : list sub_event -> Subscription -> Prop :=
  | trace_new : sub_trace topic [] (newSubscription topic)
  | trace_step es s e s' : sub_trace topic es s -> sub_step s e s' -> sub_trace topic (es ++ [e]) s'.

(** ** The messages of a run *)

Definition arrived (es : list sub_event) : list Message := omap (fun e => match e with Next m => Some m | _ => None end) es.
Definition received (es : list sub_event) : list Message := omap (fun e => match e with Receive m => Some m | _ => None end) es.

Definition in_hand (s : Subscription) : list Message := match inHand s with Some m => [m] | None => [] end.

(** The channels are within their capacities, the goroutine ends only after cancellation and holds nothing then, and what arrived
    was received, is in the channel or in hand, but for one message lost at the end. *)
Record sub_ok (es : list sub_event) (s : Subscription) : Prop := {
  so_msgs : (length (msgChan s) <= msgCapacity)%nat;
  so_errs : (length (errChan s) <= errCapacity)%nat;
  so_end : ended s = true -> closed s = true /\ cancelled s = true /\ inHand s = None;
  so_closed : closed s = true -> cancelled s = true;
  so_fifo : exists lost, arrived es = received es ++ msgChan s ++ lost /\ if ended s then (length lost <= 1)%nat else lost = in_hand s;
}.

Lemma arrived_snoc es e : arrived (es ++ [e]) = arrived es ++ match e with Next m => [m] | _ => [] end.
Proof. unfold arrived. rewrite omap_app. by destruct e. Qed.
Lemma received_snoc es e : received (es ++ [e]) = received es ++ match e with Receive m => [m] | _ => [] end.
Proof. unfold received. rewrite omap_app. by destruct e. Qed.

Lemma sub_step_ok es s e s' : sub_ok es s -> sub_step s e s' -> sub_ok (es ++ [e]) s'.
Proof.
  intros [Hm He Hend Hcl (lost & Ha & Hl)] Hstep. unfold in_hand in Hl.
  destruct Hstep as [s m H1 H2|s e H1 H2 H3|s m H1 H2 H3|s H1 H2|s|s|s m rest H1|s e rest H1].
  - rewrite H1, H2 in *. subst lost. split; cbn; rewrite ?H1; try done. rewrite arrived_snoc, received_snoc, Ha. exists [m]. by rewrite !app_nil_r, app_assoc.
  - destruct (length (errChan s) <? errCapacity)%nat eqn:Elt; (split; try done);
      try (rewrite arrived_snoc, received_snoc, !app_nil_r; by exists lost).
    apply Nat.ltb_lt in Elt. cbn. rewrite length_app. cbn. lia.
  - rewrite H1, H2 in *. subst lost. split; cbn; rewrite ?H1; try done; [rewrite length_app; cbn; lia|].
    rewrite arrived_snoc, received_snoc, Ha. exists []. by rewrite !app_nil_r.
  - rewrite H1 in *. subst lost. split; cbn; try done. rewrite arrived_snoc, received_snoc, !app_nil_r.
    eexists. split; [exact Ha|]. destruct (inHand s); cbn; lia.
  - unfold Close. destruct (closed s) eqn:Ecl; (split; cbn; rewrite ?Ecl; try done);
      try (rewrite arrived_snoc, received_snoc, !app_nil_r; by exists lost). intros H. by destruct (Hend H).
  - split; cbn; try done; [intros H; by destruct (Hend H) as (? & _ & ?)|]. rewrite arrived_snoc, received_snoc, !app_nil_r. by exists lost.
  - rewrite H1 in *. cbn in *. split; cbn; try done; [lia|]. rewrite arrived_snoc, received_snoc, app_nil_r. exists lost. by rewrite Ha, <- app_assoc.
  - rewrite H1 in *. cbn in *. split; cbn; try done; [lia|]. rewrite arrived_snoc, received_snoc, !app_nil_r. by exists lost.
Qed.

(** C17. A subscription hands over its messages in order, without losing or repeating any: whatever happens, in
    whatever order, what was received, then what is in the channel, then what the goroutine has in
    hand is what PubSub gave it; when the goroutine has ended at most one message, the last, is
    missing.  The channels stay within their capacities.  Closing is enough for the goroutine to
    be able to end, at any point, and it ends in no other way than by a cancelled context. *)
Theorem subscription_fifo topic es s :
  sub_trace topic es s ->
  sub_ok es s /\ (IsClosed s = true -> ended s = true \/ exists s', sub_step s Done s') /\
  (forall s', ended s = true -> ~ sub_step s Send s' /\ forall m, ~ sub_step s (Next m) s').
Proof.
  intros H. assert (sub_ok es s) as Hok.
  { induction H as [|es s e s' _ IH Hs]; [|by eapply sub_step_ok]. split; cbn; try done; try lia. by exists []. }
  split; [done|]. split.
  - intros Hc. destruct (ended s) eqn:E; [by left|]. right. eexists. apply step_done; [done|]. by apply (so_closed _ _ Hok).
  - intros s' He. split; [|intros m]; inversion 1; congruence.
Qed.

(** A message is in hand when the subscription is closed: it is lost. *)
Module SubscriptionDemo.
Definition msg (b : Byte.byte) : Message := mkMessage [b] "peer" "topic" [].
Definition run : list sub_event := [Next (msg Byte.x01); Send; Next (msg Byte.x02); CloseSub; Done; Receive (msg Byte.x01)].
Definition final : Subscription := mkSubscription "topic" true true true [] [] None.
Lemma run_trace : sub_trace "topic" run final.
Proof.
  change run with ((((((([] ++ [Next (msg Byte.x01)]) ++ [Send]) ++ [Next (msg Byte.x02)]) ++ [CloseSub]) ++ [Done]) ++ [Receive (msg Byte.x01)])).
  eapply trace_step; [eapply trace_step; [eapply trace_step; [eapply trace_step; [eapply trace_step; [eapply trace_step; [apply trace_new|]|]|]|]|]|].
  - by apply step_next.
  - apply (step_send _ (msg Byte.x01)); [done|done|cbn; unfold msgCapacity; lia].
  - by apply step_next.
  - apply step_close.
  - by apply step_done.
  - by apply step_receive.
Qed.
End SubscriptionDemo.
Import SubscriptionDemo.

Lemma subscription_fifo_witness :
  exists lost, arrived run = received run ++ msgChan final ++ lost /\ (length lost <= 1)%nat.
Proof. exact (so_fifo _ _ (proj1 (subscription_fifo "topic" run final run_trace))). Defined.
