(* ===== verification/Files.v ===== *)
(** * The file system

    What the sources call of packages os and path/filepath: the operating system
    is outside the repository, [FilesLaws] says what it documents.  [gmap_files]
    keeps files in a map and has no directories. *)
From S2P Require Import Prelude.

(** The result of [os.ReadFile]: [NotExist] is an error [os.IsNotExist] recognises. *)
Inductive read_result := Data (b : bytes) | NotExist | ReadFailed.

(** [None] is an error. *)
Class Files := {
  files : Type;
  path_Join : string -> string -> string;
  path_Dir : string -> string;
  MkdirAll : string -> files -> option files;
  WriteFile : string -> bytes -> files -> option files;
  ReadFile : string -> files -> read_result;
  file_exists : string -> files -> bool;
}.
Class FilesLaws (F : Files) : Prop := {
  ReadFile_WriteFile p b f f' : WriteFile p b f = Some f' -> ReadFile p f' = Data b;
  exists_WriteFile p b f f' : WriteFile p b f = Some f' -> file_exists p f' = true;
}.

Section Files.
Context `{F : Files}.

Definition file_data (r : read_result) : option bytes := match r with Data b => Some b | _ => None end.

(** A call that changes the files or fails. *)
Definition file_write (ctx : string) (op : files -> option files) : GoM files unit := fun f =>
  match op f with Some f' => (f', Ok tt) | None => (f, Err (ErrWrap ctx (ErrExt "os"))) end.
End Files.

#[export] Instance gmap_files : Files := {|
  files := gmap string bytes;
  path_Join a b := a +:+ "/" +:+ b; path_Dir p := p;
  MkdirAll _ f := Some f;
  WriteFile p b f := Some (<[p := b]> f);
  ReadFile p f := match f !! p with Some b => Data b | None => NotExist end;
  file_exists p f := bool_decide (is_Some (f !! p));
|}.
#[export] Instance gmap_files_laws : FilesLaws gmap_files.
Proof.
  split; cbn; intros p b f f' [= <-]; [by rewrite lookup_insert_eq|].
  apply bool_decide_eq_true. rewrite lookup_insert_eq. by eexists.
Qed.
