(* ===== verification/PeerKey.v ===== *)
(** * pkg/ipfsnode: the key of a node

    [expandPath] and [loadOrGeneratePeerKey] of [node.go]: the libp2p key a node
    keeps in its directory.  Keys and their encoding belong to libp2p, the
    environment variables and directories to the system. *)
From S2P Require Import Prelude Runtime Files.

Class PeerKeys := {
  peer_key : Type;
  GenerateEd25519Key : bytes -> peer_key;
  MarshalPrivateKey : peer_key -> option bytes;
  UnmarshalPrivateKey : bytes -> option peer_key;
}.
Class PeerKeysLaws (PK : PeerKeys) : Prop := {
  UnmarshalPrivateKey_Marshal k b : MarshalPrivateKey k = Some b -> UnmarshalPrivateKey b = Some k;
}.

(** [HOME], [os.UserHomeDir] and [filepath.Abs]. *)
Class HomeDir := { HOME : string; UserHomeDir : option string; filepath_Abs : string -> option string }.

Section PeerKey.
Context `{F : Files} `{PK : PeerKeys} `{H : HomeDir}.
Abbreviation M := (GoM (Sys files)).

Definition expandPath (path : string) : outcome string :=
  match path with
  | EmptyString => Err (ErrText "empty path")
  | String c rest =>
      path ← (if bool_decide (c = "~"%char) then
                home ← (if bool_decide (HOME = "") then wrapErr "failed to get home dir" (ext "os" UserHomeDir) else Ok HOME);
                Ok (if bool_decide (rest = "") then home else path_Join home rest)
              else Ok path);
      ext "filepath.Abs" (filepath_Abs path)
  end.

Definition on_files {A} (m : GoM files A) : M A := on id (fun f _ => f) m.

Definition generate_key (keyPath : string) : M peer_key :=
  seed ← rand_opt 32;
  seed ← lift (wrapErr "failed to generate peer key" (ext "rand.Reader" seed));
  let privKey := GenerateEd25519Key seed in
  data ← lift (wrapErr "failed to marshal peer key" (ext "crypto.MarshalPrivateKey" (MarshalPrivateKey privKey)));
  _ ← on_files (file_write "failed to save peer key" (WriteFile keyPath data));
  mret privKey.

(** A file that cannot be read or parsed is replaced. *)
Definition loadOrGeneratePeerKey (repoDir : string) : M peer_key :=
  let keyPath := path_Join repoDir "peer.key" in
  f ← self;
  match (data ← file_data (ReadFile keyPath f); UnmarshalPrivateKey data) with
  | Some privKey => mret privKey
  | None => generate_key keyPath
  end.

Context `{!FilesLaws F} `{!PeerKeysLaws PK}.

(** A node keeps its key: a key that was loaded or made is loaded again, whenever the file was not
    touched in between, and loading it changes nothing, so that the peer id stays the same. *)
Theorem peer_key_stable repoDir w w' k w1 :
  loadOrGeneratePeerKey repoDir w = (w', Ok k) -> obj w1 = obj w' -> loadOrGeneratePeerKey repoDir w1 = (w1, Ok k).
Proof.
  unfold loadOrGeneratePeerKey. intros Hk Hw. run_split. subst. rewrite (bind_Ok self _ w1 w1 (obj w1)) by done. cbv beta zeta. rewrite Hw.
  match type of Hk with (match ?o with _ => _ end _ = _) => destruct o as [k0|] eqn:E end; run_split.
  - subst. by rewrite E.
  - unfold generate_key in Hk. run_split. outcome_split. subst. unfold on_files, on, zoom, file_write in *.
    repeat case_match; simplify_eq/=.
    all: match goal with Hf : WriteFile _ _ _ = Some _, Hr : file_data _ ≫= _ = _, Hm : MarshalPrivateKey _ = Some _ |- _ =>
           rewrite (ReadFile_WriteFile _ _ _ _ Hf) in Hr; cbn in Hr; rewrite (UnmarshalPrivateKey_Marshal _ _ Hm) in Hr end; by simplify_eq.
Qed.
End PeerKey.

(** ** Examples *)
Module PeerKeyDemo.
(** A key is its seed. *)
#[export] Instance seed_keys : PeerKeys :=
  {| peer_key := bytes; GenerateEd25519Key s := s; MarshalPrivateKey k := Some k; UnmarshalPrivateKey b := Some b |}.
#[export] Instance seed_keys_laws : PeerKeysLaws seed_keys.
Proof. split. by intros k b [= ->]. Qed.
#[export] Instance root_home : HomeDir := {| HOME := "/root"; UserHomeDir := None; filepath_Abs p := Some p |}.
Definition empty : Sys (files (Files := gmap_files)) := mkSys (mkEnvironment (fun _ => Some [Byte.x07]) (fun _ => 0)) (∅ : gmap string bytes).
Definition first := loadOrGeneratePeerKey "repo" empty.
Example home_expanded : expandPath "~/x" = Ok "/root//x".
Proof. reflexivity. Qed.
End PeerKeyDemo.
Import PeerKeyDemo.

Lemma peer_key_stable_witness :
  first.2 = Ok (Byte.x07 :: zeros 31) /\ loadOrGeneratePeerKey "repo" first.1 = (first.1, Ok (Byte.x07 :: zeros 31)).
Proof.
  assert (first.2 = Ok (Byte.x07 :: zeros 31)) as E2 by (vm_compute; reflexivity).
  pose proof (run_pair (loadOrGeneratePeerKey "repo") empty _ E2) as E. split; [exact E2|]. exact (peer_key_stable "repo" empty first.1 _ first.1 E eq_refl).
Defined.
