(* ===== verification/Reputation.v ===== *)
(** * pkg/reputation: peers and what is observed of them

    [tracker.go]: the records of a [Tracker], the events that change them, the
    composite score and the tier, attestations; [storage.go]: records and
    configuration in the key-value store; [exchange.go]: signed attestations
    and what goes over the network.  Numbers are those of [Float64]; instants
    are nanoseconds since the epoch, a zero [time.Time] is [zero_time]; peer ids
    are byte strings.  Each method of the tracker is one step.  Map iterations go
    in the order of [order]. *)
From S2P Require Import Prelude Primitives Crypto Proto Badger Runtime Exchange Float64.

Definition HoursPerWeek : Z := 168.
Definition MaxDHTLatencyMS : Z := 5000.
Definition Second : Z := 1000000000.
Definition Hour : Z := 3600 * Second.
Definition zero_time : Z := -62135596800 * Second.

Definition ErrAttestationExpired : error := ErrText "attestation has expired".
Definition ErrAttesterNotTrusted : error := ErrText "attester has not been observed long enough".
Definition ErrInvalidSignature : error := ErrText "invalid attestation signature".

Record Metrics := mkMetrics {
  RelayReliability : f64; RelaySuccessCount : Z; RelayTotalCount : Z;
  UptimeConsistency : f64; HoursOnline7d : Z; LastSeen : Z;
  MailboxReliability : f64; MailboxRetrievedCount : Z; MailboxDepositedCount : Z;
  DHTResponsiveness : f64; AvgResponseMS : f64; DHTQueryCount : Z;
  ContentServing : f64; BlocksServedCount : Z; BlocksRequestedCount : Z;
  FirstObserved : Z; ObservationCount : Z;
}.

#[export] Instance eta_Metrics : Eta Metrics := fun m =>
  mkMetrics (RelayReliability m) (RelaySuccessCount m) (RelayTotalCount m) (UptimeConsistency m) (HoursOnline7d m)
    (LastSeen m) (MailboxReliability m) (MailboxRetrievedCount m) (MailboxDepositedCount m) (DHTResponsiveness m)
    (AvgResponseMS m) (DHTQueryCount m) (ContentServing m) (BlocksServedCount m) (BlocksRequestedCount m)
    (FirstObserved m) (ObservationCount m).

Record Attestation := mkAttestation {
  AttesterPeerID : bytes; AttesterIdentityPub : string; SubjectPeerID : bytes; Score : f64;
  ObservationPeriodHours : Z; Timestamp : Z; Signature : bytes;
}.

#[export] Instance eta_Attestation : Eta Attestation := fun a =>
  mkAttestation (AttesterPeerID a) (AttesterIdentityPub a) (SubjectPeerID a) (Score a) (ObservationPeriodHours a)
    (Timestamp a) (Signature a).

(** [type Tier int] *)
Definition Tier : Type := Z.
Definition TierBasic : Tier := 0.
Definition TierContributor : Tier := 1.
Definition TierReliable : Tier := 2.
Definition TierTrusted : Tier := 3.

Record PeerRecord := mkRecord {
  peerID : bytes; metrics : Metrics; compositeScore : f64; tier : Tier; attestations : list Attestation;
  trustAdjustment : f64; lastUpdated : Z;
}.

#[export] Instance eta_PeerRecord : Eta PeerRecord := fun r =>
  mkRecord (peerID r) (metrics r) (compositeScore r) (tier r) (attestations r) (trustAdjustment r) (lastUpdated r).

Record Config := mkConfig {
  RelayReliabilityWeight : f64; UptimeConsistencyWeight : f64; MailboxReliabilityWeight : f64;
  DHTResponsivenessWeight : f64; ContentServingWeight : f64;
  MinConnectionHours : Z; MaxAttestationInfluence : f64; AttestationExpiryHours : Z; MaxAttestationsPerPeer : Z;
  TierContributorThreshold : f64; TierReliableThreshold : f64; TierTrustedThreshold : f64;
  MetricUpdateIntervalSeconds : Z; AttestationPublishInterval : Z;
}.

Definition DefaultConfig : Config :=
  mkConfig (f64_lit 25 100) (f64_lit 20 100) (f64_lit 25 100) (f64_lit 15 100) (f64_lit 15 100)
    24 (f64_lit 1 10) 168 50 (f64_lit 3 10) (f64_lit 6 10) (f64_lit 8 10) 300 24.

Record Tracker := mkTracker {
  records : gmap bytes PeerRecord; config : Config; selfPeerID : bytes; selfIdentity : string;
}.

#[export] Instance eta_Tracker : Eta Tracker := fun t =>
  mkTracker (records t) (config t) (selfPeerID t) (selfIdentity t).

Definition NewTracker (selfPeerID : bytes) (selfIdentity : string) (config : option Config) : Tracker :=
  mkTracker ∅ (default DefaultConfig config) selfPeerID selfIdentity.

(** ** Scores *)

(** The weighted sum of [updateCompositeScore], adjusted and clamped. *)
Definition composite_score (config : Config) (m : Metrics) (trust : f64) : f64 :=
  let score :=
    f64_add (f64_add (f64_add (f64_add (f64_mul (RelayReliability m) (RelayReliabilityWeight config))
      (f64_mul (UptimeConsistency m) (UptimeConsistencyWeight config)))
      (f64_mul (MailboxReliability m) (MailboxReliabilityWeight config)))
      (f64_mul (DHTResponsiveness m) (DHTResponsivenessWeight config)))
      (f64_mul (ContentServing m) (ContentServingWeight config)) in
  clamp f64_0 f64_1 (f64_add score trust).

Definition tier_of (config : Config) (score : f64) : Tier :=
  if f64_ge score (TierTrustedThreshold config) then TierTrusted
  else if f64_ge score (TierReliableThreshold config) then TierReliable
  else if f64_ge score (TierContributorThreshold config) then TierContributor
  else TierBasic.

Definition updateCompositeScore (config : Config) (r : PeerRecord) : PeerRecord :=
  let score := composite_score config (metrics r) (trustAdjustment r) in
  r <| compositeScore := score |> <| tier := tier_of config score |>.

Definition Tier_String (t : Tier) : string :=
  if t =? TierBasic then "Basic" else if t =? TierContributor then "Contributor"
  else if t =? TierReliable then "Reliable" else if t =? TierTrusted then "Trusted" else "Unknown".

(** ** The tracker *)

Section Tracker.
Variable order : gmap bytes PeerRecord -> list (bytes * PeerRecord).

Abbreviation M := (GoM (Sys Tracker)).

Definition put_record (pid : bytes) (record : PeerRecord) : M unit :=
  update (fun t => t <| records := <[pid := record]> (records t) |>).

Definition zero_metrics (firstObserved : Z) : Metrics :=
  mkMetrics f64_0 0 0 f64_0 0 zero_time f64_0 0 0 f64_0 f64_0 0 f64_0 0 0 firstObserved 0.

Definition GetOrCreateRecord (pid : bytes) : M PeerRecord :=
  t ← self;
  match records t !! pid with
  | Some record => mret record
  | None =>
      firstObserved ← time_now;
      now ← time_now;
      let record := mkRecord pid (zero_metrics firstObserved) f64_0 TierBasic [] f64_0 now in
      _ ← put_record pid record;
      mret record
  end.

Definition GetRecord (pid : bytes) : M (option PeerRecord) := t ← self; mret (records t !! pid).

(** The common frame of the events: the change of the record, then its score. *)
Definition on_record (pid : bytes) (change : PeerRecord -> M PeerRecord) : M unit :=
  record ← GetOrCreateRecord pid;
  record ← change record;
  t ← self;
  let record := updateCompositeScore (config t) record in
  now ← time_now;
  put_record pid (record <| lastUpdated := now |>).

Definition change_metrics (f : Metrics -> Metrics) (record : PeerRecord) : M PeerRecord :=
  mret (record <| metrics := f (metrics record) |>).

Definition cap_1 (x : f64) : f64 := if f64_lt f64_1 x then f64_1 else x.

Definition relay_event (success : bool) (m : Metrics) : Metrics :=
  let m := m <| RelayTotalCount := u64 (RelayTotalCount m + 1) |> in
  let m := if success then m <| RelaySuccessCount := u64 (RelaySuccessCount m + 1) |> else m in
  if RelayTotalCount m >? 0
  then m <| RelayReliability := f64_div (f64_of_Z (RelaySuccessCount m)) (f64_of_Z (RelayTotalCount m)) |>
  else m.

Definition RecordRelayEvent (pid : bytes) (success : bool) : M unit :=
  on_record pid (change_metrics (relay_event success)).

Definition cap_uptime (m : Metrics) : Metrics :=
  let m := if HoursOnline7d m >? HoursPerWeek then m <| HoursOnline7d := HoursPerWeek |> else m in
  m <| UptimeConsistency := f64_div (f64_of_Z (HoursOnline7d m)) (f64_of_Z HoursPerWeek) |>.

Definition RecordUptimeObservation (pid : bytes) (online : bool) : M unit :=
  on_record pid (fun record =>
    let m := metrics record in
    m ← (if online
         then now ← time_now; mret (m <| HoursOnline7d := u64 (HoursOnline7d m + 1) |> <| LastSeen := now |>)
         else mret m);
    mret (record <| metrics := cap_uptime m |>)).

Definition mailbox_event (deposited retrieved : bool) (m : Metrics) : Metrics :=
  let m := if deposited then m <| MailboxDepositedCount := u64 (MailboxDepositedCount m + 1) |> else m in
  let m := if retrieved then m <| MailboxRetrievedCount := u64 (MailboxRetrievedCount m + 1) |> else m in
  if MailboxDepositedCount m >? 0
  then m <| MailboxReliability :=
         cap_1 (f64_div (f64_of_Z (MailboxRetrievedCount m)) (f64_of_Z (MailboxDepositedCount m))) |>
  else m.

Definition RecordMailboxEvent (pid : bytes) (deposited retrieved : bool) : M unit :=
  on_record pid (change_metrics (mailbox_event deposited retrieved)).

Definition dht_query (responseMS : f64) (m : Metrics) : Metrics :=
  let totalQueries := f64_of_Z (DHTQueryCount m) in
  let newAvg := f64_div (f64_add (f64_mul totalQueries (AvgResponseMS m)) responseMS) (f64_add totalQueries f64_1) in
  let m := m <| AvgResponseMS := newAvg |> <| DHTQueryCount := u64 (DHTQueryCount m + 1) |> in
  m <| DHTResponsiveness := clamp f64_0 f64_1 (f64_sub f64_1 (f64_div (AvgResponseMS m) (f64_of_Z MaxDHTLatencyMS))) |>.

Definition RecordDHTQuery (pid : bytes) (responseMS : f64) : M unit :=
  on_record pid (change_metrics (dht_query responseMS)).

Definition content_event (served requested : bool) (m : Metrics) : Metrics :=
  let m := if served then m <| BlocksServedCount := u64 (BlocksServedCount m + 1) |> else m in
  let m := if requested then m <| BlocksRequestedCount := u64 (BlocksRequestedCount m + 1) |> else m in
  if BlocksRequestedCount m >? 0
  then m <| ContentServing :=
         cap_1 (f64_div (f64_of_Z (BlocksServedCount m)) (f64_of_Z (BlocksRequestedCount m))) |>
  else m.

Definition RecordContentEvent (pid : bytes) (served requested : bool) : M unit :=
  on_record pid (change_metrics (content_event served requested)).

Definition SetTrustAdjustment (pid : bytes) (adjustment : f64) : M unit :=
  on_record pid (fun record =>
    mret (record <| trustAdjustment := clamp (f64_lit (-1) 2) (f64_lit 1 2) adjustment |>)).

Definition GetCompositeScore (pid : bytes) : M f64 :=
  record ← GetRecord pid;
  mret (match record with None => f64_0 | Some r => compositeScore r end).

Definition GetTier (pid : bytes) : M Tier :=
  record ← GetRecord pid;
  mret (match record with None => TierBasic | Some r => tier r end).

(** [time.Duration.Hours] and the conversion of its result to [uint64]; [time.Since] saturates. *)
Definition Hours (d : Z) : f64 :=
  f64_add (f64_of_Z (Z.quot d Hour)) (f64_div (f64_of_Z (Z.rem d Hour)) (f64_of_Z Hour)).
Definition time_Since (now t : Z) : Z := Z.max (- 2 ^ 63) (Z.min (2 ^ 63 - 1) (now - t)).

(** Appending to a window of at most [max] attestations. *)
Definition append_attestation (max : Z) (attestation : Attestation) (l : list Attestation) : outcome (list Attestation) :=
  if Z.of_nat (length l) mod 2 ^ 32 >=? max
  then match l with [] => Panic | _ :: l => Ok (l ++ [attestation]) end
  else Ok (l ++ [attestation]).

Definition AddAttestation (attestation : Attestation) : M unit :=
  t ← self;
  let expiryTime := Timestamp attestation / Second * Second + i64 (i64 (AttestationExpiryHours (config t)) * Hour) in
  now ← time_now;
  _ ← ensure (negb (now >? expiryTime)) ErrAttestationExpired;
  attesterRecord ← GetRecord (AttesterPeerID attestation);
  _ ← match attesterRecord with
      | None => mret tt
      | Some r =>
          now ← time_now;
          ensure (negb (u64 (f64_trunc (Hours (time_Since now (FirstObserved (metrics r))))) <? MinConnectionHours (config t)))
            ErrAttesterNotTrusted
      end;
  on_record (SubjectPeerID attestation) (fun record =>
    l ← lift (append_attestation (MaxAttestationsPerPeer (config t)) attestation (attestations record));
    mret (record <| attestations := l |>)).

Definition GetAllRecords : M (gmap bytes PeerRecord) := t ← self; mret (records t).

Definition GetPeersByTier (tr : Tier) : M (list bytes) :=
  t ← self;
  mret ((filter (fun p : bytes * PeerRecord => tier p.2 = tr) (order (records t))).*1).

Definition lower_score (a b : bytes * f64) : bool := f64_lt a.2 b.2.

Definition scored_peers (t : Tracker) : list (bytes * f64) :=
  (fun p => (p.1, compositeScore p.2)) <$> order (records t).

(** [make] panics on a negative capacity. *)
Definition GetTopPeers (n : Z) : M (list bytes) :=
  t ← self;
  let peers := exchange_sort lower_score (scored_peers t) in
  if n <? 0 then panic else mret (take (Z.to_nat n) peers.*1).
End Tracker.

(** ** Protocol messages *)

Record pbAttestation := mkPbAttestation {
  ra_AttesterPeerId : bytes; ra_SubjectPeerId : bytes; ra_Score : f32; ra_ObservationPeriodHours : Z;
  ra_Timestamp : Z; ra_Signature : bytes; ra_AttesterIdentityPub : string;
}.

Record pbMetrics := mkPbMetrics {
  pm_RelayReliability : f32; pm_RelaySuccessCount : Z; pm_RelayTotalCount : Z; pm_UptimeConsistency : f32;
  pm_HoursOnline_7D : Z; pm_LastSeen : Z; pm_MailboxReliability : f32; pm_MailboxRetrievedCount : Z;
  pm_MailboxDepositedCount : Z; pm_DhtResponsiveness : f32; pm_AvgResponseMs : f32; pm_DhtQueryCount : Z;
  pm_ContentServing : f32; pm_BlocksServedCount : Z; pm_BlocksRequestedCount : Z; pm_FirstObserved : Z;
  pm_LastUpdated : Z; pm_ObservationCount : Z;
}.

(** A message field that is absent is [None]. *)
Record pbRecord := mkPbRecord {
  pr_PeerId : bytes; pr_Metrics : option pbMetrics; pr_CompositeScore : f32; pr_Tier : Z;
  pr_Attestations : list pbAttestation; pr_TrustAdjustment : f32;
}.

Record pbAttestationEnvelope := mkPbAttEnvelope { pe_Attestation : option pbAttestation; pe_AttesterSignature : bytes }.
Record pbReputationQuery := mkPbQuery { pq_TargetPeerId : bytes; pq_Timestamp : Z; pq_QuerierPubkey : bytes }.
Record pbReputationResponse := mkPbResponse {
  pp_TargetPeerId : bytes; pp_Record : option pbRecord; pp_Attestations : list pbAttestation; pp_Timestamp : Z;
  pp_ResponderPubkey : bytes;
}.

(** [uint64(t.Unix())] and [time.Unix(int64(secs), 0)] *)
Definition Unix (t : Z) : Z := u64 (t / Second).
Definition time_Unix (secs : Z) : Z := i64 secs * Second.

Definition attestation_ToProto (a : Attestation) : pbAttestation :=
  mkPbAttestation (AttesterPeerID a) (SubjectPeerID a) (f64_to_f32 (Score a)) (ObservationPeriodHours a)
    (Unix (Timestamp a)) (Signature a) (AttesterIdentityPub a).

Definition attestation_FromProto (p : pbAttestation) : Attestation :=
  mkAttestation (ra_AttesterPeerId p) (ra_AttesterIdentityPub p) (ra_SubjectPeerId p) (f32_to_f64 (ra_Score p))
    (ra_ObservationPeriodHours p) (time_Unix (ra_Timestamp p)) (ra_Signature p).

Definition record_ToProto (r : PeerRecord) : pbRecord :=
  let m := metrics r in
  mkPbRecord (peerID r)
    (Some (mkPbMetrics (f64_to_f32 (RelayReliability m)) (RelaySuccessCount m) (RelayTotalCount m)
      (f64_to_f32 (UptimeConsistency m)) (HoursOnline7d m) (Unix (LastSeen m)) (f64_to_f32 (MailboxReliability m))
      (MailboxRetrievedCount m) (MailboxDepositedCount m) (f64_to_f32 (DHTResponsiveness m))
      (f64_to_f32 (AvgResponseMS m)) (DHTQueryCount m) (f64_to_f32 (ContentServing m)) (BlocksServedCount m)
      (BlocksRequestedCount m) (Unix (FirstObserved m)) (Unix (lastUpdated r)) (ObservationCount m)))
    (f64_to_f32 (compositeScore r)) (tier r) (attestation_ToProto <$> attestations r) (f64_to_f32 (trustAdjustment r)).

(** The conversion of [LoadRecord], [ListRecords] and [GetReputationRecord];
    [protoRecord.Metrics.X] panics when there are no metrics. *)
Definition record_FromProto (pid : bytes) (now : Z) (p : pbRecord) : outcome PeerRecord :=
  match pr_Metrics p with
  | None => Panic
  | Some m =>
      Ok (mkRecord pid
        (mkMetrics (f32_to_f64 (pm_RelayReliability m)) (pm_RelaySuccessCount m) (pm_RelayTotalCount m)
          (f32_to_f64 (pm_UptimeConsistency m)) (pm_HoursOnline_7D m) (time_Unix (pm_LastSeen m))
          (f32_to_f64 (pm_MailboxReliability m)) (pm_MailboxRetrievedCount m) (pm_MailboxDepositedCount m)
          (f32_to_f64 (pm_DhtResponsiveness m)) (f32_to_f64 (pm_AvgResponseMs m)) (pm_DhtQueryCount m)
          (f32_to_f64 (pm_ContentServing m)) (pm_BlocksServedCount m) (pm_BlocksRequestedCount m)
          (time_Unix (pm_FirstObserved m)) (pm_ObservationCount m))
        (f32_to_f64 (pr_CompositeScore p)) (pr_Tier p) (attestation_FromProto <$> pr_Attestations p)
        (f32_to_f64 (pr_TrustAdjustment p)) now)
  end.

(** ** Storage *)

Definition reputationPrefix : string := "rep:".
Definition configurationKey : bytes := str "cfg:reputation".

Section Storage.
Context `{K : KV} `{!Codec pbRecord} `{!Codec Config}.

Definition recordKey (pid : bytes) : bytes := str reputationPrefix ++ pid.

(** [db.Update] with one [Set] or [Delete]; the error is returned as it is. *)
Definition update_set (k v : bytes) : GoM kv unit := fun d =>
  match kv_set k v d with Some d' => (d', Ok tt) | None => (d, Err (ErrExt "badger")) end.
Definition update_delete (k : bytes) : GoM kv unit := fun d =>
  match kv_delete k d with Some d' => (d', Ok tt) | None => (d, Err (ErrExt "badger")) end.

Definition SaveRecord (record : PeerRecord) : GoM kv unit :=
  data ← lift (wrapErr "failed to marshal record" (proto_Marshal (record_ToProto record)));
  update_set (recordKey (peerID record)) data.

Definition LoadRecord (now : Z) (pid : bytes) : GoM kv (option PeerRecord) :=
  d ← get;
  match kv_get (recordKey pid) d with
  | None => throw (ErrExt "badger")
  | Some None => mret None
  | Some (Some data) =>
      protoRecord ← lift (wrapErr "failed to unmarshal record" (proto_Unmarshal data));
      record ← lift (record_FromProto pid now protoRecord);
      mret (Some record)
  end.

Definition DeleteRecord (pid : bytes) : GoM kv unit := update_delete (recordKey pid).

(** The record of the [i]-th item is dated [clock i]. *)
Fixpoint records_loop (clock : nat -> Z) (i : nat) (items : list (bytes * bytes)) : outcome (list PeerRecord) :=
  match items with
  | [] => mret []
  | (key, data) :: rest =>
      protoRecord ← proto_Unmarshal data;
      record ← record_FromProto (drop (String.length reputationPrefix) key) (clock i) protoRecord;
      records ← records_loop clock (S i) rest;
      mret (record :: records)
  end.

Definition ListRecords (clock : nat -> Z) : GoM kv (list PeerRecord) :=
  d ← get;
  match kv_scan (str reputationPrefix) d with
  | None => throw (ErrExt "badger")
  | Some items => lift (records_loop clock 0 items)
  end.

Definition SaveConfig (config : Config) : GoM kv unit :=
  data ← lift (wrapErr "failed to marshal config" (ext "json.Marshal" (marshal config)));
  update_set configurationKey data.

Definition LoadConfig : GoM kv Config :=
  d ← get;
  match kv_get configurationKey d with
  | None => throw (ErrExt "badger")
  | Some None => mret DefaultConfig
  | Some (Some data) => lift (wrapErr "failed to unmarshal config" (ext "json.Unmarshal" (unmarshal data)))
  end.

Record Stats := mkStats {
  TotalRecords : Z; TierBasicCount : Z; TierContributorCount : Z; TierReliableCount : Z; TierTrustedCount : Z;
  AverageScore : f64;
}.

Definition count_tier (t : Tier) (l : list PeerRecord) : Z := Z.of_nat (length (filter (fun r => tier r = t) l)).

Definition GetStats (clock : nat -> Z) : GoM kv Stats :=
  records ← ListRecords clock;
  let total := Z.of_nat (length records) in
  let totalScore := fold_left (fun x r => f64_add x (compositeScore r)) records f64_0 in
  mret (mkStats total (count_tier TierBasic records) (count_tier TierContributor records)
          (count_tier TierReliable records) (count_tier TierTrusted records)
          (if total >? 0 then f64_div totalScore (f64_of_Z total) else f64_0)).
End Storage.

(** ** Attestations over the network

    [ipfsNode] is an interface: content by identifier, topics and direct
    messages.  What is sent is kept in [sent], whether it arrives or not. *)
Record AttestationExchange := mkExchange {
  tracker : Tracker; privKey : bytes; identityPub : string; sent : list (bytes * bytes);
}.

#[export] Instance eta_Exchange : Eta AttestationExchange := fun e =>
  mkExchange (tracker e) (privKey e) (identityPub e) (sent e).

Section Network.
Context `{P : Primitives} `{!Codec pbAttestation} `{!Codec pbAttestationEnvelope} `{!Codec pbReputationQuery}
  `{!Codec pbReputationResponse} `{!Codec pbRecord}.
Context {Cid : Type}.
Variable ipfs_Add : bytes -> option Cid.
Variable ipfs_Get : Cid -> option bytes.
(** Publishing on a topic, subscribing to one, sending to a peer: whether it succeeds. *)
Variable ipfs_Publish : string -> bytes -> bool.
Variable ipfs_Subscribe : string -> bool.
Variable ipfs_PublishTo : bytes -> bytes -> bool.

Abbreviation N := (GoM (Sys AttestationExchange)).

(** What is signed: the message without its signature. *)
Definition unsigned (a : Attestation) : pbAttestation := attestation_ToProto (a <| Signature := [] |>).

Definition CreateAttestation (subject : bytes) (score : f64) (observationHours : Z) : N Attestation :=
  now ← time_now;
  e ← self;
  let attestation := mkAttestation (selfPeerID (tracker e)) (identityPub e) subject score observationHours now [] in
  data ← lift (wrapErr "failed to marshal attestation" (proto_Marshal (unsigned attestation)));
  signature ← lift (wrapErr "failed to sign attestation" (Sign (privKey e) data));
  mret (attestation <| Signature := signature |>).

Definition VerifyAttestation (attestation : Attestation) : outcome unit :=
  identityPubBytes ← wrapErr "failed to decode attester identity pubkey"
                       (ext "hex.DecodeString" (unhex (AttesterIdentityPub attestation)));
  data ← wrapErr "failed to marshal attestation" (proto_Marshal (unsigned attestation));
  if negb (Verify identityPubBytes data (Signature attestation)) then Err ErrInvalidSignature else Ok tt.

Definition attestation_envelope (a : Attestation) : pbAttestationEnvelope :=
  mkPbAttEnvelope (Some (attestation_ToProto a)) (Signature a).

Definition PublishAttestation (attestation : Attestation) : N Cid :=
  _ ← lift (VerifyAttestation attestation);
  data ← lift (wrapErr "failed to marshal envelope" (proto_Marshal (attestation_envelope attestation)));
  lift (wrapErr "failed to add attestation to IPFS" (ext "ipfs" (ipfs_Add data))).

Definition send (to data : bytes) : N unit := update (fun e => e <| sent := sent e ++ [(to, data)] |>).

Definition publish (topic : string) (data : bytes) : N unit :=
  _ ← send (str topic) data;
  if ipfs_Publish topic data then mret tt else throw (ErrExt "ipfs").

Definition PublishAttestationToPeer (target : bytes) (attestation : Attestation) : N unit :=
  _ ← lift (VerifyAttestation attestation);
  data ← lift (wrapErr "failed to marshal envelope" (proto_Marshal (attestation_envelope attestation)));
  _ ← send target data;
  if ipfs_PublishTo target data then mret tt else throw (ErrExt "ipfs").

(** [envelope.Attestation.X] panics when the envelope carries no attestation. *)
Definition GetAttestation (c : Cid) : N Attestation :=
  data ← lift (wrapErr "failed to get attestation from IPFS" (ext "ipfs" (ipfs_Get c)));
  envelope ← lift (wrapErr "failed to unmarshal envelope" (proto_Unmarshal (A := pbAttestationEnvelope) data));
  match pe_Attestation envelope with
  | None => panic
  | Some p =>
      let attestation := attestation_FromProto p in
      _ ← lift (VerifyAttestation attestation);
      mret attestation
  end.

(** The attestations of one response that verify; what does not parse is skipped. *)
Definition response_attestations (data : bytes) : list Attestation :=
  match unmarshal (A := pbReputationResponse) data with
  | None => []
  | Some response =>
      filter (fun a => match VerifyAttestation a with Ok _ => true | _ => false end = true)
        (attestation_FromProto <$> pp_Attestations response)
  end.

(** The first eight bytes of a peer id, as the topic uses them. *)
Definition rep_topic (target : bytes) : N string :=
  if (length target <? 8)%nat then panic else mret ("babylon-rep-" +:+ hex (take 8 target)).

(** [responses] are the messages that come in before the time is over. *)
Definition RequestAttestations (target : bytes) (responses : list bytes) : N (list Attestation) :=
  now ← time_now;
  e ← self;
  data ← lift (wrapErr "failed to marshal query"
                 (proto_Marshal (mkPbQuery target (Unix now) (selfPeerID (tracker e)))));
  topic ← rep_topic target;
  _ ← wrap "failed to publish query" (publish topic data);
  _ ← wrap "failed to subscribe for responses" (if ipfs_Subscribe topic then mret tt else throw (ErrExt "ipfs"));
  mret (responses ≫= response_attestations).

Definition RespondToAttestationRequest (query : pbReputationQuery) : N unit :=
  e ← self;
  match records (tracker e) !! pq_TargetPeerId query with
  | None => mret tt
  | Some record =>
      now ← time_now;
      let response := mkPbResponse (pq_TargetPeerId query) (Some (record_ToProto record))
                        (attestation_ToProto <$> attestations record) (Unix now) (selfPeerID (tracker e)) in
      data ← lift (wrapErr "failed to marshal response" (proto_Marshal response));
      topic ← rep_topic (pq_TargetPeerId query);
      publish topic data
  end.

(** The digest of a SHA-256 multihash starts at its third byte. *)
Definition ComputeDHTKey (peerID : bytes) : string := "/bt/rep/" +:+ hex (sha256 peerID).

Definition PublishReputationRecord (pid : bytes) : N Cid :=
  e ← self;
  match records (tracker e) !! pid with
  | None => throw (ErrText "no record found for peer")
  | Some record =>
      data ← lift (wrapErr "failed to marshal record" (proto_Marshal (record_ToProto record)));
      lift (wrapErr "failed to add record to IPFS" (ext "ipfs" (ipfs_Add data)))
  end.

Definition GetReputationRecord (pid : bytes) (c : Cid) : N PeerRecord :=
  data ← lift (wrapErr "failed to get record from IPFS" (ext "ipfs" (ipfs_Get c)));
  protoRecord ← lift (wrapErr "failed to unmarshal record" (proto_Unmarshal data));
  now ← time_now;
  lift (record_FromProto pid now protoRecord).
End Network.
