(* ===== verification/ReputationProps.v ===== *)
(** * pkg/reputation: what the tracker guarantees

    Theorems about [Reputation]: records stay well formed under every sequence
    of events, which attestations are accepted and what they change, the order
    of the best peers, and attestations on their way over the network. *)
From Stdlib Require Import Sorting.Sorted.
From S2P Require Import Prelude Primitives Crypto Proto Runtime Exchange Float64 Reputation.
#[local] Open Scope Z_scope.

(** ** Events *)

Section Tracking.
Abbreviation M := (GoM (Sys Tracker)).

(** A record as it is created. *)
Definition fresh (pid : bytes) (r : PeerRecord) : Prop :=
  exists t t', r = mkRecord pid (zero_metrics t) f64_0 TierBasic [] f64_0 t'.

Lemma GetOrCreateRecord_run pid w :
  exists w' r, GetOrCreateRecord pid w = (w', Ok r) /\ records (obj w') !! pid = Some r /\
    config (obj w') = config (obj w) /\
    (forall pid', pid' <> pid -> records (obj w') !! pid' = records (obj w) !! pid') /\
    (records (obj w) !! pid = Some r \/ records (obj w) !! pid = None /\ fresh pid r).
Proof.
  unfold GetOrCreateRecord, mbind, GoM_bind, self. destruct (records (obj w) !! pid) as [r|] eqn:E.
  - exists w, r. cbn. by eauto 6.
  - do 2 eexists. split; [reflexivity|]. cbn. split; [by rewrite lookup_insert_eq|]. split; [done|].
    split; [intros; by rewrite lookup_insert_ne|]. right. split; [done|]. by do 2 eexists.
Qed.

(** Changes of a record do not touch the rest of the tracker. *)
Definition local (change : PeerRecord -> M PeerRecord) : Prop := forall r w, obj (change r w).1 = obj w.

(** What an event does: one record is found or made, changed, and scored. *)
Lemma on_record_run pid change w :
  local change ->
  exists w1 r0, (records (obj w) !! pid = Some r0 \/ records (obj w) !! pid = None /\ fresh pid r0) /\
    config (obj (on_record pid change w).1) = config (obj w) /\
    (forall pid', pid' <> pid -> records (obj (on_record pid change w).1) !! pid' = records (obj w) !! pid') /\
    match (change r0 w1).2 with
    | Ok r1 => (on_record pid change w).2 = Ok tt /\ exists now,
        records (obj (on_record pid change w).1) !! pid =
          Some (updateCompositeScore (config (obj w)) r1 <| lastUpdated := now |>)
    | Err e => (on_record pid change w).2 = Err e
    | Panic => (on_record pid change w).2 = Panic
    end.
Proof.
  intros Hl. destruct (GetOrCreateRecord_run pid w) as (w1 & r0 & E & Hr & Hc & Hf & H0).
  exists w1, r0. split; [done|]. unfold on_record, mbind, GoM_bind. rewrite E. specialize (Hl r0 w1).
  destruct (change r0 w1) as [w2 o]. cbn in *. destruct o as [r1|e|]; cbn.
  - rewrite Hl. split; [done|]. split; [intros; by rewrite lookup_insert_ne, Hf|]. split; [done|].
    eexists. by rewrite lookup_insert_eq, Hc.
  - rewrite Hl. by split.
  - rewrite Hl. by split.
Qed.
End Tracking.

(** ** Well-formed records *)

Definition neg_half : f64 := f64_lit (-1) 2.
Definition half : f64 := f64_lit 1 2.

(** [x] is not outside the bounds: it is between them, or NaN. *)
Definition within (lo hi x : f64) : Prop := f64_lt x lo = false /\ f64_lt hi x = false.

(** What holds of a record before its score is computed. *)
Record wf_inputs (c : Config) (pid : bytes) (r : PeerRecord) : Prop := {
  wf_id : peerID r = pid;
  wf_hours : 0 <= HoursOnline7d (metrics r) <= HoursPerWeek;
  wf_uptime : UptimeConsistency (metrics r) = f64_div (f64_of_Z (HoursOnline7d (metrics r))) (f64_of_Z HoursPerWeek);
  wf_dht : within f64_0 f64_1 (DHTResponsiveness (metrics r));
  wf_mailbox : f64_lt f64_1 (MailboxReliability (metrics r)) = false;
  wf_content : f64_lt f64_1 (ContentServing (metrics r)) = false;
  wf_trust : within neg_half half (trustAdjustment r);
  wf_attestations : Z.of_nat (length (attestations r)) <= MaxAttestationsPerPeer c;
}.

Record wf_record (c : Config) (pid : bytes) (r : PeerRecord) : Prop := {
  wf_in : wf_inputs c pid r;
  wf_score : compositeScore r = composite_score c (metrics r) (trustAdjustment r);
  wf_range : within f64_0 f64_1 (compositeScore r);
  wf_tier : tier r = tier_of c (compositeScore r);
}.

(** The score and the tier a new record is given are those of its metrics. *)
Record config_ok (c : Config) : Prop := {
  fresh_score : forall t, composite_score c (zero_metrics t) f64_0 = f64_0;
  fresh_tier : tier_of c f64_0 = TierBasic;
  max_ok : 1 <= MaxAttestationsPerPeer c < 2 ^ 32;
}.

Definition wf_tracker (c : Config) (t : Tracker) : Prop :=
  config t = c /\ forall pid r, records t !! pid = Some r -> wf_record c pid r.

Lemma clamp_within lo hi x :
  is_NaN lo = false -> is_NaN hi = false -> f64_lt hi lo = false -> within lo hi (clamp lo hi x).
Proof. intros H1 H2 H3. by destruct (clamp_range lo hi x H1 H2 H3) as (_ & H). Qed.

Lemma cap_1_le x : f64_lt f64_1 (cap_1 x) = false.
Proof. unfold cap_1. destruct (f64_lt f64_1 x) eqn:E; [by vm_compute|done]. Qed.

Lemma fresh_wf c pid r : config_ok c -> fresh pid r -> wf_record c pid r.
Proof.
  intros [Hs Ht Hm] (t & t' & ->). split; cbn; [split; cbn| | |].
  1, 4, 5, 6: done.
  - unfold HoursPerWeek. lia.
  - by vm_compute.
  - split; by vm_compute.
  - lia.
  - by rewrite Hs.
  - split; by vm_compute.
  - by rewrite Ht.
Qed.

Lemma updateCompositeScore_wf c pid r now :
  wf_inputs c pid r -> wf_record c pid (updateCompositeScore c r <| lastUpdated := now |>).
Proof.
  intros []. split; cbn; [by split|done| |done]. by apply clamp_within; vm_compute.
Qed.

(** A change that keeps the inputs well formed keeps the tracker well formed. *)
Lemma on_record_wf c pid change w :
  config_ok c -> local change ->
  (forall r w, wf_inputs c pid r -> exists r', (change r w).2 = Ok r' /\ wf_inputs c pid r') ->
  wf_tracker c (obj w) -> wf_tracker c (obj (on_record pid change w).1) /\ (on_record pid change w).2 = Ok tt.
Proof.
  intros Hc Hl Hch [Ec Hw]. destruct (on_record_run pid change w Hl) as (w1 & r0 & H0 & Hcfg & Hf & Hr).
  assert (wf_inputs c pid r0) as Hr0.
  { destruct H0 as [H0|[_ H0]]; [by apply (Hw pid)|by apply (fresh_wf c pid)]. }
  destruct (Hch r0 w1 Hr0) as (r1 & E & Hr1). rewrite E in Hr. destruct Hr as (Eo & now & Hr).
  split; [|done]. split; [by rewrite Hcfg|]. intros pid' r' Hr'. destruct (decide (pid' = pid)) as [->|Hne].
  - rewrite Hr in Hr'. injection Hr' as <-. rewrite Ec. by apply updateCompositeScore_wf.
  - rewrite Hf in Hr' by done. by apply Hw.
Qed.

Lemma change_metrics_wf c pid f r (w : Sys Tracker) :
  (forall m, HoursOnline7d (f m) = HoursOnline7d m /\ UptimeConsistency (f m) = UptimeConsistency m) ->
  (forall m, within f64_0 f64_1 (DHTResponsiveness m) -> within f64_0 f64_1 (DHTResponsiveness (f m))) ->
  (forall m, f64_lt f64_1 (MailboxReliability m) = false -> f64_lt f64_1 (MailboxReliability (f m)) = false) ->
  (forall m, f64_lt f64_1 (ContentServing m) = false -> f64_lt f64_1 (ContentServing (f m)) = false) ->
  wf_inputs c pid r -> exists r', (change_metrics f r w).2 = Ok r' /\ wf_inputs c pid r'.
Proof.
  intros Hu Hd Hm Hc []. eexists. split; [reflexivity|]. destruct (Hu (metrics r)) as [E1 E2].
  split; cbn; rewrite ?E1, ?E2; auto.
Qed.

Lemma change_metrics_local f : local (change_metrics f).
Proof. done. Qed.

Lemma relay_wf c pid b r w : wf_inputs c pid r -> exists r', (change_metrics (relay_event b) r w).2 = Ok r' /\ wf_inputs c pid r'.
Proof. apply change_metrics_wf; intros m; unfold relay_event; destruct b; cbn; by destruct (_ >? 0). Qed.

Lemma mailbox_wf c pid b b' r w :
  wf_inputs c pid r -> exists r', (change_metrics (mailbox_event b b') r w).2 = Ok r' /\ wf_inputs c pid r'.
Proof.
  apply change_metrics_wf; intros m; unfold mailbox_event; destruct b, b'; cbn; destruct (_ >? 0); cbn;
    try done; by rewrite cap_1_le.
Qed.

Lemma content_wf c pid b b' r w :
  wf_inputs c pid r -> exists r', (change_metrics (content_event b b') r w).2 = Ok r' /\ wf_inputs c pid r'.
Proof.
  apply change_metrics_wf; intros m; unfold content_event; destruct b, b'; cbn; destruct (_ >? 0); cbn;
    try done; by rewrite cap_1_le.
Qed.

Lemma dht_wf c pid x r w : wf_inputs c pid r -> exists r', (change_metrics (dht_query x) r w).2 = Ok r' /\ wf_inputs c pid r'.
Proof.
  apply change_metrics_wf; intros m; try done. intros _. by apply clamp_within; vm_compute.
Qed.

Lemma cap_uptime_wf m :
  0 <= HoursOnline7d m -> 0 <= HoursOnline7d (cap_uptime m) <= HoursPerWeek /\
  UptimeConsistency (cap_uptime m) = f64_div (f64_of_Z (HoursOnline7d (cap_uptime m))) (f64_of_Z HoursPerWeek) /\
  (DHTResponsiveness (cap_uptime m), MailboxReliability (cap_uptime m), ContentServing (cap_uptime m)) =
    (DHTResponsiveness m, MailboxReliability m, ContentServing m).
Proof.
  intros H. unfold cap_uptime. rewrite Z.gtb_ltb. destruct (Z.ltb_spec HoursPerWeek (HoursOnline7d m)); cbn;
    (split; [unfold HoursPerWeek in *; lia|done]).
Qed.

Lemma append_attestation_ok max a l :
  1 <= max < 2 ^ 32 -> Z.of_nat (length l) <= max ->
  exists l', append_attestation max a l = Ok l' /\ Z.of_nat (length l') <= max /\
    l' = drop (length l + 1 - Z.to_nat max) (l ++ [a]).
Proof.
  intros Hm Hl. unfold append_attestation. rewrite Z.mod_small by lia. rewrite Z.geb_leb.
  destruct (Z.leb_spec max (Z.of_nat (length l))).
  - destruct l as [|x l]; [cbn in *; lia|]. exists (l ++ [a]). split; [done|].
    assert (length (x :: l) + 1 - Z.to_nat max = 1)%nat as -> by lia. rewrite length_app. cbn in *. split; [lia|done].
  - exists (l ++ [a]). rewrite length_app. cbn. split; [done|]. split; [lia|].
    by assert (length l + 1 - Z.to_nat max = 0)%nat as -> by lia.
Qed.

(** ** Runs *)

Inductive RepEvent :=
  | EObserve (pid : bytes)
  | ERelay (pid : bytes) (success : bool)
  | EUptime (pid : bytes) (online : bool)
  | EMailbox (pid : bytes) (deposited retrieved : bool)
  | EDHT (pid : bytes) (responseMS : f64)
  | EContent (pid : bytes) (served requested : bool)
  | ETrust (pid : bytes) (adjustment : f64)
  | EAttest (a : Attestation).

Definition rep_op (e : RepEvent) : GoM (Sys Tracker) unit :=
  match e with
  | EObserve pid => _ ← GetOrCreateRecord pid; mret tt
  | ERelay pid b => RecordRelayEvent pid b
  | EUptime pid b => RecordUptimeObservation pid b
  | EMailbox pid b b' => RecordMailboxEvent pid b b'
  | EDHT pid x => RecordDHTQuery pid x
  | EContent pid b b' => RecordContentEvent pid b b'
  | ETrust pid x => SetTrustAdjustment pid x
  | EAttest a => AddAttestation a
  end.

Definition rep_run (w : Sys Tracker) (events : list RepEvent) : Sys Tracker :=
  fold_left (fun w e => (rep_op e w).1) events w.

Definition observed_hours (now : Z) (r : PeerRecord) : Z :=
  u64 (f64_trunc (Hours (time_Since now (FirstObserved (metrics r))))).
Definition expires (c : Config) (a : Attestation) : Z :=
  Timestamp a / Second * Second + i64 (i64 (AttestationExpiryHours c) * Hour).

(** The answer of the checks of [AddAttestation] at two readings of the clock. *)
Definition admission (t : Tracker) (now now' : Z) (a : Attestation) : outcome unit :=
  if now >? expires (config t) a then Err ErrAttestationExpired
  else match records t !! AttesterPeerID a with
       | Some r => if observed_hours now' r <? MinConnectionHours (config t) then Err ErrAttesterNotTrusted else Ok tt
       | None => Ok tt
       end.

Definition add_change (t : Tracker) (a : Attestation) (record : PeerRecord) : GoM (Sys Tracker) PeerRecord :=
  l ← lift (append_attestation (MaxAttestationsPerPeer (config t)) a (attestations record));
  mret (record <| attestations := l |>).

Lemma add_change_local t a : local (add_change t a).
Proof. intros r w. unfold add_change, mbind, GoM_bind, lift. by destruct (append_attestation _ _ _). Qed.

Lemma AddAttestation_run a w :
  match admission (obj w) (clock (env w) 0%nat) (clock (env w) 1%nat) a with
  | Ok _ => exists w1, obj w1 = obj w /\
      AddAttestation a w = on_record (SubjectPeerID a) (add_change (obj w) a) w1
  | Err e => (AddAttestation a w).2 = Err e /\ obj (AddAttestation a w).1 = obj w
  | Panic => False
  end.
Proof.
  unfold admission, AddAttestation. go_run. unfold self, time_now. cbn. fold (expires (config (obj w)) a).
  destruct (_ >? _); cbn; [done|]. unfold GetRecord. go_run. unfold self. cbn.
  destruct (records (obj w) !! AttesterPeerID a) as [r|]; cbn.
  - unfold observed_hours. destruct (_ <? _); cbn; [done|]. eexists. split; [|reflexivity]. done.
  - eexists. split; [|reflexivity]. done.
Qed.

Lemma add_change_wf c t a pid r w :
  config_ok c -> config t = c -> wf_inputs c pid r ->
  exists r', (add_change t a r w).2 = Ok r' /\ wf_inputs c pid r'.
Proof.
  intros [_ _ Hm] Ec []. destruct (append_attestation_ok (MaxAttestationsPerPeer c) a (attestations r))
    as (l & E & Hl & _); [done|done|].
  unfold add_change. go_run. rewrite Ec, E. cbn. eexists. split; [reflexivity|]. by split.
Qed.

Lemma rep_op_wf c e w :
  config_ok c -> wf_tracker c (obj w) -> wf_tracker c (obj (rep_op e w).1) /\ (rep_op e w).2 <> Panic.
Proof.
  intros Hc Hw.
  assert (forall pid change, local change ->
    (forall r w, wf_inputs c pid r -> exists r', (change r w).2 = Ok r' /\ wf_inputs c pid r') ->
    forall w, wf_tracker c (obj w) ->
    wf_tracker c (obj (on_record pid change w).1) /\ (on_record pid change w).2 <> Panic) as Hrec.
  { intros pid change Hl Hch w' Hw'. destruct (on_record_wf c pid change w' Hc Hl Hch Hw') as [H ->]. by split. }
  destruct e as [pid|pid b|pid b|pid b b'|pid x|pid b b'|pid x|a]; cbn [rep_op].
  - destruct (GetOrCreateRecord_run pid w) as (w' & r & E & Hr & Hcfg & Hf & H0).
    unfold mbind, GoM_bind. rewrite E. cbn. split; [|done]. destruct Hw as [Ec Hw]. split; [by rewrite Hcfg|].
    intros pid' r' Hr'. destruct (decide (pid' = pid)) as [->|Hne]; [|rewrite Hf in Hr' by done; by apply Hw].
    rewrite Hr in Hr'. injection Hr' as <-. destruct H0 as [H0|[_ H0]]; [by apply Hw|by apply fresh_wf].
  - apply Hrec; [done| |done]. intros. by apply relay_wf.
  - apply Hrec; [by destruct b| |done]. intros r w' Hr. pose proof Hr as [].
    destruct b; cbn; (eexists; split; [reflexivity|]).
    all: match goal with |- context [cap_uptime ?m] =>
           destruct (cap_uptime_wf m) as (? & ? & [= E1 E2 E3]); [cbn; by (apply u64_range || lia)|] end.
    all: split; cbn in *; rewrite ?E1, ?E2, ?E3; done.
  - apply Hrec; [done| |done]. intros. by apply mailbox_wf.
  - apply Hrec; [done| |done]. intros. by apply dht_wf.
  - apply Hrec; [done| |done]. intros. by apply content_wf.
  - apply Hrec; [done| |done]. intros r w' []. eexists. split; [reflexivity|]. split; cbn; try done.
    by apply clamp_within; vm_compute.
  - pose proof (AddAttestation_run a w) as Ha. destruct (admission _ _ _ _) as [?|e|]; [| |done].
    + destruct Ha as (w1 & E & ->). apply Hrec; [by apply add_change_local| |by rewrite E].
      intros. apply add_change_wf; [done|by apply Hw|done].
    + destruct Ha as [-> ->]. by split.
Qed.

Lemma rep_run_wf c events w : config_ok c -> wf_tracker c (obj w) -> wf_tracker c (obj (rep_run w events)).
Proof.
  intros Hc. revert w; induction events as [|e events IH]; intros w Hw; [done|]. apply IH. by apply rep_op_wf.
Qed.

Lemma NewTracker_wf pid id c : wf_tracker c (NewTracker pid id (Some c)).
Proof. split; [done|]. intros p r H. cbn in H. by rewrite lookup_empty in H. Qed.

(** C16. Records of peers stay well formed.  In every run of a new tracker, whatever
    events it is told of, the score of each record is the clamped weighted sum
    of its present metrics and adjustment and is never outside [0, 1], its tier
    is the one of its score, the hours online never exceed a week, the
    adjustment is never outside [-1/2, 1/2], no more than the configured number of
    attestations are kept; and no event panics. *)
Theorem records_well_formed c pid id env0 events :
  config_ok c ->
  let w := rep_run (mkSys env0 (NewTracker pid id (Some c))) events in
  (forall p r, records (obj w) !! p = Some r -> wf_record c p r) /\
  (forall e, (rep_op e w).2 <> Panic).
Proof.
  intros Hc w. assert (wf_tracker c (obj w)) as Hw by (apply rep_run_wf; [done|apply NewTracker_wf]).
  split; [apply Hw|]. intros e. by apply (rep_op_wf c).
Qed.

Lemma GetCompositeScore_run pid w :
  (GetCompositeScore pid w).2 =
    Ok (match records (obj w) !! pid with Some r => compositeScore r | None => f64_0 end).
Proof. unfold GetCompositeScore, GetRecord. go_run. unfold self. cbn. done. Qed.

(** Which attestations are accepted, and what they do.  [AddAttestation]
    refuses an attestation that has expired and one of an attester observed for
    fewer hours than configured, changing nothing; it accepts every other one,
    among them those of attesters never seen and without any look at the
    signature.  An accepted attestation enters the window of the newest
    attestations of its subject, no other record changes, and the score of no
    peer does. *)
Theorem AddAttestation_effect c a w :
  config_ok c -> wf_tracker c (obj w) ->
  let '(w', o) := AddAttestation a w in
  o = admission (obj w) (clock (env w) 0%nat) (clock (env w) 1%nat) a /\
  (forall pid, (GetCompositeScore pid w').2 = (GetCompositeScore pid w).2) /\
  (forall pid, pid <> SubjectPeerID a -> records (obj w') !! pid = records (obj w) !! pid) /\
  match o with
  | Ok _ => exists r', records (obj w') !! SubjectPeerID a = Some r' /\
      let old := match records (obj w) !! SubjectPeerID a with Some r => attestations r | None => [] end in
      attestations r' = drop (length old + 1 - Z.to_nat (MaxAttestationsPerPeer c)) (old ++ [a])
  | _ => obj w' = obj w
  end.
Proof.
  intros Hc Hw. destruct (AddAttestation a w) as [w' o] eqn:E. pose proof (AddAttestation_run a w) as Ha.
  destruct (admission _ _ _ _) as [[]|e|]; [| |done].
  2: { rewrite E in Ha. cbn in Ha. destruct Ha as [-> Ho]. split; [done|]. split; [|split; [|done]].
       - intros pid. by rewrite !GetCompositeScore_run, Ho.
       - by rewrite Ho. }
  destruct Ha as (w1 & E1 & Ha). rewrite E in Ha. destruct Hw as [Ec Hw].
  destruct (on_record_run (SubjectPeerID a) (add_change (obj w) a) w1 (add_change_local _ _))
    as (w2 & r0 & H0 & _ & Hf & Hr).
  rewrite <- Ha in Hf, Hr. rewrite E1 in H0, Hf, Hr. cbn in Hf, Hr.
  assert (wf_record c (SubjectPeerID a) r0) as Hr0.
  { destruct H0 as [H0|[_ H0]]; [by apply Hw|by apply fresh_wf]. }
  destruct (append_attestation_ok (MaxAttestationsPerPeer c) a (attestations r0)) as (l & El & _ & Hl);
    [apply Hc|apply Hr0|].
  revert Hr. unfold add_change. go_run. rewrite Ec, El. cbn. intros (-> & now & Hr).
  split; [done|]. split; [|split; [done|]].
  - intros pid. rewrite !GetCompositeScore_run. destruct (decide (pid = SubjectPeerID a)) as [->|Hne]; [|by rewrite Hf].
    rewrite Hr. cbn. f_equal. destruct Hr0 as [_ Hs _ _]. rewrite <- Hs.
    destruct H0 as [H0|[H0 (t & t' & ->)]]; by rewrite H0.
  - eexists. split; [exact Hr|]. cbn. rewrite Hl. by destruct H0 as [->|[-> (t & t' & ->)]].
Qed.

(** ** The best peers *)

(** Without NaN among the scores, the peers returned are the first of all peers
    ordered by falling score. *)
Lemma GetTopPeers_best order n w :
  Permutation (order (records (obj w))) (map_to_list (records (obj w))) -> 0 <= n ->
  Forall (fun p => is_NaN (compositeScore p.2) = false) (map_to_list (records (obj w))) ->
  exists ranking, Permutation ranking ((fun p => (p.1, compositeScore p.2)) <$> map_to_list (records (obj w))) /\
    StronglySorted (fun a b => f64_lt a.2 b.2 = false) ranking /\
    GetTopPeers order n w = (w, Ok (take (Z.to_nat n) ranking.*1)).
Proof.
  intros Hp Hn Hnan. exists (exchange_sort lower_score (scored_peers order (obj w))). split; [|split].
  - rewrite exchange_sort_perm. unfold scored_peers. by rewrite Hp.
  - apply (exchange_sort_sorted lower_score (fun p => is_NaN p.2 = false)); unfold lower_score.
    + intros ??. by apply f64_lt_irrefl.
    + intros ??????. by apply f64_lt_trans.
    + intros ??????. by apply f64_ge_trans.
    + unfold scored_peers. rewrite Forall_fmap. rewrite Hp. exact Hnan.
  - unfold GetTopPeers. go_run. unfold self. cbn. by rewrite (proj2 (Z.ltb_ge _ _)) by done.
Qed.

(** ** Attestations over the network *)

Section Attestations.
Context `{P : Primitives} `{!PrimitiveLaws P}.
Context `{!Codec pbAttestation} `{!Codec pbAttestationEnvelope} `{!CodecLaws pbAttestationEnvelope}.
Context {Cid : Type}.
Variable ipfs_Add : bytes -> option Cid.
Variable ipfs_Get : Cid -> option bytes.
(** What was added is found under its identifier. *)
Hypothesis ipfs_Get_Add : forall data c, ipfs_Add data = Some c -> ipfs_Get c = Some data.

Lemma Unix_time_Unix t : Unix (time_Unix (Unix t)) = Unix t.
Proof.
  unfold Unix, time_Unix. rewrite Z.div_mul by done. unfold i64, u64.
  set (s := (t / Second) mod 2 ^ 64). assert (0 <= s < 2 ^ 64) as Hs by (apply Z.mod_pos_bound; done).
  replace ((s + 2 ^ 63) mod 2 ^ 64 - 2 ^ 63) with (s + (- ((s + 2 ^ 63) / 2 ^ 64)) * 2 ^ 64).
  - rewrite Z.mod_add by done. by apply Z.mod_small.
  - rewrite Z.mod_eq by done. lia.
Qed.

(** Narrowing a score a second time changes nothing. *)
Definition narrow_stable (x : f64) : Prop := f64_to_f32 (f32_to_f64 (f64_to_f32 x)) = f64_to_f32 x.

(** An attestation as it comes back: the score in single precision, the time in seconds. *)
Definition rounded (a : Attestation) : Attestation :=
  a <| Score := f32_to_f64 (f64_to_f32 (Score a)) |> <| Timestamp := time_Unix (Unix (Timestamp a)) |>.

Lemma attestation_rounded a : attestation_FromProto (attestation_ToProto a) = rounded a.
Proof. done. Qed.

Lemma unsigned_rounded a : narrow_stable (Score a) -> unsigned (rounded a) = unsigned a.
Proof. intros H. unfold unsigned, attestation_ToProto, rounded. cbn. by rewrite H, Unix_time_Unix. Qed.

Lemma VerifyAttestation_created subject score hours w w' a pub :
  ed_keypair pub (privKey (obj w)) -> identityPub (obj w) = hex pub ->
  CreateAttestation subject score hours w = (w', Ok a) ->
  VerifyAttestation a = Ok tt /\ Score a = score /\ SubjectPeerID a = subject /\
  AttesterPeerID a = selfPeerID (tracker (obj w)) /\ obj w' = obj w.
Proof.
  intros Hkp Hid. unfold CreateAttestation. go_run. unfold time_now, self. cbn.
  match goal with |- context [proto_Marshal ?p] => destruct (proto_Marshal p) as [data|e|] eqn:Em; [|done|done] end.
  cbn. destruct (Sign (privKey (obj w)) data) as [sig| |] eqn:Es; [|done|done]. cbn. intros [= <- <-].
  rewrite Hid in Em. unfold VerifyAttestation. cbn. rewrite Hid, unhex_hex. cbn.
  match goal with |- context [unsigned ?x] =>
    match type of Em with proto_Marshal (unsigned ?y) = _ => change (unsigned x) with (unsigned y) end end.
  rewrite Em. cbn. by rewrite (Verify_Sign _ _ _ _ Hkp Es).
Qed.

(** An attestation survives the network.  What a node with a key pair creates
    and publishes is fetched and accepted by every node, the same except that
    the score has single precision and the time whole seconds.  The check uses
    the key the attestation names itself: the id of the attesting peer can be
    anything. *)
Theorem attestation_roundtrip pub subject score hours w w1 a w2 c :
  ed_keypair pub (privKey (obj w)) -> identityPub (obj w) = hex pub -> narrow_stable score ->
  CreateAttestation subject score hours w = (w1, Ok a) ->
  PublishAttestation ipfs_Add a w1 = (w2, Ok c) ->
  AttesterPeerID a = selfPeerID (tracker (obj w)) /\
  forall other, GetAttestation ipfs_Get c other = (other, Ok (rounded a)).
Proof.
  intros Hkp Hid Hn Hcr Hpub. destruct (VerifyAttestation_created _ _ _ _ _ _ _ Hkp Hid Hcr) as (Hv & Hs & _ & Hp & _).
  split; [done|]. intros other. revert Hpub. unfold PublishAttestation, GetAttestation. go_run. rewrite Hv. cbn.
  unfold proto_Marshal, ext. destruct (marshal (attestation_envelope a)) as [data|] eqn:Em; [|done]. cbn.
  destruct (ipfs_Add data) as [c'|] eqn:Ea; [|done]. intros [= <- ->].
  rewrite (ipfs_Get_Add _ _ Ea). cbn. unfold proto_Unmarshal, ext. rewrite (unmarshal_marshal _ _ Em). cbn.
  rewrite attestation_rounded. unfold VerifyAttestation in *. cbn [AttesterIdentityPub Signature rounded set_field].
  rewrite unsigned_rounded by by rewrite Hs. cbn in *. by rewrite Hv.
Qed.
End Attestations.

(** ** Concrete runs *)
Module ReputationDemo.
Definition spec_float_repr (x : spec_float) : bool + bool + (unit + bool * positive * Z) :=
  match x with
  | S754_zero s => inl (inl s) | S754_infinity s => inl (inr s)
  | S754_nan => inr (inl tt) | S754_finite s m e => inr (inr (s, m, e))
  end.
Definition spec_float_abs (x : bool + bool + (unit + bool * positive * Z)) : spec_float :=
  match x with
  | inl (inl s) => S754_zero s | inl (inr s) => S754_infinity s
  | inr (inl _) => S754_nan | inr (inr (s, m, e)) => S754_finite s m e
  end.
#[export] Instance spec_float_eq_dec : EqDecision spec_float.
Proof. solve_decision. Defined.
#[export] Program Instance spec_float_countable : Countable spec_float :=
  inj_countable' spec_float_repr spec_float_abs _.
Next Obligation. by intros []. Qed.

#[export] Instance pbAttestation_eq_dec : EqDecision pbAttestation.
Proof. unfold EqDecision, Decision, f32. decide equality; apply (decide (_ = _)). Defined.
#[export] Program Instance pbAttestation_countable : Countable pbAttestation :=
  inj_countable' (fun '(mkPbAttestation a b c d e f g) => (a, b, c : spec_float, d, e, f, g))
    (fun '(a, b, c, d, e, f, g) => mkPbAttestation a b c d e f g) _.
Next Obligation. by intros []. Qed.
#[export] Instance pbAttEnvelope_eq_dec : EqDecision pbAttestationEnvelope.
Proof. solve_decision. Defined.
#[export] Program Instance pbAttEnvelope_countable : Countable pbAttestationEnvelope :=
  inj_countable' (fun '(mkPbAttEnvelope a b) => (a, b)) (fun '(a, b) => mkPbAttEnvelope a b) _.
Next Obligation. by intros []. Qed.
#[export] Instance pbAttestation_codec : Codec pbAttestation := countable_codec.
#[export] Instance pbAttEnvelope_codec : Codec pbAttestationEnvelope := countable_codec.
#[export] Instance pbAttEnvelope_laws : CodecLaws pbAttestationEnvelope := countable_codec_laws.

Lemma default_config_ok : config_ok DefaultConfig.
Proof. split; [intros t; vm_compute; reflexivity|vm_compute; reflexivity|cbn; lia]. Qed.

Definition seconds : Env := mkEnvironment (fun _ => None) (fun i => Z.of_nat i * Second).
Definition alice : bytes := str "alice".
Definition bob : bytes := str "bob".
(** Every relay works, every mailbox message is fetched twice, DHT answers take a second. *)
Definition good_peer : list RepEvent :=
  [ERelay alice true; ERelay alice true; EMailbox alice true true; EMailbox alice false true;
   EDHT alice (f64_of_Z 1000); EUptime alice true; ETrust alice (f64_of_Z 7)].
Definition tracked : Sys Tracker := rep_run (mkSys seconds (NewTracker bob "" (Some DefaultConfig))) good_peer.

Definition att : Attestation := mkAttestation (str "carol") "" alice (f64_lit 3 4) 1 (5 * Second) [].

Definition seed : bytes := zeros 32.
Definition node : Sys AttestationExchange :=
  mkSys seconds (mkExchange (NewTracker bob "" None) (seed ++ ed_pub (Primitives := toy) seed)
                   (hex (ed_pub (Primitives := toy) seed)) []).
End ReputationDemo.
Import ReputationDemo.

Lemma records_well_formed_witness :
  exists r, records (obj tracked) !! alice = Some r /\ wf_record DefaultConfig alice r /\
    tier r = TierTrusted /\ MailboxReliability (metrics r) = f64_1 /\ trustAdjustment r = half.
Proof.
  assert (match records (obj tracked) !! alice with
          | Some r => (tier r, MailboxReliability (metrics r), trustAdjustment r)
          | None => (7, f64_0, f64_0) end = (TierTrusted, f64_1, half)) as E by (vm_compute; reflexivity).
  pose proof (proj1 (records_well_formed DefaultConfig bob "" seconds good_peer default_config_ok) alice) as H.
  change (rep_run (mkSys seconds (NewTracker bob "" (Some DefaultConfig))) good_peer) with tracked in H.
  revert E H. generalize (records (obj tracked) !! alice). intros [r|] E H; [|discriminate E].
  exists r. injection E as E1 E2 E3. split; [reflexivity|]. split; [by apply H|]. by split.
Defined.

Lemma AddAttestation_effect_witness :
  let '(w', o) := AddAttestation att tracked in
  o = Ok tt /\ exists r', records (obj w') !! alice = Some r' /\ attestations r' = [att].
Proof.
  assert (wf_tracker DefaultConfig (obj tracked)) as Hw.
  { apply (rep_run_wf _ good_peer); [apply default_config_ok|apply NewTracker_wf]. }
  assert (admission (obj tracked) (clock (env tracked) 0%nat) (clock (env tracked) 1%nat) att = Ok tt) as Ea
    by (vm_compute; reflexivity).
  assert (match records (obj tracked) !! alice with Some r => attestations r | None => [] end = []) as El
    by (vm_compute; reflexivity).
  pose proof (AddAttestation_effect DefaultConfig att tracked default_config_ok Hw) as H.
  destruct (AddAttestation att tracked) as [w' o]. destruct H as (Ho & _ & _ & H). rewrite Ea in Ho. subst o.
  split; [reflexivity|]. destruct H as (r' & Hr & Hl). exists r'. split; [exact Hr|].
  change (SubjectPeerID att) with alice in Hl. rewrite El in Hl. exact Hl.
Defined.

Lemma attestation_roundtrip_witness :
  exists a, (CreateAttestation (P := toy) alice (f64_lit 3 4) 24 node).2 = Ok a /\
    forall other, GetAttestation (P := toy) (Cid := bytes) Some (encode_bytes (attestation_envelope a)) other =
      (other, Ok (rounded a)).
Proof.
  destruct (CreateAttestation (P := toy) alice (f64_lit 3 4) 24 node) as [w1 o] eqn:E.
  assert (match o with Ok a => VerifyAttestation (P := toy) a = Ok tt | _ => False end) as Hv.
  { pose proof (f_equal snd E) as E2. cbn [snd] in E2. rewrite <- E2. vm_compute. reflexivity. }
  destruct o as [a| |]; [|destruct Hv..]. exists a. split; [reflexivity|].
  refine (proj2 (attestation_roundtrip (P := toy) (Cid := bytes) Some Some _ (ed_pub (Primitives := toy) seed) alice
    (f64_lit 3 4) 24 node w1 a w1 (encode_bytes (attestation_envelope a)) _ eq_refl _ E _)).
  - by intros ?? [= ->].
  - exists seed. by split.
  - vm_compute. reflexivity.
  - unfold PublishAttestation. go_run. rewrite Hv. reflexivity.
Defined.
