(* ===== verification/Mailbox.v ===== *)
(** * pkg/mailbox: a mailbox node

    [storage.go], [deposit.go] and [retrieval.go]: the messages a mailbox keeps
    for others, with its quota, its rate limits and its clean-up; the handlers of
    the three requests, from the bytes of a stream to the bytes written back
    through a [bufio.Writer]; and the clients that make the requests.  A client's
    stream is a function from the bytes it sends to those it gets back.  A
    database transaction is a function on the store that aborts on an error.
    Methods hold the mutex of their object, so each is one step; writing to a
    stream succeeds; instants are nanoseconds. *)
From S2P Require Import Prelude Primitives Crypto Proto Badger Runtime Envelope.

Definition mailboxPrefix : string := "mbx:".
Definition metaPrefix : string := "mbxmeta:".
Definition ratePrefix : string := "mbxrate:".

(** [pb.MailboxConfig] *)
Record MailboxConfig := mkMailboxConfig {
  MaxMessagesPerTarget : Z; MaxMessageSize : Z; MaxTotalBytesPerTarget : Z; DefaultTtlSeconds : Z;
  DepositRateLimit : Z; EnableContentRouting : bool;
}.
Definition defaultConfig : MailboxConfig := mkMailboxConfig 500 262144 67108864 604800 100 false.

(** [pb.StoredMailboxMessage] and [StoredMessage] *)
Record pbStoredMessage := mkPbStored {
  sm_MessageId : bytes; sm_SenderPubkey : bytes; sm_Envelope : bytes; sm_StoredAt : Z; sm_ExpiresAt : Z; sm_Size : Z;
}.
Record StoredMessage := mkStored {
  s_MessageID : bytes; s_Envelope : bytes; s_SenderPubkey : bytes; s_StoredAt : Z; s_ExpiresAt : Z; s_Size : Z;
}.

Record MailboxMetadata := mkMetadata { MessageCount : Z; TotalBytes : Z; OldestTime : Z; NewestTime : Z }.
Record MailboxStats := mkMailboxStats {
  ms_TargetPubkey : bytes; ms_StoredCount : Z; ms_UsedBytes : Z; ms_CapacityBytes : Z; ms_OldestTimestamp : Z; ms_NewestTimestamp : Z;
}.

(** The requests and responses. *)
Record DepositRequest := mkDepositRequest {
  dr_TargetPubkey : bytes; dr_Envelope : bytes; dr_RequestId : Z; dr_Timestamp : Z; dr_SenderSignature : bytes;
}.
Record DepositResponse := mkDepositResponse {
  dp_RequestId : Z; dp_Accepted : bool; dp_RejectionReason : string; dp_StoredUntil : Z; dp_MailboxSignature : bytes;
}.
Record RetrievalRequest := mkRetrievalRequest {
  rr_RecipientPubkey : bytes; rr_Nonce : bytes; rr_Timestamp : Z; rr_RecipientSignature : bytes;
}.
Record RetrievalResponse := mkRetrievalResponse {
  rp_Nonce : bytes; rp_MessageIds : list bytes; rp_Envelopes : list bytes; rp_Count : Z; rp_MailboxSignature : bytes;
}.
Record AcknowledgmentRequest := mkAckRequest {
  ar_RecipientPubkey : bytes; ar_MessageIds : list bytes; ar_Timestamp : Z; ar_RecipientSignature : bytes;
}.
Record AcknowledgmentResponse := mkAckResponse {
  ap_MessageIds : list bytes; ap_Success : bool; ap_FailureReason : string; ap_MailboxSignature : bytes;
}.

Record rateLimitEntry := mkRateEntry { re_count : Z; re_hourBucket : Z }.

Definition messageKeyOf (targetPubkey messageID : bytes) : bytes :=
  str mailboxPrefix ++ str (hex targetPubkey) ++ Byte.x3a :: str (hex messageID).
Definition mailboxOf (targetPubkey : bytes) : bytes := str mailboxPrefix ++ str (hex targetPubkey) ++ [Byte.x3a].
Definition metaKey (targetPubkey : bytes) : bytes := str metaPrefix ++ str (hex targetPubkey).
Definition rateKey (senderPubkey targetPubkey : bytes) (hourBucket : Z) : bytes :=
  str ratePrefix ++ str (hex senderPubkey) ++ Byte.x3a :: str (hex targetPubkey) ++ Byte.x3a :: str (pretty hourBucket).

(** Little-endian fields of the metadata. *)
Definition parse_metadata (data : bytes) : MailboxMetadata :=
  if (28 <=? length data)%nat
  then mkMetadata (le_decode (take 4 data)) (le_decode (take 8 (drop 4 data)))
         (le_decode (take 8 (drop 12 data))) (le_decode (take 8 (drop 20 data)))
  else mkMetadata 0 0 0 0.
Definition metadata_bytes (m : MailboxMetadata) : bytes :=
  le_encode 4 (MessageCount m) ++ le_encode 8 (TotalBytes m) ++ le_encode 8 (OldestTime m) ++ le_encode 8 (NewestTime m).

(** A mailbox node: its database, configuration, identity and in-memory limits. *)
Record Mailbox `{K : KV} := mkMailbox {
  db : kv; mconfig : MailboxConfig; mb_Ed25519PrivKey : bytes; rateLimit : gmap string (gmap string rateLimitEntry);
}.
Arguments Mailbox K : clear implicits.
Arguments mkMailbox {K} db mconfig mb_Ed25519PrivKey rateLimit.

#[export] Instance eta_Mailbox `{K : KV} : Eta (Mailbox K) := fun m =>
  mkMailbox (db m) (mconfig m) (mb_Ed25519PrivKey m) (rateLimit m).

Section Storage.
Context `{K : KV} `{!Codec pbStoredMessage}.

Abbreviation M := (GoM (Sys (Mailbox K))).

(** [db.View] and [db.Update] *)
Definition view {A} (f : kv -> outcome A) : M A := s ← self; lift (f (db s)).
Definition txn (f : kv -> outcome kv) : M unit :=
  s ← self;
  d ← lift (f (db s));
  update (fun s => s <| db := d |>).

Definition store_get (k : bytes) (d : kv) : outcome (option bytes) := ext "badger" (kv_get k d).
Definition store_set (k v : bytes) (d : kv) : outcome kv := ext "badger" (kv_set k v d).
Definition store_delete (k : bytes) (d : kv) : outcome kv := ext "badger" (kv_delete k d).
Definition store_scan (p : bytes) (d : kv) : outcome (list (bytes * bytes)) := ext "badger" (kv_scan p d).
Definition store_delete_all (ks : list bytes) (d : kv) : outcome kv :=
  fold_left (fun od k => d ← od; store_delete k d) ks (Ok d).

(** No metadata yet is [None]. *)
Definition getMetadata (targetPubkey : bytes) (d : kv) : outcome (option MailboxMetadata) :=
  match kv_get (metaKey targetPubkey) d with
  | None => Err (ErrExt "badger")
  | Some data => Ok (parse_metadata <$> data)
  end.

(** The keys come in the order of the message ids. *)
Definition evictOldest (targetPubkey : bytes) (count : nat) : M unit :=
  items ← view (store_scan (mailboxOf targetPubkey));
  txn (store_delete_all (take count items.*1)).

Definition checkQuota (targetPubkey : bytes) : M unit :=
  metadata ← view (getMetadata targetPubkey);
  s ← self;
  match metadata with
  | None => mret tt
  | Some m =>
      if MessageCount m >=? MaxMessagesPerTarget (mconfig s)
      then throw (ErrText "message count limit reached for target")
      else if u64 (TotalBytes m + MaxMessageSize (mconfig s)) >? MaxTotalBytesPerTarget (mconfig s)
      then fun w => match evictOldest targetPubkey 1 w with
                    | (w', Err _) => (w', Err (ErrText "storage quota exceeded for target"))
                    | (w', Ok _) => (w', Ok tt)
                    | (w', Panic) => (w', Panic)
                    end
      else mret tt
  end.

Definition grow_metadata (m : MailboxMetadata) (size now : Z) : MailboxMetadata :=
  mkMetadata (u32 (MessageCount m + 1)) (u64 (TotalBytes m + size))
    (if (OldestTime m =? 0) || (now <? OldestTime m) then now else OldestTime m) now.

(** Errors of the read are taken for missing metadata. *)
Definition updateMetadata (targetPubkey : bytes) (size now : Z) (d : kv) : outcome kv :=
  let metadata := match kv_get (metaKey targetPubkey) d with
                  | Some (Some data) => parse_metadata data
                  | _ => mkMetadata 0 0 0 0
                  end in
  store_set (metaKey targetPubkey) (metadata_bytes (grow_metadata metadata size now)) d.

Definition StoreMessage (targetPubkey messageID senderPubkey envelope : bytes) (ttlSeconds : Z) : M unit :=
  now ← time_now;
  let expiresAt := add_secs now ttlSeconds in
  _ ← checkQuota targetPubkey;
  let size := Z.of_nat (length envelope) in
  let stored := mkPbStored messageID senderPubkey envelope (to_unix now) (to_unix expiresAt) size in
  now' ← time_now;
  txn (fun d =>
    data ← wrapErr "failed to marshal stored message" (proto_Marshal stored);
    d ← wrapErr "failed to store message" (store_set (messageKeyOf targetPubkey messageID) data d);
    wrapErr "failed to update metadata" (updateMetadata targetPubkey size (to_unix now') d)).

Definition stored_message (p : pbStoredMessage) : StoredMessage :=
  mkStored (sm_MessageId p) (sm_Envelope p) (sm_SenderPubkey p) (of_unix (sm_StoredAt p)) (of_unix (sm_ExpiresAt p)) (sm_Size p).

Definition GetMessage (targetPubkey messageID : bytes) : M StoredMessage :=
  data ← view (store_get (messageKeyOf targetPubkey messageID));
  match data with
  | None => throw (ErrText "message not found")
  | Some data => stored ← lift (proto_Unmarshal data); mret (stored_message stored)
  end.

Fixpoint list_loop (items : list (bytes * bytes)) : M (list StoredMessage) :=
  match items with
  | [] => mret []
  | (_, data) :: rest =>
      stored ← lift (proto_Unmarshal data);
      now ← time_now;
      messages ← list_loop rest;
      mret (if of_unix (sm_ExpiresAt stored) <? now then messages else stored_message stored :: messages)
  end.

Definition ListMessages (targetPubkey : bytes) : M (list StoredMessage) :=
  items ← view (store_scan (mailboxOf targetPubkey));
  list_loop items.

Definition mailbox_DeleteMessages (targetPubkey : bytes) (messageIDs : list bytes) : M unit :=
  txn (store_delete_all (messageKeyOf targetPubkey <$> messageIDs)).

(** What does not parse is left alone. *)
Definition is_expired (now : Z) (item : bytes * bytes) : bool :=
  match unmarshal (A := pbStoredMessage) item.2 with
  | Some stored => of_unix (sm_ExpiresAt stored) <? now
  | None => false
  end.

Definition CleanupExpired : M Z :=
  now ← time_now;
  items ← view (store_scan (str mailboxPrefix));
  let keys := (filter (fun item => is_expired now item = true) items).*1 in
  _ ← txn (store_delete_all keys);
  mret (Z.of_nat (length keys)).

(** [binary.LittleEndian.Uint32] panics on fewer than four bytes. *)
Definition CheckRateLimit (senderPubkey targetPubkey : bytes) : M bool :=
  now ← time_now;
  data ← view (store_get (rateKey senderPubkey targetPubkey (now / SecondNs `quot` 3600)));
  s ← self;
  match data with
  | None => mret (0 >=? DepositRateLimit (mconfig s))
  | Some data => if (length data <? 4)%nat then panic
                 else mret (le_decode (take 4 data) >=? DepositRateLimit (mconfig s))
  end.

Definition IncrementRateLimit (senderPubkey targetPubkey : bytes) : M unit :=
  now ← time_now;
  let key := rateKey senderPubkey targetPubkey (now / SecondNs `quot` 3600) in
  txn (fun d =>
    let count := match kv_get key d with
                 | Some (Some data) => if (4 <=? length data)%nat then le_decode (take 4 data) else 0
                 | _ => 0
                 end in
    store_set key (le_encode 4 (u32 (count + 1))) d).

Definition mailbox_GetStats (targetPubkey : bytes) : M MailboxStats :=
  metadata ← view (getMetadata targetPubkey);
  s ← self;
  let capacity := MaxTotalBytesPerTarget (mconfig s) in
  mret (match metadata with
        | None => mkMailboxStats targetPubkey 0 0 capacity 0 0
        | Some m => mkMailboxStats targetPubkey (MessageCount m) (TotalBytes m) capacity (OldestTime m) (NewestTime m)
        end).
End Storage.

(** ** Streams *)

(** [bufio.Writer]: the bytes written to the stream and those in its buffer. *)
Record Writer := mkWriter { w_sent : bytes; w_buf : bytes }.
Definition bufferSize : nat := 4096.

Definition Flush (w : Writer) : Writer := mkWriter (w_sent w ++ w_buf w) [].

Definition WriteByte (c : Byte.byte) (w : Writer) : Writer :=
  let w := if (bufferSize <=? length (w_buf w))%nat then Flush w else w in
  mkWriter (w_sent w) (w_buf w ++ [c]).

(** What does not fit fills the buffer, which is flushed; a large write to an empty buffer is not buffered. *)
Definition Write (p : bytes) (w : Writer) : Writer :=
  let available := (bufferSize - length (w_buf w))%nat in
  if (length p <=? available)%nat then mkWriter (w_sent w) (w_buf w ++ p)
  else
    let '(w, p) := if (length (w_buf w) =? 0)%nat then (w, p)
                   else (Flush (mkWriter (w_sent w) (w_buf w ++ take available p)), drop available p) in
    if (length p <=? bufferSize)%nat then mkWriter (w_sent w) p else mkWriter (w_sent w ++ p) [].

(** [writeResponse] and [writeRequest] after marshalling. *)
Definition write_frame (msgType : Byte.byte) (data : bytes) (w : Writer) : Writer :=
  Write data (Write (be_encode 4 (u32 (Z.of_nat (length data)))) (WriteByte msgType w)).

(** A length prefix and as many bytes; [None] when the stream ends before. *)
Definition read_frame (input : bytes) : option bytes :=
  if (length input <? 4)%nat then None
  else
    let n := be_decode (take 4 input) in
    let rest := drop 4 input in
    if Z.of_nat (length rest) <? n then None else Some (take (Z.to_nat n) rest).

(** [err.Error()], up to the texts of errors from outside. *)
Fixpoint error_string (e : error) : string :=
  match e with
  | ErrText s => s
  | ErrWrap ctx e => ctx +:+ ": " +:+ error_string e
  | ErrExt origin => origin
  end.

(** ** Handlers *)

Section Handlers.
Context `{K : KV} `{P : Primitives}.
Context `{!Codec pbStoredMessage} `{!Codec BabylonEnvelope} `{!Codec DepositRequest} `{!Codec DepositResponse}
  `{!Codec RetrievalRequest} `{!Codec RetrievalResponse} `{!Codec AcknowledgmentRequest}
  `{!Codec AcknowledgmentResponse}.

Abbreviation M := (GoM (Sys (Mailbox K))).

Definition new_writer : Writer := mkWriter [] [].

(** A response is marshalled, or nothing is written. *)
Definition writeResponse {A} `{Codec A} (msgType : Byte.byte) (msg : A) (w : Writer) : outcome Writer :=
  data ← proto_Marshal msg; mret (write_frame msgType data w).

(** Writing a response that is not flushed, and one that is: the bytes sent. *)
Definition unflushed {A} `{Codec A} (msgType : Byte.byte) (msg : A) : M bytes :=
  mret (match writeResponse msgType msg new_writer with Ok w => w_sent w | _ => [] end).
Definition flushed {A} `{Codec A} (msgType : Byte.byte) (msg : A) : M bytes :=
  mret (match writeResponse msgType msg new_writer with Ok w => w_sent (Flush w) | _ => [] end).

Definition writeErrorResponse (requestID : Z) (reason : string) : M bytes :=
  unflushed Byte.x01 (mkDepositResponse requestID false reason 0 []).
Definition writeRetrievalErrorResponse (nonce : bytes) : M bytes :=
  unflushed Byte.x02 (mkRetrievalResponse nonce [] [] 0 []).
Definition writeAckErrorResponse (messageIDs : list bytes) (reason : string) : M bytes :=
  unflushed Byte.x03 (mkAckResponse messageIDs false reason []).

(** [if err := m; err != nil { write the error; return }] *)
Definition or_reply {A} (m : M A) (reply : error -> M bytes) (k : A -> M bytes) : M bytes := fun w =>
  match m w with
  | (w', Ok a) => k a w'
  | (w', Err e) => reply e w'
  | (w', Panic) => (w', Panic)
  end.

Definition unsigned_deposit (req : DepositRequest) : DepositRequest :=
  mkDepositRequest (dr_TargetPubkey req) (dr_Envelope req) (dr_RequestId req) (dr_Timestamp req) [].

(** A sender identity that is not a key is not checked. *)
Definition validateDepositRequest (config : MailboxConfig) (req : DepositRequest) : outcome unit :=
  if Z.of_nat (length (dr_Envelope req)) >? MaxMessageSize config then Err (ErrText "envelope too large")
  else if (length (dr_SenderSignature req) =? 0)%nat then Err (ErrText "missing sender signature")
  else
    match unmarshal (A := BabylonEnvelope) (dr_Envelope req) with
    | None => Err (ErrText "failed to parse envelope")
    | Some envelope =>
        match marshal (unsigned_deposit req) with
        | None => Err (ErrText "failed to marshal for verification")
        | Some dataForSigning =>
            if (length (SenderIdentity envelope) =? 32)%nat
               && negb (Verify (SenderIdentity envelope) dataForSigning (dr_SenderSignature req))
            then Err (ErrText "invalid sender signature")
            else Ok tt
        end
    end.

Definition extractSenderPubkey (envelopeData : bytes) : option bytes :=
  match unmarshal (A := BabylonEnvelope) envelopeData with
  | None => None
  | Some envelope => if (0 <? length (SenderDeviceId envelope))%nat then Some (SenderDeviceId envelope) else None
  end.

Definition extractMessageID (envelopeData : bytes) : M bytes :=
  match unmarshal (A := BabylonEnvelope) envelopeData with
  | None => id ← rand_opt 16; mret (default (str "msg-parse-error") id)
  | Some envelope => mret (if (0 <? length (MessageId envelope))%nat then MessageId envelope
                           else take 16 (sha256 envelopeData))
  end.

Definition rate_entry (m : Mailbox K) (sender target : bytes) : option rateLimitEntry :=
  senderMap ← rateLimit m !! hex sender; senderMap !! hex target.

Definition isRateLimited (senderPubkey targetPubkey : bytes) : M bool :=
  now ← time_now;
  s ← self;
  mret (match rate_entry s senderPubkey targetPubkey with
        | Some entry => if re_hourBucket entry =? now / SecondNs `quot` 3600
                        then re_count entry >=? DepositRateLimit (mconfig s) else false
        | None => false
        end).

Definition incrementRateLimit (senderPubkey targetPubkey : bytes) : M unit :=
  now ← time_now;
  let hourBucket := now / SecondNs `quot` 3600 in
  update (fun s =>
    let count := match rate_entry s senderPubkey targetPubkey with
                 | Some entry => if re_hourBucket entry =? hourBucket then u32 (re_count entry + 1) else 1
                 | None => 1
                 end in
    s <| rateLimit := <[hex senderPubkey := <[hex targetPubkey := mkRateEntry count hourBucket]>
                          (default ∅ (rateLimit s !! hex senderPubkey))]> (rateLimit s) |>).

Definition signResponse (m : Mailbox K) (resp : DepositResponse) : outcome bytes :=
  data ← proto_Marshal (mkDepositResponse (dp_RequestId resp) (dp_Accepted resp) "" (dp_StoredUntil resp) []);
  Sign (mb_Ed25519PrivKey m) data.

Definition handleDepositRequest (input : bytes) : M bytes :=
  match read_frame input with
  | None => mret []
  | Some data =>
      match unmarshal (A := DepositRequest) data with
      | None => writeErrorResponse 0 "invalid request format"
      | Some req =>
          let reject reason := writeErrorResponse (dr_RequestId req) reason in
          s ← self;
          or_reply (lift (validateDepositRequest (mconfig s) req)) (fun e => reject (error_string e)) (fun _ =>
          match extractSenderPubkey (dr_Envelope req) with
          | None => reject "failed to extract sender pubkey"
          | Some senderPubkey =>
              limited ← isRateLimited senderPubkey (dr_TargetPubkey req);
              if limited : bool then reject "rate limit exceeded"
              else
                let ttlSeconds := DefaultTtlSeconds (mconfig s) in
                messageID ← extractMessageID (dr_Envelope req);
                or_reply (StoreMessage (dr_TargetPubkey req) messageID senderPubkey (dr_Envelope req) ttlSeconds)
                  (fun e => reject ("storage error: " +:+ error_string e)) (fun _ =>
                _ ← incrementRateLimit senderPubkey (dr_TargetPubkey req);
                now ← time_now;
                let resp := mkDepositResponse (dr_RequestId req) true "" (to_unix (add_secs now ttlSeconds)) [] in
                or_reply (lift (signResponse s resp)) (fun _ => reject "signing error") (fun signature =>
                flushed Byte.x01 (mkDepositResponse (dr_RequestId req) true "" (dp_StoredUntil resp) signature)))
          end)
      end
  end.

Definition unsigned_retrieval (req : RetrievalRequest) : RetrievalRequest :=
  mkRetrievalRequest (rr_RecipientPubkey req) (rr_Nonce req) (rr_Timestamp req) [].

Definition validateRetrievalRequest (req : RetrievalRequest) : outcome unit :=
  if negb (length (rr_RecipientPubkey req) =? 32)%nat then Err (ErrText "invalid recipient pubkey length")
  else if negb (length (rr_Nonce req) =? 32)%nat then Err (ErrText "invalid nonce length")
  else if (length (rr_RecipientSignature req) =? 0)%nat then Err (ErrText "missing recipient signature")
  else match marshal (unsigned_retrieval req) with
       | None => Err (ErrText "failed to marshal for verification")
       | Some dataForSigning =>
           if negb (Verify (rr_RecipientPubkey req) dataForSigning (rr_RecipientSignature req))
           then Err (ErrText "invalid recipient signature") else Ok tt
       end.

(** The signature covers the nonce and the count. *)
Definition signRetrievalResponse (m : Mailbox K) (resp : RetrievalResponse) : outcome bytes :=
  data ← proto_Marshal (mkRetrievalResponse (rp_Nonce resp) [] [] (rp_Count resp) []);
  Sign (mb_Ed25519PrivKey m) data.

Definition handleRetrievalRequest (input : bytes) : M bytes :=
  match read_frame input with
  | None => mret []
  | Some data =>
      match unmarshal (A := RetrievalRequest) data with
      | None => writeRetrievalErrorResponse []
      | Some req =>
          let reject := writeRetrievalErrorResponse (rr_Nonce req) in
          or_reply (lift (validateRetrievalRequest req)) (fun _ => reject) (fun _ =>
          or_reply (ListMessages (rr_RecipientPubkey req)) (fun _ => reject) (fun messages =>
          s ← self;
          let resp := mkRetrievalResponse (rr_Nonce req) (s_MessageID <$> messages) (s_Envelope <$> messages)
                        (Z.of_nat (length messages)) [] in
          or_reply (lift (signRetrievalResponse s resp)) (fun _ => reject) (fun signature =>
          flushed Byte.x02 (mkRetrievalResponse (rp_Nonce resp) (rp_MessageIds resp) (rp_Envelopes resp) (rp_Count resp)
                              signature))))
      end
  end.

Definition unsigned_ack (req : AcknowledgmentRequest) : AcknowledgmentRequest :=
  mkAckRequest (ar_RecipientPubkey req) (ar_MessageIds req) (ar_Timestamp req) [].

Definition validateAckRequest (req : AcknowledgmentRequest) : outcome unit :=
  if negb (length (ar_RecipientPubkey req) =? 32)%nat then Err (ErrText "invalid recipient pubkey length")
  else if (length (ar_RecipientSignature req) =? 0)%nat then Err (ErrText "missing recipient signature")
  else match marshal (unsigned_ack req) with
       | None => Err (ErrText "failed to marshal for verification")
       | Some dataForSigning =>
           if negb (Verify (ar_RecipientPubkey req) dataForSigning (ar_RecipientSignature req))
           then Err (ErrText "invalid recipient signature") else Ok tt
       end.

Definition signAckResponse (m : Mailbox K) (resp : AcknowledgmentResponse) : outcome bytes :=
  data ← proto_Marshal (mkAckResponse (ap_MessageIds resp) (ap_Success resp) "" []);
  Sign (mb_Ed25519PrivKey m) data.

Definition handleAckRequest (input : bytes) : M bytes :=
  match read_frame input with
  | None => mret []
  | Some data =>
      match unmarshal (A := AcknowledgmentRequest) data with
      | None => writeAckErrorResponse [] "invalid request format"
      | Some req =>
          let reject reason := writeAckErrorResponse (ar_MessageIds req) reason in
          or_reply (lift (validateAckRequest req)) (fun e => reject (error_string e)) (fun _ =>
          or_reply (mailbox_DeleteMessages (ar_RecipientPubkey req) (ar_MessageIds req))
            (fun e => reject ("deletion error: " +:+ error_string e)) (fun _ =>
          s ← self;
          let resp := mkAckResponse (ar_MessageIds req) true "" [] in
          or_reply (lift (signAckResponse s resp)) (fun _ => reject "signing error") (fun signature =>
          flushed Byte.x03 (mkAckResponse (ar_MessageIds req) true "" signature))))
      end
  end.

(** The bytes sent back on a stream whose peer sent [input]. *)
Definition handleStream (input : bytes) : M bytes :=
  match input with
  | [] => mret []
  | msgType :: rest =>
      if bool_decide (msgType = Byte.x01) then handleDepositRequest rest
      else if bool_decide (msgType = Byte.x02) then handleRetrievalRequest rest
      else if bool_decide (msgType = Byte.x03) then handleAckRequest rest
      else mret []
  end.
End Handlers.

(** ** Clients *)

(** The keys of [identity.Identity]. *)
Record KeyPair := mkKeys { Ed25519PubKey : bytes; Ed25519PrivKey : bytes }.

Section Clients.
Context `{P : Primitives} `{!Codec BabylonEnvelope} `{!Codec DepositRequest} `{!Codec DepositResponse}
  `{!Codec RetrievalRequest} `{!Codec RetrievalResponse} `{!Codec AcknowledgmentRequest}
  `{!Codec AcknowledgmentResponse}.
Context {X : Type}.
(** [peer.Decode] and [host.NewStream] of libp2p. *)
Variable peer_Decode : string -> option bytes.
Variable NewStream : bytes -> option (bytes -> bytes).

Abbreviation C := (GoM (Sys X)).

Definition mustMarshal {A} `{Codec A} (msg : A) : C bytes :=
  match marshal msg with Some data => mret data | None => panic end.

(** Sending a request and reading the response of the same type. *)
Definition exchange {A B} `{Codec A} `{Codec B} (msgType : Byte.byte) (s : bytes -> bytes) (req : A) : outcome B :=
  data ← wrapErr "failed to send request" (proto_Marshal req);
  match s (w_sent (Flush (write_frame msgType data (mkWriter [] [])))) with
  | [] => Err (ErrWrap "failed to read response type" (ErrExt "EOF"))
  | t :: reply =>
      if negb (bool_decide (t = msgType)) then Err (ErrText "unexpected response type")
      else
        wrapErr "failed to read response"
          (data ← ext "EOF" (read_frame reply); proto_Unmarshal data)
  end.

Definition open_stream (mailboxPeerID : string) : outcome (bytes -> bytes) :=
  peerID ← wrapErr "invalid mailbox peer ID" (ext "peer.Decode" (peer_Decode mailboxPeerID));
  wrapErr "failed to open stream" (ext "libp2p" (NewStream peerID)).

(** [generateRequestID] *)
Definition generateRequestID : C Z := now ← time_now; mret (u64 now).

Definition DepositToMailbox (mailboxPeerID : string) (targetPubkey : bytes) (envelope : BabylonEnvelope)
    (senderIdentity : KeyPair) : C DepositResponse :=
  s ← lift (open_stream mailboxPeerID);
  envelopeData ← lift (wrapErr "failed to marshal envelope" (proto_Marshal envelope));
  requestId ← generateRequestID;
  now ← time_now;
  let req := mkDepositRequest targetPubkey envelopeData requestId (to_unix now) [] in
  data ← mustMarshal req;
  signature ← lift (wrapErr "failed to sign request" (Sign (Ed25519PrivKey senderIdentity) data));
  lift (exchange Byte.x01 s (mkDepositRequest targetPubkey envelopeData requestId (dr_Timestamp req) signature)).

Definition RetrieveFromMailbox (mailboxPeerID : string) (recipientIdentity : KeyPair) : C RetrievalResponse :=
  s ← lift (open_stream mailboxPeerID);
  nonce ← rand_opt 32;
  nonce ← lift (wrapErr "failed to generate nonce" (ext "rand.Reader" nonce));
  now ← time_now;
  let req := mkRetrievalRequest (Ed25519PubKey recipientIdentity) nonce (to_unix now) [] in
  data ← mustMarshal req;
  signature ← lift (wrapErr "failed to sign request" (Sign (Ed25519PrivKey recipientIdentity) data));
  lift (exchange Byte.x02 s (mkRetrievalRequest (Ed25519PubKey recipientIdentity) nonce (rr_Timestamp req) signature)).

Definition AcknowledgeMessages (mailboxPeerID : string) (recipientIdentity : KeyPair) (messageIDs : list bytes)
    : C AcknowledgmentResponse :=
  s ← lift (open_stream mailboxPeerID);
  now ← time_now;
  let req := mkAckRequest (Ed25519PubKey recipientIdentity) messageIDs (to_unix now) [] in
  data ← mustMarshal req;
  signature ← lift (wrapErr "failed to sign request" (Sign (Ed25519PrivKey recipientIdentity) data));
  lift (exchange Byte.x03 s (mkAckRequest (Ed25519PubKey recipientIdentity) messageIDs (ar_Timestamp req) signature)).
End Clients.
