(* ===== verification/MailboxProps.v ===== *)
(** * pkg/mailbox: what a mailbox node guarantees

    The count of a recipient's messages is never taken down, so a mailbox that
    is full stays full; a deposit a sender is told was accepted is stored and can
    be read; a rejected one is answered with nothing; and a recipient's
    retrieval over a stream gives back the live messages of its mailbox. *)
From S2P Require Import Prelude Primitives Crypto Proto Badger Runtime Envelope StorageProps Mailbox.
#[local] Open Scope Z_scope.

(** ** Keys *)

Lemma metaKey_inj t t' : metaKey t = metaKey t' -> t = t'.
Proof. unfold metaKey. intros E%app_inv_head. by apply (inj str), (inj hex) in E. Qed.

Lemma messageKeyOf_app t i : messageKeyOf t i = mailboxOf t ++ str (hex i).
Proof. unfold messageKeyOf, mailboxOf. by rewrite <- !app_assoc. Qed.

Lemma messageKeyOf_inj t i t' i' : messageKeyOf t i = messageKeyOf t' i' -> t = t' /\ i = i'.
Proof. unfold messageKeyOf. intros E%app_inv_head. by apply hex_pair_inj. Qed.

(** Message keys and mailboxes are in one part of the key space, metadata in another. *)
Definition in_mailbox (k : bytes) : Prop := str mailboxPrefix `prefix_of` k.

Lemma in_mailbox_message t i : in_mailbox (messageKeyOf t i).
Proof. by apply prefix_app_r. Qed.

Lemma in_mailbox_of t k : mailboxOf t `prefix_of` k -> in_mailbox k.
Proof. intros [r ->]. unfold mailboxOf, in_mailbox. rewrite <- app_assoc. by apply prefix_app_r. Qed.

Lemma metaKey_not_in_mailbox t k : in_mailbox k -> metaKey t <> k.
Proof. intros [r ->] E. discriminate E. Qed.

Lemma mailboxOf_own t t' i : mailboxOf t `prefix_of` messageKeyOf t' i -> t = t'.
Proof.
  intros [r E]. rewrite messageKeyOf_app in E. unfold mailboxOf in E. rewrite <- !app_assoc in E. cbn [app] in E.
  apply app_inv_head, app_sep_inj in E as [E _]; [|apply hex_no_colon..]. by apply (inj str), (inj hex) in E.
Qed.

(** ** Transactions *)

Section Store.
Context `{K : KV} `{!KVLaws K}.

Lemma store_delete_all_ne ks d d' k :
  store_delete_all ks d = Ok d' -> k ∉ ks -> kv_get k d' = kv_get k d.
Proof.
  unfold store_delete_all. revert d; induction ks as [|k0 ks IH]; intros d; cbn [fold_left].
  { intros [= ->] _. done. }
  intros Hf [Hne Hk]%not_elem_of_cons. unfold store_delete at 2 in Hf. cbn [mbind outcome_bind] in Hf.
  destruct (kv_delete k0 d) as [d1|] eqn:E; cbn [ext] in Hf.
  - rewrite (IH d1 Hf Hk). by apply (kv_get_delete_ne _ _ _ _ E).
  - exfalso. revert Hf. clear. induction ks as [|k1 ks IH]; cbn; [done|apply IH].
Qed.

Lemma store_scan_keys p d items k :
  store_scan p d = Ok items -> k ∈ items.*1 -> p `prefix_of` k.
Proof.
  unfold store_scan. intros Hs%ext_Ok (x & -> & Hx)%list_elem_of_fmap.
  destruct (kv_scan_spec _ _ _ Hs) as (_ & _ & Hl). destruct x as [k v]. by apply Hl in Hx as [? _].
Qed.

Lemma le_take n v b : take n (le_encode n v ++ b) = le_encode n v.
Proof. apply take_app_length'. by rewrite le_encode_length. Qed.

Lemma le_take_all n v : take n (le_encode n v) = le_encode n v.
Proof. apply take_ge. by rewrite le_encode_length. Qed.

Lemma le_skip k n v b : (n <= k)%nat -> drop k (le_encode n v ++ b) = drop (k - n) b.
Proof. intros H. rewrite drop_app_ge; rewrite le_encode_length; [done|lia]. Qed.

Lemma metadata_roundtrip m :
  0 <= MessageCount m < 2 ^ 32 -> 0 <= TotalBytes m < 2 ^ 64 -> 0 <= OldestTime m < 2 ^ 64 ->
  0 <= NewestTime m < 2 ^ 64 -> parse_metadata (metadata_bytes m) = m.
Proof.
  intros H1 H2 H3 H4. unfold parse_metadata, metadata_bytes.
  rewrite !length_app, !le_encode_length. cbn [Nat.add Nat.leb].
  rewrite (le_skip 12 4), (le_skip 20 4), (le_skip (12 - 4) 8), (le_skip (20 - 4) 8), (le_skip (20 - 4 - 8) 8) by lia.
  rewrite (le_skip 4 4) by done. cbn [Nat.sub].
  rewrite !drop_0, !le_take, le_take_all.
  rewrite !le_decode_encode; [by destruct m|done..].
Qed.
End Store.

(** ** What an operation may change *)

Lemma respects_or_reply {X} (R : X -> X -> Prop) `{!PreOrder R} {A} (m : GoM (Sys X) A)
    (reply : error -> GoM (Sys X) bytes) k :
  respects R m -> (forall e, respects R (reply e)) -> (forall a, respects R (k a)) ->
  respects R (fun w => match m w with
                     | (w', Ok a) => k a w' | (w', Err e) => reply e w' | (w', Panic) => (w', Panic (A := bytes))
                     end).
Proof.
  intros Hm Hr Hk w. specialize (Hm w). destruct (m w) as [w' [a|e|]]; cbn in *; [..|done];
    (etrans; [exact Hm|]); [apply Hk|apply Hr].
Qed.

#[export] Hint Extern 0 (respects _ (view _)) => pure_respects : respects.
#[export] Hint Extern 0 (respects _ (unflushed _ _)) => pure_respects : respects.
#[export] Hint Extern 0 (respects _ (flushed _ _)) => pure_respects : respects.
#[export] Hint Extern 0 (respects _ (writeErrorResponse _ _)) => pure_respects : respects.
#[export] Hint Extern 0 (respects _ (writeRetrievalErrorResponse _)) => pure_respects : respects.
#[export] Hint Extern 0 (respects _ (writeAckErrorResponse _ _)) => pure_respects : respects.

(** Goes through the operations an operation is made of. *)
Ltac respects_step :=
  lazymatch goal with
  | |- respects _ (mbind _ _) => apply respects_bind; [apply _| |intros]
  | |- respects _ (or_reply _ _ _) => apply respects_or_reply; [apply _| |intros..]
  | |- respects _ (match ?x with _ => _ end) => destruct x
  | |- respects _ (let _ := _ in _) => cbv zeta
  | |- respects _ _ => solve [auto with respects]
  end.
Ltac solve_respects := repeat respects_step.

(** ** A full mailbox stays full *)

Section Full.
Context `{K : KV} `{!KVLaws K} `{P : Primitives}.
Context `{!Codec pbStoredMessage} `{!Codec BabylonEnvelope} `{!Codec DepositRequest} `{!Codec DepositResponse}
  `{!Codec RetrievalRequest} `{!Codec RetrievalResponse} `{!Codec AcknowledgmentRequest}
  `{!Codec AcknowledgmentResponse}.

Definition meta_at (t : bytes) (s : Mailbox K) : option (option bytes) := kv_get (metaKey t) (db s).

(** The count of messages of [t] has reached the limit. *)
Definition full (t : bytes) (s : Mailbox K) : Prop :=
  exists data, meta_at t s = Some (Some data) /\ MaxMessagesPerTarget (mconfig s) <= MessageCount (parse_metadata data).

(** The configuration is kept, and the metadata of a full mailbox. *)
Definition frozen (t : bytes) (s s' : Mailbox K) : Prop :=
  mconfig s' = mconfig s /\ (full t s -> meta_at t s' = meta_at t s).

Lemma full_frozen t s s' : frozen t s s' -> full t s -> full t s'.
Proof. intros [Ec Hm] (data & Hd & Hn). exists data. by rewrite Hm, Ec by (by exists data). Qed.

#[export] Instance frozen_preorder t : PreOrder (frozen t).
Proof.
  split; [by split|]. intros a b c H1 H2. pose proof (full_frozen _ _ _ H1) as Hf. destruct H1 as [E1 M1], H2 as [E2 M2].
  split; [congruence|]. intros H. by rewrite M2, M1 by auto.
Qed.

Lemma frozen_delete t ks s d' :
  Forall in_mailbox ks -> store_delete_all ks (db s) = Ok d' -> frozen t s (s <| db := d' |>).
Proof.
  intros Hks Hd. split; [done|]. intros _. apply (store_delete_all_ne _ _ _ _ Hd).
  intros Hin. by apply (metaKey_not_in_mailbox t _ (proj1 (Forall_forall _ _) Hks _ Hin)).
Qed.

Lemma txn_delete_frozen t ks : Forall in_mailbox ks -> respects (frozen t) (txn (store_delete_all ks)).
Proof.
  intros Hks w. unfold txn, self, lift, update, mbind, GoM_bind.
  destruct (store_delete_all ks (db (obj w))) as [d'|e|] eqn:E; cbn; [by eapply frozen_delete|done..].
Qed.

Lemma scan_in_mailbox p items (s : Mailbox K) :
  (forall k, p `prefix_of` k -> in_mailbox k) -> store_scan p (db s) = Ok items -> Forall in_mailbox items.*1.
Proof. intros Hp Hs. apply Forall_forall. intros k Hk. apply Hp. exact (store_scan_keys _ _ _ k Hs Hk). Qed.

Lemma evictOldest_frozen t t' n : respects (frozen t) (evictOldest t' n).
Proof.
  intros w. unfold evictOldest, view, self, lift, mbind, GoM_bind.
  destruct (store_scan (mailboxOf t') (db (obj w))) as [items|e|] eqn:E; cbn; [|done..].
  apply (txn_delete_frozen t (take n items.*1)). apply Forall_take.
  eapply scan_in_mailbox; [|exact E]. apply in_mailbox_of.
Qed.

Lemma checkQuota_frozen t t' : respects (frozen t) (checkQuota t').
Proof.
  unfold checkQuota. solve_respects. intros w. pose proof (evictOldest_frozen t t' 1 w) as H.
  by destruct (evictOldest t' 1 w) as [w' []].
Qed.
#[local] Hint Resolve checkQuota_frozen evictOldest_frozen : respects.

Lemma CleanupExpired_frozen t : respects (frozen t) CleanupExpired.
Proof.
  intros w. unfold CleanupExpired, time_now, view, self, lift, mbind, GoM_bind. cbn.
  destruct (store_scan (str mailboxPrefix) (db (obj w))) as [items|e|] eqn:E; cbn; [|done..].
  set (ks := (filter _ items).*1). set (w1 := mkSys _ (obj w)).
  assert (Forall in_mailbox ks) as Hks.
  { pose proof (scan_in_mailbox _ _ _ (fun k H => H) E) as Ha. apply Forall_forall. intros k Hk.
    eapply elem_of_sublist in Hk; [|apply sublist_fst, sublist_filter]. exact (proj1 (Forall_forall _ _) Ha _ Hk). }
  pose proof (txn_delete_frozen t ks Hks w1) as H.
  by destruct (txn _ w1) as [w2 []].
Qed.

Lemma DeleteMessages_frozen t t' ids : respects (frozen t) (mailbox_DeleteMessages t' ids).
Proof. apply txn_delete_frozen, Forall_fmap, Forall_forall. intros i _. apply in_mailbox_message. Qed.

Lemma incrementRateLimit_frozen t a b : respects (frozen t) (incrementRateLimit a b).
Proof. unfold incrementRateLimit. solve_respects. by apply respects_update. Qed.

Lemma list_loop_frozen t items : respects (frozen t) (list_loop items).
Proof. induction items as [|[k v] rest IH]; cbn [list_loop]; solve_respects. Qed.

Lemma ListMessages_frozen t t' : respects (frozen t) (ListMessages t').
Proof. unfold ListMessages. solve_respects. apply list_loop_frozen. Qed.
#[local] Hint Resolve CleanupExpired_frozen DeleteMessages_frozen incrementRateLimit_frozen ListMessages_frozen : respects.

(** Nothing outside the mailbox of [t] and its metadata changes. *)
Definition only_at (t : bytes) (s s' : Mailbox K) : Prop :=
  mconfig s' = mconfig s /\ mb_Ed25519PrivKey s' = mb_Ed25519PrivKey s /\ rateLimit s' = rateLimit s /\
  forall k, ~ mailboxOf t `prefix_of` k -> k <> metaKey t -> kv_get k (db s') = kv_get k (db s).

Lemma evictOldest_run t n w :
  exists d r, evictOldest t n w = (mkSys (env w) (obj w <| db := d |>), r) /\
  forall k, ~ mailboxOf t `prefix_of` k -> kv_get k d = kv_get k (db (obj w)).
Proof.
  unfold evictOldest, view, txn, self, lift, update, mbind, GoM_bind. destruct w as [e [d c p l]]. cbn [obj db env].
  destruct (store_scan (mailboxOf t) d) as [items|e'|] eqn:E; [|by exists d; eauto..].
  destruct (store_delete_all _ d) as [d'|e'|] eqn:E'; [|by exists d; eauto..].
  exists d'. eexists. split; [done|]. intros k Hk. apply (store_delete_all_ne _ _ _ _ E').
  intros (i & Hi%list_elem_of_lookup_2 & _)%elem_of_take. apply Hk.
  exact (store_scan_keys _ _ _ k E Hi).
Qed.

(** The metadata read by the quota check is not touched by it. *)
Lemma checkQuota_run t w :
  exists d r, checkQuota t w = (mkSys (env w) (obj w <| db := d |>), r) /\
  (forall k, ~ mailboxOf t `prefix_of` k -> kv_get k d = kv_get k (db (obj w))) /\
  (full t (obj w) -> d = db (obj w) /\ r = Err (ErrText "message count limit reached for target")) /\
  (r = Ok tt -> meta_at t (obj w) = Some None \/
     exists data, meta_at t (obj w) = Some (Some data) /\
       MessageCount (parse_metadata data) < MaxMessagesPerTarget (mconfig (obj w))).
Proof.
  unfold checkQuota, view, self, lift, full, meta_at, getMetadata, mbind, GoM_bind.
  destruct (kv_get (metaKey t) (db (obj w))) as [[data|]|] eqn:E; cbn [fmap option_fmap option_map].
  - destruct (MessageCount _ >=? _) eqn:Eq.
    + exists (db (obj w)). eexists. split; [by destruct w as [? []]|]. rewrite Z.geb_le in Eq. split; [done|]. split; [done|]. intros [=].
    + destruct (u64 _ >? _).
      * destruct (evictOldest_run t 1 w) as (d & r & -> & Hk). exists d,
          (match r with Err _ => Err (ErrText "storage quota exceeded for target") | Ok _ => Ok tt | Panic => Panic end).
        split; [by destruct r|].
        rewrite Z.geb_leb, Z.leb_gt in Eq. split; [done|]. split; [|by eauto]. intros (? & [= <-] & ?). lia.
      * exists (db (obj w)). eexists. split; [by destruct w as [? []]|]. rewrite Z.geb_leb, Z.leb_gt in Eq.
        split; [done|]. split; [|by eauto]. intros (? & [= <-] & ?). lia.
  - exists (db (obj w)). eexists. split; [by destruct w as [? []]|]. split; [done|]. split; [by intros (? & [=] & ?)|]. by left.
  - exists (db (obj w)). eexists. split; [by destruct w as [? []]|]. split; [done|]. split; [by intros (? & [=] & ?)|done].
Qed.

(** What a store that succeeded has written. *)
Definition stored_record (t id sender envelope : bytes) (ttl now : Z) : pbStoredMessage :=
  mkPbStored id sender envelope (to_unix now) (to_unix (add_secs now ttl)) (Z.of_nat (length envelope)).
Definition metadata_of (o : option (option bytes)) : MailboxMetadata :=
  match o with Some (Some data) => parse_metadata data | _ => mkMetadata 0 0 0 0 end.

Lemma StoreMessage_run t id sender envelope ttl w :
  let r := (StoreMessage t id sender envelope ttl w).2 in let s' := obj (StoreMessage t id sender envelope ttl w).1 in
  only_at t (obj w) s' /\
  (full t (obj w) -> db s' = db (obj w) /\ r = Err (ErrText "message count limit reached for target")) /\
  (r = Ok tt ->
     (meta_at t (obj w) = Some None \/ exists data, meta_at t (obj w) = Some (Some data) /\
        MessageCount (parse_metadata data) < MaxMessagesPerTarget (mconfig (obj w))) /\
     exists data, marshal (stored_record t id sender envelope ttl (clock (env w) 0)) = Some data /\
       kv_get (messageKeyOf t id) (db s') = Some (Some data) /\
       meta_at t s' = Some (Some (metadata_bytes (grow_metadata (metadata_of (meta_at t (obj w)))
         (Z.of_nat (length envelope)) (to_unix (clock (env w) 1)))))).
Proof.
  cbv zeta. unfold StoreMessage. set (w1 := (time_now w).1).
  rewrite (bind_Ok time_now _ w w1 (clock (env w) 0)) by done. cbv zeta beta.
  destruct (checkQuota_run t w1) as (d & r & E & Hk & Hf & Hr).
  change (obj w1) with (obj w) in *.
  assert (only_at t (obj w) (obj w <| db := d |>)) as Ho by by repeat split; auto.
  destruct r as [[]|e|].
  2: { rewrite (bind_Err _ _ _ _ _ E). split; [exact Ho|]. split; [exact Hf|done]. }
  2: { rewrite (bind_Panic _ _ _ _ E). split; [exact Ho|]. split; [exact Hf|done]. }
  rewrite (bind_Ok _ _ _ _ _ E).
  assert (~ full t (obj w)) as Hnf by (intros H; by destruct (Hf H)).
  assert (kv_get (metaKey t) d = meta_at t (obj w)) as Em.
  { apply Hk. intros H%in_mailbox_of. by apply (metaKey_not_in_mailbox t) in H. }
  unfold txn, self, lift, update, time_now, mbind, GoM_bind. cbn [obj db env fst snd].
  unfold mbind, outcome_bind, proto_Marshal. fold (stored_record t id sender envelope ttl (clock (env w) 0)).
  destruct (marshal (stored_record _ _ _ _ _ _)) as [data|] eqn:Ed; cbn [wrapErr ext]; [|split; [exact Ho|split; [by intros ?%Hnf|intros Hx; discriminate Hx]]].
  unfold store_set. change (db (obj w <| db := d |>)) with d.
  destruct (kv_set (messageKeyOf t id) data d) as [d1|] eqn:E1; cbn [wrapErr ext]; [|split; [exact Ho|split; [by intros ?%Hnf|intros Hx; discriminate Hx]]].
  unfold updateMetadata, store_set.
  pose proof (metaKey_not_in_mailbox t _ (in_mailbox_message t id)) as Hne.
  rewrite (kv_get_set_ne _ _ _ _ _ E1 Hne), Em. fold (metadata_of (meta_at t (obj w))).
  destruct (kv_set (metaKey t) _ d1) as [d2|] eqn:E2; cbn [wrapErr ext]; [|split; [exact Ho|split; [by intros ?%Hnf|intros Hx; discriminate Hx]]].
  change (clock (env w1) 0) with (clock (env w) 1) in E2.
  split; [|split; [done|]].
  - repeat split. intros k Hk1 Hk2. cbn. rewrite (kv_get_set_ne _ _ _ _ _ E2 Hk2), (kv_get_set_ne _ _ _ _ _ E1); [by apply Hk|].
    intros ->. apply Hk1. rewrite messageKeyOf_app. by apply prefix_app_r.
  - intros _. split; [auto|]. exists data. split; [done|]. cbn. rewrite (kv_get_set_ne _ _ _ _ _ E2); [|done].
    rewrite (kv_get_set _ _ _ _ E1). split; [done|]. unfold meta_at. cbn. by rewrite (kv_get_set _ _ _ _ E2).
Qed.

Lemma StoreMessage_frozen t t' id sender envelope ttl :
  respects (frozen t) (StoreMessage t' id sender envelope ttl).
Proof.
  intros w. destruct (StoreMessage_run t' id sender envelope ttl w) as ((Ec & _ & _ & Hk) & Hf & _).
  split; [exact Ec|]. intros Hfull. unfold meta_at. destruct (decide (t = t')) as [->|Hne].
  - by destruct (Hf Hfull) as [-> _].
  - apply Hk; [intros H%in_mailbox_of; by apply (metaKey_not_in_mailbox t) in H|]. by intros ->%metaKey_inj.
Qed.
#[local] Hint Resolve StoreMessage_frozen : respects.

Lemma IncrementRateLimit_frozen t a b : respects (frozen t) (IncrementRateLimit a b).
Proof.
  unfold IncrementRateLimit. solve_respects. intros w. unfold txn, self, lift, update, store_set, mbind, GoM_bind.
  destruct (kv_set _ _ (db (obj w))) as [d'|] eqn:E; cbn; [|done].
  split; [done|]. intros _. apply (kv_get_set_ne _ _ _ _ _ E). intros Hk. discriminate Hk.
Qed.

Lemma handleStream_frozen t input : respects (frozen t) (handleStream input).
Proof.
  unfold handleStream, handleDepositRequest, handleRetrievalRequest, handleAckRequest, isRateLimited, extractMessageID.
  solve_respects.
Qed.

(** Everything that happens at a node: requests of peers, clean-ups, and the operations
    of the storage. *)
Inductive mb_op :=
  | MbStream (input : bytes)
  | MbStore (targetPubkey messageID senderPubkey envelope : bytes) (ttlSeconds : Z)
  | MbDelete (targetPubkey : bytes) (messageIDs : list bytes)
  | MbCleanup
  | MbIncrement (senderPubkey targetPubkey : bytes).

Definition mb_step (op : mb_op) (w : Sys (Mailbox K)) : Sys (Mailbox K) :=
  match op with
  | MbStream input => (handleStream input w).1
  | MbStore t i s e ttl => (StoreMessage t i s e ttl w).1
  | MbDelete t ids => (mailbox_DeleteMessages t ids w).1
  | MbCleanup => (CleanupExpired w).1
  | MbIncrement s t => (IncrementRateLimit s t w).1
  end.
Definition mb_run (ops : list mb_op) (w : Sys (Mailbox K)) : Sys (Mailbox K) := fold_left (fun w op => mb_step op w) ops w.

Lemma mb_run_frozen t ops w : frozen t (obj w) (obj (mb_run ops w)).
Proof.
  revert w; induction ops as [|op ops IH]; intros w; [done|]. etrans; [|apply IH].
  destruct op; [apply handleStream_frozen|apply StoreMessage_frozen|apply DeleteMessages_frozen|apply CleanupExpired_frozen|
                apply IncrementRateLimit_frozen].
Qed.

(** A mailbox that is full stays full: once the count of a recipient's messages
    has reached the limit, every further message for that recipient is refused
    and the database is left as it is, whatever requests, acknowledgements,
    deletions and clean-ups of expired messages have come in between. *)
Theorem mailbox_fills_up t ops w :
  full t (obj w) ->
  let w' := mb_run ops w in
  full t (obj w') /\
  forall id sender envelope ttl,
    (StoreMessage t id sender envelope ttl w').2 = Err (ErrText "message count limit reached for target") /\
    db (obj (StoreMessage t id sender envelope ttl w').1) = db (obj w').
Proof.
  intros Hf. cbv zeta. pose proof (full_frozen _ _ _ (mb_run_frozen t ops w) Hf) as Hf'. split; [done|].
  intros id sender envelope ttl. destruct (StoreMessage_run t id sender envelope ttl (mb_run ops w)) as (_ & Hr & _).
  by destruct (Hr Hf').
Qed.

Context `{!CodecLaws pbStoredMessage}.

(** What a successful store does: the message is read back under its id with its
    envelope, its sender and its two times to the second; the count goes up by
    one and stays within the limit; and no other mailbox is touched, nor any
    other recipient's metadata. *)
Theorem StoreMessage_stored t id sender envelope ttl w w' :
  let now := clock (env w) 0 in
  in_time now -> in_time (add_secs now ttl) -> MaxMessagesPerTarget (mconfig (obj w)) < 2 ^ 32 ->
  StoreMessage t id sender envelope ttl w = (w', Ok tt) ->
  (GetMessage t id w').2 =
    Ok (mkStored id envelope sender (now / SecondNs * SecondNs) (add_secs now ttl / SecondNs * SecondNs)
          (Z.of_nat (length envelope))) /\
  MessageCount (metadata_of (meta_at t (obj w'))) = MessageCount (metadata_of (meta_at t (obj w))) + 1 /\
  MessageCount (metadata_of (meta_at t (obj w'))) <= Z.max 1 (MaxMessagesPerTarget (mconfig (obj w))) /\
  forall t', t' <> t -> meta_at t' (obj w') = meta_at t' (obj w) /\
    forall id', kv_get (messageKeyOf t' id') (db (obj w')) = kv_get (messageKeyOf t' id') (db (obj w)).
Proof.
  cbv zeta. intros Hn He Hmax Hs. destruct (StoreMessage_run t id sender envelope ttl w) as ((Ec & _ & _ & Hk) & _ & Hok).
  rewrite Hs in *. cbn [fst snd] in *. destruct (Hok eq_refl) as (Hroom & data & Hd & Hget & Hm).
  split; [|apply (proj1 (Logic.and_assoc _ _ _)); split].
  - unfold GetMessage, view, self, lift, store_get, mbind, GoM_bind. rewrite Hget. cbn.
    unfold proto_Unmarshal. rewrite (unmarshal_marshal _ _ Hd). cbn. unfold stored_message, stored_record. cbn.
    by rewrite !of_to_unix.
  - rewrite Hm. cbn [metadata_of].
    assert (forall b, 0 <= MessageCount (parse_metadata b) < 2 ^ 32 /\ 0 <= OldestTime (parse_metadata b) < 2 ^ 64) as Hr.
    { intros b. unfold parse_metadata. destruct (28 <=? length b)%nat eqn:El; [|by cbn]. apply Nat.leb_le in El. cbn.
      split; [pose proof (le_decode_range (take 4 b)) as H|pose proof (le_decode_range (take 8 (drop 12 b))) as H];
        rewrite ?length_take, ?length_drop, Nat.min_l in H by lia; exact H. }
    set (m := metadata_of (meta_at t (obj w))).
    assert (0 <= MessageCount m /\ MessageCount m + 1 <= Z.max 1 (MaxMessagesPerTarget (mconfig (obj w))) /\
            0 <= OldestTime m < 2 ^ 64) as (H0 & H1 & H2).
    { unfold m. destruct Hroom as [->|(b & -> & Hb)]; cbn [metadata_of MessageCount OldestTime]; [lia|].
      specialize (Hr b). lia. }
    rewrite metadata_roundtrip; [| | |unfold grow_metadata; cbn; destruct (_ || _)|]; cbn; try apply u32_range;
      try apply u64_range; [|exact H2].
    rewrite u32_small by lia. split; [done|lia].
  - intros t' Hne. unfold meta_at. split.
    + apply Hk; [intros H%in_mailbox_of; by apply (metaKey_not_in_mailbox t') in H|]. by intros ->%metaKey_inj.
    + intros id'. apply Hk; [by intros ->%mailboxOf_own|]. intros E.
      by apply (metaKey_not_in_mailbox t _ (in_mailbox_message t' id')).
Qed.
End Full.

(** ** A node that keeps one message per recipient *)
Module MailboxDemo.
#[export] Instance pbStoredMessage_eq : EqDecision pbStoredMessage.
Proof. solve_decision. Defined.
#[export] Program Instance pbStoredMessage_countable : Countable pbStoredMessage :=
  inj_countable' (fun m => (sm_StoredAt m, sm_ExpiresAt m, sm_Size m, sm_MessageId m, sm_SenderPubkey m, sm_Envelope m))
    (fun '(a, b, c, d, e, f) => mkPbStored d e f a b c) _.
Next Obligation. by intros []. Qed.
#[export] Instance BabylonEnvelope_eq : EqDecision BabylonEnvelope.
Proof. solve_decision. Defined.
#[export] Program Instance Envelope_countable : Countable BabylonEnvelope :=
  inj_countable' (fun e => (ProtocolVersion e, MessageType e, Timestamp e, CipherSuiteId e, GroupId e, ChannelId e, Signature e,
                            X3DhHeader e, RecipientIdentity e, (MessageId e, SenderDeviceId e, Payload e, SenderIdentity e)))
    (fun '(a, b, c, d, e, f, g, h, i, (j, k, l, m)) => mkEnvelope a b m i c j e f l k g d h) _.
Next Obligation. by intros []. Qed.
#[export] Instance DepositRequest_eq : EqDecision DepositRequest.
Proof. solve_decision. Defined.
#[export] Program Instance DepositRequest_countable : Countable DepositRequest :=
  inj_countable' (fun r => (dr_RequestId r, dr_Timestamp r, dr_TargetPubkey r, dr_SenderSignature r, dr_Envelope r))
    (fun '(a, b, c, d, e) => mkDepositRequest c e a b d) _.
Next Obligation. by intros []. Qed.
#[export] Instance DepositResponse_eq : EqDecision DepositResponse.
Proof. solve_decision. Defined.
#[export] Program Instance DepositResponse_countable : Countable DepositResponse :=
  inj_countable' (fun r => (dp_RequestId r, dp_Accepted r, dp_StoredUntil r, dp_RejectionReason r, dp_MailboxSignature r))
    (fun '(a, b, c, d, e) => mkDepositResponse a b d c e) _.
Next Obligation. by intros []. Qed.
#[export] Instance RetrievalRequest_eq : EqDecision RetrievalRequest.
Proof. solve_decision. Defined.
#[export] Program Instance RetrievalRequest_countable : Countable RetrievalRequest :=
  inj_countable' (fun r => (rr_Timestamp r, rr_RecipientPubkey r, rr_Nonce r, rr_RecipientSignature r))
    (fun '(a, b, c, d) => mkRetrievalRequest b c a d) _.
Next Obligation. by intros []. Qed.
#[export] Instance RetrievalResponse_eq : EqDecision RetrievalResponse.
Proof. solve_decision. Defined.
#[export] Program Instance RetrievalResponse_countable : Countable RetrievalResponse :=
  inj_countable' (fun r => (rp_Count r, rp_Nonce r, rp_MailboxSignature r, rp_MessageIds r, rp_Envelopes r))
    (fun '(a, b, c, d, e) => mkRetrievalResponse b d e a c) _.
Next Obligation. by intros []. Qed.
#[export] Instance AcknowledgmentRequest_eq : EqDecision AcknowledgmentRequest.
Proof. solve_decision. Defined.
#[export] Program Instance AckRequest_countable : Countable AcknowledgmentRequest :=
  inj_countable' (fun r => (ar_Timestamp r, ar_RecipientPubkey r, ar_RecipientSignature r, ar_MessageIds r))
    (fun '(a, b, c, d) => mkAckRequest b d a c) _.
Next Obligation. by intros []. Qed.
#[export] Instance AcknowledgmentResponse_eq : EqDecision AcknowledgmentResponse.
Proof. solve_decision. Defined.
#[export] Program Instance AckResponse_countable : Countable AcknowledgmentResponse :=
  inj_countable' (fun r => (ap_Success r, ap_FailureReason r, ap_MailboxSignature r, ap_MessageIds r))
    (fun '(a, b, c, d) => mkAckResponse d a b c) _.
Next Obligation. by intros []. Qed.

#[export] Instance pbStoredMessage_codec : Codec pbStoredMessage := countable_codec.
#[export] Instance Envelope_codec : Codec BabylonEnvelope := countable_codec.
#[export] Instance DepositRequest_codec : Codec DepositRequest := countable_codec.
#[export] Instance DepositResponse_codec : Codec DepositResponse := countable_codec.
#[export] Instance RetrievalRequest_codec : Codec RetrievalRequest := countable_codec.
#[export] Instance RetrievalResponse_codec : Codec RetrievalResponse := countable_codec.
#[export] Instance AckRequest_codec : Codec AcknowledgmentRequest := countable_codec.
#[export] Instance AckResponse_codec : Codec AcknowledgmentResponse := countable_codec.

Definition config1 : MailboxConfig := mkMailboxConfig 1 4096 65536 604800 100 false.
Definition env1 : Env := mkEnvironment (fun _ => Some (zeros 32)) (fun i => (1000 + Z.of_nat i) * SecondNs).
Definition node : Sys (Mailbox gmap_kv) := mkSys env1 (mkMailbox (K := gmap_kv) ∅ config1 (zeros 64) ∅).
Definition recipient : bytes := zeros 32.
(** One message has come in. *)
Definition stored_one : Sys (Mailbox gmap_kv) :=
  (StoreMessage recipient (zeros 16) [Byte.x01] (str "hello") 60 node).1.
End MailboxDemo.
Import MailboxDemo.

Lemma StoreMessage_stored_witness :
  let now := 1000 * SecondNs in
  (GetMessage recipient (zeros 16) stored_one).2 =
    Ok (mkStored (zeros 16) (str "hello") [Byte.x01] now (1060 * SecondNs) 5).
Proof.
  cbv zeta.
  pose proof (countable_codec_laws : CodecLaws pbStoredMessage).
  destruct (StoreMessage_stored (K := gmap_kv) recipient (zeros 16) [Byte.x01] (str "hello") 60 node stored_one) as [E _];
    [vm_compute; split; congruence|vm_compute; split; congruence|vm_compute; reflexivity|apply run_pair; vm_compute; reflexivity|].
  rewrite E. vm_compute. reflexivity.
Defined.

Lemma mailbox_fills_up_witness :
  let later := mb_run (K := gmap_kv) (P := toy) [MbDelete recipient [zeros 16]; MbCleanup] stored_one in
  (ListMessages recipient later).2 = Ok [] /\
  (StoreMessage recipient [Byte.x01] [Byte.x01] (str "again") 60 later).2 =
    Err (ErrText "message count limit reached for target").
Proof.
  cbv zeta. split; [vm_compute; reflexivity|].
  apply (mailbox_fills_up (K := gmap_kv) (P := toy) recipient
           [MbDelete recipient [zeros 16]; MbCleanup] stored_one).
  exists (match meta_at recipient (obj stored_one) with Some (Some data) => data | _ => [] end).
  split; vm_compute; [reflexivity|congruence].
Defined.
