(* ===== verification/MailboxStreams.v ===== *)
(** * pkg/mailbox: requests over a stream

    Frames through the buffered writer; what a sender learns of its deposit; and
    the way of a message from its sender through a mailbox to its recipient. *)
From S2P Require Import Prelude Primitives Crypto Proto Badger Runtime Envelope StorageProps Mailbox MailboxProps.
#[local] Open Scope Z_scope.

(** ** Frames *)

Lemma WriteByte_all c w : w_sent (WriteByte c w) ++ w_buf (WriteByte c w) = w_sent w ++ w_buf w ++ [c].
Proof. unfold WriteByte. destruct (_ <=? _)%nat; cbn; by rewrite <- ?app_assoc. Qed.

Lemma Write_all p w : w_sent (Write p w) ++ w_buf (Write p w) = w_sent w ++ w_buf w ++ p.
Proof.
  unfold Write. set (av := (bufferSize - length (w_buf w))%nat).
  destruct (length p <=? av)%nat; [done|].
  destruct (length (w_buf w) =? 0)%nat eqn:E0; cbv beta iota zeta.
  - apply Nat.eqb_eq, length_zero_iff_nil in E0. rewrite E0.
    destruct (_ <=? _)%nat; cbn [w_sent w_buf]; by rewrite ?app_nil_r.
  - destruct (_ <=? _)%nat; cbn [w_sent w_buf Flush]; rewrite ?app_nil_r, <- !app_assoc; by rewrite take_drop.
Qed.

Definition frame_bytes (msgType : Byte.byte) (data : bytes) : bytes :=
  msgType :: be_encode 4 (u32 (Z.of_nat (length data))) ++ data.

Lemma write_frame_flushed msgType data : w_sent (Flush (write_frame msgType data new_writer)) = frame_bytes msgType data.
Proof. unfold write_frame. cbn [Flush w_sent]. by rewrite Write_all, app_assoc, Write_all, app_assoc, WriteByte_all. Qed.

Lemma Write_fits p w :
  (length (w_buf w) + length p <= bufferSize)%nat -> Write p w = mkWriter (w_sent w) (w_buf w ++ p).
Proof.
  intros H. unfold Write. destruct (_ <=? _)%nat eqn:E; [done|]. apply Nat.leb_gt in E. lia.
Qed.

(** A short frame stays in the buffer. *)
Lemma write_frame_small msgType data : (length data <= 4091)%nat -> w_sent (write_frame msgType data new_writer) = [].
Proof.
  intros H. unfold write_frame. change (WriteByte msgType new_writer) with (mkWriter [] [msgType]).
  rewrite (Write_fits (be_encode 4 _)) by (rewrite be_encode_length; unfold bufferSize; cbn; lia).
  rewrite Write_fits; [done|]. cbn [w_buf]. rewrite length_app, be_encode_length. unfold bufferSize. cbn [length]. lia.
Qed.

Lemma read_frame_encode data :
  Z.of_nat (length data) < 2 ^ 32 -> read_frame (be_encode 4 (u32 (Z.of_nat (length data))) ++ data) = Some data.
Proof.
  intros H. unfold read_frame. rewrite length_app, be_encode_length.
  destruct (4 + length data <? 4)%nat eqn:E; [apply Nat.ltb_lt in E; lia|].
  rewrite take_app_length' by (by rewrite be_encode_length).
  rewrite drop_app_length' by (by rewrite be_encode_length).
  rewrite u32_small, be_decode_encode by lia.
  rewrite (proj2 (Z.ltb_ge _ _)) by lia. by rewrite Nat2Z.id, firstn_all.
Qed.

(** ** Requests over a stream *)

Section Streams.
Context `{K : KV} `{!KVLaws K} `{P : Primitives}.
Context `{!Codec pbStoredMessage} `{!Codec BabylonEnvelope} `{!Codec DepositRequest} `{!Codec DepositResponse}
  `{!Codec RetrievalRequest} `{!Codec RetrievalResponse} `{!Codec AcknowledgmentRequest}
  `{!Codec AcknowledgmentResponse}.
Context `{!CodecLaws DepositRequest} `{!CodecLaws DepositResponse}.

(** What the node sends back to a peer; a handler that panics sends nothing. *)
Definition answer (w : Sys (Mailbox K)) (input : bytes) : bytes :=
  match (handleStream input w).2 with Ok b => b | _ => [] end.

Lemma exchange_data {A B} `{Codec A} `{Codec B} msgType s (req : A) data :
  marshal req = Some data ->
  exchange (B := B) msgType s req =
    match s (frame_bytes msgType data) with
    | [] => Err (ErrWrap "failed to read response type" (ErrExt "EOF"))
    | t :: reply =>
        if negb (bool_decide (t = msgType)) then Err (ErrText "unexpected response type")
        else wrapErr "failed to read response" (data ← ext "EOF" (read_frame reply); proto_Unmarshal data)
    end.
Proof.
  intros Hd. unfold exchange, proto_Marshal. rewrite Hd. cbn [ext wrapErr mbind outcome_bind].
  change (mkWriter [] []) with new_writer. by rewrite write_frame_flushed.
Qed.

(** A response that arrives whole is read. *)
Lemma exchange_whole {A B} `{Codec A} `{Codec B} `{!CodecLaws B} msgType s (req : A) data (resp : B) reply :
  marshal req = Some data -> marshal resp = Some reply -> Z.of_nat (length reply) < 2 ^ 32 ->
  s (frame_bytes msgType data) = frame_bytes msgType reply -> exchange msgType s req = Ok resp.
Proof.
  intros Hd Hr Hl Hs. rewrite (exchange_data _ _ _ _ Hd), Hs. unfold frame_bytes. rewrite bool_decide_true by done.
  cbn [negb]. rewrite read_frame_encode by done. cbn. unfold proto_Unmarshal. by rewrite (unmarshal_marshal _ _ Hr).
Qed.

Lemma unflushed_small {A} `{Codec A} msgType (msg : A) (w : Sys (Mailbox K)) :
  (forall data, marshal msg = Some data -> (length data <= 4091)%nat) -> unflushed msgType msg w = (w, Ok []).
Proof.
  intros Hs. unfold unflushed, writeResponse, proto_Marshal. destruct (marshal msg) as [data|]; [|done].
  cbn. by rewrite write_frame_small by auto.
Qed.

(** Why a deposit is turned down, and the reason the node gives. *)
Inductive rejected (w : Sys (Mailbox K)) (req : DepositRequest) : string -> Prop :=
  | rejected_invalid e :
      validateDepositRequest (mconfig (obj w)) req = Err e -> rejected w req (error_string e)
  | rejected_sender :
      validateDepositRequest (mconfig (obj w)) req = Ok tt -> extractSenderPubkey (dr_Envelope req) = None ->
      rejected w req "failed to extract sender pubkey"
  | rejected_rate sender :
      validateDepositRequest (mconfig (obj w)) req = Ok tt -> extractSenderPubkey (dr_Envelope req) = Some sender ->
      (isRateLimited sender (dr_TargetPubkey req) w).2 = Ok true -> rejected w req "rate limit exceeded"
  | rejected_full sender :
      validateDepositRequest (mconfig (obj w)) req = Ok tt -> extractSenderPubkey (dr_Envelope req) = Some sender ->
      (isRateLimited sender (dr_TargetPubkey req) w).2 = Ok false -> full (dr_TargetPubkey req) (obj w) ->
      rejected w req "storage error: message count limit reached for target".

Lemma only_at_same t (s s' : Mailbox K) : only_at t s s' -> db s' = db s -> s' = s.
Proof. destruct s, s'. intros (E1 & E2 & E3 & _) E4. cbn in *. by subst. Qed.

Lemma isRateLimited_run a b (w : Sys (Mailbox K)) :
  exists w1 r, isRateLimited a b w = (w1, Ok r) /\ obj w1 = obj w /\ (isRateLimited a b w).2 = Ok r.
Proof. eexists _, _. split; [reflexivity|done]. Qed.

Lemma extractMessageID_run data w :
  exists w1, obj w1 = obj w /\ exists id, extractMessageID data w = (w1, Ok id) /\
  forall env, unmarshal (A := BabylonEnvelope) data = Some env ->
    w1 = w /\ id = if (0 <? length (MessageId env))%nat then MessageId env else take 16 (sha256 data).
Proof.
  unfold extractMessageID. destruct (unmarshal data) as [env|].
  - exists w. split; [done|]. eexists. split; [done|]. by intros ? [= ->].
  - eexists. split; [|eexists; split; [reflexivity|done]]. done.
Qed.

(** A sender never learns why its deposit was turned down, nor that it was: the
    response that says so is written to the buffered writer and the writer is not
    flushed, so that unless it overflows the buffer nothing is sent, the sender
    reads the end of the stream where it expects the type of a response, and the
    mailbox is as it was. *)
Theorem rejection_lost w req data reason :
  marshal req = Some data -> Z.of_nat (length data) < 2 ^ 32 -> rejected w req reason ->
  (forall reply, marshal (mkDepositResponse (dr_RequestId req) false reason 0 []) = Some reply ->
     (length reply <= 4091)%nat) ->
  exchange (B := DepositResponse) Byte.x01 (answer w) req =
    Err (ErrWrap "failed to read response type" (ErrExt "EOF")) /\
  obj (handleStream (frame_bytes Byte.x01 data) w).1 = obj w.
Proof.
  intros Hd Hl Hrej Hsmall. rewrite (exchange_data _ _ _ _ Hd). unfold answer.
  enough (exists w', obj w' = obj w /\ handleStream (frame_bytes Byte.x01 data) w = (w', Ok [])) as (w' & Ho & ->) by by split.
  change (handleStream (frame_bytes Byte.x01 data) w)
    with (handleDepositRequest (be_encode 4 (u32 (Z.of_nat (length data))) ++ data) w).
  unfold handleDepositRequest. rewrite read_frame_encode, (unmarshal_marshal _ _ Hd) by done.
  cbv zeta. rewrite (bind_Ok self _ w w (obj w)) by done. unfold or_reply at 1, lift at 1.
  assert (forall w0, writeErrorResponse (dr_RequestId req) reason w0 = (w0, Ok [])) as Hw.
  { intros w0. by apply unflushed_small. }
  destruct Hrej as [e E|E Es|sender E Es Er|sender E Es Er Hf]; rewrite E.
  { exists w. by rewrite Hw. }
  { exists w. by rewrite Es, Hw. }
  all: rewrite Es; destruct (isRateLimited_run sender (dr_TargetPubkey req) w) as (w1 & r & E1 & Ho1 & Er1);
    rewrite (bind_Ok _ _ _ _ _ E1); rewrite Er in Er1; injection Er1 as <-; cbv beta iota.
  { exists w1. by rewrite Hw. }
  destruct (extractMessageID_run (dr_Envelope req) w1) as (w2 & Ho2 & id & E2 & _). rewrite (bind_Ok _ _ _ _ _ E2).
  unfold or_reply. destruct (StoreMessage_run (dr_TargetPubkey req) id sender (dr_Envelope req)
    (DefaultTtlSeconds (mconfig (obj w))) w2) as (Hk & Hr & _).
  destruct (StoreMessage _ _ _ _ _ w2) as [w3 r3]. cbn [fst snd] in *. rewrite <- Ho1, <- Ho2 in Hf.
  destruct (Hr Hf) as [Hdb ->]. exists w3. split; [|exact (Hw w3)].
  by rewrite (only_at_same _ _ _ Hk Hdb), Ho2.
Qed.

(** *** The way of a message *)

Context `{!PrimitiveLaws P} `{!KVTotal K} `{!CodecLaws pbStoredMessage} `{!CodecLaws RetrievalRequest}
  `{!CodecLaws RetrievalResponse}.
Context `{!CodecTotal pbStoredMessage} `{!CodecTotal DepositRequest} `{!CodecTotal DepositResponse}
  `{!CodecTotal RetrievalRequest} `{!CodecTotal RetrievalResponse}.

(** The signature made over the encoding of a message. *)
Definition signature_over {A} `{Codec A} (priv : bytes) (a : A) : bytes :=
  match marshal a with Some data => ed_sign priv data | None => [] end.

Lemma Sign_run priv data : length priv = 64%nat -> Sign priv data = Ok (ed_sign priv data).
Proof. intros H. unfold Sign, ed25519_Sign. rewrite check_len_ok by done. cbn. by rewrite H. Qed.

Lemma Verify_run pub priv data : ed_keypair pub priv -> Verify pub data (ed_sign priv data) = true.
Proof. intros H. eapply Verify_Sign; [exact H|]. apply Sign_run, (ed_keypair_lengths _ _ H). Qed.

Lemma sign_marshalled {A} `{Codec A} `{!CodecTotal A} priv (a : A) :
  length priv = 64%nat -> (data ← proto_Marshal a; Sign priv data) = Ok (signature_over priv a).
Proof.
  intros H0. unfold proto_Marshal, signature_over. destruct (marshal_total a) as [data ->]. cbn. by apply Sign_run.
Qed.

(** Room for another message, without making any. *)
Definition has_room (t : bytes) (s : Mailbox K) : Prop :=
  meta_at t s = Some None \/
  exists data, meta_at t s = Some (Some data) /\
    MessageCount (parse_metadata data) < MaxMessagesPerTarget (mconfig s) /\
    u64 (TotalBytes (parse_metadata data) + MaxMessageSize (mconfig s)) <= MaxTotalBytesPerTarget (mconfig s).

(** Everything in the mailbox of [t] is a message. *)
Definition readable (t : bytes) (s : Mailbox K) : Prop :=
  forall k v, mailboxOf t `prefix_of` k -> kv_get k (db s) = Some (Some v) ->
  is_Some (unmarshal (A := pbStoredMessage) v).

Lemma checkQuota_room t w : has_room t (obj w) -> checkQuota t w = (w, Ok tt).
Proof.
  unfold has_room, meta_at, checkQuota, view, self, lift, getMetadata, mbind, GoM_bind.
  intros [->|(data & -> & Hc & Hb)]; cbn [fmap option_fmap option_map]; [done|].
  rewrite Z.geb_leb, (proj2 (Z.leb_gt _ _)) by lia. by rewrite Z.gtb_ltb, (proj2 (Z.ltb_ge _ _)) by lia.
Qed.

(** With room, a store without failures stores. *)
Lemma StoreMessage_room t id sender envelope ttl w :
  has_room t (obj w) ->
  exists w', StoreMessage t id sender envelope ttl w = (w', Ok tt) /\ (forall i, clock (env w') i = clock (env w) (2 + i)) /\
  forall k, k <> messageKeyOf t id -> k <> metaKey t -> kv_get k (db (obj w')) = kv_get k (db (obj w)).
Proof.
  intros Hroom. unfold StoreMessage. set (w1 := (time_now w).1).
  rewrite (bind_Ok time_now _ w w1 (clock (env w) 0)) by done. cbv zeta beta.
  rewrite (bind_Ok _ _ w1 w1 tt) by by apply checkQuota_room.
  unfold txn, self, lift, update, time_now, mbind, GoM_bind. cbn [obj db env fst snd].
  unfold mbind, outcome_bind, proto_Marshal, store_set.
  destruct (marshal_total (stored_record t id sender envelope ttl (clock (env w) 0))) as [data Ed].
  unfold stored_record in Ed. rewrite Ed. cbn [wrapErr ext].
  destruct (kv_set_total (messageKeyOf t id) data (db (obj w))) as [d1 E1].
  change (db (obj w1)) with (db (obj w)). rewrite E1. cbn [wrapErr ext].
  unfold updateMetadata, store_set. cbv zeta.
  match goal with |- context [kv_set (metaKey t) ?v d1] => destruct (kv_set_total (metaKey t) v d1) as [d2 E2] end.
  rewrite E2. eexists. split; [reflexivity|]. split; [done|].
  intros k Hk1 Hk2. cbn. by rewrite (kv_get_set_ne _ _ _ _ _ E2 Hk2), (kv_get_set_ne _ _ _ _ _ E1 Hk1).
Qed.

(** The messages of a readable mailbox that no reading of the clock finds expired are listed. *)
Lemma list_loop_run items w :
  Forall (fun item => is_Some (unmarshal (A := pbStoredMessage) item.2)) items ->
  exists w' messages, list_loop items w = (w', Ok messages) /\ obj w' = obj w /\
  forall k v stored, (k, v) ∈ items -> unmarshal v = Some stored ->
    (forall i, clock (env w) i <= of_unix (sm_ExpiresAt stored)) -> stored_message stored ∈ messages.
Proof.
  revert w; induction items as [|[k v] rest IH]; intros w.
  { intros _. exists w, []. split; [done|]. split; [done|]. by intros ? ? ? ?%not_elem_of_nil. }
  intros [[stored Hv] Hrest]%Forall_cons. cbn [snd] in Hv. cbn [list_loop].
  rewrite (bind_Ok _ _ w w stored) by (unfold lift, proto_Unmarshal; by rewrite Hv).
  set (w1 := (time_now w).1). rewrite (bind_Ok time_now _ w w1 (clock (env w) 0)) by done.
  destruct (IH w1 Hrest) as (w2 & messages & E & Ho & Hin). rewrite (bind_Ok _ _ _ _ _ E).
  eexists w2, _. split; [reflexivity|]. split; [exact Ho|]. intros k' v' st Hk Hst Hc.
  assert (forall i, clock (env w1) i <= of_unix (sm_ExpiresAt st)) as Hc1 by (intros i; apply (Hc (S i))).
  apply elem_of_cons in Hk as [[= -> ->]|Hk].
  - rewrite Hv in Hst. injection Hst as <-. rewrite (proj2 (Z.ltb_ge _ _)) by apply Hc. left.
  - specialize (Hin k' v' st Hk Hst Hc1). destruct (_ <? _); [done|by right].
Qed.

Lemma ListMessages_run t w :
  readable t (obj w) ->
  exists w' messages, ListMessages t w = (w', Ok messages) /\ obj w' = obj w /\
  forall id v stored, kv_get (messageKeyOf t id) (db (obj w)) = Some (Some v) -> unmarshal v = Some stored ->
    (forall i, clock (env w) i <= of_unix (sm_ExpiresAt stored)) -> stored_message stored ∈ messages.
Proof.
  intros Hr. unfold ListMessages, view. destruct (kv_scan_total (mailboxOf t) (db (obj w))) as [items Es].
  destruct (kv_scan_spec _ _ _ Es) as (_ & _ & Hl).
  rewrite (bind_Ok _ _ w w items) by (unfold self, lift, store_scan, mbind, GoM_bind; by rewrite Es).
  destruct (list_loop_run items w) as (w' & messages & E & Ho & Hin).
  { apply Forall_forall. intros [k v] Hk. apply Hl in Hk as [Hp Hk]. by apply (Hr k v). }
  exists w', messages. split; [done|]. split; [done|]. intros id v stored Hk Hv Hc. eapply Hin; [|done..].
  apply Hl. split; [|exact Hk]. rewrite messageKeyOf_app. by apply prefix_app_r.
Qed.

(** What the two clients send and the node answers. *)
Definition deposit_request (priv target envelopeData : bytes) (requestId timestamp : Z) : DepositRequest :=
  mkDepositRequest target envelopeData requestId timestamp
    (signature_over priv (mkDepositRequest target envelopeData requestId timestamp [])).
Definition deposit_response (s : Mailbox K) (requestId until : Z) : DepositResponse :=
  mkDepositResponse requestId true "" until
    (signature_over (mb_Ed25519PrivKey s) (mkDepositResponse requestId true "" until [])).
Definition retrieval_request (keys : KeyPair) (nonce : bytes) (timestamp : Z) : RetrievalRequest :=
  mkRetrievalRequest (Ed25519PubKey keys) nonce timestamp
    (signature_over (Ed25519PrivKey keys) (mkRetrievalRequest (Ed25519PubKey keys) nonce timestamp [])).
Definition retrieval_response (s : Mailbox K) (nonce : bytes) (messages : list StoredMessage) : RetrievalResponse :=
  let count := Z.of_nat (length messages) in
  mkRetrievalResponse nonce (s_MessageID <$> messages) (s_Envelope <$> messages) count
    (signature_over (mb_Ed25519PrivKey s) (mkRetrievalResponse nonce [] [] count [])).

(** A message fits in a frame. *)
Definition fits {A} `{Codec A} (a : A) : Prop :=
  forall data, marshal a = Some data -> Z.of_nat (length data) < 2 ^ 32.

Lemma flushed_run {A} `{Codec A} `{!CodecTotal A} msgType (msg : A) (w : Sys (Mailbox K)) :
  exists reply, marshal msg = Some reply /\ flushed msgType msg w = (w, Ok (frame_bytes msgType reply)).
Proof.
  destruct (marshal_total msg) as [reply Hr]. exists reply. split; [done|].
  unfold flushed, writeResponse, proto_Marshal. rewrite Hr. cbn [ext mbind outcome_bind mret outcome_ret].
  by rewrite write_frame_flushed.
Qed.

(** The handler of deposits on a request nothing speaks against. *)
Lemma handle_deposit_accepted w req data envelope :
  let sender := SenderDeviceId envelope in let ttl := DefaultTtlSeconds (mconfig (obj w)) in
  let t := dr_TargetPubkey req in let id := MessageId envelope in
  marshal req = Some data -> Z.of_nat (length data) < 2 ^ 32 ->
  validateDepositRequest (mconfig (obj w)) req = Ok tt ->
  unmarshal (dr_Envelope req) = Some envelope -> sender <> [] -> id <> [] ->
  rate_entry (obj w) sender t = None -> has_room t (obj w) -> length (mb_Ed25519PrivKey (obj w)) = 64%nat ->
  exists w' reply record,
    handleStream (frame_bytes Byte.x01 data) w = (w', Ok (frame_bytes Byte.x01 reply)) /\
    marshal (deposit_response (obj w) (dr_RequestId req) (to_unix (add_secs (clock (env w) 4) ttl))) = Some reply /\
    marshal (stored_record t id sender (dr_Envelope req) ttl (clock (env w) 1)) = Some record /\
    kv_get (messageKeyOf t id) (db (obj w')) = Some (Some record) /\
    mb_Ed25519PrivKey (obj w') = mb_Ed25519PrivKey (obj w) /\
    forall k, k <> messageKeyOf t id -> k <> metaKey t -> kv_get k (db (obj w')) = kv_get k (db (obj w)).
Proof.
  cbv zeta. intros Hd Hl Hv He Hs Hid Hrate Hroom Hkey.
  change (handleStream (frame_bytes Byte.x01 data) w)
    with (handleDepositRequest (be_encode 4 (u32 (Z.of_nat (length data))) ++ data) w).
  unfold handleDepositRequest. rewrite read_frame_encode, (unmarshal_marshal _ _ Hd) by done.
  cbv zeta. rewrite (bind_Ok self _ w w (obj w)) by done. unfold or_reply at 1, lift at 1. rewrite Hv.
  unfold extractSenderPubkey. rewrite He.
  rewrite (proj2 (Nat.ltb_lt 0 (length (SenderDeviceId envelope)))) by (destruct (SenderDeviceId envelope); [done|cbn; lia]).
  set (w1 := (time_now w).1).
  rewrite (bind_Ok _ _ w w1 false).
  2: { unfold isRateLimited. rewrite (bind_Ok time_now _ w w1 (clock (env w) 0)) by done.
       rewrite (bind_Ok self _ w1 w1 (obj w)) by done. by rewrite Hrate. }
  destruct (extractMessageID_run (dr_Envelope req) w1) as (w2 & Ho2 & id & E2 & Hp).
  destruct (Hp envelope He) as [-> ->]. rewrite (bind_Ok _ _ _ _ _ E2).
  rewrite (proj2 (Nat.ltb_lt 0 (length (MessageId envelope)))) by (destruct (MessageId envelope); [done|cbn; lia]).
  unfold or_reply at 1.
  set (t := dr_TargetPubkey req) in *. set (id := MessageId envelope) in *. set (ttl := DefaultTtlSeconds _).
  destruct (StoreMessage_room t id (SenderDeviceId envelope) (dr_Envelope req) ttl w1 Hroom) as (w3 & E3 & Hc3 & Hk3).
  destruct (StoreMessage_run t id (SenderDeviceId envelope) (dr_Envelope req) ttl w1) as ((_ & Ep & _ & _) & _ & Hok).
  rewrite E3 in *. cbn [fst snd] in *. destruct (Hok eq_refl) as (_ & record & Hrec & Hget & _).
  unfold incrementRateLimit, time_now, update, mbind, GoM_bind. cbv beta iota zeta.
  unfold or_reply, lift. unfold signResponse. cbn [dp_RequestId dp_Accepted dp_StoredUntil].
  rewrite sign_marshalled by exact Hkey.
  match goal with |- context [flushed Byte.x01 ?m ?w0] => destruct (flushed_run Byte.x01 m w0) as (reply & Hr & ->) end.
  eexists _, reply, record. split; [reflexivity|]. rewrite <- Hr. cbn [env clock obj db mb_Ed25519PrivKey].
  split; [unfold deposit_response; by rewrite Hc3|]. split; [exact Hrec|]. split; [exact Hget|].
  split; [exact Ep|exact Hk3].
Qed.

Context {X : Type}.

Lemma DepositToMailbox_run peer_Decode NewStream peer target envelope envelopeData (keys : KeyPair) (c : Sys X) s :
  let req := deposit_request (Ed25519PrivKey keys) target envelopeData (u64 (clock (env c) 0)) (to_unix (clock (env c) 1)) in
  open_stream peer_Decode NewStream peer = Ok s -> marshal envelope = Some envelopeData -> length (Ed25519PrivKey keys) = 64%nat ->
  (DepositToMailbox peer_Decode NewStream peer target envelope keys c).2 = exchange Byte.x01 s req.
Proof.
  cbv zeta. intros Ho He Hk. unfold DepositToMailbox, generateRequestID, mustMarshal, time_now, lift.
  unfold mbind, GoM_bind. rewrite Ho. unfold proto_Marshal. rewrite He. cbn [wrapErr ext].
  cbn [mret GoM_ret clock env]. unfold deposit_request, signature_over.
  match goal with |- context [marshal (mkDepositRequest ?a ?b ?d ?e [])] =>
    destruct (marshal_total (mkDepositRequest a b d e [])) as [data Hd]; rewrite Hd end.
  cbn [mret GoM_ret]. by rewrite Sign_run by done.
Qed.

Lemma RetrieveFromMailbox_run peer_Decode NewStream peer (keys : KeyPair) (c : Sys X) s r :
  let req := retrieval_request keys (fit 32 r) (to_unix (clock (env c) 0)) in
  open_stream peer_Decode NewStream peer = Ok s -> rands (env c) 0 = Some r -> length (Ed25519PrivKey keys) = 64%nat ->
  (RetrieveFromMailbox peer_Decode NewStream peer keys c).2 = exchange Byte.x02 s req.
Proof.
  cbv zeta. intros Ho Hr Hk. unfold RetrieveFromMailbox, mustMarshal, rand_opt, time_now, lift.
  unfold mbind, GoM_bind. rewrite Ho. cbn [rands env clock]. rewrite Hr. cbn [fmap option_fmap option_map ext wrapErr].
  unfold retrieval_request, signature_over.
  match goal with |- context [marshal (mkRetrievalRequest ?a ?b ?d [])] =>
    destruct (marshal_total (mkRetrievalRequest a b d [])) as [data Hd]; rewrite Hd end.
  cbn [mret GoM_ret]. by rewrite Sign_run by done.
Qed.

(** The handler of retrievals on a request of the recipient itself. *)
Lemma handle_retrieval_accepted w (keys : KeyPair) nonce timestamp data :
  marshal (retrieval_request keys nonce timestamp) = Some data -> Z.of_nat (length data) < 2 ^ 32 ->
  ed_keypair (Ed25519PubKey keys) (Ed25519PrivKey keys) -> length nonce = 32%nat ->
  readable (Ed25519PubKey keys) (obj w) -> length (mb_Ed25519PrivKey (obj w)) = 64%nat ->
  exists w' messages reply,
    ListMessages (Ed25519PubKey keys) w = (w', Ok messages) /\
    marshal (retrieval_response (obj w) nonce messages) = Some reply /\
    handleStream (frame_bytes Byte.x02 data) w = (w', Ok (frame_bytes Byte.x02 reply)).
Proof.
  intros Hd Hl Hkeys Hn Hread Hkey.
  change (handleStream (frame_bytes Byte.x02 data) w)
    with (handleRetrievalRequest (be_encode 4 (u32 (Z.of_nat (length data))) ++ data) w).
  unfold handleRetrievalRequest. rewrite read_frame_encode, (unmarshal_marshal _ _ Hd) by done.
  cbv zeta. unfold or_reply at 1, lift at 1.
  assert (validateRetrievalRequest (retrieval_request keys nonce timestamp) = Ok tt) as ->.
  { unfold validateRetrievalRequest, retrieval_request, unsigned_retrieval, signature_over.
    cbn [rr_RecipientPubkey rr_Nonce rr_Timestamp rr_RecipientSignature].
    rewrite (proj1 (ed_keypair_lengths _ _ Hkeys)), Hn. cbn [Nat.eqb negb].
    destruct (marshal_total (mkRetrievalRequest (Ed25519PubKey keys) nonce timestamp [])) as [d ->].
    rewrite ed_sign_length. cbn [Nat.eqb]. by rewrite Verify_run. }
  cbn [rr_RecipientPubkey rr_Nonce retrieval_request].
  destruct (ListMessages_run (Ed25519PubKey keys) w Hread) as (w' & messages & E & Ho & _).
  unfold or_reply at 1. rewrite E. rewrite (bind_Ok self _ w' w' (obj w')) by done. rewrite Ho.
  unfold or_reply, lift, signRetrievalResponse. cbn [rp_Nonce rp_Count]. rewrite sign_marshalled by exact Hkey.
  exists w', messages.
  match goal with |- context [flushed Byte.x02 ?m ?w0] => destruct (flushed_run Byte.x02 m w0) as (reply & Hr & ->) end.
  by exists reply.
Qed.

Lemma validate_deposit config (keys : KeyPair) t envelope envelopeData requestId timestamp :
  ed_keypair (Ed25519PubKey keys) (Ed25519PrivKey keys) -> unmarshal envelopeData = Some envelope ->
  SenderIdentity envelope = Ed25519PubKey keys -> Z.of_nat (length envelopeData) <= MaxMessageSize config ->
  validateDepositRequest config (deposit_request (Ed25519PrivKey keys) t envelopeData requestId timestamp) = Ok tt.
Proof.
  intros Hk He Hs Hl. unfold validateDepositRequest, deposit_request, unsigned_deposit, signature_over.
  cbn [dr_Envelope dr_SenderSignature dr_TargetPubkey dr_RequestId dr_Timestamp].
  rewrite Z.gtb_ltb, (proj2 (Z.ltb_ge _ _)) by lia.
  destruct (marshal_total (mkDepositRequest t envelopeData requestId timestamp [])) as [d ->].
  rewrite ed_sign_length, He, Hs. cbn [Nat.eqb]. by rewrite Verify_run, andb_false_r.
Qed.

(** A live message of a mailbox is in the answer to its recipient. *)
Lemma retrieval_delivers w (keys : KeyPair) peer_Decode peer pid (c : Sys X) r id v stored :
  peer_Decode peer = Some pid ->
  ed_keypair (Ed25519PubKey keys) (Ed25519PrivKey keys) -> length (mb_Ed25519PrivKey (obj w)) = 64%nat ->
  rands (env c) 0 = Some r -> readable (Ed25519PubKey keys) (obj w) ->
  fits (retrieval_request keys (fit 32 r) (to_unix (clock (env c) 0))) ->
  (forall messages, (ListMessages (Ed25519PubKey keys) w).2 = Ok messages ->
     fits (retrieval_response (obj w) (fit 32 r) messages)) ->
  kv_get (messageKeyOf (Ed25519PubKey keys) id) (db (obj w)) = Some (Some v) -> unmarshal v = Some stored ->
  (forall i, clock (env w) i <= of_unix (sm_ExpiresAt stored)) ->
  exists reply, (RetrieveFromMailbox peer_Decode (fun _ => Some (answer w)) peer keys c).2 = Ok reply /\
    rp_Nonce reply = fit 32 r /\ (sm_MessageId stored, sm_Envelope stored) ∈ zip (rp_MessageIds reply) (rp_Envelopes reply).
Proof.
  intros Hp Hk Hkey Hr Hread Hf1 Hf2 Hget Hv Hc.
  rewrite (RetrieveFromMailbox_run _ _ _ _ _ (answer w) r)
    by first [done|unfold open_stream; by rewrite Hp|apply (ed_keypair_lengths _ _ Hk)].
  destruct (marshal_total (retrieval_request keys (fit 32 r) (to_unix (clock (env c) 0)))) as [data Hd].
  destruct (handle_retrieval_accepted w keys (fit 32 r) (to_unix (clock (env c) 0)) data)
    as (w' & messages & reply & El & Em & Eh); [done|by apply Hf1|done|apply fit_length|done..|].
  assert (fits (retrieval_response (obj w) (fit 32 r) messages)) as Hf by (apply Hf2; by rewrite El).
  exists (retrieval_response (obj w) (fit 32 r) messages). split.
  { eapply exchange_whole; [exact Hd|exact Em|by apply Hf|]. unfold answer. by rewrite Eh. }
  split; [done|]. destruct (ListMessages_run (Ed25519PubKey keys) w Hread) as (w2 & messages2 & E2 & _ & Hin).
  rewrite El in E2. injection E2 as _ <-. specialize (Hin id v stored Hget Hv Hc). unfold retrieval_response.
  cbn [rp_MessageIds rp_Envelopes]. rewrite <- prod_map_zip, zip_diag, <- list_fmap_compose.
  apply list_elem_of_fmap. by exists (stored_message stored).
Qed.

(** C12. A message reaches its recipient through a mailbox.  A sender's client deposits an
    envelope it made at a node that has room for the recipient: the response says
    that it was accepted.  When the recipient's client asks the node before the
    message expires, the envelope is in the response under its message id, and
    the response carries the nonce of the request. *)
Theorem deposit_then_retrieve w (sender recipient : KeyPair) envelope envelopeData peer_Decode peer pid (c1 : Sys X) :
  peer_Decode peer = Some pid ->
  let s := obj w in let t := Ed25519PubKey recipient in
  let req := deposit_request (Ed25519PrivKey sender) t envelopeData (u64 (clock (env c1) 0)) (to_unix (clock (env c1) 1)) in
  let resp := deposit_response s (dr_RequestId req) (to_unix (add_secs (clock (env w) 4) (DefaultTtlSeconds (mconfig s)))) in
  let expires := add_secs (clock (env w) 1) (DefaultTtlSeconds (mconfig s)) in
  ed_keypair (Ed25519PubKey sender) (Ed25519PrivKey sender) -> ed_keypair t (Ed25519PrivKey recipient) ->
  length (mb_Ed25519PrivKey s) = 64%nat ->
  marshal envelope = Some envelopeData -> unmarshal envelopeData = Some envelope ->
  SenderIdentity envelope = Ed25519PubKey sender -> SenderDeviceId envelope <> [] -> MessageId envelope <> [] ->
  Z.of_nat (length envelopeData) <= MaxMessageSize (mconfig s) ->
  rate_entry s (SenderDeviceId envelope) t = None -> has_room t s -> readable t s ->
  fits req -> fits resp -> in_time expires ->
  (DepositToMailbox peer_Decode (fun _ => Some (answer w)) peer t envelope sender c1).2 = Ok resp /\ dp_Accepted resp = true /\
  exists data, marshal req = Some data /\
  let w1 := (handleStream (frame_bytes Byte.x01 data) w).1 in
  forall e (c2 : Sys X) r,
    let w2 := mkSys e (obj w1) in
    (forall i, clock e i <= expires / SecondNs * SecondNs) -> rands (env c2) 0 = Some r ->
    fits (retrieval_request recipient (fit 32 r) (to_unix (clock (env c2) 0))) ->
    (forall messages, (ListMessages t w2).2 = Ok messages -> fits (retrieval_response (obj w2) (fit 32 r) messages)) ->
    exists reply, (RetrieveFromMailbox peer_Decode (fun _ => Some (answer w2)) peer recipient c2).2 = Ok reply /\
      rp_Nonce reply = fit 32 r /\
      (MessageId envelope, envelopeData) ∈ zip (rp_MessageIds reply) (rp_Envelopes reply).
Proof.
  intros Hpeer. cbv zeta. intros Hks Hkr Hkey Hm Hu Hsid Hdev Hid Hsize Hrate Hroom Hread Hf1 Hf2 Ht.
  set (t := Ed25519PubKey recipient) in *.
  rewrite (DepositToMailbox_run _ _ _ _ _ envelopeData _ _ (answer w))
    by first [done|unfold open_stream; by rewrite Hpeer|apply (ed_keypair_lengths _ _ Hks)].
  set (req := deposit_request _ t envelopeData _ _) in *.
  destruct (marshal_total req) as [data Hd].
  destruct (handle_deposit_accepted w req data envelope) as (w1 & reply & record & Eh & Er & Erec & Hget & Ep & Hk);
    [done|by apply Hf1|by eapply validate_deposit|done..|].
  split.
  { eapply exchange_whole; [exact Hd|exact Er|by apply Hf2|]. unfold answer. by rewrite Eh. }
  change (dr_TargetPubkey req) with t in *.
  split; [done|]. exists data. split; [done|]. rewrite Eh. cbn [fst]. intros e c2 r Hc Hr Hf3 Hf4.
  rewrite <- (of_to_unix _ Ht) in Hc.
  apply (retrieval_delivers (mkSys e (obj w1)) recipient peer_Decode peer pid c2 r (MessageId envelope) record
           (stored_record t (MessageId envelope) (SenderDeviceId envelope) envelopeData
              (DefaultTtlSeconds (mconfig (obj w))) (clock (env w) 1))); try done.
  - cbn [obj]. by rewrite Ep.
  - intros k v Hp Hv. cbn [obj] in Hv. destruct (decide (k = messageKeyOf t (MessageId envelope))) as [->|Hne].
    + rewrite Hget in Hv. injection Hv as <-. rewrite (unmarshal_marshal _ _ Erec). by eexists.
    + rewrite Hk in Hv; [by apply (Hread k v)|done|]. intros ->.
      by apply in_mailbox_of, (metaKey_not_in_mailbox t) in Hp.
  - by apply unmarshal_marshal.
Qed.
End Streams.

(** ** A message for Bob *)
Import MailboxDemo.
Module StreamDemo.
Definition config : MailboxConfig := mkMailboxConfig 10 4096 65536 3600 100 false.
Definition env2 (t : Z) : Env := mkEnvironment (fun _ => Some (zeros 32)) (fun _ => t * SecondNs).
Definition node (t : Z) : Sys (Mailbox gmap_kv) := mkSys (env2 t) (mkMailbox (K := gmap_kv) ∅ config (zeros 64) ∅).
Definition keys_of (seed : bytes) : KeyPair := mkKeys (ed_pub seed) (seed ++ ed_pub seed).
Definition alice : KeyPair := keys_of (zeros 32).
Definition bob : KeyPair := keys_of (Byte.x01 :: zeros 31).
Definition envelope : BabylonEnvelope :=
  mkEnvelope 1 1 (Ed25519PubKey alice) (Ed25519PubKey bob) 1000 [Byte.x07] [] [] (str "secret") [Byte.x01] [] 1 [].
Definition envelopeData : bytes := default [] (marshal envelope).
Definition client (t : Z) : Sys unit := mkSys (env2 t) tt.
(** A request without a signature. *)
Definition unsigned_request : DepositRequest := mkDepositRequest (Ed25519PubKey bob) envelopeData 5 1000 [].
End StreamDemo.
Import StreamDemo.

Lemma rejection_lost_witness :
  exchange (B := DepositResponse) Byte.x01 (answer (node 1000)) unsigned_request =
    Err (ErrWrap "failed to read response type" (ErrExt "EOF")).
Proof.
  refine (proj1 (rejection_lost (K := gmap_kv) (P := toy) (CodecLaws0 := countable_codec_laws) (node 1000) unsigned_request
    (encode_bytes unsigned_request) "missing sender signature" _ _ _ _)).
  - reflexivity.
  - vm_compute. reflexivity.
  - apply (rejected_invalid _ _ (ErrText "missing sender signature")). vm_compute. reflexivity.
  - intros reply [= <-]. apply Nat.leb_le. vm_compute. reflexivity.
Defined.

(** The node after the deposit. *)
Definition request : DepositRequest :=
  deposit_request (Ed25519PrivKey alice) (Ed25519PubKey bob) envelopeData (u64 (clock (env (client 1000)) 0))
    (to_unix (clock (env (client 1000)) 1)).
Definition later : Sys (Mailbox gmap_kv) :=
  mkSys (env2 2000) (obj (handleStream (frame_bytes Byte.x01 (encode_bytes request)) (node 1000)).1).

Lemma toy_keypair seed : length seed = 32%nat -> ed_keypair (ed_pub seed) (seed ++ ed_pub seed).
Proof. intros H. by exists seed. Qed.

Lemma fits_compute {A} `{Codec A} (a : A) :
  (match marshal a with Some data => Z.of_nat (length data) <? 2 ^ 32 | None => true end) = true -> fits a.
Proof. intros Hc data Hd. rewrite Hd in Hc. by apply Z.ltb_lt. Qed.

Lemma deposit_then_retrieve_witness :
  exists resp reply,
    (DepositToMailbox (fun _ => Some []) (fun _ => Some (answer (node 1000))) "peer" (Ed25519PubKey bob) envelope alice (client 1000)).2 = Ok resp /\
    (RetrieveFromMailbox (fun _ => Some []) (fun _ => Some (answer later)) "peer" bob (client 2000)).2 = Ok reply /\
    ([Byte.x07], envelopeData) ∈ zip (rp_MessageIds reply) (rp_Envelopes reply).
Proof.
  destruct (deposit_then_retrieve (K := gmap_kv) (P := toy) (CodecLaws0 := countable_codec_laws)
    (CodecLaws1 := countable_codec_laws) (CodecLaws2 := countable_codec_laws) (CodecLaws3 := countable_codec_laws)
    (CodecLaws4 := countable_codec_laws) (node 1000) alice bob envelope envelopeData (fun _ => Some []) "peer" [] (client 1000))
    as (E1 & _ & data & Ed & H2); [..|].
  - reflexivity.
  - by apply toy_keypair.
  - by apply toy_keypair.
  - reflexivity.
  - vm_compute; reflexivity.
  - vm_compute; reflexivity.
  - reflexivity.
  - done.
  - done.
  - vm_compute; congruence.
  - reflexivity.
  - left. reflexivity.
  - intros k v _ Hv. cbn in Hv. by rewrite lookup_empty in Hv.
  - apply fits_compute. vm_compute; reflexivity.
  - apply fits_compute. vm_compute; reflexivity.
  - vm_compute; split; congruence.
  - assert (data = encode_bytes request) as -> by exact (eq_sym (f_equal (default []) Ed)).
    destruct (H2 (env2 2000) (client 2000) (zeros 32)) as (reply & E2 & _ & Hin).
    + intros i. vm_compute; congruence.
    + reflexivity.
    + apply fits_compute. vm_compute; reflexivity.
    + intros messages E.
      assert (messages = match (ListMessages (Ed25519PubKey bob) later).2 with Ok l => l | _ => [] end) as ->
        by exact (eq_sym (f_equal (fun o => match o with Ok l => l | _ => [] end) E)).
      apply fits_compute. vm_compute; reflexivity.
    + eexists _, reply. split; [exact E1|]. split; [exact E2|exact Hin].
Defined.
