(* ===== verification/MailboxNode.v ===== *)
(** * pkg/mailbox: announcements and the manager

    [announcement.go] and [manager.go] on top of the node of Mailbox.v.  The DHT
    is the class of Dht.v.  Decoding a peer id and opening a stream are
    arguments, and so is the order in which Go walks through a map. *)
From S2P Require Import Prelude Primitives Crypto Proto Badger Dht Runtime Envelope Mailbox.

Definition MailboxDHTPrefix : string := "bt-mailbox-v1:".

(** [pb.MailboxAnnouncement] *)
Record MailboxAnnouncement := mkAnnouncement {
  an_MailboxPeerId : bytes; an_TargetPubkey : bytes; an_CapacityBytes : Z; an_MaxMessageSize : Z; an_MaxMessages : Z;
  an_TtlSeconds : Z; an_AnnouncedAt : Z; an_Capabilities : list string; an_ReputationScore : Z; an_Signature : bytes;
}.

#[export] Instance eta_Announcement : Eta MailboxAnnouncement := fun a =>
  mkAnnouncement (an_MailboxPeerId a) (an_TargetPubkey a) (an_CapacityBytes a) (an_MaxMessageSize a) (an_MaxMessages a)
    (an_TtlSeconds a) (an_AnnouncedAt a) (an_Capabilities a) (an_ReputationScore a) (an_Signature a).

(** [mailbox.Config] *)
Record Config := mkConfig {
  Enabled : bool; cfg_MaxMessagesPerTarget : Z; cfg_MaxMessageSize : Z; cfg_MaxTotalBytesPerTarget : Z;
  cfg_DefaultTTLSeconds : Z; cfg_DepositRateLimit : Z; cfg_EnableContentRouting : bool;
}.
Definition DefaultConfig : Config := mkConfig true 500 262144 67108864 604800 100 false.
Definition proto_config (c : Config) : MailboxConfig :=
  mkMailboxConfig (cfg_MaxMessagesPerTarget c) (cfg_MaxMessageSize c) (cfg_MaxTotalBytesPerTarget c) (cfg_DefaultTTLSeconds c)
    (cfg_DepositRateLimit c) (cfg_EnableContentRouting c).

(** The node a manager runs on, with the DHT it is connected to; a manager that is no
    mailbox has no announcement manager. *)
Record Node (K : KV) (D : Dht) := mkNode {
  hostID : bytes; identity : KeyPair; mailbox : Mailbox K; announcement : option (gmap string MailboxAnnouncement);
  isMailbox : bool; the_dht : dht;
}.
Arguments mkNode {K D} hostID identity mailbox announcement isMailbox the_dht.
Arguments hostID {K D} n.
Arguments identity {K D} n.
Arguments mailbox {K D} n.
Arguments announcement {K D} n.
Arguments isMailbox {K D} n.
Arguments the_dht {K D} n.

#[export] Instance eta_Node K D : Eta (Node K D) := fun n =>
  mkNode (hostID n) (identity n) (mailbox n) (announcement n) (isMailbox n) (the_dht n).

Section Node.
Context {K : KV} {D : Dht} `{P : Primitives}.
Context `{!Codec pbStoredMessage} `{!Codec BabylonEnvelope} `{!Codec DepositRequest} `{!Codec DepositResponse}
  `{!Codec RetrievalRequest} `{!Codec RetrievalResponse} `{!Codec AcknowledgmentRequest}
  `{!Codec AcknowledgmentResponse} `{!Codec MailboxAnnouncement}.
Variable peer_Decode : string -> option bytes.
Variable NewStream : bytes -> option (bytes -> bytes).

Abbreviation N := (GoM (Sys (Node K D))).

(** [NewManager] *)
Definition NewManager (h : bytes) (id : KeyPair) (db : kv) (net : dht) (config : Config) : Node K D :=
  mkNode h id (mkMailbox db (proto_config config) (Ed25519PrivKey id) ∅) (if Enabled config then Some ∅ else None)
    (Enabled config) net.

(** ** announcement.go *)

Definition dhtKeyForTarget (targetPubkey : bytes) : string :=
  "/bt/mailbox/" +:+ hex (sha256 (str MailboxDHTPrefix ++ targetPubkey)).

(** The announcement manager, whose absence is a nil pointer. *)
Definition the_announcements : N (gmap string MailboxAnnouncement) :=
  n ← self; match announcement n with Some am => mret am | None => panic end.
Definition set_announcements (f : gmap string MailboxAnnouncement -> gmap string MailboxAnnouncement) : N unit :=
  update (fun n => n <| announcement := f <$> announcement n |>).

Definition dht_put (key : string) (data : bytes) : N unit :=
  n ← self;
  match PutValue key data (the_dht n) with
  | Some net => update (fun n => n <| the_dht := net |>)
  | None => throw (ErrExt "dht")
  end.

Definition unsigned_announcement (a : MailboxAnnouncement) : MailboxAnnouncement := a <| an_Signature := [] |>.

Definition signAnnouncement (a : MailboxAnnouncement) : N bytes :=
  n ← self; lift (data ← proto_Marshal (unsigned_announcement a); Sign (Ed25519PrivKey (identity n)) data).

Definition verifyAnnouncementSignature (a : MailboxAnnouncement) : bool :=
  if (length (an_Signature a) =? 0)%nat then false
  else match marshal (unsigned_announcement a) with
       | None => false
       | Some data => if (length (an_TargetPubkey a) =? 32)%nat then Verify (an_TargetPubkey a) data (an_Signature a) else true
       end.

Definition AnnounceMailbox (targetPubkey : bytes) (config : MailboxConfig) : N MailboxAnnouncement :=
  _ ← the_announcements;
  now ← time_now;
  n ← self;
  let announcement := mkAnnouncement (hostID n) targetPubkey (MaxTotalBytesPerTarget config) (MaxMessageSize config)
    (MaxMessagesPerTarget config) (DefaultTtlSeconds config) (to_unix now) ["mailbox-v1"] 100 [] in
  signature ← wrap "failed to sign announcement" (signAnnouncement announcement);
  let announcement := announcement <| an_Signature := signature |> in
  _ ← set_announcements <[hex targetPubkey := announcement]>;
  data ← lift (wrapErr "failed to marshal announcement" (proto_Marshal announcement));
  _ ← wrap "failed to publish announcement to DHT" (dht_put (dhtKeyForTarget targetPubkey) data);
  mret announcement.

Definition FindMailboxes (targetPubkey : bytes) : N (list MailboxAnnouncement) :=
  _ ← the_announcements;
  n ← self;
  match GetValue (dhtKeyForTarget targetPubkey) (the_dht n) with
  | None => throw (ErrWrap "failed to fetch from DHT" (ErrExt "dht"))
  | Some None => mret []
  | Some (Some value) =>
      a ← lift (wrapErr "failed to unmarshal announcement" (proto_Unmarshal value));
      if verifyAnnouncementSignature a then mret [a] else throw (ErrText "invalid announcement signature")
  end.

Definition GetAnnouncement (targetPubkey : bytes) : N (option MailboxAnnouncement) :=
  am ← the_announcements; mret (am !! hex targetPubkey).

Definition RemoveAnnouncement (targetPubkey : bytes) : N unit :=
  _ ← the_announcements; set_announcements (delete (hex targetPubkey)).

(** [continue] on an error. *)
Definition ignore_error (m : N unit) : N unit := fun w =>
  match m w with (w', Err _) => (w', Ok tt) | r => r end.

(** One round of [republishAll]; the announcement is changed in place. *)
Definition republish (targetKey : string) : N unit :=
  am ← the_announcements;
  match am !! targetKey with
  | None => mret tt
  | Some a =>
      now ← time_now;
      let a := a <| an_AnnouncedAt := to_unix now |> in
      _ ← set_announcements <[targetKey := a]>;
      ignore_error (
        signature ← signAnnouncement a;
        let a := a <| an_Signature := signature |> in
        _ ← set_announcements <[targetKey := a]>;
        data ← lift (proto_Marshal a);
        dht_put (dhtKeyForTarget (an_TargetPubkey a)) data)
  end.

Fixpoint republishAll (order : list string) : N unit :=
  match order with
  | [] => mret tt
  | targetKey :: order => _ ← republish targetKey; republishAll order
  end.

(** ** manager.go *)

(** [Start], up to the goroutines it starts. *)
Definition Start : N unit :=
  n ← self;
  if negb (isMailbox n) then mret tt
  else
    _ ← wrap "failed to announce mailbox" (AnnounceMailbox (Ed25519PubKey (identity n)) (mconfig (mailbox n)));
    mret tt.

Definition findMailboxNodes (targetPubkey : bytes) : N (list MailboxAnnouncement) :=
  n ← self;
  match announcement n with None => mret [] | Some _ => FindMailboxes targetPubkey end.

Definition peer_of (a : MailboxAnnouncement) : string := String.string_of_list_byte (an_MailboxPeerId a).

Fixpoint deposit_loop (recipientPubkey : bytes) (envelope : BabylonEnvelope) (mailboxes : list MailboxAnnouncement)
    (lastErr : option error) : N unit :=
  match mailboxes with
  | [] => throw (default (ErrText "failed to deposit to any mailbox") lastErr)
  | m :: rest => fun w =>
      match DepositToMailbox peer_Decode NewStream (peer_of m) recipientPubkey envelope (identity (obj w)) w with
      | (w', Ok resp) => if dp_Accepted resp then (w', Ok tt) else deposit_loop recipientPubkey envelope rest lastErr w'
      | (w', Err e) => deposit_loop recipientPubkey envelope rest (Some e) w'
      | (w', Panic) => (w', Panic)
      end
  end.

Definition DepositMessage (recipientPubkey : bytes) (envelope : BabylonEnvelope) : N unit :=
  mailboxes ← wrap "failed to find mailboxes" (findMailboxNodes recipientPubkey);
  if (length mailboxes =? 0)%nat then throw (ErrText "no mailbox nodes available for recipient")
  else deposit_loop recipientPubkey envelope (take 3 mailboxes) None.

(** Running an operation of the node's mailbox. *)
Definition on_mailbox {A} (m : GoM (Sys (Mailbox K)) A) : N A := fun w =>
  match m (mkSys (env w) (mailbox (obj w))) with
  | (w', r) => (mkSys (env w') (obj w <| mailbox := obj w' |>), r)
  end.

(** What parses of a list of envelopes. *)
Definition parse_envelopes (l : list bytes) : list BabylonEnvelope := omap unmarshal l.

Fixpoint retrieve_loop (mailboxes : list MailboxAnnouncement) (allEnvelopes : list BabylonEnvelope) (allMessageIDs : list bytes)
    : N (list BabylonEnvelope * list bytes) :=
  match mailboxes with
  | [] => mret (allEnvelopes, allMessageIDs)
  | m :: rest => fun w =>
      match RetrieveFromMailbox peer_Decode NewStream (peer_of m) (identity (obj w)) w with
      | (w', Ok resp) =>
          retrieve_loop rest (allEnvelopes ++ parse_envelopes (rp_Envelopes resp)) (allMessageIDs ++ rp_MessageIds resp) w'
      | (w', Err _) => retrieve_loop rest allEnvelopes allMessageIDs w'
      | (w', Panic) => (w', Panic)
      end
  end.

Fixpoint ack_loop (mailboxes : list MailboxAnnouncement) (messageIDs : list bytes) : N unit :=
  match mailboxes with
  | [] => mret tt
  | m :: rest => fun w =>
      match AcknowledgeMessages peer_Decode NewStream (peer_of m) (identity (obj w)) messageIDs w with
      | (w', Panic) => (w', Panic)
      | (w', _) => ack_loop rest messageIDs w'
      end
  end.

Definition retrieveFromRemoteMailboxes : N (list BabylonEnvelope) :=
  n ← self;
  mailboxes ← FindMailboxes (Ed25519PubKey (identity n));
  if (length mailboxes =? 0)%nat then mret []
  else
    '(allEnvelopes, allMessageIDs) ← retrieve_loop mailboxes [] [];
    _ ← (if (0 <? length allMessageIDs)%nat then ack_loop mailboxes allMessageIDs else mret tt);
    mret allEnvelopes.

Definition acknowledgeOnRemoteMailboxes (messageIDs : list bytes) : N unit :=
  n ← self;
  mailboxes ← FindMailboxes (Ed25519PubKey (identity n));
  ack_loop mailboxes messageIDs.

Definition RetrieveMessages : N (list BabylonEnvelope) :=
  n ← self;
  if negb (isMailbox n) then retrieveFromRemoteMailboxes
  else
    messages ← on_mailbox (ListMessages (Ed25519PubKey (identity n)));
    mret (parse_envelopes (s_Envelope <$> messages)).

Definition mgr_AcknowledgeMessages (messageIDs : list bytes) : N unit :=
  n ← self;
  if negb (isMailbox n) then acknowledgeOnRemoteMailboxes messageIDs
  else on_mailbox (mailbox_DeleteMessages (Ed25519PubKey (identity n)) messageIDs).

Definition mgr_GetStats : N MailboxStats :=
  n ← self;
  if negb (isMailbox n) then mret (mkMailboxStats [] 0 0 0 0 0)
  else on_mailbox (mailbox_GetStats (Ed25519PubKey (identity n))).

Definition AnnounceAsMailbox (targetPubkey : bytes) : N unit :=
  n ← self;
  if negb (isMailbox n) || bool_decide (announcement n = None) then throw (ErrText "mailbox not enabled")
  else _ ← AnnounceMailbox targetPubkey (mconfig (mailbox n)); mret tt.

Definition mgr_GetAnnouncement (targetPubkey : bytes) : N (option MailboxAnnouncement) :=
  n ← self;
  match announcement n with None => mret None | Some _ => GetAnnouncement targetPubkey end.
End Node.
