(* ===== verification/MailboxNodeProps.v ===== *)
(** * pkg/mailbox: finding a mailbox

    What the announcement of a mailbox is worth to those who look for it, and
    what managers can do with it. *)
From S2P Require Import Prelude Primitives Crypto Proto Badger Dht Runtime Envelope Mailbox MailboxProps MailboxStreams MailboxNode.
#[local] Open Scope Z_scope.

Section Announcements.
Context {K : KV} {D : Dht} `{!DhtLaws D} `{P : Primitives}.
Context `{!Codec pbStoredMessage} `{!Codec BabylonEnvelope} `{!Codec DepositRequest} `{!Codec DepositResponse}
  `{!Codec RetrievalRequest} `{!Codec RetrievalResponse} `{!Codec AcknowledgmentRequest}
  `{!Codec AcknowledgmentResponse} `{!Codec MailboxAnnouncement} `{!CodecLaws MailboxAnnouncement}.

(** A node with an announcement manager, connected to the DHT [net]. *)
Definition sees (net : dht) (w : Sys (Node K D)) : Prop := the_dht (obj w) = net /\ announcement (obj w) <> None.

(** What an announcement that was published is and where it is found. *)
Lemma AnnounceMailbox_inv t config (w w' : Sys (Node K D)) a :
  AnnounceMailbox t config w = (w', Ok a) ->
  an_TargetPubkey a = t /\ an_MailboxPeerId a = hostID (obj w) /\
  (exists data, marshal (unsigned_announcement a) = Some data /\
     Sign (Ed25519PrivKey (identity (obj w))) data = Ok (an_Signature a)) /\
  exists value, marshal a = Some value /\ GetValue (dhtKeyForTarget t) (the_dht (obj w')) = Some (Some value).
Proof.
  unfold AnnounceMailbox, the_announcements, self, time_now, wrap, signAnnouncement, lift, set_announcements, update, dht_put.
  unfold mbind, GoM_bind. destruct w as [e [h id m [am|] b net]]; [|done]. cbn.
  set (a0 := mkAnnouncement _ _ _ _ _ _ _ _ _ _). unfold proto_Marshal.
  destruct (marshal (unsigned_announcement a0)) as [data|] eqn:Ed; cbn; [|done].
  destruct (Sign (Ed25519PrivKey id) data) as [sig|x|] eqn:Es; cbn; [|done..].
  destruct (marshal (a0 <| an_Signature := sig |>)) as [value|] eqn:Ev; cbn; [|done].
  destruct (PutValue (dhtKeyForTarget t) value net) as [net'|] eqn:Ep; cbn; [|done].
  intros [= <- <-]. split; [done|]. split; [done|]. split; [by exists data|].
  exists value. split; [done|]. by apply (GetValue_PutValue _ _ _ _ Ep).
Qed.

Lemma verify_sealed (keys : KeyPair) a data sig `{!PrimitiveLaws P} :
  marshal (unsigned_announcement a) = Some data -> Sign (Ed25519PrivKey keys) data = Ok sig ->
  an_Signature a = sig -> ed_keypair (Ed25519PubKey keys) (Ed25519PrivKey keys) ->
  an_TargetPubkey a = Ed25519PubKey keys -> verifyAnnouncementSignature a = true.
Proof.
  intros Hd Hs Ea Hk Ht. unfold verifyAnnouncementSignature. rewrite Hd, Ea, Ht.
  destruct (length sig =? 0)%nat eqn:E0.
  { apply Nat.eqb_eq in E0. rewrite Sign_run in Hs by apply (ed_keypair_lengths _ _ Hk).
    injection Hs as <-. by rewrite ed_sign_length in E0. }
  rewrite (proj1 (ed_keypair_lengths _ _ Hk)). cbn [Nat.eqb]. by eapply Verify_Sign.
Qed.

Lemma FindMailboxes_run t a value (w : Sys (Node K D)) :
  announcement (obj w) <> None -> GetValue (dhtKeyForTarget t) (the_dht (obj w)) = Some (Some value) -> marshal a = Some value ->
  FindMailboxes t w = (w, if verifyAnnouncementSignature a then Ok [a] else Err (ErrText "invalid announcement signature")).
Proof.
  intros Ha Hv Hm. unfold FindMailboxes, the_announcements, self, lift, mbind, GoM_bind.
  destruct (announcement (obj w)); [|done]. cbn. rewrite Hv. unfold proto_Unmarshal.
  rewrite (unmarshal_marshal _ _ Hm). cbn. by destruct (verifyAnnouncementSignature a).
Qed.

(** Whoever looks a recipient up after a mailbox was announced for it finds that
    announcement, and takes it if the recipient's own key verifies its signature;
    so a node that announces itself for its own key is found, and one that
    announces itself for another recipient, whose key cannot verify a signature
    it has not made, leaves that recipient without any mailbox. *)
Theorem announcement_found `{!PrimitiveLaws P} t config (w w' finder : Sys (Node K D)) a :
  AnnounceMailbox t config w = (w', Ok a) -> sees (the_dht (obj w')) finder ->
  FindMailboxes t finder =
    (finder, if verifyAnnouncementSignature a then Ok [a] else Err (ErrText "invalid announcement signature")) /\
  (ed_keypair t (Ed25519PrivKey (identity (obj w))) -> verifyAnnouncementSignature a = true) /\
  (forall data, length t = 32%nat -> marshal (unsigned_announcement a) = Some data ->
     Verify t data (an_Signature a) = false -> verifyAnnouncementSignature a = false).
Proof.
  intros Ha [Hd Hn]. destruct (AnnounceMailbox_inv _ _ _ _ _ Ha) as (Et & _ & (data & Ed & Es) & value & Ev & Hget).
  split; [|split].
  - rewrite <- Hd in Hget. by apply FindMailboxes_run with value.
  - intros Hk. by apply (verify_sealed (mkKeys t (Ed25519PrivKey (identity (obj w)))) a data (an_Signature a)).
  - intros data' Hl Ed' Hv. unfold verifyAnnouncementSignature. rewrite Ed', Et, Hl, Hv. by destruct (_ =? 0)%nat.
Qed.

(** A peer that is announced cannot be reached: the announcement carries the bytes of
    the peer id, the client takes them for its text, and when that text stands for
    no peer every deposit for the recipient fails with the error of decoding it. *)
Theorem announced_peer_unreachable peer_Decode NewStream t config (w w' finder : Sys (Node K D)) a envelope :
  AnnounceMailbox t config w = (w', Ok a) -> sees (the_dht (obj w')) finder ->
  verifyAnnouncementSignature a = true ->
  peer_Decode (String.string_of_list_byte (hostID (obj w))) = None ->
  DepositMessage peer_Decode NewStream t envelope finder =
    (finder, Err (ErrWrap "invalid mailbox peer ID" (ErrExt "peer.Decode"))).
Proof.
  intros Ha [Hd Hn] Hv Hp. destruct (AnnounceMailbox_inv _ _ _ _ _ Ha) as (_ & Eh & _ & value & Ev & Hget).
  rewrite <- Hd in Hget. unfold DepositMessage.
  rewrite (bind_Ok _ _ finder finder [a]).
  2: { unfold wrap, findMailboxNodes, self, mbind, GoM_bind. destruct (announcement (obj finder)) eqn:E; [|done].
       by rewrite (FindMailboxes_run t a value), Hv by (rewrite ?E; done). }
  cbn [length Nat.eqb take deposit_loop]. unfold peer_of. rewrite Eh. unfold DepositToMailbox, open_stream, lift, mbind, GoM_bind.
  by rewrite Hp.
Qed.

(** A manager whose mailbox is not enabled finds nobody to deposit with, and panics when
    it is asked for the messages that wait for it or to acknowledge them. *)
Theorem disabled_manager peer_Decode NewStream h id db net config e t envelope ids :
  Enabled config = false ->
  let w := mkSys e (NewManager (K := K) (D := D) h id db net config) in
  DepositMessage peer_Decode NewStream t envelope w = (w, Err (ErrText "no mailbox nodes available for recipient")) /\
  RetrieveMessages peer_Decode NewStream w = (w, Panic) /\ mgr_AcknowledgeMessages peer_Decode NewStream ids w = (w, Panic).
Proof. intros He. unfold NewManager. rewrite He. done. Qed.
End Announcements.

(** ** Two nodes and a DHT *)
Module NodeDemo.
#[export] Instance Announcement_eq : EqDecision MailboxAnnouncement.
Proof. solve_decision. Defined.
#[export] Program Instance Announcement_countable : Countable MailboxAnnouncement :=
  inj_countable' (fun a => (an_CapacityBytes a, an_MaxMessageSize a, an_MaxMessages a, an_TtlSeconds a, an_AnnouncedAt a,
      an_Capabilities a, (an_ReputationScore a, an_MailboxPeerId a, an_TargetPubkey a, an_Signature a)))
    (fun '(c, d, e, f, g, h, (i, a, b, j)) => mkAnnouncement a b c d e f g h i j) _.
Next Obligation. by intros []. Qed.
#[export] Instance Announcement_codec : Codec MailboxAnnouncement := countable_codec.
#[export] Instance Announcement_codec_laws : CodecLaws MailboxAnnouncement := countable_codec_laws.

(** Bob runs a mailbox, Mallory another. *)
Definition mallory : KeyPair := StreamDemo.keys_of (Byte.x02 :: zeros 31).
Definition start (id : KeyPair) (net : gmap string bytes) : Sys (Node gmap_kv gmap_dht) :=
  mkSys (StreamDemo.env2 1000) (NewManager (K := gmap_kv) (D := gmap_dht) [Byte.x12] id (∅ : gmap bytes bytes) net DefaultConfig).
Definition announced_by (id : KeyPair) (t : bytes) : Sys (Node gmap_kv gmap_dht) :=
  (AnnounceMailbox (P := toy) t (proto_config DefaultConfig) (start id ∅)).1.
Definition the_announcement (id : KeyPair) (t : bytes) : MailboxAnnouncement :=
  match (AnnounceMailbox (P := toy) t (proto_config DefaultConfig) (start id ∅)).2 with
  | Ok a => a | _ => mkAnnouncement [] [] 0 0 0 0 0 [] 0 [] end.
(** A client on the DHT that has only the records of [w]. *)
Definition client_of (w : Sys (Node gmap_kv gmap_dht)) : Sys (Node gmap_kv gmap_dht) :=
  start StreamDemo.alice (the_dht (obj w)).
Definition bob : bytes := Ed25519PubKey StreamDemo.bob.
End NodeDemo.
Import MailboxDemo NodeDemo.

Lemma announcement_found_witness :
  (FindMailboxes (P := toy) bob (client_of (announced_by StreamDemo.bob bob))).2 = Ok [the_announcement StreamDemo.bob bob] /\
  (FindMailboxes (P := toy) bob (client_of (announced_by mallory bob))).2 = Err (ErrText "invalid announcement signature").
Proof.
  split.
  - destruct (announcement_found (P := toy) bob (proto_config DefaultConfig)
      (start StreamDemo.bob ∅) (announced_by StreamDemo.bob bob) (client_of (announced_by StreamDemo.bob bob))
      (the_announcement StreamDemo.bob bob)) as (E & Hown & _); [apply run_pair; vm_compute; reflexivity|by split|].
    rewrite E, Hown; [reflexivity|]. by apply toy_keypair.
  - destruct (announcement_found (P := toy) bob (proto_config DefaultConfig)
      (start mallory ∅) (announced_by mallory bob) (client_of (announced_by mallory bob))
      (the_announcement mallory bob)) as (E & _ & Hother); [apply run_pair; vm_compute; reflexivity|by split|].
    rewrite E, (Hother (encode_bytes (unsigned_announcement (the_announcement mallory bob)))); [reflexivity..|].
    vm_compute. reflexivity.
Defined.

Lemma announced_peer_unreachable_witness :
  DepositMessage (P := toy) (fun _ => None) (fun _ => None) bob StreamDemo.envelope (client_of (announced_by StreamDemo.bob bob)) =
    (client_of (announced_by StreamDemo.bob bob), Err (ErrWrap "invalid mailbox peer ID" (ErrExt "peer.Decode"))).
Proof.
  apply (announced_peer_unreachable (P := toy) (fun _ => None) (fun _ => None) bob (proto_config DefaultConfig)
    (start StreamDemo.bob ∅) (announced_by StreamDemo.bob bob) _ (the_announcement StreamDemo.bob bob)).
  - apply run_pair. vm_compute. reflexivity.
  - by split.
  - vm_compute. reflexivity.
  - reflexivity.
Defined.
