(* ===== verification/MultiDevice.v ===== *)
(** * pkg/multidevice: devices, revocation and synchronisation

    [device.go], [revocation.go] and [sync.go]: the keys of an identity's device
    and their certificates, revocation certificates and what is active in an
    identity document, and the manager that exchanges events between the devices
    of an identity.  Publishing is left to the callers by the code itself.
    The channel of events is the list of those not received yet. *)
From S2P Require Import Prelude Primitives Crypto Proto Runtime.

(** ** device.go *)

(** [pb.DeviceCertificate] *)
Record DeviceCertificate := mkDeviceCertificate {
  dc_DeviceId : bytes; dc_DeviceSignPub : bytes; dc_DeviceDhPub : bytes; dc_DeviceName : string; dc_CreatedAt : Z;
  dc_ExpiresAt : Z; dc_IdentityPub : bytes; dc_Signature : bytes;
}.

#[export] Instance eta_DeviceCertificate : Eta DeviceCertificate := fun c =>
  mkDeviceCertificate (dc_DeviceId c) (dc_DeviceSignPub c) (dc_DeviceDhPub c) (dc_DeviceName c) (dc_CreatedAt c)
    (dc_ExpiresAt c) (dc_IdentityPub c) (dc_Signature c).

Record DeviceManager := mkDeviceManager {
  identitySignPub : bytes; identitySignPriv : bytes; identityDHPub : bytes; identityDHPriv : bytes;
  deviceSignPub : bytes; deviceSignPriv : bytes; deviceDHPub : bytes; deviceDHPriv : bytes;
  deviceID : bytes; deviceName : string; deviceGroupKey : bytes;
}.

Definition NewDeviceManager (signPub signPriv dhPub dhPriv : bytes) (name : string) (groupKey : bytes) : DeviceManager :=
  mkDeviceManager signPub signPriv dhPub dhPriv [] [] [] [] [] name groupKey.

Definition set_device_keys (signPub signPriv dhPub dhPriv id : bytes) (dm : DeviceManager) : DeviceManager :=
  mkDeviceManager (identitySignPub dm) (identitySignPriv dm) (identityDHPub dm) (identityDHPriv dm)
    signPub signPriv dhPub dhPriv id (deviceName dm) (deviceGroupKey dm).

(** The bytes of a certificate that are signed. *)
Definition certificate_data (c : DeviceCertificate) : bytes :=
  dc_DeviceId c ++ dc_DeviceSignPub c ++ dc_DeviceDhPub c ++ str (dc_DeviceName c) ++ be_encode 8 (dc_CreatedAt c) ++
  be_encode 8 (dc_ExpiresAt c) ++ dc_IdentityPub c.

Section Device.
Context `{P : Primitives}.

Definition ComputeDeviceID (deviceSignPub : bytes) : bytes := take 16 (sha256 deviceSignPub).
Definition DeviceIDToHex (deviceID : bytes) : string := hex deviceID.
Definition DeviceIDFromHex (hexStr : string) : option bytes := unhex hexStr.

Definition signDeviceCertificate (dm : DeviceManager) (c : DeviceCertificate) : outcome bytes :=
  ed25519_Sign (identitySignPriv dm) (certificate_data c).

Definition VerifyDeviceCertificate (c : DeviceCertificate) : outcome unit :=
  valid ← ed25519_Verify (dc_IdentityPub c) (certificate_data c) (dc_Signature c);
  if valid : bool then Ok tt else Err (ErrText "invalid device certificate signature").

Definition RegisterNewDevice : GoM (Sys DeviceManager) DeviceCertificate :=
  dm ← self;
  seed ← rand_opt 32;
  '(signPub, signPriv) ← lift (wrapErr "failed to generate device signing key" (ed25519_GenerateKey seed));
  dhPriv ← rand_opt 32;
  dhPriv ← lift (wrapErr "failed to generate device DH private key" (ext "rand.Reader" dhPriv));
  dhPub ← lift (wrapErr "failed to compute device DH public key" (ext "curve25519.X25519" (x25519 dhPriv Basepoint)));
  let id := take 16 (sha256 signPub) in
  now ← time_now;
  let cert := mkDeviceCertificate id signPub dhPub (deviceName dm) (u64 now) 0 (identitySignPub dm) [] in
  signature ← lift (wrapErr "failed to sign device certificate" (signDeviceCertificate dm cert));
  _ ← update (set_device_keys signPub signPriv dhPub dhPriv id);
  mret (cert <| dc_Signature := signature |>).
End Device.

(** ** revocation.go *)

(** [pb.RevocationCertificate] *)
Record RevocationCertificate := mkRevocation {
  rv_RevokedKey : bytes; rv_RevocationType : string; rv_Reason : string; rv_RevokedAt : Z; rv_Signature : bytes;
}.

(** The fields of [pb.IdentityDocument] that are used here. *)
Record DeviceList := mkDeviceList { Devices : list DeviceCertificate; Revocations : list RevocationCertificate }.

Definition revocation_data (c : RevocationCertificate) : bytes :=
  rv_RevokedKey c ++ str (rv_RevocationType c) ++ str (rv_Reason c) ++ be_encode 8 (rv_RevokedAt c).

Section Revocation.
Context `{P : Primitives} `{!Codec RevocationCertificate}.

Definition signRevocation (dm : DeviceManager) (c : RevocationCertificate) : outcome bytes :=
  ed25519_Sign (identitySignPriv dm) (revocation_data c).

Definition RevokeDevice (id : bytes) (reason : string) : GoM (Sys DeviceManager) RevocationCertificate :=
  dm ← self;
  now ← time_now;
  let cert := mkRevocation id "device" reason (u64 now) [] in
  signature ← lift (wrapErr "failed to sign revocation" (signRevocation dm cert));
  mret (mkRevocation id "device" reason (u64 now) signature).

Definition VerifyRevocation (c : RevocationCertificate) (identityPub : bytes) : outcome unit :=
  valid ← ed25519_Verify identityPub (revocation_data c) (rv_Signature c);
  if valid : bool then Ok tt else Err (ErrText "invalid revocation signature").

Definition getRevocationTopic (identityPub : bytes) : string := "babylon-rev-" +:+ hex (take 8 (sha256 identityPub)).

(** The topic and the bytes are computed and dropped. *)
Definition PublishRevocation (c : RevocationCertificate) : outcome unit :=
  _ ← wrapErr "failed to marshal certificate" (proto_Marshal c); Ok tt.

Definition HandleRevocation (dm : DeviceManager) (c : RevocationCertificate) : outcome unit :=
  _ ← wrapErr "invalid revocation" (VerifyRevocation c (identitySignPub dm));
  if bool_decide (rv_RevokedKey c = deviceID dm) then Ok tt else Ok tt.
End Revocation.

Definition has_revocation (doc : DeviceList) (id : bytes) : bool :=
  existsb (fun r => bool_decide (rv_RevokedKey r = id)) (Revocations doc).

Definition IsDeviceRevoked (doc : DeviceList) (id : bytes) : bool :=
  if has_revocation doc id then true
  else negb (existsb (fun d => bool_decide (dc_DeviceId d = id)) (Devices doc)).

Definition GetActiveDevices (doc : DeviceList) : list DeviceCertificate :=
  filter (fun d => has_revocation doc (dc_DeviceId d) = false) (Devices doc).

(** ** sync.go *)

Definition SyncTypeContactAdded : Z := 1.
Definition SyncTypeContactRemoved : Z := 2.
Definition SyncTypeContactUpdated : Z := 3.
Definition SyncTypeMessageRead : Z := 4.
Definition SyncTypeGroupJoined : Z := 5.
Definition SyncTypeGroupLeft : Z := 6.
Definition SyncTypeSettingsChanged : Z := 7.
Definition SyncTypeHistoryRequest : Z := 8.
Definition SyncTypeHistoryBatch : Z := 9.

Record ContactSync := mkContactSync {
  cy_ContactPubkey : bytes; cy_DisplayName : string; cy_X25519Pubkey : bytes; cy_PeerId : string; cy_Multiaddrs : list string;
  cy_CreatedAt : Z; cy_IsRemoved : bool;
}.
Record ReadReceiptSync := mkReadReceiptSync { ry_ContactPubkey : bytes; ry_MessageIds : list bytes; ry_ReadAt : Z }.
Record GroupSync := mkGroupSync { gy_GroupId : bytes; gy_Name : string; gy_Epoch : Z; gy_Joined : bool; gy_Timestamp : Z }.
Record SettingsSync := mkSettingsSync { sy_Key : string; sy_Value : bytes; sy_UpdatedAt : Z }.
Record HistoryRequest := mkHistoryRequest { hr_ContactPubkey : bytes; hr_StartTime : Z; hr_EndTime : Z; hr_MaxMessages : Z }.
Record HistoryMessage := mkHistoryMessage {
  hm_MessageId : bytes; hm_Text : string; hm_Timestamp : Z; hm_IsSent : bool; hm_RecipientPubkey : bytes; hm_SenderPubkey : bytes;
}.
Record HistoryBatch := mkHistoryBatch {
  hb_ContactPubkey : bytes; hb_Messages : list HistoryMessage; hb_BatchNumber : Z; hb_IsLastBatch : bool;
}.

(** The messages a payload can be. *)
Inductive SyncPayload :=
  | PContact (p : ContactSync)
  | PReadReceipt (p : ReadReceiptSync)
  | PGroup (p : GroupSync)
  | PSettings (p : SettingsSync)
  | PHistoryRequest (p : HistoryRequest)
  | PHistoryBatch (p : HistoryBatch).

Abbreviation VectorClock := (gmap string Z).

(** [pb.DeviceSyncMessage] *)
Record DeviceSyncMessage := mkSyncMessage {
  ds_SourceDeviceId : Z; ds_Type : Z; ds_EncryptedPayload : bytes; ds_Nonce : bytes; ds_Timestamp : Z;
  ds_VectorClock : option VectorClock;
}.
Record SyncEvent := mkSyncEvent {
  ev_Type : Z; ev_SourceDeviceID : Z; ev_Timestamp : Z; ev_Payload : SyncPayload; ev_VectorClock : option VectorClock;
}.
Record HistoryRequestState := mkHistoryState {
  hq_RequestID : string; hq_ContactPubKey : bytes; hq_StartTime : Z; hq_EndTime : Z; hq_MaxMessages : Z;
  hq_Received : list HistoryMessage; hq_Complete : bool;
}.

Record SyncManager := mkSyncManager {
  deviceManager : DeviceManager; vectorClock : VectorClock; eventChan : list SyncEvent;
  historyRequests : gmap string HistoryRequestState;
}.
#[export] Instance eta_SyncManager : Eta SyncManager := fun s =>
  mkSyncManager (deviceManager s) (vectorClock s) (eventChan s) (historyRequests s).
#[export] Instance eta_HistoryState : Eta HistoryRequestState := fun h =>
  mkHistoryState (hq_RequestID h) (hq_ContactPubKey h) (hq_StartTime h) (hq_EndTime h) (hq_MaxMessages h) (hq_Received h)
    (hq_Complete h).

(** The capacity of the channel of events. *)
Definition eventCapacity : nat := 100.

Definition NewSyncManager (dm : DeviceManager) : SyncManager := mkSyncManager dm ∅ [] ∅.

(** One entry of a remote clock; a missing counter is 0. *)
Definition merge_entry (id : string) (remoteCounter : Z) (clock : VectorClock) : VectorClock :=
  if default 0 (clock !! id) <? remoteCounter then <[id := remoteCounter]> clock else clock.

Definition mergeVectorClock (remote : option VectorClock) (clock : VectorClock) : VectorClock :=
  match remote with None => clock | Some remote => map_fold merge_entry clock remote end.

Definition updateVectorClock (s : SyncManager) : SyncManager :=
  let id := hex (deviceID (deviceManager s)) in
  s <| vectorClock := <[id := u64 (default 0 (vectorClock s !! id) + 1)]> (vectorClock s) |>.

Definition getVectorClock (s : SyncManager) : VectorClock := vectorClock s.

(** The first four bytes of a device id, if there are as many. *)
Definition device_prefix (id : bytes) : option Z := if (4 <=? length id)%nat then Some (be_decode (take 4 id)) else None.

Section Sync.
Context `{P : Primitives}.
Context `{!Codec ContactSync} `{!Codec ReadReceiptSync} `{!Codec GroupSync} `{!Codec SettingsSync}
  `{!Codec HistoryRequest} `{!Codec HistoryBatch} `{!Codec DeviceSyncMessage}.

Abbreviation M := (GoM (Sys SyncManager)).

Definition GetSyncTopic (identityPub : bytes) : string := "babylon-sync-" +:+ hex (take 8 (sha256 identityPub)).

Definition marshal_payload (p : SyncPayload) : option bytes :=
  match p with
  | PContact p => marshal p
  | PReadReceipt p => marshal p
  | PGroup p => marshal p
  | PSettings p => marshal p
  | PHistoryRequest p => marshal p
  | PHistoryBatch p => marshal p
  end.

(** The kind of payload is determined by the type of the message. *)
Definition unmarshal_payload (syncType : Z) (data : bytes) : outcome SyncPayload :=
  let parse {A} `{Codec A} (f : A -> SyncPayload) :=
    wrapErr "failed to unmarshal payload" (p ← proto_Unmarshal data; Ok (f p)) in
  if (syncType =? 1) || (syncType =? 2) || (syncType =? 3) then parse PContact
  else if syncType =? 4 then parse PReadReceipt
  else if (syncType =? 5) || (syncType =? 6) then parse PGroup
  else if syncType =? 7 then parse PSettings
  else if syncType =? 8 then parse PHistoryRequest
  else if syncType =? 9 then parse PHistoryBatch
  else Err (ErrText "unknown sync type: %v").

(** The encoded message; publishing it is left to the caller, to whom it is not
    given.  The clock goes forward before the message is complete. *)
Definition BroadcastSync (syncType : Z) (payload : SyncPayload) : M unit :=
  payloadBytes ← lift (wrapErr "failed to marshal payload" (ext "proto.Marshal" (marshal_payload payload)));
  nonce ← rand_opt 24;
  nonce ← lift (wrapErr "failed to generate nonce" (ext "rand.Reader" nonce));
  s ← self;
  ciphertext ← lift (wrapErr "failed to encrypt payload" (Encrypt (deviceGroupKey (deviceManager s)) nonce payloadBytes));
  _ ← update updateVectorClock;
  now ← time_now;
  s ← self;
  let syncMsg := mkSyncMessage (default 0 (device_prefix (deviceID (deviceManager s)))) syncType ciphertext nonce (u64 now)
                   (Some (getVectorClock s)) in
  _ ← lift (wrapErr "failed to marshal sync message" (proto_Marshal syncMsg));
  mret tt.

(** The arguments of [crypto.Decrypt] are a key, a nonce and a ciphertext. *)
Definition HandleSyncMessage (data : bytes) : M unit :=
  syncMsg ← lift (wrapErr "failed to unmarshal sync message" (proto_Unmarshal data));
  s ← self;
  if bool_decide (device_prefix (deviceID (deviceManager s)) = Some (ds_SourceDeviceId syncMsg)) then mret tt
  else
    plaintext ← lift (wrapErr "failed to decrypt payload"
      (Decrypt (ds_EncryptedPayload syncMsg) (deviceGroupKey (deviceManager s)) (ds_Nonce syncMsg)));
    payload ← lift (unmarshal_payload (ds_Type syncMsg) plaintext);
    let event := mkSyncEvent (ds_Type syncMsg) (ds_SourceDeviceId syncMsg) (ds_Timestamp syncMsg) payload (ds_VectorClock syncMsg) in
    update (fun s =>
      let s := s <| vectorClock := mergeVectorClock (ds_VectorClock syncMsg) (vectorClock s) |> in
      if (length (eventChan s) <? eventCapacity)%nat then s <| eventChan := eventChan s ++ [event] |> else s).

(** The request id is the hexadecimal text of sixteen zeros. *)
Definition RequestHistory (contactPubKey : bytes) (startTime endTime maxMessages : Z) : M string :=
  let requestID := hex (zeros 16) in
  _ ← update (fun s => s <| historyRequests :=
        <[requestID := mkHistoryState requestID contactPubKey startTime endTime maxMessages [] false]> (historyRequests s) |>);
  _ ← BroadcastSync SyncTypeHistoryRequest (PHistoryRequest (mkHistoryRequest contactPubKey startTime endTime maxMessages));
  mret requestID.

Definition SendHistoryBatch (contactPubKey : bytes) (messages : list HistoryMessage) (batchNumber : Z) (isLastBatch : bool)
    : M unit :=
  BroadcastSync SyncTypeHistoryBatch (PHistoryBatch (mkHistoryBatch contactPubKey messages batchNumber isLastBatch)).

Definition HandleHistoryRequest (request : HistoryRequest) (sourceDeviceID : bytes) : M unit := mret tt.

Definition receive_batch (batch : HistoryBatch) (req : HistoryRequestState) : HistoryRequestState :=
  let req := req <| hq_Received := hq_Received req ++ hb_Messages batch |> in
  if hb_IsLastBatch batch then req <| hq_Complete := true |> else req.

(** [order] is the order in which the map is walked through. *)
Fixpoint history_loop (batch : HistoryBatch) (order : list string) (reqs : gmap string HistoryRequestState)
    : gmap string HistoryRequestState :=
  match order with
  | [] => reqs
  | id :: order =>
      match reqs !! id with
      | Some req => if bool_decide (hq_ContactPubKey req = hb_ContactPubkey batch) then <[id := receive_batch batch req]> reqs
                    else history_loop batch order reqs
      | None => history_loop batch order reqs
      end
  end.
Definition HandleHistoryBatch (batch : HistoryBatch) (order : list string) : M unit :=
  update (fun s => s <| historyRequests := history_loop batch order (historyRequests s) |>).

Definition CreateContactSync (contactPubKey x25519PubKey : bytes) (displayName peerID : string) (multiaddrs : list string)
    (isRemoved : bool) : M ContactSync :=
  now ← time_now; mret (mkContactSync contactPubKey displayName x25519PubKey peerID multiaddrs (u64 now) isRemoved).
Definition CreateReadReceiptSync (contactPubKey : bytes) (messageIDs : list bytes) : M ReadReceiptSync :=
  now ← time_now; mret (mkReadReceiptSync contactPubKey messageIDs (u64 now)).
Definition CreateGroupSync (groupID : bytes) (name : string) (epoch : Z) (joined : bool) : M GroupSync :=
  now ← time_now; mret (mkGroupSync groupID name epoch joined (u64 now)).
Definition CreateSettingsSync (key : string) (value : bytes) : M SettingsSync :=
  now ← time_now; mret (mkSettingsSync key value (u64 now)).
End Sync.
