(* ===== verification/Fanout.v ===== *)
(** * pkg/multidevice/fanout.go: sending to all devices of an identity

    The manager's sessions and cached keys, the two ways of sending and the
    clean-up of sessions.  A session is a shared object of the two maps of the
    sources; it is changed where it is stored.  What is published is kept in the
    order of publication; [ipfs_Publish] says whether publishing succeeds, and
    [json_Marshal] is the text a session is stored as. *)
From S2P Require Import Prelude Primitives Crypto Proto Badger Storage Runtime Topic Envelope MultiDevice.

Record DeviceSession := mkSession {
  ss_DeviceID : bytes; ss_DeviceSignPub : bytes; ss_DeviceDHPub : bytes; SessionKey : bytes; ChainKey : bytes; DHRatchet : bytes;
  ss_CreatedAt : Z; ss_LastUsedAt : Z; MessageCounter : Z;
}.

Record FanoutManager `{K : KV} := mkFanout {
  fm_device : DeviceManager; fm_storage : option kv; fm_sessions : gmap string (gmap string DeviceSession);
  symmetricKeys : gmap string bytes; fm_published : list (string * bytes);
}.
Arguments FanoutManager K : clear implicits.
Arguments mkFanout {K} fm_device fm_storage fm_sessions symmetricKeys fm_published.

#[export] Instance eta_Fanout `{K : KV} : Eta (FanoutManager K) := fun f =>
  mkFanout (fm_device f) (fm_storage f) (fm_sessions f) (symmetricKeys f) (fm_published f).

Record DeviceSendResult := mkDeviceResult { dsr_DeviceID : bytes; dsr_Success : bool }.
Record SendResult := mkSendResult {
  SuccessCount : Z; TotalDevices : Z; DeviceResults : list DeviceSendResult; OptimizationUsed : string;
}.
Record EncryptedKey := mkEncryptedKey { ek_DeviceID : bytes; ek_EncryptedKey : bytes; ek_EncryptedNonce : bytes; ek_EphemeralPub : bytes }.

(** [pb.TextMessage], and [pb.DMPayload] with a ratchet header and a text. *)
Record TextMessage := mkText { tm_Text : string }.
Record DMPayload := mkDMPayload { DhRatchetPub : bytes; PreviousChainLength : Z; MessageNumber : Z; dm_Text : TextMessage }.

(** [pb.EncryptedDeviceKey] and [pb.MultiDeviceEnvelope] *)
Record EncryptedDeviceKey := mkDeviceKey { edk_DeviceId : bytes; edk_EncryptedKey : bytes; edk_EncryptedNonce : bytes }.
Record MultiDeviceEnvelope := mkMultiEnvelope {
  me_ProtocolVersion : Z; me_MessageType : Z; me_SenderIdentity : bytes; me_RecipientIdentity : bytes; me_Timestamp : Z;
  me_MessageId : bytes; me_Payload : bytes; me_SenderDeviceId : bytes; me_Nonce : bytes; me_CipherSuiteId : Z;
  me_EncryptedKeys : list EncryptedDeviceKey; me_Signature : bytes;
}.
#[export] Instance eta_MultiEnvelope : Eta MultiDeviceEnvelope := fun e =>
  mkMultiEnvelope (me_ProtocolVersion e) (me_MessageType e) (me_SenderIdentity e) (me_RecipientIdentity e) (me_Timestamp e)
    (me_MessageId e) (me_Payload e) (me_SenderDeviceId e) (me_Nonce e) (me_CipherSuiteId e) (me_EncryptedKeys e) (me_Signature e).

(** [pb.MessageType_DM_TEXT] *)
Definition DM_TEXT : Z := 1.

Section Fanout.
Context `{K : KV} `{P : Primitives}.
Context `{!Codec TextMessage} `{!Codec DMPayload} `{!Codec BabylonEnvelope} `{!Codec MultiDeviceEnvelope}.
Variable ipfs_Publish : string -> bytes -> bool.
Variable json_Marshal : DeviceSession -> option bytes.
(** [time.Now().String()] *)
Variable time_string : Z -> bytes.

Abbreviation F := (GoM (Sys (FanoutManager K))).

Definition NewFanoutManager (dm : DeviceManager) (storage : option kv) : FanoutManager K := mkFanout dm storage ∅ ∅ [].

Definition publish_on (topic : string) (data : bytes) : F unit :=
  if ipfs_Publish topic data then update (fun f => f <| fm_published := fm_published f ++ [(topic, data)] |>)
  else throw (ErrExt "ipfs").

(** [crypto.SecureRandom.Read] into a new slice, or an error with its context. *)
Definition random_bytes (n : nat) (ctx : string) : F bytes :=
  b ← rand_opt n; lift (wrapErr ctx (ext "rand.Reader" b)).

Definition generateMessageID : F bytes :=
  id ← rand_opt 16;
  match id with
  | Some id => mret id
  | None => now ← time_now; mret (take 16 (sha256 (time_string now)))
  end.

(** The signed bytes of the two kinds of envelopes. *)
Definition babylon_data (e : BabylonEnvelope) : bytes :=
  [byteZ (ProtocolVersion e)] ++ [byteZ (MessageType e)] ++ SenderIdentity e ++ RecipientIdentity e ++ be_encode 8 (Timestamp e) ++
  MessageId e ++ Payload e ++ SenderDeviceId e ++ be_encode 4 (CipherSuiteId e).
Definition multi_data (e : MultiDeviceEnvelope) : bytes :=
  [byteZ (me_ProtocolVersion e)] ++ [byteZ (me_MessageType e)] ++ me_SenderIdentity e ++ me_RecipientIdentity e ++
  be_encode 8 (me_Timestamp e) ++ me_MessageId e ++ me_Payload e ++ me_SenderDeviceId e.

Definition signBabylonEnvelope (e : BabylonEnvelope) : F bytes :=
  f ← self; lift (ed25519_Sign (deviceSignPriv (fm_device f)) (babylon_data e)).
Definition signEnvelope (e : MultiDeviceEnvelope) : F bytes :=
  f ← self; lift (ed25519_Sign (deviceSignPriv (fm_device f)) (multi_data e)).

Definition find_session (f : FanoutManager K) (identityHex deviceHex : string) : option DeviceSession :=
  sessions ← fm_sessions f !! identityHex; sessions !! deviceHex.
Definition put_session (identityHex deviceHex : string) (session : DeviceSession) (f : FanoutManager K) : FanoutManager K :=
  f <| fm_sessions := <[identityHex := <[deviceHex := session]> (default ∅ (fm_sessions f !! identityHex))]> (fm_sessions f) |>.

Definition getOrCreateSession (recipientIdentityPub : bytes) (device : DeviceCertificate) : F DeviceSession :=
  let identityHex := hex recipientIdentityPub in
  let deviceHex := hex (dc_DeviceId device) in
  f ← self;
  match find_session f identityHex deviceHex with
  | Some session => mret session
  | None =>
      created ← time_now;
      used ← time_now;
      let session := mkSession (dc_DeviceId device) (dc_DeviceSignPub device) (dc_DeviceDhPub device) (zeros 32) (zeros 32)
                       (zeros 32) created used 0 in
      _ ← update (put_session identityHex deviceHex session);
      mret session
  end.

Definition deriveMessageKey (session : DeviceSession) : bytes := take 32 (sha256 (SessionKey session ++ ChainKey session)).

(** Failures are logged and nothing else. *)
Definition persistSession (identityHex deviceHex : string) (session : DeviceSession) : F unit :=
  f ← self;
  match fm_storage f, json_Marshal session with
  | Some d, Some data =>
      update (fun f => f <| fm_storage := Some (SetConfig ("session:" +:+ identityHex +:+ ":" +:+ deviceHex) data d).1 |>)
  | _, _ => mret tt
  end.

(** [crypto.Encrypt] takes a key, a nonce and a plaintext, in this order. *)
Definition sendToDevice (text : string) (recipientIdentityPub : bytes) (device : DeviceCertificate) : F DeviceSendResult :=
  let deviceHex := hex (dc_DeviceId device) in
  let identityHex := hex recipientIdentityPub in
  session ← wrap "failed to get session" (getOrCreateSession recipientIdentityPub device);
  let messageKey := deriveMessageKey session in
  let payload := mkDMPayload (DHRatchet session) 0 (MessageCounter session) (mkText text) in
  payloadBytes ← lift (wrapErr "failed to marshal payload" (proto_Marshal payload));
  nonce ← random_bytes 24 "failed to generate nonce";
  ciphertext ← lift (wrapErr "failed to encrypt payload" (Encrypt payloadBytes messageKey nonce));
  f ← self;
  now ← time_now;
  id ← generateMessageID;
  let envelope := mkEnvelope 1 DM_TEXT (identitySignPub (fm_device f)) recipientIdentityPub (u64 now) id [] [] ciphertext
                    (deviceID (fm_device f)) [] 1 [] in
  signature ← wrap "failed to sign envelope" (signBabylonEnvelope envelope);
  envelopeBytes ← lift (wrapErr "failed to marshal envelope" (proto_Marshal (envelope <| Signature := signature |>)));
  _ ← wrap "failed to publish" (publish_on (TopicFromPublicKey recipientIdentityPub) envelopeBytes);
  used ← time_now;
  let session := mkSession (ss_DeviceID session) (ss_DeviceSignPub session) (ss_DeviceDHPub session) (SessionKey session)
                   (ChainKey session) (DHRatchet session) (ss_CreatedAt session) used (u32 (MessageCounter session + 1)) in
  _ ← update (put_session identityHex deviceHex session);
  _ ← persistSession identityHex deviceHex session;
  mret (mkDeviceResult (dc_DeviceId device) true).

(** The devices a message was sent to, and the first error. *)
Fixpoint fanout_loop (text : string) (recipientIdentityPub : bytes) (devices : list DeviceCertificate)
    (results : list DeviceSendResult) (firstError : option error) : F (list DeviceSendResult * option error) :=
  match devices with
  | [] => mret (results, firstError)
  | device :: rest => fun w =>
      match sendToDevice text recipientIdentityPub device w with
      | (w', Ok result) => fanout_loop text recipientIdentityPub rest (results ++ [result]) firstError w'
      | (w', Err e) => fanout_loop text recipientIdentityPub rest results
                         (match firstError with None => Some e | Some _ => firstError end) w'
      | (w', Panic) => (w', Panic)
      end
  end.

Definition sendWithFanout (text : string) (recipientIdentityPub : bytes) (devices : list DeviceCertificate) : F SendResult :=
  '(results, firstError) ← fanout_loop text recipientIdentityPub devices [] None;
  if (length results =? 0)%nat
  then throw (match firstError with
              | Some e => ErrWrap "failed to send to all devices" e
              | None => ErrText "failed to send to all devices: %!w(<nil>)"
              end)
  else mret (mkSendResult (Z.of_nat (length results)) (Z.of_nat (length devices)) results "fanout").

Definition getOrCreateSymmetricKey (recipientIdentityPub : bytes) : F bytes :=
  let identityHex := hex recipientIdentityPub in
  f ← self;
  match symmetricKeys f !! identityHex with
  | Some key => mret key
  | None =>
      key ← random_bytes 32 "failed to generate symmetric key";
      _ ← update (fun f => f <| symmetricKeys := <[identityHex := key]> (symmetricKeys f) |>);
      mret key
  end.

Definition encryptKeyForDevice (symKey : bytes) (device : DeviceCertificate) : F EncryptedKey :=
  rnd ← rand_opt 32;
  '(ephemeralPub, ephemeralPriv) ← lift (GenerateX25519KeyPair rnd);
  sharedSecret ← lift (ComputeSharedSecret ephemeralPriv (dc_DeviceDhPub device));
  let encryptionKey := sha256 sharedSecret in
  nonce ← rand_opt 24;
  nonce ← lift (ext "rand.Reader" nonce);
  encryptedKey ← lift (Encrypt symKey encryptionKey nonce);
  mret (mkEncryptedKey (dc_DeviceId device) encryptedKey nonce ephemeralPub).

(** Devices whose key cannot be encrypted are left out. *)
Fixpoint keys_loop (symKey : bytes) (devices : list DeviceCertificate) (keys : list EncryptedKey) : F (list EncryptedKey) :=
  match devices with
  | [] => mret keys
  | device :: rest => fun w =>
      match encryptKeyForDevice symKey device w with
      | (w', Ok key) => keys_loop symKey rest (keys ++ [key]) w'
      | (w', Err _) => keys_loop symKey rest keys w'
      | (w', Panic) => (w', Panic)
      end
  end.

Definition sendWithSymmetricKey (text : string) (recipientIdentityPub : bytes) (devices : list DeviceCertificate) : F SendResult :=
  symKey ← wrap "failed to get symmetric key" (getOrCreateSymmetricKey recipientIdentityPub);
  plaintext ← lift (wrapErr "failed to marshal message" (proto_Marshal (mkText text)));
  nonce ← random_bytes 24 "failed to generate nonce";
  ciphertext ← lift (wrapErr "failed to encrypt message" (Encrypt plaintext symKey nonce));
  keyResults ← keys_loop symKey devices [];
  f ← self;
  now ← time_now;
  id ← generateMessageID;
  let envelope := mkMultiEnvelope 1 DM_TEXT (identitySignPub (fm_device f)) recipientIdentityPub (u64 now) id ciphertext
                    (deviceID (fm_device f)) nonce 1
                    ((fun ek => mkDeviceKey (ek_DeviceID ek) (ek_EncryptedKey ek) (ek_EncryptedNonce ek)) <$> keyResults) [] in
  signature ← wrap "failed to sign envelope" (signEnvelope envelope);
  envelopeBytes ← lift (wrapErr "failed to marshal envelope" (proto_Marshal (envelope <| me_Signature := signature |>)));
  _ ← wrap "failed to publish" (publish_on (TopicFromPublicKey recipientIdentityPub) envelopeBytes);
  mret (mkSendResult (Z.of_nat (length keyResults)) (Z.of_nat (length devices)) [mkDeviceResult recipientIdentityPub true] "symmetric_key").

Definition SendMessageToIdentity (text : string) (recipientIdentityPub : bytes) (devices : list DeviceCertificate) : F SendResult :=
  if (length devices =? 0)%nat then throw (ErrText "no recipient devices")
  else if (5 <=? length devices)%nat then sendWithSymmetricKey text recipientIdentityPub devices
  else sendWithFanout text recipientIdentityPub devices.

(** [CleanupRevokedDevices] of revocation.go. *)
Definition CleanupRevokedDevices (identityPub : bytes) (doc : DeviceList) : F unit :=
  let active := hex ∘ dc_DeviceId <$> GetActiveDevices doc in
  update (fun f => f <| fm_sessions :=
    alter (filter (fun '(_, session) => hex (ss_DeviceID session) ∈ active)) (hex identityPub) (fm_sessions f) |>).
End Fanout.
