(* ===== verification/MultiDeviceProps.v ===== *)
(** * pkg/multidevice: what the devices of an identity get from it

    Merging vector clocks is a join; but no message from another device is ever
    taken in, so that clocks are never merged; nothing is ever sent to the devices of
    another identity; which sessions a clean-up leaves; certificates. *)
From S2P Require Import Prelude Primitives Crypto Proto Badger Storage Runtime Topic Envelope MultiDevice Fanout.
#[local] Open Scope Z_scope.

(** ** Vector clocks *)

Definition counter (c : VectorClock) (id : string) : Z := default 0 (c !! id).
Definition is_clock (c : VectorClock) : Prop := forall id, 0 <= counter c id.

Lemma counter_merge_entry id x c id' :
  counter (merge_entry id x c) id' = if decide (id' = id) then Z.max (counter c id) x else counter c id'.
Proof.
  unfold merge_entry, counter. destruct (Z.ltb_spec (default 0 (c !! id)) x); destruct (decide (id' = id)) as [->|Hne].
  - rewrite lookup_insert_eq. cbn. lia.
  - by rewrite lookup_insert_ne.
  - lia.
  - done.
Qed.

(** Merging is the pointwise maximum. *)
Lemma counter_merge c r id :
  is_clock c -> counter (mergeVectorClock (Some r) c) id = Z.max (counter c id) (counter r id).
Proof.
  intros Hc. cbn [mergeVectorClock].
  apply (map_fold_weak_ind (fun c' r => counter c' id = Z.max (counter c id) (counter r id))).
  - unfold counter at 3. rewrite lookup_empty. cbn. specialize (Hc id). lia.
  - intros i x m c' Hi IH. rewrite counter_merge_entry. unfold counter at 4.
    destruct (decide (id = i)) as [->|Hne].
    + rewrite lookup_insert_eq. cbn. rewrite IH. unfold counter at 2. rewrite Hi. cbn. specialize (Hc i). lia.
    + by rewrite lookup_insert_ne.
Qed.

Lemma is_clock_merge c r : is_clock c -> is_clock (mergeVectorClock (Some r) c).
Proof. intros Hc id. rewrite counter_merge by done. specialize (Hc id). lia. Qed.

(** Merging a sequence of clocks. *)
Definition merge_all (remotes : list VectorClock) (c : VectorClock) : VectorClock :=
  fold_left (fun c r => mergeVectorClock (Some r) c) remotes c.

Lemma merge_all_le remotes c id x :
  is_clock c -> counter (merge_all remotes c) id <= x <-> counter c id <= x /\ Forall (fun r => counter r id <= x) remotes.
Proof.
  revert c; induction remotes as [|r remotes IH]; intros c Hc; cbn [merge_all fold_left].
  { split; [|tauto]. intros H. by split; [|constructor]. }
  change (fold_left _ _ _) with (merge_all remotes (mergeVectorClock (Some r) c)).
  rewrite IH by by apply is_clock_merge. rewrite counter_merge, Forall_cons, Z.max_lub_iff by done. tauto.
Qed.

(** Merging a sequence of clocks depends neither on their order nor on how often one
    comes: two sequences of the same clocks leave the same counters, the least that are
    at least the local ones and all those merged. *)
Theorem clocks_converge c remotes remotes' :
  is_clock c -> (forall r, r ∈ remotes <-> r ∈ remotes') ->
  (forall id, counter (merge_all remotes c) id = counter (merge_all remotes' c) id) /\
  forall id x, counter (merge_all remotes c) id <= x <-> counter c id <= x /\ forall r, r ∈ remotes -> counter r id <= x.
Proof.
  intros Hc Hr. split.
  - intros id. assert (forall x, counter (merge_all remotes c) id <= x <-> counter (merge_all remotes' c) id <= x) as H.
    { intros x. rewrite !merge_all_le, !Forall_forall by done. by setoid_rewrite Hr. }
    pose proof (proj1 (H _) (Z.le_refl _)). pose proof (proj2 (H _) (Z.le_refl _)). lia.
  - intros id x. by rewrite merge_all_le, Forall_forall by done.
Qed.

(** ** Synchronisation *)

Section Sync.
Context `{P : Primitives}.
Context `{!Codec ContactSync} `{!Codec ReadReceiptSync} `{!Codec GroupSync} `{!Codec SettingsSync}
  `{!Codec HistoryRequest} `{!Codec HistoryBatch} `{!Codec DeviceSyncMessage}.

(** No message of another device is ever taken in.  With a device-group key of 32
    bytes the call that decrypts a message passes the ciphertext for the key and
    the key for the nonce and fails; the clock, the events and the requests stay
    as they are, and the only messages that are no error are the device's own. *)
Theorem sync_never_received data w :
  length (deviceGroupKey (deviceManager (obj w))) = 32%nat ->
  (HandleSyncMessage data w).1 = w /\
  forall u, (HandleSyncMessage data w).2 = Ok u ->
    exists msg, unmarshal data = Some msg /\
      device_prefix (deviceID (deviceManager (obj w))) = Some (ds_SourceDeviceId msg).
Proof.
  intros Hk. unfold HandleSyncMessage, self, lift, proto_Unmarshal, mbind, GoM_bind.
  destruct (unmarshal data) as [msg|]; cbn [ext wrapErr]; [|by split].
  case_bool_decide as Eo; [split; [done|by exists msg]|].
  assert (is_Ok (Decrypt (ds_EncryptedPayload msg) (deviceGroupKey (deviceManager (obj w))) (ds_Nonce msg)) = false) as Hd.
  { apply Decrypt_bad_nonce. rewrite Hk. done. }
  by destruct (Decrypt _ _ _).
Qed.

(** What a device does and gets: a message from the network, one of its own operations that send, or
    a batch of history that the caller hands over. *)
Inductive sync_op :=
  | SReceive (data : bytes)
  | SBroadcast (syncType : Z) (payload : SyncPayload)
  | SRequestHistory (contactPubKey : bytes) (startTime endTime maxMessages : Z)
  | SSendBatch (contactPubKey : bytes) (messages : list HistoryMessage) (batchNumber : Z) (isLastBatch : bool)
  | SHandleBatch (batch : HistoryBatch) (order : list string).

Definition sync_do (op : sync_op) : GoM (Sys SyncManager) unit :=
  match op with
  | SReceive data => HandleSyncMessage data
  | SBroadcast syncType payload => BroadcastSync syncType payload
  | SRequestHistory contactPubKey startTime endTime maxMessages => _ ← RequestHistory contactPubKey startTime endTime maxMessages; mret tt
  | SSendBatch contactPubKey messages batchNumber isLastBatch => SendHistoryBatch contactPubKey messages batchNumber isLastBatch
  | SHandleBatch batch order => HandleHistoryBatch batch order
  end.

(** A run, whose caller goes on after errors, with all answers. *)
Fixpoint sync_run (ops : list sync_op) (w : Sys SyncManager) : Sys SyncManager * list (outcome unit) :=
  match ops with
  | [] => (w, [])
  | op :: ops => let '(w, answer) := sync_do op w in let '(w, answers) := sync_run ops w in (w, answer :: answers)
  end.

(** A manager that heard from no other device. *)
Definition alone (s : SyncManager) : Prop := forall id, is_Some (vectorClock s !! id) -> id = hex (deviceID (deviceManager s)).
Definition hears_nothing (s s' : SyncManager) : Prop :=
  deviceManager s' = deviceManager s /\ eventChan s' = eventChan s /\ (alone s -> alone s').

#[local] Instance hears_nothing_order : PreOrder hears_nothing.
Proof. split; [by split|]. intros a b c (? & ? & ?) (? & ? & ?). split; [congruence|]. split; [congruence|auto]. Qed.

Lemma broadcast_hears_nothing syncType payload : respects hears_nothing (BroadcastSync syncType payload).
Proof.
  unfold BroadcastSync. cbv zeta. repeat first [solve [auto with respects] | apply respects_bind; [apply _| |intros ?]].
  apply respects_update. intros s. split; [done|]. split; [done|]. intros Ha id. cbn.
  rewrite lookup_insert_is_Some. intros [<-|[_ H]]; [done|by apply Ha].
Qed.

Lemma requests_hear_nothing s requests : hears_nothing s (s <| historyRequests := requests |>).
Proof. by split; [|split]. Qed.

(** Everything but receiving. *)
Lemma own_hears_nothing op : (forall data, op <> SReceive data) -> respects hears_nothing (sync_do op).
Proof.
  destruct op; intros Hop; cbn [sync_do]; [by destruct (Hop data)|apply broadcast_hears_nothing| |apply broadcast_hears_nothing|].
  - unfold RequestHistory. cbv zeta. repeat first [solve [auto with respects] | apply broadcast_hears_nothing | apply respects_update; intros ?; apply requests_hear_nothing | apply respects_bind; [apply _| |intros ?]].
  - apply respects_update. intros s. apply requests_hear_nothing.
Qed.

Lemma Decrypt_no_panic key nonce c : Decrypt key nonce c <> Panic.
Proof. unfold Decrypt, check_len, mbind, outcome_bind. by repeat case_match; simplify_eq. Qed.

(** C30. Devices of an identity never hear of each other.  Whatever a device with a device-group key of 32 bytes
    does and whatever messages arrive: no event is ever delivered, its vector clock never gets a
    counter of another device, and every message of another device is answered with the error
    that it cannot be decrypted, since the key and the ciphertext are exchanged. *)
Theorem sync_isolated dm ev ops :
  length (deviceGroupKey dm) = 32%nat ->
  let '(w, answers) := sync_run ops (mkSys ev (NewSyncManager dm)) in
  deviceManager (obj w) = dm /\ eventChan (obj w) = [] /\ (forall id, is_Some (vectorClock (obj w) !! id) -> id = hex (deviceID dm)) /\
  Forall2 (fun op answer => forall data msg, op = SReceive data -> unmarshal data = Some msg ->
    device_prefix (deviceID dm) <> Some (ds_SourceDeviceId msg) -> exists e, answer = Err (ErrWrap "failed to decrypt payload" e)) ops answers.
Proof.
  intros Hk. assert (forall w, deviceManager (obj w) = dm ->
    let '(w', answers) := sync_run ops w in hears_nothing (obj w) (obj w') /\
    Forall2 (fun op answer => forall data msg, op = SReceive data -> unmarshal data = Some msg ->
      device_prefix (deviceID dm) <> Some (ds_SourceDeviceId msg) -> exists e, answer = Err (ErrWrap "failed to decrypt payload" e)) ops answers) as H.
  { induction ops as [|op ops IH]; intros w Hw; cbn [sync_run]; [by split|].
    destruct (sync_do op w) as [w1 answer] eqn:Eop. assert (hears_nothing (obj w) (obj w1)) as H1.
    { destruct op as [data| | | |]; [|change w1 with (w1, answer).1; rewrite <- Eop; by apply own_hears_nothing..].
      destruct (sync_never_received data w) as [E _]; [by rewrite Hw|]. cbn [sync_do] in Eop. rewrite Eop in E. cbn in E. by rewrite E. }
    assert (deviceManager (obj w1) = dm) as Hw1 by (rewrite (proj1 H1); exact Hw).
    specialize (IH w1 Hw1). destruct (sync_run ops w1) as [w2 answers]. destruct IH as [H2 Ha]. split; [by etrans|]. constructor; [|done].
    intros data msg -> Hm Hne. cbn [sync_do] in Eop. unfold HandleSyncMessage, self, lift, proto_Unmarshal, mbind, GoM_bind in Eop.
    rewrite Hm in Eop. cbn [ext wrapErr] in Eop. rewrite Hw, bool_decide_eq_false_2 in Eop by done.
    pose proof (Decrypt_bad_nonce (ds_EncryptedPayload msg) (deviceGroupKey dm) (ds_Nonce msg)) as Hd. rewrite Hk in Hd. specialize (Hd ltac:(done)).
    destruct (Decrypt _ _ _) as [|e|] eqn:Ed; [done| |by apply Decrypt_no_panic in Ed]. cbn in Eop. exists e. by simplify_eq. }
  specialize (H (mkSys ev (NewSyncManager dm)) eq_refl). destruct (sync_run ops _) as [w answers].
  destruct H as [(Hd & He & Ha) Hf]. split; [exact Hd|]. split; [exact He|]. split; [|exact Hf]. cbn in Hd. rewrite <- Hd. apply Ha.
  intros id Hid. cbn in Hid. rewrite lookup_empty in Hid. by destruct Hid.
Qed.
End Sync.

(** ** Sending *)

Section Sending.
Context `{K : KV} `{P : Primitives} `{!PrimitiveLaws P}.
Context `{!Codec TextMessage} `{!Codec DMPayload} `{!Codec BabylonEnvelope} `{!Codec MultiDeviceEnvelope}.
Context (ipfs_Publish : string -> bytes -> bool) (json_Marshal : DeviceSession -> option bytes) (time_string : Z -> bytes).

Abbreviation send_device := (sendToDevice ipfs_Publish json_Marshal time_string).
Abbreviation send := (SendMessageToIdentity ipfs_Publish json_Marshal time_string).

(** Nothing was published, and the keys in the cache are keys. *)
Definition silent (f : FanoutManager K) : Prop :=
  fm_published f = [] /\ map_Forall (fun _ key => length key = 32%nat) (symmetricKeys f).

(** [m] does not succeed and keeps the manager silent. *)
Definition fails {A} (m : GoM (Sys (FanoutManager K)) A) : Prop :=
  forall w, silent (obj w) -> silent (obj (m w).1) /\ is_Ok (m w).2 = false.

Lemma fails_bind {A B} (m : GoM (Sys (FanoutManager K)) A) (k : A -> GoM _ B) (Q : A -> Prop) :
  (forall w, silent (obj w) -> silent (obj (m w).1) /\ forall a, (m w).2 = Ok a -> Q a) ->
  (forall a, Q a -> fails (k a)) -> fails (x ← m; k x).
Proof.
  intros Hm Hk w Hs. unfold mbind, GoM_bind. destruct (Hm w Hs) as [Hs' HQ].
  destruct (m w) as [w' [a|e|]]; cbn [fst snd] in *; [|done..]. by apply Hk; [apply HQ|].
Qed.

(** Steps that leave the cache of keys and what was published alone. *)
Definition quiet {A} (m : GoM (Sys (FanoutManager K)) A) : Prop :=
  forall w, fm_published (obj (m w).1) = fm_published (obj w) /\ symmetricKeys (obj (m w).1) = symmetricKeys (obj w).

Lemma fails_bind_quiet {A B} (m : GoM (Sys (FanoutManager K)) A) (k : A -> GoM _ B) :
  quiet m -> (forall a, fails (k a)) -> fails (x ← m; k x).
Proof.
  intros Hm Hk. apply (fails_bind _ _ (fun _ => True)); [|by auto].
  intros w Hs. split; [|done]. unfold silent. by destruct (Hm w) as [-> ->].
Qed.

Lemma fails_bind_err {A B} (o : outcome A) (k : A -> GoM _ B) :
  is_Ok o = false -> fails (x ← lift o; k x).
Proof. intros Ho w Hs. unfold lift, mbind, GoM_bind. by destruct o. Qed.

Lemma quiet_lift {A} (o : outcome A) : quiet (lift o). Proof. by intros w. Qed.

Lemma quiet_random n ctx : quiet (random_bytes n ctx).
Proof. intros w. unfold random_bytes, rand_opt, lift, mbind, GoM_bind. cbn. by destruct (rands (env w) 0). Qed.

Lemma quiet_session t device : quiet (wrap "failed to get session" (getOrCreateSession t device)).
Proof.
  intros w. unfold getOrCreateSession, self, time_now, update, wrap, mbind, GoM_bind.
  by destruct (find_session _ _ _).
Qed.

Lemma message_key_length session : length (deriveMessageKey session) = 32%nat.
Proof. unfold deriveMessageKey. by rewrite length_take, sha256_length. Qed.

(** The key of the message is passed for the nonce. *)
Lemma sendToDevice_fails text t device : fails (send_device text t device).
Proof.
  unfold sendToDevice. apply fails_bind_quiet; [apply quiet_session|]. intros session.
  apply fails_bind_quiet; [apply quiet_lift|]. intros payloadBytes.
  apply fails_bind_quiet; [apply quiet_random|]. intros nonce. apply fails_bind_err.
  pose proof (Encrypt_bad_nonce payloadBytes (deriveMessageKey session) nonce) as H. rewrite message_key_length in H.
  specialize (H ltac:(done)). by destruct (Encrypt _ _ _).
Qed.

Lemma fanout_loop_fails text t devices e w :
  silent (obj w) -> silent (obj (fanout_loop ipfs_Publish json_Marshal time_string text t devices [] e w).1) /\
  forall r, (fanout_loop ipfs_Publish json_Marshal time_string text t devices [] e w).2 = Ok r -> r.1 = [].
Proof.
  revert e w; induction devices as [|d devices IH]; intros e w Hs; cbn [fanout_loop].
  { split; [done|]. by intros r [= <-]. }
  destruct (sendToDevice_fails text t d w Hs) as [Hs' Hr].
  destruct (send_device text t d w) as [w' [a|e'|]]; [done|by apply IH|done].
Qed.

Lemma getOrCreateSymmetricKey_length t w :
  silent (obj w) -> silent (obj (wrap "failed to get symmetric key" (getOrCreateSymmetricKey t) w).1) /\
  forall key, (wrap "failed to get symmetric key" (getOrCreateSymmetricKey t) w).2 = Ok key -> length key = 32%nat.
Proof.
  intros [Hp Hk]. unfold wrap, getOrCreateSymmetricKey, self, update, random_bytes, rand_opt, lift, mbind, GoM_bind.
  destruct (symmetricKeys (obj w) !! hex t) as [key|] eqn:E; cbn.
  { split; [done|]. intros k [= <-]. by apply (Hk _ _ E). }
  destruct (rands (env w) 0) as [r|]; cbn; [|done].
  split; [split; [done|]|].
  - apply map_Forall_insert_2; [apply fit_length|done].
  - intros k [= <-]. apply fit_length.
Qed.

Lemma send_fails text t devices : fails (send text t devices).
Proof.
  unfold SendMessageToIdentity. destruct (_ =? 0)%nat; [by intros w Hs|]. destruct (5 <=? _)%nat.
  - unfold sendWithSymmetricKey. apply (fails_bind _ _ (fun key => length key = 32%nat));
      [apply getOrCreateSymmetricKey_length|]. intros key Hkey.
    apply fails_bind_quiet; [apply quiet_lift|]. intros plaintext.
    apply fails_bind_quiet; [apply quiet_random|]. intros nonce. apply fails_bind_err.
    pose proof (Encrypt_bad_nonce plaintext key nonce) as H. rewrite Hkey in H. specialize (H ltac:(done)).
    by destruct (Encrypt _ _ _).
  - unfold sendWithFanout. apply (fails_bind _ _ (fun r => r.1 = [])); [by intros w Hs; apply fanout_loop_fails|].
    intros [results e] Hr w Hs. cbn in Hr. by rewrite Hr.
Qed.

(** What a manager is asked to do. *)
Inductive fan_op := FSend (text : string) (recipient : bytes) (devices : list DeviceCertificate)
                  | FCleanup (identityPub : bytes) (doc : DeviceList).
Definition fan_step (op : fan_op) (w : Sys (FanoutManager K)) : Sys (FanoutManager K) :=
  match op with
  | FSend text t devices => (send text t devices w).1
  | FCleanup t doc => (CleanupRevokedDevices t doc w).1
  end.
Definition fan_run (ops : list fan_op) (w : Sys (FanoutManager K)) : Sys (FanoutManager K) :=
  fold_left (fun w op => fan_step op w) ops w.

Lemma fan_run_silent ops w : silent (obj w) -> silent (obj (fan_run ops w)).
Proof.
  revert w; induction ops as [|op ops IH]; intros w Hw; [done|]. apply IH.
  destruct op; cbn [fan_step]; [by apply send_fails|exact Hw].
Qed.

(** Nothing is ever sent to the devices of an identity: in every run of a manager no
    message is published and no attempt to send one succeeds, to however many
    devices, because the call that encrypts passes the message for the key and
    the key for the nonce. *)
Theorem fanout_never_sends dm storage e ops text t devices :
  let w := fan_run ops (mkSys e (NewFanoutManager dm storage)) in
  fm_published (obj w) = [] /\ is_Ok (send text t devices w).2 = false /\
  fm_published (obj (send text t devices w).1) = [].
Proof.
  cbv zeta. assert (silent (obj (fan_run ops (mkSys e (NewFanoutManager dm storage))))) as Hs.
  { apply fan_run_silent. split; [done|apply map_Forall_empty]. }
  split; [apply Hs|]. destruct (send_fails text t devices _ Hs) as [Hs' Hr]. split; [done|apply Hs'].
Qed.
End Sending.

(** ** Which devices are active *)

Lemma active_not_revoked doc id :
  (exists d, d ∈ GetActiveDevices doc /\ dc_DeviceId d = id) <-> IsDeviceRevoked doc id = false.
Proof.
  unfold GetActiveDevices, IsDeviceRevoked. split.
  - intros (d & [Hr Hd]%list_elem_of_filter & <-). rewrite Hr. apply negb_false_iff, existsb_exists.
    exists d. split; [by apply list_elem_of_In|by apply bool_decide_eq_true].
  - destruct (has_revocation doc id) eqn:Hr; [done|]. intros H%negb_false_iff%existsb_exists.
    destruct H as (d & Hd%list_elem_of_In & <-%bool_decide_eq_true). exists d. split; [|done].
    by apply list_elem_of_filter.
Qed.

Section Cleanup.
Context `{K : KV}.

(** What a clean-up leaves: of the sessions with the devices of an identity exactly
    those with devices that its document lists and does not revoke, and all
    sessions with other identities. *)
Theorem CleanupRevokedDevices_exact identityPub doc (w : Sys (FanoutManager K)) peerPub deviceHex session :
  find_session (obj (CleanupRevokedDevices identityPub doc w).1) (hex peerPub) deviceHex = Some session <->
  find_session (obj w) (hex peerPub) deviceHex = Some session /\
  (peerPub = identityPub -> IsDeviceRevoked doc (ss_DeviceID session) = false).
Proof.
  unfold CleanupRevokedDevices, update, find_session, mbind, option_bind. cbn.
  destruct (decide (peerPub = identityPub)) as [->|Hne].
  - rewrite lookup_alter_eq. destruct (fm_sessions (obj w) !! hex identityPub) as [sessions|]; cbn; [|naive_solver].
    rewrite map_lookup_filter_Some, list_elem_of_fmap, <- active_not_revoked. split.
    + intros [Hl (d & E & Hd)]. split; [done|]. intros _. exists d. split; [done|]. symmetry. by apply (inj hex).
    + intros [Hl H]. split; [done|]. destruct (H eq_refl) as (d & Hd & <-). by exists d.
  - rewrite lookup_alter_ne by (by intros ->%(inj hex)). naive_solver.
Qed.
End Cleanup.

(** ** Certificates *)

Section Certificates.
Context `{P : Primitives} `{!PrimitiveLaws P}.

(** A device that registers gets a certificate everybody can verify, and its id is
    that of its signing key; but the bytes that are signed do not say where a
    field ends, so that every certificate that verifies also verifies with the
    first character of the device's name taken for the end of its agreement
    key. *)
Theorem RegisterNewDevice_verifies w w' cert :
  ed_keypair (identitySignPub (obj w)) (identitySignPriv (obj w)) ->
  RegisterNewDevice w = (w', Ok cert) ->
  VerifyDeviceCertificate cert = Ok tt /\
  dc_DeviceId cert = ComputeDeviceID (dc_DeviceSignPub cert) /\ deviceID (obj w') = dc_DeviceId cert /\
  forall a rest, dc_DeviceName cert = String a rest ->
    VerifyDeviceCertificate (cert <| dc_DeviceDhPub := dc_DeviceDhPub cert ++ [Ascii.byte_of_ascii a] |> <| dc_DeviceName := rest |>)
      = Ok tt.
Proof.
  intros Hk. unfold RegisterNewDevice, self, rand_opt, lift, time_now, update, mbind, GoM_bind.
  destruct (rands (env w) 0) as [seed|]; cbn; [|done].
  destruct (rands (env w) 1) as [dhPriv|]; cbn; [|done].
  destruct (x25519 _ Basepoint) as [dhPub|]; cbn; [|done].
  set (cert0 := mkDeviceCertificate _ _ _ _ _ _ _ _). unfold signDeviceCertificate.
  rewrite (ed25519_Sign_Ok _ _ _ Hk). cbn. intros [= <- <-].
  assert (VerifyDeviceCertificate (cert0 <| dc_Signature := ed_sign (identitySignPriv (obj w)) (certificate_data cert0) |>) = Ok tt) as Hv.
  { unfold VerifyDeviceCertificate.
    change (ed25519_Verify _ _ _) with (ed25519_Verify (identitySignPub (obj w)) (certificate_data cert0)
      (ed_sign (identitySignPriv (obj w)) (certificate_data cert0))).
    by rewrite (ed25519_Verify_Sign _ _ _ Hk). }
  split; [exact Hv|]. split; [done|]. split; [done|]. intros a rest Hn. rewrite <- Hv. unfold VerifyDeviceCertificate.
  do 2 f_equal. unfold certificate_data. cbn in Hn |- *. rewrite Hn. unfold str at 2. cbn. by rewrite <- !app_assoc.
Qed.
End Certificates.

(** ** Examples *)
Module DeviceDemo.
Definition clockA : VectorClock := {["a" := 3]}.
Definition clockB : VectorClock := {["b" := 5; "a" := 1]}.

#[export] Instance SyncMessage_eq : EqDecision DeviceSyncMessage.
Proof. solve_decision. Defined.
#[export] Program Instance SyncMessage_countable : Countable DeviceSyncMessage :=
  inj_countable' (fun m => (ds_SourceDeviceId m, ds_Type m, ds_EncryptedPayload m, ds_Nonce m, ds_Timestamp m, ds_VectorClock m))
    (fun '(a, b, c, d, e, f) => mkSyncMessage a b c d e f) _.
Next Obligation. by intros []. Qed.
#[export] Instance SyncMessage_codec : Codec DeviceSyncMessage := countable_codec.
(** The encoding of the other messages plays no part. *)
#[export] Instance no_codec {A} : Codec A | 100 := {| marshal _ := Some []; unmarshal _ := None |}.

(** Two devices of one identity, and a message of the first for the second. *)
Definition identity_seed : bytes := zeros 32.
Definition manager (id : bytes) : DeviceManager :=
  set_device_keys (ed_pub id) (id ++ ed_pub id) (zeros 32) (zeros 32) id
    (NewDeviceManager (ed_pub identity_seed) (identity_seed ++ ed_pub identity_seed) (zeros 32) (zeros 32) "Phone" (zeros 32)).
Definition env0 : Env := mkEnvironment (fun _ => Some (zeros 32)) (fun _ => 1000).
Definition second : Sys SyncManager := mkSys env0 (NewSyncManager (manager (Byte.x02 :: zeros 31))).
Definition message : DeviceSyncMessage :=
  mkSyncMessage 16777216 SyncTypeSettingsChanged (sealX (zeros 32) (zeros 24) (str "x") []) (zeros 24) 1000 (Some clockA).
Definition device (n : Z) : DeviceCertificate := mkDeviceCertificate [byteZ n] (zeros 32) (zeros 32) "Phone" 0 0 (zeros 32) [].
Definition registered : Sys DeviceManager * outcome DeviceCertificate := RegisterNewDevice (mkSys env0 (manager (zeros 32))).
(** A document of two devices, one of them revoked, and a manager with sessions for both. *)
Definition document : DeviceList := mkDeviceList [device 1; device 2] [mkRevocation [byteZ 2] "device" "lost" 0 []].
Definition session_for (n : Z) : DeviceSession := mkSession [byteZ n] [] [] [] [] [] 0 0 0.
Definition with_sessions : Sys (FanoutManager gmap_kv) :=
  mkSys env0 (put_session (hex [Byte.x09]) "02" (session_for 2)
    (put_session (hex [Byte.x09]) "01" (session_for 1) (NewFanoutManager (K := gmap_kv) (manager (zeros 32)) None))).
End DeviceDemo.
Import DeviceDemo.

Lemma clocks_converge_witness :
  counter (merge_all [clockA; clockB; clockA] ∅) "a" = counter (merge_all [clockB; clockA] ∅) "a" /\
  counter (merge_all [clockA; clockB; clockA] ∅) "a" = 3.
Proof.
  split; [|vm_compute; reflexivity]. apply (clocks_converge ∅ [clockA; clockB; clockA] [clockB; clockA]).
  - intros id. unfold counter. by rewrite lookup_empty.
  - intros r. rewrite !elem_of_cons. tauto.
Defined.

Lemma sync_never_received_witness :
  (HandleSyncMessage (P := toy) (encode_bytes message) second).1 = second /\
  is_Ok (HandleSyncMessage (P := toy) (encode_bytes message) second).2 = false.
Proof.
  destruct (sync_never_received (P := toy) (encode_bytes message) second) as [E H]; [reflexivity|].
  split; [exact E|]. vm_compute. reflexivity.
Defined.

(** The second device sends a message of its own and gets one of the first. *)
Lemma sync_isolated_witness :
  let w := (sync_run (P := toy) [SBroadcast SyncTypeSettingsChanged (PSettings (mkSettingsSync "a" [] 0)); SReceive (encode_bytes message)] second).1 in
  eventChan (obj w) = [] /\ vectorClock (obj w) = {[hex (Byte.x02 :: zeros 31) := 1]}.
Proof.
  pose proof (sync_isolated (P := toy) (manager (Byte.x02 :: zeros 31)) env0
    [SBroadcast SyncTypeSettingsChanged (PSettings (mkSettingsSync "a" [] 0)); SReceive (encode_bytes message)] eq_refl) as H.
  change (mkSys env0 (NewSyncManager (manager (Byte.x02 :: zeros 31)))) with second in H.
  intros w. subst w. destruct (sync_run _ second) as [w answers] eqn:E. destruct H as (_ & He & _). split; [exact He|].
  apply (f_equal (fun x => vectorClock (obj x.1))) in E. cbn in *. rewrite <- E. vm_compute. reflexivity.
Defined.

Lemma fanout_never_sends_witness :
  is_Ok (SendMessageToIdentity (P := toy) (fun _ _ => true) (fun _ => None) (fun _ => []) "hi" (zeros 32) [device 1; device 2]
    (fan_run (P := toy) (fun _ _ => true) (fun _ => None) (fun _ => []) [FSend "hi" (zeros 32) [device 1]]
       (mkSys env0 (NewFanoutManager (K := gmap_kv) (manager (zeros 32)) None)))).2 = false.
Proof.
  apply (fanout_never_sends (K := gmap_kv) (P := toy) (fun _ _ => true) (fun _ => None) (fun _ => []) (manager (zeros 32)) None
    env0 [FSend "hi" (zeros 32) [device 1]] "hi" (zeros 32) [device 1; device 2]).
Defined.

Lemma CleanupRevokedDevices_exact_witness :
  find_session (obj (CleanupRevokedDevices [Byte.x09] document with_sessions).1) (hex [Byte.x09]) "01" = Some (session_for 1) /\
  find_session (obj (CleanupRevokedDevices [Byte.x09] document with_sessions).1) (hex [Byte.x09]) "02" = None.
Proof.
  split.
  - apply (CleanupRevokedDevices_exact [Byte.x09] document with_sessions [Byte.x09] "01" (session_for 1)).
    split; [vm_compute; reflexivity|]. intros _. vm_compute. reflexivity.
  - vm_compute. reflexivity.
Defined.

Lemma RegisterNewDevice_verifies_witness :
  exists cert, registered.2 = Ok cert /\ VerifyDeviceCertificate cert = Ok tt /\
  VerifyDeviceCertificate (cert <| dc_DeviceDhPub := dc_DeviceDhPub cert ++ [Byte.x50] |> <| dc_DeviceName := "hone" |>) = Ok tt.
Proof.
  destruct registered.2 as [cert| |] eqn:E; [|vm_compute in E; discriminate E..].
  exists cert. split; [done|].
  destruct (RegisterNewDevice_verifies (P := toy) (mkSys env0 (manager (zeros 32))) registered.1 cert) as (Hv & _ & _ & H).
  - exists identity_seed. by split.
  - change (registered = (registered.1, Ok cert)). rewrite <- E. apply surjective_pairing.
  - split; [exact Hv|]. apply (H "P"%char "hone"). vm_compute in E. injection E as <-. reflexivity.
Defined.
