(* ===== verification/Messages.v ===== *)
(** * pkg/messaging: messages and envelopes

    [envelope.go]: a message is encrypted to a fresh key agreement with the
    recipient, the envelope signed by the sender; the sender keeps the ephemeral
    key, encrypted, to read it again.  Slices that are only logged are kept for
    their panics. *)
From S2P Require Import Prelude Primitives Crypto Proto Badger GroupState Storage Runtime.

Definition ErrInvalidSignature : error := ErrText "invalid signature".
Definition ErrInvalidEnvelope : error := ErrText "invalid envelope".

(** [pb.Message] *)
Record Message := mkMessage { Text : string; Timestamp : Z }.

Section Messages.
Context `{P : Primitives} `{!Codec Message} `{!Codec Envelope} `{!Codec SignedEnvelope} {X : Type}.
Abbreviation M := (GoM (Sys X)).

Definition BuildMessage (text : string) (timestamp : Z) : Message := mkMessage text timestamp.
Definition BuildMessageNow (text : string) : M Message := now ← time_now; mret (BuildMessage text (to_unix now)).

(** The public key first. *)
Definition generateEphemeralKeyPair : M (bytes * bytes) :=
  privKey ← rand_opt 32;
  privKey ← lift (wrapErr "failed to generate private key" (ext "rand.Reader" privKey));
  pubKey ← lift (wrapErr "failed to compute public key" (ext "curve25519.X25519" (x25519 privKey Basepoint)));
  mret (pubKey, privKey).

(** Returns the ephemeral private key, too. *)
Definition BuildEnvelope (plaintext recipientX25519PubKey : bytes) : M (Envelope * bytes) :=
  if negb (length recipientX25519PubKey =? SharedSecretSize)%nat then throw (ErrText "invalid recipient public key length: %d")
  else
    '(ephemeralPub, ephemeralPriv) ← wrap "failed to generate ephemeral key" generateEphemeralKeyPair;
    sharedSecret ← lift (wrapErr "failed to compute shared secret" (ComputeSharedSecret ephemeralPriv recipientX25519PubKey));
    rnd ← rand_opt 24;
    '(nonce, ciphertext) ← lift (wrapErr "failed to encrypt" (EncryptWithSharedSecret rnd sharedSecret plaintext));
    mret (mkEnv ciphertext ephemeralPub nonce, ephemeralPriv).

Definition SignEnvelope (envelope : Envelope) (senderPrivKey : bytes) : outcome SignedEnvelope :=
  envelopeBytes ← wrapErr "failed to marshal envelope" (proto_Marshal envelope);
  signature ← ed25519_Sign senderPrivKey envelopeBytes;
  Ok (mkSignedEnv envelopeBytes signature (ed25519_Public senderPrivKey) []).

Definition ParseSignedEnvelope (data : bytes) : outcome SignedEnvelope :=
  signedEnvelope ← wrapErr "failed to unmarshal signed envelope" (proto_Unmarshal data);
  if (length (se_Envelope signedEnvelope) =? 0)%nat then Err (ErrWrap "%w: empty envelope" ErrInvalidEnvelope)
  else if negb (length (se_Signature signedEnvelope) =? SignatureSize)%nat
  then Err (ErrWrap "%w: invalid signature length" ErrInvalidEnvelope)
  else if negb (length (se_SenderPubkey signedEnvelope) =? 32)%nat
  then Err (ErrWrap "%w: invalid sender public key length" ErrInvalidEnvelope)
  else Ok signedEnvelope.

(** A nil envelope is [None]. *)
Definition VerifyEnvelope (signedEnvelope : option SignedEnvelope) : outcome bool :=
  match signedEnvelope with
  | None => Err (ErrText "nil envelope")
  | Some s =>
      if negb (length (se_SenderPubkey s) =? 32)%nat then Err (ErrText "invalid sender public key length")
      else
        valid ← ed25519_Verify (se_SenderPubkey s) (se_Envelope s) (se_Signature s);
        if negb valid then Err ErrInvalidSignature else Ok true
  end.

Definition ParseEnvelope (signedEnvelope : option SignedEnvelope) : outcome Envelope :=
  match signedEnvelope with
  | None => Err ErrInvalidEnvelope
  | Some s =>
      if (length (se_Envelope s) =? 0)%nat then Err ErrInvalidEnvelope
      else
        envelope ← wrapErr "failed to unmarshal envelope" (proto_Unmarshal (se_Envelope s));
        if (length (e_Ciphertext envelope) =? 0)%nat then Err (ErrWrap "%w: empty ciphertext" ErrInvalidEnvelope)
        else if negb (length (e_EphemeralPubkey envelope) =? SharedSecretSize)%nat
        then Err (ErrWrap "%w: invalid ephemeral pubkey length" ErrInvalidEnvelope)
        else if negb (length (e_Nonce envelope) =? NonceSize)%nat
        then Err (ErrWrap "%w: invalid nonce length" ErrInvalidEnvelope)
        else Ok envelope
  end.

Definition DecryptEnvelope (envelope : option Envelope) (recipientX25519PrivKey : bytes) : outcome bytes :=
  match envelope with
  | None => Err ErrInvalidEnvelope
  | Some e =>
      if negb (length recipientX25519PrivKey =? SharedSecretSize)%nat
      then Err (ErrText "invalid recipient private key length: %d")
      else if (length (e_EphemeralPubkey e) <? 8)%nat then Panic
      else
        sharedSecret ← wrapErr "failed to compute shared secret" (ComputeSharedSecret recipientX25519PrivKey (e_EphemeralPubkey e));
        match DecryptWithSharedSecret sharedSecret (e_Nonce e) (e_Ciphertext e) with
        | Err _ => Err (ErrWrap "%w: %v" ErrDecryptionFailed)
        | r => r
        end
  end.

Definition ParseMessage (data : bytes) : outcome Message := wrapErr "failed to unmarshal message" (proto_Unmarshal data).

Definition CreateOutgoingMessage (text : string) (recipientX25519PubKey senderEd25519PrivKey : bytes) : M SignedEnvelope :=
  msg ← BuildMessageNow text;
  plaintext ← lift (wrapErr "failed to marshal message" (proto_Marshal msg));
  '(envelope, _) ← wrap "failed to build envelope" (BuildEnvelope plaintext recipientX25519PubKey);
  lift (SignEnvelope envelope senderEd25519PrivKey).

(** The message and the key that signed it. *)
Definition ProcessIncomingMessage (signedEnvelope : option SignedEnvelope) (recipientX25519PrivKey : bytes) : outcome (Message * bytes) :=
  valid ← wrapErr "signature verification failed" (VerifyEnvelope signedEnvelope);
  if negb valid then Err ErrInvalidSignature
  else
    envelope ← wrapErr "failed to parse envelope" (ParseEnvelope signedEnvelope);
    plaintext ← wrapErr "failed to decrypt envelope" (DecryptEnvelope (Some envelope) recipientX25519PrivKey);
    msg ← wrapErr "failed to parse message" (ParseMessage plaintext);
    Ok (msg, match signedEnvelope with Some s => se_SenderPubkey s | None => [] end).

(** ** The sender's copy of the ephemeral key *)

Definition ephemeral_key (senderX25519PrivKey recipientX25519PubKey : bytes) : outcome bytes :=
  sharedSecret ← wrapErr "failed to compute shared secret" (ComputeSharedSecret senderX25519PrivKey recipientX25519PubKey);
  wrapErr "failed to derive encryption key" (DeriveKey sharedSecret [] (str "ephemeral-key-encryption") 32).

Definition encryptEphemeralKey (ephemeralPrivKey senderX25519PrivKey recipientX25519PubKey : bytes) : M bytes :=
  encryptionKey ← lift (ephemeral_key senderX25519PrivKey recipientX25519PubKey);
  rnd ← rand_opt 24;
  nonce ← lift (wrapErr "failed to generate nonce" (GenerateNonce rnd));
  ciphertext ← lift (wrapErr "failed to encrypt ephemeral key" (Encrypt encryptionKey nonce ephemeralPrivKey));
  mret (nonce ++ ciphertext).

Definition decryptEphemeralKey (encryptedData senderX25519PrivKey recipientX25519PubKey : bytes) : outcome bytes :=
  if (length encryptedData <? NonceSize)%nat then Err (ErrText "encrypted data too short")
  else
    let nonce := take NonceSize encryptedData in
    let ciphertext := drop NonceSize encryptedData in
    encryptionKey ← ephemeral_key senderX25519PrivKey recipientX25519PubKey;
    wrapErr "failed to decrypt ephemeral key" (Decrypt encryptionKey nonce ciphertext).

(** No stored key is [None]. *)
Definition decryptEphemeralKeyFromEnvelope (signedEnvelope : SignedEnvelope) (ownX25519PrivKey recipientX25519PubKey : bytes)
    : outcome (option bytes) :=
  if (length (se_EncryptedEphemeralPriv signedEnvelope) =? 0)%nat then Ok None
  else k ← decryptEphemeralKey (se_EncryptedEphemeralPriv signedEnvelope) ownX25519PrivKey recipientX25519PubKey; Ok (Some k).
End Messages.
