(* ===== verification/Messaging.v ===== *)
(** * pkg/messaging: the messaging service

    [protocol.go], [outgoing.go] and [incoming.go]: sending to a contact's topic,
    receiving from one's own, the history of a conversation, and finding and
    connecting to contacts, over the storage of Storage.v and the node of
    Node.v.  The service has a node and a storage.  Its listener is the flag
    [listening] and the steps [listen_message] and [listen_done]; the channel of
    events is the list of those not received; what [SendMessage] starts beside
    itself is [pre_send]. *)
From S2P Require Import Prelude Primitives Crypto Proto Badger GroupState Storage Runtime Topic Metrics Node Messages.

Definition ErrServiceNotStarted : error := ErrText "messaging service not started".
Definition ErrUnknownContact : error := ErrText "unknown contact".
Definition ErrSelfMessage : error := ErrText "cannot send message to self".

Record Config := mkConfig {
  OwnEd25519PrivKey : bytes; OwnEd25519PubKey : bytes; OwnX25519PrivKey : bytes; OwnX25519PubKey : bytes;
}.

Record MessageEvent := mkMessageEvent { me_ContactPubKey : bytes; me_Message : Message; me_Envelope : SignedEnvelope }.

Record ContactPeerInfo := mkContactPeer {
  cp_PeerID : string; cp_Multiaddrs : list string; cp_LastSeen : Z; cp_IsOnline : bool; cp_Connected : bool;
}.

Record FindAndConnectResult := mkConnectResult { fc_PeerID : string; fc_Addresses : list string; fc_Source : string }.

Record SendResult := mkSendResult { sr_SignedEnvelope : SignedEnvelope; sr_CID : string; sr_Message : Message }.
Record ReceiveResult := mkReceiveResult { rr_Message : Message; rr_SenderPubKey : bytes; rr_Envelope : SignedEnvelope }.
Record MessageWithMeta := mkMessageMeta { mm_Message : Message; IsOutgoing : bool; mm_Timestamp : Z }.
Record ContactStatus := mkContactStatus {
  cs_PubKey : bytes; cs_DisplayName : string; cs_IsOnline : bool; cs_Connected : bool; cs_PeerID : string; cs_MeshSize : Z;
  cs_IsActive : bool;
}.

(** [sv_cancelled] is the state of the service's context. *)
Record Service {K : KV} {L : Libp2p} := mkService {
  config : Config; db : kv; ipfsNode : Node L; subscription : option string; sv_cancelled : bool; sv_isStarted : bool;
  listening : bool; messageChan : list MessageEvent; contactPeers : gmap bytes ContactPeerInfo;
}.
Arguments Service K L : clear implicits.
Arguments mkService {K L}.
#[export] Instance eta_Service {K : KV} {L : Libp2p} : Eta (Service K L) := fun s =>
  mkService (config s) (db s) (ipfsNode s) (subscription s) (sv_cancelled s) (sv_isStarted s) (listening s) (messageChan s)
    (contactPeers s).

Section Service.
Context `{P : Primitives} {K : KV} {L : Libp2p}.
Context `{!Codec Message} `{!Codec Envelope} `{!Codec SignedEnvelope} `{!Codec Contact}.
Abbreviation M := (GoM (Sys (Service K L))).

Definition NewService (config : Config) (storage : kv) (node : Node L) : Service K L :=
  mkService config storage node None false false false [] ∅.

Definition with_node {A} (m : GoM (Sys (Node L)) A) : M A := within ipfsNode (fun n s => s <| ipfsNode := n |>) m.
Definition with_db {A} (m : GoM kv A) : M A := on db (fun d s => s <| db := d |>) m.

(** A call whose error is only logged. *)
Definition logged {A} (m : M A) : M (option A) := fun w =>
  match m w with (w', Ok a) => (w', Ok (Some a)) | (w', Err _) => (w', Ok None) | (w', Panic) => (w', Panic) end.

Definition require_started : M unit := s ← self; if negb (sv_isStarted s) then throw ErrServiceNotStarted else mret tt.

(** ** Life cycle *)

Definition Start : M unit :=
  s ← self;
  if sv_isStarted s then mret tt
  else if negb (isStarted (ipfsNode s)) then throw (ErrText "IPFS node not started")
  else
    sub ← wrap "failed to subscribe to topic" (with_node (Subscribe (TopicFromPublicKey (OwnEd25519PubKey (config s)))));
    update (fun s => s <| subscription := Some sub |> <| sv_isStarted := true |> <| listening := true |>).

(** The listener has ended when [wg.Wait] returns. *)
Definition Stop : M unit :=
  s ← self;
  if negb (sv_isStarted s) then mret tt
  else update (fun s => s <| sv_isStarted := false |> <| sv_cancelled := true |> <| listening := false |>).

(** ** Receiving *)

(** What the receiving functions do with a signed envelope. *)
Definition open_signed (signedEnvelope : SignedEnvelope) (ownX25519PrivKey : bytes) : outcome Message :=
  valid ← wrapErr "signature verification failed" (VerifyEnvelope (Some signedEnvelope));
  if negb valid then Err ErrInvalidSignature
  else
    envelope ← wrapErr "failed to parse envelope" (ParseEnvelope (Some signedEnvelope));
    plaintext ← wrapErr "failed to decrypt envelope" (DecryptEnvelope (Some envelope) ownX25519PrivKey);
    wrapErr "failed to parse message" (ParseMessage plaintext).

(** [s.storage.AddMessage] at the time of the call. *)
Definition store_message (contactPubKey : bytes) (envelope : SignedEnvelope) : M unit :=
  now ← time_now; with_db (AddMessage (now / SecondNs) contactPubKey envelope).

Definition channelCapacity : nat := 100.

Definition processEnvelope (envelopeBytes : bytes) : M unit :=
  signedEnvelope ← lift (wrapErr "failed to parse signed envelope" (ParseSignedEnvelope envelopeBytes));
  s ← self;
  msg ← lift (open_signed signedEnvelope (OwnX25519PrivKey (config s)));
  let senderPubKey := se_SenderPubkey signedEnvelope in
  _ ← logged (with_db (GetContact senderPubKey));
  _ ← logged (store_message senderPubKey signedEnvelope);
  let event := mkMessageEvent senderPubKey msg signedEnvelope in
  update (fun s => if (length (messageChan s) <? channelCapacity)%nat then s <| messageChan := messageChan s ++ [event] |> else s).

Definition handlePubSubMessage (data : bytes) : M unit := _ ← logged (processEnvelope data); mret tt.

(** The two ways the listener goes on: it takes a message, or it sees that the context is
    cancelled and ends. *)
Definition listen_message (data : bytes) : M unit :=
  s ← self; if listening s then handlePubSubMessage data else mret tt.
Definition listen_done : M unit :=
  s ← self; if sv_cancelled s then update (fun s => s <| listening := false |>) else mret tt.

(** Receiving from the channel of events. *)
Definition receive_event : M (option MessageEvent) :=
  s ← self;
  match messageChan s with
  | [] => mret None
  | e :: rest => _ ← update (fun s => s <| messageChan := rest |>); mret (Some e)
  end.

Definition ReceiveMessageDirect (signedEnvelope : SignedEnvelope) : M ReceiveResult :=
  _ ← require_started;
  s ← self;
  msg ← lift (open_signed signedEnvelope (OwnX25519PrivKey (config s)));
  let senderPubKey := se_SenderPubkey signedEnvelope in
  _ ← logged (store_message senderPubKey signedEnvelope);
  mret (mkReceiveResult msg senderPubKey signedEnvelope).

Definition ReceiveMessage (envelopeBytes : bytes) : M ReceiveResult :=
  _ ← require_started;
  signedEnvelope ← lift (wrapErr "failed to parse signed envelope" (ParseSignedEnvelope envelopeBytes));
  s ← self;
  msg ← lift (open_signed signedEnvelope (OwnX25519PrivKey (config s)));
  let senderPubKey := se_SenderPubkey signedEnvelope in
  _ ← logged (store_message senderPubKey signedEnvelope);
  mret (mkReceiveResult msg senderPubKey signedEnvelope).

Definition FetchAndReceiveMessage (cid_Parse : string -> bool) (cidStr : string) : M ReceiveResult :=
  _ ← require_started;
  envelopeBytes ← wrap "failed to fetch envelope from IPFS" (with_node (Get cid_Parse cidStr));
  ReceiveMessage envelopeBytes.

(** ** History *)

Definition service_GetMessages (contactPubKey : bytes) (limit offset : Z) : M (list SignedEnvelope) :=
  _ ← require_started; with_db (GetMessages contactPubKey limit offset).

Definition isOutgoingMessage (config : Config) (senderPubKey : bytes) : bool :=
  bool_decide (senderPubKey = OwnEd25519PubKey config).

Definition placeholderMessage (timestamp : Z) (text : string) : Message := mkMessage text timestamp.

(** The message and the time it is listed under. *)
Definition dated (msg : Message) (storageTimestamp : Z) : Message * Z :=
  (msg, if Timestamp msg =? 0 then storageTimestamp else Timestamp msg).

Definition decryptWithEphemeralKey (envelope : Envelope) (ephemeralPriv recipientX25519PubKey : bytes) : outcome Message :=
  sharedSecret ← wrapErr "failed to compute shared secret" (ComputeSharedSecret ephemeralPriv recipientX25519PubKey);
  encryptionKey ← wrapErr "failed to derive encryption key" (DeriveKey sharedSecret [] (str "encryption") 32);
  plaintext ← wrapErr "failed to decrypt" (Decrypt encryptionKey (e_Nonce envelope) (e_Ciphertext envelope));
  ParseMessage plaintext.

Definition decryptOutgoingMessage (signedEnv : SignedEnvelope) (envelope : Envelope) (storageTimestamp : Z) (contactPubKey : bytes)
    : M (Message * Z) :=
  let placeholder := (placeholderMessage storageTimestamp "[Sent message]", storageTimestamp) in
  recipientX25519PubKey ← logged (with_db (GetContactX25519Key contactPubKey));
  match recipientX25519PubKey with
  | None => mret placeholder
  | Some recipientX25519PubKey =>
      s ← self;
      ephemeralPriv ← logged (lift (decryptEphemeralKeyFromEnvelope signedEnv (OwnX25519PrivKey (config s)) recipientX25519PubKey));
      match ephemeralPriv with
      | None | Some None => mret placeholder
      | Some (Some ephemeralPriv) =>
          msg ← logged (lift (decryptWithEphemeralKey envelope ephemeralPriv recipientX25519PubKey));
          mret (match msg with None => placeholder | Some msg => dated msg storageTimestamp end)
      end
  end.

Definition decryptIncomingMessage (envelope : Envelope) (storageTimestamp : Z) : M (Message * Z) :=
  s ← self;
  plaintext ← logged (lift (DecryptEnvelope (Some envelope) (OwnX25519PrivKey (config s))));
  match plaintext with
  | None => mret (placeholderMessage storageTimestamp "[Undecryptable message]", storageTimestamp)
  | Some plaintext =>
      msg ← logged (lift (ParseMessage plaintext));
      mret (match msg with
            | None => (placeholderMessage storageTimestamp "[Corrupted message]", storageTimestamp)
            | Some msg => dated msg storageTimestamp
            end)
  end.

Definition decryptMessageContent (signedEnv : SignedEnvelope) (envelope : Envelope) (storageTimestamp : Z) (isOutgoing : bool)
    (contactPubKey : bytes) : M (Message * Z) :=
  if isOutgoing then decryptOutgoingMessage signedEnv envelope storageTimestamp contactPubKey
  else decryptIncomingMessage envelope storageTimestamp.

(** A message that is left out is [None]. *)
Definition decryptMessageWithMeta (mwk : MessageWithKey) (contactPubKey : bytes) : M (option MessageWithMeta) :=
  let signedEnv := mk_Envelope mwk in
  valid ← logged (lift (VerifyEnvelope (Some signedEnv)));
  match valid with
  | Some true =>
      envelope ← logged (lift (ParseEnvelope (Some signedEnv)));
      match envelope with
      | None => mret None
      | Some envelope =>
          s ← self;
          let isOutgoing := isOutgoingMessage (config s) (se_SenderPubkey signedEnv) in
          '(msg, timestamp) ← decryptMessageContent signedEnv envelope (mk_Timestamp mwk) isOutgoing contactPubKey;
          mret (Some (mkMessageMeta msg isOutgoing timestamp))
      end
  | _ => mret None
  end.

Fixpoint decrypt_loop (msgs : list MessageWithKey) (contactPubKey : bytes) : M (list MessageWithMeta) :=
  match msgs with
  | [] => mret []
  | mwk :: msgs =>
      m ← logged (decryptMessageWithMeta mwk contactPubKey);
      rest ← decrypt_loop msgs contactPubKey;
      mret (match m with Some (Some m) => m :: rest | _ => rest end)
  end.

Definition GetDecryptedMessagesWithMeta (contactPubKey : bytes) (limit offset : Z) : M (list MessageWithMeta) :=
  _ ← require_started;
  msgs ← with_db (GetMessagesWithTimestamps contactPubKey limit offset);
  decrypt_loop msgs contactPubKey.

Definition GetDecryptedMessages (contactPubKey : bytes) (limit offset : Z) : M (list Message) :=
  meta ← GetDecryptedMessagesWithMeta contactPubKey limit offset; mret (mm_Message <$> meta).

(** ** Sending *)

Definition SendMessage (text : string) (recipientEd25519PubKey recipientX25519PubKey : bytes) : M SendResult :=
  _ ← require_started;
  s ← self;
  if negb (length recipientEd25519PubKey =? 32)%nat then throw (ErrText "invalid recipient Ed25519 public key length")
  else if negb (length recipientX25519PubKey =? 32)%nat then throw (ErrText "invalid recipient X25519 public key length")
  else if bool_decide (recipientEd25519PubKey = OwnEd25519PubKey (config s)) then throw ErrSelfMessage
  else
    msg ← BuildMessageNow text;
    plaintext ← lift (wrapErr "failed to marshal message" (proto_Marshal msg));
    '(envelope, ephemeralPriv) ← wrap "failed to build envelope" (BuildEnvelope plaintext recipientX25519PubKey);
    signedEnvelope ← lift (wrapErr "failed to sign envelope" (SignEnvelope envelope (OwnEd25519PrivKey (config s))));
    encryptedEphemeral ← logged (encryptEphemeralKey ephemeralPriv (OwnX25519PrivKey (config s)) recipientX25519PubKey);
    let signedEnvelopeForStorage :=
      mkSignedEnv (se_Envelope signedEnvelope) (se_Signature signedEnvelope) (se_SenderPubkey signedEnvelope)
        (default [] encryptedEphemeral) in
    envelopeBytes ← lift (wrapErr "failed to marshal signed envelope" (proto_Marshal signedEnvelope));
    _ ← wrap "failed to publish envelope" (with_node (PublishTo recipientEd25519PubKey envelopeBytes));
    _ ← logged (store_message recipientEd25519PubKey signedEnvelopeForStorage);
    if (length envelopeBytes <? 8)%nat then panic
    else mret (mkSendResult signedEnvelope ("poc-" +:+ hex (take 8 envelopeBytes)) msg).

Definition SendMessageToContact := SendMessage.
Definition SendMessageWithRetry (text : string) (ed x : bytes) (maxAttempts : Z) : M SendResult := SendMessage text ed x.

Definition BuildMessageForTesting (text : string) (recipientX25519PubKey senderPrivKey : bytes) : M (SignedEnvelope * Message) :=
  msg ← BuildMessageNow text;
  plaintext ← lift (wrapErr "failed to marshal message" (proto_Marshal msg));
  '(envelope, _) ← wrap "failed to build envelope" (BuildEnvelope plaintext recipientX25519PubKey);
  signedEnvelope ← lift (wrapErr "failed to sign envelope" (SignEnvelope envelope senderPrivKey));
  mret (signedEnvelope, msg).

Definition SerializeEnvelope (envelope : SignedEnvelope) : outcome bytes := proto_Marshal envelope.
Definition DeserializeEnvelope (data : bytes) : outcome SignedEnvelope := ParseSignedEnvelope data.
Definition GetTopic (s : Service K L) : string := TopicFromPublicKey (OwnEd25519PubKey (config s)).
Definition GetContactX25519PubKey (contactEd25519PubKey : bytes) : outcome bytes :=
  Err (ErrText "contact X25519 key lookup not implemented - caller must provide key").

(** ** Contacts and their peers *)

(** [addr.String() + "/p2p/" + peerID] *)
Definition p2p_addr (addr : maddr) (peerID : string) : string := maddr_String addr +:+ "/p2p/" +:+ peerID.

Definition connectToPeerID (peerID : string) : M unit :=
  if bool_decide (peerID = "") then throw (ErrText "empty peer ID")
  else
    s ← self;
    if existsb (fun p => bool_decide (peer_String p = peerID)) (host_Peers (the_net (ipfsNode s))) then mret tt
    else
      peerInfo ← wrap "DHT lookup failed" (with_node (FindPeer peerID));
      match ai_Addrs peerInfo with
      | [] => throw (ErrText "no addresses found for peer")
      | addr :: _ => with_node (ConnectToPeer (p2p_addr addr peerID))
      end.

Definition multiaddrsEqual (a b : list string) : bool := bool_decide (a = b).

Definition persistContactPeer (contactPubKey : bytes) (peerID : string) (multiaddrs : list string) : M unit :=
  contact ← logged (with_db (GetContact contactPubKey));
  match contact with
  | None | Some None => mret tt
  | Some (Some contact) =>
      let newPeer := negb (bool_decide (peerID = "")) && negb (bool_decide (c_PeerId contact = peerID)) in
      let newAddrs := (0 <? length multiaddrs)%nat && negb (multiaddrsEqual (c_Multiaddrs contact) multiaddrs) in
      if newPeer || newAddrs then
        now ← time_now;
        let contact := mkContact (c_PublicKey contact) (c_DisplayName contact) (c_CreatedAt contact) (c_X25519PublicKey contact)
                         (if newPeer then peerID else c_PeerId contact) (if newAddrs then multiaddrs else c_Multiaddrs contact)
                         (to_unix now) in
        _ ← logged (with_db (AddContact contact)); mret tt
      else mret tt
  end.

Definition updateContactPeer (contactPubKey : bytes) (peerID : string) (multiaddrs : list string) (connected : bool) : M unit :=
  now ← time_now;
  _ ← update (fun s => s <| contactPeers := <[contactPubKey := mkContactPeer peerID multiaddrs now connected connected]> (contactPeers s) |>);
  persistContactPeer contactPubKey peerID multiaddrs.

(** A step of the search for a contact: it may find the result. *)
Definition attempt {A} (m : M A) (found : A -> M FindAndConnectResult) (next : M FindAndConnectResult) : M FindAndConnectResult :=
  a ← logged m; match a with Some a => found a | None => next end.

Definition connected_via (contactPubKey : bytes) (peerID : string) (addrs : list string) (source : string) : M FindAndConnectResult :=
  _ ← updateContactPeer contactPubKey peerID addrs true; mret (mkConnectResult peerID addrs source).

(** Step 5: the contact's stored addresses in turn. *)
Fixpoint try_addrs (contactPubKey : bytes) (contact : Contact) (addrs : list string) (next : M FindAndConnectResult)
    : M FindAndConnectResult :=
  match addrs with
  | [] => next
  | addr :: addrs =>
      attempt (with_node (ConnectToPeer addr))
        (fun _ => connected_via contactPubKey (c_PeerId contact) (c_Multiaddrs contact) "multiaddr")
        (try_addrs contactPubKey contact addrs next)
  end.

(** Step 6: the DHT. *)
Definition try_dht (contactPubKey : bytes) (contact : Contact) (next : M FindAndConnectResult) : M FindAndConnectResult :=
  if bool_decide (c_PeerId contact = "") then next
  else
    attempt (with_node (FindPeer (c_PeerId contact)))
      (fun peerInfo =>
         match ai_Addrs peerInfo with
         | [] => next
         | addr :: _ =>
             attempt (with_node (ConnectToPeer (p2p_addr addr (c_PeerId contact))))
               (fun _ => connected_via contactPubKey (c_PeerId contact) (maddr_String <$> ai_Addrs peerInfo) "dht")
               next
         end)
      next.

Definition FindAndConnectToContact (contactPubKey : bytes) : M FindAndConnectResult :=
  _ ← require_started;
  s ← self;
  let cachedInfo := contactPeers s !! contactPubKey in
  match cachedInfo with
  | Some {| cp_PeerID := peerID; cp_Multiaddrs := addrs; cp_Connected := true |} => mret (mkConnectResult peerID addrs "cached")
  | _ =>
      contact ← wrap "failed to get contact" (with_db (GetContact contactPubKey));
      match contact with
      | None => throw ErrUnknownContact
      | Some contact =>
          let offline := throw (ErrText "failed to find and connect to contact - they may be offline") in
          let step6 := try_dht contactPubKey contact offline in
          let step5 := try_addrs contactPubKey contact (c_Multiaddrs contact) step6 in
          let step4 := if bool_decide (c_PeerId contact = "") then step5
                       else attempt (connectToPeerID (c_PeerId contact))
                              (fun _ => connected_via contactPubKey (c_PeerId contact) (c_Multiaddrs contact) "stored") step5 in
          match cachedInfo with
          | Some info =>
              if bool_decide (cp_PeerID info = "") then step4
              else attempt (connectToPeerID (cp_PeerID info))
                     (fun _ => connected_via contactPubKey (cp_PeerID info) (cp_Multiaddrs info) "cached") step4
          | None => step4
          end
      end
  end.

Definition FindAndConnect (multiaddr : string) : M FindAndConnectResult :=
  _ ← require_started;
  if bool_decide (multiaddr = "") then throw (ErrText "peer not found - provide multiaddr or add contact to address book")
  else
    _ ← wrap "failed to connect to peer" (with_node (ConnectToPeer multiaddr));
    mret (mkConnectResult "" [multiaddr] "manual").

(** A peer that is not found is not online; no error. *)
Definition IsContactOnline (contactPubKey : bytes) : M bool :=
  _ ← require_started;
  s ← self;
  match contactPeers s !! contactPubKey with
  | Some {| cp_Connected := true |} => mret true
  | _ =>
      contact ← wrap "failed to get contact" (with_db (GetContact contactPubKey));
      match contact with
      | None => throw ErrUnknownContact
      | Some contact =>
          if bool_decide (c_PeerId contact = "") then throw (ErrText "contact has no peer ID")
          else
            peerInfo ← logged (with_node (FindPeer (c_PeerId contact)));
            match peerInfo with
            | None => mret false
            | Some peerInfo =>
                _ ← (if (0 <? length (ai_Addrs peerInfo))%nat
                     then updateContactPeer contactPubKey (c_PeerId contact) (maddr_String <$> ai_Addrs peerInfo) true else mret tt);
                mret true
            end
      end
  end.

Definition GetContactPeerInfo (contactPubKey : bytes) (s : Service K L) : option ContactPeerInfo := contactPeers s !! contactPubKey.
Definition GetAllContactStats (s : Service K L) : gmap bytes ContactPeerInfo := contactPeers s.

(** The refresh it may start changes nothing of the service. *)
Definition OptimizePubSubMesh (contactPubKey : bytes) : M unit :=
  topicInfo ← with_node (GetTopicInfo (TopicFromPublicKey contactPubKey));
  match topicInfo with None => throw (ErrText "topic not joined") | Some _ => mret tt end.

Definition GetTopicMeshSize (contactPubKey : bytes) : M Z :=
  topicInfo ← with_node (GetTopicInfo (TopicFromPublicKey contactPubKey));
  mret (match topicInfo with None => 0 | Some info => MeshSize info end).

(** The goroutine [SendMessage] starts: the bytes of the recipient's key are taken for a
    peer id. *)
Definition pre_send (recipientEd25519PubKey : bytes) : M unit :=
  _ ← logged (connectToPeerID (String.string_of_list_byte recipientEd25519PubKey));
  _ ← logged (OptimizePubSubMesh recipientEd25519PubKey);
  mret tt.

Definition GetContactStatus (contactPubKey : bytes) : M ContactStatus :=
  contact ← wrap "failed to get contact" (with_db (GetContact contactPubKey));
  match contact with
  | None => throw ErrUnknownContact
  | Some contact =>
      s ← self;
      let info := contactPeers s !! contactPubKey in
      let peerID := match info with Some i => cp_PeerID i | None => "" end in
      let isOnline := match info with Some i => cp_IsOnline i | None => false end in
      let connected := match info with Some i => cp_Connected i | None => false end in
      meshSize ← GetTopicMeshSize contactPubKey;
      mret (mkContactStatus (c_PublicKey contact) (c_DisplayName contact) isOnline connected peerID meshSize connected)
  end.

Fixpoint statuses_loop (contacts : list Contact) : M (list ContactStatus) :=
  match contacts with
  | [] => mret []
  | contact :: contacts =>
      status ← logged (GetContactStatus (c_PublicKey contact));
      rest ← statuses_loop contacts;
      mret (match status with Some status => status :: rest | None => rest end)
  end.

Definition GetAllContactStatuses : M (list ContactStatus) :=
  contacts ← wrap "failed to list contacts" (with_db ListContacts); statuses_loop contacts.
End Service.
