(* ===== verification/MessagingProps.v ===== *)
(** * pkg/messaging: what is sent is received

    A message that was sent is received by whoever holds the recipient's key, and
    is in the histories of both; what the signature of an envelope does not say;
    the listener after a restart; the presence of a contact. *)
From S2P Require Import Prelude Primitives Crypto Proto Badger GroupState Storage StorageProps Runtime Topic Float64 Metrics Node NodeInfo NodeProps.
From S2P Require Import Messages Messaging.
#[local] Open Scope Z_scope.
#[local] Arguments DeriveKey : simpl never.
#[local] Arguments Decrypt : simpl never.
#[local] Arguments ParseEnvelope : simpl never.
#[local] Arguments DecryptEnvelope : simpl never.
#[local] Arguments VerifyEnvelope : simpl never.
#[local] Arguments ParseMessage : simpl never.
#[local] Arguments GetContact : simpl never.
#[local] Arguments AddMessage : simpl never.

(** ** Envelopes *)

Section Envelopes.
Context `{P : Primitives} `{!PrimitiveLaws P}.
Context `{!Codec Message} `{!CodecLaws Message} `{!Codec Envelope} `{!CodecLaws Envelope} `{!Codec SignedEnvelope} `{!CodecLaws SignedEnvelope}.

(** [e] holds the plaintext [p] for the key [x], and [k] is its ephemeral private key. *)
Record sealed_for (p x k : bytes) (e : Envelope) : Prop := {
  sf_eph : x25519 k Basepoint = Some (e_EphemeralPubkey e);
  sf_recipient : length x = 32%nat;
  sf_key : length k = 32%nat;
  sf_nonce : length (e_Nonce e) = 24%nat;
  sf_sealed : exists shared key, x25519 k x = Some shared /\ DeriveKey shared [] (str "encryption") 32 = Ok key /\
    length key = 32%nat /\ e_Ciphertext e = sealX key (e_Nonce e) p [];
}.

Lemma BuildEnvelope_Ok {X} p x (w w' : Sys X) e k :
  BuildEnvelope p x w = (w', Ok (e, k)) ->
  sealed_for p x k e /\ w' = mkSys (mkEnvironment (fun i => rands (env w) (S (S i))) (clock (env w))) (obj w).
Proof.
  unfold BuildEnvelope, generateEphemeralKeyPair, rand_opt, lift, wrap, mbind, GoM_bind.
  destruct (length x =? SharedSecretSize)%nat eqn:Ex; cbn; [apply Nat.eqb_eq in Ex|by intros [=]].
  destruct (rands (env w) 0) as [r|]; cbn; [|by intros [=]].
  destruct (x25519 (fit 32 r) Basepoint) as [pub|] eqn:Ep; cbn; [|by intros [=]].
  unfold ComputeSharedSecret. rewrite !check_len_ok by (done || apply fit_length). cbn.
  destruct (x25519 (fit 32 r) x) as [s|] eqn:Es; cbn; [|by intros [=]].
  destruct (DeriveKey_32 s [] (str "encryption")) as (key & Ek & Lk). unfold EncryptWithSharedSecret.
  rewrite check_len_ok by (by eapply x25519_length). cbn. rewrite Ek. cbn.
  destruct (rands (env w) 1) as [n|]; cbn; [|by intros [=]].
  rewrite Encrypt_Ok by (done || apply fit_length). cbn. intros [= <- <- <-]. split; [|done].
  split; cbn; [done|done|apply fit_length|apply fit_length|by exists s, key].
Qed.

Lemma sealed_opens p x k e kB :
  sealed_for p x k e -> x25519 kB Basepoint = Some x -> length kB = 32%nat -> DecryptEnvelope (Some e) kB = Ok p.
Proof.
  intros [He Hx Hk Hn (s & key & Es & Ek & Lk & Ec)] Hb Lb. unfold DecryptEnvelope. rewrite Lb. cbn [Nat.eqb SharedSecretSize negb].
  rewrite (x25519_length _ _ _ He). cbn [Nat.ltb Nat.leb]. unfold ComputeSharedSecret.
  rewrite !check_len_ok by (done || by eapply x25519_length). cbn.
  rewrite (x25519_agree kB k x _ Hb He), Es. cbn. unfold DecryptWithSharedSecret.
  rewrite check_len_ok by (by eapply x25519_length). cbn. rewrite Ek. cbn.
  unfold Decrypt. rewrite !check_len_ok by done. cbn. by rewrite Ec, openX_sealX.
Qed.

Lemma sealed_reads p x k e : sealed_for p x k e -> decryptWithEphemeralKey e k x = ParseMessage p.
Proof.
  intros [He Hx Hk Hn (s & key & Es & Ek & Lk & Ec)]. unfold decryptWithEphemeralKey, ComputeSharedSecret.
  rewrite !check_len_ok by done. cbn. rewrite Es. cbn. rewrite Ek. cbn.
  unfold Decrypt. rewrite !check_len_ok by done. cbn. by rewrite Ec, openX_sealX.
Qed.

(** An encoded message with a field that is not empty is not empty. *)
Hypothesis marshal_nonempty : forall (e : Envelope) b, marshal e = Some b -> e_Ciphertext e <> [] -> b <> [].

Lemma sealed_nonempty p x k e : sealed_for p x k e -> e_Ciphertext e <> [].
Proof.
  intros [_ _ _ _ (s & key & _ & _ & _ & Ec)] E. apply (f_equal length) in E. rewrite Ec, sealX_length in E. cbn in E. lia.
Qed.

Lemma sealed_parses p x k e s :
  sealed_for p x k e -> marshal e = Some (se_Envelope s) -> ParseEnvelope (Some s) = Ok e.
Proof.
  intros Hs Hm. pose proof (sealed_nonempty _ _ _ _ Hs) as Hc. pose proof (marshal_nonempty _ _ Hm Hc) as Hb.
  unfold ParseEnvelope. rewrite (proj2 (Nat.eqb_neq _ _)) by (by intros ?%length_zero_iff_nil).
  unfold proto_Unmarshal. rewrite (unmarshal_marshal _ _ Hm). cbn.
  rewrite (proj2 (Nat.eqb_neq _ _)) by (by intros ?%length_zero_iff_nil).
  by rewrite (x25519_length _ _ _ (sf_eph _ _ _ _ Hs)), (sf_nonce _ _ _ _ Hs).
Qed.

(** A signed envelope that is well formed and verifies. *)
Lemma signed_parses e pub priv s :
  ed_keypair pub priv -> (exists p x k, sealed_for p x k e) -> SignEnvelope e priv = Ok s ->
  marshal e = Some (se_Envelope s) /\ se_SenderPubkey s = pub /\ se_EncryptedEphemeralPriv s = [] /\
  VerifyEnvelope (Some s) = Ok true /\
  (forall b, marshal s = Some b -> ParseSignedEnvelope b = Ok s).
Proof.
  intros Hk (p & x & k & Hs) H. unfold SignEnvelope in H. outcome_split.
  rewrite (ed25519_Sign_Ok _ _ _ Hk) in *. unfold proto_Marshal in *. outcome_split. subst.
  pose proof (ed_keypair_lengths _ _ Hk) as [Lp Lq].
  assert (ed25519_Public priv = pub) as Epub.
  { destruct Hk as (seed & Hl & -> & ->). unfold ed25519_Public. by rewrite drop_app_length'. }
  rewrite Epub. cbn. split; [done|]. split; [done|]. split; [done|]. split.
  - unfold VerifyEnvelope. cbn. by rewrite Lp, (ed25519_Verify_Sign _ _ _ Hk).
  - intros b Hb. unfold ParseSignedEnvelope, proto_Unmarshal. rewrite (unmarshal_marshal _ _ Hb). cbn.
    rewrite (proj2 (Nat.eqb_neq _ _)), ed_sign_length, Lp; [done|].
    intros ?%length_zero_iff_nil. by eapply marshal_nonempty; [|eapply sealed_nonempty|].
Qed.
End Envelopes.

(** ** Sending *)

Section Delivery.
Context `{P : Primitives} `{!PrimitiveLaws P} {K : KV} {L : Libp2p}.
Context `{!Codec Message} `{!CodecLaws Message} `{!Codec Envelope} `{!CodecLaws Envelope} `{!Codec SignedEnvelope} `{!CodecLaws SignedEnvelope}
  `{!Codec Contact}.
Hypothesis marshal_nonempty : forall (e : Envelope) b, marshal e = Some b -> e_Ciphertext e <> [] -> b <> [].
Implicit Types w : Sys (Service K L).

Lemma run_logged {A} (m : GoM (Sys (Service K L)) A) w w' o :
  logged m w = (w', Ok o) -> (exists a, m w = (w', Ok a) /\ o = Some a) \/ (exists e, m w = (w', Err e) /\ o = None).
Proof. unfold logged. destruct (m w) as [w1 [a|e|]]; intros [= <- <-]; eauto. Qed.

(** The sender's copy of the ephemeral key can be read again. *)
Lemma encryptEphemeralKey_run k kA x w :
  length kA = 32%nat -> length x = 32%nat -> is_Some (x25519 kA x) -> is_Some (rands (env w) 0) ->
  exists c, (encryptEphemeralKey k kA x w).2 = Ok c /\ c <> [] /\ decryptEphemeralKey c kA x = Ok k.
Proof.
  intros Lk Lx [s Es] [r Hr]. unfold encryptEphemeralKey, decryptEphemeralKey, ephemeral_key, ComputeSharedSecret.
  destruct (DeriveKey_32 s [] (str "ephemeral-key-encryption")) as (key & Ek & Lkey).
  rewrite !check_len_ok by done. unfold lift, mbind, GoM_bind, rand_opt. cbn. rewrite Es. cbn. rewrite Ek. cbn. rewrite Hr. cbn.
  assert (length (fit 24 r) = 24%nat) as Lr by apply fit_length.
  rewrite Encrypt_Ok by done. cbn. eexists. split; [reflexivity|]. split.
  - intros [E _]%app_eq_nil. by rewrite E in Lr.
  - rewrite length_app, Lr. cbn. rewrite drop_app_length', take_app_length' by done.
    unfold Decrypt. rewrite !check_len_ok by done. cbn. by rewrite openX_sealX.
Qed.

Lemma encryptEphemeralKey_frame k kA x w :
  obj (encryptEphemeralKey k kA x w).1 = obj w /\ clock (env (encryptEphemeralKey k kA x w).1) = clock (env w).
Proof.
  unfold encryptEphemeralKey, lift, wrap, mbind, GoM_bind, rand_opt. destruct (ephemeral_key kA x) as [key|e|]; cbn; [|done..].
  destruct (rands (env w) 0); cbn; [|done]. by destruct (Encrypt _ _ _).
Qed.

(** What a message is that has been sent. *)
Record sent (text : string) (ed x : bytes) (w w' : Sys (Service K L)) (r : SendResult) : Prop := {
  st_message : sr_Message r = mkMessage text (to_unix (clock (env w) 0));
  st_lengths : length ed = 32%nat /\ length x = 32%nat /\ ed <> OwnEd25519PubKey (config (obj w));
  st_envelope : exists p k e bs enc n1 n2,
    marshal (sr_Message r) = Some p /\ sealed_for p x k e /\ SignEnvelope e (OwnEd25519PrivKey (config (obj w))) = Ok (sr_SignedEnvelope r) /\
    marshal (sr_SignedEnvelope r) = Some bs /\
    ps_Publish (TopicFromPublicKey ed) bs n1 = Some n2 /\ the_net (ipfsNode (obj w')) = n2 /\
    (is_Some (rands (env w) 2) -> length (OwnX25519PrivKey (config (obj w))) = 32%nat -> is_Some (x25519 (OwnX25519PrivKey (config (obj w))) x) ->
       enc <> [] /\ decryptEphemeralKey enc (OwnX25519PrivKey (config (obj w))) x = Ok k) /\
    db (obj w') = (AddMessage (clock (env w) 1 / SecondNs) ed
                     (mkSignedEnv (se_Envelope (sr_SignedEnvelope r)) (se_Signature (sr_SignedEnvelope r)) (se_SenderPubkey (sr_SignedEnvelope r)) enc)
                     (db (obj w))).1;
  st_config : config (obj w') = config (obj w);
}.

Lemma PublishTo_net pub data (w w' : Sys (Node L)) :
  PublishTo pub data w = (w', Ok tt) ->
  env w' = env w /\ exists n, ps_Publish (TopicFromPublicKey pub) data n = Some (the_net (obj w')).
Proof.
  unfold PublishTo, Publish, pubsub_ready, getOrJoin, call. intros H. run_split.
  repeat match goal with H : context [if ?c then _ else _] |- _ => destruct c; run_split end;
    outcome_split; cbn; eauto.
Qed.

Lemma store_message_state ed s w : 
  (store_message ed s w).1 = mkSys (mkEnvironment (rands (env w)) (fun i => clock (env w) (S i)))
     (obj w <| db := (AddMessage (clock (env w) 0%nat / SecondNs) ed s (db (obj w))).1 |>).
Proof.
  unfold store_message, with_db, on, zoom, time_now, mbind, GoM_bind. cbn. by destruct (AddMessage _ _ _ _).
Qed.

Lemma logged_state {A} (m : GoM (Sys (Service K L)) A) w w' o : logged m w = (w', Ok o) -> w' = (m w).1.
Proof. intros [(a & -> & _)|(e & -> & _)]%run_logged; done. Qed.

Lemma with_node_run {A} (m : GoM (Sys (Node L)) A) w w' a :
  with_node m w = (w', Ok a) ->
  exists n, m (mkSys (env w) (ipfsNode (obj w))) = (n, Ok a) /\ w' = mkSys (env n) (obj w <| ipfsNode := obj n |>).
Proof. unfold with_node, within. destruct (m _) as [n r] eqn:E. intros [= <- ->]. eauto. Qed.

Lemma SendMessage_sent text ed x w w' r :
  SendMessage text ed x w = (w', Ok r) -> sent text ed x w w' r.
Proof.
  unfold SendMessage, require_started. intros H. run_split. destruct (negb (sv_isStarted _)); run_split.
  destruct (negb (length ed =? 32)%nat) eqn:Eed; run_split. destruct (negb (length x =? 32)%nat) eqn:Ex; run_split.
  case_bool_decide as Eself; run_split. apply negb_false_iff, Nat.eqb_eq in Eed, Ex.
  unfold BuildMessageNow in *. run_split.
  repeat match goal with H : BuildEnvelope _ _ _ = _ |- _ => apply BuildEnvelope_Ok in H as [? ?] end. run_split.
  repeat match goal with H : with_node _ _ = _ |- _ => apply with_node_run in H as (n & H & ?) end. run_split.
  destruct (length _ <? 8)%nat; run_split. subst. cbn [env obj rands clock] in *.
  repeat match goal with u : unit |- _ => destruct u end.
  match goal with H : PublishTo _ _ _ = _ |- _ => apply PublishTo_net in H as (En & n0 & Hn) end. cbn [env obj] in *.
  match goal with H : logged (encryptEphemeralKey ?k ?kA _) ?w1 = _ |- _ =>
    pose proof (encryptEphemeralKey_frame k kA x w1) as Hf; pose proof (encryptEphemeralKey_run k kA x w1) as Hrun;
    pose proof (run_logged _ _ _ _ H) as Hlog; rewrite <- (logged_state _ _ _ _ H) in Hf end.
  destruct Hf as [Hfo Hfc]. cbn [env obj rands clock] in Hfo, Hfc, Hrun.
  match goal with H : logged (store_message _ _) _ = _ |- _ => apply logged_state in H; rewrite store_message_state in H end. subst.
  outcome_split. unfold proto_Marshal in *. outcome_split.
  split; cbn; [done|by rewrite ?Hfo| |by rewrite ?Hfo].
  eexists _, _, _, _, _, _, _. split; [eassumption|]. split; [eassumption|]. split; [eassumption|]. split; [eassumption|].
  split; [eassumption|]. split; [done|]. split; [|cbn; by rewrite En, Hfo, Hfc].
  intros Hr Lk Hs. destruct (Hrun Lk Ex Hs Hr) as (c & Hc & Hne & Hd).
  destruct Hlog as [(a & Ha & ->)|(e' & Ha & ->)]; rewrite Ha in Hc; cbn in Hc; [|done]. by injection Hc as ->.
Qed.

(** ** Receiving *)

Lemma open_signed_sealed s e p x k pub priv kB :
  ed_keypair pub priv -> sealed_for p x k e -> SignEnvelope e priv = Ok s ->
  x25519 kB Basepoint = Some x -> length kB = 32%nat ->
  open_signed s kB = wrapErr "failed to parse message" (ParseMessage p).
Proof.
  intros Hk Hs Hsig Hb Lb. destruct (signed_parses marshal_nonempty _ _ _ _ Hk ltac:(eauto) Hsig) as (Hm & _ & _ & Hv & _).
  unfold open_signed. rewrite Hv. cbn. rewrite (sealed_parses marshal_nonempty _ _ _ _ _ Hs Hm). cbn.
  by rewrite (sealed_opens _ _ _ _ _ Hs Hb Lb).
Qed.

Lemma ParseMessage_marshal m p : marshal m = Some p -> ParseMessage p = Ok m.
Proof. intros H. unfold ParseMessage, proto_Unmarshal. by rewrite (unmarshal_marshal _ _ H). Qed.

Lemma AddMessage_no_panic now c s d : (AddMessage now c s d).2 <> Panic.
Proof.
  unfold AddMessage, lift, mbind, GoM_bind, proto_Unmarshal, proto_Marshal, db_set.
  destruct (unmarshal (se_Envelope s)); cbn; [|done]. destruct (marshal s); cbn; [|done]. by destruct (kv_set _ _ d).
Qed.

Lemma GetContact_reads c d : (GetContact c d).1 = d /\ (GetContact c d).2 <> Panic.
Proof.
  unfold GetContact, db_get. destruct (kv_get _ d) as [[b|]|]; cbn; [|done..]. unfold proto_Unmarshal. by destruct (unmarshal b).
Qed.

(** A message that can be opened is stored under its sender, and told if the channel has room. *)
Lemma processEnvelope_run bs s msg w :
  ParseSignedEnvelope bs = Ok s -> open_signed s (OwnX25519PrivKey (config (obj w))) = Ok msg ->
  let stored := obj w <| db := (AddMessage (clock (env w) 0 / SecondNs) (se_SenderPubkey s) s (db (obj w))).1 |> in
  exists env', processEnvelope bs w =
    (mkSys env' (if (length (messageChan (obj w)) <? channelCapacity)%nat
                 then stored <| messageChan := messageChan (obj w) ++ [mkMessageEvent (se_SenderPubkey s) msg s] |> else stored), Ok tt).
Proof.
  intros Hp Ho. unfold processEnvelope, lift, self, mbind, GoM_bind, logged. cbn. rewrite Hp. cbn. rewrite Ho. cbn.
  unfold with_db, store_message, on, zoom. destruct (GetContact_reads (se_SenderPubkey s) (db (obj w))) as [Hd Hn].
  destruct (GetContact _ _) as [d' o]. cbn [fst snd] in Hd, Hn. subst d'.
  pose proof (AddMessage_no_panic (clock (env w) 0 / SecondNs) (se_SenderPubkey s) s (db (obj w))) as Ha.
  unfold with_db, on, zoom, time_now, update, mbind, GoM_bind.
  destruct o as [a|e|]; [| |done]; cbn; destruct (AddMessage _ _ _ _) as [d' [u|e'|]]; cbn in *; try done;
    eexists; destruct (length (messageChan (obj w)) <? channelCapacity)%nat; reflexivity.
Qed.

(** C2. A message that was sent is delivered: what [SendMessage] published under the recipient's
    topic makes a service with the recipient's key that takes it from its subscription report
    the text, the time and the sender's key, as long as its channel of events has room; nothing is assumed of either
    storage. *)
Theorem message_delivered text ed x w w' r :
  ed_keypair (OwnEd25519PubKey (config (obj w))) (OwnEd25519PrivKey (config (obj w))) ->
  SendMessage text ed x w = (w', Ok r) ->
  exists bs n, ps_Publish (TopicFromPublicKey ed) bs n = Some (the_net (ipfsNode (obj w'))) /\
  forall wB, x25519 (OwnX25519PrivKey (config (obj wB))) Basepoint = Some x ->
    length (OwnX25519PrivKey (config (obj wB))) = 32%nat -> listening (obj wB) = true ->
    let event := mkMessageEvent (OwnEd25519PubKey (config (obj w))) (mkMessage text (to_unix (clock (env w) 0))) (sr_SignedEnvelope r) in
    exists wB', listen_message bs wB = (wB', Ok tt) /\ listening (obj wB') = true /\
      messageChan (obj wB') =
        if (length (messageChan (obj wB)) <? channelCapacity)%nat then messageChan (obj wB) ++ [event] else messageChan (obj wB).
Proof.
  intros Hk H. apply SendMessage_sent in H as [Hm _ (p & k & e & bs & enc & n1 & n2 & Ep & Hs & Hsig & Hbs & Hpub & <- & _) _].
  exists bs, n1. split; [done|]. intros wB Hx Lx Hl event.
  destruct (signed_parses marshal_nonempty _ _ _ _ Hk ltac:(eauto) Hsig) as (_ & Hsend & _ & _ & Hparse).
  pose proof (open_signed_sealed _ _ _ _ _ _ _ _ Hk Hs Hsig Hx Lx) as Ho. rewrite (ParseMessage_marshal _ _ Ep) in Ho.
  destruct (processEnvelope_run bs _ _ wB (Hparse _ Hbs) Ho) as (env' & Hrun).
  unfold listen_message, handlePubSubMessage, self, logged, mbind, GoM_bind. rewrite Hl. cbv zeta in Hrun. rewrite Hrun, Hsend, Hm.
  eexists. split; [reflexivity|]. cbn [obj]. by destruct (length (messageChan (obj wB)) <? channelCapacity)%nat.
Qed.

(** ** Histories *)

Context `{!KVLaws K} `{!KVTotal K} `{!CodecTotal SignedEnvelope} `{!CodecLaws Contact}.

(** The time a message is listed under. *)
Definition listed_at (m : Message) (stored : Z) : Z := if Timestamp m =? 0 then stored else Timestamp m.

Lemma respects_logged {A} (m : GoM (Sys (Service K L)) A) : respects (=) m -> respects (=) (logged m).
Proof. intros H w. specialize (H w). unfold logged. destruct (m w) as [w' [a|e|]]; done. Qed.
Lemma respects_with_db {A} (m : GoM kv A) : (forall d, (m d).1 = d) -> respects (=) (with_db (L := L) m).
Proof.
  intros H w. unfold with_db, on, zoom. specialize (H (db (obj w))). destruct (m (db (obj w))) as [d r]. cbn in *. subst.
  by destruct (obj w).
Qed.
#[local] Hint Resolve respects_logged respects_with_db : respects.

Lemma GetContactX25519Key_reads c d : (GetContactX25519Key c d).1 = d.
Proof.
  unfold GetContactX25519Key, mbind, GoM_bind, throw, mret, GoM_ret. pose proof (proj1 (GetContact_reads c d)) as H.
  destruct (GetContact c d) as [d' [[a|]|e|]]; cbn in *; try done. by case_match.
Qed.

Lemma decryptMessageWithMeta_reads mwk c : respects (=) (decryptMessageWithMeta mwk c : GoM (Sys (Service K L)) _).
Proof.
  unfold decryptMessageWithMeta, decryptMessageContent, decryptOutgoingMessage, decryptIncomingMessage.
  repeat first [ apply respects_bind; [apply _| |intros ?] | apply respects_logged
               | apply respects_with_db; intros; apply GetContactX25519Key_reads
               | solve [eauto with respects] | case_match ].
Qed.

Lemma decrypt_loop_in mwk mm c msgs w w' ms :
  (forall w1, obj w1 = obj w -> (decryptMessageWithMeta mwk c w1).2 = Ok (Some mm)) ->
  mwk ∈ msgs -> decrypt_loop msgs c w = (w', Ok ms) -> mm ∈ ms.
Proof.
  intros Hm. revert w Hm ms; induction msgs as [|m msgs IH]; intros w Hm ms Hin H; [by apply not_elem_of_nil in Hin|].
  cbn [decrypt_loop] in H. run_split.
  match goal with H : logged _ ?w1 = (?w2, Ok ?o) |- _ =>
    pose proof (respects_logged _ (decryptMessageWithMeta_reads m c) w1) as Hobj; rewrite H in Hobj; cbn in Hobj;
    pose proof (run_logged _ _ _ _ H) as Hlog end.
  apply elem_of_cons in Hin as [<-|Hin].
  - specialize (Hm _ eq_refl). destruct Hlog as [(a & Ha & ->)|(e & Ha & ->)]; rewrite Ha in Hm; cbn in Hm; [|done].
    injection Hm as ->. subst. left.
  - match goal with H : decrypt_loop _ _ _ = (_, Ok ?l) |- _ => assert (mm ∈ l) as Hl end.
    { eapply IH; [|done|eassumption]. intros w2 E. apply Hm. by rewrite E. }
    subst. destruct Hlog as [([a|] & _ & ->)|(e & _ & ->)]; [by right|done..].
Qed.

Lemma AddMessage_stored now c s (inner : Envelope) d :
  unmarshal (se_Envelope s) = Some inner -> AddMessage now c s d = ((AddMessage now c s d).1, Ok tt).
Proof.
  intros Hi. apply run_pair. unfold AddMessage, lift, mbind, GoM_bind, proto_Unmarshal, proto_Marshal, db_set. rewrite Hi. cbn.
  destruct (marshal_total s) as [b ->]. cbn. by edestruct kv_set_total as [? ->].
Qed.

(** A message that was stored and can be read again is shown. *)
Lemma stored_shown now c s (inner : Envelope) d mm w w' ms :
  length c = 32%nat -> unmarshal (se_Envelope s) = Some inner -> length (e_Nonce inner) = 24%nat ->
  db (obj w) = (AddMessage now c s d).1 ->
  (forall w1, obj w1 = obj w -> (decryptMessageWithMeta (mkMessageWithKey s (u64 now) (e_Nonce inner)) c w1).2 = Ok (Some mm)) ->
  GetDecryptedMessagesWithMeta c 0 0 w = (w', Ok ms) -> mm ∈ ms.
Proof.
  intros Lc Hi Hn Hd Hm H. unfold GetDecryptedMessagesWithMeta, require_started in H. run_split.
  destruct (negb (sv_isStarted _)); run_split.
  match goal with H : with_db _ _ = (_, Ok ?l) |- _ =>
    unfold with_db, on, zoom in H; destruct (GetMessagesWithTimestamps c 0 0 (db (obj w))) as [d' o] eqn:E; injection H as <- -> end.
  pose proof E as E'. unfold GetMessagesWithTimestamps in E'. injection E' as <- _.
  destruct (AddMessage_GetMessages now c s d (db (obj w)) _ inner Lc Hi ltac:(intros E0; by rewrite E0 in Hn)
    ltac:(rewrite Hd; by eapply AddMessage_stored) E) as [Hin _].
  eapply decrypt_loop_in; [|exact Hin|exact H]. intros w1 Hw. apply Hm. rewrite Hw. by destruct (obj w).
Qed.

Lemma GetContactX25519Key_same c d d' :
  kv_get (contactKey c) d' = kv_get (contactKey c) d -> (GetContactX25519Key c d').2 = (GetContactX25519Key c d).2.
Proof.
  intros H. unfold GetContactX25519Key, GetContact, db_get, mbind, GoM_bind. rewrite H.
  destruct (kv_get _ d) as [[b|]|]; cbn; [|done..]. destruct (proto_Unmarshal b); cbn; [|done..]. by case_match.
Qed.

Lemma AddMessage_contact now c s d c' : kv_get (contactKey c') (AddMessage now c s d).1 = kv_get (contactKey c') d.
Proof.
  unfold AddMessage, lift, mbind, GoM_bind, proto_Unmarshal, proto_Marshal, db_set.
  destruct (unmarshal (se_Envelope s)) as [e|]; cbn; [|done]. destruct (marshal s) as [b|]; cbn; [|done].
  destruct (kv_set _ b d) as [d'|] eqn:E; cbn; [|done]. by apply (kv_get_set_ne _ _ _ _ _ E).
Qed.

(** The sender reads a message of its own with the ephemeral key, the recipient with its own. *)
Lemma decrypt_outgoing_run s (e : Envelope) m p x k t nonce c w :
  VerifyEnvelope (Some s) = Ok true -> ParseEnvelope (Some s) = Ok e -> sealed_for p x k e -> marshal m = Some p ->
  se_SenderPubkey s = OwnEd25519PubKey (config (obj w)) -> (GetContactX25519Key c (db (obj w))).2 = Ok x ->
  se_EncryptedEphemeralPriv s <> [] -> decryptEphemeralKey (se_EncryptedEphemeralPriv s) (OwnX25519PrivKey (config (obj w))) x = Ok k ->
  (decryptMessageWithMeta (mkMessageWithKey s t nonce) c w).2 = Ok (Some (mkMessageMeta m true (listed_at m t))).
Proof.
  intros Hv Hp Hs Hm Ho Hx Hne Hd. unfold decryptMessageWithMeta, logged, lift, self, mbind, GoM_bind. cbn [mk_Envelope mk_Timestamp].
  rewrite Hv, Hp. cbn. unfold isOutgoingMessage. rewrite bool_decide_eq_true_2 by done. cbn.
  unfold decryptOutgoingMessage, logged, lift, self, with_db, on, zoom, mbind, GoM_bind. cbn.
  destruct (GetContactX25519Key _ _) as [d' o]. cbn in Hx. subst o. cbn.
  unfold decryptEphemeralKeyFromEnvelope. rewrite (proj2 (Nat.eqb_neq _ _)) by (by intros ?%length_zero_iff_nil). rewrite Hd. cbn.
  rewrite (sealed_reads _ _ _ _ Hs), (ParseMessage_marshal _ _ Hm). done.
Qed.

Lemma decrypt_incoming_run s (e : Envelope) m p x k t nonce c w :
  VerifyEnvelope (Some s) = Ok true -> ParseEnvelope (Some s) = Ok e -> sealed_for p x k e -> marshal m = Some p ->
  se_SenderPubkey s <> OwnEd25519PubKey (config (obj w)) ->
  x25519 (OwnX25519PrivKey (config (obj w))) Basepoint = Some x -> length (OwnX25519PrivKey (config (obj w))) = 32%nat ->
  (decryptMessageWithMeta (mkMessageWithKey s t nonce) c w).2 = Ok (Some (mkMessageMeta m false (listed_at m t))).
Proof.
  intros Hv Hp Hs Hm Ho Hx Lx. unfold decryptMessageWithMeta, logged, lift, self, mbind, GoM_bind. cbn [mk_Envelope mk_Timestamp].
  rewrite Hv, Hp. cbn. unfold isOutgoingMessage. rewrite bool_decide_eq_false_2 by done. cbn.
  unfold decryptIncomingMessage, logged, lift, self, mbind, GoM_bind. cbn.
  rewrite (sealed_opens _ _ _ _ _ Hs Hx Lx), (ParseMessage_marshal _ _ Hm). done.
Qed.

(** C13. Both ends of a conversation have it in their histories: after a message was sent, the sender's history
    with the contact shows it as outgoing, if the contact is stored with the key the message was
    sealed for and there was randomness; and after another service with the recipient's key took
    it from its subscription, the recipient's history with the sender shows it as incoming.  It is
    listed under its own time, or that of storing when it has none. *)
Theorem conversation_history text ed x w w' r :
  ed_keypair (OwnEd25519PubKey (config (obj w))) (OwnEd25519PrivKey (config (obj w))) ->
  SendMessage text ed x w = (w', Ok r) ->
  length (OwnX25519PrivKey (config (obj w))) = 32%nat -> is_Some (x25519 (OwnX25519PrivKey (config (obj w))) x) ->
  is_Some (rands (env w) 2) -> (GetContactX25519Key ed (db (obj w))).2 = Ok x ->
  let m := sr_Message r in
  (forall w2 ms, GetDecryptedMessagesWithMeta ed 0 0 w' = (w2, Ok ms) ->
     mkMessageMeta m true (listed_at m (u64 (clock (env w) 1 / SecondNs))) ∈ ms) /\
  exists bs n, ps_Publish (TopicFromPublicKey ed) bs n = Some (the_net (ipfsNode (obj w'))) /\
  forall wB, x25519 (OwnX25519PrivKey (config (obj wB))) Basepoint = Some x -> length (OwnX25519PrivKey (config (obj wB))) = 32%nat ->
    OwnEd25519PubKey (config (obj w)) <> OwnEd25519PubKey (config (obj wB)) -> listening (obj wB) = true ->
    forall w2 ms, GetDecryptedMessagesWithMeta (OwnEd25519PubKey (config (obj w))) 0 0 (listen_message bs wB).1 = (w2, Ok ms) ->
      mkMessageMeta m false (listed_at m (u64 (clock (env wB) 0 / SecondNs))) ∈ ms.
Proof.
  intros Hk H Lk Hsh Hr Hc m. pose proof (proj1 (ed_keypair_lengths _ _ Hk)) as Lp.
  apply SendMessage_sent in H as [Hm (Led & Lx & _) (p & k & e & bs & enc & n1 & n2 & Ep & Hs & Hsig & Hbs & Hpub & <- & Henc & Hdb) Hcfg].
  destruct (signed_parses marshal_nonempty _ _ _ _ Hk ltac:(eauto) Hsig) as (Hme & Hsend & _ & Hv & Hparse).
  pose proof (sealed_parses marshal_nonempty _ _ _ _ _ Hs Hme) as Hpe. destruct (Henc Hr Lk Hsh) as [Hne Hd]. split.
  - intros w2 ms. refine (stored_shown _ _ _ e _ _ _ _ _ Led _ (sf_nonce _ _ _ _ Hs) Hdb _); [exact (unmarshal_marshal _ _ Hme)|].
    intros w1 Hw1. eapply decrypt_outgoing_run; [exact Hv|exact Hpe|exact Hs|done|cbn; by rewrite Hw1, Hcfg| |done|by rewrite Hw1, Hcfg].
    rewrite Hw1, Hdb, <- Hc. apply GetContactX25519Key_same, AddMessage_contact.
  - exists bs, n1. split; [done|]. intros wB Hx Lb Ho Hl w2 ms.
    pose proof (open_signed_sealed _ _ _ _ _ _ _ _ Hk Hs Hsig Hx Lb) as Hopen. rewrite (ParseMessage_marshal _ _ Ep) in Hopen.
    destruct (processEnvelope_run bs _ _ wB (Hparse _ Hbs) Hopen) as (env' & Hrun).
    unfold listen_message, handlePubSubMessage, self, logged, mbind, GoM_bind. rewrite Hl. cbv zeta in Hrun. rewrite Hrun, Hsend. cbn [fst].
    apply (stored_shown (clock (env wB) 0 / SecondNs) _ (sr_SignedEnvelope r) e (db (obj wB)) _ _ _ _ Lp (unmarshal_marshal _ _ Hme) (sf_nonce _ _ _ _ Hs)).
    { cbn [obj]. by destruct (length (messageChan (obj wB)) <? channelCapacity)%nat. }
    intros w1 Hw1. eapply decrypt_incoming_run; [exact Hv|exact Hpe|exact Hs|done|..]; rewrite Hw1, ?Hsend; cbn [obj];
      by destruct (length (messageChan (obj wB)) <? channelCapacity)%nat.
Qed.
End Delivery.

(** ** What goes wrong *)

Section Failures.
Context `{P : Primitives} `{!PrimitiveLaws P} {K : KV} {L : Libp2p}.
Context `{!Codec Message} `{!Codec Envelope} `{!Codec SignedEnvelope} `{!Codec Contact}.
Implicit Types w : Sys (Service K L).

(** The signature of an envelope does not tie it to its sender: whoever sees the signed envelope of somebody
    else's message, without any key to it, can replace the key and the signature by its own, and
    the recipient opens the very same message as one of that sender's. *)
Theorem envelope_resigned s kB msg sender pub priv sig :
  ProcessIncomingMessage (Some s) kB = Ok (msg, sender) ->
  ed_keypair pub priv -> ed25519_Sign priv (se_Envelope s) = Ok sig ->
  ProcessIncomingMessage (Some (mkSignedEnv (se_Envelope s) sig pub [])) kB = Ok (msg, pub).
Proof.
  intros H Hk Hsig. rewrite (ed25519_Sign_Ok _ _ _ Hk) in Hsig. injection Hsig as <-.
  pose proof (proj1 (ed_keypair_lengths _ _ Hk)) as Lp.
  unfold ProcessIncomingMessage in *. outcome_split.
  match type of H with (if negb ?b then _ else _) = _ => destruct b; [|done] end. cbn [negb] in H. outcome_split.
  unfold VerifyEnvelope. cbn [se_SenderPubkey se_Envelope se_Signature]. rewrite Lp, (ed25519_Verify_Sign _ _ _ Hk). cbn.
  unfold ParseEnvelope in *. cbn [se_Envelope]. repeat match goal with E : _ = Ok _ |- _ => rewrite E; cbn; clear E end. congruence.
Qed.

(** C39. A service that was stopped cannot be used again: starting it succeeds, and it says it is started, but its
    context is still cancelled, so that the listener ends; from then on no message is taken from the
    subscription, and starting it once more changes nothing. *)
Theorem restarted_deaf w w1 w2 :
  sv_isStarted (obj w) = true -> Stop w = (w1, Ok tt) -> Start w1 = (w2, Ok tt) ->
  let w3 := (listen_done w2).1 in
  sv_isStarted (obj w3) = true /\ listening (obj w3) = false /\ Start w3 = (w3, Ok tt) /\
  (forall data, listen_message data w3 = (w3, Ok tt)) /\ subscription (obj w3) = Some (TopicFromPublicKey (OwnEd25519PubKey (config (obj w)))).
Proof.
  intros Hs H1 H2. unfold Stop in H1. run_split. subst. rewrite Hs in H1. cbn [negb] in H1. run_split.
  unfold Start in H2. run_split. subst. cbn [obj sv_isStarted set_field] in H2. destruct (negb _); run_split.
  match goal with H : with_node _ _ = _ |- _ => apply with_node_run in H as (n & Hn & ?) end. run_split. subst. cbn.
  unfold Subscribe in Hn. run_split. subst. cbn. done.
Qed.

Lemma AddContact_no_panic ct d : (AddContact ct d).2 <> Panic.
Proof.
  unfold AddContact, lift, mbind, GoM_bind, proto_Marshal, db_set. destruct (marshal ct); cbn; [|done]. by destruct (kv_set _ _ d).
Qed.

(** Noting a peer never fails. *)
Lemma updateContactPeer_run c p addrs connected w :
  exists w', updateContactPeer c p addrs connected w = (w', Ok tt) /\ ipfsNode (obj w') = ipfsNode (obj w) /\
    sv_isStarted (obj w') = sv_isStarted (obj w) /\
    contactPeers (obj w') = <[c := mkContactPeer p addrs (clock (env w) 0) connected connected]> (contactPeers (obj w)).
Proof.
  unfold updateContactPeer, persistContactPeer, time_now, update, logged, with_db, on, zoom, mbind, GoM_bind. cbn.
  destruct (GetContact_reads c (db (obj w))) as [Hd Hn]. destruct (GetContact c _) as [d' o]. cbn in Hd, Hn. subst d'.
  destruct o as [[ct|]|e|]; cbn; [|by eexists..|done]. destruct (_ || _); [|by eexists]. cbn.
  match goal with |- context [AddContact ?c' ?d] => pose proof (AddContact_no_panic c' d) as Ha; destruct (AddContact c' d) as [d' [u|e|]] end;
    cbn in *; [by eexists..|done].
Qed.

(** A contact that cannot be found may count as online and connected: when the DHT has no answer for the
    contact's peer but knows addresses of the peer closest to it, [IsContactOnline] says true and notes
    the contact as connected at the addresses of that other peer; then connecting to the contact
    succeeds at once, without a call to the network. *)
Theorem offline_contact_online c contact id other rest w :
  sv_isStarted (obj w) = true -> isStarted (ipfsNode (obj w)) = true ->
  contactPeers (obj w) !! c = None ->
  (GetContact c (db (obj w))).2 = Ok (Some contact) -> peer_Decode (c_PeerId contact) = Some id -> c_PeerId contact <> "" ->
  dht_FindPeer id (the_net (ipfsNode (obj w))) = None ->
  dht_GetClosestPeers id (the_net (ipfsNode (obj w))) = Some (other :: rest) ->
  let addrs := peerstore_Addrs other (the_net (ipfsNode (obj w))) in
  addrs <> [] ->
  exists w', IsContactOnline c w = (w', Ok true) /\ the_net (ipfsNode (obj w')) = the_net (ipfsNode (obj w)) /\
    FindAndConnectToContact c w' = (w', Ok (mkConnectResult (c_PeerId contact) (maddr_String <$> addrs) "cached")).
Proof.
  intros Hst Hno Hcp Hct Hdec Hid Hdht Hcl addrs Ha.
  assert (with_node (FindPeer (c_PeerId contact)) w = (w, Ok (mkAddrInfo other addrs))) as Hf.
  { unfold with_node, within, FindPeer, self, lift, mbind, GoM_bind. cbn. rewrite Hno. cbn. rewrite Hdec. cbn. rewrite Hdht, Hcl. cbn.
    fold addrs. destruct addrs; [done|]. cbn. by destruct w as [? []]. }
  destruct (updateContactPeer_run c (c_PeerId contact) (maddr_String <$> addrs) true w) as (w' & Hu & Hn & Hs & Hp).
  exists w'. split; [|split; [by rewrite Hn|]].
  - unfold IsContactOnline, require_started, self, wrap, with_db, on, zoom, mbind, GoM_bind. rewrite Hst. cbn. rewrite Hcp.
    destruct (GetContact_reads c (db (obj w))) as [Hd _]. destruct (GetContact c _) as [d' o]. cbn in Hd, Hct. subst d' o. cbn.
    rewrite bool_decide_eq_false_2 by done. unfold logged. cbn.
    assert (mkSys (env w) (obj w <| db := db (obj w) |>) = w) as -> by by destruct w as [? []].
    rewrite Hf. cbn. destruct addrs; [done|]. cbn in *. by rewrite Hu.
  - unfold FindAndConnectToContact, require_started, self, mbind, GoM_bind. rewrite Hs, Hst. cbn. by rewrite Hp, lookup_insert_eq.
Qed.
End Failures.

(** ** Examples *)
Module MessagingDemo.
Import NodeDemo.
#[export] Instance Message_eq : EqDecision Message.
Proof. solve_decision. Defined.
#[export] Program Instance Message_countable : Countable Message :=
  inj_countable' (fun m => (Text m, Timestamp m)) (fun '(a, b) => mkMessage a b) _.
Next Obligation. by intros []. Qed.
#[export] Instance Envelope_eq : EqDecision Envelope.
Proof. solve_decision. Defined.
#[export] Program Instance Envelope_countable : Countable Envelope :=
  inj_countable' (fun e => (e_Ciphertext e, e_EphemeralPubkey e, e_Nonce e)) (fun '(a, b, c) => mkEnv a b c) _.
Next Obligation. by intros []. Qed.
#[export] Instance SignedEnvelope_eq : EqDecision SignedEnvelope.
Proof. solve_decision. Defined.
#[export] Program Instance SignedEnvelope_countable : Countable SignedEnvelope :=
  inj_countable' (fun s => (se_Envelope s, se_Signature s, se_SenderPubkey s, se_EncryptedEphemeralPriv s))
    (fun '(a, b, c, d) => mkSignedEnv a b c d) _.
Next Obligation. by intros []. Qed.
#[export] Instance Contact_eq : EqDecision Contact.
Proof. solve_decision. Defined.
#[export] Program Instance Contact_countable : Countable Contact :=
  inj_countable' (fun c => (c_PublicKey c, c_DisplayName c, c_CreatedAt c, c_X25519PublicKey c, (c_PeerId c, c_Multiaddrs c, c_LastSeen c)))
    (fun '(a, b, c, d, (e, f, g)) => mkContact a b c d e f g) _.
Next Obligation. by intros []. Qed.
#[export] Instance Message_codec : Codec Message := countable_codec.
#[export] Instance Message_laws : CodecLaws Message := countable_codec_laws.
#[export] Instance Envelope_codec : Codec Envelope := countable_codec.
#[export] Instance Envelope_laws : CodecLaws Envelope := countable_codec_laws.
#[export] Instance SignedEnvelope_codec : Codec SignedEnvelope := countable_codec.
#[export] Instance SignedEnvelope_laws : CodecLaws SignedEnvelope := countable_codec_laws.
#[export] Instance Contact_codec : Codec Contact := countable_codec.
#[export] Instance Contact_laws : CodecLaws Contact := countable_codec_laws.

Lemma envelope_nonempty (e : Envelope) b : marshal e = Some b -> e_Ciphertext e <> [] -> b <> [].
Proof.
  intros [= <-] _ H. apply (f_equal length) in H. unfold encode_bytes in H. rewrite le_encode_length in H.
  pose proof (Z.div_pos _ 8 (Z.log2_nonneg (Z.pos (encode e))) ltac:(lia)) as Hq. cbn [length] in H.
  set (q := Z.log2 _ / 8) in *. clearbody q. lia.
Qed.

(** A seed per person, and an X25519 key. *)
Definition seed (b : Byte.byte) : bytes := replicate 32 b.
Definition x_pub (k : bytes) : bytes := default [] (x25519 k Basepoint).
Definition keys (b : Byte.byte) : Config :=
  mkConfig (seed b ++ ed_pub (seed b)) (ed_pub (seed b)) (seed b) (x_pub (seed b)).
Definition bob_contact : Contact := mkContact (OwnEd25519PubKey (keys Byte.x02)) "Bob" 1 (OwnX25519PubKey (keys Byte.x02)) "bob" [] 0.
Definition contacts : gmap bytes bytes := (AddContact bob_contact (∅ : gmap bytes bytes)).1.
Definition world (b : Byte.byte) (now : Z) : Sys (Service gmap_kv demo_p2p) :=
  mkSys (mkEnvironment (fun _ => Some (zeros 0)) (fun _ => now * SecondNs))
    (mkService (K := gmap_kv) (keys b) contacts node None false true true [] ∅).
Definition alice := world Byte.x01 100.
Definition bob := world Byte.x02 200.
Definition hello := SendMessage "hello" (OwnEd25519PubKey (keys Byte.x02)) (OwnX25519PubKey (keys Byte.x02)) alice.
Definition hello_result : SendResult :=
  match hello.2 with Ok r => r | _ => mkSendResult (mkSignedEnv [] [] [] []) "" (mkMessage "" 0) end.

Lemma keys_pair b : ed_keypair (OwnEd25519PubKey (keys b)) (OwnEd25519PrivKey (keys b)).
Proof. by exists (seed b). Qed.
Lemma hello_sent : hello = (hello.1, Ok hello_result).
Proof. apply (run_pair (SendMessage _ _ _)). vm_compute. reflexivity. Qed.
End MessagingDemo.
Import NodeDemo MessagingDemo.

Lemma message_delivered_witness :
  exists bs n wB', ps_Publish (TopicFromPublicKey (OwnEd25519PubKey (keys Byte.x02))) bs n = Some (the_net (ipfsNode (obj hello.1))) /\
    listen_message bs bob = (wB', Ok tt) /\ me_Message <$> messageChan (obj wB') = [mkMessage "hello" 100].
Proof.
  destruct (message_delivered envelope_nonempty "hello" (OwnEd25519PubKey (keys Byte.x02)) (OwnX25519PubKey (keys Byte.x02)) alice hello.1 hello_result (keys_pair Byte.x01) hello_sent) as (bs & n & Hp & H).
  destruct (H bob) as (wB' & Hl & _ & Hc); [by vm_compute..|]. exists bs, n, wB'. split; [exact Hp|]. split; [exact Hl|].
  rewrite Hc. vm_compute. reflexivity.
Defined.

Lemma conversation_history_witness :
  exists w2 ms, GetDecryptedMessagesWithMeta (OwnEd25519PubKey (keys Byte.x02)) 0 0 hello.1 = (w2, Ok ms) /\
    mkMessageMeta (mkMessage "hello" 100) true 100 ∈ ms.
Proof.
  assert (exists ms, (GetDecryptedMessagesWithMeta (OwnEd25519PubKey (keys Byte.x02)) 0 0 hello.1).2 = Ok ms) as [ms E]
    by (exists [mkMessageMeta (mkMessage "hello" 100) true 100]; vm_compute; reflexivity).
  exists (GetDecryptedMessagesWithMeta (OwnEd25519PubKey (keys Byte.x02)) 0 0 hello.1).1, ms.
  pose proof (run_pair _ _ _ E) as Er. split; [exact Er|].
  refine (proj1 (conversation_history envelope_nonempty "hello" (OwnEd25519PubKey (keys Byte.x02)) (OwnX25519PubKey (keys Byte.x02))
    alice hello.1 hello_result (keys_pair Byte.x01) hello_sent _ _ _ _) _ _ Er).
  - reflexivity.
  - apply (x25519_honest (seed Byte.x01) (seed Byte.x02)); reflexivity.
  - by eexists.
  - vm_compute. reflexivity.
Defined.

(** Mallory sends what Alice sent as her own. *)
Definition mallory : Config := keys Byte.x03.
Lemma envelope_resigned_witness :
  exists sig, ProcessIncomingMessage (Some (mkSignedEnv (se_Envelope (sr_SignedEnvelope hello_result)) sig (OwnEd25519PubKey mallory) []))
                (OwnX25519PrivKey (keys Byte.x02)) = Ok (mkMessage "hello" 100, OwnEd25519PubKey mallory).
Proof.
  assert (ProcessIncomingMessage (Some (sr_SignedEnvelope hello_result)) (OwnX25519PrivKey (keys Byte.x02)) =
          Ok (mkMessage "hello" 100, OwnEd25519PubKey (keys Byte.x01))) as E by (vm_compute; reflexivity).
  eexists. apply (envelope_resigned _ _ _ _ _ (OwnEd25519PrivKey mallory) _ E (keys_pair Byte.x03)). reflexivity.
Defined.

Lemma restarted_deaf_witness :
  exists w1 w2, Stop alice = (w1, Ok tt) /\ Start w1 = (w2, Ok tt) /\
    forall data, listen_message data (listen_done w2).1 = ((listen_done w2).1, Ok tt).
Proof.
  assert (Stop alice = ((Stop alice).1, Ok tt)) as E1 by reflexivity.
  assert (Start (Stop alice).1 = ((Start (Stop alice).1).1, Ok tt)) as E2 by reflexivity.
  eexists _, _. split; [exact E1|]. split; [exact E2|].
  exact (proj1 (proj2 (proj2 (proj2 (restarted_deaf alice _ _ eq_refl E1 E2))))).
Defined.

Lemma offline_contact_online_witness :
  exists w', IsContactOnline (OwnEd25519PubKey (keys Byte.x02)) alice = (w', Ok true) /\
    FindAndConnectToContact (OwnEd25519PubKey (keys Byte.x02)) w' = (w', Ok (mkConnectResult "bob" ["/ip4/127.0.0.1/tcp/4001"] "cached")).
Proof.
  destruct (offline_contact_online (L := demo_p2p) (OwnEd25519PubKey (keys Byte.x02)) bob_contact "bob" "other" [] alice) as (w' & H1 & _ & H2);
    [reflexivity..|vm_compute; reflexivity|reflexivity|discriminate|reflexivity|reflexivity|discriminate|].
  exists w'. split; [exact H1|exact H2].
Defined.
