(* ===== verification/AddrBook.v ===== *)
(** * pkg/peerstore: the address book

    [addrbook.go]: the peers known by the hexadecimal text of their identity key,
    kept in memory and in a JSON file.  A null entry of the file is [None]
    (its key is taken, which panics).  Where the code walks through its map, the
    order is an argument.  [SetConnected] does not save. *)
From S2P Require Import Prelude Primitives Proto Runtime Files Metrics Node.

Definition AddrBookFile : string := "peers.json".
Definition MaxPeers : nat := 1000.
Definition ErrPeerNotFound : error := ErrText "peer not found in address book".

Record PeerRecord := mkPeerRecord {
  pr_PublicKey : string; pr_PeerID : string; pr_Addresses : list string; pr_LastSeen : Z; pr_Connected : bool;
}.
#[export] Instance eta_PeerRecord : Eta PeerRecord := fun r =>
  mkPeerRecord (pr_PublicKey r) (pr_PeerID r) (pr_Addresses r) (pr_LastSeen r) (pr_Connected r).

Record AddrBook := mkAddrBook { repoDir : string; file : string; peers : gmap string PeerRecord }.
#[export] Instance eta_AddrBook : Eta AddrBook := fun b => mkAddrBook (repoDir b) (file b) (peers b).

Section AddrBook.
Context `{F : Files} `{!Codec (list (option PeerRecord))} `{P : Primitives} `{L : Libp2p}.

(** A book and the files. *)
Abbreviation M := (GoM (Sys (AddrBook * files))).

Definition book : M AddrBook := s ← self; mret s.1.
Definition set_peers (f : gmap string PeerRecord -> gmap string PeerRecord) : M unit :=
  update (fun s => (s.1 <| peers := f (peers s.1) |>, s.2)).

(** The records of the file: the last one of a key counts. *)
Fixpoint index_peers (l : list (option PeerRecord)) (m : gmap string PeerRecord) : outcome (gmap string PeerRecord) :=
  match l with
  | [] => Ok m
  | None :: _ => Panic
  | Some p :: l => index_peers l (<[pr_PublicKey p := p]> m)
  end.

(** The book as it is read, or [None] when there is no file. *)
Definition load (ab : AddrBook) (f : files) : outcome (option AddrBook) :=
  match ReadFile (file ab) f with
  | NotExist => Ok None
  | ReadFailed => Err (ErrExt "os")
  | Data data =>
      l ← wrapErr "failed to parse address book" (ext "json" (unmarshal data));
      m ← index_peers l ∅;
      Ok (Some (ab <| peers := m |>))
  end.

Definition NewAddrBook (repoDir : string) (f : files) : outcome AddrBook :=
  let ab := mkAddrBook repoDir (path_Join repoDir AddrBookFile) ∅ in
  loaded ← wrapErr "failed to load address book" (load ab f);
  Ok (default ab loaded).

Definition saveLocked (order : list string) : M unit :=
  ab ← book;
  _ ← on snd (fun f s => (s.1, f)) (file_write "failed to create repo directory" (MkdirAll (repoDir ab)));
  let l := Some <$> omap (fun k => peers ab !! k) order in
  data ← lift (wrapErr "failed to marshal address book" (ext "json" (marshal l)));
  on snd (fun f s => (s.1, f)) (file_write "failed to write address book" (WriteFile (file ab) data)).

(** The oldest peer so far and its time; none yet is the empty key. *)
Definition older (peers : gmap string PeerRecord) (oldest : string * Z) (key : string) : string * Z :=
  match peers !! key with
  | None => oldest
  | Some record =>
      if bool_decide (oldest.1 = "") || (pr_LastSeen record <? oldest.2) then (key, pr_LastSeen record) else oldest
  end.

Definition removeOldestPeer (order : list string) (peers : gmap string PeerRecord) : gmap string PeerRecord :=
  let oldest := fold_left (older peers) order ("", 0) in
  if negb (bool_decide (oldest.1 = "")) then delete oldest.1 peers else peers.

(** [time.Now().Unix()], which is signed. *)
Definition unix_now : M Z := now ← time_now; mret (now / SecondNs).

Definition AddContact (order order' : list string) (pubKey : bytes) (peerID : string) (addrs : list maddr) : M unit :=
  let pubKeyHex := hex pubKey in
  let addrStrs := maddr_String <$> addrs in
  ab ← book;
  _ ← match peers ab !! pubKeyHex with
      | Some existing =>
          now ← unix_now;
          set_peers (fun m => <[pubKeyHex := existing <| pr_PeerID := peerID |> <| pr_Addresses := addrStrs |> <| pr_LastSeen := now |>]> m)
      | None =>
          now ← unix_now;
          _ ← set_peers (fun m => <[pubKeyHex := mkPeerRecord pubKeyHex peerID addrStrs now false]> m);
          set_peers (fun m => if (MaxPeers <? size m)%nat then removeOldestPeer order m else m)
      end;
  wrap "failed to save address book" (saveLocked order').

(** The record found is a copy. *)
Definition GetContact (pubKey : bytes) : M PeerRecord :=
  ab ← book; match peers ab !! hex pubKey with None => throw ErrPeerNotFound | Some record => mret record end.

Definition GetContactByPeerID (order : list string) (peerID : string) : M PeerRecord :=
  ab ← book;
  match filter (fun r => pr_PeerID r = peerID) (omap (fun k => peers ab !! k) order) with
  | record :: _ => mret record
  | [] => throw ErrPeerNotFound
  end.

Definition UpdateAddresses (order : list string) (pubKey : bytes) (addrs : list maddr) : M unit :=
  ab ← book;
  match peers ab !! hex pubKey with
  | None => throw ErrPeerNotFound
  | Some record =>
      now ← unix_now;
      _ ← set_peers (fun m => <[hex pubKey := record <| pr_Addresses := maddr_String <$> addrs |> <| pr_LastSeen := now |>]> m);
      wrap "failed to save address book" (saveLocked order)
  end.

Definition SetConnected (pubKey : bytes) (connected : bool) : M unit :=
  ab ← book;
  match peers ab !! hex pubKey with
  | None => throw ErrPeerNotFound
  | Some record => set_peers (fun m => <[hex pubKey := record <| pr_Connected := connected |>]> m)
  end.

Definition GetAllContacts (order : list string) : M (list PeerRecord) :=
  ab ← book; mret (omap (fun k => peers ab !! k) order).

Definition DeleteContact (order : list string) (pubKey : bytes) : M unit :=
  ab ← book;
  match peers ab !! hex pubKey with
  | None => throw ErrPeerNotFound
  | Some _ => _ ← set_peers (delete (hex pubKey)); wrap "failed to save address book" (saveLocked order)
  end.

Definition Count : M nat := ab ← book; mret (size (peers ab)).

(** Connecting, with the node beside the book: the number of peers connected. *)
Abbreviation MN := (GoM (Sys ((AddrBook * files) * Node L))).
Definition in_book {A} (m : M A) : MN A := within fst (fun b s => (b, s.2)) m.
Definition in_node {A} (m : GoM (Sys (Node L)) A) : MN A := within snd (fun n s => (s.1, n)) m.

Fixpoint connect_loop (order : list string) (connected : nat) : MN nat :=
  match order with
  | [] => mret connected
  | key :: order =>
      ab ← in_book book;
      match peers ab !! key with
      | None | Some {| pr_Addresses := [] |} => connect_loop order connected
      | Some ({| pr_Addresses := addr :: _ |} as record) =>
          s ← self;
          ok ← (fun w => match in_node (ConnectToPeer addr) w with
                         | (w', Ok _) => (w', Ok true) | (w', Err _) => (w', Ok false) | (w', Panic) => (w', Panic) end);
          if ok : bool then
            _ ← in_book (set_peers (fun m => <[key := record <| pr_Connected := true |>]> m));
            connect_loop order (S connected)
          else connect_loop order connected
      end
  end.

Definition ConnectToAll (order order' : list string) : MN unit :=
  connected ← connect_loop order 0;
  if (0 <? connected)%nat then in_book (wrap "failed to save address book" (saveLocked order')) else mret tt.
End AddrBook.
