(* ===== verification/AddrBookProps.v ===== *)
(** * pkg/peerstore: the address book on disk

    A book that was saved is read back as it is in memory; the number of peers is
    bounded, and a peer that has to go is one seen least recently.  encoding/json
    replaces what is not UTF-8 in a text and refuses numbers that do not fit: its
    law is stated for records it can write ([json_ok]). *)
From S2P Require Import Prelude Primitives Proto Runtime Files Float64 GoText GoFormat Metrics Node NodeInfo NodeProps AddrBook.
#[local] Open Scope Z_scope.

(** Texts in UTF-8, and a time of 64 bits. *)
Definition json_ok (r : PeerRecord) : Prop :=
  ValidString (pr_PublicKey r) = true /\ ValidString (pr_PeerID r) = true /\ Forall (fun a => ValidString a = true) (pr_Addresses r) /\
  - 2 ^ 63 <= pr_LastSeen r < 2 ^ 63.

Class BookLaws `{!Codec (list (option PeerRecord))} : Prop :=
  book_read l data : Forall json_ok l -> marshal (Some <$> l) = Some data -> unmarshal data = Some (Some <$> l).

Section Props.
Context `{F : Files} `{!FilesLaws F} `{BC : !Codec (list (option PeerRecord))} `{BL : !BookLaws}.
Context `{P : Primitives} `{L : Libp2p}.
Implicit Types w : Sys (AddrBook * files).

Definition peers_of w : gmap string PeerRecord := peers (obj w).1.

(** Records are kept under the key they name and can be written, and the book knows its file. *)
Definition record_ok (k : string) (r : PeerRecord) : Prop := pr_PublicKey r = k /\ json_ok r.
Definition book_ok (b : AddrBook) : Prop :=
  map_Forall record_ok (peers b) /\ file b = path_Join (repoDir b) AddrBookFile.

(** An order in which Go may walk through a map. *)
Definition iterates (order : list string) (m : gmap string PeerRecord) : Prop := order ≡ₚ (map_to_list m).*1.

Lemma iterates_elem order (m : gmap string PeerRecord) k : iterates order m -> k ∈ order <-> is_Some (m !! k).
Proof.
  intros H. rewrite H, list_elem_of_fmap. split.
  - intros ([k' r] & -> & Hk). apply elem_of_map_to_list in Hk. by exists r.
  - intros [r Hr]. exists (k, r). by rewrite elem_of_map_to_list.
Qed.

(** ** Saving and reading *)

Lemma index_peers_lookup (m : gmap string PeerRecord) order m0 :
  map_Forall (fun k r => pr_PublicKey r = k) m ->
  exists m', index_peers (Some <$> omap (fun k => m !! k) order) m0 = Ok m' /\
    forall k, m' !! k = if decide (k ∈ order /\ is_Some (m !! k)) then m !! k else m0 !! k.
Proof.
  intros Hm. revert m0; induction order as [|k0 order IH]; intros m0.
  { exists m0. split; [done|]. intros k. by rewrite decide_False by (intros [H _]; by apply not_elem_of_nil in H). }
  cbn. destruct (m !! k0) as [r|] eqn:E; cbn.
  - rewrite (Hm _ _ E). destruct (IH (<[k0 := r]> m0)) as (m' & -> & H). exists m'. split; [done|]. intros k. rewrite H.
    destruct (decide (k ∈ order /\ is_Some (m !! k))) as [[Hk Hs]|Hk].
    + by rewrite decide_True by (split; [by right|done]).
    + destruct (decide (k = k0)) as [->|Hne].
      * rewrite decide_True by (split; [left|by eexists]). by rewrite lookup_insert_eq.
      * rewrite lookup_insert_ne by done. rewrite decide_False; [done|]. rewrite elem_of_cons. tauto.
  - destruct (IH m0) as (m' & -> & H). exists m'. split; [done|]. intros k. rewrite H.
    destruct (decide (k = k0)) as [->|Hne]; [by rewrite !decide_False by (rewrite E; intros [_ [? ?]]; done)|].
    apply decide_ext. rewrite elem_of_cons. tauto.
Qed.

Lemma omap_json_ok (m : gmap string PeerRecord) order : map_Forall record_ok m -> Forall json_ok (omap (fun k => m !! k) order).
Proof. intros Hm. apply Forall_forall. intros r (k & _ & Hk)%list_elem_of_omap. apply (Hm _ _ Hk). Qed.

Lemma saveLocked_reopen order w w' :
  book_ok (obj w).1 -> iterates order (peers_of w) -> saveLocked order w = (w', Ok tt) ->
  (obj w').1 = (obj w).1 /\ NewAddrBook (repoDir (obj w).1) (obj w').2 = Ok (obj w).1.
Proof.
  destruct w as [ev [[dir fl m] fs]]. unfold book_ok, peers_of. cbn. intros [Hk Hf] Hi H. unfold saveLocked, book in H.
  run_split. simplify_eq/=. unfold on, zoom, file_write in *. repeat case_match; simplify_eq/=. split; [done|].
  outcome_split. unfold NewAddrBook, load. cbn [file].
  match goal with H : WriteFile _ _ _ = Some _ |- _ => rewrite (ReadFile_WriteFile _ _ _ _ H) end.
  match goal with H : marshal _ = Some _ |- _ => rewrite (book_read _ _ (omap_json_ok m order Hk) H) end. cbn.
  destruct (index_peers_lookup m order ∅ (map_Forall_impl _ _ _ Hk (fun _ _ => @proj1 _ _))) as (m' & -> & Hm). cbn. unfold set_field. cbn. do 2 f_equal.
  apply map_eq. intros k. rewrite Hm. destruct (m !! k) as [r|] eqn:Er; [|by rewrite decide_False by (intros [_ [? ?]]; done)].
  rewrite decide_True; [done|]. split; [|by eexists]. apply (iterates_elem _ _ _ Hi). by exists r.
Qed.

Lemma saveLocked_book order w : (obj (saveLocked order w).1).1 = (obj w).1.
Proof.
  destruct w as [ev [b fs]]. unfold saveLocked, book, on, zoom, file_write, self, lift, mbind, GoM_bind. cbn.
  destruct (MkdirAll _ _); cbn; [|done]. destruct (marshal _); cbn; [|done]. by destruct (WriteFile _ _ _).
Qed.

(** Keeping the book in order and saving it is enough. *)
Lemma saved_reopens order w w' :
  book_ok (obj w).1 -> iterates order (peers_of w') -> saveLocked order w = (w', Ok tt) ->
  book_ok (obj w').1 /\ NewAddrBook (repoDir (obj w').1) (obj w').2 = Ok (obj w').1.
Proof.
  intros Hb Hi H. pose proof (saveLocked_book order w) as E. rewrite H in E. cbn in E.
  unfold peers_of in Hi. rewrite E in Hi |- *. split; [done|]. by apply (saveLocked_reopen _ _ _ Hb Hi) in H as [_ H].
Qed.

Lemma removeOldestPeer_Forall (P' : string -> PeerRecord -> Prop) order m :
  map_Forall P' m -> map_Forall P' (removeOldestPeer order m).
Proof. intros H. unfold removeOldestPeer. destruct (negb _); [by apply map_Forall_delete|done]. Qed.

Lemma insert_ok b k r : pr_PublicKey r = k -> json_ok r -> book_ok b -> map_Forall record_ok (<[k := r]> (peers b)).
Proof. intros Hr Hj [Hb _]. by apply map_Forall_insert_2. Qed.

(** The file has the book that is in memory. *)
Definition in_step (b : AddrBook) (f : files) : Prop := NewAddrBook (repoDir b) f = Ok b.

(** *** Connecting to all *)

Lemma json_ok_connected r c : json_ok r -> json_ok (r <| pr_Connected := c |>).
Proof. by destruct r. Qed.

(** The loop does not touch the files, keeps the book in order, and leaves it alone when it counts nothing. *)
Lemma connect_loop_book order n (w w' : Sys ((AddrBook * files) * Node L)) n' :
  book_ok (obj w).1.1 -> connect_loop order n w = (w', Ok n') ->
  book_ok (obj w').1.1 /\ repoDir (obj w').1.1 = repoDir (obj w).1.1 /\ (obj w').1.2 = (obj w).1.2 /\ (n <= n')%nat /\
  (n' = n -> (obj w').1 = (obj w).1).
Proof.
  revert n w; induction order as [|k order IH]; intros n w Hb; cbn [connect_loop].
  { intros H. run_split. naive_solver. }
  destruct w as [ev [[b fs] nd]]. unfold in_book, in_node, within, book, set_peers, self, update, mbind, GoM_bind, mret, GoM_ret. cbn [obj env fst snd].
  destruct (peers b !! k) as [[pk id [|addr addrs] seen conn]|] eqn:Ek; [by apply IH| |by apply IH].
  destruct (ConnectToPeer addr _) as [wn [[]|e|]] eqn:Ec; [|intros H; by apply IH in H|done].
  intros H. apply IH in H as (H1 & H2 & H3 & H4 & H5).
  - cbn in *. split; [done|]. split; [done|]. split; [done|]. split; lia.
  - destruct Hb as [Hm Hf]. split; [|done]. destruct (Hm _ _ Ek) as [? ?]. apply map_Forall_insert_2; [|done]. by split.
Qed.

(** C29. The file follows the book.  Adding a contact, changing its addresses or deleting it leaves, when it
    succeeds, a file that is read back as the very book in memory, whatever the order in which the
    map was walked through; and connecting to all peers, which saves only if a peer was reached,
    keeps the file in step with the book.  Records stay under the key they name.  The texts of a
    contact are UTF-8, which is what JSON can write. *)
Theorem addrbook_reopened order order' :
  (forall w w' pubKey peerID addrs, book_ok (obj w).1 -> iterates order' (peers_of w') ->
    ValidString peerID = true -> Forall (fun a => ValidString (maddr_String a) = true) addrs -> - 2 ^ 63 <= clock (env w) 0 < 2 ^ 63 ->
    AddContact order order' pubKey peerID addrs w = (w', Ok tt) \/ UpdateAddresses order' pubKey addrs w = (w', Ok tt) \/
      DeleteContact order' pubKey w = (w', Ok tt) ->
    book_ok (obj w').1 /\ in_step (obj w').1 (obj w').2) /\
  (forall w w' : Sys ((AddrBook * files) * Node L), book_ok (obj w).1.1 -> iterates order' (peers (obj w').1.1) ->
    in_step (obj w).1.1 (obj w).1.2 -> ConnectToAll order order' w = (w', Ok tt) ->
    book_ok (obj w').1.1 /\ in_step (obj w').1.1 (obj w').1.2).
Proof.
  split.
  - intros w w' pubKey peerID addrs Hb Hi Hid Haddrs Hclock H. unfold in_step.
    assert (Forall (fun a => ValidString a = true) (maddr_String <$> addrs)) as Htexts by (by apply Forall_fmap).
    assert (- 2 ^ 63 <= clock (env w) 0 / SecondNs < 2 ^ 63) as Hseen.
    { unfold SecondNs. split; [apply Z.div_le_lower_bound; lia|apply Z.div_lt_upper_bound; lia]. }
    destruct H as [H|[H|H]]; unfold AddContact, UpdateAddresses, DeleteContact, book, set_peers, unix_now in H;
      destruct w as [ev [b fs]]; run_split; simplify_eq/=.
    all: destruct (peers b !! hex pubKey) as [r|] eqn:E; run_split; simplify_eq/=; (eapply saved_reopens; [|exact Hi|eassumption]);
      (split; [cbn [obj fst peers set_field]|exact (proj2 Hb)]).
    + destruct (proj1 Hb _ _ E) as [? [? _]]. by apply insert_ok.
    + pose proof (insert_ok b (hex pubKey) (mkPeerRecord (hex pubKey) peerID (maddr_String <$> addrs) (clock ev 0 / SecondNs) false) eq_refl) as Hm.
      assert (json_ok (mkPeerRecord (hex pubKey) peerID (maddr_String <$> addrs) (clock ev 0 / SecondNs) false)) as Hj by (split; [apply ValidString_hex|done]).
      destruct (MaxPeers <? _)%nat; [exact (removeOldestPeer_Forall _ order _ (Hm Hj Hb))|exact (Hm Hj Hb)].
    + destruct (proj1 Hb _ _ E) as [? [? [? _]]]. by apply insert_ok.
    + exact (map_Forall_delete _ _ _ (proj1 Hb)).
  - intros w w' Hb Hi Hs H. unfold ConnectToAll in H. apply (proj1 (run_bind _ _ _ _ _)) in H as (n & w1 & Hloop & H). cbv beta in H.
    destruct (connect_loop_book _ _ _ _ _ Hb Hloop) as (Hb1 & Hd & Hf & Hn & Hsame).
    destruct (0 <? n)%nat eqn:En; [|run_split; apply Nat.ltb_ge in En; rewrite (Hsame ltac:(lia)) in *; by split].
    unfold in_book, within, wrap in H. destruct (saveLocked order' _) as [w2 [[]|e|]] eqn:Esave; simplify_eq/=.
    by apply (saved_reopens order' (mkSys (env w1) (obj w1).1) w2).
Qed.

(** ** The peer that has to go *)

Lemma older_from (m : gmap string PeerRecord) order k r :
  m !! k = Some r -> k <> "" -> (forall k', k' ∈ order -> k' <> "") ->
  exists k' r', fold_left (older m) order (k, pr_LastSeen r) = (k', pr_LastSeen r') /\ m !! k' = Some r' /\ k' <> "" /\
    pr_LastSeen r' <= pr_LastSeen r /\ forall k2 r2, k2 ∈ order -> m !! k2 = Some r2 -> pr_LastSeen r' <= pr_LastSeen r2.
Proof.
  revert k r; induction order as [|k1 order IH]; intros k r Hk Hne Hall.
  { exists k, r. repeat split; [done..|lia|]. intros k2 r2 Hin. by apply not_elem_of_nil in Hin. }
  cbn [fold_left]. unfold older at 2. cbn [fst snd]. rewrite bool_decide_eq_false_2 by done. cbn [orb].
  destruct (m !! k1) as [r1|] eqn:E1.
  - destruct (pr_LastSeen r1 <? pr_LastSeen r) eqn:El; [apply Z.ltb_lt in El|apply Z.ltb_ge in El];
      [destruct (IH k1 r1) as (k' & r' & -> & Hk' & Hne' & Hle & Hmin)|destruct (IH k r) as (k' & r' & -> & Hk' & Hne' & Hle & Hmin)];
      try done; try (by apply Hall; left); try (by intros ? ?; apply Hall; right);
      exists k', r'; (split; [done|]); (split; [done|]); (split; [done|]); (split; [lia|]);
      intros k2 r2 [->|Hin]%elem_of_cons E2; [|by eapply Hmin| |by eapply Hmin]; assert (r2 = r1) as -> by congruence; lia.
  - destruct (IH k r) as (k' & r' & -> & Hk' & Hne' & Hle & Hmin); [done..|by intros ? ?; apply Hall; right|].
    exists k', r'. repeat split; try done. intros k2 r2 [->|Hin]%elem_of_cons E2; [congruence|by eapply Hmin].
Qed.

Lemma removeOldestPeer_spec order (m : gmap string PeerRecord) :
  iterates order m -> m !! "" = None -> m <> ∅ ->
  exists k r, removeOldestPeer order m = delete k m /\ m !! k = Some r /\
    forall k2 r2, m !! k2 = Some r2 -> pr_LastSeen r <= pr_LastSeen r2.
Proof.
  intros Hi H0 Hm. assert (forall k', k' ∈ order -> k' <> "") as Hall.
  { intros k' Hk -> . apply (iterates_elem _ _ _ Hi) in Hk as [? ?]. congruence. }
  destruct order as [|k0 order].
  { exfalso. apply Hm, map_empty. intros k. destruct (m !! k) as [r|] eqn:E; [|done].
    assert (k ∈ []) as Hk by (apply (iterates_elem _ _ _ Hi); by exists r). by apply not_elem_of_nil in Hk. }
  destruct (proj1 (iterates_elem _ _ k0 Hi)) as [r0 E0]; [left|].
  destruct (older_from m order k0 r0 E0 ltac:(apply Hall; left) ltac:(intros ? ?; apply Hall; by right)) as (k & r & Hf & Hk & Hne & Hle & Hmin).
  assert (older m ("", 0) k0 = (k0, pr_LastSeen r0)) as Ho by (unfold older; by rewrite E0, bool_decide_eq_true_2).
  exists k, r. unfold removeOldestPeer. cbn [fold_left]. rewrite Ho, Hf. cbn [fst].
  rewrite bool_decide_eq_false_2 by done. split; [done|]. split; [done|]. intros k2 r2 E2.
  assert (k2 ∈ k0 :: order) as [->|Hin]%elem_of_cons by (apply (iterates_elem _ _ _ Hi); by exists r2); [|by eapply Hmin].
  assert (r2 = r0) as -> by congruence. lia.
Qed.

(** The book stays within its bound: adding a contact never makes it larger than [MaxPeers], or than it
    was when a larger one was read from the file; a contact that makes it too large makes exactly
    one peer go, one that nobody in the book was seen before; nobody else is touched.  This holds
    also if the book cannot be saved. *)
Theorem addrbook_bounded order order' pubKey peerID addrs w :
  let new := mkPeerRecord (hex pubKey) peerID (maddr_String <$> addrs) (clock (env w) 0 / SecondNs) false in
  let after := peers_of (AddContact order order' pubKey peerID addrs w).1 in
  pubKey <> [] -> peers_of w !! "" = None -> iterates order (<[hex pubKey := new]> (peers_of w)) ->
  (size after <= size (peers_of w) `max` MaxPeers)%nat /\
  (peers_of w !! hex pubKey = None ->
   if (size (peers_of w) <? MaxPeers)%nat then after = <[hex pubKey := new]> (peers_of w)
   else exists k r, after = delete k (<[hex pubKey := new]> (peers_of w)) /\ <[hex pubKey := new]> (peers_of w) !! k = Some r /\
          forall k2 r2, <[hex pubKey := new]> (peers_of w) !! k2 = Some r2 -> pr_LastSeen r <= pr_LastSeen r2).
Proof.
  intros new after Hpk H0 Hi.
  assert (hex pubKey <> "") as Hhex by (by destruct pubKey).
  assert (forall w1 ctx, peers_of (wrap ctx (saveLocked order') w1).1 = peers_of w1) as Hsave.
  { intros w1 ctx. unfold wrap, peers_of. pose proof (saveLocked_book order' w1) as E. destruct (saveLocked order' w1). cbn in *. by rewrite E. }
  assert (after = match peers_of w !! hex pubKey with
                  | Some existing => <[hex pubKey := existing <| pr_PeerID := peerID |> <| pr_Addresses := maddr_String <$> addrs |> <| pr_LastSeen := clock (env w) 0 / SecondNs |>]> (peers_of w)
                  | None => let m := <[hex pubKey := new]> (peers_of w) in if (MaxPeers <? size m)%nat then removeOldestPeer order m else m
                  end) as ->.
  { subst after. destruct w as [ev [b fs]]. unfold AddContact, book, set_peers, unix_now, self, update, time_now, mbind, GoM_bind. cbn.
    unfold peers_of. cbn. destruct (peers b !! hex pubKey); cbn; exact (Hsave _ _). }
  destruct (peers_of w !! hex pubKey) as [existing|] eqn:E.
  - split; [|done]. rewrite map_size_insert_Some by by eexists. lia.
  - cbn zeta. rewrite map_size_insert_None by done.
    destruct (removeOldestPeer_spec order (<[hex pubKey := new]> (peers_of w)) Hi) as (k & r & Hrm & Hk & Hmin);
      [by rewrite lookup_insert_ne|by apply insert_non_empty|].
    destruct (MaxPeers <? S (size (peers_of w)))%nat eqn:Es; [apply Nat.ltb_lt in Es|apply Nat.ltb_ge in Es].
    + rewrite Hrm. split; [|intros _; rewrite (proj2 (Nat.ltb_ge _ _)) by lia; by exists k, r].
      rewrite map_size_delete_Some by by eexists. rewrite map_size_insert_None by done. lia.
    + split; [rewrite map_size_insert_None by done; lia|]. intros _. by rewrite (proj2 (Nat.ltb_lt _ _)) by lia.
Qed.
End Props.

(** ** Examples *)
Module AddrBookDemo.
Import NodeDemo.
#[export] Instance PeerRecord_eq : EqDecision PeerRecord.
Proof. solve_decision. Defined.
#[export] Program Instance PeerRecord_countable : Countable PeerRecord :=
  inj_countable' (fun r => (pr_PublicKey r, pr_PeerID r, pr_Addresses r, pr_LastSeen r, pr_Connected r))
    (fun '(a, b, c, d, e) => mkPeerRecord a b c d e) _.
Next Obligation. by intros []. Qed.
#[export] Instance book_codec : Codec (list (option PeerRecord)) := countable_codec.
#[export] Instance book_laws : BookLaws.
Proof. intros l data _ H. exact (unmarshal_marshal (CodecLaws := countable_codec_laws) _ _ H). Qed.

Definition start : Sys (AddrBook * files (Files := gmap_files)) :=
  mkSys (mkEnvironment (fun _ => None) (fun _ => 5 * SecondNs)) (mkAddrBook "repo" "repo/peers.json" ∅, ∅).
Definition key : bytes := [Byte.x0a].
Definition added := AddContact ["0a"] ["0a"] key "peer" (["/ip4/1.2.3.4"] : list (maddr (Libp2p := demo_p2p))) start.
End AddrBookDemo.
Import NodeDemo AddrBookDemo.

(** The contact is added, and then connected to, which the file shows, too. *)
Definition beside : Sys ((AddrBook * files (Files := gmap_files)) * Node demo_p2p) := mkSys (env added.1) (obj added.1, NodeDemo.node).
Definition connected := ConnectToAll ["0a"] ["0a"] beside.

Lemma addrbook_reopened_witness :
  NewAddrBook "repo" (obj added.1).2 = Ok (obj added.1).1 /\
  NewAddrBook "repo" (obj connected.1).1.2 = Ok (obj connected.1).1.1 /\
  peers (obj connected.1).1.1 = {["0a" := mkPeerRecord "0a" "peer" ["/ip4/1.2.3.4"] 5 true]}.
Proof.
  assert (added = (added.1, Ok tt)) as E by (apply (run_pair (AddContact _ _ _ _ _)); vm_compute; reflexivity).
  assert (connected = (connected.1, Ok tt)) as Ec by (apply (run_pair (ConnectToAll _ _)); vm_compute; reflexivity).
  destruct (addrbook_reopened (L := demo_p2p) ["0a"] ["0a"]) as [Hops Hall].
  destruct (Hops start added.1 key "peer" ["/ip4/1.2.3.4"]) as [Hb Hs].
  - split; [apply map_Forall_empty|reflexivity].
  - unfold iterates. assert (map_to_list (peers_of added.1) = [("0a", mkPeerRecord "0a" "peer" ["/ip4/1.2.3.4"] 5 false)]) as ->
      by (vm_compute; reflexivity). reflexivity.
  - reflexivity.
  - by constructor.
  - vm_compute. by split.
  - by left.
  - split; [exact Hs|]. split; [|vm_compute; reflexivity].
    refine (proj2 (Hall beside connected.1 Hb _ Hs Ec)).
    unfold iterates. assert (map_to_list (peers (obj connected.1).1.1) = [("0a", mkPeerRecord "0a" "peer" ["/ip4/1.2.3.4"] 5 true)]) as ->
      by (vm_compute; reflexivity). reflexivity.
Defined.

Lemma addrbook_bounded_witness : (size (peers_of added.1) <= MaxPeers)%nat.
Proof.
  refine (proj1 (addrbook_bounded ["0a"] ["0a"] key "peer" (["/ip4/1.2.3.4"] : list (maddr (Libp2p := demo_p2p))) start _ _ _)).
  - discriminate.
  - reflexivity.
  - unfold iterates. change (peers_of start) with (∅ : gmap string PeerRecord). rewrite insert_empty, map_to_list_singleton. reflexivity.
Defined.
