(* ===== verification/ContactTracker.v ===== *)
(** * pkg/peerstore: the contact tracker

    [contact_tracker.go], over the storage of Storage.v and the node of Node.v.
    The map of contacts holds pointers: [contactPeers] gives for a key a location
    of [infos], and a refresh keeps the locations it collected while contacts may be
    replaced.  Where the code walks through the map, the order is an argument.
    A refresh is [collect] and then [refresh_one] for each contact; other
    operations may come in between. *)
From S2P Require Import Prelude Primitives Proto Badger GroupState Storage Runtime Metrics Node.

(** The zero [LastSeen] is [None]. *)
Record ContactPeerInfo `{L : Libp2p} := mkInfo {
  ci_PubKey : bytes; ci_PeerID : string; ci_Multiaddrs : list maddr; ci_IsOnline : bool; ci_LastSeen : option Z; ci_ConnectedByUs : bool;
}.
Arguments mkInfo {L}.
#[export] Instance eta_Info `{L : Libp2p} : Eta ContactPeerInfo := fun i =>
  mkInfo (ci_PubKey i) (ci_PeerID i) (ci_Multiaddrs i) (ci_IsOnline i) (ci_LastSeen i) (ci_ConnectedByUs i).

Record ContactTracker `{K : KV} `{L : Libp2p} := mkTracker {
  storage : kv; ipfsNode : Node L; contactPeers : gmap string nat; infos : list ContactPeerInfo; lastRefresh : option Z;
}.
Arguments ContactTracker K L : clear implicits.
Arguments mkTracker {K L}.
#[export] Instance eta_Tracker `{K : KV} `{L : Libp2p} : Eta (ContactTracker K L) := fun t =>
  mkTracker (storage t) (ipfsNode t) (contactPeers t) (infos t) (lastRefresh t).

Record ContactTrackerStats := mkStats {
  TotalContacts : nat; OnlineContacts : nat; ConnectedPeers : nat; WithPeerID : nat; ts_LastRefresh : option Z;
}.

Section Tracker.
Context `{K : KV} `{L : Libp2p} `{P : Primitives} `{!Codec Contact}.
Abbreviation M := (GoM (Sys (ContactTracker K L))).

Definition NewContactTracker (storage : kv) (node : Node L) : ContactTracker K L := mkTracker storage node ∅ [] None.

Definition with_storage {A} (m : GoM kv A) : M A := on storage (fun d t => t <| storage := d |>) m.
Definition with_node {A} (m : GoM (Sys (Node L)) A) : M A := within ipfsNode (fun n t => t <| ipfsNode := n |>) m.

(** A new information for a key. *)
Definition put_info (key : string) (info : ContactPeerInfo) (t : ContactTracker K L) : ContactTracker K L :=
  t <| contactPeers := <[key := length (infos t)]> (contactPeers t) |> <| infos := infos t ++ [info] |>.
(** Changing the information at a location. *)
Definition change_info (loc : nat) (f : ContactPeerInfo -> ContactPeerInfo) (t : ContactTracker K L) : ContactTracker K L :=
  t <| infos := alter f loc (infos t) |>.
(** What is known under a key. *)
Definition info_of (t : ContactTracker K L) (key : string) : option ContactPeerInfo := loc ← contactPeers t !! key; infos t !! loc.

(** The information made from a contact; addresses that do not parse are left out. *)
Definition info_of_contact (contact : Contact) : ContactPeerInfo :=
  mkInfo (c_PublicKey contact) (c_PeerId contact) (omap NewMultiaddr (c_Multiaddrs contact)) false
    (if 0 <? c_LastSeen contact then Some (of_unix (c_LastSeen contact)) else None) false.

Definition LoadContacts : M unit :=
  contacts ← wrap "failed to list contacts" (with_storage ListContacts);
  _ ← update (fun t => t <| contactPeers := ∅ |>);
  update (fun t => foldl (fun t c => put_info (hex (c_PublicKey c)) (info_of_contact c) t) t contacts).

Definition UpdateContact (contact : Contact) : M unit :=
  update (put_info (hex (c_PublicKey contact)) (info_of_contact contact)).

Definition GetContactInfo (pubKey : bytes) (t : ContactTracker K L) : option ContactPeerInfo := info_of t (hex pubKey).

Definition GetContactPeerID (pubKey : bytes) (t : ContactTracker K L) : option string :=
  match info_of t (hex pubKey) with
  | Some info => if bool_decide (ci_PeerID info = "") then None else Some (ci_PeerID info)
  | None => None
  end.

Definition updateContactInStorage (pubKey : bytes) (peerID : string) (addrs : list maddr) : M unit :=
  contact ← with_storage (GetContact pubKey);
  match contact with
  | None => mret tt
  | Some contact =>
      now ← time_now;
      with_storage (AddContact (mkContact (c_PublicKey contact) (c_DisplayName contact) (c_CreatedAt contact)
                                  (c_X25519PublicKey contact) peerID (maddr_String <$> addrs) (to_unix now)))
  end.

Definition SetContactOnline (pubKey : bytes) (peerID : string) (addrs : list maddr) : M unit :=
  let key := hex pubKey in
  t ← self;
  _ ← match contactPeers t !! key with
      | Some _ => mret tt
      | None => update (put_info key (mkInfo pubKey peerID [] false None false))
      end;
  t ← self;
  let loc := default 0%nat (contactPeers t !! key) in
  _ ← update (change_info loc (fun info => info <| ci_PeerID := peerID |> <| ci_Multiaddrs := addrs |> <| ci_IsOnline := true |>));
  now ← time_now;
  _ ← update (change_info loc (fun info => info <| ci_LastSeen := Some now |>));
  wrap "failed to update contact in storage" (updateContactInStorage pubKey peerID addrs).

Definition SetContactOffline (pubKey : bytes) : M unit :=
  t ← self;
  match contactPeers t !! hex pubKey with
  | Some loc => update (change_info loc (fun info => info <| ci_IsOnline := false |>))
  | None => mret tt
  end.

Definition SetConnected (pubKey : bytes) (connected : bool) : M unit :=
  t ← self;
  match contactPeers t !! hex pubKey with
  | Some loc =>
      _ ← update (change_info loc (fun info => info <| ci_ConnectedByUs := connected |>));
      if connected then now ← time_now; update (change_info loc (fun info => info <| ci_LastSeen := Some now |>)) else mret tt
  | None => mret tt
  end.

(** ** The refresh *)

Definition collect (order : list string) : M (list nat) :=
  t ← self;
  if negb (isStarted (ipfsNode t)) then throw (ErrText "IPFS node not started")
  else mret (filter (fun loc => match infos t !! loc with Some info => negb (bool_decide (ci_PeerID info = "")) | None => false end = true)
               (omap (fun k => contactPeers t !! k) order)).

(** A call whose error is taken for not found. *)
Definition attempt {A} (m : M A) : M (option A) := fun w =>
  match m w with (w', Ok a) => (w', Ok (Some a)) | (w', Err _) => (w', Ok None) | (w', Panic) => (w', Panic) end.

Definition refresh_one (loc : nat) : M unit :=
  t ← self;
  match infos t !! loc with
  | None => mret tt
  | Some info =>
      peerInfo ← attempt (with_node (FindPeer (ci_PeerID info)));
      match peerInfo with
      | Some {| ai_Addrs := (_ :: _) as addrs |} =>
          _ ← update (change_info loc (fun info => info <| ci_IsOnline := true |>));
          now ← time_now;
          _ ← update (change_info loc (fun info => info <| ci_LastSeen := Some now |> <| ci_Multiaddrs := addrs |>));
          _ ← attempt (updateContactInStorage (ci_PubKey info) (ci_PeerID info) addrs);
          mret tt
      | _ => update (change_info loc (fun info => info <| ci_IsOnline := false |>))
      end
  end.

Fixpoint refresh_all (locs : list nat) : M unit :=
  match locs with [] => mret tt | loc :: locs => _ ← refresh_one loc; refresh_all locs end.

Definition refresh_done : M unit := now ← time_now; update (fun t => t <| lastRefresh := Some now |>).

Definition RefreshOnlineStatus (order : list string) : M unit :=
  locs ← collect order; _ ← refresh_all locs; refresh_done.

(** ** Queries *)

Definition tracked (order : list string) (t : ContactTracker K L) : list ContactPeerInfo := omap (info_of t) order.

Definition GetOnlineContacts (order : list string) (t : ContactTracker K L) : list ContactPeerInfo :=
  filter (fun i => ci_IsOnline i = true) (tracked order t).

Definition GetContactByPeerID (order : list string) (peerID : string) (t : ContactTracker K L) : option ContactPeerInfo :=
  head (filter (fun i => ci_PeerID i = peerID) (tracked order t)).

Definition count_if (p : ContactPeerInfo -> bool) (l : list ContactPeerInfo) : nat :=
  foldl (fun n i => if p i then S n else n) 0%nat l.

Definition GetStats (order : list string) (t : ContactTracker K L) : ContactTrackerStats :=
  let l := tracked order t in
  mkStats (size (contactPeers t)) (count_if ci_IsOnline l) (count_if ci_ConnectedByUs l)
    (count_if (fun i => negb (bool_decide (ci_PeerID i = ""))) l) (lastRefresh t).
End Tracker.
