(* ===== verification/ContactTrackerProps.v ===== *)
(** * pkg/peerstore: who is online

    What a refresh does to every contact, what it does when contacts are replaced
    meanwhile, and what is known of a contact after a restart. *)
From S2P Require Import Prelude Primitives Proto Badger GroupState Storage Runtime Float64 Metrics Node NodeInfo NodeProps MessagingProps ContactTracker.
#[local] Open Scope Z_scope.
#[local] Arguments GetContact : simpl never.
#[local] Arguments AddContact : simpl never.

Section Props.
Context `{K : KV} `{L : Libp2p} `{P : Primitives} `{!Codec Contact}.
Implicit Types (w : Sys (ContactTracker K L)) (t : ContactTracker K L) (i : ContactPeerInfo).

(** ** The refresh *)

(** What a node finds for a peer id, if it finds addresses. *)
Definition search (n : Node L) (peerID : string) : option (list maddr) :=
  match (FindPeer peerID (mkSys (mkEnvironment (fun _ => None) (fun _ => 0)) n)).2 with
  | Ok {| ai_Addrs := (_ :: _) as addrs |} => Some addrs
  | _ => None
  end.

(** Looking for a peer changes nothing and does not panic. *)
Lemma FindPeer_reads peerID (w : Sys (Node L)) :
  (FindPeer peerID w).1 = w /\ (FindPeer peerID w).2 <> Panic /\
  (FindPeer peerID w).2 = (FindPeer peerID (mkSys (mkEnvironment (fun _ => None) (fun _ => 0)) (obj w))).2.
Proof.
  unfold FindPeer, self, lift, wrapErr, ext, throw, mbind, GoM_bind, mret, GoM_ret. cbn.
  repeat (case_match; cbn; try done); simplify_eq.
Qed.

(** What a refresh makes of an information when the search ends with [found]. *)
Definition refreshed (found : option (list maddr)) i i' : Prop :=
  match found with
  | Some addrs => exists now, i' = i <| ci_IsOnline := true |> <| ci_LastSeen := Some now |> <| ci_Multiaddrs := addrs |>
  | None => i' = i <| ci_IsOnline := false |>
  end.

Lemma attempt_total {A} (m : GoM (Sys (ContactTracker K L)) A) w :
  (m w).2 <> Panic -> exists o, attempt m w = ((m w).1, Ok o).
Proof. unfold attempt. destruct (m w) as [w' [a|e|]]; cbn; [by eexists..|done]. Qed.

Lemma updateContactInStorage_tracker pubKey peerID addrs w :
  (updateContactInStorage pubKey peerID addrs w).2 <> Panic /\
  exists d, obj (updateContactInStorage pubKey peerID addrs w).1 = obj w <| storage := d |>.
Proof.
  unfold updateContactInStorage, with_storage, on, zoom, time_now, mbind, GoM_bind.
  assert (forall k d, (GetContact k d).2 <> Panic) as Hg.
  { intros k d. unfold GetContact, db_get, proto_Unmarshal. destruct (kv_get _ d) as [[b|]|]; cbn; [|done..]. by destruct (unmarshal b). }
  assert (forall c d, (AddContact c d).2 <> Panic) as Ha.
  { intros c d. unfold AddContact, lift, mbind, GoM_bind, proto_Marshal, db_set. destruct (marshal c); cbn; [|done]. by destruct (kv_set _ _ d). }
  specialize (Hg pubKey (storage (obj w))). destruct (GetContact _ _) as [d [[c|]|e|]]; cbn in *; [|by eauto..|done].
  match goal with |- context [AddContact ?c ?d] => specialize (Ha c d); destruct (AddContact c d) as [d' [u|e|]] end; cbn in *;
    [|by eauto|done]. split; [done|]. eexists. reflexivity. 
Qed.

Lemma refresh_one_run loc w :
  exists w', refresh_one loc w = (w', Ok tt) /\ contactPeers (obj w') = contactPeers (obj w) /\ ipfsNode (obj w') = ipfsNode (obj w) /\
    (forall l, l <> loc -> infos (obj w') !! l = infos (obj w) !! l) /\
    (forall i, infos (obj w) !! loc = Some i -> exists i', infos (obj w') !! loc = Some i' /\ refreshed (search (ipfsNode (obj w)) (ci_PeerID i)) i i').
Proof.
  unfold refresh_one, self, mbind, GoM_bind. destruct (infos (obj w) !! loc) as [i|] eqn:E; [|by exists w].
  assert (with_node (FindPeer (ci_PeerID i)) w = (w, (FindPeer (ci_PeerID i) (mkSys (mkEnvironment (fun _ => None) (fun _ => 0)) (ipfsNode (obj w)))).2)) as Hf.
  { unfold with_node, within. destruct (FindPeer_reads (ci_PeerID i) (mkSys (env w) (ipfsNode (obj w)))) as (H1 & _ & H2). cbn in H2. rewrite <- H2.
    destruct (FindPeer _ _) as [w1 r]. cbn in *. subst w1. by destruct w as [? []]. }
  pose proof (FindPeer_reads (ci_PeerID i) (mkSys (mkEnvironment (fun _ => None) (fun _ => 0)) (ipfsNode (obj w)))) as (_ & Hp & _).
  unfold attempt at 1. rewrite Hf. clear Hf.
  assert (forall f, infos (change_info loc f (obj w)) !! loc = Some (f i)) as Hloc
    by (intros f; cbn; by rewrite list_lookup_alter_eq, E).
  assert (forall f l, l <> loc -> infos (change_info loc f (obj w)) !! l = infos (obj w) !! l) as Hne
    by (intros f l Hl; cbn; by rewrite list_lookup_alter_ne).
  destruct (FindPeer _ _).2 as [[id [|a addrs]]|e|] eqn:Er; [| | |done].
  1,3: cbn; eexists; (split; [reflexivity|]); cbn; (split; [done|]); (split; [done|]); split;
    [intros l Hl; by apply (Hne (fun info => info <| ci_IsOnline := false |>))|
     intros i0 [= <-]; eexists; split; [apply (Hloc (fun info => info <| ci_IsOnline := false |>))|unfold search; by rewrite Er]].
  unfold update at 1, time_now. cbn.
  match goal with |- context [attempt ?m ?w1] =>
    destruct (updateContactInStorage_tracker (ci_PubKey i) (ci_PeerID i) (a :: addrs) w1) as (Hnp & d & Ho);
    destruct (attempt_total _ _ Hnp) as [o ->] end.
  eexists; split; [reflexivity|]. rewrite Ho. cbn. split; [done|]. split; [done|]. split.
  - intros l Hl. by rewrite !list_lookup_alter_ne.
  - intros i0 [= <-]. rewrite !list_lookup_alter_eq, E. cbn. eexists. split; [reflexivity|]. unfold search. rewrite Er. by eexists.
Qed.

Lemma refresh_all_run locs w :
  NoDup locs ->
  exists w', refresh_all locs w = (w', Ok tt) /\ contactPeers (obj w') = contactPeers (obj w) /\
    (forall l, l ∉ locs -> infos (obj w') !! l = infos (obj w) !! l) /\
    (forall l i, l ∈ locs -> infos (obj w) !! l = Some i ->
       exists i', infos (obj w') !! l = Some i' /\ refreshed (search (ipfsNode (obj w)) (ci_PeerID i)) i i').
Proof.
  revert w; induction locs as [|loc locs IH]; intros w Hnd.
  { exists w. split; [done|]. split; [done|]. split; [done|]. intros l i Hl. by apply not_elem_of_nil in Hl. }
  apply NoDup_cons in Hnd as [Hloc Hnd]. destruct (refresh_one_run loc w) as (w1 & H1 & Hc1 & Hn1 & Ho1 & Hi1).
  destruct (IH w1 Hnd) as (w' & H2 & Hc2 & Ho2 & Hi2). exists w'. cbn [refresh_all]. rewrite (bind_Ok _ _ _ _ _ H1), H2.
  split; [done|]. split; [by rewrite Hc2|]. split.
  - intros l [Hne Hl]%not_elem_of_cons. by rewrite Ho2, Ho1.
  - intros l i [->|Hl]%elem_of_cons Hi.
    + destruct (Hi1 i Hi) as (i' & Hi' & Hr). exists i'. by rewrite Ho2.
    + destruct (decide (l = loc)) as [->|Hne]; [done|]. rewrite <- Hn1. apply Hi2; [done|]. by rewrite Ho1.
Qed.

(** Different keys have different locations, all of them allocated. *)
Definition tracker_ok t : Prop :=
  (forall k1 k2 l, contactPeers t !! k1 = Some l -> contactPeers t !! k2 = Some l -> k1 = k2) /\
  (forall k l, contactPeers t !! k = Some l -> (l < length (infos t))%nat).

Lemma put_info_ok k i t : tracker_ok t -> tracker_ok (put_info k i t).
Proof.
  intros [Hinj Hlt]. unfold put_info. split; cbn.
  - intros k1 k2 l. rewrite !lookup_insert_Some. intros [[<- <-]|[Hn1 H1]] [[<- Hl]|[Hn2 H2]]; try done;
      [apply Hlt in H2; lia|apply Hlt in H1; lia|by eapply Hinj].
  - intros k1 l. rewrite lookup_insert_Some, length_app. cbn. intros [[_ <-]|[_ H]]; [lia|apply Hlt in H; lia].
Qed.

Lemma info_of_put_eq k i t : info_of (put_info k i t) k = Some i.
Proof. unfold info_of, put_info. cbn. rewrite lookup_insert_eq. cbn. by rewrite list_lookup_middle. Qed.

Lemma info_of_put_ne k k' i i' t : k' <> k -> info_of t k' = Some i' -> info_of (put_info k i t) k' = Some i'.
Proof.
  unfold info_of, put_info. cbn. intros Hne. rewrite lookup_insert_ne by done. destruct (contactPeers t !! k'); cbn; [|done].
  intros H. by apply lookup_app_l_Some.
Qed.

(** The locations a refresh collects. *)
Lemma collect_run order w :
  isStarted (ipfsNode (obj w)) = true -> tracker_ok (obj w) -> NoDup order ->
  exists locs, collect order w = (w, Ok locs) /\ NoDup locs /\ (forall l, l ∈ locs -> (l < length (infos (obj w)))%nat) /\
    forall l, l ∈ locs <-> exists k i, k ∈ order /\ contactPeers (obj w) !! k = Some l /\ infos (obj w) !! l = Some i /\ ci_PeerID i <> "".
Proof.
  intros Hs [Hinj Hlt] Hnd. unfold collect, self, mbind, GoM_bind. rewrite Hs. eexists. split; [reflexivity|].
  assert (forall l, l ∈ omap (fun k => contactPeers (obj w) !! k) order <-> exists k, k ∈ order /\ contactPeers (obj w) !! k = Some l) as Hom
    by (intros l; apply list_elem_of_omap).
  split; [|split].
  - apply NoDup_filter. clear Hom. induction Hnd as [|k order Hk _ IH]; cbn; [constructor|].
    destruct (contactPeers (obj w) !! k) as [l|] eqn:E; [|done]. constructor; [|done].
    rewrite list_elem_of_omap. intros (k' & Hk' & E'). by rewrite (Hinj _ _ _ E E') in Hk.
  - intros l [_ (k & _ & Hl)%Hom]%list_elem_of_filter. by eapply Hlt.
  - intros l. rewrite list_elem_of_filter, Hom. split.
    + intros [Hp (k & Hk & Hl)]. destruct (infos (obj w) !! l) as [i|] eqn:E; [|done]. exists k, i. repeat split; try done.
      apply negb_true_iff, bool_decide_eq_false_1 in Hp. done.
    + intros (k & i & Hk & Hl & Hi & Hp). rewrite Hi, bool_decide_eq_false_2 by done. split; [done|]. by exists k.
Qed.

(** C28. A refresh of the contacts ends, and finds out exactly who is online: a contact with a peer id is
    online afterwards if and only if the node finds addresses for it, which the contact then has;
    nothing else is changed, and contacts without a peer id are not touched. *)
Theorem refresh_exact order w :
  isStarted (ipfsNode (obj w)) = true -> tracker_ok (obj w) -> order ≡ₚ (map_to_list (contactPeers (obj w))).*1 ->
  exists w', RefreshOnlineStatus order w = (w', Ok tt) /\
    forall k i, info_of (obj w) k = Some i ->
      exists i', info_of (obj w') k = Some i' /\
        if decide (ci_PeerID i = "") then i' = i else refreshed (search (ipfsNode (obj w)) (ci_PeerID i)) i i'.
Proof.
  intros Hs Hok Ho. assert (NoDup order) as Hnd by (rewrite Ho; apply NoDup_fst_map_to_list).
  destruct (collect_run order w Hs Hok Hnd) as (locs & Hc & Hl & _ & Hin). destruct (refresh_all_run locs w Hl) as (w1 & H1 & Hcp & Hout & Hch).
  unfold RefreshOnlineStatus. rewrite (bind_Ok _ _ _ _ _ Hc), (bind_Ok _ _ _ _ _ H1).
  unfold refresh_done, time_now, update, mbind, GoM_bind. eexists. split; [reflexivity|]. cbn. unfold info_of. cbn. rewrite Hcp.
  intros k i H. destruct (contactPeers (obj w) !! k) as [l|] eqn:E; [|done]. cbn in *.
  destruct (decide (ci_PeerID i = "")) as [Hp|Hp].
  - exists i. split; [|done]. rewrite Hout; [done|]. intros (k' & i2 & _ & Hk' & Hi2 & Hne)%Hin. congruence.
  - apply Hch; [|done]. apply Hin. exists k, i. repeat split; try done. rewrite Ho, list_elem_of_fmap.
    exists (k, l). by rewrite elem_of_map_to_list.
Qed.

(** A refresh does not see a contact that is replaced meanwhile: when a contact is updated after the
    refresh has collected its contacts, all that the refresh does leaves that contact offline, as
    it was made. *)
Theorem refresh_lost order c w :
  isStarted (ipfsNode (obj w)) = true -> tracker_ok (obj w) -> NoDup order ->
  exists locs w1 w2, collect order w = (w, Ok locs) /\ UpdateContact c w = (w1, Ok tt) /\ refresh_all locs w1 = (w2, Ok tt) /\
    GetContactInfo (c_PublicKey c) (obj w2) = Some (info_of_contact c).
Proof.
  intros Hs Hok Hnd. destruct (collect_run order w Hs Hok Hnd) as (locs & Hc & Hl & Hlt & _).
  destruct (refresh_all_run locs (UpdateContact c w).1 Hl) as (w2 & H2 & Hcp & Hout & _).
  exists locs, (UpdateContact c w).1, w2. split; [done|]. split; [done|]. split; [done|].
  pose proof (info_of_put_eq (hex (c_PublicKey c)) (info_of_contact c) (obj w)) as Hi. unfold GetContactInfo, info_of in *. rewrite Hcp.
  cbn in *. rewrite lookup_insert_eq in *. cbn in *. rewrite Hout; [done|]. intros H%Hlt. lia.
Qed.

(** ** After a restart *)

Context `{!KVLaws K} `{!KVTotal K} `{!CodecLaws Contact}.

(** Contacts are stored under their keys. *)
Definition contacts_ok (d : kv) : Prop :=
  forall k v, str contactPrefix `prefix_of` k -> kv_get k d = Some (Some v) ->
    exists c, unmarshal v = Some c /\ k = contactKey (c_PublicKey c).

Lemma contactKey_inj a b : contactKey a = contactKey b -> a = b.
Proof. apply app_inv_head. Qed.

Lemma ListContacts_run d :
  contacts_ok d ->
  exists cs, ListContacts d = (d, Ok cs) /\
    forall c, c ∈ cs <-> exists v, kv_get (contactKey (c_PublicKey c)) d = Some (Some v) /\ unmarshal v = Some c.
Proof.
  intros Hok. destruct (kv_scan_total (str contactPrefix) d) as [l Hl]. destruct (kv_scan_spec _ _ _ Hl) as (_ & _ & Hitems).
  assert (is_Some (mapM (fun kv : bytes * bytes => unmarshal kv.2 : option Contact) l)) as [cs Hcs].
  { apply mapM_is_Some, Forall_forall. intros [k v] Hin. apply Hitems in Hin as [Hp Hg].
    destruct (Hok _ _ Hp Hg) as (c & Hc & _). by exists c. }
  apply mapM_Some in Hcs. exists cs. split.
  - eapply db_list_Ok; [done|]. eapply Forall2_impl; [exact Hcs|]. intros [k v] c Hc. cbn in *. unfold proto_Unmarshal. by rewrite Hc.
  - intros c. split.
    + intros Hin. destruct (Forall2_elem_of_l _ _ _ _ (proj1 (Forall2_flip _ _ _) Hcs) Hin) as ([k v] & Hkv & Hc). cbn in Hc.
      apply Hitems in Hkv as [Hp Hg]. destruct (Hok _ _ Hp Hg) as (c' & Hc' & ->). assert (c' = c) as -> by congruence. by exists v.
    + intros (v & Hg & Hc). assert ((contactKey (c_PublicKey c), v) ∈ l) as Hin by (apply Hitems; split; [by eexists|done]).
      destruct (Forall2_elem_of_l _ _ _ _ Hcs Hin) as (c' & Hc' & E). cbn in E. congruence.
Qed.

Lemma foldl_put (cs : list Contact) key c0 t :
  (forall c, c ∈ cs -> hex (c_PublicKey c) = key -> c = c0) -> c0 ∈ cs -> hex (c_PublicKey c0) = key ->
  info_of (foldl (fun t c => put_info (hex (c_PublicKey c)) (info_of_contact c) t) t cs) key = Some (info_of_contact c0).
Proof.
  intros Hu Hin Hk. induction cs as [|c cs IH] using rev_ind; [by apply not_elem_of_nil in Hin|]. rewrite foldl_app. cbn [foldl].
  destruct (decide (hex (c_PublicKey c) = key)) as [E|E].
  - assert (c = c0) as -> by (apply Hu; [apply elem_of_app; right; left|done]). rewrite E. apply info_of_put_eq.
  - apply info_of_put_ne; [done|]. apply IH; [intros c' Hc'; apply Hu, elem_of_app; by left|].
    apply elem_of_app in Hin as [?|Hin]; [done|]. apply list_elem_of_singleton in Hin as ->. done.
Qed.

(** What setting a known contact online stores. *)
Definition seen_contact (c : Contact) (peerID : string) (addrs : list maddr) (now : Z) : Contact :=
  mkContact (c_PublicKey c) (c_DisplayName c) (c_CreatedAt c) (c_X25519PublicKey c) peerID (maddr_String <$> addrs) (to_unix now).

Lemma SetContactOnline_stored pubKey peerID addrs c w w' :
  (GetContact pubKey (storage (obj w))).2 = Ok (Some c) -> SetContactOnline pubKey peerID addrs w = (w', Ok tt) ->
  exists data, marshal (seen_contact c peerID addrs (clock (env w) 1)) = Some data /\
    kv_set (contactKey (c_PublicKey c)) data (storage (obj w)) = Some (storage (obj w')).
Proof.
  intros Hg H. unfold SetContactOnline in H. run_split.
  match goal with H : (match _ with Some _ => _ | None => _ end) _ = (?w1, _) |- _ =>
    assert (storage (obj w1) = storage (obj w) /\ env w1 = env w) as [Hst Hen] by (case_match; run_split; subst; done) end.
  unfold updateContactInStorage, with_storage, on, zoom in H. run_split. cbn in *. rewrite Hst in *.
  destruct (GetContact pubKey _) as [d o] eqn:E. cbn in Hg. subst o. simplify_eq/=.
  assert (d = storage (obj w)) as -> by (unfold GetContact, db_get in E; by injection E). run_split. cbn in *.
  unfold AddContact, db_set, proto_Marshal in *. cbn in *. rewrite Hen in *.
  destruct (marshal (mkContact _ _ _ _ _ _ _)) as [data|] eqn:Em; cbn in *; [|by simplify_eq].
  match goal with H : ?x = clock _ _ |- _ => subst x end. exists data. split; [done|].
  unfold mbind, GoM_bind, lift in *. cbn in *. destruct (kv_set _ _ _) as [d'|] eqn:Es; cbn in *; simplify_eq/=. done.
Qed.

Lemma GetContact_stored pubKey c d :
  contacts_ok d -> (GetContact pubKey d).2 = Ok (Some c) -> c_PublicKey c = pubKey.
Proof.
  intros Hok H. unfold GetContact, db_get in H. destruct (kv_get _ d) as [[v|]|] eqn:E; cbn in H; try done.
  destruct (Hok (contactKey pubKey) v) as (c' & Hc & Hk); [by eexists|done|]. apply contactKey_inj in Hk.
  unfold proto_Unmarshal in H. rewrite Hc in H. cbv in H. injection H as <-. done.
Qed.

Lemma contacts_ok_set c data d d' :
  contacts_ok d -> unmarshal data = Some c -> kv_set (contactKey (c_PublicKey c)) data d = Some d' -> contacts_ok d'.
Proof.
  intros Hok Hu Hs k v Hp Hg. destruct (decide (k = contactKey (c_PublicKey c))) as [->|Hne].
  - rewrite (kv_get_set _ _ _ _ Hs) in Hg. injection Hg as <-. by exists c.
  - rewrite (kv_get_set_ne _ _ _ _ _ Hs Hne) in Hg. by apply Hok.
Qed.

(** What is known of a contact survives a restart: once a known contact was set online, a tracker that
    loads the contacts from the same storage knows its peer id, the addresses and the time, to
    the second, it was seen, and takes it for offline. *)
Theorem presence_persists pubKey peerID addrs c w w' w1 :
  contacts_ok (storage (obj w)) -> (GetContact pubKey (storage (obj w))).2 = Ok (Some c) ->
  SecondNs <= clock (env w) 1 -> in_time (clock (env w) 1) ->
  (forall a, a ∈ addrs -> NewMultiaddr (maddr_String a) = Some a) ->
  SetContactOnline pubKey peerID addrs w = (w', Ok tt) -> storage (obj w1) = storage (obj w') ->
  exists w2, LoadContacts w1 = (w2, Ok tt) /\
    GetContactInfo pubKey (obj w2) = Some (mkInfo pubKey peerID addrs false (Some (clock (env w) 1 / SecondNs * SecondNs)) false).
Proof.
  intros Hok Hg Hs Ht Haddr Hrun Hst. pose proof (GetContact_stored _ _ _ Hok Hg) as Hpk.
  destruct (SetContactOnline_stored _ _ _ _ _ _ Hg Hrun) as (data & Hm & Hset). set (c' := seen_contact c peerID addrs (clock (env w) 1)) in *.
  pose proof (contacts_ok_set c' data _ _ Hok (unmarshal_marshal _ _ Hm) Hset) as Hok'. rewrite <- Hst in *.
  destruct (ListContacts_run _ Hok') as (cs & Hl & Hcs). unfold LoadContacts, with_storage, on, zoom, wrap, update, mbind, GoM_bind.
  rewrite Hl. cbn. eexists. split; [reflexivity|]. cbn. unfold GetContactInfo. rewrite (foldl_put cs (hex pubKey) c').
  - unfold info_of_contact, c', seen_contact. cbn. rewrite Hpk.
    assert ((0 <? to_unix (clock (env w) 1)) = true) as -> .
    { apply Z.ltb_lt. unfold to_unix. unfold in_time, unixToInternal in Ht. rewrite u64_small by lia. apply Z.div_str_pos. unfold SecondNs in *. lia. }
    rewrite of_to_unix by done. do 2 f_equal. clear -Haddr. induction addrs as [|a addrs IH]; cbn; [done|].
    rewrite (Haddr a) by left. cbn. rewrite IH; [done|]. intros b Hb. apply Haddr. by right.
  - intros c2 (v & Hv & Hu)%Hcs Hh. apply hex_inj in Hh. rewrite Hh, <- Hpk in Hv.
    rewrite (kv_get_set _ _ _ _ Hset) in Hv. injection Hv as <-.
    rewrite (unmarshal_marshal _ _ Hm) in Hu. by injection Hu.
  - apply Hcs. exists data. split; [by apply (kv_get_set _ _ _ _ Hset)|by apply unmarshal_marshal].
  - unfold c'. cbn. by rewrite Hpk.
Qed.
End Props.

(** ** Examples *)
Module TrackerDemo.
Import NodeDemo MessagingDemo.
(** Bob's contact, loaded from the storage. *)
Definition fresh : Sys (ContactTracker gmap_kv demo_p2p) :=
  mkSys (mkEnvironment (fun _ => None) (fun _ => 90 * SecondNs)) (mkTracker (K := gmap_kv) contacts node ∅ [] None).
Definition loaded := LoadContacts fresh.
Definition bob_key : string := hex (c_PublicKey bob_contact).
Definition bob_info : ContactPeerInfo := info_of_contact bob_contact.
Lemma loaded_map : contactPeers (obj loaded.1) = {[bob_key := 0%nat]}.
Proof. vm_compute. reflexivity. Qed.
Lemma loaded_infos : infos (obj loaded.1) = [bob_info].
Proof. vm_compute. reflexivity. Qed.
Lemma loaded_ok : tracker_ok (obj loaded.1).
Proof.
  unfold tracker_ok. rewrite loaded_map, loaded_infos. split.
  - intros k1 k2 l. rewrite !lookup_singleton_Some. by intros [<- _] [<- _].
  - intros k l [_ <-]%lookup_singleton_Some. cbn. lia.
Qed.
Lemma contacts_stored_ok : contacts_ok (K := gmap_kv) contacts.
Proof.
  apply (contacts_ok_set (K := gmap_kv) bob_contact (encode_bytes bob_contact) ∅); [by intros k v _ [=]|by apply unmarshal_marshal|reflexivity].
Qed.
End TrackerDemo.
Import NodeDemo MessagingDemo TrackerDemo.

(** The search ends at the address of another peer. *)
Lemma refresh_exact_witness :
  exists w' i, RefreshOnlineStatus [bob_key] loaded.1 = (w', Ok tt) /\ info_of (obj w') bob_key = Some i /\ ci_IsOnline i = true.
Proof.
  destruct (refresh_exact [bob_key] loaded.1) as (w' & Hr & H).
  - vm_compute. reflexivity.
  - exact loaded_ok.
  - rewrite loaded_map, map_to_list_singleton. reflexivity.
  - destruct (H bob_key bob_info) as (i & Hi & Href).
    { unfold info_of. rewrite loaded_map, loaded_infos, lookup_singleton_eq. reflexivity. }
    exists w', i. split; [exact Hr|]. split; [exact Hi|]. rewrite decide_False in Href by discriminate.
    assert (search (ipfsNode (obj loaded.1)) (ci_PeerID bob_info) = Some ["/ip4/127.0.0.1/tcp/4001"]) as Es by (vm_compute; reflexivity).
    rewrite Es in Href. destruct Href as [now ->]. reflexivity.
Defined.

Lemma refresh_lost_witness :
  exists locs w1 w2, collect [bob_key] loaded.1 = (loaded.1, Ok locs) /\ UpdateContact bob_contact loaded.1 = (w1, Ok tt) /\
    refresh_all locs w1 = (w2, Ok tt) /\ GetContactInfo (c_PublicKey bob_contact) (obj w2) = Some bob_info.
Proof. apply (refresh_lost [bob_key] bob_contact loaded.1); [vm_compute; reflexivity|exact loaded_ok|apply NoDup_singleton]. Defined.

Lemma presence_persists_witness :
  let addrs := ["/ip4/1.2.3.4"] : list (maddr (Libp2p := demo_p2p)) in
  let w' := (SetContactOnline (c_PublicKey bob_contact) "bob2" addrs fresh).1 in
  exists w2, LoadContacts w' = (w2, Ok tt) /\
    GetContactInfo (c_PublicKey bob_contact) (obj w2) = Some (mkInfo (c_PublicKey bob_contact) "bob2" addrs false (Some (90 * SecondNs)) false).
Proof.
  intros addrs w'. apply (presence_persists (c_PublicKey bob_contact) "bob2" addrs bob_contact fresh w' w').
  - exact contacts_stored_ok.
  - vm_compute. reflexivity.
  - vm_compute. discriminate.
  - split; vm_compute; [discriminate|reflexivity].
  - intros a _. reflexivity.
  - apply (run_pair (SetContactOnline _ _ _)). vm_compute. reflexivity.
  - reflexivity.
Defined.
