(* ===== verification/Identity.v ===== *)
(** * pkg/identity: keys, certificates and prekeys

    [identity.go], [identity_v1.go] and [keys.go]: keys derived from a mnemonic,
    the random keys of a device, its certificate, signed and one-time prekeys,
    and the file an identity is saved to.  BIP39, base58 and the file system are
    outside the repository ([Bip39], [Base58], [Files]), and so is the calendar
    that [AddDate] asks.  Instants are nanoseconds.  The private half of a
    generated prekey is dropped, as the code drops it. *)
From S2P Require Import Prelude Primitives Crypto Proto Runtime MultiDevice Files.

(** The constants of the derivations and of prekey management. *)
Definition MasterKeySalt : string := "bt-master-key".
Definition MasterKeyInfo : string := "babylon-tower-v1".
Definition IdentitySalt : string := "bt-identity".
Definition SigningKeyInfo : string := "identity-signing-key-0".
Definition DHKeyInfo : string := "identity-dh-key-0".
Definition PoCEd25519Salt : string := "ed25519-derive".
Definition PoCX25519Salt : string := "x25519-derive".
Definition PoCIndexInfo : string := "index-0".
Definition SeedLength : nat := 64.
Definition DeviceIDSize : nat := 16.
Definition OPKReplenishThreshold : Z := 20.
Definition SPKRotationDays : Z := 7.
Definition SPKOverlapHours : Z := 24.

(** go-bip39: checking a mnemonic, its seed with an empty passphrase, the mnemonic of
    some entropy. *)
Class Bip39 := {
  IsMnemonicValid : string -> bool;
  NewSeed : string -> bytes;
  NewMnemonic : bytes -> option string;
}.

(** mr-tron/base58. *)
Class Base58 := { base58_Encode : bytes -> string; base58_Decode : string -> option bytes }.

(** [Identity] *)
Record Identity := mkIdentity {
  id_Mnemonic : string; id_Seed : bytes; Ed25519PubKey : bytes; Ed25519PrivKey : bytes; X25519PubKey : bytes; X25519PrivKey : bytes;
}.

(** What the file holds of it. *)
Record IdentityFile := mkIdentityFile { if_Mnemonic : string; if_Ed25519PubKey : bytes; if_X25519PubKey : bytes }.

(** [IdentityV1]; no expiry is [None]. *)
Record IdentityV1 := mkIdentityV1 {
  IKSignPub : bytes; IKSignPriv : bytes; IKDHPriv : bytes; IKDHPub : bytes;
  DeviceID : bytes; DKSignPub : bytes; DKSignPriv : bytes; DKDHPriv : bytes; DKDHPub : bytes;
  DeviceName : string; CreatedAt : Z; ExpiresAt : option Z; Mnemonic : string;
}.

(** [pb.SignedPrekey] and [pb.OneTimePrekey] *)
Record SignedPrekey := mkSignedPrekey {
  sp_DeviceId : bytes; sp_PrekeyPub : bytes; sp_PrekeyId : Z; sp_CreatedAt : Z; sp_ExpiresAt : Z; sp_Signature : bytes;
}.
Record OneTimePrekey := mkOneTimePrekey { op_DeviceId : bytes; op_PrekeyPub : bytes; op_PrekeyId : Z }.

#[export] Instance eta_SignedPrekey : Eta SignedPrekey := fun k =>
  mkSignedPrekey (sp_DeviceId k) (sp_PrekeyPub k) (sp_PrekeyId k) (sp_CreatedAt k) (sp_ExpiresAt k) (sp_Signature k).

(** ** Keys from a mnemonic *)

Section Keys.
Context `{P : Primitives} `{B : Bip39}.

(** [ed25519.NewKeyFromSeed] *)
Definition NewKeyFromSeed (seed : bytes) : bytes := seed ++ ed_pub seed.

Definition DeriveSeed (mnemonic : string) : outcome bytes :=
  if negb (IsMnemonicValid mnemonic) then Err (ErrText "invalid mnemonic")
  else if negb (length (NewSeed mnemonic) =? SeedLength)%nat then Err (ErrText "unexpected seed length: %d")
  else Ok (NewSeed mnemonic).

Definition deriveEd25519Keys (seed : bytes) : outcome (bytes * bytes) :=
  derivedKey ← wrapErr "failed to derive Ed25519 key" (ext "hkdf" (hkdf seed (str "ed25519-derive") (str "index-0") 32));
  let privKey := NewKeyFromSeed derivedKey in
  Ok (ed25519_Public privKey, privKey).

Definition deriveX25519Keys (seed : bytes) : outcome (bytes * bytes) :=
  privKey ← wrapErr "failed to derive X25519 key" (ext "hkdf" (hkdf seed (str "x25519-derive") (str "index-1") 32));
  pubKey ← wrapErr "X25519 key derivation failed" (ext "curve25519.X25519" (x25519 privKey Basepoint));
  Ok (pubKey, privKey).

Definition NewIdentity (mnemonic : string) : outcome Identity :=
  seed ← wrapErr "failed to derive seed" (DeriveSeed mnemonic);
  '(edPub, edPriv) ← wrapErr "failed to derive Ed25519 keys" (deriveEd25519Keys seed);
  '(xPub, xPriv) ← wrapErr "failed to derive X25519 keys" (deriveX25519Keys seed);
  Ok (mkIdentity mnemonic seed edPub edPriv xPub xPriv).

(** [bip39.NewEntropy(128)] reads 16 random bytes. *)
Definition GenerateMnemonic {X} : GoM (Sys X) string :=
  entropy ← rand_opt 16;
  entropy ← lift (wrapErr "failed to generate entropy" (ext "rand.Reader" entropy));
  lift (wrapErr "failed to generate mnemonic" (ext "bip39" (NewMnemonic entropy))).

Definition GenerateIdentity {X} : GoM (Sys X) Identity :=
  mnemonic ← wrap "failed to generate mnemonic" GenerateMnemonic;
  lift (NewIdentity mnemonic).

Definition DeriveMasterSecret (seed : bytes) : outcome bytes :=
  if negb (length seed =? SeedLength)%nat then Err (ErrText "invalid seed length: %d, expected %d")
  else wrapErr "failed to derive master secret" (ext "hkdf" (hkdf seed (str MasterKeySalt) (str MasterKeyInfo) 32)).

(** The results are [edPub], [edPriv], [dhPub] and [dhPriv]. *)
Definition DeriveIdentityKeysV1 (masterSecret : bytes) : outcome (bytes * bytes * bytes * bytes) :=
  edSeed ← wrapErr "failed to derive Ed25519 seed" (ext "hkdf" (hkdf masterSecret (str IdentitySalt) (str SigningKeyInfo) 32));
  let edPriv := NewKeyFromSeed edSeed in
  dhPriv ← wrapErr "failed to derive X25519 seed" (ext "hkdf" (hkdf masterSecret (str IdentitySalt) (str DHKeyInfo) 32));
  dhPub ← wrapErr "X25519 key derivation failed" (ext "curve25519.X25519" (x25519 dhPriv Basepoint));
  Ok (ed25519_Public edPriv, edPriv, dhPub, dhPriv).

Definition DeriveIdentityKeysPoC (seed : bytes) : outcome (bytes * bytes * bytes * bytes) :=
  edSeed ← wrapErr "failed to derive Ed25519 seed (PoC)" (ext "hkdf" (hkdf seed (str PoCEd25519Salt) (str PoCIndexInfo) 32));
  let edPriv := NewKeyFromSeed edSeed in
  dhPriv ← wrapErr "failed to derive X25519 seed (PoC)" (ext "hkdf" (hkdf seed (str PoCX25519Salt) (str PoCIndexInfo) 32));
  dhPub ← wrapErr "X25519 key derivation failed (PoC)" (ext "curve25519.X25519" (x25519 dhPriv Basepoint));
  Ok (ed25519_Public edPriv, edPriv, dhPub, dhPriv).

Definition DeriveDeviceID (dkSignPub : bytes) : bytes := take DeviceIDSize (sha256 dkSignPub).

(** The results are [deviceID], [dkSignPub], [dkSignPriv], [dkDHPub] and [dkDHPriv]. *)
Definition GenerateDeviceKeys {X} (deviceName : string) : GoM (Sys X) (bytes * bytes * bytes * bytes * bytes) :=
  seed ← rand_opt 32;
  '(_, dkSignPriv) ← lift (wrapErr "failed to generate device Ed25519 key" (ed25519_GenerateKey seed));
  let dkSignPub := ed25519_Public dkSignPriv in
  dkDHPriv ← rand_opt 32;
  dkDHPriv ← lift (wrapErr "failed to generate random X25519 seed" (ext "rand.Reader" dkDHPriv));
  dkDHPub ← lift (wrapErr "X25519 device key derivation failed" (ext "curve25519.X25519" (x25519 dkDHPriv Basepoint)));
  mret (DeriveDeviceID dkSignPub, dkSignPub, dkSignPriv, dkDHPub, dkDHPriv).

Definition NewIdentityV1 {X} (mnemonic deviceName : string) : GoM (Sys X) IdentityV1 :=
  seed ← lift (wrapErr "failed to derive seed" (DeriveSeed mnemonic));
  masterSecret ← lift (wrapErr "failed to derive master secret" (DeriveMasterSecret seed));
  '(ikSignPub, ikSignPriv, ikDHPub, ikDHPriv) ←
    lift (wrapErr "failed to derive identity keys" (DeriveIdentityKeysV1 masterSecret));
  '(deviceID, dkSignPub, dkSignPriv, dkDHPub, dkDHPriv) ← wrap "failed to generate device keys" (GenerateDeviceKeys deviceName);
  now ← time_now;
  mret (mkIdentityV1 ikSignPub ikSignPriv ikDHPriv ikDHPub deviceID dkSignPub dkSignPriv dkDHPriv dkDHPub deviceName now None
          mnemonic).
End Keys.

(** ** keys.go *)

Section Base58.
Context `{P : Primitives} `{B : Base58}.

Definition EncodeBase58 (input : bytes) : string := if (length input =? 0)%nat then "" else base58_Encode input.
Definition DecodeBase58 (input : string) : outcome bytes :=
  if (String.length input =? 0)%nat then Ok [] else ext "base58.Decode" (base58_Decode input).

Definition PublicKeyHex (i : Identity) : string := hex (Ed25519PubKey i).
Definition PublicKeyBase58 (i : Identity) : string := EncodeBase58 (Ed25519PubKey i).
Definition X25519PublicKeyHex (i : Identity) : string := hex (X25519PubKey i).
Definition X25519PublicKeyBase58 (i : Identity) : string := EncodeBase58 (X25519PubKey i).

Definition IdentityFingerprint (i : IdentityV1) : string := EncodeBase58 (take 20 (sha256 (IKSignPub i ++ IKDHPub i))).
End Base58.

(** ** The identity file *)

Section Files.
Context `{P : Primitives} `{B : Bip39} `{F : Files} `{!Codec IdentityFile}.

Definition SaveIdentity (identity : Identity) (filePath : string) : GoM files unit :=
  _ ← file_write "failed to create directory" (MkdirAll (path_Dir filePath));
  let serializable := mkIdentityFile (id_Mnemonic identity) (Ed25519PubKey identity) (X25519PubKey identity) in
  data ← lift (wrapErr "failed to marshal identity" (ext "json" (marshal serializable)));
  file_write "failed to write identity file" (WriteFile filePath data).

Definition LoadIdentity (filePath : string) (f : files) : outcome Identity :=
  data ← wrapErr "failed to read identity file" (ext "os" (file_data (ReadFile filePath f)));
  identity ← wrapErr "failed to unmarshal identity" (ext "json" (unmarshal data));
  NewIdentity (if_Mnemonic identity).

Definition IdentityExists (filePath : string) (f : files) : bool := file_exists filePath f.
End Files.

(** ** Certificates and prekeys *)

(** The signed fields of a certificate and of a prekey; signer and verifier write them
    out alike. *)
Definition device_data (cert : DeviceCertificate) : bytes :=
  dc_DeviceId cert ++ dc_DeviceSignPub cert ++ dc_DeviceDhPub cert ++ str (dc_DeviceName cert) ++
  le_encode 8 (dc_CreatedAt cert) ++ le_encode 8 (dc_ExpiresAt cert) ++ dc_IdentityPub cert.
Definition prekey_data (spk : SignedPrekey) : bytes :=
  sp_DeviceId spk ++ sp_PrekeyPub spk ++ le_encode 8 (sp_PrekeyId spk) ++ le_encode 8 (sp_CreatedAt spk) ++
  le_encode 8 (sp_ExpiresAt spk).

Section Prekeys.
Context `{P : Primitives}.

Definition SignDeviceCertificate (ikSignPriv : bytes) (cert : DeviceCertificate) : outcome bytes :=
  ed25519_Sign ikSignPriv (device_data cert).

Definition VerifyDeviceCertificate (cert : DeviceCertificate) : outcome unit :=
  if negb (length (dc_IdentityPub cert) =? 32)%nat then Err (ErrText "invalid identity public key length")
  else
    valid ← ed25519_Verify (dc_IdentityPub cert) (device_data cert) (dc_Signature cert);
    if negb valid then Err (ErrText "invalid device certificate signature") else Ok tt.

Definition CreateDeviceCertificate (i : IdentityV1) : outcome DeviceCertificate :=
  let expiresAt := match ExpiresAt i with None => 0 | Some t => to_unix t end in
  let cert := mkDeviceCertificate (DeviceID i) (DKSignPub i) (DKDHPub i) (DeviceName i) (to_unix (CreatedAt i)) expiresAt
                (IKSignPub i) [] in
  signature ← wrapErr "failed to sign device certificate" (SignDeviceCertificate (IKSignPriv i) cert);
  Ok (cert <| dc_Signature := signature |>).

Definition SignSignedPrekey (ikSignPriv : bytes) (spk : SignedPrekey) : outcome bytes :=
  ed25519_Sign ikSignPriv (prekey_data spk).

Definition VerifySignedPrekey (spk : SignedPrekey) (identityPub : bytes) : outcome unit :=
  if negb (length identityPub =? 32)%nat then Err (ErrText "invalid identity public key length")
  else
    valid ← ed25519_Verify identityPub (prekey_data spk) (sp_Signature spk);
    if negb valid then Err (ErrText "invalid signed prekey signature") else Ok tt.

Definition GenerateSignedPrekey {X} (AddDate : Z -> Z -> Z) (i : IdentityV1) (prekeyID : Z) : GoM (Sys X) SignedPrekey :=
  spPriv ← rand_opt 32;
  spPriv ← lift (wrapErr "failed to generate random SPK seed" (ext "rand.Reader" spPriv));
  spPub ← lift (wrapErr "X25519 SPK derivation failed" (ext "curve25519.X25519" (x25519 spPriv Basepoint)));
  now ← time_now;
  let expiresAt := AddDate now SPKRotationDays in
  let spk := mkSignedPrekey (DeviceID i) spPub prekeyID (to_unix now) (to_unix expiresAt) [] in
  signature ← lift (wrapErr "failed to sign SPK" (SignSignedPrekey (IKSignPriv i) spk));
  mret (spk <| sp_Signature := signature |>).

Fixpoint opk_loop {X} (i : IdentityV1) (startID : Z) (idx count : nat) : GoM (Sys X) (list OneTimePrekey) :=
  match count with
  | O => mret []
  | S count =>
      opPriv ← rand_opt 32;
      opPriv ← lift (wrapErr "failed to generate random OPK seed" (ext "rand.Reader" opPriv));
      opPub ← lift (wrapErr "X25519 OPK derivation failed" (ext "curve25519.X25519" (x25519 opPriv Basepoint)));
      opks ← opk_loop i startID (S idx) count;
      mret (mkOneTimePrekey (DeviceID i) opPub (u64 (startID + Z.of_nat idx)) :: opks)
  end.
(** [make] panics on a negative length. *)
Definition GenerateOneTimePrekeys {X} (i : IdentityV1) (startID count : Z) : GoM (Sys X) (list OneTimePrekey) :=
  if count <? 0 then panic else opk_loop i startID 0 (Z.to_nat count).

Definition ShouldReplenishOPKs (currentCount : Z) : bool := currentCount <? OPKReplenishThreshold.

Definition SPKNeedsRotation {X} (spk : option SignedPrekey) : GoM (Sys X) bool :=
  match spk with
  | None => mret true
  | Some spk =>
      now ← time_now;
      let overlapStart := of_unix (sp_ExpiresAt spk) - SPKOverlapHours * 3600 * SecondNs in
      mret (overlapStart <? now)
  end.
End Prekeys.
