(* ===== verification/IdentityProps.v ===== *)
(** * pkg/identity: what identities are worth

    An identity comes back from its file; the keys of a new identity are pairs;
    certificates and prekeys made with them verify. *)
From S2P Require Import Prelude Primitives Crypto Proto Runtime MultiDevice Files Identity.
#[local] Open Scope Z_scope.

Section Identity.
Context `{P : Primitives} `{B : Bip39}.

Lemma Public_NewKeyFromSeed seed : length seed = 32%nat -> ed25519_Public (NewKeyFromSeed seed) = ed_pub seed.
Proof. intros H. unfold ed25519_Public, NewKeyFromSeed. by rewrite drop_app_length'. Qed.

Lemma hkdf_32 `{!PrimitiveLaws P} s t i : exists o, hkdf s t i 32 = Some o /\ length o = 32%nat.
Proof. apply hkdf_length. lia. Qed.

(** ** The file of an identity *)

Lemma NewIdentity_mnemonic mnemonic i : NewIdentity mnemonic = Ok i -> id_Mnemonic i = mnemonic.
Proof.
  intros H. unfold NewIdentity in H. outcome_split.
  repeat match goal with p : (bytes * bytes)%type |- _ => destruct p end. outcome_split.
  repeat match goal with p : (bytes * bytes)%type |- _ => destruct p end. outcome_split. by subst.
Qed.

Context {F : Files} `{!FilesLaws F} `{!Codec IdentityFile} `{!CodecLaws IdentityFile}.

(** An identity is what its mnemonic says: one that was made from a mnemonic and saved is
    loaded again with all its keys, private ones included, though none of these is in
    the file; and after saving the file is there. *)
Theorem identity_recovered mnemonic i path f f' :
  NewIdentity mnemonic = Ok i -> SaveIdentity i path f = (f', Ok tt) ->
  LoadIdentity path f' = Ok i /\ IdentityExists path f' = true.
Proof.
  intros Hi. pose proof (NewIdentity_mnemonic _ _ Hi) as Em.
  unfold SaveIdentity, LoadIdentity, IdentityExists, file_write, lift, mbind, GoM_bind.
  destruct (MkdirAll (path_Dir path) f) as [f1|]; [|done].
  destruct (marshal _) as [data|] eqn:Ed; [|done]. cbn. destruct (WriteFile path data f1) as [f2|] eqn:Ew; [|done].
  intros [= <-]. rewrite (ReadFile_WriteFile _ _ _ _ Ew), (exists_WriteFile _ _ _ _ Ew). split; [|done].
  cbn. rewrite (unmarshal_marshal _ _ Ed). cbn. by rewrite Em.
Qed.
End Identity.

(** ** The keys of a new identity *)

Section Keys.
Context `{P : Primitives} `{B : Bip39} `{!PrimitiveLaws P} {X : Type}.

(** The keys of an identity and of its device are pairs. *)
Record well_keyed (i : IdentityV1) : Prop := {
  wk_sign : ed_keypair (IKSignPub i) (IKSignPriv i);
  wk_dh : x25519 (IKDHPriv i) Basepoint = Some (IKDHPub i) /\ length (IKDHPub i) = 32%nat;
  wk_device : ed_keypair (DKSignPub i) (DKSignPriv i);
  wk_device_dh : x25519 (DKDHPriv i) Basepoint = Some (DKDHPub i) /\ length (DKDHPub i) = 32%nat;
  wk_id : DeviceID i = take 16 (sha256 (DKSignPub i));
}.

Lemma keypair_of_seed seed : length seed = 32%nat -> ed_keypair (ed25519_Public (NewKeyFromSeed seed)) (NewKeyFromSeed seed).
Proof. intros H. exists seed. by rewrite Public_NewKeyFromSeed. Qed.

(** With randomness, a mnemonic that is valid and has a seed of 64 bytes makes an
    identity. *)
Lemma NewIdentityV1_run mnemonic name (w : Sys X) :
  IsMnemonicValid mnemonic = true -> length (NewSeed mnemonic) = 64%nat ->
  is_Some (rands (env w) 0) -> is_Some (rands (env w) 1) ->
  exists i w', NewIdentityV1 mnemonic name w = (w', Ok i) /\ well_keyed i /\ CreatedAt i = clock (env w) 0 /\
    DeviceName i = name /\ ExpiresAt i = None /\
    env w' = mkEnvironment (fun n => rands (env w) (S (S n))) (fun n => clock (env w) (S n)) /\ obj w' = obj w.
Proof.
  intros Hv Hl [r0 H0] [r1 H1]. unfold NewIdentityV1, DeriveSeed, DeriveMasterSecret, DeriveIdentityKeysV1, GenerateDeviceKeys.
  rewrite Hv, Hl. cbn [negb Nat.eqb].
  destruct (hkdf_32 (NewSeed mnemonic) (str MasterKeySalt) (str MasterKeyInfo)) as (ms & Em & _).
  destruct (hkdf_32 ms (str IdentitySalt) (str SigningKeyInfo)) as (es & Ees & Les).
  destruct (hkdf_32 ms (str IdentitySalt) (str DHKeyInfo)) as (ds & Eds & Lds).
  destruct (x25519_base ds Lds) as [dp Edp]. destruct (x25519_base (fit 32 r1) (fit_length _ _)) as [ddp Eddp].
  unfold lift, wrap, mbind, GoM_bind, rand_opt, time_now. cbn. rewrite Hl. cbn. rewrite Em. cbn. rewrite Ees. cbn.
  rewrite Eds. cbn. rewrite Edp. cbn. rewrite H0. cbn. rewrite H1. cbn. rewrite Eddp. cbn.
  eexists _, _. split; [reflexivity|]. cbn. split; [|by repeat split].
  split; cbn; [by apply keypair_of_seed|split; [done|by eapply x25519_length]| | |done].
  - apply (keypair_of_seed (fit 32 r0)), fit_length.
  - split; [done|by eapply x25519_length].
Qed.

(** Certificates and prekeys of a well-keyed identity verify. *)
Lemma CreateDeviceCertificate_run i :
  ed_keypair (IKSignPub i) (IKSignPriv i) ->
  exists cert, CreateDeviceCertificate i = Ok cert /\ VerifyDeviceCertificate cert = Ok tt /\
    dc_DeviceId cert = DeviceID i /\ dc_DeviceSignPub cert = DKSignPub i /\ dc_IdentityPub cert = IKSignPub i.
Proof.
  intros Hk. unfold CreateDeviceCertificate, SignDeviceCertificate. rewrite (ed25519_Sign_Ok _ _ _ Hk). cbn.
  eexists. split; [reflexivity|]. cbn. split; [|done].
  unfold VerifyDeviceCertificate. cbn [dc_IdentityPub dc_Signature set_field]. rewrite (proj1 (ed_keypair_lengths _ _ Hk)).
  cbn [Nat.eqb negb]. unfold device_data at 1. cbn. by rewrite (ed25519_Verify_Sign _ _ _ Hk).
Qed.

Lemma GenerateSignedPrekey_run AddDate i id (w : Sys X) :
  ed_keypair (IKSignPub i) (IKSignPriv i) -> is_Some (rands (env w) 0) ->
  exists spk w', GenerateSignedPrekey AddDate i id w = (w', Ok spk) /\ VerifySignedPrekey spk (IKSignPub i) = Ok tt /\
    sp_PrekeyId spk = id /\ length (sp_PrekeyPub spk) = 32%nat /\
    env w' = mkEnvironment (fun n => rands (env w) (S n)) (fun n => clock (env w) (S n)) /\ obj w' = obj w.
Proof.
  intros Hk [r Hr]. destruct (x25519_base (fit 32 r) (fit_length _ _)) as [pub Ep].
  unfold GenerateSignedPrekey, SignSignedPrekey, lift, mbind, GoM_bind, rand_opt, time_now. cbn. rewrite Hr. cbn. rewrite Ep. cbn.
  rewrite (ed25519_Sign_Ok _ _ _ Hk). cbn. eexists _, _. split; [reflexivity|]. cbn.
  split; [|split; [done|split; [by eapply x25519_length|done]]].
  unfold VerifySignedPrekey. rewrite (proj1 (ed_keypair_lengths _ _ Hk)).
  cbn [Nat.eqb negb sp_Signature set_field]. unfold prekey_data at 1. cbn. by rewrite (ed25519_Verify_Sign _ _ _ Hk).
Qed.

(** Prekeys get the ids that follow the first, modulo 2^64. *)
Lemma opk_loop_run i startID idx count (w : Sys X) :
  (forall n, (n < count)%nat -> is_Some (rands (env w) n)) ->
  exists opks w', opk_loop i startID idx count w = (w', Ok opks) /\
    op_PrekeyId <$> opks = (fun n => u64 (startID + Z.of_nat n)) <$> seq idx count /\
    env w' = mkEnvironment (fun n => rands (env w) (count + n)%nat) (clock (env w)) /\ obj w' = obj w.
Proof.
  revert idx w; induction count as [|count IH]; intros idx w Hr.
  { exists [], w. split; [done|]. split; [done|]. split; [|done]. by destruct w as [[r c] o]. }
  destruct (Hr 0%nat ltac:(lia)) as [r H0]. destruct (x25519_base (fit 32 r) (fit_length _ _)) as [pub Ep].
  cbn [opk_loop]. unfold lift, mbind, GoM_bind, rand_opt. cbn. rewrite H0. cbn. rewrite Ep. cbn.
  destruct (IH (S idx) (mkSys (mkEnvironment (fun n => rands (env w) (S n)) (clock (env w))) (obj w))) as (opks & w' & -> & Hid & He & Ho).
  { intros n Hn. cbn. apply Hr. lia. }
  eexists _, _. split; [reflexivity|]. cbn. by rewrite Hid, He.
Qed.
End Keys.

(** ** Examples *)
Module IdentityDemo.
#[export] Instance toy_bip39 : Bip39 := {|
  IsMnemonicValid s := bool_decide (s <> "");
  NewSeed s := take 64 (str s ++ zeros 64);
  NewMnemonic b := Some (hex b);
|}.
#[export] Instance IdentityFile_eq : EqDecision IdentityFile.
Proof. solve_decision. Defined.
#[export] Program Instance IdentityFile_countable : Countable IdentityFile :=
  inj_countable' (fun f => (if_Mnemonic f, if_Ed25519PubKey f, if_X25519PubKey f)) (fun '(a, b, c) => mkIdentityFile a b c) _.
Next Obligation. by intros []. Qed.
#[export] Instance IdentityFile_codec : Codec IdentityFile := countable_codec.
#[export] Instance IdentityFile_codec_laws : CodecLaws IdentityFile := countable_codec_laws.

Definition no_identity : Identity := mkIdentity "" [] [] [] [] [].
Definition alice : Identity := match NewIdentity (P := toy) "alice" with Ok i => i | _ => no_identity end.
Definition saved : gmap string bytes := (SaveIdentity alice "id.json" (∅ : gmap string bytes)).1.
End IdentityDemo.
Import IdentityDemo.

Lemma identity_recovered_witness :
  LoadIdentity (P := toy) "id.json" saved = Ok alice /\ IdentityExists "id.json" saved = true.
Proof.
  apply (identity_recovered (P := toy) (F := gmap_files) "alice" alice "id.json" (∅ : gmap string bytes) saved).
  - vm_compute. reflexivity.
  - apply run_pair. vm_compute. reflexivity.
Defined.
