(* ===== verification/Document.v ===== *)
(** * pkg/identity: identity documents and the DHT

    [identity_document.go] and [dht_identity.go]: the signed document of an
    identity, the bytes its signature covers, its verification, and documents and
    prekey bundles on the DHT (whose records do not expire here).  The method and
    the function that write the signed bytes are both given, as in the source. *)
From S2P Require Import Prelude Primitives Crypto Proto Dht Runtime MultiDevice Identity.

(** [pb.FeatureFlags]; the custom features are never set. *)
Record FeatureFlags := mkFeatures {
  SupportsReadReceipts : bool; SupportsTypingIndicators : bool; SupportsReactions : bool; SupportsEdits : bool;
  SupportsMedia : bool; SupportsVoiceCalls : bool; SupportsVideoCalls : bool; SupportsGroups : bool; SupportsChannels : bool;
  SupportsOfflineMessages : bool;
}.

(** [pb.IdentityDocument] *)
Record IdentityDocument := mkDocument {
  IdentitySignPub : bytes; IdentityDhPub : bytes; Sequence : Z; PreviousHash : bytes; doc_CreatedAt : Z; doc_UpdatedAt : Z;
  doc_Devices : list DeviceCertificate; SignedPrekeys : list SignedPrekey; OneTimePrekeys : list OneTimePrekey;
  SupportedVersions : list Z; SupportedCipherSuites : list string; PreferredVersion : Z; DisplayName : string; AvatarCid : string;
  doc_Revocations : list RevocationCertificate; Features : option FeatureFlags; doc_Signature : bytes;
}.
#[export] Instance eta_Document : Eta IdentityDocument := fun d =>
  mkDocument (IdentitySignPub d) (IdentityDhPub d) (Sequence d) (PreviousHash d) (doc_CreatedAt d) (doc_UpdatedAt d)
    (doc_Devices d) (SignedPrekeys d) (OneTimePrekeys d) (SupportedVersions d) (SupportedCipherSuites d) (PreferredVersion d)
    (DisplayName d) (AvatarCid d) (doc_Revocations d) (Features d) (doc_Signature d).

(** [pb.PrekeyBundle] *)
Record PrekeyBundle := mkPrekeyBundle {
  bn_SignedPrekeys : list SignedPrekey; bn_OneTimePrekeys : list OneTimePrekey; bn_PublishedAt : Z;
}.

(** Bytes after their length. *)
Definition framed (data : bytes) : bytes := le_encode 4 (Z.of_nat (length data)) ++ data.

(** One loop of the serialization: every item marshalled, after its length. *)
Fixpoint marshal_items {A} `{!Codec A} (ctx : string) (l : list A) : outcome bytes :=
  match l with
  | [] => Ok []
  | a :: l =>
      data ← wrapErr ctx (proto_Marshal a);
      rest ← marshal_items ctx l;
      Ok (framed data ++ rest)
  end.

Section Documents.
Context `{P : Primitives} `{!Codec DeviceCertificate} `{!Codec SignedPrekey} `{!Codec OneTimePrekey}
  `{!Codec RevocationCertificate} `{!Codec FeatureFlags}.

Definition marshal_features (features : option FeatureFlags) : outcome bytes :=
  match features with
  | None => Ok []
  | Some f => data ← wrapErr "failed to marshal features" (proto_Marshal f); Ok (framed data)
  end.

(** The function of that name. *)
Definition serializeDocumentForSigning (doc : IdentityDocument) : outcome bytes :=
  devices ← marshal_items "failed to marshal device" (doc_Devices doc);
  spks ← marshal_items "failed to marshal signed prekey" (SignedPrekeys doc);
  opks ← marshal_items "failed to marshal one-time prekey" (OneTimePrekeys doc);
  revocations ← marshal_items "failed to marshal revocation" (doc_Revocations doc);
  features ← marshal_features (Features doc);
  Ok (IdentitySignPub doc ++ IdentityDhPub doc ++ le_encode 8 (Sequence doc) ++ PreviousHash doc ++
      le_encode 8 (doc_CreatedAt doc) ++ le_encode 8 (doc_UpdatedAt doc) ++ devices ++ spks ++ opks ++
      concat (le_encode 4 <$> SupportedVersions doc) ++
      concat ((fun suite => framed (str suite)) <$> SupportedCipherSuites doc) ++
      le_encode 4 (PreferredVersion doc) ++ framed (str (DisplayName doc)) ++ framed (str (AvatarCid doc)) ++
      revocations ++ features).

(** The method of that name. *)
Definition manager_serializeDocumentForSigning (doc : IdentityDocument) : outcome bytes :=
  devices ← marshal_items "failed to marshal device" (doc_Devices doc);
  spks ← marshal_items "failed to marshal signed prekey" (SignedPrekeys doc);
  opks ← marshal_items "failed to marshal one-time prekey" (OneTimePrekeys doc);
  revocations ← marshal_items "failed to marshal revocation" (doc_Revocations doc);
  features ← marshal_features (Features doc);
  Ok (IdentitySignPub doc ++ IdentityDhPub doc ++ le_encode 8 (Sequence doc) ++ PreviousHash doc ++
      le_encode 8 (doc_CreatedAt doc) ++ le_encode 8 (doc_UpdatedAt doc) ++ devices ++ spks ++ opks ++
      concat (le_encode 4 <$> SupportedVersions doc) ++
      concat ((fun suite => framed (str suite)) <$> SupportedCipherSuites doc) ++
      le_encode 4 (PreferredVersion doc) ++ framed (str (DisplayName doc)) ++ framed (str (AvatarCid doc)) ++
      revocations ++ features).

(** [m.identity] is the first argument. *)
Definition SignIdentityDocument (i : IdentityV1) (doc : IdentityDocument) : outcome bytes :=
  data ← wrapErr "failed to serialize document" (manager_serializeDocumentForSigning doc);
  ed25519_Sign (IKSignPriv i) data.

Definition all_features : FeatureFlags := mkFeatures true true true true true true true true true true.

Definition CreateIdentityDocument {X} (i : IdentityV1) (prevSequence : Z) (prevHash : bytes) (devices : list DeviceCertificate)
    (signedPrekeys : list SignedPrekey) (oneTimePrekeys : list OneTimePrekey) (displayName : string)
    : GoM (Sys X) IdentityDocument :=
  now ← time_now;
  let sequence := if u64 (prevSequence + 1) =? 0 then 1 else u64 (prevSequence + 1) in
  let doc := mkDocument (IKSignPub i) (IKDHPub i) sequence prevHash (to_unix now) (to_unix now) devices signedPrekeys
               oneTimePrekeys [1] ["BT-X25519-XChaCha20Poly1305-SHA256"] 1 displayName "" [] (Some all_features) [] in
  let doc := if 0 <? prevSequence then doc <| doc_CreatedAt := prevSequence |> else doc in
  signature ← lift (wrapErr "failed to sign identity document" (SignIdentityDocument i doc));
  mret (doc <| doc_Signature := signature |>).

Fixpoint verify_devices (l : list DeviceCertificate) : outcome unit :=
  match l with
  | [] => Ok tt
  | device :: l => _ ← wrapErr "invalid device certificate" (VerifyDeviceCertificate device); verify_devices l
  end.

Fixpoint verify_prekeys (ctx : SignedPrekey -> string) (identityPub : bytes) (l : list SignedPrekey) : outcome unit :=
  match l with
  | [] => Ok tt
  | spk :: l => _ ← wrapErr (ctx spk) (VerifySignedPrekey spk identityPub); verify_prekeys ctx identityPub l
  end.

Definition DayNs : Z := 24 * 3600 * SecondNs.

Definition VerifyIdentityDocument {X} (doc : IdentityDocument) : GoM (Sys X) unit :=
  if negb (length (IdentitySignPub doc) =? 32)%nat then throw (ErrText "invalid identity public key length")
  else
    data ← lift (wrapErr "failed to serialize document" (serializeDocumentForSigning doc));
    valid ← lift (ed25519_Verify (IdentitySignPub doc) data (doc_Signature doc));
    if negb valid then throw (ErrText "invalid identity document signature")
    else
      _ ← lift (verify_devices (doc_Devices doc));
      _ ← lift (verify_prekeys (fun _ => "invalid signed prekey") (IdentitySignPub doc) (SignedPrekeys doc));
      if Sequence doc =? 0 then throw (ErrText "invalid sequence number")
      else
        now ← time_now;
        let docTime := of_unix (doc_UpdatedAt doc) in
        if (docTime <? now - DayNs) || (now + DayNs <? docTime)
        then throw (ErrText "document timestamp out of reasonable range")
        else mret tt.

Definition ComputeDocumentHash `{!Codec IdentityDocument} (doc : IdentityDocument) : outcome bytes :=
  data ← wrapErr "failed to marshal document" (proto_Marshal doc); Ok (sha256 data).

(** ** dht_identity.go *)

Definition DeriveIdentityDHTKey (identityPub : bytes) : string := "/bt/id/" +:+ hex (take 16 (sha256 identityPub)).
Definition DerivePrekeyBundleDHTKey (identityPub : bytes) : string := "/bt/prekeys/" +:+ hex (take 16 (sha256 identityPub)).

Definition ValidatePrekeyBundle (bundle : PrekeyBundle) (identityPub : bytes) : outcome unit :=
  verify_prekeys (fun spk => "invalid signed prekey " +:+ pretty (sp_PrekeyId spk)) identityPub (bn_SignedPrekeys bundle).

Context {D : Dht} `{!Codec IdentityDocument} `{!Codec PrekeyBundle}.

(** The client's [PutToDHT] and [GetFromDHT]. *)
Definition PutToDHT (ctx key : string) (value : bytes) : GoM (Sys dht) unit := fun w =>
  match PutValue key value (obj w) with
  | Some net => (mkSys (env w) net, Ok tt)
  | None => (w, Err (ErrWrap ctx (ErrExt "dht")))
  end.
Definition GetFromDHT (ctx key : string) : GoM (Sys dht) bytes := fun w =>
  (w, match GetValue key (obj w) with
      | Some (Some value) => Ok value
      | _ => Err (ErrWrap ctx (ErrExt "dht"))
      end).

Definition PublishIdentityDocument (doc : IdentityDocument) : GoM (Sys dht) unit :=
  data ← lift (wrapErr "failed to marshal identity document" (proto_Marshal doc));
  PutToDHT "failed to publish identity document to DHT" (DeriveIdentityDHTKey (IdentitySignPub doc)) data.

Definition FetchIdentityDocument (identityPub : bytes) : GoM (Sys dht) IdentityDocument :=
  data ← GetFromDHT "failed to fetch identity document from DHT" (DeriveIdentityDHTKey identityPub);
  doc ← lift (wrapErr "failed to unmarshal identity document" (proto_Unmarshal data));
  _ ← wrap "invalid identity document" (VerifyIdentityDocument doc);
  mret doc.

Definition PublishPrekeyBundle (identityPub : bytes) (signedPrekeys : list SignedPrekey) (oneTimePrekeys : list OneTimePrekey)
    : GoM (Sys dht) unit :=
  now ← time_now;
  let bundle := mkPrekeyBundle signedPrekeys oneTimePrekeys (to_unix now) in
  data ← lift (wrapErr "failed to marshal prekey bundle" (proto_Marshal bundle));
  PutToDHT "failed to publish prekey bundle to DHT" (DerivePrekeyBundleDHTKey identityPub) data.

Definition FetchPrekeyBundle (identityPub : bytes) : GoM (Sys dht) PrekeyBundle :=
  data ← GetFromDHT "failed to fetch prekey bundle from DHT" (DerivePrekeyBundleDHTKey identityPub);
  lift (wrapErr "failed to unmarshal prekey bundle" (proto_Unmarshal data)).

Definition FindClosestPeers (GetClosestPeers : string -> outcome (list string)) (identityPub : bytes) : outcome (list string) :=
  GetClosestPeers (DeriveIdentityDHTKey identityPub).
End Documents.
