(* ===== verification/DocumentProps.v ===== *)
(** * pkg/identity: what a signed document guarantees

    What the signature of a document covers, and what it does not; what is
    found on the DHT after a publication, and what is accepted from it. *)
From S2P Require Import Prelude Primitives Crypto Proto Dht Runtime MultiDevice Identity IdentityProps Document.
#[local] Open Scope Z_scope.

(** ** The signed bytes *)

Section Signing.
Context `{P : Primitives} `{!Codec DeviceCertificate} `{!Codec SignedPrekey} `{!Codec OneTimePrekey}
  `{!Codec RevocationCertificate} `{!Codec FeatureFlags}.

Lemma manager_serializes doc : manager_serializeDocumentForSigning doc = serializeDocumentForSigning doc.
Proof. reflexivity. Qed.

(** Equal prefixes of equal length can be taken off. *)
Lemma app_eq_split {A} (a b c d : list A) : length a = length b -> a ++ c = b ++ d -> a = b /\ c = d.
Proof. intros Hl E. by apply app_inj_1 in E. Qed.

Lemma framed_inj a b r s :
  Z.of_nat (length a) < 2 ^ 32 -> Z.of_nat (length b) < 2 ^ 32 -> framed a ++ r = framed b ++ s -> a = b /\ r = s.
Proof.
  intros Ha Hb. unfold framed. rewrite <- !app_assoc. intros E.
  apply app_eq_split in E as [E1 E]; [|by rewrite !le_encode_length].
  apply le_encode_inj in E1; [|split; [lia|exact Ha]|split; [lia|exact Hb]]. apply app_eq_split in E; [done|lia].
Qed.

(** What is marshalled is shorter than 4 GiB. *)
Definition short_items {A} `{!Codec A} (l : list A) : Prop :=
  Forall (fun a => forall b, marshal a = Some b -> Z.of_nat (length b) < 2 ^ 32) l.

Lemma marshal_items_inj {A} `{!Codec A} `{!CodecLaws A} ctx (l k : list A) b c r s :
  length l = length k -> short_items l -> short_items k ->
  marshal_items ctx l = Ok b -> marshal_items ctx k = Ok c -> b ++ r = c ++ s -> l = k /\ r = s.
Proof.
  revert k b c; induction l as [|x l IH]; intros [|y k] b c Hl Hsl Hsk; try done; cbn [marshal_items].
  { by intros [= <-] [= <-]. }
  intros Hb Hc E. unfold proto_Marshal in *. outcome_split. subst.
  apply Forall_cons in Hsl as [Hx Hsl]. apply Forall_cons in Hsk as [Hy Hsk].
  rewrite <- !app_assoc in E. apply framed_inj in E as [-> E]; [|by eauto..].
  match goal with Hx : marshal x = Some ?d, Hy : marshal y = Some ?d |- _ =>
    pose proof (unmarshal_marshal _ _ Hx) as Ux; pose proof (unmarshal_marshal _ _ Hy) as Uy end.
  assert (x = y) as -> by congruence. match goal with H : marshal_items _ l = _, K : marshal_items _ k = _ |- _ =>
    destruct (IH k _ _ (f_equal pred Hl) Hsl Hsk H K E) as [-> ->] end. done.
Qed.

Lemma words_inj (l k : list Z) r s :
  length l = length k -> Forall (fun v => 0 <= v < 2 ^ 32) l -> Forall (fun v => 0 <= v < 2 ^ 32) k ->
  concat (le_encode 4 <$> l) ++ r = concat (le_encode 4 <$> k) ++ s -> l = k /\ r = s.
Proof.
  revert k; induction l as [|x l IH]; intros [|y k] Hl Hx Hy; try done. rewrite !fmap_cons. cbn [concat].
  rewrite <- !app_assoc. intros E. inversion Hx; inversion Hy; subst.
  apply app_eq_split in E as [E1 E]; [|by rewrite !le_encode_length]. apply le_encode_inj in E1 as ->; [|done..].
  injection Hl as Hl. by destruct (IH k Hl ltac:(done) ltac:(done) E) as [-> ->].
Qed.

Lemma strings_inj (l k : list string) r s :
  length l = length k -> Forall (fun v => Z.of_nat (length (str v)) < 2 ^ 32) l ->
  Forall (fun v => Z.of_nat (length (str v)) < 2 ^ 32) k ->
  concat ((fun v => framed (str v)) <$> l) ++ r = concat ((fun v => framed (str v)) <$> k) ++ s -> l = k /\ r = s.
Proof.
  revert k; induction l as [|x l IH]; intros [|y k] Hl Hx Hy; try done. rewrite !fmap_cons. cbn [concat].
  rewrite <- !app_assoc. intros E. inversion Hx; inversion Hy; subst. apply framed_inj in E as [E1 E]; [|done..].
  apply (inj str) in E1 as ->. injection Hl as Hl. by destruct (IH k Hl ltac:(done) ltac:(done) E) as [-> ->].
Qed.

Lemma marshal_features_inj `{!CodecLaws FeatureFlags} (f g : option FeatureFlags) b :
  (forall x d, f = Some x \/ g = Some x -> marshal x = Some d -> Z.of_nat (length d) < 2 ^ 32) ->
  marshal_features f = Ok b -> marshal_features g = Ok b -> f = g.
Proof.
  intros Hs Hf Hg. unfold marshal_features, proto_Marshal in *. destruct f as [x|], g as [y|]; outcome_split; subst; [|done..].
  match goal with E : framed _ = framed _ |- _ => rewrite <- (app_nil_r (framed _)) in E; symmetry in E;
    rewrite <- (app_nil_r (framed _)) in E; apply framed_inj in E as [-> _]; [|by eauto..] end.
  f_equal. match goal with Hx : marshal x = Some ?d, Hy : marshal y = Some ?d |- _ =>
    pose proof (unmarshal_marshal _ _ Hx); pose proof (unmarshal_marshal _ _ Hy) end. congruence.
Qed.

(** Two documents with fields of the same lengths. *)
Definition same_shape (d e : IdentityDocument) : Prop :=
  length (IdentitySignPub d) = length (IdentitySignPub e) /\ length (IdentityDhPub d) = length (IdentityDhPub e) /\
  length (PreviousHash d) = length (PreviousHash e) /\ length (doc_Devices d) = length (doc_Devices e) /\
  length (SignedPrekeys d) = length (SignedPrekeys e) /\ length (OneTimePrekeys d) = length (OneTimePrekeys e) /\
  length (SupportedVersions d) = length (SupportedVersions e) /\
  length (SupportedCipherSuites d) = length (SupportedCipherSuites e) /\ length (doc_Revocations d) = length (doc_Revocations e).

(** The fields are within their Go types, and no item has 4 GiB. *)
Record in_types (d : IdentityDocument) : Prop := {
  t_Sequence : 0 <= Sequence d < 2 ^ 64; t_Created : 0 <= doc_CreatedAt d < 2 ^ 64; t_Updated : 0 <= doc_UpdatedAt d < 2 ^ 64;
  t_Preferred : 0 <= PreferredVersion d < 2 ^ 32; t_Versions : Forall (fun v => 0 <= v < 2 ^ 32) (SupportedVersions d);
  t_Suites : Forall (fun v => Z.of_nat (length (str v)) < 2 ^ 32) (SupportedCipherSuites d);
  t_Name : Z.of_nat (length (str (DisplayName d))) < 2 ^ 32; t_Avatar : Z.of_nat (length (str (AvatarCid d))) < 2 ^ 32;
  t_Devices : short_items (doc_Devices d); t_Spks : short_items (SignedPrekeys d); t_Opks : short_items (OneTimePrekeys d);
  t_Revocations : short_items (doc_Revocations d); t_Features : short_items (from_option (fun f => [f]) [] (Features d));
}.

Context `{!CodecLaws DeviceCertificate} `{!CodecLaws SignedPrekey} `{!CodecLaws OneTimePrekey}
  `{!CodecLaws RevocationCertificate} `{!CodecLaws FeatureFlags}.

(** C15. Among documents of one shape the signature determines the document: when two have
    key and hash fields of the same lengths and as many items in each list, equal
    signed bytes mean that they differ in their signatures at most. *)
Theorem document_signing_injective d e data :
  same_shape d e -> in_types d -> in_types e ->
  serializeDocumentForSigning d = Ok data -> serializeDocumentForSigning e = Ok data -> d <| doc_Signature := doc_Signature e |> = e.
Proof.
  intros (L1 & L2 & L3 & L4 & L5 & L6 & L7 & L8 & L9) Hd He Sd Se.
  destruct d as [a1 a2 a3 a4 a5 a6 a7 a8 a9 a10 a11 a12 a13 a14 a15 a16 a17],
    e as [b1 b2 b3 b4 b5 b6 b7 b8 b9 b10 b11 b12 b13 b14 b15 b16 b17].
  destruct Hd as [Ds Dc Du Dp Dv Dt Dn Da Dd Dk Do Dr Df], He as [Es Ec Eu Ep Ev Et En Ea Ed Ek Eo Er Ef].
  cbn -[le_encode framed length Z.pow] in *. unfold serializeDocumentForSigning in *. outcome_split. subst.
  match goal with E : _ ++ _ = _ ++ _ |- _ => symmetry in E; rename E into E0 end. cbn -[le_encode framed Z.pow] in E0.
  apply app_eq_split in E0 as [-> E0]; [|done]. apply app_eq_split in E0 as [-> E0]; [|done].
  apply app_eq_split in E0 as [G3 E0]; [|by rewrite !le_encode_length]. apply le_encode_inj in G3 as ->; [|done..].
  apply app_eq_split in E0 as [-> E0]; [|done].
  apply app_eq_split in E0 as [G5 E0]; [|by rewrite !le_encode_length]. apply le_encode_inj in G5 as ->; [|done..].
  apply app_eq_split in E0 as [G6 E0]; [|by rewrite !le_encode_length]. apply le_encode_inj in G6 as ->; [|done..].
  destruct (marshal_items_inj _ a7 b7 _ _ _ _ L4 Dd Ed ltac:(eassumption) ltac:(eassumption) E0) as [-> E7]; clear E0; rename E7 into E0.
  destruct (marshal_items_inj _ a8 b8 _ _ _ _ L5 Dk Ek ltac:(eassumption) ltac:(eassumption) E0) as [-> E8]; clear E0; rename E8 into E0.
  destruct (marshal_items_inj _ a9 b9 _ _ _ _ L6 Do Eo ltac:(eassumption) ltac:(eassumption) E0) as [-> E9]; clear E0; rename E9 into E0.
  apply words_inj in E0 as [-> E0]; [|done..]. apply strings_inj in E0 as [-> E0]; [|done..].
  apply app_eq_split in E0 as [G12 E0]; [|by rewrite !le_encode_length]. apply le_encode_inj in G12 as ->; [|done..].
  apply framed_inj in E0 as [G13 E0]; [|done..]. apply (inj str) in G13 as ->.
  apply framed_inj in E0 as [G14 E0]; [|done..]. apply (inj str) in G14 as ->.
  destruct (marshal_items_inj _ a15 b15 _ _ _ _ L9 Dr Er ltac:(eassumption) ltac:(eassumption) E0) as [-> E15]. subst.
  assert (a16 = b16) as ->; [|done]. eapply marshal_features_inj; [|eassumption..].
  intros f b [->| ->]; [inversion Df|inversion Ef]; by eauto.
Qed.
End Signing.

(** ** Verification *)

Section Verification.
Context `{P : Primitives} `{!Codec DeviceCertificate} `{!Codec SignedPrekey} `{!Codec OneTimePrekey}
  `{!Codec RevocationCertificate} `{!Codec FeatureFlags} {X : Type}.

(** The world after one reading of the clock. *)
Definition tick (w : Sys X) : Sys X :=
  mkSys (mkEnvironment (rands (env w)) (fun n => clock (env w) (S n))) (obj w).

Lemma verify_devices_Ok l : verify_devices l = Ok tt <-> Forall (fun d => VerifyDeviceCertificate d = Ok tt) l.
Proof.
  induction l as [|d l IH]; cbn [verify_devices]; [by split|]. rewrite Forall_cons, <- IH.
  destruct (VerifyDeviceCertificate d) as [[]|e|]; cbn; [tauto|by split; [|intros []]..].
Qed.

Lemma verify_prekeys_Ok ctx pub l : verify_prekeys ctx pub l = Ok tt <-> Forall (fun k => VerifySignedPrekey k pub = Ok tt) l.
Proof.
  induction l as [|k l IH]; cbn [verify_prekeys]; [by split|]. rewrite Forall_cons, <- IH.
  destruct (VerifySignedPrekey k pub) as [[]|e|]; cbn; [tauto|by split; [|intros []]..].
Qed.

(** What is verified, and nothing else is. *)
Record acceptable (doc : IdentityDocument) (now : Z) : Prop := {
  ac_length : length (IdentitySignPub doc) = 32%nat;
  ac_signature : exists data, serializeDocumentForSigning doc = Ok data /\
    ed25519_Verify (IdentitySignPub doc) data (doc_Signature doc) = Ok true;
  ac_devices : Forall (fun d => VerifyDeviceCertificate d = Ok tt) (doc_Devices doc);
  ac_prekeys : Forall (fun k => VerifySignedPrekey k (IdentitySignPub doc) = Ok tt) (SignedPrekeys doc);
  ac_sequence : Sequence doc <> 0;
  ac_time : now - DayNs <= of_unix (doc_UpdatedAt doc) <= now + DayNs;
}.

Lemma VerifyIdentityDocument_Ok doc (w w' : Sys X) :
  VerifyIdentityDocument doc w = (w', Ok tt) <-> acceptable doc (clock (env w) 0) /\ w' = tick w.
Proof.
  unfold VerifyIdentityDocument, lift, throw, time_now, mbind, GoM_bind, mret, GoM_ret.
  destruct (Nat.eqb_spec (length (IdentitySignPub doc)) 32) as [El|El]; cbn [negb]; [|by split; [|intros [[] _]]].
  destruct (serializeDocumentForSigning doc) as [data|e|] eqn:Es; cbn [wrapErr];
    [|split; [done|intros [[? (d & ? & ?) ? ? ? ?] _]; congruence]..].
  destruct (ed25519_Verify _ data _) as [[]|e|] eqn:Ev; cbn [negb];
    [|split; [done|intros [[? (d & ? & ?) ? ? ? ?] _]; congruence]..].
  destruct (verify_devices (doc_Devices doc)) as [[]|e|] eqn:Ed;
    [|split; [done|intros [[? ? ?%verify_devices_Ok ? ? ?] _]; congruence]..]. apply verify_devices_Ok in Ed.
  destruct (verify_prekeys _ _ _) as [[]|e|] eqn:Ek;
    [|split; [done|intros [[? ? ? Hp ? ?] _]; apply (verify_prekeys_Ok (fun _ => "invalid signed prekey")) in Hp; congruence]..].
  apply verify_prekeys_Ok in Ek. destruct (Z.eqb_spec (Sequence doc) 0) as [E0|E0]; [by split; [|intros [[] _]]|].
  destruct (Z.ltb_spec (of_unix (doc_UpdatedAt doc)) (clock (env w) 0 - DayNs)) as [E1|E1]; cbn [orb].
  { split; [done|]. intros [[? ? ? ? ? [? ?]] _]. lia. }
  destruct (Z.ltb_spec (clock (env w) 0 + DayNs) (of_unix (doc_UpdatedAt doc))) as [E2|E2].
  { split; [done|]. intros [[? ? ? ? ? [? ?]] _]. lia. }
  split; [intros [= <-]|by intros [_ ->]]. split; [|done]. split; [done|by exists data|done..].
Qed.

(** The end of the agreement key and the start of the hash chain, read differently. *)
Definition shifted (doc : IdentityDocument) : IdentityDocument :=
  doc <| IdentityDhPub := take 24 (IdentityDhPub doc) |>
      <| Sequence := le_decode (drop 24 (IdentityDhPub doc)) |>
      <| PreviousHash := le_encode 8 (Sequence doc) ++ PreviousHash doc |>.

Lemma serialize_shifted doc :
  length (IdentityDhPub doc) = 32%nat -> serializeDocumentForSigning (shifted doc) = serializeDocumentForSigning doc.
Proof.
  intros Hl. unfold serializeDocumentForSigning, shifted. cbn -[le_encode take drop].
  destruct (marshal_items _ (doc_Devices doc)); [|done..]. cbn -[le_encode take drop].
  destruct (marshal_items _ (SignedPrekeys doc)); [|done..]. cbn -[le_encode take drop].
  destruct (marshal_items _ (OneTimePrekeys doc)); [|done..]. cbn -[le_encode take drop].
  destruct (marshal_items _ (doc_Revocations doc)); [|done..]. cbn -[le_encode take drop].
  destruct (marshal_features (Features doc)); [|done..]. cbn -[le_encode take drop]. do 2 f_equal.
  assert (length (drop 24 (IdentityDhPub doc)) = 8%nat) as H8 by (rewrite length_drop; lia).
  pose proof (le_encode_decode (drop 24 (IdentityDhPub doc))) as E. rewrite H8 in E. rewrite E.
  rewrite <- !app_assoc, (app_assoc (take 24 _)), take_drop. done.
Qed.

(** The signature does not fix the shape of a document: of every document with a 32-byte
    agreement key that is accepted there is another that is accepted in its place,
    by everybody and at the same time, with the same signature, which anybody can make: its
    agreement key is cut to 24 bytes and its sequence number is what the other
    eight say (unless that is 0), however large. *)
Theorem document_malleable doc (w w' : Sys X) :
  length (IdentityDhPub doc) = 32%nat -> le_decode (drop 24 (IdentityDhPub doc)) <> 0 ->
  VerifyIdentityDocument doc w = (w', Ok tt) ->
  VerifyIdentityDocument (shifted doc) w = (w', Ok tt) /\ shifted doc <> doc /\
  doc_Signature (shifted doc) = doc_Signature doc /\ IdentitySignPub (shifted doc) = IdentitySignPub doc /\
  Sequence (shifted doc) = le_decode (drop 24 (IdentityDhPub doc)).
Proof.
  intros Hl H0 H. split; [|split; [|done]].
  - apply VerifyIdentityDocument_Ok in H as [[? ? ? ? ? ?] ->]. apply VerifyIdentityDocument_Ok. split; [|done].
    split; try done. by rewrite serialize_shifted.
  - intros E. apply (f_equal (fun d => length (IdentityDhPub d))) in E. cbn -[take] in E. rewrite length_take in E. lia.
Qed.
End Verification.

(** ** Publication *)

Section Publication.
Context `{P : Primitives} `{!PrimitiveLaws P} `{B : Bip39} {D : Dht} `{!DhtLaws D}.
Context `{!Codec DeviceCertificate} `{!Codec SignedPrekey} `{!Codec OneTimePrekey} `{!Codec RevocationCertificate}
  `{!Codec FeatureFlags} `{!Codec IdentityDocument} `{!CodecLaws IdentityDocument}.

(** What a peer gets who asks for the document of a key: exactly the documents stored
    under it that pass the checks at that moment, whoever signed them.  So a document
    that another identity made and put there is handed out as that of the
    key asked for. *)
Theorem FetchIdentityDocument_exact pub (finder w' : Sys dht) doc :
  (FetchIdentityDocument pub finder = (w', Ok doc) <->
   exists value, GetValue (DeriveIdentityDHTKey pub) (obj finder) = Some (Some value) /\ unmarshal value = Some doc /\
     acceptable doc (clock (env finder) 0) /\ w' = tick finder) /\
  forall net value, PutValue (DeriveIdentityDHTKey pub) value net = Some (obj finder) -> marshal doc = Some value ->
    acceptable doc (clock (env finder) 0) -> FetchIdentityDocument pub finder = (tick finder, Ok doc).
Proof.
  assert (FetchIdentityDocument pub finder = (w', Ok doc) <->
    exists value, GetValue (DeriveIdentityDHTKey pub) (obj finder) = Some (Some value) /\ unmarshal value = Some doc /\
      VerifyIdentityDocument doc finder = (w', Ok tt)) as Hf.
  { unfold FetchIdentityDocument, GetFromDHT, lift, wrap, proto_Unmarshal, mbind, GoM_bind.
    destruct (GetValue _ _) as [[value|]|] eqn:Eg; [|by split; [|intros (? & [=] & _)]..].
    destruct (unmarshal value) as [doc'|] eqn:Eu; cbn; [|by split; [done|intros (? & [= <-] & ? & _); congruence]].
    destruct (VerifyIdentityDocument doc' finder) as [w'' [[]|e|]] eqn:Ev; cbn;
      (split; [unfold mret, GoM_ret, outcome_ret; intros H; simplify_eq; by exists value|]);
      intros (? & [= <-] & E & Ev'); rewrite Eu in E; injection E as ->; rewrite Ev in Ev'; simplify_eq; done. }
  split.
  - rewrite Hf. by setoid_rewrite VerifyIdentityDocument_Ok.
  - clear w' Hf. intros net value Hput Hm Ha. unfold FetchIdentityDocument, GetFromDHT, lift, wrap, proto_Unmarshal, mbind, GoM_bind.
    rewrite (GetValue_PutValue _ _ _ _ Hput), (unmarshal_marshal _ _ Hm). cbn.
    by rewrite (proj2 (VerifyIdentityDocument_Ok doc finder (tick finder)) (conj Ha eq_refl)).
Qed.

(** A first document: an identity from a mnemonic, the certificate of its device, a signed
    prekey and some one-time prekeys, signed and published.  It is a scenario put
    together here for [new_identity_found]: no single function of the source does all of it. *)
Definition first_publication AddDate (mnemonic name display : string) (spkID startID count : Z)
    : GoM (Sys dht) (IdentityV1 * IdentityDocument) :=
  i ← NewIdentityV1 mnemonic name;
  cert ← lift (CreateDeviceCertificate i);
  spk ← GenerateSignedPrekey AddDate i spkID;
  opks ← GenerateOneTimePrekeys i startID count;
  doc ← CreateIdentityDocument i 0 [] [cert] [spk] opks display;
  _ ← PublishIdentityDocument doc;
  mret (i, doc).

Context `{!CodecTotal DeviceCertificate} `{!CodecTotal SignedPrekey} `{!CodecTotal OneTimePrekey}
  `{!CodecTotal RevocationCertificate} `{!CodecTotal FeatureFlags} `{!CodecTotal IdentityDocument} `{!DhtTotal D}.

Lemma marshal_items_total {A} `{!Codec A} `{!CodecTotal A} ctx (l : list A) : exists b, marshal_items ctx l = Ok b.
Proof.
  induction l as [|a l [b IH]]; cbn; [by eexists|]. unfold proto_Marshal. destruct (marshal_total a) as [d ->]. cbn.
  rewrite IH. by eexists.
Qed.

Lemma serialize_total doc : exists data, serializeDocumentForSigning doc = Ok data.
Proof.
  unfold serializeDocumentForSigning.
  destruct (marshal_items_total "failed to marshal device" (doc_Devices doc)) as [? ->].
  destruct (marshal_items_total "failed to marshal signed prekey" (SignedPrekeys doc)) as [? ->].
  destruct (marshal_items_total "failed to marshal one-time prekey" (OneTimePrekeys doc)) as [? ->].
  destruct (marshal_items_total "failed to marshal revocation" (doc_Revocations doc)) as [? ->]. cbn -[le_encode].
  unfold marshal_features, proto_Marshal. destruct (Features doc) as [f|]; [destruct (marshal_total f) as [? ->]|]; by eexists.
Qed.

(** Documents are made of what is given, and are acceptable for a day if that is. *)
Lemma CreateIdentityDocument_run i prev hash devices spks opks display (w : Sys dht) :
  ed_keypair (IKSignPub i) (IKSignPriv i) -> in_time (clock (env w) 0) ->
  Forall (fun d => VerifyDeviceCertificate d = Ok tt) devices ->
  Forall (fun k => VerifySignedPrekey k (IKSignPub i) = Ok tt) spks ->
  exists doc, CreateIdentityDocument i prev hash devices spks opks display w = (tick w, Ok doc) /\
    IdentitySignPub doc = IKSignPub i /\ IdentityDhPub doc = IKDHPub i /\ PreviousHash doc = hash /\
    doc_Devices doc = devices /\ SignedPrekeys doc = spks /\ OneTimePrekeys doc = opks /\ DisplayName doc = display /\
    Sequence doc = Z.max 1 (u64 (prev + 1)) /\
    forall now, Z.abs (now - clock (env w) 0) <= DayNs - SecondNs -> acceptable doc now.
Proof.
  intros Hk Ht Hd Hs. unfold CreateIdentityDocument, SignIdentityDocument, time_now, lift, mbind, GoM_bind.
  set (doc0 := if 0 <? prev then _ else _). destruct (serialize_total doc0) as [data Ed].
  rewrite manager_serializes, Ed. cbn [wrapErr mbind outcome_bind]. rewrite (ed25519_Sign_Ok _ _ _ Hk). cbn [wrapErr].
  eexists. split; [reflexivity|].
  assert (IdentitySignPub doc0 = IKSignPub i /\ IdentityDhPub doc0 = IKDHPub i /\ PreviousHash doc0 = hash /\
    doc_Devices doc0 = devices /\ SignedPrekeys doc0 = spks /\ OneTimePrekeys doc0 = opks /\ DisplayName doc0 = display /\
    Sequence doc0 = Z.max 1 (u64 (prev + 1)) /\ doc_UpdatedAt doc0 = to_unix (clock (env w) 0)) as (E1 & E2 & E3 & E4 & E5 & E6 & E7 & E8 & E9).
  { unfold doc0. pose proof (u64_range (prev + 1)). destruct (0 <? prev), (Z.eqb_spec (u64 (prev + 1)) 0) as [E|E];
      repeat split; cbn; lia. }
  cbn [IdentitySignPub IdentityDhPub PreviousHash doc_Devices SignedPrekeys OneTimePrekeys DisplayName Sequence set_field].
  do 8 (split; [done|]). intros now Hn.
  split; cbn [IdentitySignPub doc_Signature doc_Devices SignedPrekeys Sequence doc_UpdatedAt set_field].
  - rewrite E1. apply (ed_keypair_lengths _ _ Hk).
  - exists data. split; [exact Ed|]. rewrite E1. by apply ed25519_Verify_Sign.
  - by rewrite E4.
  - by rewrite E5, E1.
  - rewrite E8. lia.
  - rewrite E9, of_to_unix by done. unfold SecondNs in *. pose proof (Z.div_mod (clock (env w) 0) 1000000000 ltac:(lia)).
    pose proof (Z.mod_pos_bound (clock (env w) 0) 1000000000 ltac:(lia)). lia.
Qed.

(** C6. A new identity can be found.  From a valid mnemonic, with randomness and a network
    that works, the first document is made and published, and whoever asks for the
    identity's key, at most a day (less a second) before or after and with nothing else put there,
    gets that document: the first in its chain, with the certificate of the device, a signed prekey, which
    verify, and one-time prekeys numbered from the first id on. *)
Theorem new_identity_found AddDate mnemonic name display spkID startID count (w : Sys dht) :
  IsMnemonicValid mnemonic = true -> length (NewSeed mnemonic) = 64%nat -> (forall n, is_Some (rands (env w) n)) ->
  0 <= count -> in_time (clock (env w) 2) ->
  exists i doc w', first_publication AddDate mnemonic name display spkID startID count w = (w', Ok (i, doc)) /\
    well_keyed i /\ Sequence doc = 1 /\ IdentitySignPub doc = IKSignPub i /\ IdentityDhPub doc = IKDHPub i /\
    dc_DeviceSignPub <$> doc_Devices doc = [DKSignPub i] /\ sp_PrekeyId <$> SignedPrekeys doc = [spkID] /\
    op_PrekeyId <$> OneTimePrekeys doc = (fun n => u64 (startID + Z.of_nat n)) <$> seq 0 (Z.to_nat count) /\
    forall finder, obj finder = obj w' -> Z.abs (clock (env finder) 0 - clock (env w) 2) <= DayNs - SecondNs ->
      FetchIdentityDocument (IKSignPub i) finder = (tick finder, Ok doc).
Proof.
  intros Hv Hl Hr Hc Ht. unfold first_publication.
  destruct (NewIdentityV1_run mnemonic name w Hv Hl (Hr _) (Hr _)) as (i & w1 & E1 & Hk & _ & _ & _ & Ew1 & Eo1).
  rewrite (bind_Ok _ _ _ _ _ E1). pose proof (wk_sign _ Hk) as Hs.
  destruct (CreateDeviceCertificate_run i Hs) as (cert & Ec & Hcert & _ & Hdk & _).
  rewrite (bind_Ok _ _ w1 w1 cert) by (unfold lift; by rewrite Ec).
  destruct (GenerateSignedPrekey_run AddDate i spkID w1 Hs) as (spk & w2 & E2 & Hspk & Hid & _ & Ew2 & Eo2).
  { rewrite Ew1. apply Hr. }
  rewrite (bind_Ok _ _ _ _ _ E2).
  destruct (opk_loop_run i startID 0 (Z.to_nat count) w2) as (opks & w3 & E3 & Hids & Ew3 & Eo3).
  { intros n _. rewrite Ew2, Ew1. apply Hr. }
  rewrite (bind_Ok _ _ w2 w3 opks).
  2: { unfold GenerateOneTimePrekeys. destruct (Z.ltb_spec count 0) as [?|_]; [lia|exact E3]. }
  assert (clock (env w3) 0 = clock (env w) 2) as Ek by by rewrite Ew3, Ew2, Ew1.
  destruct (CreateIdentityDocument_run i 0 [] [cert] [spk] opks display w3 Hs) as
    (doc & E4 & D1 & D2 & _ & D4 & D5 & D6 & _ & D8 & Hacc); [by rewrite Ek|by constructor|by constructor|].
  rewrite (bind_Ok _ _ _ _ _ E4). destruct (marshal_total doc) as [value Em].
  destruct (PutValue_total (DeriveIdentityDHTKey (IdentitySignPub doc)) value (obj w3)) as [net Ep].
  exists i, doc, (mkSys (env (tick w3)) net). split.
  { unfold PublishIdentityDocument, PutToDHT, proto_Marshal, lift, mbind, GoM_bind. rewrite Em. cbn. by rewrite Ep. }
  do 4 (split; [done|]). split; [by rewrite D4; cbn; rewrite Hdk|]. split; [by rewrite D5; cbn; rewrite Hid|]. split; [by rewrite D6|].
  cbn. intros finder Eo Hn. rewrite <- D1. rewrite <- Eo in Ep.
  eapply (proj2 (FetchIdentityDocument_exact _ finder finder doc)); [exact Ep|exact Em|]. apply Hacc. by rewrite Ek.
Qed.
End Publication.

(** ** Examples *)
Module DocumentDemo.
#[export] Instance DeviceCertificate_eq : EqDecision DeviceCertificate.
Proof. solve_decision. Defined.
#[export] Program Instance DeviceCertificate_countable : Countable DeviceCertificate :=
  inj_countable' (fun c => ((dc_DeviceId c, dc_DeviceSignPub c, (dc_DeviceDhPub c, dc_DeviceName c)),
      (dc_CreatedAt c, dc_ExpiresAt c, (dc_IdentityPub c, dc_Signature c))))
    (fun '((a, b, (c, d)), (e, f, (g, h))) => mkDeviceCertificate a b c d e f g h) _.
Next Obligation. by intros []. Qed.
#[export] Instance DeviceCertificate_codec : Codec DeviceCertificate := countable_codec.
#[export] Instance DeviceCertificate_laws : CodecLaws DeviceCertificate := countable_codec_laws.

#[export] Instance SignedPrekey_eq : EqDecision SignedPrekey.
Proof. solve_decision. Defined.
#[export] Program Instance SignedPrekey_countable : Countable SignedPrekey :=
  inj_countable' (fun k => ((sp_DeviceId k, sp_PrekeyPub k, sp_PrekeyId k), (sp_CreatedAt k, sp_ExpiresAt k, sp_Signature k)))
    (fun '((a, b, c), (d, e, f)) => mkSignedPrekey a b c d e f) _.
Next Obligation. by intros []. Qed.
#[export] Instance SignedPrekey_codec : Codec SignedPrekey := countable_codec.
#[export] Instance SignedPrekey_laws : CodecLaws SignedPrekey := countable_codec_laws.

#[export] Instance OneTimePrekey_eq : EqDecision OneTimePrekey.
Proof. solve_decision. Defined.
#[export] Program Instance OneTimePrekey_countable : Countable OneTimePrekey :=
  inj_countable' (fun k => (op_DeviceId k, op_PrekeyPub k, op_PrekeyId k)) (fun '(a, b, c) => mkOneTimePrekey a b c) _.
Next Obligation. by intros []. Qed.
#[export] Instance OneTimePrekey_codec : Codec OneTimePrekey := countable_codec.
#[export] Instance OneTimePrekey_laws : CodecLaws OneTimePrekey := countable_codec_laws.

#[export] Instance Revocation_eq : EqDecision RevocationCertificate.
Proof. solve_decision. Defined.
#[export] Program Instance Revocation_countable : Countable RevocationCertificate :=
  inj_countable' (fun r => (rv_RevokedKey r, rv_RevocationType r, rv_Reason r, (rv_RevokedAt r, rv_Signature r)))
    (fun '(a, b, c, (d, e)) => mkRevocation a b c d e) _.
Next Obligation. by intros []. Qed.
#[export] Instance Revocation_codec : Codec RevocationCertificate := countable_codec.
#[export] Instance Revocation_laws : CodecLaws RevocationCertificate := countable_codec_laws.

#[export] Instance Features_eq : EqDecision FeatureFlags.
Proof. solve_decision. Defined.
#[export] Program Instance Features_countable : Countable FeatureFlags :=
  inj_countable' (fun f => ((SupportsReadReceipts f, SupportsTypingIndicators f, SupportsReactions f, SupportsEdits f, SupportsMedia f),
      (SupportsVoiceCalls f, SupportsVideoCalls f, SupportsGroups f, SupportsChannels f, SupportsOfflineMessages f)))
    (fun '((a, b, c, d, e), (f, g, h, i, j)) => mkFeatures a b c d e f g h i j) _.
Next Obligation. by intros []. Qed.
#[export] Instance Features_codec : Codec FeatureFlags := countable_codec.
#[export] Instance Features_laws : CodecLaws FeatureFlags := countable_codec_laws.

#[export] Instance Document_eq : EqDecision IdentityDocument.
Proof. solve_decision. Defined.
#[export] Program Instance Document_countable : Countable IdentityDocument :=
  inj_countable' (fun d => ((IdentitySignPub d, IdentityDhPub d, Sequence d, PreviousHash d),
      (doc_CreatedAt d, doc_UpdatedAt d, doc_Devices d, SignedPrekeys d), (OneTimePrekeys d, SupportedVersions d, SupportedCipherSuites d, PreferredVersion d),
      (DisplayName d, AvatarCid d, doc_Revocations d, Features d, doc_Signature d)))
    (fun '((a, b, c, d), (e, f, g, h), (i, j, k, l), (m, n, o, p, q)) => mkDocument a b c d e f g h i j k l m n o p q) _.
Next Obligation. by intros []. Qed.
#[export] Instance Document_codec : Codec IdentityDocument := countable_codec.
#[export] Instance Document_laws : CodecLaws IdentityDocument := countable_codec_laws.

(** Mallory's keys, and a document she made. *)
Definition seed : bytes := Byte.x07 :: zeros 31.
Definition dh : bytes := replicate 32 Byte.x05.
Definition unsigned_doc : IdentityDocument :=
  mkDocument (ed_pub (Primitives := toy) seed) dh 7 (zeros 32) 1000 1000 [] [] [] [1] ["BT-X25519-XChaCha20Poly1305-SHA256"] 1 "m" "" [] None [].
Definition signed : IdentityDocument :=
  unsigned_doc <| doc_Signature := match serializeDocumentForSigning unsigned_doc with
                               | Ok data => ed_sign (Primitives := toy) (seed ++ ed_pub (Primitives := toy) seed) data | _ => [] end |>.
Definition signed_data : bytes := match serializeDocumentForSigning unsigned_doc with Ok data => data | _ => [] end.
Definition env_at (secs : Z) : Env := mkEnvironment (fun _ => Some (zeros 32)) (fun _ => secs * SecondNs).
Definition world (net : gmap string bytes) : Sys (@dht gmap_dht) := mkSys (env_at 1000) net.
End DocumentDemo.
Import IdentityDemo DocumentDemo.

Lemma signed_acceptable : acceptable (P := toy) signed (1000 * SecondNs).
Proof.
  split; [vm_compute; reflexivity| |by constructor|by constructor|by cbn|vm_compute; split; discriminate].
  exists signed_data. split; vm_compute; reflexivity.
Defined.

Lemma document_malleable_witness :
  (VerifyIdentityDocument (P := toy) (shifted signed) (world ∅)).2 = Ok tt /\ Sequence (shifted signed) = 361700864190383365.
Proof.
  assert (VerifyIdentityDocument (P := toy) signed (world ∅) = (tick (world ∅), Ok tt)) as H.
  { apply VerifyIdentityDocument_Ok. split; [exact signed_acceptable|done]. }
  destruct (document_malleable (P := toy) signed (world ∅) _ eq_refl ltac:(vm_compute; discriminate) H) as (H' & _ & _ & _ & E).
  split; [by rewrite H'|]. rewrite E. by vm_compute.
Defined.

Lemma document_signing_injective_witness :
  signed <| doc_Signature := doc_Signature unsigned_doc |> = unsigned_doc.
Proof.
  assert (exists data, serializeDocumentForSigning signed = Ok data /\ serializeDocumentForSigning unsigned_doc = Ok data)
    as (data & H1 & H2) by (exists signed_data; split; vm_compute; reflexivity).
  apply (document_signing_injective signed unsigned_doc data); [by repeat split| | |exact H1|exact H2];
    split; first [by apply Forall_nil | apply Forall_singleton; by vm_compute | by vm_compute].
Defined.

Lemma FetchIdentityDocument_exact_witness :
  let net := <[DeriveIdentityDHTKey (P := toy) (zeros 32) := encode_bytes signed]> (∅ : gmap string bytes) in
  FetchIdentityDocument (P := toy) (D := gmap_dht) (zeros 32) (world net) = (tick (world net), Ok signed) /\
  IdentitySignPub signed <> zeros 32.
Proof.
  intros net. split; [|by vm_compute].
  apply (proj2 (FetchIdentityDocument_exact (P := toy) (D := gmap_dht) (zeros 32) (world net) (world net) signed) (∅ : gmap string bytes)
           (encode_bytes signed)); [reflexivity|reflexivity|exact signed_acceptable].
Defined.

Lemma new_identity_found_witness :
  exists i doc w', first_publication (P := toy) (D := gmap_dht) (fun t d => t + d * 86400 * SecondNs) "alice" "laptop" "Alice" 1 1 100
      (world ∅) = (w', Ok (i, doc)) /\ Sequence doc = 1 /\ length (OneTimePrekeys doc) = 100%nat /\
    FetchIdentityDocument (P := toy) (D := gmap_dht) (IKSignPub i) (world (obj w')) = (tick (world (obj w')), Ok doc).
Proof.
  destruct (new_identity_found (P := toy) (D := gmap_dht) (fun t d => t + d * 86400 * SecondNs) "alice" "laptop" "Alice" 1 1 100
    (world ∅)) as (i & doc & w' & H & _ & Hs & _ & _ & _ & _ & Hids & Hf); [reflexivity|by vm_compute|by eexists|done|by vm_compute|].
  exists i, doc, w'. split; [exact H|]. split; [exact Hs|]. split; [|by apply Hf].
  apply (f_equal length) in Hids. rewrite !length_fmap, length_seq in Hids. exact Hids.
Defined.
