(* ===== verification/IdentityStore.v ===== *)
(** * pkg/storage/identity_v1.go: identity records

    Identity documents, device certificates, prekeys, session states and cached
    prekey bundles in the store of Badger.v.  The JSON records are encoded by a
    [Codec]; a lookup that reports a missing key by a nil result returns an
    option.  The prekeys refine a finite map ([opks_refine_map]). *)
From S2P Require Import Prelude Primitives Proto Badger MultiDevice Identity Document DocumentProps.
#[local] Open Scope Z_scope.

Definition identityPrefix : string := "id:".
Definition devicePrefix : string := "dev:".
Definition spkPrefix : string := "spk:".
Definition opkPrefix : string := "opk:".
Definition sessionPrefix : string := "dr:".
Definition prekeyBundlePrefix : string := "pb:".

Record IdentityDocumentRecord := mkDocumentRecord {
  ir_Document : option IdentityDocument; ir_FetchedAt : Z; ir_Source : string; ir_DocumentHash : bytes;
}.

Record SkippedKey := mkSkippedKey { sk_DHRatchetPub : bytes; sk_Counter : Z; sk_Key : bytes }.
Record SessionState := mkSessionState {
  SessionID : string; RemoteIdentityPub : bytes; LocalIdentityPub : bytes; DHSendingKeyPriv : bytes; DHSendingKeyPub : bytes;
  DHReceivingPub : bytes; RootKey : bytes; SendingChainKey : bytes; SendingChainCounter : Z; ReceivingChainKey : bytes;
  ReceivingChainCounter : Z; SkippedKeys : list SkippedKey; ss_CreatedAt : Z; LastUsedAt : Z; CipherSuiteID : Z;
}.

Record PrekeyBundleCache := mkBundleCache {
  pc_IdentityPub : bytes; pc_SignedPrekeys : list SignedPrekey; pc_OneTimePrekeys : list OneTimePrekey; pc_FetchedAt : Z;
  ConsumedOPKs : gmap Z bool;
}.

Definition identityKey (identityPubHash : bytes) : bytes := str identityPrefix ++ identityPubHash.
Definition deviceKey (deviceID : bytes) : bytes := str devicePrefix ++ deviceID.
Definition spkKey (prekeyID : Z) : bytes := str spkPrefix ++ le_encode 8 prekeyID.
Definition opkKey (prekeyID : Z) : bytes := str opkPrefix ++ le_encode 8 prekeyID.
Definition sessionKey (sessionID : string) : bytes := str sessionPrefix ++ str sessionID.
Definition prekeyBundleKey (identityPubHash : bytes) : bytes := str prekeyBundlePrefix ++ identityPubHash.

Section Store.
Context `{K : KV} `{P : Primitives}.
Context `{!Codec IdentityDocumentRecord} `{!Codec DeviceCertificate} `{!Codec SignedPrekey} `{!Codec OneTimePrekey}
  `{!Codec SessionState} `{!Codec PrekeyBundleCache}.

Abbreviation S := (GoM kv).

Definition SaveIdentityDocument (identityPub : bytes) (record : IdentityDocumentRecord) : S unit :=
  let key := identityKey (take 16 (sha256 identityPub)) in
  data ← lift (wrapErr "failed to marshal identity document record" (ext "json" (marshal record)));
  db_set "failed to store identity document" key data.

Definition GetIdentityDocument (identityPub : bytes) : S (option IdentityDocumentRecord) :=
  db_get "failed to retrieve identity document" (mret None) (fun data => r ← ext "json" (unmarshal data); mret (Some r))
    (identityKey (take 16 (sha256 identityPub))).

Definition SaveDeviceCertificate (deviceID : bytes) (cert : DeviceCertificate) : S unit :=
  data ← lift (wrapErr "failed to marshal device certificate" (proto_Marshal cert));
  db_set "failed to store device certificate" (deviceKey deviceID) data.

Definition GetDeviceCertificate (deviceID : bytes) : S (option DeviceCertificate) :=
  db_get "failed to retrieve device certificate" (mret None) (fun data => c ← proto_Unmarshal data; mret (Some c))
    (deviceKey deviceID).

Definition SaveSignedPrekey (spk : SignedPrekey) : S unit :=
  data ← lift (wrapErr "failed to marshal signed prekey" (proto_Marshal spk));
  db_set "failed to store signed prekey" (spkKey (sp_PrekeyId spk)) data.

Definition GetSignedPrekey (prekeyID : Z) : S (option SignedPrekey) :=
  db_get "failed to retrieve signed prekey" (mret None) (fun data => k ← proto_Unmarshal data; mret (Some k)) (spkKey prekeyID).

Definition SaveOneTimePrekey (opk : OneTimePrekey) : S unit :=
  data ← lift (wrapErr "failed to marshal one-time prekey" (proto_Marshal opk));
  db_set "failed to store one-time prekey" (opkKey (op_PrekeyId opk)) data.

Definition GetOneTimePrekey (prekeyID : Z) : S (option OneTimePrekey) :=
  db_get "failed to retrieve one-time prekey" (mret None) (fun data => k ← proto_Unmarshal data; mret (Some k)) (opkKey prekeyID).

Definition DeleteOneTimePrekey (prekeyID : Z) : S unit := db_delete "failed to delete one-time prekey" (opkKey prekeyID).

Definition ListOneTimePrekeys : S (list OneTimePrekey) :=
  db_list "failed to list one-time prekeys" (str opkPrefix) proto_Unmarshal.

(** The values are not parsed. *)
Definition CountOneTimePrekeys : S Z :=
  l ← db_list "failed to count one-time prekeys" (str opkPrefix) Ok; mret (Z.of_nat (length l)).

Definition SaveSessionState (state : SessionState) : S unit :=
  data ← lift (wrapErr "failed to marshal session state" (ext "json" (marshal state)));
  db_set "failed to store session state" (sessionKey (SessionID state)) data.

Definition GetSessionState (sessionID : string) : S (option SessionState) :=
  db_get "failed to retrieve session state" (mret None) (fun data => s ← ext "json" (unmarshal data); mret (Some s))
    (sessionKey sessionID).

Definition SavePrekeyBundleCache (identityPub : bytes) (cache : PrekeyBundleCache) : S unit :=
  let key := prekeyBundleKey (take 16 (sha256 identityPub)) in
  data ← lift (wrapErr "failed to marshal prekey bundle cache" (ext "json" (marshal cache)));
  db_set "failed to store prekey bundle cache" key data.

Definition GetPrekeyBundleCache (identityPub : bytes) : S (option PrekeyBundleCache) :=
  db_get "failed to retrieve prekey bundle cache" (mret None) (fun data => c ← ext "json" (unmarshal data); mret (Some c))
    (prekeyBundleKey (take 16 (sha256 identityPub))).
End Store.

(** ** One-time prekeys as a map *)

Section Prekeys.
Context `{K : KV} `{!KVLaws K} `{!KVTotal K} `{!Codec OneTimePrekey} `{!CodecLaws OneTimePrekey} `{!CodecTotal OneTimePrekey}.

Definition is_id (id : Z) : Prop := 0 <= id < 2 ^ 64.

Lemma opkKey_inj a b : is_id a -> is_id b -> opkKey a = opkKey b -> a = b.
Proof. intros Ha Hb E. apply app_inv_head in E. by apply le_encode_inj in E. Qed.

(** The store holds the prekeys of [m] under their ids, and no other prekeys. *)
Record holds (d : kv) (m : gmap Z OneTimePrekey) : Prop := {
  h_get id : is_id id ->
    match m !! id with
    | Some k => exists b, kv_get (opkKey id) d = Some (Some b) /\ marshal k = Some b
    | None => kv_get (opkKey id) d = Some None
    end;
  h_ids id k : m !! id = Some k -> is_id id /\ op_PrekeyId k = id;
  h_keys key v : kv_get key d = Some (Some v) -> str opkPrefix `prefix_of` key -> exists id, is_id id /\ key = opkKey id;
}.

(** What users of the store do with prekeys. *)
Inductive opk_op := SaveOp (opk : OneTimePrekey) | DeleteOp (prekeyID : Z).
Definition op_ok (o : opk_op) : Prop := match o with SaveOp k => is_id (op_PrekeyId k) | DeleteOp id => is_id id end.
Definition run_opk (o : opk_op) : GoM kv unit :=
  match o with SaveOp k => SaveOneTimePrekey k | DeleteOp id => DeleteOneTimePrekey id end.
Fixpoint run_opks (l : list opk_op) : GoM kv unit :=
  match l with [] => mret tt | o :: l => _ ← run_opk o; run_opks l end.
Definition spec_opk (m : gmap Z OneTimePrekey) (o : opk_op) : gmap Z OneTimePrekey :=
  match o with SaveOp k => <[op_PrekeyId k := k]> m | DeleteOp id => delete id m end.

Lemma prefix_opkKey id : str opkPrefix `prefix_of` opkKey id.
Proof. by eexists. Qed.

Lemma run_opk_holds d m o : op_ok o -> holds d m -> exists d', run_opk o d = (d', Ok tt) /\ holds d' (spec_opk m o).
Proof.
  intros Ho [Hg Hi Hk]. destruct o as [k|id]; cbn [op_ok run_opk spec_opk] in *.
  - unfold SaveOneTimePrekey, db_set, lift, proto_Marshal, mbind, GoM_bind. destruct (marshal_total k) as [b Eb]. rewrite Eb. cbn.
    destruct (kv_set_total (opkKey (op_PrekeyId k)) b d) as [d' Es]. rewrite Es. exists d'. split; [done|]. split.
    + intros id Hid. destruct (decide (id = op_PrekeyId k)) as [->|Hne].
      * rewrite lookup_insert_eq. exists b. split; [by apply (kv_get_set _ _ _ _ Es)|done].
      * rewrite lookup_insert_ne by done. specialize (Hg id Hid).
        assert (kv_get (opkKey id) d' = kv_get (opkKey id) d) as ->; [|done].
        apply (kv_get_set_ne _ _ _ _ _ Es). intros E. by apply Hne, opkKey_inj.
    + intros id k' [[<- <-]|[_ H]]%lookup_insert_Some; [done|by apply Hi].
    + intros key v Hv Hp. destruct (decide (key = opkKey (op_PrekeyId k))) as [->|Hne]; [by eexists|].
      rewrite (kv_get_set_ne _ _ _ _ _ Es Hne) in Hv. by eapply Hk.
  - unfold DeleteOneTimePrekey, db_delete. destruct (kv_delete_total (opkKey id) d) as [d' Es]. rewrite Es.
    exists d'. split; [done|]. split.
    + intros id' Hid. destruct (decide (id' = id)) as [->|Hne].
      * rewrite lookup_delete_eq. by apply (kv_get_delete _ _ _ Es).
      * rewrite lookup_delete_ne by done. specialize (Hg id' Hid).
        assert (kv_get (opkKey id') d' = kv_get (opkKey id') d) as ->; [|done].
        apply (kv_get_delete_ne _ _ _ _ Es). intros E. by apply Hne, opkKey_inj.
    + intros id' k' [_ H]%lookup_delete_Some. by apply Hi.
    + intros key v Hv Hp. destruct (decide (key = opkKey id)) as [->|Hne]; [by eexists|].
      rewrite (kv_get_delete_ne _ _ _ _ Es Hne) in Hv. by eapply Hk.
Qed.

Lemma run_opks_holds ops d m :
  Forall op_ok ops -> holds d m -> exists d', run_opks ops d = (d', Ok tt) /\ holds d' (fold_left spec_opk ops m).
Proof.
  revert d m; induction ops as [|o ops IH]; intros d m Ho Hh; [by exists d|].
  apply Forall_cons in Ho as [Ho Hos]. destruct (run_opk_holds d m o Ho Hh) as (d1 & E1 & H1).
  destruct (IH d1 _ Hos H1) as (d' & E & H). exists d'. cbn [run_opks fold_left]. by rewrite (bind_Ok _ _ _ _ _ E1).
Qed.

(** The entries under the prefix are those of the map. *)
Lemma scan_holds d m l :
  holds d m -> kv_scan (str opkPrefix) d = Some l ->
  l ≡ₚ (fun p => (opkKey p.1, default [] (marshal p.2))) <$> map_to_list m.
Proof.
  intros [Hg Hi Hk] Hs. destruct (kv_scan_spec _ _ _ Hs) as (Hnd & _ & Hin).
  apply NoDup_Permutation; [by eapply NoDup_fmap_1| |].
  { eapply (NoDup_fmap_1 fst). rewrite <- list_fmap_compose. apply NoDup_fmap_2_strong; [|apply NoDup_map_to_list].
    intros [i k] [j k'] ?%elem_of_map_to_list ?%elem_of_map_to_list E. cbn in E.
    apply opkKey_inj in E; [|by eapply Hi..]. subst. by simplify_eq. }
  intros [key v]. rewrite Hin, list_elem_of_fmap. split.
  - intros [Hp Hv]. destruct (Hk _ _ Hv Hp) as (id & Hid & ->). specialize (Hg id Hid).
    destruct (m !! id) as [k|] eqn:Em; [|congruence]. destruct Hg as (b & Hb & Ek).
    exists (id, k). rewrite elem_of_map_to_list. cbn. rewrite Ek. split; [|done]. cbn. congruence.
  - intros ([id k] & [= -> ->] & Hm%elem_of_map_to_list). split; [apply prefix_opkKey|].
    destruct (Hi _ _ Hm) as [Hid _]. specialize (Hg id Hid). rewrite Hm in Hg. destruct Hg as (b & Hb & Ek). by rewrite Hb, Ek.
Qed.

Lemma parse_scan (l : list (bytes * bytes)) (r : list (Z * OneTimePrekey)) :
  l ≡ₚ (fun p => (opkKey p.1, default [] (marshal p.2))) <$> r ->
  exists ks, Forall2 (fun kv k => proto_Unmarshal kv.2 = Ok k) l ks /\ ks ≡ₚ r.*2.
Proof.
  intros Hp. destruct (Permutation_map_inv _ _ Hp) as (r' & -> & Hp').
  exists r'.*2. split; [|by rewrite Hp']. clear Hp Hp'. induction r' as [|[id k] r' IH]; cbn; constructor; [|done].
  cbn. destruct (marshal_total k) as [b E]. unfold proto_Unmarshal. rewrite E. cbn. by rewrite (unmarshal_marshal _ _ E).
Qed.

(** C25. The one-time prekeys in the store are a finite map from ids to prekeys.  From a store that
    holds a map, any sequence of saves and deletions succeeds and leaves the map it
    would make; then a lookup gives what the map has, the list has every prekey of
    the map once, in some order, and the count is the size of the map. *)
Theorem opks_refine_map ops d m :
  Forall op_ok ops -> holds d m ->
  let m' := fold_left spec_opk ops m in
  exists d', run_opks ops d = (d', Ok tt) /\ holds d' m' /\
    (forall id, is_id id -> GetOneTimePrekey id d' = (d', Ok (m' !! id))) /\
    (exists l, ListOneTimePrekeys d' = (d', Ok l) /\ l ≡ₚ (map_to_list m').*2) /\
    CountOneTimePrekeys d' = (d', Ok (Z.of_nat (size m'))).
Proof.
  intros Ho Hh. cbv zeta. destruct (run_opks_holds ops d m Ho Hh) as (d' & E & H). exists d'. split; [done|]. split; [done|].
  destruct (kv_scan_total (str opkPrefix) d') as [l Hs]. pose proof (scan_holds _ _ _ H Hs) as Hp. split; [|split].
  - intros id Hid. pose proof (h_get _ _ H id Hid) as Hg. unfold GetOneTimePrekey, db_get.
    destruct (_ !! id) as [k|]; [|by rewrite Hg]. destruct Hg as (b & -> & Ek). unfold proto_Unmarshal.
    by rewrite (unmarshal_marshal _ _ Ek).
  - destruct (parse_scan _ _ Hp) as (ks & Hks & Hperm). exists ks. split; [by apply (db_list_Ok _ _ _ _ l)|done].
  - unfold CountOneTimePrekeys. rewrite (bind_Ok _ _ d' d' l.*2).
    + unfold mret, GoM_ret. rewrite length_fmap, Hp, length_fmap. by rewrite length_map_to_list.
    + apply (db_list_Ok _ _ _ _ l); [done|]. apply Forall2_fmap_r, Forall_Forall2_diag. by apply Forall_true.
Qed.
End Prekeys.

(** ** Records by key *)

Section Records.
Context `{K : KV} `{!KVLaws K}.

Lemma saved_found {A} `{!Codec A} `{!CodecLaws A} ctx ctx' ctx'' origin origin' (a : A) k d d' :
  (data ← lift (wrapErr ctx (ext origin (marshal a))); db_set ctx' k data) d = (d', Ok tt) ->
  db_get ctx'' (mret None) (fun data => r ← ext origin' (unmarshal data); mret (Some r)) k d' = (d', Ok (Some a)).
Proof.
  unfold lift, mbind, GoM_bind. destruct (marshal a) as [b|] eqn:E; [|done]. cbn. unfold db_set.
  destruct (kv_set k b d) as [d1|] eqn:Es; [|done]. intros [= <-]. unfold db_get. rewrite (kv_get_set _ _ _ _ Es).
  by rewrite (unmarshal_marshal _ _ E).
Qed.

Context `{P : Primitives} `{!Codec IdentityDocumentRecord} `{!Codec DeviceCertificate} `{!Codec SignedPrekey}
  `{!Codec SessionState} `{!Codec PrekeyBundleCache} `{!CodecLaws IdentityDocumentRecord} `{!CodecLaws DeviceCertificate}
  `{!CodecLaws SignedPrekey} `{!CodecLaws SessionState} `{!CodecLaws PrekeyBundleCache}.

(** What is saved is found: a document and a prekey bundle under the key of their identity,
    a certificate under its device, a signed prekey under its number (whosever it
    is), a session under its id. *)
Lemma identity_records_found d d' :
  (forall pub r, SaveIdentityDocument pub r d = (d', Ok tt) -> GetIdentityDocument pub d' = (d', Ok (Some r))) /\
  (forall id c, SaveDeviceCertificate id c d = (d', Ok tt) -> GetDeviceCertificate id d' = (d', Ok (Some c))) /\
  (forall k, SaveSignedPrekey k d = (d', Ok tt) -> GetSignedPrekey (sp_PrekeyId k) d' = (d', Ok (Some k))) /\
  (forall s, SaveSessionState s d = (d', Ok tt) -> GetSessionState (SessionID s) d' = (d', Ok (Some s))) /\
  (forall pub c, SavePrekeyBundleCache pub c d = (d', Ok tt) -> GetPrekeyBundleCache pub d' = (d', Ok (Some c))).
Proof. do 4 (split; [intros; by eapply saved_found|]). intros; by eapply saved_found. Qed.
End Records.

(** ** An example *)
Module StoreDemo.
Import DocumentDemo.
Definition key (id : Z) : OneTimePrekey := mkOneTimePrekey [] [] id.
Definition ops : list opk_op := [SaveOp (key 1); SaveOp (key 256); SaveOp (key 2); DeleteOp 1].

Lemma empty_holds : holds (K := gmap_kv) (∅ : gmap bytes bytes) ∅.
Proof.
  split; cbn.
  - intros id _. by rewrite !lookup_empty.
  - intros id k. by rewrite lookup_empty.
  - intros k v. by rewrite lookup_empty.
Qed.
End StoreDemo.
Import DocumentDemo StoreDemo.

Lemma opks_refine_map_witness :
  exists d', run_opks (K := gmap_kv) ops (∅ : gmap bytes bytes) = (d', Ok tt) /\ GetOneTimePrekey (K := gmap_kv) 1 d' = (d', Ok None) /\
    GetOneTimePrekey (K := gmap_kv) 256 d' = (d', Ok (Some (key 256))) /\ CountOneTimePrekeys (K := gmap_kv) d' = (d', Ok 2).
Proof.
  destruct (opks_refine_map (K := gmap_kv) ops (∅ : gmap bytes bytes) ∅) as (d' & E & _ & Hg & _ & Hc).
  - repeat (constructor; [by split|]). constructor.
  - apply empty_holds.
  - exists d'. split; [exact E|]. split; [|split]; [rewrite (Hg 1 ltac:(by split))|rewrite (Hg 256 ltac:(by split))|rewrite Hc];
      by vm_compute.
Defined.
