(* ===== verification/MediaCodec.v ===== *)
(** * pkg/rtc: codecs

    [codec.go]: the codecs a party supports, what it reads of the SDP of the
    other, the codec it selects, and the SDP it answers with.  The two calls of
    package json, which nothing uses, are left out.  The sort of at most twelve
    codecs by [sort.Slice] is an insertion sort. *)
From Stdlib Require Import Sorting.Sorted.
From S2P Require Import Prelude GoText.
#[local] Open Scope string_scope.
#[local] Open Scope Z_scope.

Definition CodecOpus : string := "opus".
Definition CodecPCMU : string := "PCMU".
Definition CodecPCMA : string := "PCMA".
Definition CodecVP8 : string := "VP8".
Definition CodecVP9 : string := "VP9".
Definition CodecH264 : string := "H264".
Definition CodecAV1 : string := "AV1".
Definition MediaAudio : string := "audio".
Definition MediaVideo : string := "video".
Definition ErrCodecNotFound : error := ErrText "codec not found".
Definition ErrCodecNegotiationFailed : error := ErrText "codec negotiation failed".

Record Codec := mkCodec {
  cd_Name : string;
  cd_Type : string;
  ClockRate : Z;
  Channels : Z;
  PayloadType : Z;
  Parameters : gmap string string;
  Priority : Z;
  Required : bool;
}.
#[export] Instance codec_eta : Eta Codec := fun r =>
  mkCodec (cd_Name r) (cd_Type r) (ClockRate r) (Channels r) (PayloadType r) (Parameters r) (Priority r) (Required r).
#[export] Instance codec_eq_dec : EqDecision Codec.
Proof. solve_decision. Defined.

Record CodecCapabilities := mkCapabilities { AudioCodecs : list Codec; VideoCodecs : list Codec }.

Definition DefaultCapabilities : CodecCapabilities := mkCapabilities
  [mkCodec CodecOpus MediaAudio 48000 2 111 {["minptime" := "10"; "useinbandfec" := "1"]} 100 true;
   mkCodec CodecPCMU MediaAudio 8000 1 0 ∅ 50 false;
   mkCodec CodecPCMA MediaAudio 8000 1 8 ∅ 50 false]
  [mkCodec CodecVP9 MediaVideo 90000 0 98 {["profile-id" := "0"]} 100 false;
   mkCodec CodecVP8 MediaVideo 90000 0 96 ∅ 90 true;
   mkCodec CodecH264 MediaVideo 90000 0 102
     {["profile-level-id" := "42e01f"; "level-asymmetry-allowed" := "1"; "packetization-mode" := "1"]} 70 false;
   mkCodec CodecAV1 MediaVideo 90000 0 99 ∅ 60 false].

Record MediaSection := mkMediaSection {
  MediaType : string;
  Port : Z;
  Protocol : string;
  Formats : list string;
  ms_Attributes : list string;
  Direction : string;
  SSRC : Z;
  SSRCGroup : list Z;
}.
Record SDP := mkSDP {
  sdp_Version : Z;
  Origin : string;
  SessionName : string;
  Connection : string;
  Timing : string;
  MediaSections : list MediaSection;
  Attributes : list string;
}.

Record CodecNegotiator := mkNegotiator { localCaps : CodecCapabilities }.
Definition NewCodecNegotiator : CodecNegotiator := mkNegotiator DefaultCapabilities.

(** ** Reading an SDP *)

Definition isVideoCodec (name : string) : bool :=
  bool_decide (ToUpper name ∈ (ToUpper <$> [CodecVP8; CodecVP9; CodecH264; CodecAV1])).

Definition parseUint8 (s : string) : Z := default 0 (Sscanf_uint8 s).

(** [a=rtpmap:<payload_type> <codec_name>/<clock_rate>[/<channels>]] *)
Definition parseRTPMap (line : string) : option Codec :=
  match SplitN2 " " (TrimPrefix line "a=rtpmap:") with
  | [payloadType; rest] =>
      match Split "/" rest with
      | name :: rate :: more =>
          clockRate ← Sscanf_int rate;
          let channels := match more with c :: _ => default 0 (Sscanf_int c) | [] => 0 end in
          let mediaType := if isVideoCodec name then MediaVideo else MediaAudio in
          Some (mkCodec name mediaType clockRate channels (parseUint8 payloadType) ∅ 0 false)
      | _ => None
      end
  | _ => None
  end.

Definition parse_line (mediaType line : string) : option Codec :=
  let line := TrimSpace line in
  if HasPrefix line "a=rtpmap:" then
    codec ← parseRTPMap line;
    if bool_decide (cd_Type codec = mediaType) then Some codec else None
  else None.

Definition parseCodecs (mediaType sdp : string) : list Codec := omap (parse_line mediaType) (Split newline sdp).
Definition parseAudioCodecs : string -> outcome (list Codec) := fun sdp => Ok (parseCodecs MediaAudio sdp).
Definition parseVideoCodecs : string -> outcome (list Codec) := fun sdp => Ok (parseCodecs MediaVideo sdp).

(** ** Selecting a codec *)

(** The next element moves left past those of less priority; the sorted part is in reverse. *)
Fixpoint sift (x : Codec) (sorted : list Codec) : list Codec :=
  match sorted with
  | y :: r => if Priority x >? Priority y then y :: sift x r else x :: sorted
  | [] => [x]
  end.
Definition sort_codecs (l : list Codec) : list Codec := rev (foldl (fun sorted x => sift x sorted) [] l).

(** The inner loop, and the outer one. *)
Fixpoint match_remote (localCodec : Codec) (remoteCodecs : list Codec) : option Codec :=
  match remoteCodecs with
  | [] => None
  | remoteCodec :: r =>
      if EqualFold (cd_Name localCodec) (cd_Name remoteCodec)
      then Some (localCodec <| PayloadType := PayloadType remoteCodec |>)
      else match_remote localCodec r
  end.
Fixpoint match_codecs (localCodecs remoteCodecs : list Codec) : option Codec :=
  match localCodecs with
  | [] => None
  | localCodec :: r =>
      match match_remote localCodec remoteCodecs with
      | Some result => Some result
      | None => match_codecs r remoteCodecs
      end
  end.

Definition selectBestAudioCodec (n : CodecNegotiator) (remoteCodecs : list Codec) : option Codec :=
  match_codecs (sort_codecs (AudioCodecs (localCaps n))) remoteCodecs.
Definition selectBestVideoCodec (n : CodecNegotiator) (remoteCodecs : list Codec) : option Codec :=
  match_codecs (sort_codecs (VideoCodecs (localCaps n))) remoteCodecs.

(** ** Answering *)

Definition line (key value : string) : string := key +:+ "=" +:+ value +:+ String newline EmptyString.
Definition concat_lines {A} (f : A -> string) (l : list A) : string := foldr (fun x s => f x +:+ s) EmptyString l.

Definition marshal_media (media : MediaSection) : string :=
  line "m" (MediaType media +:+ " " +:+ pretty (Port media) +:+ " " +:+ Protocol media +:+ " " +:+ String.concat " " (Formats media))
  +:+ concat_lines (line "a") (ms_Attributes media)
  +:+ (if bool_decide (Direction media = "") then EmptyString else line "a" (Direction media)).

Definition sdp_Marshal (s : SDP) : string := TrimSpace
  (line "v" (pretty (sdp_Version s)) +:+ line "o" (Origin s) +:+ line "s" (SessionName s) +:+ line "c" (Connection s)
   +:+ line "t" (Timing s) +:+ concat_lines (line "a") (Attributes s) +:+ concat_lines marshal_media (MediaSections s)).

Definition generateAudioAnswer (codec : Codec) : string :=
  sdp_Marshal (mkSDP 0 "- 0 0 IN IP4 127.0.0.1" "Babylon Tower Audio" "IN IP4 127.0.0.1" "0 0"
    [mkMediaSection "audio" 9 "UDP/TLS/RTP/SAVPF" [pretty (PayloadType codec)]
       ["rtpmap:" +:+ pretty (PayloadType codec) +:+ " " +:+ cd_Name codec +:+ "/" +:+ pretty (ClockRate codec)
        +:+ "/" +:+ pretty (Channels codec)] "sendrecv" 0 []] []).

Definition generateVideoAnswer (codec : Codec) : string :=
  sdp_Marshal (mkSDP 0 "- 0 0 IN IP4 127.0.0.1" "Babylon Tower Video" "IN IP4 127.0.0.1" "0 0"
    [mkMediaSection "video" 9 "UDP/TLS/RTP/SAVPF" [pretty (PayloadType codec)]
       ["rtpmap:" +:+ pretty (PayloadType codec) +:+ " " +:+ cd_Name codec +:+ "/" +:+ pretty (ClockRate codec)] "sendrecv" 0 []] []).

Definition NegotiateAudio (remoteSDP : string) (n : CodecNegotiator) : outcome (string * Codec) :=
  remoteCodecs ← wrapErr "failed to parse remote audio codecs" (parseAudioCodecs remoteSDP);
  match selectBestAudioCodec n remoteCodecs with
  | None => Err ErrCodecNegotiationFailed
  | Some selectedCodec => Ok (generateAudioAnswer selectedCodec, selectedCodec)
  end.

Definition NegotiateVideo (remoteSDP : string) (n : CodecNegotiator) : outcome (string * Codec) :=
  remoteCodecs ← wrapErr "failed to parse remote video codecs" (parseVideoCodecs remoteSDP);
  match selectBestVideoCodec n remoteCodecs with
  | None => Err ErrCodecNegotiationFailed
  | Some selectedCodec => Ok (generateVideoAnswer selectedCodec, selectedCodec)
  end.

Definition GetSupportedAudioCodecs (n : CodecNegotiator) : list string := cd_Name <$> AudioCodecs (localCaps n).
Definition GetSupportedVideoCodecs (n : CodecNegotiator) : list string := cd_Name <$> VideoCodecs (localCaps n).

Definition GetCodecParameters (name : string) (n : CodecNegotiator) : outcome (gmap string string) :=
  let same (codec : Codec) : Prop := EqualFold (cd_Name codec) (ToLower name) in
  match list_find same (AudioCodecs (localCaps n)) with
  | Some (_, codec) => Ok (Parameters codec)
  | None =>
      match list_find same (VideoCodecs (localCaps n)) with
      | Some (_, codec) => Ok (Parameters codec)
      | None => Err ErrCodecNotFound
      end
  end.
