(* ===== verification/MediaCodecProps.v ===== *)
(** * pkg/rtc: what codec negotiation settles on

    The codec selected is the best one both parties have, and the answer makes
    the other party select the same. *)
From Stdlib Require Import Sorting.Sorted.
From S2P Require Import Prelude GoText MediaCodec.
#[local] Open Scope Z_scope.

(** [l] and [r] are a local and a remote codec of one name. *)
Definition common (locals remotes : list Codec) (l r : Codec) : Prop :=
  l ∈ locals /\ r ∈ remotes /\ EqualFold (cd_Name l) (cd_Name r).

(** What is to be selected: the local codec of the highest priority that the other party has too, under the
    payload type of the other party. *)
Definition best_common (locals remotes : list Codec) (selected : option Codec) : Prop :=
  match selected with
  | Some c => exists l r, common locals remotes l r /\ c = l <| PayloadType := PayloadType r |> /\
      forall l' r', common locals remotes l' r' -> Priority l' <= Priority l
  | None => forall l r, ~ common locals remotes l r
  end.

Definition answered (generate : Codec -> string) (selected : option Codec) : outcome (string * Codec) :=
  match selected with
  | Some c => Ok (generate c, c)
  | None => Err ErrCodecNegotiationFailed
  end.

(** ** The sort *)

Definition ascending (x y : Codec) : Prop := Priority x <= Priority y.

Lemma sift_Permutation x l : sift x l ≡ₚ x :: l.
Proof. induction l as [|y l IH]; cbn; [done|]. case_match; [|done]. by rewrite IH, Permutation_swap. Qed.

Lemma sift_sorted x l : StronglySorted ascending l -> StronglySorted ascending (sift x l).
Proof.
  induction 1 as [|y l Hl IH Hy]; cbn; [by repeat constructor|].
  destruct (Priority x >? Priority y) eqn:E; constructor; [done| | |].
  - rewrite sift_Permutation. constructor; [unfold ascending; lia | done].
  - by constructor.
  - constructor; [unfold ascending; lia|]. eapply Forall_impl; [exact Hy|]. unfold ascending. intros; lia.
Qed.

Lemma StronglySorted_rev l : StronglySorted ascending l -> StronglySorted (flip ascending) (rev l).
Proof.
  induction 1 as [|y r _ IH Hy]; cbn; [constructor|].
  assert (Forall (ascending y) (rev r)) as Hr by by rewrite <- Permutation_rev.
  clear Hy. induction IH as [|z s Hs IH Hz]; cbn; [by repeat constructor|]. decompose_Forall_hyps.
  constructor; [by apply IH|]. apply Forall_app. split; [done|]. by repeat constructor.
Qed.

Lemma sort_codecs_spec l : sort_codecs l ≡ₚ l /\ StronglySorted (flip ascending) (sort_codecs l).
Proof.
  assert (forall acc, StronglySorted ascending acc ->
    foldl (fun sorted x => sift x sorted) acc l ≡ₚ l ++ acc /\
    StronglySorted ascending (foldl (fun sorted x => sift x sorted) acc l)) as H.
  { induction l as [|x l IH]; intros acc Hacc; cbn; [done|].
    destruct (IH (sift x acc) (sift_sorted x acc Hacc)) as [HP Hs]. split; [|done].
    etrans; [exact HP|]. by rewrite sift_Permutation, Permutation_middle. }
  destruct (H [] (SSorted_nil _)) as [HP HS]. unfold sort_codecs. split.
  - etrans; [symmetry; apply Permutation_rev|]. by rewrite HP, app_nil_r.
  - by apply StronglySorted_rev.
Qed.

(** ** The selection *)

Lemma match_remote_spec l remotes :
  match match_remote l remotes with
  | Some c => exists r, r ∈ remotes /\ EqualFold (cd_Name l) (cd_Name r) /\ c = l <| PayloadType := PayloadType r |>
  | None => forall r, r ∈ remotes -> ~ EqualFold (cd_Name l) (cd_Name r)
  end.
Proof.
  induction remotes as [|r remotes IH]; cbn; [by intros r ?%not_elem_of_nil|].
  destruct (EqualFold (cd_Name l) (cd_Name r)) eqn:E.
  - exists r. split_and!; [rewrite elem_of_cons; by left | by apply Is_true_true | done].
  - destruct (match_remote l remotes).
    + destruct IH as (r' & ? & ? & ->). exists r'. split_and!; [rewrite elem_of_cons; by right | done..].
    + intros r' [->|Hr]%elem_of_cons; [rewrite E; by intros [] | by apply IH].
Qed.

Lemma match_codecs_spec locals remotes :
  StronglySorted (flip ascending) locals -> best_common locals remotes (match_codecs locals remotes).
Proof.
  induction 1 as [|l locals Hl IH Hfirst]; cbn; [by intros ? ? [?%not_elem_of_nil ?]|].
  pose proof (match_remote_spec l remotes) as Hm. rewrite Forall_forall in Hfirst.
  destruct (match_remote l remotes) as [c|].
  - destruct Hm as (r & Hr & Hf & ->). exists l, r. split; [split_and!; [rewrite elem_of_cons; by left | done..] |]. split; [done|].
    intros l' r' ([->|Hl']%elem_of_cons & _); [done | exact (Hfirst _ Hl')].
  - assert (forall l' r', common (l :: locals) remotes l' r' -> common locals remotes l' r') as Hrest.
    { intros l' r' ([->|?]%elem_of_cons & ? & ?); [by destruct (Hm r') | done]. }
    destruct (match_codecs locals remotes) as [c|]; cbn in IH |- *.
    + destruct IH as (l' & r' & (? & ? & ?) & -> & Hbest). exists l', r'. split; [split_and!; [rewrite elem_of_cons; by right | done..] |]. split; [done|].
      intros l2 r2 ?%Hrest. by eapply Hbest.
    + intros l' r' ?%Hrest. by eapply IH.
Qed.

Lemma best_common_Permutation locals locals' remotes selected :
  locals ≡ₚ locals' -> best_common locals remotes selected -> best_common locals' remotes selected.
Proof.
  intros HP. assert (forall l r, common locals remotes l r <-> common locals' remotes l r) as Hc.
  { intros l r. unfold common. by rewrite HP. }
  destruct selected as [c|]; cbn.
  - intros (l & r & Hlr%Hc & -> & Hbest). exists l, r. split; [done|]. split; [done|]. intros l' r' ?%Hc. by eapply Hbest.
  - intros Hn l r ?%Hc. by eapply Hn.
Qed.

Lemma select_best locals remotes : best_common locals remotes (match_codecs (sort_codecs locals) remotes).
Proof.
  destruct (sort_codecs_spec locals) as [HP HS]. eapply best_common_Permutation; [exact HP|]. by apply match_codecs_spec.
Qed.

(** C35. Negotiation selects the supported codec of the highest priority that the other party offered, with the
    payload type of the offer, and answers with it; it fails exactly when there is no common codec. *)
Theorem negotiation_best sdp n : exists audio video,
  best_common (AudioCodecs (localCaps n)) (parseCodecs MediaAudio sdp) audio /\
  NegotiateAudio sdp n = answered generateAudioAnswer audio /\
  best_common (VideoCodecs (localCaps n)) (parseCodecs MediaVideo sdp) video /\
  NegotiateVideo sdp n = answered generateVideoAnswer video.
Proof.
  exists (selectBestAudioCodec n (parseCodecs MediaAudio sdp)), (selectBestVideoCodec n (parseCodecs MediaVideo sdp)).
  repeat split; apply select_best.
Qed.

(** ** The answer *)

Lemma digits_nonneg s acc : 0 <= acc -> 0 <= digits acc s.
Proof.
  revert acc. induction s as [|c s IH]; intros acc Ha; cbn; [done|]. destruct (in_range "0" c "9") eqn:E; [|done].
  apply IH. unfold in_range in E. change (ascii_Z "0") with 48 in E. lia.
Qed.

Lemma parseUint8_range s : 0 <= parseUint8 s < 256.
Proof.
  unfold parseUint8, Sscanf_uint8. destruct (scanNumber _) as [z|] eqn:E; cbn; [|lia].
  destruct (z <? 2 ^ 8) eqn:Hz; cbn; [|lia]. unfold scanNumber in E.
  destruct (TrimLeft line_spaces s) as [|c r]; [done|]. destruct (in_range "0" c "9"); [|done].
  pose proof (digits_nonneg (String c r) 0). simplify_eq. lia.
Qed.

Lemma parseCodecs_range mediaType sdp r : r ∈ parseCodecs mediaType sdp -> 0 <= PayloadType r < 256.
Proof.
  intros (l & _ & H)%list_elem_of_omap. unfold parse_line in H.
  destruct (HasPrefix _ _); [|done]. apply bind_Some in H as (c & Hc & H). case_bool_decide; [|done]. simplify_eq.
  unfold parseRTPMap in Hc. repeat case_match; simplify_option_eq; try done; apply parseUint8_range.
Qed.

(** Every answer a party may give, and what the other makes of it. *)
Definition settles (negotiate : string -> CodecNegotiator -> outcome (string * Codec)) (generate : Codec -> string)
    (c : Codec) : bool :=
  match negotiate (generate c) NewCodecNegotiator with
  | Ok (answer, c') => bool_decide (answer = generate c) && bool_decide (c' = c)
  | _ => false
  end.

Definition all_settle (locals : list Codec) (negotiate : string -> CodecNegotiator -> outcome (string * Codec))
    (generate : Codec -> string) : bool :=
  forallb (fun l => forallb (fun p => settles negotiate generate (l <| PayloadType := Z.of_nat p |>)) (seq 0 256)) locals.

Lemma audio_settles : all_settle (AudioCodecs DefaultCapabilities) NegotiateAudio generateAudioAnswer = true.
Proof. vm_compute. reflexivity. Qed.
Lemma video_settles : all_settle (VideoCodecs DefaultCapabilities) NegotiateVideo generateVideoAnswer = true.
Proof. vm_compute. reflexivity. Qed.

Lemma settled mediaType locals negotiate generate sdp selected answer c :
  all_settle locals negotiate generate = true ->
  best_common locals (parseCodecs mediaType sdp) selected -> answered generate selected = Ok (answer, c) ->
  negotiate answer NewCodecNegotiator = Ok (answer, c).
Proof.
  intros H Hbest Ha. destruct selected as [d|]; [|done]. injection Ha as <- <-.
  destruct Hbest as (l & r & (Hl & Hr%parseCodecs_range & _) & -> & _). unfold all_settle in H.
  rewrite forallb_forall in H. setoid_rewrite forallb_forall in H.
  specialize (H l (proj1 (list_elem_of_In _ _) Hl) (Z.to_nat (PayloadType r))).
  rewrite in_seq, Z2Nat.id in H by lia. specialize (H ltac:(lia)). unfold settles in H.
  destruct (negotiate _ _) as [[answer c']| |]; try done.
  apply andb_prop in H as [?%bool_decide_eq_true ?%bool_decide_eq_true]. by subst.
Qed.

(** An answer settles the negotiation: the party that gets it selects the same codec with the same payload
    type and parameters, and would give the same answer, for every offer with a common codec. *)
Theorem answer_agreed sdp :
  (forall answer c, NegotiateAudio sdp NewCodecNegotiator = Ok (answer, c) ->
    NegotiateAudio answer NewCodecNegotiator = Ok (answer, c)) /\
  (forall answer c, NegotiateVideo sdp NewCodecNegotiator = Ok (answer, c) ->
    NegotiateVideo answer NewCodecNegotiator = Ok (answer, c)).
Proof.
  split; intros answer c H.
  - exact (settled _ _ _ _ _ (selectBestAudioCodec NewCodecNegotiator _) _ _ audio_settles (select_best _ _) H).
  - exact (settled _ _ _ _ _ (selectBestVideoCodec NewCodecNegotiator _) _ _ video_settles (select_best _ _) H).
Qed.

Definition offer : string :=
  ("v=0" +:+ String newline "a=rtpmap:8 pcma/8000" +:+ String newline " a=rtpmap:120 OPUS/48000/2")%string.

Theorem answer_agreed_witness : exists answer c, NegotiateAudio offer NewCodecNegotiator = Ok (answer, c) /\
  PayloadType c = 120 /\ cd_Name c = CodecOpus /\ NegotiateAudio answer NewCodecNegotiator = Ok (answer, c).
Proof.
  eexists _, _. split; [vm_compute; reflexivity|]. split; [done|]. split; [done|].
  apply (proj1 (answer_agreed offer)). vm_compute. reflexivity.
Defined.

(** A payload type that is none becomes that of PCMU. *)
Theorem bad_payload_type : exists answer c,
  NegotiateAudio "a=rtpmap:300 opus/48000/2" NewCodecNegotiator = Ok (answer, c) /\ cd_Name c = CodecOpus /\ PayloadType c = 0.
Proof. eexists _, _. split; [vm_compute; reflexivity|]. by split. Qed.
