(* ===== verification/MediaService.v ===== *)
(** * pkg/rtc: the media service

    [media.go]: the session media is sent for and what is counted of it.  The
    callback is a step of its owner, whose state is a parameter.  The service keeps
    a pointer to the session and reads it only in [StartOutgoing]. *)
From S2P Require Import Prelude Runtime Float64 Calls.
#[local] Open Scope Z_scope.

Definition ErrMediaNotStarted : error := ErrText "media service not started".
Definition ErrNoMediaKey : error := ErrText "no media key available".

Record MediaStats := mkMediaStats {
  AudioPacketsSent : Z; AudioPacketsReceived : Z; AudioBytesSent : Z; AudioBytesReceived : Z;
  VideoPacketsSent : Z; VideoPacketsReceived : Z; VideoBytesSent : Z; VideoBytesReceived : Z;
  JitterMs : f64; PacketLossRate : f64; RTTMs : f64;
}.
#[export] Instance media_stats_eta : Eta MediaStats := fun m =>
  mkMediaStats (AudioPacketsSent m) (AudioPacketsReceived m) (AudioBytesSent m) (AudioBytesReceived m)
    (VideoPacketsSent m) (VideoPacketsReceived m) (VideoBytesSent m) (VideoBytesReceived m) (JitterMs m) (PacketLossRate m) (RTTMs m).

Record MediaService (C : Type) := mkMediaService {
  md_session : option CallSession;
  stats : MediaStats;
  cancelled : bool;
  onMediaStarted : option (C -> C);
  onMediaStopped : option (C -> C);
}.
Arguments mkMediaService {C}.
Arguments md_session {C}. Arguments stats {C}. Arguments cancelled {C}.
Arguments onMediaStarted {C}. Arguments onMediaStopped {C}.
#[export] Instance media_eta C : Eta (MediaService C) := fun m =>
  mkMediaService (md_session m) (stats m) (cancelled m) (onMediaStarted m) (onMediaStopped m).

Definition no_stats : MediaStats := mkMediaStats 0 0 0 0 0 0 0 0 f64_0 f64_0 f64_0.

Section Media.
Context {C : Type}.
Abbreviation M := (GoM (MediaService C * C)).

Definition NewMediaService : MediaService C := mkMediaService None no_stats false None None.

Definition media : M (MediaService C) := s ← get; mret s.1.
Definition on_media (f : MediaService C -> MediaService C) : M unit := modify (fun s => (f s.1, s.2)).

Definition media_Start : M unit := mret tt.
Definition media_Stop : M unit := on_media (fun m => m <| cancelled := true |>).

Definition StartOutgoing (session : CallSession) : M unit :=
  _ ← ensure (negb (bool_decide (MediaKey session = []))) ErrNoMediaKey;
  _ ← on_media (fun m => m <| md_session := Some session |>);
  m ← media;
  match onMediaStarted m with
  | Some callback => modify (fun s => (s.1, callback s.2))
  | None => mret tt
  end.

(** [if m.session == nil { return 0, ErrMediaNotStarted }] *)
Definition started : M unit := m ← media; ensure (bool_decide (is_Some (md_session m))) ErrMediaNotStarted.

Definition SendAudio (data : bytes) : M Z :=
  _ ← started;
  _ ← on_media (fun m => m <| stats := stats m
        <| AudioPacketsSent := u64 (AudioPacketsSent (stats m) + 1) |>
        <| AudioBytesSent := u64 (AudioBytesSent (stats m) + Z.of_nat (length data)) |> |>);
  mret (Z.of_nat (length data)).

Definition SendVideo (data : bytes) : M Z :=
  _ ← started;
  _ ← on_media (fun m => m <| stats := stats m
        <| VideoPacketsSent := u64 (VideoPacketsSent (stats m) + 1) |>
        <| VideoBytesSent := u64 (VideoBytesSent (stats m) + Z.of_nat (length data)) |> |>);
  mret (Z.of_nat (length data)).

Definition SendRTCP (packet : bytes) : M unit := started.

Definition media_GetStats (m : MediaService C) : MediaStats := stats m.
Definition SetOnMediaStarted (callback : option (C -> C)) : M unit := on_media (fun m => m <| onMediaStarted := callback |>).
Definition SetOnMediaStopped (callback : option (C -> C)) : M unit := on_media (fun m => m <| onMediaStopped := callback |>).
Definition UpdateStats (jitter packetLoss rtt : f64) : M unit :=
  on_media (fun m => m <| stats := stats m <| JitterMs := jitter |> <| PacketLossRate := packetLoss |> <| RTTMs := rtt |> |>).
Definition IsStreaming (m : MediaService C) : bool := bool_decide (is_Some (md_session m)).
Definition media_GetSession (m : MediaService C) : option CallSession := md_session m.
Definition SetSession (session : option CallSession) : M unit := on_media (fun m => m <| md_session := session |>).

(** ** What is counted *)

Inductive media_op :=
  | OpStart | OpStop | OpOutgoing (session : CallSession) | OpAudio (data : bytes) | OpVideo (data : bytes)
  | OpRTCP (packet : bytes) | OpStarted (f : option (C -> C)) | OpStopped (f : option (C -> C))
  | OpUpdate (jitter packetLoss rtt : f64) | OpSession (session : option CallSession).

Definition media_step (o : media_op) (s : MediaService C * C) : MediaService C * C :=
  match o with
  | OpStart => (media_Start s).1
  | OpStop => (media_Stop s).1
  | OpOutgoing session => (StartOutgoing session s).1
  | OpAudio data => (SendAudio data s).1
  | OpVideo data => (SendVideo data s).1
  | OpRTCP packet => (SendRTCP packet s).1
  | OpStarted f => (SetOnMediaStarted f s).1
  | OpStopped f => (SetOnMediaStopped f s).1
  | OpUpdate a b c => (UpdateStats a b c s).1
  | OpSession session => (SetSession session s).1
  end.

(** The audio that was accepted in a run: its packets and bytes. *)
Fixpoint audio_sent (ops : list media_op) (s : MediaService C * C) : list bytes :=
  match ops with
  | [] => []
  | o :: ops' =>
      match o with
      | OpAudio data => if IsStreaming s.1 then [data] else []
      | _ => []
      end ++ audio_sent ops' (media_step o s)
  end.

Definition total (l : list bytes) : Z := foldr (fun d n => Z.of_nat (length d) + n) 0 l.

Lemma u64_add_u64 a b : u64 (u64 a + b) = u64 (a + b).
Proof. unfold u64. by rewrite Zplus_mod_idemp_l. Qed.

Lemma media_step_other o s : (forall d, o <> OpAudio d) ->
  AudioPacketsSent (stats (media_step o s).1) = AudioPacketsSent (stats s.1) /\
  AudioBytesSent (stats (media_step o s).1) = AudioBytesSent (stats s.1).
Proof.
  intros Ho. destruct s as [m c], o; try done; try (by destruct (Ho data)); cbn;
    unfold StartOutgoing, SendVideo, SendRTCP, started, media; go_run;
    destruct m as [[] st cn [] g]; cbn; try done; by destruct (bool_decide (MediaKey session = [])).
Qed.

Lemma media_step_audio d m c : media_step (OpAudio d) (m, c) =
  (if IsStreaming m then m <| stats := stats m
        <| AudioPacketsSent := u64 (AudioPacketsSent (stats m) + 1) |>
        <| AudioBytesSent := u64 (AudioBytesSent (stats m) + Z.of_nat (length d)) |> |> else m, c).
Proof. cbn. unfold SendAudio, started, media, IsStreaming. go_run. by destruct (md_session m). Qed.

(** The counters are those of the audio accepted, whatever else happens, modulo their width. *)
Theorem audio_counted ops s s' : foldl (fun s o => media_step o s) s ops = s' ->
  u64 (AudioPacketsSent (stats s'.1)) = u64 (AudioPacketsSent (stats s.1) + Z.of_nat (length (audio_sent ops s))) /\
  u64 (AudioBytesSent (stats s'.1)) = u64 (AudioBytesSent (stats s.1) + total (audio_sent ops s)).
Proof.
  revert s. induction ops as [|o ops IH]; intros s; cbn; [intros ->; by rewrite !Z.add_0_r|].
  intros [E1 E2]%IH. rewrite E1, E2. destruct o; cbn [app];
    try (match goal with |- context [media_step ?o s] => destruct (media_step_other o s ltac:(done)) as [-> ->] end; done).
  destruct s as [m c]. rewrite media_step_audio. cbn [fst]. destruct (IsStreaming m); cbn [app]; [|done].
  cbn -[u64 Z.of_nat total]. rewrite !u64_add_u64. unfold total; cbn [foldr]. split; f_equal; lia.
Qed.

(** Stopping the service does not stop media: what is sent afterwards is counted as before, and the callback for it is never
    called. *)
Theorem streaming_after_stop m c d : IsStreaming m = true ->
  let s := (media_Stop (m, c)).1 in
  IsStreaming s.1 = true /\ s.2 = c /\ (SendAudio d s).2 = Ok (Z.of_nat (length d)).
Proof.
  unfold IsStreaming. intros H. cbn. repeat split; [done|]. unfold SendAudio, started, media. go_run. by rewrite H.
Qed.
End Media.
