(* ===== verification/AppConfig.v ===== *)
(** * pkg/config: configurations

    [app.go], [config.go], [defaults.go] and [validate.go]: the configuration of
    the program and that of its node, their defaults and what is checked of them.
    Durations are nanoseconds.  Multiaddresses are parsed by a parameter; how
    a configuration is read is in ConfigLoader.v. *)
From S2P Require Import Prelude.
#[local] Open Scope Z_scope.

Definition Second : Z := 10 ^ 9.
Definition Hour : Z := 3600 * Second.

Definition DefaultProtocolID : string := "/babylontower/1.0.0".
Definition DefaultBootstrapTimeout : Z := 60 * Second.
Definition DefaultConnectionTimeout : Z := 30 * Second.
Definition DefaultDialTimeout : Z := 15 * Second.
Definition DefaultDHTBootstrapTimeout : Z := 60 * Second.
Definition DefaultMaxConnections : Z := 400.
Definition DefaultLowWater : Z := 50.
Definition DefaultHighWater : Z := 400.
Definition DefaultMaxStoredPeers : Z := 100.
Definition DefaultMinPeerConnections : Z := 10.
Definition DefaultListenAddrTCP : string := "/ip4/0.0.0.0/tcp/0".
Definition DefaultListenAddrWS : string := "/ip4/0.0.0.0/tcp/0/ws".
Definition DefaultListenAddrTCPv6 : string := "/ip6/::/tcp/0".

Record IPFSConfig := mkIPFSConfig {
  BootstrapPeers : list string; BootstrapTimeout : Z;
  MaxStoredPeers : Z; MinPeerConnections : Z;
  ConnectionTimeout : Z; DialTimeout : Z; MaxConnections : Z; LowWater : Z; HighWater : Z;
  EnableRelay : bool; EnableHolePunching : bool; EnableAutoNAT : bool;
  DHTMode : string; DHTBootstrapTimeout : Z;
  ListenAddrs : list string; ProtocolID : string;
}.

Record NetworkConfig := mkNetworkConfig {
  nc_BootstrapPeers : list string; nc_DialTimeout : Z; nc_ConnectionTimeout : Z; nc_BootstrapTimeout : Z;
  nc_MaxConnections : Z; nc_LowWater : Z; nc_HighWater : Z; nc_EnableRelay : bool; nc_EnableHolePunching : bool;
  nc_EnableAutoNAT : bool; nc_DHTMode : string; nc_DHTBootstrapTimeout : Z; nc_ListenAddrs : list string;
  nc_ProtocolID : string; nc_MaxStoredPeers : Z; nc_MinPeerConnections : Z;
}.
Record StorageConfig := mkStorageConfig { sc_Path : string; sc_InMemory : bool }.
Record LoggingConfig := mkLoggingConfig { lg_Level : string; lg_File : string }.
Record MessagingConfig := mkMessagingConfig { ChannelBufferSize : Z }.
Record MailboxConfig := mkMailboxConfig {
  mc_MaxMessagesPerTarget : Z; mc_MaxMessageSize : Z; mc_MaxTotalBytesPerTarget : Z; mc_DefaultTTL : Z; RateLimitPerMinute : Z;
}.
Record RTCConfig := mkRTCConfig { CallTimeout : Z; EnableVideo : bool; MaxParticipants : Z }.
Record MultideviceConfig := mkMultideviceConfig { mdc_DeviceName : string; MaxDevices : Z; mdc_SyncInterval : Z }.
Record IdentityConfig := mkIdentityConfig { DHTPublish : bool; RefreshInterval : Z }.

Record AppConfig := mkAppConfig {
  Network : NetworkConfig; Storage : StorageConfig; Logging : LoggingConfig; Messaging : MessagingConfig;
  Mailbox : MailboxConfig; RTC : RTCConfig; Multidevice : MultideviceConfig; Identity : IdentityConfig;
}.
#[export] Instance eta_LoggingConfig : Eta LoggingConfig := fun l => mkLoggingConfig (lg_Level l) (lg_File l).
#[export] Instance eta_NetworkConfig : Eta NetworkConfig := fun n =>
  mkNetworkConfig (nc_BootstrapPeers n) (nc_DialTimeout n) (nc_ConnectionTimeout n) (nc_BootstrapTimeout n) (nc_MaxConnections n)
    (nc_LowWater n) (nc_HighWater n) (nc_EnableRelay n) (nc_EnableHolePunching n) (nc_EnableAutoNAT n) (nc_DHTMode n)
    (nc_DHTBootstrapTimeout n) (nc_ListenAddrs n) (nc_ProtocolID n) (nc_MaxStoredPeers n) (nc_MinPeerConnections n).
#[export] Instance eta_AppConfig : Eta AppConfig := fun c =>
  mkAppConfig (Network c) (Storage c) (Logging c) (Messaging c) (Mailbox c) (RTC c) (Multidevice c) (Identity c).

Definition default_bootstrap_peers : list string := [
  "/dnsaddr/bootstrap.libp2p.io/p2p/QmNnooDu7bfjPFoTZYxMNLWUQJyrVwtbZg5gBMjTezGAJN";
  "/dnsaddr/bootstrap.libp2p.io/p2p/QmQCU2EcMqAqQPR2i9bChDtGNJchTbq5TbXJJ16u19uLTa";
  "/dnsaddr/bootstrap.libp2p.io/p2p/QmbLHAnMoJPWSCR5Zhtx6BHJX9KiRNN6vEC9qmL9egu92p";
  "/dnsaddr/bootstrap.libp2p.io/p2p/QmcZf59bWwK5XFi76CZX8cbJ4BhTzzA3gU1ZjYZcYW3dwt";
  "/dnsaddr/bootstrap.libp2p.io/p2p/QmSoLPppuBtQSGwKDZT2M73ULpjvfd3aZ6ha4oFGL1KrGM";
  "/ip4/104.131.131.82/tcp/4001/p2p/QmaCpDMGvV2BGHeYERUEnRQAwe3N8SzbUtfsmvsqQLuvuJ";
  "/ip4/104.236.179.241/tcp/4001/p2p/QmSoLPppuBtQSGwKDZT2M73ULpjvfd3aZ6ha4oFGL1KrGM";
  "/ip4/128.199.219.111/tcp/4001/p2p/QmSoLV4Bbm51jM9C4gDYZQ9Cy3U6aXMJDAbzgu2fzaDs64";
  "/ip4/104.236.76.40/tcp/4001/p2p/QmSoLPppuBtQSGwKDZT2M73ULpjvfd3aZ6ha4oFGL1KrGM";
  "/ip4/178.62.158.147/tcp/4001/p2p/QmSoLer265NRgSp2LA3dPaeykiS1J6DifTC88f5uVQKNAd";
  "/ip4/178.62.61.185/tcp/4001/p2p/QmSoLMeWqB7YGVLJN3pNLQpmmEk35v6wYtsMGLzSr5QBU3"].

Definition DefaultIPFSConfig : IPFSConfig :=
  mkIPFSConfig default_bootstrap_peers DefaultBootstrapTimeout DefaultMaxStoredPeers DefaultMinPeerConnections
    DefaultConnectionTimeout DefaultDialTimeout DefaultMaxConnections DefaultLowWater DefaultHighWater
    false true true "auto" DefaultDHTBootstrapTimeout [DefaultListenAddrTCP; DefaultListenAddrWS; DefaultListenAddrTCPv6] DefaultProtocolID.

Definition DefaultAppConfig : AppConfig :=
  mkAppConfig
    (mkNetworkConfig default_bootstrap_peers (15 * Second) (30 * Second) (60 * Second) 400 50 400 false true true "auto"
       (60 * Second) ["/ip4/0.0.0.0/tcp/0"; "/ip4/0.0.0.0/tcp/0/ws"; "/ip6/::/tcp/0"] "/babylontower/1.0.0" 100 10)
    (mkStorageConfig "" false) (mkLoggingConfig "warn" "") (mkMessagingConfig 100)
    (mkMailboxConfig 500 (256 * 1024) (64 * 1024 * 1024) (7 * 24 * Hour) 60)
    (mkRTCConfig (30 * Second) true 25) (mkMultideviceConfig "" 5 (30 * Second)) (mkIdentityConfig true (4 * Hour)).

Definition ToIPFSConfig (c : AppConfig) : IPFSConfig :=
  let n := Network c in
  mkIPFSConfig (nc_BootstrapPeers n) (nc_BootstrapTimeout n) (nc_MaxStoredPeers n) (nc_MinPeerConnections n)
    (nc_ConnectionTimeout n) (nc_DialTimeout n) (nc_MaxConnections n) (nc_LowWater n) (nc_HighWater n) (nc_EnableRelay n)
    (nc_EnableHolePunching n) (nc_EnableAutoNAT n) (nc_DHTMode n) (nc_DHTBootstrapTimeout n) (nc_ListenAddrs n) (nc_ProtocolID n).

(** [if bad { return err }] *)
Definition reject (bad : bool) (e : error) : outcome unit := if bad then Err e else Ok tt.

Definition ErrInvalidConfig : error := ErrText "invalid configuration".
(** [fmt.Errorf("%w: text", ErrInvalidConfig)] *)
Definition invalid_config (text : string) : error := ErrWrap text ErrInvalidConfig.

Definition ValidateAppConfig (cfg : AppConfig) : outcome unit :=
  let n := Network cfg in
  _ ← reject (nc_LowWater n <? 0) (invalid_config "low_water must be non-negative");
  _ ← reject (nc_HighWater n <? nc_LowWater n) (invalid_config "high_water must be >= low_water");
  _ ← reject (nc_MaxConnections n <? nc_HighWater n) (invalid_config "max_connections must be >= high_water");
  _ ← reject (nc_DialTimeout n <=? 0) (invalid_config "dial_timeout must be positive");
  _ ← reject (nc_ConnectionTimeout n <=? 0) (invalid_config "connection_timeout must be positive");
  _ ← reject (nc_BootstrapTimeout n <=? 0) (invalid_config "bootstrap_timeout must be positive");
  _ ← reject (negb (bool_decide (nc_DHTMode n ∈ ["auto"; "client"; "server"]))) (invalid_config "invalid dht_mode");
  _ ← reject (nc_MaxStoredPeers n <? 10) (invalid_config "max_stored_peers must be >= 10");
  _ ← reject (nc_MinPeerConnections n <? 1) (invalid_config "min_peer_connections must be >= 1");
  _ ← reject (negb (bool_decide (lg_Level (Logging cfg) ∈ ["debug"; "info"; "warn"; "error"; ""]))) (invalid_config "invalid log level");
  _ ← reject (ChannelBufferSize (Messaging cfg) <? 1) (invalid_config "channel_buffer_size must be >= 1");
  _ ← reject (mc_MaxMessageSize (Mailbox cfg) =? 0) (invalid_config "max_message_size must be > 0");
  _ ← reject (MaxParticipants (RTC cfg) <? 2) (invalid_config "max_participants must be >= 2");
  reject (MaxDevices (Multidevice cfg) <? 1) (invalid_config "max_devices must be >= 1").

Section Validate.
Context {maddr : Type} (NewMultiaddr : string -> option maddr).

Definition validateMultiaddr (addr : string) : outcome unit :=
  _ ← wrapErr "invalid multiaddr" (ext "multiaddr" (NewMultiaddr addr)); Ok tt.

(** [for i, peer := range ...]: the first address that is refused. *)
Fixpoint validate_all (ctx : string) (l : list string) : outcome unit :=
  match l with
  | [] => Ok tt
  | addr :: l => _ ← wrapErr ctx (validateMultiaddr addr); validate_all ctx l
  end.

Definition Validate (c : IPFSConfig) : outcome unit :=
  _ ← validate_all "invalid bootstrap peer" (BootstrapPeers c);
  _ ← validate_all "invalid listen address" (ListenAddrs c);
  _ ← reject (LowWater c <? 0) (ErrText "low_water must be non-negative");
  _ ← reject (HighWater c <? LowWater c) (ErrText "high_water must be >= low_water");
  _ ← reject (MaxConnections c <? HighWater c) (ErrText "max_connections must be >= high_water");
  _ ← reject (BootstrapTimeout c <=? 0) (ErrText "bootstrap_timeout must be positive");
  _ ← reject (ConnectionTimeout c <=? 0) (ErrText "connection_timeout must be positive");
  _ ← reject (DialTimeout c <=? 0) (ErrText "dial_timeout must be positive");
  _ ← reject (negb (bool_decide (DHTMode c ∈ ["auto"; "client"; "server"]))) (ErrText "invalid dht_mode");
  _ ← reject (MaxStoredPeers c <? 10) (ErrText "max_stored_peers must be >= 10");
  reject (MinPeerConnections c <? 1) (ErrText "min_peer_connections must be >= 1").

Fixpoint parse_peers (l : list string) : outcome (list maddr) :=
  match l with
  | [] => Ok []
  | peerStr :: l =>
      ma ← wrapErr "invalid bootstrap peer" (ext "multiaddr" (NewMultiaddr peerStr));
      addrs ← parse_peers l; Ok (ma :: addrs)
  end.
Definition GetBootstrapPeerInfos (c : IPFSConfig) : outcome (list maddr) := parse_peers (BootstrapPeers c).

(** ** What a valid configuration is *)

Record valid_network (c : IPFSConfig) : Prop := {
  vn_water : 0 <= LowWater c <= HighWater c; vn_max : HighWater c <= MaxConnections c;
  vn_timeouts : 0 < BootstrapTimeout c /\ 0 < ConnectionTimeout c /\ 0 < DialTimeout c;
  vn_mode : DHTMode c ∈ ["auto"; "client"; "server"];
  vn_peers : 10 <= MaxStoredPeers c /\ 1 <= MinPeerConnections c;
}.
Record valid_app (c : AppConfig) : Prop := {
  va_network : valid_network (ToIPFSConfig c);
  va_level : lg_Level (Logging c) ∈ ["debug"; "info"; "warn"; "error"; ""];
  va_sizes : 1 <= ChannelBufferSize (Messaging c) /\ mc_MaxMessageSize (Mailbox c) <> 0;
  va_counts : 2 <= MaxParticipants (RTC c) /\ 1 <= MaxDevices (Multidevice c);
}.

Lemma reject_Ok b e : reject b e = Ok tt <-> b = false.
Proof. by destruct b. Qed.

Lemma reject_then b e (r : outcome unit) : (_ ← reject b e; r) = Ok tt <-> b = false /\ r = Ok tt.
Proof. destruct b; cbn; [by split; [|intros []]|tauto]. Qed.

Lemma not_decided (P : Prop) `{Decision P} : negb (bool_decide P) = false <-> P.
Proof. rewrite negb_false_iff. apply bool_decide_eq_true. Qed.

Lemma ValidateAppConfig_Ok c : ValidateAppConfig c = Ok tt <-> valid_app c.
Proof.
  unfold ValidateAppConfig. cbv zeta. rewrite !reject_then, reject_Ok, !not_decided. split.
  - intros H. decompose [and] H. repeat split; cbn; try done; lia.
  - intros [[] ? ? ?]. cbn in *. repeat split; try done; lia.
Qed.

Lemma validate_all_Ok ctx l : validate_all ctx l = Ok tt <-> Forall (fun a => is_Some (NewMultiaddr a)) l.
Proof.
  induction l as [|a l IH]; cbn; [by split|]. unfold validateMultiaddr. rewrite Forall_cons, <- IH.
  destruct (NewMultiaddr a) as [x|]; cbn; [|by split; [|intros [[] ?]]].
  assert (is_Some (Some x)) by done. tauto.
Qed.

Lemma Validate_Ok c : Validate c = Ok tt <->
  Forall (fun a => is_Some (NewMultiaddr a)) (BootstrapPeers c ++ ListenAddrs c) /\ valid_network c.
Proof.
  assert (forall ctx l (r : outcome unit), (_ ← validate_all ctx l; r) = Ok tt <-> validate_all ctx l = Ok tt /\ r = Ok tt) as Hb.
  { intros ctx l r. destruct (validate_all ctx l) as [[]| |]; cbn; [tauto|by split; [|intros []]..]. }
  unfold Validate. rewrite !Hb, !reject_then, reject_Ok, not_decided, !validate_all_Ok, Forall_app. split.
  - intros H. decompose [and] H. repeat split; try done; lia.
  - intros [[] []]. repeat split; try done; lia.
Qed.
End Validate.

(** What the program checks of its configuration is all that its node asks for, but for the addresses: a configuration is
    accepted exactly when it is well formed, and that of the node, made from it, is then accepted exactly when
    its addresses can be parsed. *)
Theorem config_checked {maddr} (NewMultiaddr : string -> option maddr) c :
  (ValidateAppConfig c = Ok tt <-> valid_app c) /\
  (ValidateAppConfig c = Ok tt ->
   Validate NewMultiaddr (ToIPFSConfig c) = Ok tt <->
   Forall (fun a => is_Some (NewMultiaddr a)) (nc_BootstrapPeers (Network c) ++ nc_ListenAddrs (Network c))).
Proof.
  split; [apply ValidateAppConfig_Ok|]. intros [Hn _ _ _]%ValidateAppConfig_Ok. rewrite Validate_Ok. cbn. tauto.
Qed.

Lemma config_checked_witness :
  ValidateAppConfig DefaultAppConfig = Ok tt /\ ToIPFSConfig DefaultAppConfig = DefaultIPFSConfig /\
  Validate Some DefaultIPFSConfig = Ok tt.
Proof.
  split; [reflexivity|]. split; [reflexivity|].
  apply (proj2 (config_checked Some DefaultAppConfig)); [reflexivity|]. repeat constructor; by eexists.
Defined.

(** The addresses of an accepted configuration are parsed later, and then one bad address fails all of them. *)
Theorem bad_address_accepted bad : exists c,
  ValidateAppConfig c = Ok tt /\ forall maddr (NewMultiaddr : string -> option maddr), NewMultiaddr bad = None ->
    is_Ok (Validate NewMultiaddr (ToIPFSConfig c)) = false /\ is_Ok (GetBootstrapPeerInfos NewMultiaddr (ToIPFSConfig c)) = false.
Proof.
  exists (DefaultAppConfig <| Network := Network DefaultAppConfig <| nc_BootstrapPeers := bad :: default_bootstrap_peers |> |>).
  split; [reflexivity|]. intros maddr f H.
  unfold Validate, GetBootstrapPeerInfos, ToIPFSConfig. cbn [BootstrapPeers nc_BootstrapPeers Network set_field validate_all parse_peers].
  unfold validateMultiaddr. by rewrite H.
Qed.
