(* ===== verification/Startup.v ===== *)
(** * cmd/messenger: starting up

    [main.go], over the components it puts together: where the data is, which
    configuration counts, the identity of the user, the peers remembered from one
    run to the next and the address book.  A peer id is its bytes, as in
    [libp2p]: [StoredPeer] is a [peer.AddrInfo] with an id that was not decoded.
    The logging and what a run opens and closes are in Run.v, the terminal is in
    Cli.v; flags, signals and what is printed are left out. *)
From S2P Require Import Prelude AppConfig.
From S2P Require Import GoText Primitives Proto Badger Runtime Files Float64 Metrics Node NodeInfo Storage PeerPrune PeerKey.
From S2P Require AddrBook Identity.
#[local] Open Scope Z_scope.

Definition DefaultDataDir : string := ".babylontower".
Definition peerSuccessThreshold : f64 := f64_lit 1 2.
Definition peerMaxAge : Z := 7 * DayNanos.
Definition SourceBootstrap : string := "bootstrap".

Definition getDataDir `{Files} `{HomeDir} (flagDir : string) : outcome string :=
  if negb (bool_decide (flagDir = "")) then Ok flagDir
  else
    homeDir ← (if bool_decide (HOME = "") then wrapErr "failed to get home directory" (ext "os" UserHomeDir) else Ok HOME);
    Ok (path_Join homeDir DefaultDataDir).

(** ** Configuration *)

(** The level the subsystems log at and that of libp2p. *)
Definition log_levels (flagLevel envLevel : string) : string * string :=
  let level := if bool_decide (flagLevel = "") then envLevel else flagLevel in
  let level := ToLower (if bool_decide (level = "") then "warn"%string else level) in
  (level, if bool_decide (level = "debug") then "warn"%string else "error"%string).

(** Flags override what was loaded; a configuration that is not valid is replaced as a whole. *)
Definition effective_config (logLevelFlag logFileFlag : string) (loaded : AppConfig.AppConfig) : AppConfig.AppConfig :=
  let l := AppConfig.Logging loaded in
  let l := if bool_decide (logLevelFlag = "") then l else l <| AppConfig.lg_Level := logLevelFlag |> in
  let l := if bool_decide (logFileFlag = "") then l else l <| AppConfig.lg_File := logFileFlag |> in
  let appConfig := loaded <| AppConfig.Logging := l |> in
  if is_Ok (AppConfig.ValidateAppConfig appConfig) then appConfig else AppConfig.DefaultAppConfig.

Lemma effective_config_valid level file loaded : AppConfig.valid_app (effective_config level file loaded).
Proof.
  apply AppConfig.ValidateAppConfig_Ok. unfold effective_config. cbv zeta.
  set (c := loaded <| AppConfig.Logging := _ |>).
  destruct (AppConfig.ValidateAppConfig c) as [[]| |] eqn:E; [exact E|reflexivity..].
Qed.

(** ** The identity *)

Section Identity.
Context `{P : Primitives} `{B : Identity.Bip39} {F : Files} `{!Codec Identity.IdentityFile}.

Definition loadOrCreateIdentity (identityPath : string) : GoM (Sys files) Identity.Identity :=
  f ← self;
  if Identity.IdentityExists identityPath f then lift (Identity.LoadIdentity identityPath f)
  else
    ident ← wrap "failed to generate identity" Identity.GenerateIdentity;
    _ ← on id (fun f _ => f) (wrap "failed to save identity" (Identity.SaveIdentity ident identityPath));
    mret ident.
End Identity.

(** ** Peers *)

Record StoredPeer `{L : Libp2p} := mkStoredPeer { sp_ID : bytes; sp_Addrs : list maddr }.
Arguments mkStoredPeer {L} sp_ID sp_Addrs.

#[export] Instance eta_PeerRecord : Eta PeerRecord := fun r =>
  mkPeerRecord (PeerID r) (Multiaddrs r) (FirstSeen r) (LastSeen r) (LastConnected r) (ConnectCount r) (FailCount r) (Source r)
    (Protocols r) (LatencyMs r).

Section Peers.
Context `{P : Primitives} {L : Libp2p} `{K : KV} `{!Codec PeerRecord}.
Abbreviation M := (GoM (Sys kv)).

Definition with_store {A} (m : GoM kv A) : M A := on id (fun d _ => d) m.

(** [libp2ppeer.ID(peer.PeerID)]: the text itself is the id. *)
Definition parsePeerRecord (peer : PeerRecord) : outcome StoredPeer :=
  let addrs := omap NewMultiaddr (Multiaddrs peer) in
  match addrs with
  | [] => Err (ErrText "no valid addresses for peer")
  | _ => Ok (mkStoredPeer (str (PeerID peer)) addrs)
  end.

Fixpoint filterGoodPeers (peers : list PeerRecord) : M (list StoredPeer) :=
  match peers with
  | [] => mret []
  | peer :: peers =>
      if f64_lt (SuccessRate peer) peerSuccessThreshold then filterGoodPeers peers
      else
        now ← time_now;
        if IsStale peerMaxAge now peer then filterGoodPeers peers
        else match parsePeerRecord peer with
             | Ok addrInfo => goodPeers ← filterGoodPeers peers; mret (addrInfo :: goodPeers)
             | _ => filterGoodPeers peers
             end
  end.

Definition loadAndConnectStoredPeers (maxStoredPeers : Z) : M (list StoredPeer) :=
  peers ← with_store (ListPeers maxStoredPeers);
  filterGoodPeers peers.

Definition getOrCreatePeerRecord (peer : PeerInfo) : M PeerRecord :=
  existing ← with_store (GetPeer (pi_ID peer));
  match existing with
  | Some existing => mret existing
  | None => now ← time_now; mret (mkPeerRecord (pi_ID peer) [] now now now 1 0 SourceBootstrap [] 0)
  end.

Definition updatePeerRecord (record : PeerRecord) (peer : PeerInfo) : M PeerRecord :=
  now ← time_now;
  mret (record <| LastSeen := now |> <| LastConnected := now |> <| ConnectCount := i64 (ConnectCount record + 1) |>
               <| Multiaddrs := pi_Addresses peer |> <| Protocols := pi_Protocols peer |>).

(** One round of the loop; an error of the store is logged. *)
Definition store_peer (peer : PeerInfo) : M unit := fun w =>
  match (record ← getOrCreatePeerRecord peer;
         record ← updatePeerRecord record peer;
         with_store (AddPeer record)) w with
  | (w', Panic) => (w', Panic)
  | (w', _) => (w', Ok tt)
  end.

Fixpoint store_peers (l : list PeerInfo) : M unit :=
  match l with
  | [] => mret tt
  | peer :: l => _ ← store_peer peer; store_peers l
  end.

Definition storeConnectedPeers (node : Node L) : M unit := store_peers (ni_ConnectedPeers (GetNetworkInfo node)).
End Peers.

(** ** The address book *)

Section AddrBook.
Context {F : Files} `{!Codec (list (option AddrBook.PeerRecord))} `{P : Primitives} {L : Libp2p}.

(** The book is made, its peers are connected to, and it is dropped. *)
Definition initializeAddrBook (order order' : list string) (dataDir : string) : GoM (Sys (files * Node L)) unit := fun w =>
  match AddrBook.NewAddrBook dataDir (obj w).1 with
  | Ok addrBook =>
      if (size (AddrBook.peers addrBook) =? 0)%nat then (w, Ok tt)
      else
        match AddrBook.ConnectToAll order order' (mkSys (env w) ((addrBook, (obj w).1), (obj w).2)) with
        | (w', Panic) => (mkSys (env w') ((obj w').1.2, (obj w').2), Panic)
        | (w', _) => (mkSys (env w') ((obj w').1.2, (obj w').2), Ok tt)
        end
  | Err e => (w, Err e)
  | Panic => (w, Panic)
  end.
End AddrBook.
