(* ===== verification/ConfigLoader.v ===== *)
(** * pkg/config: loading

    [LoadAppConfig] of [loader.go], call by call.  viper is outside the repository:
    [Viper] lists the functions that are called, and [ViperLaws] what is documented
    of them: which setting each changes, in what order a value is looked up, and
    that a field is set only if something is known under its key.  A configuration
    is seen as the list of its values by key ([values]). *)
From S2P Require Import Prelude GoText AppConfig.
#[local] Open Scope string_scope.
#[local] Open Scope Z_scope.

(** A value of a configuration and the type of a field; durations are numbers. *)
Inductive value := VString (s : string) | VInt (n : Z) | VBool (b : bool) | VStrings (l : list string).
Inductive kind := KString | KInt | KUint (bits : Z) | KDuration | KBool | KStrings.
Definition has_kind (k : kind) (v : value) : Prop :=
  match k, v with
  | KString, VString _ | KBool, VBool _ | KStrings, VStrings _ | KInt, VInt _ | KDuration, VInt _ => True
  | KUint bits, VInt n => 0 <= n < 2 ^ bits
  | _, _ => False
  end.

#[export] Instance kind_eq : EqDecision kind.
Proof. solve_decision. Defined.

(** The fields of [AppConfig] under the names of their tags. *)
Definition schema : list (string * kind) :=
  [("network.bootstrap_peers", KStrings); ("network.dial_timeout", KDuration); ("network.connection_timeout", KDuration);
   ("network.bootstrap_timeout", KDuration); ("network.max_connections", KInt); ("network.low_water", KInt);
   ("network.high_water", KInt); ("network.enable_relay", KBool); ("network.enable_hole_punching", KBool);
   ("network.enable_autonat", KBool); ("network.dht_mode", KString); ("network.dht_bootstrap_timeout", KDuration);
   ("network.listen_addrs", KStrings); ("network.protocol_id", KString); ("network.max_stored_peers", KInt);
   ("network.min_peer_connections", KInt); ("storage.path", KString); ("storage.in_memory", KBool);
   ("logging.level", KString); ("logging.file", KString); ("messaging.channel_buffer_size", KInt);
   ("mailbox.max_messages_per_target", KUint 32); ("mailbox.max_message_size", KUint 32); ("mailbox.max_total_bytes_per_target", KUint 64);
   ("mailbox.default_ttl", KDuration); ("mailbox.rate_limit_per_minute", KInt); ("rtc.call_timeout", KDuration);
   ("rtc.enable_video", KBool); ("rtc.max_participants", KInt); ("multidevice.device_name", KString);
   ("multidevice.max_devices", KInt); ("multidevice.sync_interval", KDuration); ("identity.dht_publish", KBool);
   ("identity.refresh_interval", KDuration)].

Definition values (c : AppConfig) : list (string * value) :=
  [("network.bootstrap_peers", VStrings (nc_BootstrapPeers (Network c))); ("network.dial_timeout", VInt (nc_DialTimeout (Network c)));
   ("network.connection_timeout", VInt (nc_ConnectionTimeout (Network c))); ("network.bootstrap_timeout", VInt (nc_BootstrapTimeout (Network c)));
   ("network.max_connections", VInt (nc_MaxConnections (Network c))); ("network.low_water", VInt (nc_LowWater (Network c)));
   ("network.high_water", VInt (nc_HighWater (Network c))); ("network.enable_relay", VBool (nc_EnableRelay (Network c)));
   ("network.enable_hole_punching", VBool (nc_EnableHolePunching (Network c))); ("network.enable_autonat", VBool (nc_EnableAutoNAT (Network c)));
   ("network.dht_mode", VString (nc_DHTMode (Network c))); ("network.dht_bootstrap_timeout", VInt (nc_DHTBootstrapTimeout (Network c)));
   ("network.listen_addrs", VStrings (nc_ListenAddrs (Network c))); ("network.protocol_id", VString (nc_ProtocolID (Network c)));
   ("network.max_stored_peers", VInt (nc_MaxStoredPeers (Network c))); ("network.min_peer_connections", VInt (nc_MinPeerConnections (Network c)));
   ("storage.path", VString (sc_Path (Storage c))); ("storage.in_memory", VBool (sc_InMemory (Storage c)));
   ("logging.level", VString (lg_Level (Logging c))); ("logging.file", VString (lg_File (Logging c)));
   ("messaging.channel_buffer_size", VInt (ChannelBufferSize (Messaging c))); ("mailbox.max_messages_per_target", VInt (mc_MaxMessagesPerTarget (Mailbox c)));
   ("mailbox.max_message_size", VInt (mc_MaxMessageSize (Mailbox c))); ("mailbox.max_total_bytes_per_target", VInt (mc_MaxTotalBytesPerTarget (Mailbox c)));
   ("mailbox.default_ttl", VInt (mc_DefaultTTL (Mailbox c))); ("mailbox.rate_limit_per_minute", VInt (RateLimitPerMinute (Mailbox c)));
   ("rtc.call_timeout", VInt (CallTimeout (RTC c))); ("rtc.enable_video", VBool (EnableVideo (RTC c)));
   ("rtc.max_participants", VInt (MaxParticipants (RTC c))); ("multidevice.device_name", VString (mdc_DeviceName (Multidevice c)));
   ("multidevice.max_devices", VInt (MaxDevices (Multidevice c))); ("multidevice.sync_interval", VInt (mdc_SyncInterval (Multidevice c)));
   ("identity.dht_publish", VBool (DHTPublish (Identity c))); ("identity.refresh_interval", VInt (RefreshInterval (Identity c)))].

(** The value of a field. *)
Definition find_value (key : string) (l : list (string * value)) : option value := (list_find (fun p => p.1 = key) l) ≫= fun p => Some p.2.2.
Definition field (key : string) (c : AppConfig) : option value := find_value key (values c).

(** ** viper *)

(** A file has values under the keys of the schema, a null being none; [scalars] are the sections
    that hold something else than fields. *)
Inductive read_result := NotFound | Failed (text : string) | Found (content : string -> option value) (scalars : list string).
Record search := mkSearch { config_name : string; config_type : string; config_file : string; config_paths : list string }.
#[export] Instance eta_search : Eta search := fun s => mkSearch (config_name s) (config_type s) (config_file s) (config_paths s).

(** What a viper was told. *)
Record settings := mkSettings {
  st_search : search; st_defaults : gmap string value; st_file : string -> option value; st_scalars : list string;
  st_prefix : string; st_replacer : string -> string; st_automatic : bool;
}.
#[export] Instance eta_settings : Eta settings := fun s =>
  mkSettings (st_search s) (st_defaults s) (st_file s) (st_scalars s) (st_prefix s) (st_replacer s) (st_automatic s).
Definition no_settings : settings := mkSettings (mkSearch "" "" "" []) ∅ (fun _ => None) [] "" id false.

Class Viper := {
  viper : Type;
  viper_New : viper;
  SetDefault : string -> value -> viper -> viper;
  SetConfigName : string -> viper -> viper;
  SetConfigType : string -> viper -> viper;
  SetConfigFile : string -> viper -> viper;
  AddConfigPath : string -> viper -> viper;
  ReadInConfig : viper -> viper * read_result;
  SetEnvPrefix : string -> viper -> viper;
  SetEnvKeyReplacer : (string -> string) -> viper -> viper;
  AutomaticEnv : viper -> viper;
  Unmarshal : AppConfig -> viper -> option AppConfig;
}.

(** The variable of a key, or of a section. *)
Definition env_key (s : settings) (key : string) : string := st_replacer s (ToUpper (st_prefix s +:+ "_" +:+ key)).

(** [network] of [network.dial_timeout]. *)
Fixpoint section_of (key : string) : string :=
  match key with String c key => if bool_decide (c = "."%char) then "" else String c (section_of key) | EmptyString => "" end.

Section Environment.
Variable Getenv : string -> option string.

(** An empty variable does not count. *)
Definition unset (variable : string) : Prop := Getenv variable = None \/ Getenv variable = Some "".

(** No variable has the value of a key, nor the name of its section, whose value would hide it. *)
Definition not_in_env (s : settings) (key : string) : Prop :=
  st_automatic s = true -> unset (env_key s key) /\ unset (env_key s (section_of key)).
End Environment.

(** [decode k old v] is [v] in a field of type [k] that has the value [old] (mapstructure). *)
Class ViperLaws (V : Viper) := {
  Getenv : string -> option string;
  read_file : search -> read_result;
  decode : kind -> value -> value -> option value;
  settings_of : viper -> settings;
  lookup_value : viper -> string -> option value;
  settings_New : settings_of viper_New = no_settings;
  settings_SetDefault key x v : key ∈ schema.*1 -> settings_of (SetDefault key x v) = settings_of v <| st_defaults := <[key := x]> (st_defaults (settings_of v)) |>;
  settings_SetConfigName name v : name <> "" ->
    settings_of (SetConfigName name v) = settings_of v <| st_search := st_search (settings_of v) <| config_name := name |> <| config_file := "" |> |>;
  settings_SetConfigType t v : t <> "" -> settings_of (SetConfigType t v) = settings_of v <| st_search := st_search (settings_of v) <| config_type := t |> |>;
  settings_SetConfigFile f v : f <> "" -> settings_of (SetConfigFile f v) = settings_of v <| st_search := st_search (settings_of v) <| config_file := f |> |>;
  settings_AddConfigPath p v : p <> "" -> config_paths (st_search (settings_of v)) = [] ->
    settings_of (AddConfigPath p v) = settings_of v <| st_search := st_search (settings_of v) <| config_paths := [p] |> |>;
  settings_ReadInConfig v : (ReadInConfig v).2 = read_file (st_search (settings_of v)) /\
    settings_of (ReadInConfig v).1 =
      match (ReadInConfig v).2 with
      | Found content scalars => settings_of v <| st_file := content |> <| st_scalars := scalars |>
      | _ => settings_of v
      end;
  settings_SetEnvPrefix p v : p <> "" -> settings_of (SetEnvPrefix p v) = settings_of v <| st_prefix := p |>;
  settings_SetEnvKeyReplacer f v : settings_of (SetEnvKeyReplacer f v) = settings_of v <| st_replacer := f |>;
  settings_AutomaticEnv v : settings_of (AutomaticEnv v) = settings_of v <| st_automatic := true |>;
  (* "Viper uses the following precedence order ... env, config, ..., default" *)
  lookup_env v key x : st_automatic (settings_of v) = true -> Getenv (env_key (settings_of v) key) = Some x -> x <> "" ->
    lookup_value v key = Some (VString x);
  lookup_file v key x : not_in_env Getenv (settings_of v) key -> st_file (settings_of v) key = Some x -> lookup_value v key = Some x;
  lookup_default v key : not_in_env Getenv (settings_of v) key -> st_file (settings_of v) key = None ->
    lookup_value v key = st_defaults (settings_of v) !! key;
  (* Only keys of the file and keys with a default are known; a variable alone does not make one. *)
  Unmarshal_fields v cfg cfg' : st_scalars (settings_of v) = [] -> Unmarshal cfg v = Some cfg' -> forall key k, (key, k) ∈ schema ->
    field key cfg' =
      match st_file (settings_of v) key, st_defaults (settings_of v) !! key, lookup_value v key with
      | None, None, _ | _, _, None => field key cfg
      | _, _, Some x => field key cfg ≫= fun old => decode k old x
      end;
  Unmarshal_fails v cfg : st_scalars (settings_of v) = [] -> Unmarshal cfg v = None -> exists key k x old,
    (key, k) ∈ schema /\ lookup_value v key = Some x /\ field key cfg = Some old /\ decode k old x = None;
  decode_same k x : has_kind k x -> decode k x x = Some x;
}.

(** ** Loading *)

Fixpoint strings_Contains (sub s : string) : bool :=
  HasPrefix s sub || match s with EmptyString => false | String _ s => strings_Contains sub s end.

(** [strings.NewReplacer(".", "_")]. *)
Definition dots_to_underscores : string -> string := map_string (fun c => if bool_decide (c = "."%char) then "_"%char else c).

Section Load.
Context `{V : Viper}.

Definition setViperDefaults (v : viper) : viper :=
  let d := DefaultAppConfig in
  let n := Network d in
  fold_left (fun v kx => SetDefault kx.1 kx.2 v)
   [("network.bootstrap_peers", VStrings (nc_BootstrapPeers n)); ("network.dial_timeout", VInt (nc_DialTimeout n));
    ("network.connection_timeout", VInt (nc_ConnectionTimeout n)); ("network.bootstrap_timeout", VInt (nc_BootstrapTimeout n));
    ("network.max_connections", VInt (nc_MaxConnections n)); ("network.low_water", VInt (nc_LowWater n));
    ("network.high_water", VInt (nc_HighWater n)); ("network.enable_relay", VBool (nc_EnableRelay n));
    ("network.enable_hole_punching", VBool (nc_EnableHolePunching n)); ("network.enable_autonat", VBool (nc_EnableAutoNAT n));
    ("network.dht_mode", VString (nc_DHTMode n)); ("network.dht_bootstrap_timeout", VInt (nc_DHTBootstrapTimeout n));
    ("network.listen_addrs", VStrings (nc_ListenAddrs n)); ("network.protocol_id", VString (nc_ProtocolID n));
    ("network.max_stored_peers", VInt (nc_MaxStoredPeers n)); ("network.min_peer_connections", VInt (nc_MinPeerConnections n));
    ("storage.path", VString (sc_Path (Storage d))); ("storage.in_memory", VBool (sc_InMemory (Storage d)));
    ("logging.level", VString (lg_Level (Logging d))); ("logging.file", VString (lg_File (Logging d)));
    ("messaging.channel_buffer_size", VInt (ChannelBufferSize (Messaging d)));
    ("mailbox.max_messages_per_target", VInt (mc_MaxMessagesPerTarget (Mailbox d))); ("mailbox.max_message_size", VInt (mc_MaxMessageSize (Mailbox d)));
    ("mailbox.max_total_bytes_per_target", VInt (mc_MaxTotalBytesPerTarget (Mailbox d))); ("mailbox.default_ttl", VInt (mc_DefaultTTL (Mailbox d)));
    ("mailbox.rate_limit_per_minute", VInt (RateLimitPerMinute (Mailbox d)));
    ("rtc.call_timeout", VInt (CallTimeout (RTC d))); ("rtc.enable_video", VBool (EnableVideo (RTC d)));
    ("rtc.max_participants", VInt (MaxParticipants (RTC d)));
    ("multidevice.device_name", VString (mdc_DeviceName (Multidevice d))); ("multidevice.max_devices", VInt (MaxDevices (Multidevice d)));
    ("multidevice.sync_interval", VInt (mdc_SyncInterval (Multidevice d)));
    ("identity.dht_publish", VBool (DHTPublish (Identity d))); ("identity.refresh_interval", VInt (RefreshInterval (Identity d)))] v.

(** An error whose text has "Not Found" in it is passed over, too. *)
Definition LoadAppConfig (dataDir configPath : string) : outcome AppConfig :=
  let v := setViperDefaults viper_New in
  let v := SetConfigType "yaml" (SetConfigName "config" v) in
  let v := if negb (bool_decide (configPath = "")) then SetConfigFile configPath v
           else if negb (bool_decide (dataDir = "")) then AddConfigPath dataDir v else v in
  let '(v, read) := ReadInConfig v in
  _ ← match read with
      | Failed text => if negb (strings_Contains "Not Found" text) then Err (ErrWrap "failed to read config file" (ErrExt "viper")) else Ok tt
      | _ => Ok tt
      end;
  let v := AutomaticEnv (SetEnvKeyReplacer dots_to_underscores (SetEnvPrefix "BABYLONTOWER" v)) in
  match Unmarshal DefaultAppConfig v with
  | Some cfg => Ok cfg
  | None => Err (ErrWrap "failed to unmarshal config" (ErrExt "viper"))
  end.

(** ** Where the values of a configuration come from *)

(** The variables of the environment, by key. *)
Definition variables : list (string * string) :=
  [("network.bootstrap_peers", "BABYLONTOWER_NETWORK_BOOTSTRAP_PEERS"); ("network.dial_timeout", "BABYLONTOWER_NETWORK_DIAL_TIMEOUT");
   ("network.connection_timeout", "BABYLONTOWER_NETWORK_CONNECTION_TIMEOUT"); ("network.bootstrap_timeout", "BABYLONTOWER_NETWORK_BOOTSTRAP_TIMEOUT");
   ("network.max_connections", "BABYLONTOWER_NETWORK_MAX_CONNECTIONS"); ("network.low_water", "BABYLONTOWER_NETWORK_LOW_WATER");
   ("network.high_water", "BABYLONTOWER_NETWORK_HIGH_WATER"); ("network.enable_relay", "BABYLONTOWER_NETWORK_ENABLE_RELAY");
   ("network.enable_hole_punching", "BABYLONTOWER_NETWORK_ENABLE_HOLE_PUNCHING"); ("network.enable_autonat", "BABYLONTOWER_NETWORK_ENABLE_AUTONAT");
   ("network.dht_mode", "BABYLONTOWER_NETWORK_DHT_MODE"); ("network.dht_bootstrap_timeout", "BABYLONTOWER_NETWORK_DHT_BOOTSTRAP_TIMEOUT");
   ("network.listen_addrs", "BABYLONTOWER_NETWORK_LISTEN_ADDRS"); ("network.protocol_id", "BABYLONTOWER_NETWORK_PROTOCOL_ID");
   ("network.max_stored_peers", "BABYLONTOWER_NETWORK_MAX_STORED_PEERS"); ("network.min_peer_connections", "BABYLONTOWER_NETWORK_MIN_PEER_CONNECTIONS");
   ("storage.path", "BABYLONTOWER_STORAGE_PATH"); ("storage.in_memory", "BABYLONTOWER_STORAGE_IN_MEMORY");
   ("logging.level", "BABYLONTOWER_LOGGING_LEVEL"); ("logging.file", "BABYLONTOWER_LOGGING_FILE");
   ("messaging.channel_buffer_size", "BABYLONTOWER_MESSAGING_CHANNEL_BUFFER_SIZE");
   ("mailbox.max_messages_per_target", "BABYLONTOWER_MAILBOX_MAX_MESSAGES_PER_TARGET"); ("mailbox.max_message_size", "BABYLONTOWER_MAILBOX_MAX_MESSAGE_SIZE");
   ("mailbox.max_total_bytes_per_target", "BABYLONTOWER_MAILBOX_MAX_TOTAL_BYTES_PER_TARGET"); ("mailbox.default_ttl", "BABYLONTOWER_MAILBOX_DEFAULT_TTL");
   ("mailbox.rate_limit_per_minute", "BABYLONTOWER_MAILBOX_RATE_LIMIT_PER_MINUTE"); ("rtc.call_timeout", "BABYLONTOWER_RTC_CALL_TIMEOUT");
   ("rtc.enable_video", "BABYLONTOWER_RTC_ENABLE_VIDEO"); ("rtc.max_participants", "BABYLONTOWER_RTC_MAX_PARTICIPANTS");
   ("multidevice.device_name", "BABYLONTOWER_MULTIDEVICE_DEVICE_NAME"); ("multidevice.max_devices", "BABYLONTOWER_MULTIDEVICE_MAX_DEVICES");
   ("multidevice.sync_interval", "BABYLONTOWER_MULTIDEVICE_SYNC_INTERVAL"); ("identity.dht_publish", "BABYLONTOWER_IDENTITY_DHT_PUBLISH");
   ("identity.refresh_interval", "BABYLONTOWER_IDENTITY_REFRESH_INTERVAL")].
Definition section_variables : list string :=
  ["BABYLONTOWER_NETWORK"; "BABYLONTOWER_STORAGE"; "BABYLONTOWER_LOGGING"; "BABYLONTOWER_MESSAGING"; "BABYLONTOWER_MAILBOX"; "BABYLONTOWER_RTC";
   "BABYLONTOWER_MULTIDEVICE"; "BABYLONTOWER_IDENTITY"].

Lemma find_value_in key v l : NoDup l.*1 -> (key, v) ∈ l <-> find_value key l = Some v.
Proof.
  unfold find_value. induction l as [|[k w] l IH]; cbn; [set_solver|]. intros [Hk Hl]%NoDup_cons. destruct (decide (k = key)) as [->|Hne].
  - cbn. rewrite elem_of_cons. split; [|intros [= ->]; by left].
    intros [[= ->]|Hin]; [done|]. exfalso. apply Hk, list_elem_of_fmap. by exists (key, v).
  - cbn. rewrite elem_of_cons. specialize (IH Hl). destruct (list_find _ l) as [[i p]|]; cbn in *; rewrite <- IH; split; try tauto; intros [[= <- <-]|]; done.
Qed.

Lemma keys_values c : (values c).*1 = schema.*1.
Proof. reflexivity. Qed.

Lemma schema_keys : NoDup schema.*1.
Proof. apply (bool_decide_unpack (NoDup schema.*1)). vm_compute. exact I. Qed.

Lemma schema_fun key k k' : (key, k) ∈ schema -> (key, k') ∈ schema -> k = k'.
Proof.
  intros [i Hi]%list_elem_of_lookup [j Hj]%list_elem_of_lookup.
  assert (i = j) as ->; [|rewrite Hi in Hj; by injection Hj].
  apply (NoDup_lookup schema.*1 i j key schema_keys); rewrite list_lookup_fmap; [by rewrite Hi|by rewrite Hj].
Qed.

#[export] Instance value_eq : EqDecision value.
Proof. solve_decision. Defined.

Lemma in_schema key k : (key, k) ∈ schema -> key ∈ schema.*1.
Proof. intros H. apply list_elem_of_fmap. by exists (key, k). Qed.

Context `{!ViperLaws V}.

Lemma SetDefaults_settings (l : list (string * value)) v : Forall (fun kx => kx.1 ∈ schema.*1) l ->
  settings_of (fold_left (fun v kx => SetDefault kx.1 kx.2 v) l v) =
    settings_of v <| st_defaults := fold_left (fun m kx => <[kx.1 := kx.2]> m) l (st_defaults (settings_of v)) |>.
Proof.
  intros H. revert v; induction H as [|[key x] l Hk Hl IH]; intros v; cbn [fold_left]; [by destruct (settings_of v)|].
  rewrite IH, settings_SetDefault by done. by destruct (settings_of v).
Qed.

(** Every field has a default, the one of [DefaultAppConfig]. *)
Lemma setViperDefaults_settings v : st_defaults (settings_of v) = ∅ -> exists m,
  settings_of (setViperDefaults v) = settings_of v <| st_defaults := m |> /\
  forall key, key ∈ schema.*1 -> m !! key = field key DefaultAppConfig.
Proof.
  intros Hv. unfold setViperDefaults. rewrite SetDefaults_settings.
  - rewrite Hv. eexists. split; [done|]. apply Forall_forall.
    apply (bool_decide_unpack (Forall (fun key => _ = _) schema.*1)). vm_compute. exact I.
  - apply (bool_decide_unpack (Forall (fun kx => kx.1 ∈ schema.*1) _)). vm_compute. exact I.
Qed.

(** What is read: the file that is named, or [config.yaml] of the directory. *)
Definition config_search (dataDir configPath : string) : search :=
  if bool_decide (configPath = "") then mkSearch "config" "yaml" "" (if bool_decide (dataDir = "") then [] else [dataDir])
  else mkSearch "config" "yaml" configPath [].
Definition content_of (r : read_result) : string -> option value := match r with Found content _ => content | _ => fun _ => None end.
Definition scalars_of (r : read_result) : list string := match r with Found _ scalars => scalars | _ => [] end.

Lemma LoadAppConfig_run dataDir configPath :
  let read := read_file (config_search dataDir configPath) in
  exists v m, settings_of v = mkSettings (config_search dataDir configPath) m (content_of read) (scalars_of read) "BABYLONTOWER" dots_to_underscores true /\
    (forall key, key ∈ schema.*1 -> m !! key = field key DefaultAppConfig) /\
    LoadAppConfig dataDir configPath =
      match read, Unmarshal DefaultAppConfig v with
      | Failed text, o => if strings_Contains "Not Found" text then match o with Some cfg => Ok cfg | None => Err (ErrWrap "failed to unmarshal config" (ErrExt "viper")) end
                          else Err (ErrWrap "failed to read config file" (ErrExt "viper"))
      | _, Some cfg => Ok cfg
      | _, None => Err (ErrWrap "failed to unmarshal config" (ErrExt "viper"))
      end.
Proof.
  intros read. unfold LoadAppConfig.
  destruct (setViperDefaults_settings viper_New) as (m & Hm & Hall); [by rewrite settings_New|]. rewrite settings_New in Hm.
  set (v1 := setViperDefaults viper_New) in *.
  set (v2 := if negb (bool_decide (configPath = "")) then _ else _).
  assert (settings_of v2 = mkSettings (config_search dataDir configPath) m (fun _ => None) [] "" id false) as Hv2.
  { unfold v2, config_search. case_bool_decide as Ec; cbn [negb]; [|by rewrite settings_SetConfigFile, settings_SetConfigType, settings_SetConfigName, Hm by done].
    case_bool_decide as Ed; cbn [negb]; [by rewrite settings_SetConfigType, settings_SetConfigName, Hm by done|].
    rewrite settings_AddConfigPath; [|done|]; by rewrite settings_SetConfigType, settings_SetConfigName, Hm by done. }
  destruct (settings_ReadInConfig v2) as [Hr Hs]. rewrite Hv2 in Hr. change ((ReadInConfig v2).2 = read) in Hr.
  destruct (ReadInConfig v2) as [v3 r]. cbn [fst snd] in Hr, Hs. rewrite Hr, Hv2 in Hs. rewrite Hr. clearbody read.
  exists (AutomaticEnv (SetEnvKeyReplacer dots_to_underscores (SetEnvPrefix "BABYLONTOWER" v3))), m.
  split; [|split; [exact Hall|]].
  - rewrite settings_AutomaticEnv, settings_SetEnvKeyReplacer, settings_SetEnvPrefix by done. rewrite Hs. by destruct read.
  - destruct read as [|text|content scalars]; cbn [mbind outcome_bind]; destruct (Unmarshal _ _); try done; by destruct (strings_Contains "Not Found" text).
Qed.

(** The names of the variables. *)
Lemma variables_named s key variable : st_prefix s = "BABYLONTOWER" -> st_replacer s = dots_to_underscores -> (key, variable) ∈ variables ->
  env_key s key = variable /\ env_key s (section_of key) ∈ section_variables.
Proof.
  intros Hp Hr. unfold env_key. rewrite Hp, Hr. revert key variable.
  assert (Forall (fun kv : string * string => dots_to_underscores (ToUpper ("BABYLONTOWER" +:+ "_" +:+ kv.1)) = kv.2 /\
    dots_to_underscores (ToUpper ("BABYLONTOWER" +:+ "_" +:+ section_of kv.1)) ∈ section_variables) variables) as H.
  { apply (bool_decide_unpack (Forall _ _)). vm_compute. exact I. }
  intros key variable Hin. exact (proj1 (Forall_forall _ _) H _ Hin).
Qed.

(** A value that is given for a field, by its variable or else by the file. *)
Inductive given (variable : string) (in_file : option value) : value -> Prop :=
  | given_by_variable x : Getenv variable = Some x -> x <> "" -> given variable in_file (VString x)
  | given_by_file x : unset Getenv variable -> in_file = Some x -> given variable in_file x.

Lemma given_dec variable in_file : (exists x, given variable in_file x) \/ forall x, ~ given variable in_file x.
Proof.
  destruct (Getenv variable) as [[|c t]|] eqn:E; [|left; eexists; by apply given_by_variable|].
  all: assert (unset Getenv variable) as Hu by (unfold unset; auto).
  all: destruct in_file as [x|]; [left; exists x; by apply given_by_file|right; intros x []; congruence].
Qed.

(** Keys have fields, with defaults of their types, and variables. *)
Lemma field_some key c : key ∈ schema.*1 -> is_Some (field key c).
Proof.
  rewrite <- (keys_values c). intros ([key' x] & -> & Hin)%list_elem_of_fmap. exists x. apply find_value_in; [|done].
  rewrite keys_values. apply schema_keys.
Qed.

Lemma default_kind key k d : (key, k) ∈ schema -> field key DefaultAppConfig = Some d -> has_kind k d.
Proof.
  revert key k d. assert (Forall (fun p : string * kind => exists x, field p.1 DefaultAppConfig = Some x /\ has_kind p.2 x) schema) as H.
  { unfold schema. repeat constructor; cbn [fst snd]; (eexists; split; [vm_compute; reflexivity|vm_compute; try exact I; by split]). }
  intros key k d Hin Hd. destruct (proj1 (Forall_forall _ _) H _ Hin) as (x & Hx & Hk). cbn in *. congruence.
Qed.

Lemma has_variable key : key ∈ schema.*1 -> exists variable, (key, variable) ∈ variables.
Proof.
  assert (schema.*1 = variables.*1) as -> by reflexivity. intros ([k variable] & -> & Hin)%list_elem_of_fmap. by exists variable.
Qed.

(** C34. Where the values of the configuration come from.  The file that is named, or config.yaml of the
    data directory, is read.  A field whose variable (BABYLONTOWER_NETWORK_DIAL_TIMEOUT and so on, by
    the table) is set has the value of the variable, converted to its type; or else the value of the
    file, converted; or else that of [DefaultAppConfig].  There is no configuration exactly
    when the file is there and cannot be read, or a value that is given cannot be converted.  No
    variable may have the name of a section, and the sections of the file must be mappings. *)
Theorem config_loaded dataDir configPath :
  let read := read_file (config_search dataDir configPath) in
  Forall (unset Getenv) section_variables -> scalars_of read = [] ->
  match LoadAppConfig dataDir configPath with
  | Ok cfg =>
      (forall text, read = Failed text -> strings_Contains "Not Found" text = true) /\
      forall key variable k default, (key, variable) ∈ variables -> (key, k) ∈ schema -> field key DefaultAppConfig = Some default ->
        (forall x, given variable (content_of read key) x -> exists y, decode k default x = Some y /\ field key cfg = Some y) /\
        ((forall x, ~ given variable (content_of read key) x) -> field key cfg = Some default)
  | Err _ =>
      (exists text, read = Failed text /\ strings_Contains "Not Found" text = false) \/
      exists key variable k default x, (key, variable) ∈ variables /\ (key, k) ∈ schema /\ field key DefaultAppConfig = Some default /\
        given variable (content_of read key) x /\ decode k default x = None
  | Panic => False
  end.
Proof.
  intros read Hsec Hsc. destruct (LoadAppConfig_run dataDir configPath) as (v & m & Hv & Hm & ->). fold read in Hv |- *.
  pose proof (Unmarshal_fields v DefaultAppConfig) as Hok. pose proof (Unmarshal_fails v DefaultAppConfig) as Hfail. rewrite Hv in Hok, Hfail. cbn [st_scalars st_file st_defaults] in Hok, Hfail.
  assert (forall key variable k, (key, variable) ∈ variables -> (key, k) ∈ schema ->
    (forall x, given variable (content_of read key) x -> lookup_value v key = Some x) /\
    ((forall x, ~ given variable (content_of read key) x) -> lookup_value v key = field key DefaultAppConfig)) as Hlook.
  { intros key variable k Hvar Hk. destruct (variables_named (settings_of v) key variable) as [Hn Hs]; [by rewrite Hv..|exact Hvar|].
    assert (unset Getenv variable -> not_in_env Getenv (settings_of v) key) as Hu.
    { intros H _. rewrite Hn. split; [exact H|]. exact (proj1 (Forall_forall _ _) Hsec _ Hs). }
    split.
    - intros x [y Hy Hne|y Hy Hf]; [apply lookup_env; [by rewrite Hv|by rewrite Hn|done]|apply lookup_file; [by apply Hu|by rewrite Hv]].
    - intros Hno. assert (unset Getenv variable) as Hun.
      { unfold unset. destruct (Getenv variable) as [[|c t]|] eqn:E; [by right| |by left]. exfalso. by eapply Hno, given_by_variable. }
      rewrite lookup_default; [rewrite Hv; cbn; by apply Hm, (in_schema _ k)|by apply Hu|].
      rewrite Hv. cbn. destruct (content_of read key) as [x|] eqn:E; [|done]. exfalso. by eapply Hno, given_by_file. }
  clearbody read.
  assert (forall cfg, Unmarshal DefaultAppConfig v = Some cfg -> forall key variable k default, (key, variable) ∈ variables -> (key, k) ∈ schema ->
    field key DefaultAppConfig = Some default ->
    (forall x, given variable (content_of read key) x -> exists y, decode k default x = Some y /\ field key cfg = Some y) /\
    ((forall x, ~ given variable (content_of read key) x) -> field key cfg = Some default)) as Hfields.
  { intros cfg Hcfg key variable k d Hvar Hk Hd. destruct (Hlook _ _ _ Hvar Hk) as [Hgiven Hdef].
    specialize (Hok cfg Hsc Hcfg key k Hk). rewrite (Hm key) in Hok by (by eapply in_schema). rewrite Hd in Hok. cbn [mbind option_bind] in Hok. split.
    - intros x Hx. rewrite (Hgiven x Hx) in Hok. destruct (field_some key cfg) as [y Hy]; [by eapply in_schema|].
      exists y. rewrite Hy in Hok |- *. split; [|reflexivity]. symmetry. destruct (content_of read key); exact Hok.
    - intros Hno. rewrite (Hdef Hno), Hd in Hok. rewrite (decode_same k d) in Hok by (by eapply default_kind). destruct (content_of read key); exact Hok. }
  assert (Unmarshal DefaultAppConfig v = None -> exists key variable k default x, (key, variable) ∈ variables /\ (key, k) ∈ schema /\
    field key DefaultAppConfig = Some default /\ given variable (content_of read key) x /\ decode k default x = None) as Hnone.
  { intros Hn. destruct (Hfail Hsc Hn) as (key & k & x & d & Hk & Hx & Hd & Hdec). destruct (has_variable key) as [variable Hvar]; [by eapply in_schema|].
    exists key, variable, k, d, x. split; [done|]. split; [done|]. split; [done|]. split; [|done]. destruct (Hlook _ _ _ Hvar Hk) as [Hgiven Hdef].
    destruct (given_dec variable (content_of read key)) as [[y Hy]|Hno]; [by rewrite (Hgiven y Hy) in Hx; simplify_eq|].
    rewrite (Hdef Hno), Hd in Hx. simplify_eq. by rewrite (decode_same k x) in Hdec by (by eapply default_kind). }
  destruct read as [|text|content scalars], (Unmarshal DefaultAppConfig v) as [cfg|];
    try (destruct (strings_Contains "Not Found" text) eqn:Et); try (right; by apply Hnone); try (left; by exists text); (split; [|by apply Hfields]); intros ? [=]; by subst.
Qed.
End Load.

(** ** Example: a viper that keeps its settings, with a variable, a file and the defaults *)
Module LoaderDemo.
Definition string_at (get : string -> option value) (key : string) : option string := match get key with Some (VString s) => Some s | _ => None end.
Definition int_at (get : string -> option value) (key : string) : option Z := match get key with Some (VInt n) => Some n | _ => None end.
Definition bool_at (get : string -> option value) (key : string) : option bool := match get key with Some (VBool b) => Some b | _ => None end.
Definition strings_at (get : string -> option value) (key : string) : option (list string) :=
  match get key with Some (VStrings l) => Some l | _ => None end.

Definition of_values (get : string -> option value) : option AppConfig :=
  network_0 ← strings_at get "network.bootstrap_peers";
  network_1 ← int_at get "network.dial_timeout";
  network_2 ← int_at get "network.connection_timeout";
  network_3 ← int_at get "network.bootstrap_timeout";
  network_4 ← int_at get "network.max_connections";
  network_5 ← int_at get "network.low_water";
  network_6 ← int_at get "network.high_water";
  network_7 ← bool_at get "network.enable_relay";
  network_8 ← bool_at get "network.enable_hole_punching";
  network_9 ← bool_at get "network.enable_autonat";
  network_10 ← string_at get "network.dht_mode";
  network_11 ← int_at get "network.dht_bootstrap_timeout";
  network_12 ← strings_at get "network.listen_addrs";
  network_13 ← string_at get "network.protocol_id";
  network_14 ← int_at get "network.max_stored_peers";
  network_15 ← int_at get "network.min_peer_connections";
  storage_0 ← string_at get "storage.path";
  storage_1 ← bool_at get "storage.in_memory";
  logging_0 ← string_at get "logging.level";
  logging_1 ← string_at get "logging.file";
  messaging_0 ← int_at get "messaging.channel_buffer_size";
  mailbox_0 ← int_at get "mailbox.max_messages_per_target";
  mailbox_1 ← int_at get "mailbox.max_message_size";
  mailbox_2 ← int_at get "mailbox.max_total_bytes_per_target";
  mailbox_3 ← int_at get "mailbox.default_ttl";
  mailbox_4 ← int_at get "mailbox.rate_limit_per_minute";
  rtc_0 ← int_at get "rtc.call_timeout";
  rtc_1 ← bool_at get "rtc.enable_video";
  rtc_2 ← int_at get "rtc.max_participants";
  multidevice_0 ← string_at get "multidevice.device_name";
  multidevice_1 ← int_at get "multidevice.max_devices";
  multidevice_2 ← int_at get "multidevice.sync_interval";
  identity_0 ← bool_at get "identity.dht_publish";
  identity_1 ← int_at get "identity.refresh_interval";
  Some (mkAppConfig
    (mkNetworkConfig network_0 network_1 network_2 network_3 network_4 network_5 network_6 network_7 network_8
      network_9 network_10 network_11 network_12 network_13 network_14 network_15)
    (mkStorageConfig storage_0 storage_1)
    (mkLoggingConfig logging_0 logging_1)
    (mkMessagingConfig messaging_0)
    (mkMailboxConfig mailbox_0 mailbox_1 mailbox_2 mailbox_3 mailbox_4)
    (mkRTCConfig rtc_0 rtc_1 rtc_2)
    (mkMultideviceConfig multidevice_0 multidevice_1 multidevice_2)
    (mkIdentityConfig identity_0 identity_1)).

Lemma at_kinds get key :
  (forall s, string_at get key = Some s <-> get key = Some (VString s)) /\ (forall n, int_at get key = Some n <-> get key = Some (VInt n)) /\
  (forall b, bool_at get key = Some b <-> get key = Some (VBool b)) /\ (forall l, strings_at get key = Some l <-> get key = Some (VStrings l)).
Proof.
  unfold string_at, int_at, bool_at, strings_at. destruct (get key) as [[]|]; repeat split; intros [=]; by subst.
Qed.

Ltac read_values :=
  repeat match goal with
  | |- context [string_at ?g ?k] => let E := fresh in destruct (string_at g k) eqn:E; [apply (proj1 (at_kinds g k)) in E|done]; cbn
  | |- context [int_at ?g ?k] => let E := fresh in destruct (int_at g k) eqn:E; [apply (proj1 (proj2 (at_kinds g k))) in E|done]; cbn
  | |- context [bool_at ?g ?k] => let E := fresh in destruct (bool_at g k) eqn:E; [apply (proj1 (proj2 (proj2 (at_kinds g k)))) in E|done]; cbn
  | |- context [strings_at ?g ?k] => let E := fresh in destruct (strings_at g k) eqn:E; [apply (proj2 (proj2 (proj2 (at_kinds g k)))) in E|done]; cbn
  end.

Lemma of_values_spec get c : of_values get = Some c -> Forall (fun p => get p.1 = Some p.2) (values c).
Proof. unfold of_values. read_values. intros [= <-]. unfold values. repeat constructor; assumption. Qed.


(** The form of a value, whatever its range. *)
Definition shape (k : kind) (v : value) : Prop :=
  match k, v with
  | KString, VString _ | KBool, VBool _ | KStrings, VStrings _ | KInt, VInt _ | KDuration, VInt _ | KUint _, VInt _ => True
  | _, _ => False
  end.

Ltac have_kind H key k :=
  let v := fresh in let E := fresh in let K := fresh in
  destruct (H key k) as (v & E & K); [apply (bool_decide_unpack ((key, k) ∈ schema)); vm_compute; exact I|];
  destruct v; try (exfalso; exact K);
  first [rewrite (proj2 (proj1 (at_kinds _ _) _) E) | rewrite (proj2 (proj1 (proj2 (at_kinds _ _)) _) E)
        | rewrite (proj2 (proj1 (proj2 (proj2 (at_kinds _ _))) _) E) | rewrite (proj2 (proj2 (proj2 (proj2 (at_kinds _ _))) _) E)];
  cbn [mbind option_bind].

Lemma of_values_total get :
  (forall key k, (key, k) ∈ schema -> exists v, get key = Some v /\ shape k v) -> is_Some (of_values get).
Proof.
  intros H. unfold of_values.
  repeat match goal with
  | |- context [string_at get ?key] => have_kind H key KString
  | |- context [strings_at get ?key] => have_kind H key KStrings
  | |- context [bool_at get ?key] => have_kind H key KBool
  | |- context [int_at get ?key] => first [have_kind H key KInt | have_kind H key KDuration | have_kind H key (KUint 32) | have_kind H key (KUint 64)]
  end.
  by eexists.
Qed.

Lemma field_shape key k c : (key, k) ∈ schema -> exists v, field key c = Some v /\ shape k v.
Proof.
  revert key k. assert (Forall (fun p : string * kind => exists x, field p.1 c = Some x /\ shape p.2 x) schema) as H.
  { unfold schema. repeat constructor; cbn [fst snd]; (eexists; split; [vm_compute; reflexivity|exact I]). }
  intros key k Hin. exact (proj1 (Forall_forall _ _) H _ Hin).
Qed.

Definition kind_ok (k : kind) (v : value) : bool :=
  match k, v with
  | KString, VString _ | KBool, VBool _ | KStrings, VStrings _ | KInt, VInt _ | KDuration, VInt _ => true
  | KUint bits, VInt n => (0 <=? n) && (n <? 2 ^ bits)
  | _, _ => false
  end.
Lemma kind_ok_spec k v : kind_ok k v = true <-> has_kind k v.
Proof. destruct k, v; cbn; rewrite ?andb_true_iff, ?Z.leb_le, ?Z.ltb_lt; done. Qed.

(** A text is converted to a number, as in [BABYLONTOWER_NETWORK_MAX_CONNECTIONS=100]. *)
Definition convert (k : kind) (v : value) : option value :=
  let v := match k, v with KInt, VString s => VInt <$> scanNumber s | _, _ => Some v end in
  v ← v; if kind_ok k v then Some v else None.

Definition getenv (name : string) : option string := if bool_decide (name = "BABYLONTOWER_NETWORK_MAX_CONNECTIONS") then Some "450" else None.
Definition config_yaml : read_result :=
  Found (fun key => if bool_decide (key = "logging.level") then Some (VString "debug")
                    else if bool_decide (key = "network.max_connections") then Some (VInt 500) else None) [].
Definition lookup_in (s : settings) (key : string) : option value :=
  match (if st_automatic s then getenv (env_key s key) else None) with
  | Some (String c x) => Some (VString (String c x))
  | _ => match st_file s key with Some x => Some x | None => st_defaults s !! key end
  end.

(** What a field becomes. *)
Definition decode_field (s : settings) (cfg : AppConfig) (key : string) (k : kind) : option value :=
  match st_file s key, st_defaults s !! key, lookup_in s key with
  | None, None, _ | _, _, None => field key cfg
  | _, _, Some x => field key cfg ≫= fun _ => convert k x
  end.
Definition unmarshal_settings (cfg : AppConfig) (s : settings) : option AppConfig :=
  l ← mapM (fun p : string * kind => y ← decode_field s cfg p.1 p.2; Some (p.1, y)) schema;
  of_values (fun key => find_value key l).

#[export] Instance simple_viper : Viper := {|
  viper := settings; viper_New := no_settings;
  SetDefault key x s := s <| st_defaults := <[key := x]> (st_defaults s) |>;
  SetConfigName name s := s <| st_search := st_search s <| config_name := name |> <| config_file := "" |> |>;
  SetConfigType t s := s <| st_search := st_search s <| config_type := t |> |>;
  SetConfigFile f s := s <| st_search := st_search s <| config_file := f |> |>;
  AddConfigPath p s := s <| st_search := st_search s <| config_paths := [p] |> |>;
  ReadInConfig s := match config_yaml with
                    | Found content scalars => (s <| st_file := content |> <| st_scalars := scalars |>, config_yaml)
                    | _ => (s, config_yaml) end;
  SetEnvPrefix p s := s <| st_prefix := p |>; SetEnvKeyReplacer f s := s <| st_replacer := f |>; AutomaticEnv s := s <| st_automatic := true |>;
  Unmarshal := unmarshal_settings;
|}.

Lemma decode_field_shape s cfg key k : (key, k) ∈ schema -> forall y, decode_field s cfg key k = Some y -> shape k y.
Proof.
  intros Hin y. destruct (field_shape key k cfg Hin) as (old & Hold & Hs). unfold decode_field. rewrite Hold. cbn [mbind option_bind].
  assert (forall x y, convert k x = Some y -> shape k y) as Hconv.
  { clear. intros x y. unfold convert. cbv zeta. destruct (match k with KInt => _ | _ => _ end) as [w|]; cbn; [|done].
    destruct (kind_ok k w) eqn:E; [|done]. intros [= <-]. apply kind_ok_spec in E. by destruct k, w. }
  assert (Some old = Some y -> shape k y) as Ho by (intros [= <-]; exact Hs).
  destruct (st_file s key), (st_defaults s !! key), (lookup_in s key); eauto.
Qed.

Lemma unmarshal_fields s cfg cfg' : unmarshal_settings cfg s = Some cfg' -> forall key k, (key, k) ∈ schema -> field key cfg' = decode_field s cfg key k.
Proof.
  unfold unmarshal_settings. destruct (mapM _ schema) as [l|] eqn:El; cbn [mbind option_bind]; [|done]. intros Hc key k Hin.
  destruct (field_some key cfg') as [y Hy]; [by eapply in_schema|]. rewrite Hy.
  assert (find_value key l = Some y) as Hf.
  { apply find_value_in in Hy; [|rewrite keys_values; apply schema_keys]. exact (proj1 (Forall_forall _ _) (of_values_spec _ _ Hc) _ Hy). }
  apply mapM_Some_1 in El. assert (l.*1 = schema.*1) as Hkeys.
  { clear -El. induction El as [|p q sch l Hp Hl IH]; [done|]. cbn. rewrite IH. destruct (decode_field _ _ _ _); cbn in Hp; [by simplify_eq|done]. }
  apply find_value_in in Hf; [|rewrite Hkeys; apply schema_keys].
  destruct (Forall2_elem_of_l _ _ _ _ (proj2 (Forall2_flip _ _ _) El) Hf) as ([key' k'] & Hin' & E). unfold flip in E. cbn [fst snd] in E.
  destruct (decode_field s cfg key' k') as [z|] eqn:Ez; cbn in E; [|done]. simplify_eq. by rewrite (schema_fun _ _ _ Hin Hin').
Qed.

Lemma unmarshal_fails s cfg : unmarshal_settings cfg s = None -> exists key k x old,
  (key, k) ∈ schema /\ lookup_in s key = Some x /\ field key cfg = Some old /\ convert k x = None.
Proof.
  unfold unmarshal_settings. destruct (mapM _ schema) as [l|] eqn:El; cbn [mbind option_bind].
  - intros Hn. exfalso. apply mapM_Some_1 in El. assert (l.*1 = schema.*1) as Hkeys.
    { clear -El. induction El as [|p q sch l Hp Hl IH]; [done|]. cbn. rewrite IH. destruct (decode_field _ _ _ _); cbn in Hp; [by simplify_eq|done]. }
    destruct (of_values_total (fun key => find_value key l)) as [c Hc]; [|by rewrite Hc in Hn].
    intros key k Hin. destruct (Forall2_elem_of_l _ _ _ _ El Hin) as ([key' y] & Hy & E). cbn [fst snd] in E.
    destruct (decode_field s cfg key k) as [z|] eqn:Ez; cbn in E; [|done]. simplify_eq. exists y.
    split; [apply find_value_in; [rewrite Hkeys; apply schema_keys|done]|by eapply decode_field_shape].
  - intros _. apply mapM_None_1, Exists_exists in El as ([key k] & Hin & E). cbn [fst snd] in E.
    destruct (field_shape key k cfg Hin) as (old & Hold & _).
    destruct (decode_field s cfg key k) as [z|] eqn:Ez; cbn in E; [done|]. unfold decode_field in Ez. rewrite Hold in Ez. cbn [mbind option_bind] in Ez.
    exists key, k. destruct (lookup_in s key) as [x|] eqn:Ex; [|by destruct (st_file s key), (st_defaults s !! key)].
    exists x, old. split; [done|]. split; [done|]. split; [done|]. by destruct (st_file s key), (st_defaults s !! key).
Qed.

#[export] Program Instance simple_viper_laws : ViperLaws simple_viper := {|
  Getenv := getenv; read_file _ := config_yaml; decode k _ x := convert k x; settings_of s := s; lookup_value := lookup_in;
|}.
Solve Obligations with try done.
Next Obligation. intros s key x Ha Hx Hne. cbn in *. unfold lookup_in. rewrite Ha, Hx. by destruct x. Qed.
Next Obligation.
  intros s key x Hn Hf. cbn in *. unfold lookup_in. destruct (st_automatic s) eqn:Ha; [|by rewrite Hf].
  destruct (Hn Ha) as [[->| ->] _]; by rewrite Hf.
Qed.
Next Obligation.
  intros s key Hn Hf. cbn in *. unfold lookup_in. destruct (st_automatic s) eqn:Ha; [|by rewrite Hf].
  destruct (Hn Ha) as [[->| ->] _]; by rewrite Hf.
Qed.
Next Obligation. intros s cfg cfg' _ H key k Hin. exact (unmarshal_fields s cfg cfg' H key k Hin). Qed.
Next Obligation. intros s cfg _ H. exact (unmarshal_fails s cfg H). Qed.
Next Obligation. intros k x H. cbn. unfold convert. apply kind_ok_spec in H. destruct k, x; cbn in *; try done; by rewrite H. Qed.

Definition loaded : AppConfig := match LoadAppConfig "" "" with Ok c => c | _ => DefaultAppConfig end.
Example loaded_values :
  LoadAppConfig "" "" = Ok loaded /\ nc_MaxConnections (Network loaded) = 450 /\ lg_Level (Logging loaded) = "debug" /\ MaxDevices (Multidevice loaded) = 5.
Proof. vm_compute. done. Qed.
End LoaderDemo.
Import LoaderDemo.

(** The level is that of the file, the number of devices the default. *)
Lemma config_loaded_witness : exists cfg, LoadAppConfig "" "" = Ok cfg /\
  field "logging.level" cfg = Some (VString "debug") /\ field "multidevice.max_devices" cfg = Some (VInt 5).
Proof.
  exists loaded. split; [exact (proj1 loaded_values)|].
  assert (Forall (unset getenv) section_variables) as Hs by (repeat constructor).
  pose proof (config_loaded "" "" Hs eq_refl) as H. rewrite (proj1 loaded_values) in H. destruct H as [_ H]. split.
  - destruct (H "logging.level" "BABYLONTOWER_LOGGING_LEVEL" KString (VString "warn")) as [Hg _];
      [apply (bool_decide_unpack (_ ∈ variables)); vm_compute; exact I|apply (bool_decide_unpack (_ ∈ schema)); vm_compute; exact I|reflexivity|].
    destruct (Hg (VString "debug")) as (y & Hy & ->); [apply given_by_file; [by left|reflexivity]|]. exact (eq_sym Hy).
  - destruct (H "multidevice.max_devices" "BABYLONTOWER_MULTIDEVICE_MAX_DEVICES" KInt (VInt 5)) as [_ Hd];
      [apply (bool_decide_unpack (_ ∈ variables)); vm_compute; exact I|apply (bool_decide_unpack (_ ∈ schema)); vm_compute; exact I|reflexivity|].
    apply Hd. intros x []; discriminate.
Defined.
