(* ===== verification/Run.v ===== *)
(** * cmd/messenger: a run of the program

    [configureLogging] and [run] of [main.go].  go-log is outside the repository:
    it has loggers, each made under a name by the package that uses it, and sets
    the level of the logger of a name ([Logs]).  Of the stages of [run], modelled in
    Startup.v and the files of their packages, only the outcome matters here
    ([Stages]); a run is the list of what it opens and closes, deferred calls being
    made in whatever way the function ends. *)
From S2P Require Import Prelude GoText Startup.
#[local] Open Scope string_scope.

(** ** Logging *)

Class Logs := {
  log_state : Type;
  SetupLogging : string -> log_state -> log_state;
  SetLogLevel : string -> string -> log_state -> option log_state;
}.

(** A level is set for a name only if there is a logger of that name, and no logger is made. *)
Class LogsLaws (L : Logs) := {
  has_logger : string -> log_state -> Prop;
  SetLogLevel_unknown name level s : ~ has_logger name s -> SetLogLevel name level s = None;
  SetLogLevel_loggers name level s s' n : SetLogLevel name level s = Some s' -> has_logger n s' -> has_logger n s;
  SetupLogging_loggers file s n : has_logger n (SetupLogging file s) -> has_logger n s;
}.

Definition btSubsystems : list string :=
  ["babylontower"; "babylontower/cli"; "babylontower/storage"; "babylontower/messaging"; "babylontower/ipfsnode"; "babylontower/identity";
   "babylontower/peerstore"; "babylontower/rtc"; "babylontower/multidevice"; "babylontower/groups"; "babylontower/mailbox";
   "babylontower/reputation"; "babylontower/protocol"; "babylontower/ratchet"; "babylontower/recovery"].
Definition libp2pSubsystems : list string := ["dht"; "pubsub"; "swarm2"; "relay"; "autonat"; "connmgr"; "basichost"; "net/identify"].

Section Logging.
Context `{L : Logs}.

Fixpoint set_levels (names : list string) (level : string) : GoM log_state unit :=
  match names with
  | [] => mret tt
  | name :: names =>
      s ← get;
      match SetLogLevel name level s with
      | Some s => _ ← put s; set_levels names level
      | None => throw (ErrWrap "failed to set log level for %s" (ErrExt "go-log"))
      end
  end.

(** Errors do not matter. *)
Fixpoint try_levels (names : list string) (level : string) : GoM log_state unit :=
  match names with
  | [] => mret tt
  | name :: names => _ ← modify (fun s => default s (SetLogLevel name level s)); try_levels names level
  end.

Definition configureLogging (envLevel envFile flagLevel flagFile : string) : GoM log_state unit :=
  let '(level, libp2pLevel) := log_levels flagLevel envLevel in
  _ ← modify (SetupLogging (if bool_decide (flagFile = "") then envFile else flagFile));
  _ ← set_levels btSubsystems level;
  try_levels libp2pSubsystems libp2pLevel.

Lemma set_levels_unknown `{!LogsLaws L} name names level s :
  name ∈ names -> ~ has_logger name s -> exists s' e, set_levels names level s = (s', Err e).
Proof.
  revert s; induction names as [|n names IH]; intros s Hin Hn; [by apply not_elem_of_nil in Hin|].
  cbn [set_levels]. unfold get, put, throw, mbind, GoM_bind. destruct (SetLogLevel n level s) as [s'|] eqn:E; [|by eexists _, _].
  apply elem_of_cons in Hin as [<-|Hin]; [by rewrite SetLogLevel_unknown in E|].
  apply IH; [done|]. intros H. by eapply Hn, SetLogLevel_loggers.
Qed.
End Logging.

(** ** The run *)

(** [ipfsNode.Start()] is two stages: until its host is made, and after, when an error leaves the
    host open ([failed_start_leaks] of Bootstrap.v). *)
Inductive stage :=
  | DataDir | MakeDir | LoadConfig | LoadUser | OpenStorage | CreateNode | MakeHost | JoinNetwork | StartMessaging | CreateTerminal | RunTerminal | StopTerminal
  | StoredPeers | WaitDHT | StorePeers | KnownPeers.
Inductive resource := TheStorage | TheNode | TheService | TheTerminal.
Inductive action := Opened (r : resource) | Closed (r : resource).

Section Run.
Variable logging : outcome unit.
Variable stages : stage -> outcome unit.
Abbreviation M := (GoM (list action)).

Definition note (a : action) : M unit := modify (fun t => (t ++ [a])%list).
Definition step (ctx : string) (s : stage) : M unit := wrap ctx (lift (stages s)).

(** A stage whose error is only logged. *)
Definition attempt (s : stage) : M unit := lift (match stages s with Err _ => Ok tt | r => r end).

Definition deferred (r : resource) (m : M unit) : M unit := fun t => let '(t, o) := m t in ((t ++ [Closed r])%list, o).

(** The terminal's goroutines run from the beginning of [cliApp.Start]. *)
Definition terminal : M unit :=
  _ ← step "failed to create CLI" CreateTerminal;
  _ ← note (Opened TheTerminal);
  _ ← step "CLI error" RunTerminal;
  _ ← attempt StopTerminal;
  note (Closed TheTerminal).

Definition run : M unit :=
  _ ← wrap "failed to setup logging" (lift logging);
  _ ← lift (stages DataDir);
  _ ← step "failed to create data directory" MakeDir;
  _ ← step "failed to load config" LoadConfig;
  _ ← step "failed to load identity" LoadUser;
  _ ← step "failed to initialize storage" OpenStorage;
  _ ← note (Opened TheStorage);
  deferred TheStorage
    (_ ← attempt StoredPeers;
     _ ← step "failed to create IPFS node" CreateNode;
     _ ← step "failed to start IPFS node" MakeHost;
     _ ← note (Opened TheNode);
     _ ← step "failed to start IPFS node" JoinNetwork;
     deferred TheNode
       (_ ← attempt WaitDHT;
        _ ← attempt StorePeers;
        _ ← attempt KnownPeers;
        _ ← step "failed to start messaging service" StartMessaging;
        _ ← note (Opened TheService);
        deferred TheService terminal)).

Definition all_resources : list resource := [TheStorage; TheNode; TheService; TheTerminal].

#[local] Instance resource_eq : EqDecision resource.
Proof. solve_decision. Defined.

(** What a run leaves open: a node whose start failed after its host was made, and a terminal whose
    loop did not end well. *)
Definition left_open : list resource :=
  ((if is_Ok (stages JoinNetwork) then [] else [TheNode]) ++
   match stages RunTerminal, stages StopTerminal with Ok _, Ok _ | Ok _, Err _ => [] | _, _ => [TheTerminal] end)%list.
Definition to_close (l : list resource) : list resource := filter (fun r => r ∉ left_open) l.

(** A stage ends the run with the first [n] resources, or it goes on. *)
Ltac ends n :=
  exists n; split; [|done];
  repeat match goal with |- context [match stages ?s with _ => _ end] => destruct (stages s) as [[]|?|] end; reflexivity.
Ltac go s n := destruct (stages s) as [[]|?|]; cbn; [|ends n..].
Ltac goes_on s := destruct (stages s) as [[]|?|]; cbn.

(** C32. However a run ends, with an error or a panic too, it has opened some of the storage, the node, the
    messaging service and the terminal, in this order, and closed them in the reverse order.  Left
    open are a node whose start failed after its host was made, and a terminal whose loop did not
    end well; nothing else.  A run that succeeds has opened and closed everything. *)
Theorem run_cleans_up :
  exists n, (run []).1 = ((Opened <$> take n all_resources) ++ (Closed <$> rev (to_close (take n all_resources))))%list /\
    ((run []).2 = Ok tt -> n = 4%nat /\ left_open = []).
Proof.
  unfold run, terminal, deferred, step, attempt, note, to_close, left_open, is_Ok.
  go_run. destruct logging as [[]|e|]; cbn; [|ends 0%nat..]. go DataDir 0%nat. go MakeDir 0%nat. go LoadConfig 0%nat. go LoadUser 0%nat.
  go OpenStorage 0%nat. goes_on StoredPeers; [| |ends 1%nat].
  all: go CreateNode 1%nat; go MakeHost 1%nat; go JoinNetwork 2%nat.
  all: goes_on WaitDHT; [| |ends 2%nat].
  all: goes_on StorePeers; [| |ends 2%nat].
  all: goes_on KnownPeers; [| |ends 2%nat].
  all: go StartMessaging 2%nat; go CreateTerminal 3%nat; go RunTerminal 4%nat.
  all: goes_on StopTerminal; exists 4%nat; by split.
Qed.
End Run.

(** C31. The program never starts: the level of the subsystem of groups is set, but none of its packages makes
    a logger of that name, which go-log answers with an error.  Whatever the flags, the environment and
    the stages, the run ends with this error and opens nothing. *)
Theorem messenger_never_starts `{LogsLaws} envLevel envFile flagLevel flagFile s stages :
  ~ has_logger "babylontower/groups" s ->
  exists e, run (configureLogging envLevel envFile flagLevel flagFile s).2 stages [] = ([], Err (ErrWrap "failed to setup logging" e)).
Proof.
  intros Hn. unfold configureLogging. destruct (log_levels flagLevel envLevel) as [level libp2pLevel].
  set (file := if bool_decide (flagFile = "") then envFile else flagFile).
  destruct (set_levels_unknown "babylontower/groups" btSubsystems level (SetupLogging file s)) as (s' & e & E).
  - apply (bool_decide_unpack ("babylontower/groups" ∈ btSubsystems)). vm_compute. exact I.
  - intros H'. by eapply Hn, SetupLogging_loggers.
  - exists e. unfold mbind, GoM_bind, modify. rewrite E. reflexivity.
Qed.

(** ** Examples *)
Module RunDemo.
(** Loggers with their levels. *)
#[export] Instance logs : Logs := {|
  log_state := gmap string string; SetupLogging _ s := (fun _ => "error") <$> s;
  SetLogLevel name level s := match s !! name with Some _ => Some (<[name := level]> s) | None => None end;
|}.
#[export] Program Instance logs_laws : LogsLaws logs := {| has_logger name s := is_Some (s !! name) |}.
Next Obligation. intros name level s H. cbn in *. destruct (s !! name) eqn:E; [|done]. exfalso. apply H. by eexists. Qed.
Next Obligation.
  intros name level s s' n. cbn in *. intros Hs H. case_match eqn:E; [|done]. injection Hs as <-.
  destruct (decide (name = n)) as [<-|Hne]; [rewrite E; by eexists|]. by rewrite lookup_insert_ne in H.
Qed.
Next Obligation. intros file s n. cbn. by rewrite lookup_fmap, fmap_is_Some. Qed.

(** The loggers of the packages. *)
Definition made : log_state := list_to_map (M := gmap string string) ((fun n => (n, "error")) <$>
  ["babylontower"; "babylontower/multidevice"; "babylontower/identity"; "babylontower/rtc"; "babylontower/peerstore"; "babylontower/messaging";
   "babylontower/storage"; "babylontower/cli"; "babylontower/recovery"; "babylontower/ipfsnode"; "dht"; "pubsub"]).
End RunDemo.
Import RunDemo.

Lemma messenger_never_starts_witness : exists e, run (configureLogging "" "" "debug" "" made).2 (fun _ => Ok tt) [] = ([], Err e).
Proof.
  destruct (messenger_never_starts "" "" "debug" "" made (fun _ => Ok tt)) as [e E].
  - intros H. apply (bool_decide_pack _) in H. vm_compute in H. exact H.
  - eexists. exact E.
Defined.

(** The host is made, the DHT is not; and a terminal that ends with an error. *)
Example node_left_open :
  (run (Ok tt) (fun s => match s with JoinNetwork => Err (ErrExt "dht") | _ => Ok tt end) []).1 = [Opened TheStorage; Opened TheNode; Closed TheStorage].
Proof. reflexivity. Qed.

Example terminal_left_open :
  (run (Ok tt) (fun s => match s with RunTerminal => Err (ErrExt "readline") | _ => Ok tt end) []).1 =
    [Opened TheStorage; Opened TheNode; Opened TheService; Opened TheTerminal; Closed TheService; Closed TheNode; Closed TheStorage].
Proof. reflexivity. Qed.
