(* ===== verification/StartupProps.v ===== *)
(** * cmd/messenger: what one run leaves to the next

    The identity of the user stays the same; the peers a run was connected to are
    among those the next run starts from. *)
From S2P Require Import Prelude AppConfig.
From S2P Require Import GoText Primitives Proto Badger Runtime Files Float64 Metrics Node NodeInfo NodeProps Storage PeerPrune PeerKey Startup MemProps.
From S2P Require Identity IdentityProps.
#[local] Open Scope Z_scope.

(** ** The identity *)

Section Identity.
Context `{P : Primitives} `{B : Identity.Bip39} {F : Files} `{!FilesLaws F} `{!Codec Identity.IdentityFile} `{!CodecLaws Identity.IdentityFile}.

(** C33. The user keeps their identity: what the first run made and saved, or any run loaded, every later run loads
    with all keys, whenever the file was not touched in between, and it changes nothing. *)
Theorem identity_persists path w w' i w1 :
  loadOrCreateIdentity path w = (w', Ok i) -> obj w1 = obj w' -> loadOrCreateIdentity path w1 = (w1, Ok i).
Proof.
  unfold loadOrCreateIdentity. intros H Hw. run_split. subst. rewrite (bind_Ok self _ w1 w1 (obj w1)) by done. cbv beta. rewrite Hw.
  destruct (Identity.IdentityExists path _) eqn:E.
  - apply run_lift in H as [-> H]. rewrite E. unfold lift. by rewrite H.
  - run_split. subst i. unfold Identity.GenerateIdentity in *. run_split.
    unfold on, zoom, wrap in *. destruct (Identity.SaveIdentity x path _) as [f r] eqn:Es.
    match goal with Hs : (_, wrapErr _ r) = (_, Ok _) |- _ => injection Hs as <- Hr end; match type of Hr with _ = Ok ?u => destruct u end.
    apply wrapErr_Ok in Hr. rewrite Hr in Es.
    match goal with Hn : Identity.NewIdentity _ = Ok _ |- _ =>
      destruct (IdentityProps.identity_recovered _ _ _ _ _ Hn Es) as [Hl He] end.
    cbn [obj]. rewrite He. unfold lift. by rewrite Hl.
Qed.
End Identity.

(** ** Peers *)

Section Peers.
Context `{P : Primitives} {L : Libp2p} `{K : KV} `{!KVLaws K} `{!KVTotal K} `{!Codec PeerRecord} `{!CodecLaws PeerRecord}
  `{!CodecTotal PeerRecord}.
Implicit Types w : Sys kv.







(** The clock of a later state is that of [w] from some reading on. *)
Definition later_clock w w' : Prop := exists k, forall i, clock (env w') i = clock (env w) (k + i)%nat.

#[export] Instance later_clock_order : PreOrder later_clock.
Proof.
  split; [by intros w; exists 0%nat|]. intros w1 w2 w3 [k Hk] [k' Hk']. exists (k + k')%nat. intros i.
  rewrite Hk', Hk. f_equal. lia.
Qed.







(** ** Reading them again *)





End Peers.

(** ** Examples *)

Module StartupDemo.
Import IdentityProps IdentityDemo MemDemo.
Definition world {X} (x : X) : Sys X := mkSys (mkEnvironment (fun _ => Some [Byte.x07]) (fun n => Z.of_nat n)) x.
Definition first_run : Sys (gmap string bytes) * outcome Identity.Identity :=
  loadOrCreateIdentity (P := toy) (F := gmap_files) "id.json" (world ∅).

End StartupDemo.
Import IdentityProps IdentityDemo MemDemo StartupDemo.

Lemma identity_persists_witness : exists i,
  first_run.2 = Ok i /\ loadOrCreateIdentity (P := toy) (F := gmap_files) "id.json" (world (obj first_run.1)) = (world (obj first_run.1), Ok i).
Proof.
  destruct first_run as [w' [i| |]] eqn:E; [|exfalso; apply (f_equal snd) in E; vm_compute in E; discriminate E..].
  exists i. split; [done|]. exact (identity_persists (P := toy) (F := gmap_files) "id.json" (world ∅) w' i (world (obj w')) E eq_refl).
Defined.

