(* ===== verification/Dialing.v ===== *)
(** * pkg/ipfsnode: dialling in parallel

    [connectToPeersParallel] and [connectToBootstrapPeersWithDNS] of [node.go]
    share one shape: a loop that starts a goroutine per peer under a counting
    semaphore, goroutines that try one target after the other, and a wait that ends
    with the goroutines or with the context.  Here it is a state machine whose
    events come in any order: what the loop, the goroutines, the network and the
    context do.  A goroutine that is waiting between two attempts sees a
    cancelled context; one that is dialling sees its dial fail. *)
From S2P Require Import Prelude.
#[local] Open Scope nat_scope.

Inductive phase := Dialing | Waiting | Ended (ok : bool).
#[export] Instance phase_eq : EqDecision phase.
Proof. solve_decision. Defined.

Fixpoint total {B} (f : B -> nat) (l : list B) : nat := match l with [] => 0 | x :: l => f x + total f l end.

Lemma total_app {B} (f : B -> nat) l l' : total f (l ++ l') = total f l + total f l'.
Proof. induction l as [|x l IH]; cbn; lia. Qed.

Section Dialing.
Context {A T : Type}.

(** [job]: the targets a goroutine for an item tries, or [None] when the loop skips the item; [backoff]: whether it
    waits after a failed attempt. *)
Variables (job : A -> option (list T)) (maxParallel : nat) (backoff : bool).

Record worker := mkWorker { item : A; tried : list T; left_ : list T; at_ : phase }.

(** [returned] is what the function has returned, while goroutines may still run. *)
Record dial := mkDial { todo : list A; workers : list worker; connected : nat; cancelled : bool; returned : option nat }.

Definition start (items : list A) : dial := mkDial items [] 0 false None.

Definition ended (w : worker) : bool := match at_ w with Ended _ => true | _ => false end.
Definition active (s : dial) : nat := length (filter (fun w => ended w = false) (workers s)).

Inductive dial_event :=
  | Skip              (* the loop passes over an item *)
  | Spawn             (* the loop acquires the semaphore and starts a goroutine *)
  | DialOk (i : nat)  (* the dial of a goroutine succeeds: it counts itself and ends *)
  | DialFail (i : nat)
  | WaitOver (i : nat)
  | GiveUp (i : nat)  (* a waiting goroutine sees the cancelled context *)
  | CtxDone
  | Return.

(** After an attempt: the next one, or the end of the loop over the targets. *)
Definition next_attempt (l : list T) : phase := match l with [] => Ended false | _ => Dialing end.

Definition update_worker (i : nat) (f : worker -> option worker) (s : dial) : option dial :=
  w ← workers s !! i; w' ← f w;
  Some (mkDial (todo s) (<[i := w']> (workers s)) (connected s) (cancelled s) (returned s)).

Definition dial_next (e : dial_event) (s : dial) : option dial :=
  match e with
  | Skip =>
      match todo s with
      | x :: r => match job x with None => Some (mkDial r (workers s) (connected s) (cancelled s) (returned s)) | Some _ => None end
      | [] => None
      end
  | Spawn =>
      match todo s with
      | x :: r =>
          targets ← job x;
          if active s <? maxParallel
          then Some (mkDial r (workers s ++ [mkWorker x [] targets (next_attempt targets)]) (connected s) (cancelled s) (returned s))
          else None
      | [] => None
      end
  | DialOk i =>
      s' ← update_worker i (fun w => match at_ w, left_ w with
                                     | Dialing, t :: r => Some (mkWorker (item w) (tried w ++ [t]) r (Ended true))
                                     | _, _ => None end) s;
      Some (mkDial (todo s') (workers s') (S (connected s')) (cancelled s') (returned s'))
  | DialFail i =>
      update_worker i (fun w => match at_ w, left_ w with
                                | Dialing, t :: r => Some (mkWorker (item w) (tried w ++ [t]) r (if backoff then Waiting else next_attempt r))
                                | _, _ => None end) s
  | WaitOver i =>
      update_worker i (fun w => match at_ w with Waiting => Some (mkWorker (item w) (tried w) (left_ w) (next_attempt (left_ w))) | _ => None end) s
  | GiveUp i =>
      if cancelled s
      then update_worker i (fun w => match at_ w with Waiting => Some (mkWorker (item w) (tried w) (left_ w) (Ended false)) | _ => None end) s
      else None
  | CtxDone => Some (mkDial (todo s) (workers s) (connected s) true (returned s))
  | Return =>
      match todo s, returned s with
      | [], None => if (active s =? 0) || cancelled s
                    then Some (mkDial [] (workers s) (connected s) (cancelled s) (Some (connected s))) else None
      | _, _ => None
      end
  end.

Fixpoint dial_run (es : list dial_event) (s : dial) : option dial :=
  match es with [] => Some s | e :: es => s' ← dial_next e s; dial_run es s' end.

(** ** What always holds *)

Definition succeeded (w : worker) : bool := bool_decide (at_ w = Ended true).
Definition successes (s : dial) : nat := length (filter (fun w => succeeded w = true) (workers s)).

(** A goroutine tries the targets of its item in order; when it has ended without success and the context was not
    cancelled, it has tried all. *)
Record worker_ok (c : bool) (w : worker) : Prop := {
  wo_targets : job (item w) = Some (tried w ++ left_ w);
  wo_dialing : at_ w = Dialing -> left_ w <> [];
  wo_failed : at_ w = Ended false -> c = false -> left_ w = [];
}.

Record dial_ok (items : list A) (s : dial) : Prop := {
  do_items : exists seen, items = seen ++ todo s /\ item <$> workers s = filter (fun x => is_Some (job x)) seen;
  do_workers : Forall (worker_ok (cancelled s)) (workers s);
  do_active : active s <= maxParallel;
  do_connected : connected s = successes s;
  do_returned k : returned s = Some k -> todo s = [] /\ k <= connected s /\ (cancelled s = false -> active s = 0 /\ k = connected s);
}.

(** ** How much is left to do *)

Definition worker_cost (w : worker) : nat :=
  match at_ w with Dialing => 2 * length (left_ w) | Waiting => S (2 * length (left_ w)) | Ended _ => 0 end.
Definition item_cost (x : A) : nat := S (match job x with Some l => 2 * length l | None => 0 end).
Definition cost (s : dial) : nat :=
  total item_cost (todo s) + total worker_cost (workers s) + match returned s with None => 1 | Some _ => 0 end.

(** ** Changing one goroutine *)

Definition weight (b : bool) : nat := if b then 1 else 0.

Lemma filter_length (f : worker -> bool) l : length (filter (fun w => f w = true) l) = total (fun w => weight (f w)) l.
Proof. induction l as [|w l IH]; [done|]. rewrite filter_cons. cbn. case_decide as E; [rewrite E | apply not_true_is_false in E; rewrite E]; cbn; by rewrite IH. Qed.

Lemma active_sum s : active s = total (fun w => weight (negb (ended w))) (workers s).
Proof.
  unfold active. rewrite <- filter_length. f_equal. apply list_filter_iff. intros w. by rewrite negb_true_iff.
Qed.

Lemma total_insert (f : worker -> nat) l i w w' : l !! i = Some w ->
  total f (<[i := w']> l) + f w = total f l + f w'.
Proof.
  revert i. induction l as [|x l IH]; intros [|i] H; [done|done| |]; cbn in H.
  - injection H as ->. change (<[0 := w']> (w :: l)) with (w' :: l). cbn [total]. lia.
  - specialize (IH i H). change (<[S i := w']> (x :: l)) with (x :: <[i := w']> l). cbn [total]. lia.
Qed.

(** The changes an event makes to one goroutine. *)
Inductive worker_event (c : bool) : worker -> worker -> bool -> Prop :=
  | we_ok x tr t r : worker_event c (mkWorker x tr (t :: r) Dialing) (mkWorker x (tr ++ [t]) r (Ended true)) true
  | we_fail x tr t r : worker_event c (mkWorker x tr (t :: r) Dialing) (mkWorker x (tr ++ [t]) r (if backoff then Waiting else next_attempt r)) false
  | we_over x tr l : worker_event c (mkWorker x tr l Waiting) (mkWorker x tr l (next_attempt l)) false
  | we_give_up x tr l : c = true -> worker_event c (mkWorker x tr l Waiting) (mkWorker x tr l (Ended false)) false.

(** The events: the loop's, one goroutine's, the context's and the return. *)
Inductive dial_change (s : dial) : dial_event -> dial -> Prop :=
  | dc_skip x r : todo s = x :: r -> job x = None -> dial_change s Skip (mkDial r (workers s) (connected s) (cancelled s) (returned s))
  | dc_spawn x r l : todo s = x :: r -> job x = Some l -> active s < maxParallel ->
      dial_change s Spawn (mkDial r (workers s ++ [mkWorker x [] l (next_attempt l)]) (connected s) (cancelled s) (returned s))
  | dc_worker e i w w' ok : e <> CtxDone -> workers s !! i = Some w -> worker_event (cancelled s) w w' ok ->
      dial_change s e (mkDial (todo s) (<[i := w']> (workers s)) (weight ok + connected s) (cancelled s) (returned s))
  | dc_done : dial_change s CtxDone (mkDial (todo s) (workers s) (connected s) true (returned s))
  | dc_return : todo s = [] -> returned s = None -> active s = 0 \/ cancelled s = true ->
      dial_change s Return (mkDial [] (workers s) (connected s) (cancelled s) (Some (connected s))).

Lemma dial_next_change e s s' : dial_next e s = Some s' -> dial_change s e s'.
Proof.
  destruct e as [| |i|i|i|i| |]; cbn -[Nat.ltb Nat.eqb active].
  - destruct (todo s) as [|x r] eqn:Et; [done|]. destruct (job x) eqn:Ej; [done|]. intros [= <-]. by eapply dc_skip.
  - destruct (todo s) as [|x r] eqn:Et; [done|]. destruct (job x) as [l|] eqn:Ej; [|done]. cbn -[Nat.ltb active].
    destruct (active s <? maxParallel) eqn:Ea; [|done]. intros [= <-]. apply Nat.ltb_lt in Ea. by eapply dc_spawn.
  - unfold update_worker. destruct (workers s !! i) as [[x tr l p]|] eqn:Ew; [|done]. cbn. destruct p, l; try done. cbn.
    intros [= <-]. by eapply (dc_worker _ _ _ _ _ true); [|exact Ew|constructor].
  - unfold update_worker. destruct (workers s !! i) as [[x tr l p]|] eqn:Ew; [|done]. cbn. destruct p, l; try done. cbn.
    intros [= <-]. by eapply (dc_worker _ _ _ _ _ false); [|exact Ew|constructor].
  - unfold update_worker. destruct (workers s !! i) as [[x tr l p]|] eqn:Ew; [|done]. cbn. destruct p; try done. cbn.
    intros [= <-]. by eapply (dc_worker _ _ _ _ _ false); [|exact Ew|constructor].
  - destruct (cancelled s) eqn:Ec; [|done]. unfold update_worker. destruct (workers s !! i) as [[x tr l p]|] eqn:Ew; [|done]. cbn.
    destruct p; try done. cbn. intros [= <-]. by eapply (dc_worker _ _ _ _ _ false); [|exact Ew|constructor].
  - intros [= <-]. constructor.
  - destruct (todo s) eqn:Et; [|done]. destruct (returned s) eqn:Er; [done|].
    destruct ((active s =? 0) || cancelled s) eqn:Ea; [|done]. intros [= <-].
    apply dc_return; [done..|]. apply orb_true_iff in Ea as [?%Nat.eqb_eq|?]; tauto.
Qed.

(** ** The invariant *)

Lemma worker_event_ok c w w' ok : worker_ok c w -> worker_event c w w' ok ->
  worker_ok c w' /\ weight (succeeded w') = weight ok + weight (succeeded w) /\
  weight (negb (ended w')) <= weight (negb (ended w)) /\ item w' = item w /\ weight (negb (ended w)) = 1 /\
  worker_cost w' < worker_cost w.
Proof.
  intros [Ht Hd Hf] H. destruct H as [x tr t r|x tr t r|x tr l|x tr l Hcan]; cbn in *.
  - split_and!; try done; try lia. split; cbn; [by rewrite <- app_assoc|done..].
  - destruct backoff; [|destruct r as [|t' r]]; split_and!; cbn; try done; try lia; (split; cbn; try done; by rewrite <- app_assoc).
  - destruct l as [|t r]; split_and!; cbn; try done; try lia; by split.
  - split_and!; try done; try lia. split; cbn; [done..|congruence].
Qed.

Lemma worker_ok_cancel c w : worker_ok c w -> worker_ok true w.
Proof. intros []. by split. Qed.

Lemma dial_ok_start items : dial_ok items (start items).
Proof. split; cbn; try done; [by exists []|unfold active; cbn; lia]. Qed.

Lemma dial_next_ok items e s s' : dial_ok items s -> dial_next e s = Some s' -> dial_ok items s'.
Proof.
  intros [(seen & Hitems & Hseen) Hw Ha Hc Hr] H%dial_next_change.
  destruct H as [x r Et Ej|x r l Et Ej Hlt|e i w w' ok _ Hi Hev| |Et Er Hend].
  - (* Skip *)
    split; cbn [todo workers connected cancelled returned]; try done; [|by intros k Hk; destruct (Hr k Hk); congruence].
    exists (seen ++ [x]). split; [by rewrite <- app_assoc, Hitems, Et|]. rewrite filter_app, <- Hseen, filter_cons, Ej.
    rewrite decide_False by (intros []; done). by rewrite app_nil_r.
  - (* Spawn *)
    assert (weight (succeeded (mkWorker x [] l (next_attempt l))) = 0) as Hs by by destruct l.
    split; cbn [todo workers connected cancelled returned].
    + exists (seen ++ [x]). split; [by rewrite <- app_assoc, Hitems, Et|]. rewrite filter_app, fmap_app, <- Hseen, filter_cons, Ej.
      rewrite decide_True by by eexists. done.
    + apply Forall_app. split; [done|]. repeat constructor; cbn; [by rewrite Ej|by destruct l..].
    + rewrite active_sum in *. cbn [workers] in *. rewrite total_app. destruct l; cbn in *; lia.
    + rewrite Hc. unfold successes. rewrite !filter_length. cbn [workers]. rewrite total_app. cbn [total]. lia.
    + intros k Hk. destruct (Hr k Hk). congruence.
  - (* a goroutine *)
    rewrite Forall_forall in Hw. pose proof (Hw w (list_elem_of_lookup_2 _ _ _ Hi)) as Hwi.
    destruct (worker_event_ok _ _ _ _ Hwi Hev) as (Hok & Hsucc & Hact & Hitem & Hone & _).
    pose proof (total_insert (fun w => weight (negb (ended w))) _ _ _ w' Hi) as Ta.
    pose proof (total_insert (fun w => weight (succeeded w)) _ _ _ w' Hi) as Ts. cbn in Ta, Ts.
    split; cbn [todo workers connected cancelled returned].
    + exists seen. split; [done|]. rewrite list_fmap_insert, Hitem, <- Hseen. apply list_insert_id. by rewrite list_lookup_fmap, Hi.
    + apply Forall_insert; [by apply Forall_forall|done].
    + rewrite active_sum in *. cbn [workers] in *. lia.
    + rewrite Hc. unfold successes. rewrite !filter_length. cbn [workers]. lia.
    + intros k Hk. destruct (Hr k Hk) as (Ht & Hle & Hdone). split; [done|]. split; [lia|].
      intros Hcan. destruct (Hdone Hcan) as [H0 _]. rewrite active_sum in H0. exfalso.
      assert (weight (negb (ended w)) <= total (fun w => weight (negb (ended w))) (workers s)); [|lia].
      clear -Hi. revert i Hi. induction (workers s) as [|y l IH]; intros [|i] Hi; cbn in *; simplify_eq; [lia|]. specialize (IH i Hi). lia.
  - (* CtxDone *)
    split; cbn [todo workers connected cancelled returned]; try done; [by exists seen| |].
    + eapply Forall_impl; [exact Hw|]. intros w. apply worker_ok_cancel.
    + intros k Hk. by destruct (Hr k Hk) as (? & ? & _).
  - (* Return *)
    split; cbn [todo workers connected cancelled returned]; try done; [exists seen; by rewrite <- Et|]. intros k [= <-]. split; [done|]. split; [done|].
    intros Hcan. by destruct Hend as [|Hend]; [|rewrite Hend in Hcan].
Qed.

Lemma dial_run_ok items es s s' : dial_ok items s -> dial_run es s = Some s' -> dial_ok items s'.
Proof.
  revert s. induction es as [|e es IH]; intros s Hs; cbn; [by intros [= <-]|].
  intros (s1 & H1 & H)%bind_Some. eapply IH; [|exact H]. by eapply dial_next_ok.
Qed.

(** ** The end *)

Definition is_ctx (e : dial_event) : bool := match e with CtxDone => true | _ => false end.
(** The steps of a run that are not the context's. *)
Fixpoint steps (es : list dial_event) : nat :=
  match es with [] => 0 | e :: es => (if is_ctx e then 0 else 1) + steps es end.

Lemma dial_next_cost items e s s' : dial_ok items s -> dial_next e s = Some s' ->
  cost s' + (if is_ctx e then 0 else 1) <= cost s.
Proof.
  intros Hok H%dial_next_change. unfold cost. destruct H as [x r Et Ej|x r l Et Ej Hlt|e i w w' ok He Hi Hev| |Et Er Hend];
    cbn [todo workers returned is_ctx].
  - rewrite Et. cbn. lia.
  - rewrite Et, total_app. cbn. unfold item_cost. rewrite Ej. destruct l; cbn; lia.
  - pose proof (do_workers _ _ Hok) as Hw. rewrite Forall_forall in Hw.
    destruct (worker_event_ok _ _ _ _ (Hw w (list_elem_of_lookup_2 _ _ _ Hi)) Hev) as (_ & _ & _ & _ & _ & Hcost).
    pose proof (total_insert worker_cost _ _ _ w' Hi). destruct (is_ctx e); lia.
  - lia.
  - rewrite Er. cbn. lia.
Qed.

Lemma dial_run_cost items es s s' : dial_ok items s -> dial_run es s = Some s' -> steps es + cost s' <= cost s.
Proof.
  revert s. induction es as [|e es IH]; intros s Hs; cbn; [intros [= <-]; cbn; lia|].
  intros (s1 & H1 & H)%bind_Some. pose proof (dial_next_cost _ _ _ _ Hs H1). specialize (IH s1 (dial_next_ok _ _ _ _ Hs H1) H).
  lia.
Qed.

Lemma active_worker items s : dial_ok items s -> active s <> 0 -> exists e s', is_ctx e = false /\ dial_next e s = Some s'.
Proof.
  intros Hok Ha. unfold active in Ha. destruct (filter _ (workers s)) as [|w l] eqn:El; [done|].
  assert (ended w = false /\ w ∈ workers s) as [He Hin] by (apply (list_elem_of_filter (fun w => ended w = false)); rewrite El, elem_of_cons; by left).
  pose proof (do_workers _ _ Hok) as Hw. rewrite Forall_forall in Hw. destruct (Hw w Hin) as [_ Hd _].
  apply list_elem_of_lookup in Hin as [i Hi]. unfold ended in He. destruct (at_ w) eqn:Ew; [| |done].
  - exists (DialFail i). cbn. unfold update_worker. rewrite Hi. cbn. rewrite Ew. destruct (left_ w) eqn:Elw; [by destruct Hd|].
    eexists. by split.
  - exists (WaitOver i). cbn. unfold update_worker. rewrite Hi. cbn. rewrite Ew. eexists. by split.
Qed.

Lemma dial_progress items s : dial_ok items s -> 0 < maxParallel -> returned s = None ->
  exists e s', is_ctx e = false /\ dial_next e s = Some s'.
Proof.
  intros Hok Hmax Hr. destruct (decide (active s = 0)) as [Ha|Ha]; [|by eapply active_worker].
  destruct (todo s) as [|x r] eqn:Et; [|destruct (job x) as [l|] eqn:Ej].
  - exists Return. cbn. rewrite Et, Hr, Ha. eexists. by split.
  - exists Spawn. cbn -[Nat.ltb active]. rewrite Et. cbn -[Nat.ltb active]. rewrite Ej, Ha. cbn -[Nat.ltb active].
    rewrite (proj2 (Nat.ltb_lt 0 maxParallel) Hmax). eexists. by split.
  - exists Skip. cbn. rewrite Et, Ej. eexists. by split.
Qed.

Lemma dial_finishes items n s : dial_ok items s -> 0 < maxParallel -> cost s <= n ->
  exists es s', dial_run es s = Some s' /\ Forall (fun e => is_ctx e = false) es /\ is_Some (returned s').
Proof.
  revert s. induction n as [n IH] using lt_wf_ind. intros s Hok Hmax Hn.
  destruct (returned s) as [k|] eqn:Hr; [exists [], s; by rewrite Hr|].
  destruct (dial_progress _ _ Hok Hmax Hr) as (e & s1 & He & H1).
  pose proof (dial_next_cost _ _ _ _ Hok H1) as Hc. rewrite He in Hc.
  destruct (IH (cost s1) ltac:(lia) s1 (dial_next_ok _ _ _ _ Hok H1) Hmax ltac:(lia)) as (es & s' & Hrun & Hes & Hret).
  exists (e :: es), s'. cbn. rewrite H1. split; [done|]. split; [by constructor|done].
Qed.

(** C18. However dials, waits and the context interleave, at most [maxParallel] goroutines run at once, each item that is not skipped has
    one goroutine, which tries the item's targets in order; the counter is the number of those that succeeded; what is
    returned never exceeds it, and is it when the context was not cancelled, and then those who failed have tried all targets. *)
Theorem dialing_bounded items es s : dial_run es (start items) = Some s -> dial_ok items s.
Proof. apply dial_run_ok, dial_ok_start. Qed.

(** C19. Dialling ends: besides the cancellation of the context there are at most as many steps as targets allow, in every run, and no run is ever
    stuck: from wherever it is, it can go on to return, without the context's help. *)
Theorem dialing_returns items es s : 0 < maxParallel -> dial_run es (start items) = Some s ->
  steps es <= S (total item_cost items) /\
  exists es' s', dial_run es' s = Some s' /\ Forall (fun e => is_ctx e = false) es' /\ is_Some (returned s').
Proof.
  intros Hmax H. pose proof (dial_run_cost items _ _ _ (dial_ok_start items) H) as Hc. split.
  - unfold cost at 2 in Hc. cbn in Hc. lia.
  - by eapply (dial_finishes items (cost s)); [eapply dial_run_ok; [apply dial_ok_start|exact H]| |].
Qed.
End Dialing.

(** ** A run: one item is skipped, one connected at the second attempt, one given up. *)
Module DialDemo.
Definition job (x : nat) : option (list nat) := if x =? 0 then None else Some [x; x].
Definition events : list dial_event := [Skip; Spawn; DialFail 0; WaitOver 0; DialOk 0; Spawn; DialFail 1; CtxDone; GiveUp 1; Return].
Definition final : dial (A := nat) (T := nat) :=
  mkDial [] [mkWorker 1 [1; 1] [] (Ended true); mkWorker 2 [2] [2] (Ended false)] 1 true (Some 1).
End DialDemo.
Import DialDemo.

Lemma dialing_bounded_witness :
  dial_run job 1 true events (start [0; 1; 2]) = Some final /\ dial_ok job 1 [0; 1; 2] final.
Proof.
  assert (dial_run job 1 true events (start [0; 1; 2]) = Some final) as E by reflexivity.
  split; [exact E|]. exact (dialing_bounded job 1 true [0; 1; 2] events final E).
Defined.

Lemma dialing_returns_witness : exists s es s',
  dial_run job 1 true [Skip; Spawn; DialFail 0] (start [0; 1; 2]) = Some s /\ returned s = None /\
  dial_run job 1 true es s = Some s' /\ is_Some (returned s').
Proof.
  eexists. destruct (dialing_returns job 1 true [0; 1; 2] [Skip; Spawn; DialFail 0]
    (mkDial [2] [mkWorker 1 [1] [1] Waiting] 0 false None) ltac:(lia) eq_refl) as (_ & es & s' & Hrun & _ & Hret).
  exists es, s'. split; [reflexivity|]. split; [reflexivity|]. by split.
Defined.
