(* ===== verification/Bootstrap.v ===== *)
(** * pkg/ipfsnode: starting, bootstrapping and stopping a node

    [Start], [Stop], [bootstrapDHT] and what it calls, of [node.go].  The parallel
    dials are machines of Dialing.v: [stored_job], [dns_job] and [verify_job] say
    what their goroutines try.  What the host and the DHT answer during a
    bootstrap is [observed]; which parts of libp2p can be made during a start is
    [Setup].  Resolving DNS addresses is a parameter. *)
From S2P Require Import Prelude Primitives Runtime Float64 Metrics Node Files PeerKey Dialing.
From S2P Require NodeProps.
#[local] Open Scope nat_scope.

Section Jobs.
Context {L : Libp2p} (Resolve : maddr -> option (list maddr)) (self : pid).

(** [connectToPeersParallel]: at most ten goroutines, three attempts each, waiting in between. *)
Definition stored_parallel : nat := 10.
Definition stored_job (peerInfo : AddrInfo) : option (list AddrInfo) :=
  if bool_decide (ai_ID peerInfo = self) || (length (ai_Addrs peerInfo) =? 0) then None else Some (replicate 3 peerInfo).

(** [connectToBootstrapPeersWithDNS]: at most five, each resolved address once. *)
Definition dns_parallel : nat := 5.
Definition resolved_info (resolved : maddr) : option AddrInfo :=
  match AddrInfoFromP2pAddr resolved with
  | Some (id, addrs) => if bool_decide (id = self) then None else Some (mkAddrInfo id addrs)
  | None => None
  end.
Definition dns_job (addrStr : string) : option (list AddrInfo) :=
  ma ← NewMultiaddr addrStr;
  let resolvedAddrs := default [ma] (Resolve ma) in
  Some (omap resolved_info resolvedAddrs).

(** [verifyBootstrapPeers]: one query per connected peer, without a bound. *)
Definition verify_job (peerID : pid) : option (list pid) := Some [peerID].
End Jobs.

(** [k] is what a parallel dial of [items] may return. *)
Definition may_return {A T} (job : A -> option (list T)) (maxParallel : nat) (backoff : bool) (items : list A) (k : nat) : Prop :=
  exists es s, dial_run job maxParallel backoff es (start items) = Some s /\ returned s = Some k.

(** ** The stages *)

Record BootstrapResult := mkBootstrapResult {
  StoredPeersAttempted : nat; StoredPeersConnected : nat; ConfigPeersAttempted : nat; ConfigPeersConnected : nat;
  TotalConnected : nat; RoutingTableSize : nat; VerifiedPeers : nat;
}.

(** [started]: the bootstrap process of the DHT; [peers1], [peers2]: the peers of the host after the stages; [refreshed]:
    the size of the routing table, when its refresh ended in time; the other numbers are what the parallel dials return. *)
Record observed := mkSeen {
  sn_started : bool; sn_stored : nat; peers1 : nat; sn_config : nat; peers2 : nat; refreshed : option nat; sn_verified : nat;
}.

Definition config_stage (attempted connected peers configPeers : nat) : bool :=
  let storedPeersFailed := (0 <? attempted) && (connected =? 0) in
  ((peers <? 3) || storedPeersFailed) && (0 <? configPeers).

Definition bootstrapDHT (storedPeers bootstrapPeers : nat) (o : observed) : outcome BootstrapResult :=
  if negb (sn_started o) then Err (ErrWrap "DHT bootstrap failed" (ErrExt "dht"))
  else
    let sc := if 0 <? storedPeers then sn_stored o else 0 in
    let stage2 := config_stage storedPeers sc (peers1 o) bootstrapPeers in
    let total := peers2 o in
    Ok (mkBootstrapResult storedPeers sc (if stage2 then bootstrapPeers else 0) (if stage2 then sn_config o else 0) total
          (default 0 (refreshed o)) (if 0 <? total then sn_verified o else 0)).

Inductive summary := Failed | Partial | Degraded | Successful.
Definition logBootstrapSummary (result : BootstrapResult) : summary :=
  if TotalConnected result =? 0 then Failed
  else if RoutingTableSize result =? 0 then Partial
  else if RoutingTableSize result <? 5 then Degraded
  else Successful.

(** ** Counting *)

Section Counts.
Context {A T : Type} (job : A -> option (list T)) (maxParallel : nat) (backoff : bool).

(** What is returned counts items that were not skipped and had a target. *)
Lemma may_return_bound items k : may_return job maxParallel backoff items k ->
  k <= length (filter (fun x => is_Some (job x)) items).
Proof.
  intros (es & s & Hrun & Hk). destruct (dial_run_ok _ _ _ _ _ _ _ (dial_ok_start job maxParallel items) Hrun) as [(sn & -> & Hi) _ _ Hc Hr].
  destruct (Hr k Hk) as (Ht & Hle & _). rewrite Ht, app_nil_r, <- Hi, length_fmap. rewrite Hc in Hle. unfold successes in Hle.
  etrans; [exact Hle|]. apply length_filter.
Qed.

(** A dial of all items can return, and does when it is left to itself. *)
Lemma may_return_exists items : 0 < maxParallel -> exists k, may_return job maxParallel backoff items k.
Proof.
  intros Hm. destruct (dial_finishes job maxParallel backoff items (cost job (start items)) (start items) (dial_ok_start _ _ _) Hm (le_n _))
    as (es & s & Hrun & _ & [k Hk]). exists k, es, s. by split.
Qed.
End Counts.

Section Bootstrap.
Context {L : Libp2p} (Resolve : maddr -> option (list maddr)) (self : pid).

Lemma config_stage_spec attempted connected peers configPeers :
  config_stage attempted connected peers configPeers = true <->
  0 < configPeers /\ (peers < 3 \/ 0 < attempted /\ connected = 0).
Proof.
  unfold config_stage. rewrite andb_true_iff, orb_true_iff, andb_true_iff, !Nat.ltb_lt, Nat.eqb_eq. tauto.
Qed.

Lemma length_pos {A} (l : list A) : 0 < length l <-> l <> [].
Proof. destruct l; cbn; split; [lia|done|done|lia]. Qed.

(** What a bootstrap reports is bounded by what it tried: never more stored peers than were eligible and never more configured
    ones than could be parsed; the configured peers are tried exactly when the stored ones left fewer than three connections or
    none of them answered, and there are any; without a connection nothing is verified and the bootstrap counts as failed. *)
Theorem bootstrap_counts stored config o r :
  may_return (stored_job self) stored_parallel true stored (sn_stored o) ->
  may_return (dns_job Resolve self) dns_parallel false config (sn_config o) ->
  bootstrapDHT (length stored) (length config) o = Ok r ->
  StoredPeersConnected r <= length (filter (fun p => is_Some (stored_job self p)) stored) <= StoredPeersAttempted r /\
  ConfigPeersConnected r <= length (filter (fun a => is_Some (NewMultiaddr a)) config) /\
  (0 < ConfigPeersAttempted r <-> config <> [] /\ (peers1 o < 3 \/ stored <> [] /\ StoredPeersConnected r = 0)) /\
  (TotalConnected r = 0 <-> logBootstrapSummary r = Failed) /\
  (TotalConnected r = 0 -> VerifiedPeers r = 0).
Proof.
  intros Hs%may_return_bound Hc%may_return_bound. unfold bootstrapDHT. destruct (sn_started o); [|done]. cbn [negb]. cbv zeta.
  set (sc := if 0 <? length stored then sn_stored o else 0).
  assert (sc <= length (filter (fun p => is_Some (stored_job self p)) stored)) as Hsc by (unfold sc; case_match; lia).
  assert (filter (fun a => is_Some (dns_job Resolve self a)) config = filter (fun a => is_Some (NewMultiaddr a)) config) as Hf.
  { apply list_filter_iff. intros a. unfold dns_job. destruct (NewMultiaddr a) as [ma|]; cbn; split; intros [? [=]]; by eexists. }
  rewrite Hf in Hc. pose proof (length_filter (fun p => is_Some (stored_job self p)) stored).
  intros [= <-]. cbn [StoredPeersConnected StoredPeersAttempted ConfigPeersConnected ConfigPeersAttempted TotalConnected VerifiedPeers].
  split; [lia|]. split; [case_match; lia|]. split; [|split].
  - rewrite <- !length_pos. pose proof (config_stage_spec (length stored) sc (peers1 o) (length config)) as Hspec.
    destruct (config_stage _ _ _ _); rewrite <- Hspec; split; intros; [done|by apply Hspec|lia|done].
  - unfold logBootstrapSummary. cbn. destruct (peers2 o =? 0) eqn:E; [apply Nat.eqb_eq in E|apply Nat.eqb_neq in E].
    + by split.
    + split; [done|]. repeat case_match; done.
  - by intros ->.
Qed.
End Bootstrap.

(** The stored peers: nobody dials itself or a peer without address, nobody is dialled more than three times, and at most
    ten dials run at once. *)
Lemma stored_dials {L : Libp2p} self stored es s :
  dial_run (stored_job self) stored_parallel true es (start stored) = Some s ->
  active s <= 10 /\ forall w, w ∈ workers s ->
    ai_ID (item w) <> self /\ ai_Addrs (item w) <> [] /\ length (tried w) <= 3 /\ Forall (eq (item w)) (tried w).
Proof.
  intros H. destruct (dial_run_ok _ _ _ _ _ _ _ (dial_ok_start (stored_job self) stored_parallel stored) H) as [_ Hw Ha _ _].
  split; [exact Ha|]. intros w Hin. rewrite Forall_forall in Hw. destruct (Hw w Hin) as [Ht _ _]. unfold stored_job in Ht.
  destruct (bool_decide (ai_ID (item w) = self)) eqn:Eid; [done|]. apply bool_decide_eq_false in Eid.
  destruct (ai_Addrs (item w)) eqn:Ead; [done|]. cbn [orb length Nat.eqb] in Ht. injection Ht as Ht.
  assert (Forall (eq (item w)) (tried w ++ left_ w)) as Hall by (rewrite <- Ht; repeat constructor).
  apply (f_equal length) in Ht. rewrite length_app in Ht. cbn in Ht. apply Forall_app in Hall as [Hall _].
  repeat split; [done|done|lia|done].
Qed.

(** ** Starting and stopping *)

(** What can be made of libp2p: the connection manager, the host for a key, the DHT, PubSub. *)
Class Setup `{PK : PeerKeys} := {
  NewConnManager : bool; libp2p_New : peer_key -> bool; dht_New : bool; NewGossipSub : bool;
}.

(** [open_hosts]: hosts that were made and not closed; [maintenance_ended]: how often the channel of the DHT maintenance
    was closed. *)
Record lifecycle := mkLifecycle { lc_started : bool; open_hosts : nat; ctx_cancelled : bool; maintenance_ended : nat }.
#[export] Instance eta_lifecycle : Eta lifecycle := fun s => mkLifecycle (lc_started s) (open_hosts s) (ctx_cancelled s) (maintenance_ended s).

Definition NewNode : lifecycle := mkLifecycle false 0 false 0.

Section Lifecycle.
Context `{F : Files} `{PK : PeerKeys} `{H : HomeDir} `{S : !Setup}.
Abbreviation M := (GoM (Sys (files * lifecycle))).

Definition life (f : lifecycle -> lifecycle) : M unit := update (fun s => (s.1, f s.2)).

(** [n.host] is replaced by every new host.  The maintenance of a node whose context is cancelled ends at once. *)
Definition node_Start (RepoDir : string) : M unit :=
  s ← self;
  if lc_started s.2 then mret tt
  else
    repoDir ← lift (wrapErr "failed to expand repo dir" (expandPath RepoDir));
    _ ← on fst (fun f s => (f, s.2)) (file_write "failed to create repo directory" (MkdirAll repoDir));
    privKey ← wrap "failed to load peer key" (within fst (fun f s => (f, s.2)) (loadOrGeneratePeerKey repoDir));
    _ ← ensure NewConnManager (ErrWrap "failed to create connection manager" (ErrExt "connmgr"));
    _ ← ensure (libp2p_New privKey) (ErrWrap "failed to create libp2p host" (ErrExt "libp2p"));
    _ ← life (fun n => n <| open_hosts := Datatypes.S (open_hosts n) |>);
    _ ← ensure dht_New (ErrWrap "failed to create DHT" (ErrExt "dht"));
    _ ← ensure NewGossipSub (ErrWrap "failed to create PubSub" (ErrExt "pubsub"));
    life (fun n => n <| lc_started := true |>
                     <| maintenance_ended := if ctx_cancelled n then Datatypes.S (maintenance_ended n) else maintenance_ended n |>).

(** Cancelling the context ends the maintenance; the last host is closed. *)
Definition node_Stop (n : lifecycle) : lifecycle :=
  if lc_started n
  then mkLifecycle false (pred (open_hosts n)) true (if ctx_cancelled n then maintenance_ended n else Datatypes.S (maintenance_ended n))
  else n.

Definition one_host_more (n : lifecycle) : lifecycle := n <| open_hosts := Datatypes.S (open_hosts n) |>.
Definition running (n : lifecycle) : lifecycle :=
  one_host_more n <| lc_started := true |>
    <| maintenance_ended := if ctx_cancelled n then Datatypes.S (maintenance_ended n) else maintenance_ended n |>.

(** How a start ends: before the host was made, after it, or with a running node. *)
Lemma node_Start_cases RepoDir w w' r :
  lc_started (obj w).2 = false -> node_Start RepoDir w = (w', r) ->
  match r with
  | Ok _ => (obj w').2 = running (obj w).2
  | Err e => (obj w').2 = (if bool_decide (e ∈ [ErrWrap "failed to create DHT" (ErrExt "dht"); ErrWrap "failed to create PubSub" (ErrExt "pubsub")])
                           then one_host_more (obj w).2 else (obj w).2)
  | Panic => True
  end.
Proof.
  unfold node_Start. intros Es. rewrite (bind_Ok self _ w w (obj w)) by done. cbv beta. rewrite Es.
  unfold mbind, GoM_bind, lift, on, zoom, within, wrap, ensure, life, file_write.
  destruct (expandPath RepoDir) as [dir|e1|]; cbn [wrapErr]; [|by intros [= <- <-]|by intros [= <- <-]].
  destruct (MkdirAll dir (obj w).1) as [f|]; cbn; [|by intros [= <- <-]].
  destruct (loadOrGeneratePeerKey dir _) as [w1 [k|e1|]]; cbn; [|by intros [= <- <-]|by intros [= <- <-]].
  destruct NewConnManager; cbn; [|by intros [= <- <-]].
  destruct (libp2p_New k); cbn; [|by intros [= <- <-]].
  destruct dht_New; cbn; [|by intros [= <- <-]].
  destruct NewGossipSub; cbn; by intros [= <- <-].
Qed.

(** A start that fails after the host was made leaves it open, and stopping does not close it. *)
Theorem failed_start_leaks RepoDir w w' :
  lc_started (obj w).2 = false -> node_Start RepoDir w = (w', Err (ErrWrap "failed to create DHT" (ErrExt "dht"))) ->
  open_hosts (obj w').2 = Datatypes.S (open_hosts (obj w).2) /\ node_Stop (obj w').2 = (obj w').2.
Proof.
  intros Hs Hrun. pose proof (node_Start_cases _ _ _ _ Hs Hrun) as E. cbn in E. rewrite bool_decide_eq_true_2 in E by (left).
  rewrite E. split; [done|]. unfold node_Stop. cbn. by rewrite Hs.
Qed.

(** A node that was stopped and started again runs under a context that is cancelled, and closes the channel of its
    maintenance a second time. *)
Theorem restarted_cancelled RepoDir n w w' :
  lc_started n = true -> (obj w).2 = node_Stop n -> node_Start RepoDir w = (w', Ok tt) ->
  lc_started (obj w').2 = true /\ ctx_cancelled (obj w').2 = true /\
  (ctx_cancelled n = false -> maintenance_ended (obj w').2 = Datatypes.S (Datatypes.S (maintenance_ended n))).
Proof.
  intros Hn Hw Hrun. assert (lc_started (obj w).2 = false) as Hs by (rewrite Hw; unfold node_Stop; by rewrite Hn).
  rewrite (node_Start_cases _ _ _ _ Hs Hrun), Hw. unfold node_Stop. rewrite Hn. cbn. split; [done|]. split; [done|]. by intros ->.
Qed.
End Lifecycle.

(** ** A bootstrap: one stored peer answers, so that the configured ones are tried too. *)
Module BootstrapDemo.
Import NodeProps.NodeDemo.
Definition stored : list (AddrInfo (L := demo_p2p)) := [mkAddrInfo (L := demo_p2p) "a" ["/ip4/1.2.3.4"]; mkAddrInfo (L := demo_p2p) "me" ["/ip4/5.6.7.8"]].
Definition answers : observed := mkSeen true 1 1 0 1 (Some 7) 1.
End BootstrapDemo.
Import BootstrapDemo.

Lemma bootstrap_counts_witness : exists r,
  bootstrapDHT 2 1 answers = Ok r /\ StoredPeersConnected r = 1 /\ 0 < ConfigPeersAttempted r /\ logBootstrapSummary r = Successful.
Proof.
  eexists. split; [reflexivity|]. split; [reflexivity|]. split; [|reflexivity].
  destruct (bootstrap_counts (L := NodeProps.NodeDemo.demo_p2p) (fun _ => None) "me"%string stored ["/dns/x"%string] answers
    (mkBootstrapResult 2 1 1 0 1 7 1)) as (_ & _ & Hc & _ & _).
  - exists [Spawn; DialOk 0; Skip; Return]. eexists. split; [vm_compute; reflexivity|reflexivity].
  - exists [Spawn; DialFail 0; Return]. eexists. split; [vm_compute; reflexivity|reflexivity].
  - reflexivity.
  - apply Hc. split; [done|]. left. cbn. lia.
Defined.
