(* ===== verification/Display.v ===== *)
(** * pkg/cli: what the terminal shows

    [display.go], and the texts of [commands_network.go] that stand for an
    identifier, a duration or a score.  How errors and times print are
    parameters ([Terminal]): the errors of this library keep the format of their
    text, and times are shown in the zone of the machine.  A string is its bytes
    in UTF-8. *)
From S2P Require Import Prelude GoText GoFormat Float64 Runtime Storage Messages Metrics NodeInfo Identity.
#[local] Open Scope string_scope.
#[local] Open Scope Z_scope.

(** [err.Error()] and [t.Format(layout)] for the instant [t]. *)
Class Terminal := { error_Error : error -> string; time_Format : string -> Z -> string }.

Definition keyDisplayLen : nat := 16.
Definition timeFormat : string := "2006-01-02 15:04:05".

(** Lines, each ended. *)
Definition Lines (l : list string) : string := foldr (fun s t => s +:+ nl +:+ t) "" l.

Section Display.
Context `{T : Terminal} `{B : Base58}.

(** A text of which at most [keyDisplayLen] bytes are shown. *)
Definition truncated (encoded : string) : string :=
  if (keyDisplayLen <? String.length encoded)%nat then String.substring 0 keyDisplayLen encoded +:+ "..." else encoded.

Definition FormatPublicKey (pubKey : bytes) : string := truncated (hex pubKey).
Definition FormatPublicKeyBase58 (pubKey : bytes) : string := truncated (base58_Encode pubKey).

Definition FormatContact (index : Z) (contact : Contact) : string :=
  let name := if bool_decide (c_DisplayName contact = "") then "(no name)" else c_DisplayName contact in
  "[" +:+ dec index +:+ "] " +:+ name +:+ " - " +:+ FormatPublicKeyBase58 (c_PublicKey contact).

Definition FormatContactList (contacts : list Contact) : string :=
  match contacts with
  | [] => "No contacts found." +:+ nl +:+ "Use /add <pubkey> [nickname] to add a contact."
  | _ => nl +:+ Lines ("=== Contacts ===" :: imap (fun i c => FormatContact (Z.of_nat i + 1) c) contacts ++ ["================"])
  end.

(** [fmt.Sprintf("[%s] %s: %s", timestamp, sender, text)] *)
Definition message_line (timestamp sender text : string) : string :=
  "[" +:+ timestamp +:+ "] " +:+ sender +:+ ": " +:+ text.

Definition FormatMessage (msg : Message) (senderName : string) (isOutgoing : bool) : string :=
  let sender := if isOutgoing then "You" else if bool_decide (senderName = "") then "Unknown" else senderName in
  message_line (time_Format timeFormat (of_unix (Messages.Timestamp msg))) sender (Text msg).

(** The envelope does not matter. *)
Definition FormatMessageFromEnvelope (now : Z) (contactName : string) (isOutgoing : bool) : string :=
  let sender := if isOutgoing then "You" else if bool_decide (contactName = "") then "Contact" else contactName in
  message_line (time_Format timeFormat now) sender "[Encrypted message received]".

Definition FormatError (err : option error) : string :=
  match err with None => "" | Some err => "❌ Error: " +:+ error_Error err end.
Definition FormatErrorString (message : string) : string := if bool_decide (message = "") then "" else "❌ Error: " +:+ message.
Definition FormatSuccess (message : string) : string := "✅ " +:+ message.
Definition FormatInfo (message : string) : string := "ℹ️  " +:+ message.
Definition FormatSystemMessage (message : string) : string := "📌 " +:+ message.
Definition FormatIncomingNotification (contactName : string) : string := nl +:+ "📬 New message from " +:+ contactName.
Definition FormatChatExit : string := nl +:+ "Exited chat mode." +:+ nl.

Definition FormatChatHeader (contactName contactPubKey : string) : string :=
  Lines
  ["";
   "━━━ Chat with " +:+ contactName +:+ " ━━━";
   "Public key: " +:+ contactPubKey;
   "Type your message and press Enter to send.";
   "Press Enter on an empty line to exit chat.";
   "━━━━━━━━━━━━━━━━━━━━━━━━━━━━━━━━━━━━━━"].

Definition FormatBanner (version publicKey : string) : string :=
  Lines
  ["";
   "╔══════════════════════════════════════════╗";
   "║     🏰  Babylon Tower v" +:+ version +:+ "          ║";
   "║     Decentralized P2P Messenger          ║";
   "╚══════════════════════════════════════════╝";
   "";
   "Your public key: " +:+ publicKey;
   "";
   "Type /help for available commands.";
   ""].

Definition FormatHelp : string :=
  Lines
  ["";
   "=== Babylon Tower Commands ===";
   "";
   "Identity:";
   "  /myid                 Display your public keys and node multiaddr";
   "";
   "Contacts:";
   "  /add <pubkey> [name] [x25519_key]  Add a contact";
   "  /list                            List all contacts";
   "";
   "Messaging:";
   "  /chat <contact>       Enter chat mode with a contact";
   "  /history <contact> [limit]  Show message history";
   "";
   "Groups:";
   "  /creategroup <name> <description>  Create a new private group";
   "  /listgroups                        List all groups";
   "  /invite <group_id> <pubkey> [name] Invite member to group";
   "  /groupchat <group_id>              Enter chat mode with group";
   "";
   "Network:";
   "  /connect <multiaddr>  Connect to a peer node";
   "  /find <peer_id>       Find and connect to peer via DHT";
   "  /advertise            Advertise yourself to DHT";
   "  /bootstrap            Show bootstrap peer status";
   "  /reconnect            Retry bootstrap peer connection";
   "  /debug                Show detailed network debug info";
   "  /myaddr               Show your multiaddrs for sharing";
   "  /peers                Show detailed peer connection info";
   "  /dht                  Show DHT status";
   "  /dhtinfo              Show detailed DHT routing table";
   "  /waitdht [timeout]    Wait for DHT bootstrap (default: 30s)";
   "  /mdns                 Show mDNS discovery statistics";
   "  /network              Show comprehensive network health metrics";
   "                        (alias: /netmetrics)";
   "  /ipfslogs             Show IPFS network status (interactive)";
   "                        (aliases: /ipfs, /netstatus)";
   "  /netlog               Show network discovery log (interactive)";
   "                        (alias: /netinfo)";
   "";
   "Reputation:";
   "  /reputation           Show reputation summary";
   "                        (alias: /rep)";
   "  /reputation list      List all peers with reputation scores";
   "  /reputation tier      Show peers by tier (basic|contributor|reliable|trusted)";
   "  /reputation top [n]   Show top N peers by reputation";
   "";
   "System:";
   "  /help              Show this help message";
   "  /exit              Exit the application";
   "";
   "In chat mode:";
   "  - Type a message and press Enter to send";
   "  - Press Enter on an empty line to exit chat";
   "  - Incoming messages appear in real-time";
   "";
   "Interactive commands:";
   "  - /ipfslogs and /netlog run continuously";
   "  - Press Enter on an empty line to exit";
   "";
   "=============================="].

(** ** commands_network.go *)

Definition truncatePeerID (peerID : string) : string :=
  let n := String.length peerID in
  if (n <=? 16)%nat then peerID
  else String.substring 0 8 peerID +:+ "..." +:+ String.substring (n - 4) 4 peerID.

(** Division and remainder are those of Go. *)
Definition formatDuration (seconds : Z) : string :=
  if seconds <? 60 then dec seconds +:+ "s"
  else if seconds <? 3600 then dec (Z.quot seconds 60) +:+ "m " +:+ dec (Z.rem seconds 60) +:+ "s"
  else if seconds <? 86400 then dec (Z.quot seconds 3600) +:+ "h " +:+ dec (Z.quot (Z.rem seconds 3600) 60) +:+ "m"
  else dec (Z.quot seconds 86400) +:+ "d " +:+ dec (Z.quot (Z.rem seconds 86400) 3600) +:+ "h".

Definition calculateHealthScore (metrics : MetricsFull) (dhtInfo : DHTInfo) : f64 :=
  let plus (c : bool) (n : Z) (score : f64) := if c then f64_add score (f64_of_Z n) else score in
  let connections := CurrentConnections (mf_Metrics metrics) in
  let score := plus (0 <? connections) 20 f64_0 in
  let score := plus (3 <=? connections) 10 score in
  let score := plus (10 <=? connections) 10 score in
  let score := plus (0 <? di_RoutingTableSize dhtInfo) 15 score in
  let score := plus (5 <=? di_RoutingTableSize dhtInfo) 15 score in
  let score := f64_add score (f64_mul (mf_ConnectionSuccessRate metrics) (f64_of_Z 15)) in
  f64_add score (f64_mul (mf_MessageSuccessRate metrics) (f64_of_Z 15)).
End Display.
