(* ===== verification/Cli.v ===== *)
(** * pkg/cli: contacts, chats and groups

    [commands_contacts.go], [commands_chat.go], [commands_identity.go] and the
    group commands of [commands.go].  The handler of commands has the messaging
    service, with the storage and the node the handler uses itself: they are the
    same objects.  The groups' service writes to that storage, too; it reads clock
    and randomness of its own.  What is printed is the list of texts given to
    [output].  As in cmd/messenger, node and messaging service are there, and the
    tests whether they are nil are left out.

    The goroutine behind an interactive command ends as soon as it is cancelled
    here; Interactive.v looks at that more closely. *)
From S2P Require Import Prelude GoText GoFormat Primitives Crypto Proto Badger GroupState Storage Runtime GroupService Topic Float64 Metrics Node NodeInfo Messages Messaging Identity Display.
From S2P Require Reputation.
#[local] Open Scope string_scope.
#[local] Open Scope Z_scope.

Record CommandHandler {K : KV} {L : Libp2p} := mkHandler {
  messaging : Service K L;
  groups : option (Sys (@GroupService.Service K));
  reputationTracker : option Reputation.Tracker;
  ed25519PubKey : bytes; ed25519PrivKey : bytes; x25519PubKey : bytes; x25519PrivKey : bytes;
  inChatMode : bool; chatContactPubKey : bytes; chatContactName : string;
  inInteractiveMode : bool; interactiveCmd : string; interactiveCancel : bool;
  output : list string;
}.
Arguments CommandHandler K L : clear implicits.
Arguments mkHandler {K L}.
#[export] Instance eta_CommandHandler {K : KV} {L : Libp2p} : Eta (CommandHandler K L) := fun h =>
  mkHandler (messaging h) (groups h) (reputationTracker h) (ed25519PubKey h) (ed25519PrivKey h) (x25519PubKey h) (x25519PrivKey h)
    (inChatMode h) (chatContactPubKey h) (chatContactName h) (inInteractiveMode h) (interactiveCmd h) (interactiveCancel h) (output h).

Section Cli.
Context `{P : Primitives} {K : KV} {L : Libp2p} `{T : Terminal} `{B : Base58}.
Context `{!Codec Message} `{!Codec Envelope} `{!Codec SignedEnvelope} `{!Codec Contact} `{!Codec pbGroupState}
  `{!Codec pbSenderKeyDistribution}.
Abbreviation M := (GoM (Sys (CommandHandler K L))).

Definition NewCommandHandler (service : Service K L) (groupsSvc : option (Sys (@GroupService.Service K)))
    (tracker : option Reputation.Tracker) (edPub edPriv xPub xPriv : bytes) : CommandHandler K L :=
  mkHandler service groupsSvc tracker edPub edPriv xPub xPriv false [] "" false "" false [].

(** ** Calls *)

Definition with_messaging {A} (m : GoM (Sys (Service K L)) A) : M A := within messaging (fun s h => h <| messaging := s |>) m.
Definition with_ipfsNode {A} (m : GoM (Sys (Node L)) A) : M A := with_messaging (with_node m).
Definition with_storage {A} (m : GoM kv A) : M A := with_messaging (with_db m).

(** The groups' service finds the storage as it is and leaves it as it makes it. *)
Definition with_groups {A} (m : GoM (Sys (@GroupService.Service K)) A) : M A := fun w =>
  let h := obj w in
  match groups h with
  | None => (w, Panic)
  | Some g =>
      let '(g, r) := m (mkSys (env g) (obj g <| GroupService.s_storage := db (messaging h) |>)) in
      (mkSys (env w) (h <| groups := Some g |> <| messaging := messaging h <| db := GroupService.s_storage (obj g) |> |>), r)
  end.

Definition print (l : list string) : M unit := update (fun h => h <| output := (output h ++ l)%list |>).

(** [a, err := m; if err != nil { bad; return }; good] *)
Definition try {A} (m : M A) (bad : error -> M unit) (good : A -> M unit) : M unit := fun w =>
  match m w with (w', Ok a) => good a w' | (w', Err e) => bad e w' | (w', Panic) => (w', Panic) end.

Definition fail (message : string) : M unit := print [FormatErrorString message].
Definition failed (context : string) (err : error) : M unit := fail (context +:+ ": " +:+ error_Error err).

(** ** Keys *)

Definition decodePublicKey (pubKeyStr : string) : outcome bytes :=
  match base58_Decode pubKeyStr with
  | Some pubKey => Ok pubKey
  | None => ext "hex.DecodeString" (unhex pubKeyStr)
  end.

(** A key of 32 bytes. *)
Definition key32 (key : option bytes) : option bytes := k ← key; if (length k =? 32)%nat then Some k else None.

Definition parseContactArgs (args : list string) : string * bytes :=
  if (length args <? 2)%nat then ("", [])
  else
    let lastArg := List.last args "" in
    let with_key key := (if (2 <? length args)%nat then String.concat " " (List.removelast (drop 1 args)) else "", key) in
    match key32 (unhex lastArg) with
    | Some key => with_key key
    | None =>
        match key32 (base58_Decode lastArg) with
        | Some key => with_key key
        | None => (String.concat " " (drop 1 args), [])
        end
    end.

(** ** Contacts *)

Definition named (displayName : string) (pubKey : bytes) : string :=
  if bool_decide (displayName = "") then FormatPublicKeyBase58 pubKey else displayName.

Definition handleAdd (args : list string) : M unit :=
  match args with
  | [] =>
      print [FormatErrorString "Usage: /add <pubkey> [nickname]"; FormatInfo "Public key can be in hex or base58 format.";
             FormatInfo "To enable encryption, also share your X25519 key:"; FormatInfo "  /add <ed25519_pubkey> <nickname> <x25519_pubkey>"]
  | pubKeyStr :: _ =>
      match decodePublicKey pubKeyStr with
      | Ok pubKey =>
          if negb (length pubKey =? 32)%nat
          then fail ("Invalid public key length: expected 32 bytes, got " +:+ dec (Z.of_nat (length pubKey)))
          else
            try (with_storage (GetContact pubKey)) (failed "Error checking contacts") (fun existing =>
              match existing with
              | Some existing => print [FormatInfo "Contact already exists."; FormatContact 0 existing]
              | None =>
                  let '(displayName, x25519PubKey) := parseContactArgs args in
                  now ← time_now;
                  let contact := mkContact pubKey displayName (to_unix now) x25519PubKey "" [] 0 in
                  try (with_storage (AddContact contact)) (failed "Failed to add contact") (fun _ =>
                    let name := named displayName pubKey in
                    if (0 <? length x25519PubKey)%nat
                    then print [FormatSuccess ("Contact added: " +:+ name +:+ " (with encryption)")]
                    else print [FormatSuccess ("Contact added: " +:+ name);
                                FormatInfo "Note: No X25519 key provided. Message encryption will not work.";
                                FormatInfo "Ask contact to share their X25519 public key."])
              end)
      | _ => fail "Invalid public key format. Use hex or base58."
      end
  end.

Definition handleList : M unit :=
  try (with_storage ListContacts) (failed "Failed to list contacts") (fun contacts => print [FormatContactList contacts]).

Definition findContact (contactArg : string) : M Contact :=
  match Atoi contactArg with
  | Some idx =>
      contacts ← wrap "failed to list contacts" (with_storage ListContacts);
      if (idx <? 1) || (Z.of_nat (length contacts) <? idx)
      then throw (ErrText "invalid contact index: %d. Use /list to see contacts")
      else match contacts !! Z.to_nat (idx - 1) with Some contact => mret contact | None => panic end
  | None =>
      match decodePublicKey contactArg with
      | Ok pubKey =>
          contact ← wrap "failed to find contact" (with_storage (GetContact pubKey));
          match contact with
          | Some contact => mret contact
          | None => throw (ErrText "contact not found. Use /add to add them first")
          end
      | _ => throw (ErrText "invalid contact identifier. Use index or valid public key")
      end
  end.

(** ** Chats *)

Definition message_lines (messages : list MessageWithMeta) (contactName : string) : list string :=
  (fun m => FormatMessage (mm_Message m) contactName (IsOutgoing m)) <$> messages.

(** An error is only logged. *)
Definition loadAndDisplayHistory (contactPubKey : bytes) (limit : Z) : M unit :=
  try (with_messaging (GetDecryptedMessagesWithMeta contactPubKey limit 0)) (fun _ => mret tt) (fun messages =>
    match messages with
    | [] => print [FormatSystemMessage "No previous messages"]
    | _ =>
        let count := Z.of_nat (length messages) in
        _ ← print [FormatSystemMessage ("Loading " +:+ dec count +:+ " previous messages...")];
        h ← self;
        contact ← with_messaging (logged (with_db (GetContact contactPubKey)));
        let contactName := match contact with
                           | Some (Some c) => if bool_decide (c_DisplayName c = "") then chatContactName h else c_DisplayName c
                           | _ => chatContactName h
                           end in
        _ ← print (message_lines messages contactName);
        if count =? limit then print [FormatSystemMessage ("Showing last " +:+ dec limit +:+ " messages")] else mret tt
    end).

Definition handleChat (args : list string) : M unit :=
  match args with
  | [] => print [FormatErrorString "Usage: /chat <contact>"; FormatInfo "Contact can be specified by index (from /list) or public key."]
  | arg :: _ =>
      try (findContact arg) (fun err => fail (error_Error err)) (fun contact =>
        let pubKey := c_PublicKey contact in
        let name := named (c_DisplayName contact) pubKey in
        _ ← update (fun h => h <| inChatMode := true |> <| chatContactPubKey := pubKey |> <| chatContactName := name |>);
        _ ← print [FormatChatHeader name (FormatPublicKeyBase58 pubKey)];
        loadAndDisplayHistory pubKey 20)
  end.

Definition sendMessage (text : string) : M unit :=
  h ← self;
  if (length (chatContactPubKey h) =? 0)%nat then throw (ErrText "no active chat")
  else
    contact ← wrap "failed to get contact" (with_storage (GetContact (chatContactPubKey h)));
    match contact with
    | None => throw (ErrText "contact not found")
    | Some contact =>
        if negb (length (c_X25519PublicKey contact) =? 32)%nat
        then throw (ErrText "recipient X25519 key not available - ask contact to share their X25519 public key")
        else
          _ ← wrap "failed to send message" (with_messaging (SendMessageToContact text (chatContactPubKey h) (c_X25519PublicKey contact)));
          now ← time_now;
          print [FormatMessage (mkMessage text (to_unix now)) (chatContactName h) true]
    end.

(** The result of the two input handlers, [false], is left out. *)
Definition handleChatInput (input : string) : M unit :=
  if bool_decide (TrimSpace input = "") then
    _ ← update (fun h => h <| inChatMode := false |> <| chatContactPubKey := [] |> <| chatContactName := "" |>);
    print [FormatChatExit]
  else try (sendMessage input) (failed "Failed to send message") (fun _ => mret tt).

Definition handleHistory (args : list string) : M unit :=
  match args with
  | [] => print [FormatErrorString "Usage: /history <contact> [limit]"; FormatInfo "Contact can be specified by index or public key."]
  | arg :: rest =>
      let limit := match rest with
                   | l :: _ => match Atoi l with Some l => if 0 <? l then l else 10 | None => 10 end
                   | [] => 10
                   end in
      try (findContact arg) (fun err => fail (error_Error err)) (fun contact =>
        try (with_messaging (GetDecryptedMessagesWithMeta (c_PublicKey contact) limit 0)) (failed "Failed to get messages") (fun messages =>
          match messages with
          | [] => print [FormatInfo ("No messages with " +:+ c_DisplayName contact +:+ ".")]
          | _ =>
              print ([nl +:+ "=== History with " +:+ c_DisplayName contact +:+ " ===" +:+ nl]
                       ++ message_lines messages (named (c_DisplayName contact) (c_PublicKey contact))
                       ++ ["==========================" +:+ nl])
          end))
  end.

Definition GetChatContactPubKey (h : CommandHandler K L) : bytes := chatContactPubKey h.
Definition IsInChatMode (h : CommandHandler K L) : bool := inChatMode h.

(** ** The user's keys *)

Definition handleMyID : M unit :=
  h ← self;
  let node := ipfsNode (messaging h) in
  let peerID := node_PeerID node in
  print ([FormatInfo "Your Public Keys:"; "";
          "Ed25519 (for signatures and verification):";
          "  Hex:    " +:+ FormatPublicKey (ed25519PubKey h); "  Base58: " +:+ base58_Encode (ed25519PubKey h); "";
          "X25519 (for encryption - share this with contacts):";
          "  Hex:    " +:+ FormatPublicKey (x25519PubKey h); "  Base58: " +:+ base58_Encode (x25519PubKey h); "";
          FormatInfo "Share your X25519 public key with contacts so they can encrypt messages to you.";
          FormatInfo "Your Ed25519 key is used to verify your signatures."; ""]
         ++ (if isStarted node && (0 <? length (node_Multiaddrs node))%nat
             then FormatInfo "Your Node Multiaddr (for /connect command):"
                    :: ((fun addr => "  " +:+ addr +:+ "/p2p/" +:+ peerID) <$> node_Multiaddrs node)
             else []))%list.

(** ** Groups *)

Section Groups.
(** The order in which the groups are listed. *)
Variable order : gmap string GroupState -> list (string * GroupState).

Definition need_groups (m : M unit) : M unit :=
  h ← self; match groups h with None => fail "Groups service not available" | Some _ => m end.

(** [id[:8]] panics when there are fewer bytes. *)
Definition short_id (groupID : bytes) : outcome string := if (length groupID <? 8)%nat then Panic else Ok (hex (take 8 groupID)).

Definition handleCreateGroup (args : list string) : M unit :=
  need_groups
    match args with
    | name :: (_ :: _) as words =>
        try (with_groups (GroupService.CreateGroup name (String.concat " " (drop 1 args)) PrivateGroup)) (failed "Failed to create group") (fun state =>
          id ← lift (short_id (GroupID state));
          print [FormatSuccess ("Created group '" +:+ Name state +:+ "' (ID: " +:+ id +:+ ")");
                 FormatInfo ("Epoch: " +:+ dec (Epoch state) +:+ ", Members: " +:+ dec (Z.of_nat (length (Members state))))])
    | _ => fail "Usage: /creategroup <name> <description>"
    end.

Fixpoint group_lines (i : Z) (states : list GroupState) : outcome (list string) :=
  match states with
  | [] => Ok []
  | state :: states =>
      id ← short_id (GroupID state);
      rest ← group_lines (i + 1) states;
      Ok (["[" +:+ dec i +:+ "] " +:+ Name state +:+ " (Epoch: " +:+ dec (Epoch state) +:+ ", Members: "
             +:+ dec (Z.of_nat (length (Members state))) +:+ ")";
           "    ID: " +:+ id; "    Description: " +:+ Description state] ++ rest)%list
  end.

Definition handleListGroups : M unit :=
  need_groups
    (groupStates ← with_groups (GroupService.ListGroups order);
     match groupStates with
     | [] => print [FormatInfo "No groups found."]
     | _ =>
         lines ← lift (group_lines 1 groupStates);
         print [Lines (["" ; "=== Groups ==="] ++ lines ++ ["================"])]
     end).

(** The key the member is given is all zeros. *)
Definition handleInvite (args : list string) : M unit :=
  need_groups
    match args with
    | groupIDHex :: memberPubkeyBase58 :: (_ :: _) as words =>
        let displayName := String.concat " " (drop 2 args) in
        match ext "hex.DecodeString" (unhex groupIDHex) with
        | Ok groupID =>
            match ext "base58.Decode" (base58_Decode memberPubkeyBase58) with
            | Ok memberPubkey =>
                try (with_groups (GroupService.AddMember groupID memberPubkey (zeros 32) displayName Member)) (failed "Failed to invite member")
                  (fun state => print [FormatSuccess ("Invited " +:+ displayName +:+ " to group '" +:+ Name state +:+ "'")])
            | Err err => failed "Invalid public key (must be base58)" err
            | Panic => panic
            end
        | Err err => failed "Invalid group ID (must be hex)" err
        | Panic => panic
        end
    | _ => fail "Usage: /invite <group_id_hex> <member_pubkey_base58> [display_name]"
    end.

(** The mode does not change. *)
Definition handleGroupChat (args : list string) : M unit :=
  need_groups
    match args with
    | [] => fail "Usage: /groupchat <group_id_hex>"
    | groupIDHex :: _ =>
        match ext "hex.DecodeString" (unhex groupIDHex) with
        | Ok groupID =>
            try (with_groups (GroupService.GetGroup groupID)) (failed "Group not found") (fun state =>
              print [FormatSuccess ("Entered chat with group '" +:+ Name state +:+ "'");
                     FormatInfo "Type a message to send, or empty line to exit"])
        | Err err => failed "Invalid group ID (must be hex)" err
        | Panic => panic
        end
    end.
End Groups.
End Cli.
