(* ===== verification/CliNetwork.v ===== *)
(** * pkg/cli: the network and reputation

    [commands_network.go], [commands_debug.go] and [commands_reputation.go]: what
    the node, the contacts and the tracker of reputations tell, as texts, and the
    commands that connect and advertise.  The texts of an operation that only
    shows something are a function of what is shown ([peers_lines] and so on).
    Maps are walked through in the order of an argument. *)
From stdpp Require Import sorting.
From S2P Require Import Prelude GoText GoFormat Primitives Crypto Proto Badger GroupState Storage Runtime GroupService Topic Float64 Metrics Node NodeInfo Messages Messaging Identity Display Cli.
From S2P Require Reputation.
#[local] Open Scope string_scope.
#[local] Open Scope Z_scope.

Definition text_of (b : bytes) : string := String.string_of_list_byte b.
Definition count_text (n : Z) (what : string) : string := what +:+ ": " +:+ dec n.
Definition bool_text (b : bool) : string := if b then "true" else "false".

(** [l] with the first [n] shown, and how many more there are. *)
Definition first_of (n : nat) (total : Z) (prefix what : string) (show : nat -> string -> string) (l : list string) : list string :=
  (imap show (take n l) ++ (if (n <? length l)%nat then [prefix +:+ "... and " +:+ dec (total - Z.of_nat n) +:+ what] else []))%list.

Definition numbered (prefix : string) (i : nat) (s : string) : string := prefix +:+ dec (Z.of_nat i + 1) +:+ ". " +:+ s.
Definition bracketed (prefix : string) (i : nat) (s : string) : string :=
  prefix +:+ "[" +:+ dec (Z.of_nat i + 1) +:+ "] " +:+ truncatePeerID s.

Section Network.
Context `{P : Primitives} {K : KV} {L : Libp2p} `{T : Terminal} `{B : Base58}.
Context `{!Codec Message} `{!Codec Envelope} `{!Codec SignedEnvelope} `{!Codec Contact} `{!Codec pbGroupState}
  `{!Codec pbSenderKeyDistribution}.
Abbreviation M := (GoM (Sys (CommandHandler K L))).

Definition started_node (m : Node L -> M unit) : M unit :=
  h ← self;
  let n := ipfsNode (messaging h) in
  if isStarted n then m n else fail "IPFS node not started".

(** ** Connecting *)

Definition handleConnect (args : list string) : M unit :=
  match args with
  | [] => print [FormatErrorString "Usage: /connect <multiaddr>";
                 FormatInfo "Multiaddr format: /ip4/127.0.0.1/tcp/4001/p2p/QmPeerID";
                 FormatInfo "Get multiaddr from other node using /myid"]
  | addr :: _ => try (with_ipfsNode (ConnectToPeer addr)) (failed "Failed to connect") (fun _ => print [FormatSuccess "Connected to peer!"])
  end.

(** The address that is connected to ends with the bytes of the peer's id, not with its text. *)
Definition handleFind (args : list string) : M unit :=
  match args with
  | [] => print [FormatErrorString "Usage: /find <peer_id>"; FormatInfo "Peer ID format: 12D3KooW... (base58 encoded)"]
  | peerID :: _ =>
      started_node (fun n =>
        let size := di_RoutingTableSize (GetDHTInfo n) in
        if size =? 0 then
          print [FormatErrorString "DHT routing table is empty"; ""; FormatInfo "Run /waitdht first to wait for DHT bootstrap";
                 FormatInfo "Or use /connect <multiaddr> for direct connection"]
        else
          _ ← print [FormatInfo "Searching DHT for peer..."; "Target Peer ID: " +:+ peerID;
                     "Our routing table has " +:+ dec size +:+ " peers"];
          try (with_ipfsNode (FindPeer peerID))
            (fun err => print
               [FormatErrorString ("DHT lookup failed: " +:+ error_Error err); ""; FormatInfo "The peer may be:";
                "  - Not connected to the DHT"; "  - Behind a NAT without port forwarding"; "  - Not advertising themselves"; "";
                FormatInfo "Try:"; "  1. Ask the peer to run /advertise"; "  2. Get their multiaddr via /myid and use /connect";
                "  3. Run /dhtinfo to check your routing table"])
            (fun peerInfo =>
               _ ← print ([FormatSuccess "Found peer via DHT!"; ""; "Peer ID: " +:+ peer_String (ai_ID peerInfo);
                           "Addresses (" +:+ dec (Z.of_nat (length (ai_Addrs peerInfo))) +:+ "):"]
                          ++ imap (fun i addr => numbered "  " i (maddr_String addr +:+ "/p2p/" +:+ peerID)) (ai_Addrs peerInfo)
                          ++ [""; FormatInfo "Attempting to connect..."])%list;
               match ai_Addrs peerInfo with
               | [] => panic
               | addr :: _ =>
                   try (with_ipfsNode (ConnectToPeer (maddr_String addr +:+ "/p2p/" +:+ text_of (peer_bytes (ai_ID peerInfo)))))
                     (failed "Connection failed") (fun _ => print [FormatSuccess "Successfully connected to peer!"])
               end))
  end.

Definition handleAdvertise : M unit :=
  started_node (fun n =>
    _ ← print [FormatInfo "Advertising node to DHT..."];
    try (with_ipfsNode AdvertiseSelf) (failed "Advertisement failed") (fun _ =>
      print [FormatSuccess "Successfully advertised to DHT!"; ""; FormatInfo "Other nodes can now find you via:";
             "  /find <your_peer_id>"; ""; FormatInfo "Your Peer ID:"; "  " +:+ node_PeerID n])).

Definition reconnectAddr : string := "/ip4/104.131.131.82/tcp/4001/p2p/QmaCpDMGvV2BGHeYERUEnRQAwe3N8SzbUtfsmvsqQLuvuJ".

Definition handleReconnect : M unit :=
  started_node (fun _ =>
    _ ← print [nl +:+ "=== Reconnecting to Bootstrap Peers ===" +:+ nl; "";
               FormatInfo "Attempting to reconnect to bootstrap peers..."; ""; "Connecting to: " +:+ reconnectAddr];
    _ ← try (with_ipfsNode (ConnectToPeer reconnectAddr))
          (fun err => print
             [FormatErrorString ("Connection failed: " +:+ error_Error err); ""; FormatInfo "This peer may be offline. Try another:";
              "  /connect /ip4/104.236.179.241/tcp/4001/p2p/QmSoLPppuBtQSGwKDZT2M73ULpjvfd3aZ6ha4oFGL1KrGM"])
          (fun _ => print [FormatSuccess "Successfully connected!"; ""; FormatInfo "Peer is now in your routing table.";
                           FormatInfo "Run /bootstrap to verify connection."]);
    print [""; "====================================" +:+ nl]).

(** The state of the routing table at each tick is [sizes], as in [WaitForDHT]. *)
Definition handleWaitDHT (sizes : list nat) (args : list string) : M unit :=
  started_node (fun _ =>
    let timeout := match args with arg :: _ => default (30 * Second) (ParseDuration arg) | [] => 30 * Second end in
    _ ← print [FormatInfo ("Waiting for DHT bootstrap (timeout: " +:+ Duration_String timeout +:+ ")...")];
    start ← time_now;
    try (with_ipfsNode (WaitForDHT sizes)) (failed "Bootstrap wait failed") (fun _ =>
      now ← time_now;
      h ← self;
      print [FormatSuccess ("DHT bootstrap completed in " +:+ Duration_String (Duration_Round (100 * Millisecond) (Reputation.time_Since now start)));
             "Routing table now has " +:+ dec (di_RoutingTableSize (GetDHTInfo (ipfsNode (messaging h)))) +:+ " peers"])).

(** ** Peers *)

Definition bootstrap_lines (info : NetworkInfo) (peerID : string) : list string :=
  ([nl +:+ "=== Bootstrap Peer Status ===" +:+ nl; ""; "Your Peer ID: " +:+ peerID; "";
    count_text (ni_ConnectedPeerCount info) "Connected peers"; ""]
   ++ (if ni_ConnectedPeerCount info =? 0 then
         [FormatErrorString "Not connected to any peers"; ""; FormatInfo "Bootstrap connection may have failed. Try:";
          "  1. Check your internet connection"; "  2. Check firewall settings (outbound TCP)";
          "  3. Wait a few seconds for connection retry"; "  4. Use /connect <multiaddr> for direct connection"]
       else
         [FormatSuccess "Connected to bootstrap network"; ""; "Connected peers:"]
           ++ concat (imap (fun i peer => numbered "  " i (pi_ID peer) ::
                              match pi_Addresses peer with addr :: _ => ["     via: " +:+ addr] | [] => [] end) (ni_ConnectedPeers info)))
   ++ [""; "=============================" +:+ nl])%list.

Definition indented (title : string) (l : list string) : list string :=
  match l with [] => [] | _ => title :: ((fun s => "    " +:+ s) <$> l) end.

Definition peers_lines (info : NetworkInfo) : list string :=
  ([nl +:+ "=== Peer Connections ===" +:+ nl; count_text (ni_ConnectedPeerCount info) "Total connected peers" +:+ nl]
   ++ (if ni_ConnectedPeerCount info =? 0 then
         [FormatInfo "No peers connected."; ""; "To connect manually:"; "  1. Get your multiaddr with /myaddr";
          "  2. Share it with the other instance"; "  3. Use /connect <multiaddr> to connect"]
       else
         concat (imap (fun i peer => (nl +:+ "Peer #" +:+ dec (Z.of_nat i + 1) +:+ ": " +:+ pi_ID peer) ::
                         indented "  Addresses:" (pi_Addresses peer) ++ indented "  Protocols:" (pi_Protocols peer)) (ni_ConnectedPeers info)))
   ++ [nl +:+ "=========================" +:+ nl])%list.

Definition handleBootstrap : M unit := started_node (fun n => print (bootstrap_lines (GetNetworkInfo n) (node_PeerID n))).
Definition handlePeers : M unit := started_node (fun n => print (peers_lines (GetNetworkInfo n))).

Definition handleMyAddr : M unit :=
  started_node (fun n =>
    let peerID := node_PeerID n in
    print ([nl +:+ "=== Your Node Multiaddrs ===" +:+ nl; "Peer ID: " +:+ peerID +:+ nl; "Multiaddrs (share these with peers):"]
           ++ ((fun addr => "  " +:+ addr +:+ "/p2p/" +:+ peerID) <$> node_Multiaddrs n)
           ++ [""; FormatInfo "Use /connect <multiaddr> on another instance to connect."; "============================" +:+ nl])%list).

(** ** The DHT and mDNS *)

Definition dht_lines (info : DHTInfo) (peerID : string) : list string :=
  let size := di_RoutingTableSize info in
  ([nl +:+ "=== DHT Status ===" +:+ nl; "Peer ID: " +:+ peerID; "DHT Mode: " +:+ di_Mode info;
    "Routing Table Size: " +:+ dec size +:+ " peers"; count_text (di_ConnectedPeerCount info) "Connected Peers"; ""]
   ++ (if 0 <? size then
         [FormatSuccess "DHT routing table is populated"; ""; "Routing table peers (first 5):"]
           ++ first_of 5 size "  " " more" (bracketed "  ") (di_RoutingTablePeers info)
       else
         [FormatErrorString "DHT routing table is EMPTY"; ""; "DHT bootstrap may not have completed. Try:";
          "  /waitdht          - Wait for bootstrap to complete"; "  /bootstrap        - Reconnect to bootstrap peers";
          "  /connect <addr>   - Direct connection to a peer"; "  /dhtinfo          - Detailed routing table info"])
   ++ [""; "==================" +:+ nl])%list.

Definition dhtinfo_lines (info : DHTInfo) : list string :=
  let size := di_RoutingTableSize info in
  ([nl +:+ "=== DHT Routing Table Status ===" +:+ nl; "DHT Mode: " +:+ di_Mode info; "Routing Table Size: " +:+ dec size +:+ " peers";
    count_text (di_ConnectedPeerCount info) "Connected Peers"; "Has Bootstrap Connection: " +:+ bool_text (di_HasBootstrapConnection info); ""]
   ++ (if size =? 0 then
         [FormatErrorString "DHT routing table is EMPTY"; ""; "This means DHT bootstrap has not completed or failed."; "Try:";
          "  1. Wait a few seconds for bootstrap to complete"; "  2. Run /waitdht to wait for bootstrap";
          "  3. Run /bootstrap to reconnect to bootstrap peers"; "  4. Run /connect <multiaddr> for direct connection"]
       else
         [FormatSuccess "DHT routing table is populated"; ""; "Routing table peers:"]
           ++ first_of 10 size "  " " more" (bracketed "  ") (di_RoutingTablePeers info))
   ++ [""; "===============================" +:+ nl])%list.

Definition handleDHT : M unit := started_node (fun n => print (dht_lines (GetDHTInfo n) (node_PeerID n))).
Definition handleDHTInfo : M unit := started_node (fun n => print (dhtinfo_lines (GetDHTInfo n))).

Definition ago (now t : Z) : string := Duration_String (Duration_Round Second (Reputation.time_Since now t)) +:+ " ago".

(** The clock is read only when there is a time to compare it to. *)
Definition since (t : option Z) (never : string) : M string :=
  match t with None => mret never | Some t => now ← time_now; mret (ago now t) end.

Definition handleMDNS : M unit :=
  started_node (fun n =>
    let stats := GetMDnsStats n in
    let connected := ni_ConnectedPeerCount (GetNetworkInfo n) in
    _ ← print [nl +:+ "=== mDNS Discovery Status ===" +:+ nl; count_text (TotalDiscoveries stats) "Total mDNS discoveries"];
    last ← since (md_LastPeerFound stats) "Never";
    print (["Last peer found: " +:+ last; ""; count_text connected "Currently connected peers"; ""]
           ++ (if TotalDiscoveries stats =? 0 then
                 [FormatErrorString "No peers discovered via mDNS yet"; ""; "mDNS discovery may take a few seconds."; "If no peers are found:";
                  "  - Check if firewall allows mDNS (UDP port 5353)"; "  - Ensure both nodes use the same protocol ID";
                  "  - Try /connect <multiaddr> for manual connection"]
               else if connected =? 0 then
                 [FormatInfo "Peers were discovered but not currently connected"; "This may indicate connection failures or peer disconnections."]
               else [FormatSuccess "mDNS discovery is working"])
           ++ [""; "===============================" +:+ nl])%list).

(** ** The state of the network *)

Definition bottom : string := "└────────────────────────────────────────────────────────┘".
Definition percent (p : nat) (x : f64) : string := format_f p x +:+ "%".
Definition hundred (x : f64) : f64 := f64_mul x (f64_of_Z 100).

Definition healthStatus (metrics : MetricsFull) (dhtInfo : DHTInfo) : string :=
  let connections := CurrentConnections (mf_Metrics metrics) in
  if connections =? 0 then "CRITICAL - No connections"
  else if connections <? 3 then "WARNING - Low connectivity"
  else if di_RoutingTableSize dhtInfo <? 5 then "WARNING - Small routing table"
  else "HEALTHY".

Definition routing_lines (info : DHTInfo) : list string :=
  let size := di_RoutingTableSize info in
  if (0 <? size) && (size <=? 10) then "│ Routing Table Peers:" :: imap (bracketed "│   ") (di_RoutingTablePeers info)
  else if 10 <? size then
    ("│ Routing Table Peers:    " +:+ dec size +:+ " total (showing first 5)") :: imap (bracketed "│   ") (take 5 (di_RoutingTablePeers info))
  else [].

Section Status.
Variable order : gmap string Z -> list (string * Z).

Definition status_lines (m : MetricsFull) (info : DHTInfo) (lastBootstrap : string) : list string :=
  let n := mf_Metrics m in
  ([nl +:+ "╔════════════════════════════════════════════════════════╗"; "║        Babylon Tower - Network Health Metrics         ║";
    "╚════════════════════════════════════════════════════════╝"; "";
    "┌─ Node Information ───────────────────────────────────┐";
    "│ Peer ID:      " +:+ truncatePeerID (mf_PeerID m); "│ Uptime:       " +:+ formatDuration (UptimeSeconds n);
    "│ Started:      " +:+ time_Format timeFormat (StartTime n); bottom; "";
    "┌─ Connection Metrics ─────────────────────────────────┐";
    "│ Current Connections:    " +:+ dec (CurrentConnections n); "│ Total Connections:      " +:+ dec (TotalConnections n);
    "│ Total Disconnections:   " +:+ dec (TotalDisconnections n);
    "│ Connection Success Rate: " +:+ percent 1 (hundred (mf_ConnectionSuccessRate m));
    "│ Average Latency:        " +:+ dec (AverageLatencyMs n) +:+ " ms"; bottom; "";
    "┌─ Discovery Metrics ──────────────────────────────────┐";
    "│ DHT Discoveries:        " +:+ dec (DHTDiscoveries n); "│ mDNS Discoveries:       " +:+ dec (MDNSDiscoveries n);
    "│ Peer Exchange:          " +:+ dec (PeerExchangeDiscoveries n); "│ Discovery by Source:"]
   ++ ((fun p => "│   " +:+ pad_right 20 (p.1 +:+ ":") +:+ " " +:+ dec p.2) <$> order (mf_DiscoveryBySource m))
   ++ [bottom; ""; "┌─ DHT Status ─────────────────────────────────────────┐";
       "│ Routing Table Size:     " +:+ dec (di_RoutingTableSize info) +:+ " peers"; "│ DHT Mode:               " +:+ di_Mode info;
       "│ Has Bootstrap:          " +:+ bool_text (di_HasBootstrapConnection info)]
   ++ routing_lines info
   ++ [bottom; ""; "┌─ Message Metrics ────────────────────────────────────┐";
       "│ Successful Messages:    " +:+ dec (SuccessfulMessages n); "│ Failed Messages:        " +:+ dec (FailedMessages n);
       "│ Message Success Rate:   " +:+ percent 1 (hundred (mf_MessageSuccessRate m)); bottom; "";
       "┌─ Bootstrap Status ───────────────────────────────────┐";
       "│ Bootstrap Attempts:     " +:+ dec (BootstrapAttempts n); "│ Bootstrap Successes:    " +:+ dec (BootstrapSuccesses n);
       lastBootstrap; bottom; ""; "┌─ Network Health Summary ─────────────────────────────┐";
       "│ Status:  " +:+ healthStatus m info; "│ Score:   " +:+ percent 0 (calculateHealthScore m info); bottom; ""])%list.

Definition handleNetworkStatus : M unit :=
  started_node (fun n =>
    metrics ← with_ipfsNode GetMetricsFull;
    last ← (match LastBootstrapTime (mf_Metrics metrics) with
            | Some t => now ← time_now; mret ("│ Last Bootstrap:       " +:+ ago now t)
            | None => mret "│ Last Bootstrap:         Never"
            end);
    print (status_lines metrics (GetDHTInfo n) last)).
End Status.

Definition netdebug_lines (info : NetworkInfo) : list string :=
  ([nl +:+ "=== Network Debug Information ===" +:+ nl; ""; "Peer ID: " +:+ ni_PeerID info; ""; "Listen Addresses:"]
   ++ imap (numbered "  ") (ni_ListenAddrs info) ++ [""; count_text (ni_ConnectedPeerCount info) "Connected Peers"; ""]
   ++ (if 0 <? ni_ConnectedPeerCount info then
         "Connected:" :: concat (imap (fun i peer => numbered "  " i (pi_ID peer) ::
            (match pi_Addresses peer with addr :: _ => ["     via: " +:+ addr] | [] => [] end)
            ++ imap (fun j proto => match j with O => "     protocols: " +:+ proto | _ => "                " +:+ proto end) (pi_Protocols peer))
            (ni_ConnectedPeers info))
       else
         [FormatErrorString "NOT CONNECTED TO ANY PEERS"; ""; "Possible causes:"; "  1. Firewall blocking outbound TCP connections";
          "  2. DNS resolution failures"; "  3. Bootstrap peers unreachable"; "  4. Network isolation (container/VM)"; "";
          "Try these commands:"; "  /connect " +:+ reconnectAddr; ""; "Or check your firewall:";
          "  Windows: Allow outbound TCP on port 4001"; "  Linux: Check iptables/ufw rules"; "  Docker: Ensure network is not isolated"])
   ++ [""; "===================================" +:+ nl])%list.
Definition handleNetDebug : M unit := started_node (fun n => print (netdebug_lines (GetNetworkInfo n))).

(** ** Interactive displays *)

Definition start_interactive (cmd title : string) : M unit :=
  started_node (fun _ =>
    _ ← update (fun h => h <| inInteractiveMode := true |> <| interactiveCmd := cmd |> <| interactiveCancel := true |>);
    print [nl +:+ title; "Press Enter on an empty line to exit." +:+ nl]).
Definition handleIPFSLogs : M unit := start_interactive "ipfslogs" "=== IPFS Network Status (Interactive) ===".
Definition handleNetLog : M unit := start_interactive "netlog" "=== Network Discovery Log (Interactive) ===".

Definition displayIPFSStatus : M unit :=
  h ← self;
  now ← time_now;
  let info := GetNetworkInfo (ipfsNode (messaging h)) in
  print ((nl +:+ "[" +:+ time_Format "15:04:05" now +:+ "] Peer ID: " +:+ truncatePeerID (ni_PeerID info) +:+ " | Connected: "
            +:+ dec (ni_ConnectedPeerCount info) +:+ " peers")
         :: first_of 3 (ni_ConnectedPeerCount info) "  " " more peers" (fun _ s => "  → " +:+ truncatePeerID s) (pi_ID <$> ni_ConnectedPeers info)).

Definition displayNetLogStatus : M unit :=
  h ← self;
  now ← time_now;
  let info := GetNetworkInfo (ipfsNode (messaging h)) in
  print ((nl +:+ "[" +:+ time_Format "15:04:05" now +:+ "] Status: Running | Peers: " +:+ dec (ni_ConnectedPeerCount info) +:+ " | mDNS: ✓ | DHT: ✓")
         :: (if ni_ConnectedPeerCount info =? 0
             then ["  Waiting for peer discovery..."; "  - Start another node on this network"; "  - Or use /connect <multiaddr>"]
             else first_of 3 (ni_ConnectedPeerCount info) "  " " more" (bracketed "  ") (pi_ID <$> ni_ConnectedPeers info))).

(** A tick of the goroutine that is running. *)
Definition interactive_tick : M unit :=
  h ← self;
  if negb (interactiveCancel h) then mret tt
  else if bool_decide (interactiveCmd h = "ipfslogs") then displayIPFSStatus else displayNetLogStatus.

(** ** Contacts *)

Definition yes_no (b : bool) : string := if b then "Yes" else "No".
Definition table_row (name status online connected active mesh : string) : string :=
  pad_right 20 name +:+ " " +:+ pad_right 12 status +:+ " " +:+ pad_right 10 online +:+ " " +:+ pad_right 10 connected +:+ " "
    +:+ pad_right 8 active +:+ " " +:+ pad_right 8 mesh.

Definition status_name (status : ContactStatus) : outcome string :=
  name ← (if bool_decide (cs_DisplayName status = "")
          then short ← slice_to 8 (FormatPublicKeyBase58 (cs_PubKey status)); Ok (short +:+ "...")
          else Ok (cs_DisplayName status));
  Ok (if (18 <? String.length name)%nat then String.substring 0 18 name else name).

Fixpoint status_rows (statuses : list ContactStatus) : M unit :=
  match statuses with
  | [] => mret tt
  | status :: statuses =>
      name ← lift (status_name status);
      let statusStr := if cs_IsActive status then "●" else if cs_Connected status then "◉" else "○" in
      _ ← print (table_row name statusStr (yes_no (cs_IsOnline status)) (yes_no (cs_Connected status)) (yes_no (cs_IsActive status))
                   (dec (cs_MeshSize status))
                 :: (if bool_decide (cs_PeerID status = "") then [] else ["  └─ Peer: " +:+ truncatePeerID (cs_PeerID status)]));
      status_rows statuses
  end.

Definition handleContactStatus : M unit :=
  let ending := [""; "======================" +:+ nl] in
  _ ← print [nl +:+ "=== Contact Status ===" +:+ nl; ""];
  try (with_messaging GetAllContactStatuses) (failed "Failed to get contact statuses") (fun statuses =>
    match statuses with
    | [] => print (FormatInfo "No contacts in your contact list." :: FormatInfo "Use /add <pubkey> [name] to add contacts." :: ending)
    | _ =>
        _ ← print [table_row "Contact" "Status" "Online" "Connected" "Active" "Mesh"; repeat_string "─" 70];
        _ ← status_rows statuses;
        print (["" ; FormatInfo "Legend: ● Active contact, ◉ Connected, ○ Inactive";
                FormatInfo "Use /chat <contact> to start chatting with a contact."] ++ ending)%list
    end).

(** ** Reputation *)

Section Reputation.
Variable order : gmap bytes Reputation.PeerRecord -> list (bytes * Reputation.PeerRecord).

Definition with_tracker (m : Reputation.Tracker -> M unit) : M unit :=
  h ← self; match reputationTracker h with None => fail "Reputation tracker not available" | Some t => m t end.

Definition ask {A} (m : GoM (Sys Reputation.Tracker) A) (t : Reputation.Tracker) : M A := fun w =>
  (w, (m (mkSys (env w) t)).2).

Definition tier_line (name : string) (t : Reputation.Tier) (records : list (bytes * Reputation.PeerRecord)) : string :=
  "  " +:+ name +:+ dec (Reputation.count_tier t records.*2) +:+ " peers".

Definition handleReputationSummary : M unit :=
  with_tracker (fun tracker =>
    records ← ask Reputation.GetAllRecords tracker;
    let l := order records in
    let total := foldl (fun s p => f64_add s (Reputation.compositeScore p.2)) f64_0 l in
    let avg := f64_div total (f64_of_Z (Z.of_nat (length l))) in
    print [Lines
      (["" ; "=== Reputation Summary ==="; ""]
       ++ (if (length l =? 0)%nat
           then ["No reputation records yet."; "Reputation is automatically tracked as you interact with peers."]
           else ["Total peers tracked: " +:+ dec (Z.of_nat (length l)); "Average reputation score: " +:+ format_f 2 avg; ""; "Tier distribution:";
                 tier_line "Trusted (0.8-1.0):     " Reputation.TierTrusted l; tier_line "Reliable (0.6-0.8):    " Reputation.TierReliable l;
                 tier_line "Contributor (0.3-0.6): " Reputation.TierContributor l; tier_line "Basic (0.0-0.3):       " Reputation.TierBasic l])
       ++ ["" ; "Use /reputation list to see all peers"; "Use /reputation tier <name> to see peers by tier";
           "Use /reputation top [n] to see top N peers"])%list]).

Definition ratio (name : string) (x : f64) (rest : string) : string := "    " +:+ name +:+ ": " +:+ format_f 2 x +:+ " (" +:+ rest +:+ ")".
Definition of_total (a b : Z) : string := dec a +:+ "/" +:+ dec b.

Definition record_lines (i : nat) (p : bytes * Reputation.PeerRecord) : outcome (list string) :=
  let record := p.2 in
  let m := Reputation.metrics record in
  id ← slice_to 16 (text_of p.1);
  Ok (["[" +:+ dec (Z.of_nat i + 1) +:+ "] Peer: " +:+ id;
       "    Score: " +:+ format_f 3 (Reputation.compositeScore record) +:+ " (" +:+ Reputation.Tier_String (Reputation.tier record) +:+ ")";
       ratio "Relay" (Reputation.RelayReliability m) (of_total (Reputation.RelaySuccessCount m) (Reputation.RelayTotalCount m));
       ratio "Uptime" (Reputation.UptimeConsistency m) (dec (Reputation.HoursOnline7d m) +:+ "h/168h");
       ratio "Mailbox" (Reputation.MailboxReliability m) (of_total (Reputation.MailboxRetrievedCount m) (Reputation.MailboxDepositedCount m));
       ratio "DHT" (Reputation.DHTResponsiveness m) (format_f 0 (Reputation.AvgResponseMS m) +:+ "ms avg");
       ratio "Content" (Reputation.ContentServing m) (of_total (Reputation.BlocksServedCount m) (Reputation.BlocksRequestedCount m))]
      ++ match Reputation.attestations record with [] => [] | l => ["    Attestations: " +:+ dec (Z.of_nat (length l))] end
      ++ [""])%list.

(** The lines of a list of entries, or the panic of one of them. *)
Fixpoint all_lines {A} (f : nat -> A -> outcome (list string)) (i : nat) (l : list A) : outcome (list string) :=
  match l with
  | [] => Ok []
  | x :: l => a ← f i x; b ← all_lines f (S i) l; Ok (a ++ b)%list
  end.

(** By descending score; peers of one score come in the order of the map. *)
Definition by_score (p q : bytes * Reputation.PeerRecord) : Prop :=
  f64_lt (Reputation.compositeScore p.2) (Reputation.compositeScore q.2) = false.
#[local] Instance by_score_dec p q : Decision (by_score p q) := decide_rel (=) _ _.

Definition handleReputationList : M unit :=
  with_tracker (fun tracker =>
    records ← ask Reputation.GetAllRecords tracker;
    let l := order records in
    if (length l =? 0)%nat then print [FormatInfo "No reputation records yet."]
    else
      body ← lift (all_lines record_lines 0 (merge_sort by_score l));
      print [Lines (["" ; "=== Peer Reputation Records ==="; ""] ++ body ++ ["=============================="])%list]).

Definition tier_named (name : string) : option Reputation.Tier :=
  if bool_decide (name = "basic") then Some Reputation.TierBasic
  else if bool_decide (name = "contributor") then Some Reputation.TierContributor
  else if bool_decide (name = "reliable") then Some Reputation.TierReliable
  else if bool_decide (name = "trusted") then Some Reputation.TierTrusted else None.

(** A peer whose record is gone has no line. *)
Definition score_line (tier : bool) (tracker : Reputation.Tracker) (i : nat) (pid : bytes) : outcome (list string) :=
  match Reputation.records tracker !! pid with
  | None => Ok []
  | Some record =>
      id ← slice_to 16 (text_of pid);
      Ok ["[" +:+ dec (Z.of_nat i + 1) +:+ "] " +:+ id +:+ " - Score: " +:+ format_f 3 (Reputation.compositeScore record)
            +:+ (if tier then " (" +:+ Reputation.Tier_String (Reputation.tier record) +:+ ")" else "")]
  end.

Definition handleReputationTier (args : list string) : M unit :=
  with_tracker (fun tracker =>
    match args with
    | [] => fail "Usage: /reputation tier <basic|contributor|reliable|trusted>"
    | arg :: _ =>
        match tier_named (ToLower arg) with
        | None => fail "Invalid tier. Use: basic, contributor, reliable, or trusted"
        | Some target =>
            peers ← ask (Reputation.GetPeersByTier order target) tracker;
            body ← lift (match peers with
                         | [] => Ok ["No peers in " +:+ Reputation.Tier_String target +:+ " tier."]
                         | _ => all_lines (score_line false tracker) 0 peers
                         end);
            print [Lines (["" ; "=== " +:+ Reputation.Tier_String target +:+ " Tier Peers ==="; ""] ++ body ++ [""])%list]
        end
    end).

Definition handleReputationTop (args : list string) : M unit :=
  with_tracker (fun tracker =>
    match (match args with arg :: _ => Sscanf_int arg | [] => Some 10 end) with
    | None => fail "Invalid number. Usage: /reputation top [n]"
    | Some n =>
        let n := if n <=? 0 then 10 else n in
        topPeers ← ask (Reputation.GetTopPeers order n) tracker;
        body ← lift (match topPeers with
                     | [] => Ok ["No reputation records yet."]
                     | _ => all_lines (score_line true tracker) 0 topPeers
                     end);
        print [Lines (["" ; "=== Top " +:+ dec (Z.of_nat (length topPeers)) +:+ " Peers by Reputation ==="; ""] ++ body ++ [""])%list]
    end).

Definition handleReputation (args : list string) : M unit :=
  match args with
  | [] => handleReputationSummary
  | arg :: rest =>
      if bool_decide (arg = "list") then handleReputationList
      else if bool_decide (arg = "tier") then handleReputationTier rest
      else if bool_decide (arg = "top") then handleReputationTop rest
      else fail "Usage: /reputation [list|tier|top]"
  end.
End Reputation.
End Network.
