(* ===== verification/CliCommands.v ===== *)
(** * pkg/cli: commands and the main loop

    [HandleCommand] of [commands.go], over the handlers of Cli.v and
    CliNetwork.v, and [cli.go]: the loop that reads lines, beside the goroutine
    that takes incoming messages.  What happens to a running program is a list of
    [event]s; a line is handled to its end before the next event, as the outputs
    of the two goroutines do not depend on each other but for the mode.

    [order] and [sizes] stand for what is not determined: the order of maps and
    the routing table while it is waited for. *)
From S2P Require Import Prelude GoText GoFormat Primitives Crypto Proto Badger GroupState Storage Runtime GroupService Topic Float64 Metrics Node NodeInfo Messages Messaging Identity Display Cli CliNetwork.
From S2P Require Reputation.
#[local] Open Scope string_scope.
#[local] Open Scope Z_scope.

Record Orders := mkOrders {
  o_groups : gmap string GroupState -> list (string * GroupState);
  o_sources : gmap string Z -> list (string * Z);
  o_peers : gmap bytes Reputation.PeerRecord -> list (bytes * Reputation.PeerRecord);
  o_sizes : list nat;
}.

Section Commands.
Context `{P : Primitives} {K : KV} {L : Libp2p} `{T : Terminal} `{B : Base58}.
Context `{!Codec Message} `{!Codec Envelope} `{!Codec SignedEnvelope} `{!Codec Contact} `{!Codec pbGroupState}
  `{!Codec pbSenderKeyDistribution}.
Abbreviation M := (GoM (Sys (CommandHandler K L))).
Variable order : Orders.

(** ** Commands *)

Definition handleHelp : M unit := print [FormatHelp].

(** The wait for the goroutine is over at once here. *)
Definition exitInteractiveMode : M unit :=
  _ ← update (fun h => h <| inInteractiveMode := false |> <| interactiveCancel := false |>);
  print [nl +:+ "Exited interactive mode."].

Definition handleInteractiveInput (input : string) : M unit :=
  if bool_decide (TrimSpace input = "") then exitInteractiveMode else mret tt.

(** The commands by name; [None] for [/exit]. *)
Definition command (cmd : string) (args : list string) : option (M unit) :=
  let one_of (names : list string) := bool_decide (cmd ∈ names) in
  if one_of ["/help"] then Some handleHelp
  else if one_of ["/myid"] then Some handleMyID
  else if one_of ["/add"] then Some (handleAdd args)
  else if one_of ["/list"] then Some handleList
  else if one_of ["/chat"] then Some (handleChat args)
  else if one_of ["/history"] then Some (handleHistory args)
  else if one_of ["/connect"] then Some (handleConnect args)
  else if one_of ["/find"] then Some (handleFind args)
  else if one_of ["/advertise"] then Some handleAdvertise
  else if one_of ["/bootstrap"; "/bs"] then Some handleBootstrap
  else if one_of ["/reconnect"; "/retry"] then Some handleReconnect
  else if one_of ["/debug"; "/netdebug"] then Some handleNetDebug
  else if one_of ["/ipfslogs"; "/ipfs"; "/netstatus"] then Some handleIPFSLogs
  else if one_of ["/netlog"; "/netinfo"] then Some handleNetLog
  else if one_of ["/peers"] then Some handlePeers
  else if one_of ["/myaddr"] then Some handleMyAddr
  else if one_of ["/dht"] then Some handleDHT
  else if one_of ["/dhtinfo"] then Some handleDHTInfo
  else if one_of ["/waitdht"] then Some (handleWaitDHT (o_sizes order) args)
  else if one_of ["/mdns"] then Some handleMDNS
  else if one_of ["/network"; "/netmetrics"] then Some (handleNetworkStatus (o_sources order))
  else if one_of ["/contactstatus"; "/contacts"] then Some handleContactStatus
  else if one_of ["/creategroup"] then Some (handleCreateGroup args)
  else if one_of ["/listgroups"] then Some (handleListGroups (o_groups order))
  else if one_of ["/invite"] then Some (handleInvite args)
  else if one_of ["/groupchat"] then Some (handleGroupChat args)
  else if one_of ["/reputation"; "/rep"] then Some (handleReputation (o_peers order) args)
  else if one_of ["/exit"] then None
  else Some (fail ("Unknown command: " +:+ cmd +:+ ". Type /help for help.")).

(** Whether to exit. *)
Definition HandleCommand (input : string) : M bool :=
  let input := TrimSpace input in
  h ← self;
  if inInteractiveMode h then _ ← handleInteractiveInput input; mret false
  else if inChatMode h then _ ← handleChatInput input; mret false
  else if bool_decide (input = "") then mret false
  else if negb (HasPrefix input "/") then _ ← print [FormatInfo "Not a command. Type /help for available commands."]; mret false
  else
    match Fields input with
    | [] => mret false
    | word :: args =>
        match command (ToLower word) args with
        | Some m => _ ← m; mret false
        | None => mret true
        end
    end.

(** ** cli.go *)

(** The message of an event is always there: the service sends no others. *)
Definition handleIncomingMessage (event : MessageEvent) : M unit :=
  let key := me_ContactPubKey event in
  contact ← with_messaging (logged (with_db (GetContact key)));
  let name := match contact with Some (Some contact) => c_DisplayName contact | _ => "" end in
  let contactName := named name key in
  h ← self;
  let inChatWithSender := IsInChatMode h && bool_decide (GetChatContactPubKey h = key) in
  _ ← (if inChatWithSender then mret tt else print [FormatIncomingNotification contactName]);
  _ ← print [FormatMessage (me_Message event) contactName false];
  if inChatWithSender then mret tt else print [FormatInfo "Type /chat to reply."].

Definition banner (version : string) : M unit :=
  h ← self; print [FormatBanner version (FormatPublicKeyBase58 (ed25519PubKey h))].

(** A line that is read, or the end of the input or an error of it; a message the listener takes,
    which it may until it has seen that the context is cancelled; a tick of an interactive display; a
    signal, of which the first one counts. *)
Inductive event := Line (line : string) | EndOfInput (clean : bool) | Incoming | Tick | Signal.

(** Where the main loop is: it goes on, it will end when it has handled the line it waits
    for, or it ended, with or without an error. *)
Inductive loop := Reading | Cancelled | Ended (ok : bool).

Definition cli_step (e : event) (l : loop) : M loop :=
  match l, e with
  | Ended _, _ => mret l
  | _, Line line =>
      shouldExit ← HandleCommand line;
      mret (match l with Reading => if (shouldExit : bool) then Ended true else Reading | _ => Ended true end)
  | _, EndOfInput clean => mret (Ended clean)
  | _, Incoming =>
      e ← with_messaging receive_event;
      _ ← (match e with Some e => handleIncomingMessage e | None => mret tt end);
      mret l
  | _, Tick => _ ← interactive_tick; mret l
  | Cancelled, Signal => mret l
  | Reading, Signal => _ ← print [nl +:+ nl +:+ "Shutting down..."]; mret Cancelled
  end.

Fixpoint cli_run (events : list event) (l : loop) : M loop :=
  match events with
  | [] => mret l
  | e :: events => l ← cli_step e l; cli_run events l
  end.

Definition cli_Start (version : string) (events : list event) : M loop :=
  _ ← banner version; cli_run events Reading.
End Commands.
