(* ===== verification/Interactive.v ===== *)
(** * pkg/cli: leaving an interactive display

    [runInteractiveIPFSLogs] and [runInteractiveNetLog] of [commands_debug.go]
    run beside the main loop; [exitInteractiveMode] of [commands.go] cancels them
    and waits.  The two share the fields [interactiveCancel] and
    [interactiveDone] without a lock, and the goroutine reads
    [interactiveCancel] again in every round.  A state says where both are; a
    step is taken by one of them.  Whether the main loop gets out of its wait is
    decided by where the goroutine is when the field is reset. *)
From S2P Require Import Prelude.
From stdpp Require Import relations.

(** The goroutine: not yet running; at the top of its loop; in its [select], with the channel it
    read there, or with a nil channel; printing; returned. *)
Inductive routine := NotStarted | AtTop | InSelect (channel : bool) | Printing | Returned.

(** The main loop: reading lines in interactive mode; it closed the channel; it set the field to
    nil and waits for the goroutine; it is out. *)
Inductive main_loop := Interacting | Closed | Waiting | Out.

Record Interactive := mkInteractive {
  main_at : main_loop; routine_at : routine;
  cancel_field : bool; (* [interactiveCancel] is not nil *)
  cancel_closed : bool; done_closed : bool;
}.
#[export] Instance eta_Interactive : Eta Interactive := fun s =>
  mkInteractive (main_at s) (routine_at s) (cancel_field s) (cancel_closed s) (done_closed s).

(** After [handleIPFSLogs] or [handleNetLog]. *)
Definition launched : Interactive := mkInteractive Interacting NotStarted true false false.

(** The tick of the ticker may come at any time, also when the channel is closed: [select] then
    chooses one of the two. *)
Inductive interactive_step : Interactive -> Interactive -> Prop :=
  | enter_pressed s : main_at s = Interacting -> interactive_step s (s <| main_at := Closed |> <| cancel_closed := true |>)
  | field_reset s : main_at s = Closed -> interactive_step s (s <| main_at := Waiting |> <| cancel_field := false |>)
  | wait_over s : main_at s = Waiting -> done_closed s = true -> interactive_step s (s <| main_at := Out |>)
  | routine_starts s : routine_at s = NotStarted -> interactive_step s (s <| routine_at := AtTop |>)
  | routine_selects s : routine_at s = AtTop -> interactive_step s (s <| routine_at := InSelect (cancel_field s) |>)
  | routine_cancelled s : routine_at s = InSelect true -> cancel_closed s = true ->
      interactive_step s (s <| routine_at := Returned |> <| done_closed := true |>)
  | routine_ticks s b : routine_at s = InSelect b -> interactive_step s (s <| routine_at := Printing |>)
  | routine_printed s : routine_at s = Printing -> interactive_step s (s <| routine_at := AtTop |>).

(** What every state that is reached satisfies. *)
Definition in_mode (m : main_loop) : bool := match m with Interacting | Closed => true | _ => false end.
Record interactive_ok (s : Interactive) : Prop := {
  io_done : done_closed s = match routine_at s with Returned => true | _ => false end;
  io_field : cancel_field s = in_mode (main_at s);
  io_closed : cancel_closed s = match main_at s with Interacting => false | _ => true end;
}.

Lemma interactive_ok_step s s' : interactive_step s s' -> interactive_ok s -> interactive_ok s'.
Proof.
  intros Hstep [Hd Hf Hc]. split; destruct Hstep; cbn in *;
    repeat match goal with H : main_at _ = _ |- _ => rewrite H in * | H : routine_at _ = _ |- _ => rewrite H in * end; done.
Qed.

Lemma interactive_ok_reached s : rtc interactive_step launched s -> interactive_ok s.
Proof.
  assert (forall s0, rtc interactive_step s0 s -> interactive_ok s0 -> interactive_ok s) as H.
  { intros s0. induction 1; [done|]. eauto using interactive_ok_step. }
  intros Hr. apply (H _ Hr). by split.
Qed.

(** The goroutine will not see the channel any more. *)
Definition lost (s : Interactive) : Prop := main_at s = Waiting /\ routine_at s <> Returned /\ routine_at s <> InSelect true.

#[local] Instance routine_eq : EqDecision routine.
Proof. solve_decision. Defined.
#[local] Instance main_loop_eq : EqDecision main_loop.
Proof. solve_decision. Defined.
#[local] Instance lost_dec s : Decision (lost s).
Proof. unfold lost. apply _. Defined.

Lemma lost_step s s' : interactive_ok s -> lost s -> interactive_step s s' -> lost s'.
Proof.
  intros [Hd Hf Hc] (Hm & Hr & Hs) Hstep. rewrite Hm in Hf.
  unfold lost. destruct Hstep; cbn; rewrite ?Hf; try congruence; try done.
  all: rewrite Hd in *; by destruct (routine_at s).
Qed.

(** No continuation gets out of the wait, and there always is one: the display goes on. *)
Definition hangs (s : Interactive) : Prop :=
  forall s', rtc interactive_step s s' -> main_at s' = Waiting /\ exists s2, interactive_step s' s2.

Lemma lost_moves s : lost s -> exists s', interactive_step s s'.
Proof.
  intros (Hm & Hr & Hs). destruct (routine_at s) as [| |b| |] eqn:E; [| | | |done].
  - eexists. by apply routine_starts.
  - eexists. by apply routine_selects.
  - eexists. by eapply routine_ticks.
  - eexists. by apply routine_printed.
Qed.

Lemma lost_hangs s : interactive_ok s -> lost s -> hangs s.
Proof.
  intros Hok Hl s' Hs. assert (lost s') as Hl'; [|split; [apply Hl'|by apply lost_moves]].
  induction Hs; eauto using interactive_ok_step, lost_step.
Qed.

(** C20. When the main loop waits for an interactive display to end, what happens is decided by where the
    goroutine is.  If it had returned, the wait ends, and nothing else can happen.  If it is in its
    [select] with the channel that was closed, it takes either the channel, and has returned, or
    one more tick of its ticker, and the program hangs.  In any other case the program hangs: the
    goroutine reads the field, which is nil, and no continuation gets out of the wait. *)
Theorem interactive_exit s :
  rtc interactive_step launched s -> main_at s = Waiting ->
  match routine_at s with
  | Returned => forall s', interactive_step s s' <-> s' = s <| main_at := Out |>
  | InSelect true =>
      (forall s', interactive_step s s' -> (routine_at s' = Returned /\ main_at s' = Waiting) \/ hangs s') /\
      interactive_step s (s <| routine_at := Returned |> <| done_closed := true |>) /\ interactive_step s (s <| routine_at := Printing |>)
  | _ => hangs s
  end.
Proof.
  intros Hr Hw. pose proof (interactive_ok_reached _ Hr) as Hok.
  destruct (decide (lost s)) as [Hl|Hl]; [pose proof (lost_hangs s Hok Hl); destruct Hl as (_ & ? & ?); by destruct (routine_at s) as [| |[]| |]|].
  assert (routine_at s = Returned \/ routine_at s = InSelect true) as [E|E]
    by (unfold lost in Hl; destruct (routine_at s) as [| |[]| |]; naive_solver); rewrite E; destruct (Hok) as [Hd Hf Hc].
  - intros s'. split; [intros H; destruct H; try congruence; done|intros ->; apply wait_over; [done|by rewrite Hd, E]].
  - split; [|split; [by apply routine_cancelled; [|rewrite Hc, Hw]|by eapply routine_ticks]].
    intros s' H. pose proof (interactive_ok_step _ _ H Hok) as Hok'. destruct H; try congruence; [by rewrite Hd, E in *|by left|].
    right. apply lost_hangs; [done|]. by split.
Qed.

(** Enter is pressed while the display prints: the program hangs. *)
Definition hung : Interactive := mkInteractive Waiting Printing false true false.

Lemma hung_reached : rtc interactive_step launched hung.
Proof.
  eapply rtc_l; [by apply routine_starts|]. eapply rtc_l; [by apply routine_selects|]. eapply rtc_l; [by eapply routine_ticks|].
  eapply rtc_l; [by apply enter_pressed|]. apply rtc_once. by apply (field_reset (mkInteractive Closed Printing true true false)).
Qed.

Lemma interactive_exit_witness : main_at hung = Waiting /\ hangs hung.
Proof. split; [reflexivity|]. exact (interactive_exit hung hung_reached eq_refl). Defined.
