(* ===== verification/CliProps.v ===== *)
(** * pkg/cli: what the terminal guarantees

    In which mode the terminal is; that what is typed in a chat is shown by the
    terminal of the contact; that a contact that was added is found again, and the
    keys that are refused although they are well formed. *)
From S2P Require Import Prelude GoText GoFormat Primitives Crypto Proto Badger GroupState Storage StorageProps Runtime GroupService Topic Float64 Metrics Node NodeInfo NodeProps Messages Messaging MessagingProps Identity Display Cli CliNetwork CliCommands.
From S2P Require Reputation.
#[local] Open Scope string_scope.
#[local] Open Scope Z_scope.

#[local] Arguments with_storage : simpl never.
#[local] Arguments with_messaging : simpl never.
#[local] Arguments GetContact : simpl never.
#[local] Arguments handleIncomingMessage : simpl never.
#[local] Arguments SendMessage : simpl never.
#[local] Arguments SendMessageToContact : simpl never.

(** ** Modes *)

Section Modes.
Context `{P : Primitives} {K : KV} {L : Libp2p} `{T : Terminal} `{B : Base58}.
Context `{!Codec Message} `{!Codec Envelope} `{!Codec SignedEnvelope} `{!Codec Contact} `{!Codec pbGroupState}
  `{!Codec pbSenderKeyDistribution}.
Implicit Types h : CommandHandler K L.
Abbreviation M := (GoM (Sys (CommandHandler K L))).

Definition modes h : bool * bytes * string * bool * bool :=
  (inChatMode h, chatContactPubKey h, chatContactName h, inInteractiveMode h, interactiveCancel h).
Definition same_mode h h' : Prop := modes h = modes h'.
#[local] Instance same_mode_preorder : PreOrder same_mode.
Proof. split; [done|]. intros x y z; unfold same_mode; congruence. Qed.

(** Reading commands, a chat with a contact, or an interactive display: the contact is set in a chat
    only, and the display runs in its mode only. *)
Record modes_ok h : Prop := {
  mo_contact : inChatMode h = false -> chatContactPubKey h = [] /\ chatContactName h = "";
  mo_display : interactiveCancel h = inInteractiveMode h;
  mo_one : inInteractiveMode h = true -> inChatMode h = false;
}.

Lemma modes_ok_same h h' : same_mode h h' -> modes_ok h -> modes_ok h'.
Proof. unfold same_mode, modes. intros [= E1 E2 E3 E4 E5] [H1 H2 H3]. split; congruence || intros ?; rewrite <- ?E1, <- ?E2, <- ?E3, <- ?E4 in *; auto. Qed.

(** Keeping the mode: everything but a few commands does. *)
Abbreviation keeps := (respects same_mode).

Lemma keeps_print l : keeps (print l).
Proof. by intros w. Qed.
Lemma keeps_messaging {A} (m : GoM (Sys (Service K L)) A) : keeps (with_messaging m).
Proof. intros w. unfold with_messaging, within. by destruct (m _). Qed.
Lemma keeps_groups {A} (m : GoM (Sys (@GroupService.Service K)) A) : keeps (with_groups m).
Proof. intros w. unfold with_groups. destruct (groups (obj w)); [|done]. by destruct (m _). Qed.
Lemma keeps_ask {A} (m : GoM (Sys Reputation.Tracker) A) t : keeps (ask (L := L) m t).
Proof. by intros w. Qed.
Lemma keeps_try {A} (m : M A) bad good : keeps m -> (forall e, keeps (bad e)) -> (forall a, keeps (good a)) -> keeps (try m bad good).
Proof.
  intros Hm Hb Hg w. specialize (Hm w). unfold try. destruct (m w) as [w' [a|e|]]; cbn in Hm |- *; [etrans; [exact Hm|apply Hg]| |done].
  etrans; [exact Hm|apply Hb].
Qed.
Lemma wrap_keeps_mode {A} ctx (m : M A) : keeps m -> keeps (wrap ctx m).
Proof. intros H w. specialize (H w). unfold wrap. by destruct (m w). Qed.

Ltac keeps_step :=
  first
  [ apply respects_bind; [apply _| |intros ?] | apply keeps_try; [|intros ?|intros ?] | apply keeps_print | apply keeps_messaging
  | apply keeps_groups | apply keeps_ask | apply wrap_keeps_mode | solve [auto with respects]
  | match goal with |- context [match ?x with _ => _ end] => destruct x end ].
Ltac keeps_all := repeat keeps_step.

#[local] Hint Resolve keeps_print keeps_messaging keeps_groups keeps_ask : respects.

Lemma keeps_findContact arg : keeps (findContact arg).
Proof. unfold findContact, with_storage. keeps_all. Qed.
Lemma keeps_send text : keeps (sendMessage text).
Proof. unfold sendMessage, with_storage. keeps_all. Qed.
Lemma keeps_load c limit : keeps (loadAndDisplayHistory c limit).
Proof. unfold loadAndDisplayHistory. cbv zeta. keeps_all. Qed.
Lemma keeps_since t never : keeps (since (L := L) t never).
Proof. unfold since. keeps_all. Qed.
Lemma keeps_rows l : keeps (status_rows l).
Proof. induction l as [|s l IH]; cbn [status_rows]; cbv zeta; [auto with respects|]. repeat first [apply IH | keeps_step]. Qed.
#[local] Hint Resolve keeps_findContact keeps_send keeps_load keeps_since keeps_rows : respects.

Lemma keeps_started (m : Node L -> M unit) : (forall n, keeps (m n)) -> keeps (started_node m).
Proof. intros H. unfold started_node, fail. cbv zeta. repeat first [apply H | keeps_step]. Qed.
Lemma keeps_need (m : M unit) : keeps m -> keeps (need_groups m).
Proof. intros H. unfold need_groups, fail. repeat first [apply H | keeps_step]. Qed.
Lemma keeps_tracker (m : Reputation.Tracker -> M unit) : (forall t, keeps (m t)) -> keeps (with_tracker m).
Proof. intros H. unfold with_tracker, fail. repeat first [apply H | keeps_step]. Qed.

(** Unfold a handler and take it apart. *)
Ltac handler_keeps H :=
  unfold H, with_storage, with_ipfsNode, fail, failed; cbv zeta;
  repeat first [apply keeps_started; intros ? | apply keeps_need | apply keeps_tracker; intros ? | keeps_step].

Variable order : Orders.

(** The commands but for those that change the mode. *)
Lemma keeps_contacts args :
  keeps (handleAdd args) /\ keeps handleList /\ keeps (handleHistory args) /\ keeps handleMyID /\ keeps handleContactStatus.
Proof.
  split; [handler_keeps @handleAdd|]. split; [handler_keeps @handleList|]. split; [handler_keeps @handleHistory|].
  split; [handler_keeps @handleMyID|handler_keeps @handleContactStatus].
Qed.

Lemma keeps_group_commands args :
  keeps (handleCreateGroup args) /\ keeps (handleListGroups (o_groups order)) /\ keeps (handleInvite args) /\ keeps (handleGroupChat args).
Proof.
  split; [handler_keeps @handleCreateGroup|]. split; [handler_keeps @handleListGroups|].
  split; [handler_keeps @handleInvite|handler_keeps @handleGroupChat].
Qed.

Lemma keeps_network args :
  keeps (handleConnect args) /\ keeps (handleFind args) /\ keeps handleAdvertise /\ keeps handleBootstrap /\ keeps handleReconnect /\ keeps handleNetDebug /\ keeps handlePeers /\ keeps handleMyAddr.
Proof.
  split; [handler_keeps @handleConnect|]. split; [handler_keeps @handleFind|]. split; [handler_keeps @handleAdvertise|].
  split; [handler_keeps @handleBootstrap|]. split; [handler_keeps @handleReconnect|]. split; [handler_keeps @handleNetDebug|].
  split; [handler_keeps @handlePeers|handler_keeps @handleMyAddr].
Qed.

Lemma keeps_status args :
  keeps handleDHT /\ keeps handleDHTInfo /\ keeps (handleWaitDHT (o_sizes order) args) /\ keeps handleMDNS /\ keeps (handleNetworkStatus (o_sources order)) /\ keeps interactive_tick.
Proof.
  split; [handler_keeps @handleDHT|]. split; [handler_keeps @handleDHTInfo|]. split; [handler_keeps @handleWaitDHT|].
  split; [handler_keeps @handleMDNS|]. split; [handler_keeps @handleNetworkStatus|].
  unfold interactive_tick, displayIPFSStatus, displayNetLogStatus. cbv zeta. keeps_all.
Qed.

Lemma keeps_reputation args : keeps (handleReputation (o_peers order) args).
Proof.
  unfold handleReputation, handleReputationSummary, handleReputationList, handleReputationTier, handleReputationTop, fail. cbv zeta.
  repeat first [apply keeps_tracker; intros ? | keeps_step].
Qed.

Lemma keeps_incoming e : keeps (handleIncomingMessage e).
Proof. unfold handleIncomingMessage. cbv zeta. keeps_all. Qed.

(** *** Every event *)

(** From the command mode, and from any mode. *)
Definition sets_mode {A} (m : M A) : Prop := forall w,
  modes_ok (obj w) -> inInteractiveMode (obj w) = false -> inChatMode (obj w) = false -> modes_ok (obj (m w).1).
Definition ok_mode {A} (m : M A) : Prop := forall w, modes_ok (obj w) -> modes_ok (obj (m w).1).

Lemma keeps_ok {A} (m : M A) : keeps m -> ok_mode m.
Proof. intros H w. apply modes_ok_same, H. Qed.
Lemma keeps_sets {A} (m : M A) : keeps m -> sets_mode m.
Proof. intros H w Hw _ _. by apply (keeps_ok m H). Qed.

Lemma sets_chat args : sets_mode (handleChat args).
Proof.
  intros w Hok Hi Hc. unfold handleChat. destruct args as [|arg args]; [by apply keeps_ok|].
  pose proof (keeps_findContact arg w) as Hf. unfold try. destruct (findContact arg w) as [w' [c|e|]]; cbn in Hf |- *.
  - pose proof (modes_ok_same _ _ Hf Hok) as [H1 H2 H3]. injection Hf as _ _ _ Hi' Hd'. rewrite Hi in *.
    match goal with |- context [loadAndDisplayHistory ?p ?n] => pose proof (keeps_load p n) as Hl end.
    unfold print, update, mbind, GoM_bind. cbn [obj]. eapply modes_ok_same; [apply Hl|].
    split; cbn; [done|by rewrite <- H2|by rewrite <- Hi'].
  - by eapply modes_ok_same.
  - by eapply modes_ok_same.
Qed.

Lemma sets_interactive cmd title : sets_mode (start_interactive (L := L) cmd title).
Proof.
  intros w Hok Hi Hc. unfold start_interactive, started_node, self, mbind, GoM_bind. cbn.
  destruct (isStarted _); [|by apply keeps_ok]. destruct Hok as [H1 H2 H3]. by split.
Qed.

Lemma command_mode cmd args : match command order cmd args with Some m => sets_mode m | None => True end.
Proof.
  destruct (keeps_contacts args) as (? & ? & ? & ? & ?), (keeps_group_commands args) as (? & ? & ? & ?),
    (keeps_network args) as (? & ? & ? & ? & ? & ? & ? & ?), (keeps_status args) as (? & ? & ? & ? & ? & ?).
  pose proof (keeps_reputation args). unfold command. cbv zeta.
  repeat case_bool_decide;
    first [apply sets_chat | apply sets_interactive | apply keeps_sets; first [assumption | apply keeps_print] | exact I].
Qed.

Lemma command_line_mode input : ok_mode (HandleCommand order input).
Proof.
  intros w Hok. unfold HandleCommand, self. cbv zeta. unfold mbind at 1, GoM_bind at 1.
  destruct (inInteractiveMode (obj w)) eqn:Ei; [|destruct (inChatMode (obj w)) eqn:Ec].
  - unfold handleInteractiveInput. case_bool_decide; [|done]. destruct Hok as [H1 H2 H3]. split; cbn; [|done|done].
    exact H1.
  - unfold handleChatInput. case_bool_decide.
    + destruct Hok as [H1 H2 H3]. by split; cbn.
    + apply keeps_ok; [|done]. apply respects_bind; [apply _| |intros; auto with respects].
      unfold failed, fail. apply keeps_try; auto with respects.
  - case_bool_decide; [done|]. destruct (negb _); [by apply keeps_ok|]. destruct (Fields _) as [|word args]; [done|].
    pose proof (command_mode (ToLower word) args) as Hm. destruct (command _ _ _) as [m|]; [|done].
    specialize (Hm w Hok Ei Ec). unfold mbind, GoM_bind. by destruct (m w) as [w' [u|e|]].
Qed.

Lemma event_mode e l : ok_mode (cli_step order e l).
Proof.
  destruct e, l; cbn [cli_step]; try (by intros w); try solve [apply keeps_ok; repeat first [apply keeps_incoming | apply (keeps_status []) | keeps_step]].
  all: intros w Hok; pose proof (command_line_mode line w Hok) as H; unfold mbind, GoM_bind;
    by destruct (HandleCommand order line w) as [w' [b|e|]]; cbn in H |- *.
Qed.

(** C21. In every run of the terminal, whatever is typed, comes in or is signalled, it is in one of three
    modes: it reads commands, or it is in a chat, or it shows an interactive display.  The contact of
    the chat is set in a chat only; a display is being refreshed exactly in its mode. *)
Theorem modes_invariant service groupsSvc tracker edPub edPriv xPub xPriv version events e0 :
  modes_ok (obj (cli_Start order version events (mkSys e0 (NewCommandHandler service groupsSvc tracker edPub edPriv xPub xPriv))).1).
Proof.
  assert (forall l w, modes_ok (obj w) -> modes_ok (obj (cli_run order events l w).1)) as Hrun.
  { induction events as [|e events IH]; intros l w Hw; [done|]. cbn [cli_run]. pose proof (event_mode e l w Hw) as He.
    unfold mbind, GoM_bind. destruct (cli_step order e l w) as [w' [l'|err|]]; cbn in He |- *; auto. }
  unfold cli_Start, banner, print, self, update, mbind, GoM_bind. apply Hrun. by split.
Qed.
End Modes.

(** ** What is typed arrives *)

Section Chat.
Context `{P : Primitives} `{!PrimitiveLaws P} {K : KV} {L : Libp2p} `{T : Terminal} `{B : Base58}.
Context `{!Codec Message} `{!CodecLaws Message} `{!Codec Envelope} `{!CodecLaws Envelope} `{!Codec SignedEnvelope} `{!CodecLaws SignedEnvelope}
  `{!Codec Contact} `{!Codec pbGroupState} `{!Codec pbSenderKeyDistribution}.
Hypothesis marshal_nonempty : forall (e : Envelope) b, marshal e = Some b -> e_Ciphertext e <> [] -> b <> [].
Variable order : Orders.
Implicit Types w : Sys (CommandHandler K L).

Lemma with_messaging_run {A} (m : GoM (Sys (Service K L)) A) w w' r :
  with_messaging m w = (w', r) ->
  exists s, m (mkSys (env w) (messaging (obj w))) = (s, r) /\ w' = mkSys (env s) (obj w <| messaging := obj s |>).
Proof. unfold with_messaging, within. destruct (m _) as [s r'] eqn:E. intros [= <- ->]. eauto. Qed.

Lemma with_storage_read {A} (m : GoM kv A) w w' r :
  (forall d, (m d).1 = d) -> with_storage m w = (w', r) -> w' = w /\ r = (m (db (messaging (obj w)))).2.
Proof.
  intros Hm (s & H & ->)%with_messaging_run. unfold with_db, on, zoom in H. cbn in H. specialize (Hm (db (messaging (obj w)))).
  destruct (m _) as [d r']. cbn in Hm. subst. injection H as <- <-. split; [|done]. by destruct w as [? [[]]].
Qed.

(** Sending from a chat: the contact has a key, the message is sent under it and shown. *)
Lemma sendMessage_run text w w' :
  sendMessage text w = (w', Ok tt) ->
  exists contact s r t, (GetContact (chatContactPubKey (obj w)) (db (messaging (obj w)))).2 = Ok (Some contact) /\
    SendMessage text (chatContactPubKey (obj w)) (c_X25519PublicKey contact) (mkSys (env w) (messaging (obj w))) = (s, Ok r) /\
    messaging (obj w') = obj s /\
    output (obj w') = (output (obj w) ++ [FormatMessage (mkMessage text t) (chatContactName (obj w)) true])%list.
Proof.
  unfold sendMessage, print. intros H. run_split. destruct (length _ =? 0)%nat; run_split.
  match goal with H : with_storage _ _ = _ |- _ => apply with_storage_read in H as [-> Hc]; [|intros; apply GetContact_reads] end.
  match goal with x : option Contact |- _ => destruct x as [contact|]; run_split end.
  destruct (negb _); run_split.
  match goal with H : with_messaging _ _ = _ |- _ => apply with_messaging_run in H as (s & Hs & ->) end. run_split.
  subst. eexists contact, s, _, _. split; [by rewrite <- Hc|]. split; [exact Hs|]. split; reflexivity.
Qed.

(** Nothing is shown before the end. *)
Lemma sendMessage_silent text w w' e : sendMessage text w = (w', Err e) -> output (obj w') = output (obj w).
Proof.
  unfold sendMessage, self, mbind, GoM_bind. cbn. destruct (length _ =? 0)%nat; [by intros [= <- _]|].
  unfold wrap. destruct (with_storage (GetContact _) w) as [w1 r] eqn:E. apply with_storage_read in E as [-> ->]; [|intros; apply GetContact_reads].
  destruct (GetContact _ _) as [d [[contact|]|e'|]]; cbn; try by intros [= <- _].
  destruct (negb _); cbn; [by intros [= <- _]|].
  destruct (with_messaging (SendMessageToContact _ _ _) w) as [w1 r] eqn:E. apply with_messaging_run in E as (s & _ & ->).
  destruct r; cbn; by intros [= <- _].
Qed.

(** What the terminal shows of a message that came in. *)
Definition shown (h : CommandHandler K L) (sender : bytes) (name : string) (m : Message) : list string :=
  if inChatMode h && bool_decide (chatContactPubKey h = sender) then [FormatMessage m name false]
  else [FormatIncomingNotification name; FormatMessage m name false; FormatInfo "Type /chat to reply."].

Lemma incoming_shown e w :
  exists w' name, handleIncomingMessage e w = (w', Ok tt) /\
    output (obj w') = (output (obj w) ++ shown (obj w) (me_ContactPubKey e) name (me_Message e))%list.
Proof.
  unfold handleIncomingMessage, shown, IsInChatMode, GetChatContactPubKey. cbv zeta.
  destruct (with_messaging (logged (with_db (GetContact (me_ContactPubKey e)))) w) as [w1 r] eqn:E.
  assert (exists o, r = Ok o /\ w1 = w) as (o & -> & ->).
  { apply with_messaging_run in E as (s & H & ->). unfold logged, with_db, on, zoom in H. cbn in H.
    destruct (GetContact_reads (me_ContactPubKey e) (db (messaging (obj w)))) as [Hd Hn]. destruct (GetContact _ _) as [d o].
    cbn in Hd, Hn. subst d. assert (mkSys (env w) (obj w <| messaging := messaging (obj w) <| db := db (messaging (obj w)) |> |>) = w) as Ew
      by by destruct w as [? [[]]].
    destruct o as [a|err|]; [| |done]; injection H as <- <-; cbn; eexists; split; try reflexivity; exact Ew. }
  unfold mbind, GoM_bind. rewrite E. unfold self, print, update. cbn.
  destruct (inChatMode (obj w) && _); cbn; eexists _, _; split; try reflexivity; cbn; by rewrite <- ?app_assoc.
Qed.

(** C3. A line that is typed in a chat and is not blank is not lost without a word: either the terminal
    says that sending failed, or it shows the message and has published, under the topic of the
    contact, bytes that the contact's terminal makes the same text of: once the contact's listener has
    received them, the next event its terminal handles shows the text, under the sender's name. *)
Theorem typed_text_arrives line w w' b :
  let h := obj w in
  let text := TrimSpace line in
  let sender := OwnEd25519PubKey (config (messaging h)) in
  ed_keypair sender (OwnEd25519PrivKey (config (messaging h))) ->
  inChatMode h = true -> inInteractiveMode h = false -> TrimSpace text <> "" ->
  HandleCommand order line w = (w', Ok b) ->
  (exists e, output (obj w') = output h ++ [FormatErrorString ("Failed to send message: " +:+ error_Error e)])%list \/
  exists bs n contact t',
    (GetContact (chatContactPubKey h) (db (messaging h))).2 = Ok (Some contact) /\
    output (obj w') = (output h ++ [FormatMessage (mkMessage text t') (chatContactName h) true])%list /\
    ps_Publish (TopicFromPublicKey (chatContactPubKey h)) bs n = Some (the_net (ipfsNode (messaging (obj w')))) /\
    forall wB, let sB := messaging (obj wB) in
      x25519 (OwnX25519PrivKey (config sB)) Basepoint = Some (c_X25519PublicKey contact) ->
      length (OwnX25519PrivKey (config sB)) = 32%nat -> listening sB = true -> messageChan sB = [] ->
      exists wB1 wB2 name,
        with_messaging (listen_message bs) wB = (wB1, Ok tt) /\ cli_step order Incoming Reading wB1 = (wB2, Ok Reading) /\
        output (obj wB2) = (output (obj wB) ++ shown (obj wB) sender name (mkMessage text (to_unix (clock (env w) 0))))%list.
Proof.
  intros h text sender Hk Hc Hi Hb H. unfold HandleCommand, self in H. cbv zeta in H. unfold mbind at 1, GoM_bind at 1 in H.
  fold h text in H. rewrite Hi, Hc in H. unfold handleChatInput in H. rewrite bool_decide_eq_false_2 in H by done.
  unfold try, mbind, GoM_bind in H. destruct (sendMessage text w) as [w1 [[]|e|]] eqn:E; [right|left|done].
  2: { apply sendMessage_silent in E. injection H as <- <-. exists e. cbn. by rewrite E. }
  injection H as <- <-. apply sendMessage_run in E as (contact & s & r & t' & Hct & Hs & Hm & Ho).
  apply SendMessage_sent in Hs as [Hmsg _ (p & k & e & bs & enc & n1 & n2 & Ep & Hse & Hsig & Hbs & Hpub & Hnet & _) _].
  exists bs, n1, contact, t'. split; [done|]. split; [done|].
  split; [by rewrite Hm, Hnet|]. intros wB sB Hx Lx Hl Hch.
  destruct (signed_parses marshal_nonempty _ _ _ _ Hk ltac:(eauto) Hsig) as (_ & Hsend & _ & _ & Hparse).
  pose proof (open_signed_sealed marshal_nonempty _ _ _ _ _ _ _ _ Hk Hse Hsig Hx Lx) as Hop. rewrite (ParseMessage_marshal _ _ Ep) in Hop.
  destruct (processEnvelope_run bs _ _ (mkSys (env wB) sB) (Hparse _ Hbs) Hop) as (env' & Hrun). cbn [obj env] in Hrun. rewrite Hch in Hrun.
  assert (exists sB', with_messaging (listen_message bs) wB = (mkSys env' (obj wB <| messaging := sB' |>), Ok tt) /\
    messageChan sB' = [mkMessageEvent sender (mkMessage text (to_unix (clock (env w) 0))) (sr_SignedEnvelope r)]) as (sB' & Hli & Hch').
  { eexists. unfold with_messaging, within, listen_message, handlePubSubMessage, self, logged, mbind, GoM_bind. cbn [obj]. fold sB.
    rewrite Hl, Hrun. split; [reflexivity|]. cbn. by rewrite Hsend, Hmsg. }
  destruct (incoming_shown (mkMessageEvent sender (mkMessage text (to_unix (clock (env w) 0))) (sr_SignedEnvelope r))
    (mkSys env' (obj wB <| messaging := sB' |> <| messaging := sB' <| messageChan := [] |> |>))) as (wB2 & name & Hin & Hout).
  eexists _, wB2, name. split; [exact Hli|]. cbn [cli_step]. unfold with_messaging, within, receive_event, self, update, mbind, GoM_bind.
  cbn. rewrite Hch'. cbn. rewrite Hin. split; [done|]. exact Hout.
Qed.
End Chat.

(** ** Contacts *)

Section Contacts.
Context `{P : Primitives} {K : KV} `{!KVLaws K} {L : Libp2p} `{T : Terminal} `{B : Base58}.
Context `{!Codec Message} `{!Codec Envelope} `{!Codec SignedEnvelope} `{!Codec Contact} `{!CodecLaws Contact} `{!Codec pbGroupState}
  `{!Codec pbSenderKeyDistribution}.
Implicit Types w : Sys (CommandHandler K L).

Lemma AddContact_found c d d' : AddContact c d = (d', Ok tt) -> GetContact (c_PublicKey c) d' = (d', Ok (Some c)).
Proof.
  unfold AddContact, mbind, GoM_bind, lift, proto_Marshal. destruct (marshal c) as [data|] eqn:Em; [|done]. cbn. intros H%db_set_Ok.
  eapply db_get_found; [by eapply kv_get_set|]. unfold proto_Unmarshal. by rewrite (unmarshal_marshal _ _ Em).
Qed.

Lemma AddContact_error c d d' e : AddContact c d = (d', Err e) -> d' = d.
Proof.
  unfold AddContact, mbind, GoM_bind, lift, proto_Marshal, db_set. destruct (marshal c); cbn; [|by intros [=]].
  by destruct (kv_set _ _ d); intros [=].
Qed.

Lemma parse_name_and_key key words xkey x :
  key32 (unhex xkey) = Some x -> parseContactArgs (key :: words ++ [xkey]) = (String.concat " " words, x).
Proof.
  intros H. unfold parseContactArgs. cbn [length]. rewrite length_app. cbn [length].
  destruct (Nat.ltb_spec (S (length words + 1)) 2); [lia|].
  change (key :: words ++ [xkey])%list with ((key :: words) ++ [xkey])%list. rewrite List.last_last. cbv zeta. rewrite H.
  assert (drop 1 ((key :: words) ++ [xkey]) = words ++ [xkey])%list as -> by done. rewrite List.removelast_last. destruct words; [done|]. cbn [length].
  destruct (Nat.ltb_spec 2 (S (S (length words) + 1))); [done|lia].
Qed.

Lemma findContact_key key pub contact w :
  Atoi key = None -> decodePublicKey key = Ok pub -> GetContact pub (db (messaging (obj w))) = (db (messaging (obj w)), Ok (Some contact)) ->
  findContact key w = (w, Ok contact).
Proof.
  intros Ha Hd Hg. unfold findContact. rewrite Ha, Hd. unfold wrap, mbind, GoM_bind.
  destruct (with_storage (GetContact pub) w) as [w1 r] eqn:E. apply with_storage_read in E as [-> ->]; [|intros; apply GetContact_reads].
  by rewrite Hg.
Qed.

(** C22. [/add <key> <name...> <x25519 key>] with keys of the right form and a contact that is not there
    yet either says that it failed, or adds the contact, who is found under the same text of the key;
    and [/chat] with it enters a chat with that contact. *)
Theorem added_contact_found key words xkey pub x w w' :
  decodePublicKey key = Ok pub -> Atoi key = None -> length pub = 32%nat -> key32 (unhex xkey) = Some x ->
  (GetContact pub (db (messaging (obj w)))).2 = Ok None ->
  handleAdd (key :: words ++ [xkey]) w = (w', Ok tt) ->
  (exists e, output (obj w') = output (obj w) ++ [FormatErrorString ("Failed to add contact: " +:+ error_Error e)])%list \/
  exists t, let contact := mkContact pub (String.concat " " words) (to_unix t) x "" [] 0 in
    findContact key w' = (w', Ok contact) /\
    (let h := obj (handleChat [key] w').1 in
     inChatMode h = true /\ chatContactPubKey h = pub /\ chatContactName h = named (String.concat " " words) pub).
Proof.
  intros Hd Ha Hl Hx Hg. unfold handleAdd. rewrite Hd, Hl, (parse_name_and_key _ _ _ _ Hx). cbn [Nat.eqb negb]. unfold try.
  destruct (with_storage (GetContact pub) w) as [w1 r] eqn:E. apply with_storage_read in E as [-> ->]; [|intros; apply GetContact_reads].
  rewrite Hg. unfold time_now, mbind, GoM_bind. set (contact := mkContact _ _ _ _ _ _ _). set (w1 := mkSys _ _).
  unfold with_storage. destruct (with_messaging (with_db (AddContact contact)) w1) as [w2 r] eqn:E.
  apply with_messaging_run in E as (s & Hs & ->). unfold with_db, on, zoom in Hs. cbn in Hs.
  destruct (AddContact contact (db (messaging (obj w)))) as [d [[]|e|]] eqn:Ea; injection Hs as <- <-; [intros H; right|intros [= <-]; left; by exists e|done].
  apply AddContact_found in Ea. exists (clock (env w) 0). fold contact.
  assert (exists w3, w' = w3 /\ db (messaging (obj w3)) = d) as (w3 & -> & Hdb).
  { destruct (0 <? length x)%nat; injection H as <-; eexists; split; reflexivity. }
  assert (findContact key w3 = (w3, Ok contact)) as Hf by (eapply findContact_key; [done|done|rewrite Hdb; exact Ea]).
  split; [exact Hf|]. unfold handleChat, try. rewrite Hf.
  unfold print, update, mbind, GoM_bind. cbn [obj].
  match goal with |- context [loadAndDisplayHistory ?p ?n ?w4] =>
    pose proof (keeps_load p n w4) as Hk; destruct (loadAndDisplayHistory p n w4) as [w5 r] end.
  injection Hk as E1 E2 E3 _ _. cbn. by rewrite <- E1, <- E2, <- E3.
Qed.

(** A key in hex that base58 reads, too, is taken for the latter: it is refused if that has another
    length. *)
Lemma hex_key_refused s b args w :
  base58_Decode s = Some b -> length b <> 32%nat ->
  exists w', handleAdd (s :: args) w = (w', Ok tt) /\ messaging (obj w') = messaging (obj w) /\
    output (obj w') = (output (obj w) ++
      [FormatErrorString ("Invalid public key length: expected 32 bytes, got " +:+ dec (Z.of_nat (length b)))])%list.
Proof.
  intros Hb Hl. unfold handleAdd, decodePublicKey. rewrite Hb. apply Nat.eqb_neq in Hl. rewrite Hl. cbn [negb].
  eexists. split; [reflexivity|]. done.
Qed.
End Contacts.

(** ** Examples *)
Module CliDemo.
Import NodeDemo MessagingDemo.

(** base58, with its alphabet. *)
Definition alphabet : string := "123456789ABCDEFGHJKLMNPQRSTUVWXYZabcdefghijkmnopqrstuvwxyz".
Definition digit58 (n : Z) : ascii := default " "%char (String.get (Z.to_nat n) alphabet).
Fixpoint digits58 (fuel : nat) (n : Z) (acc : string) : string :=
  match fuel with O => acc | S fuel => if n =? 0 then acc else digits58 fuel (n / 58) (String (digit58 (n mod 58)) acc) end.
Definition value58 (c : ascii) : option Z := Z.of_nat <$> String.index 0 (String c EmptyString) alphabet.
Fixpoint number58 (acc : Z) (s : string) : option Z :=
  match s with EmptyString => Some acc | String c s => v ← value58 c; number58 (58 * acc + v) s end.
Fixpoint ones (s : string) : nat := match s with String "1" s => S (ones s) | _ => 0 end.
Fixpoint front_zeros (b : bytes) : nat := match b with Byte.x00 :: b => S (front_zeros b) | _ => 0 end.
Definition bytes_of (n : Z) : bytes := if n =? 0 then [] else be_encode (Z.to_nat (Z.log2 n / 8) + 1) n.

#[export] Instance base58 : Base58 := {|
  base58_Encode b := repeat_string "1" (front_zeros b) +:+ digits58 (2 * length b) (be_decode b) "";
  base58_Decode s := n ← number58 0 s; Some (zeros (ones s) ++ bytes_of n)%list;
|}.
#[export] Instance terminal : Terminal := {|
  error_Error e := match e with ErrText s => s | ErrWrap s _ => s | ErrExt s => s end; time_Format _ t := dec (t / SecondNs);
|}.
#[export] Instance groups_codec : Codec pbGroupState := {| marshal _ := None; unmarshal _ := None |}.
#[export] Instance keys_codec : Codec pbSenderKeyDistribution := {| marshal _ := None; unmarshal _ := None |}.

Example base58_example : base58_Encode (str "Hello World!") = "2NEpo7TZRRrLZSi2U" /\ base58_Decode "2NEpo7TZRRrLZSi2U" = Some (str "Hello World!").
Proof. vm_compute. done. Qed.

Definition orders : Orders := mkOrders map_to_list map_to_list map_to_list [].

(** Alice is in a chat with Bob, and Bob reads commands. *)
Definition bob_key : bytes := OwnEd25519PubKey (keys Byte.x02).
Definition handler (s : Service gmap_kv demo_p2p) : CommandHandler gmap_kv demo_p2p := NewCommandHandler s None None [] [] [] [].
Definition alice_term : Sys (CommandHandler gmap_kv demo_p2p) :=
  mkSys (env alice) (handler (obj alice) <| inChatMode := true |> <| chatContactPubKey := bob_key |> <| chatContactName := "Bob" |>).
Definition bob_term : Sys (CommandHandler gmap_kv demo_p2p) := mkSys (env bob) (handler (obj bob)).
Definition typed := HandleCommand orders " hello " alice_term.

Lemma typed_ok : typed = (typed.1, Ok false).
Proof. apply run_pair. vm_compute. reflexivity. Qed.

(** Carol is added by her key in base58 and chatted with. *)
Definition carol_key : bytes := OwnEd25519PubKey (keys Byte.x03).
Definition add_carol := handleAdd [base58_Encode carol_key; "Carol"; hex (OwnX25519PubKey (keys Byte.x03))] bob_term.
Lemma carol_added : add_carol = (add_carol.1, Ok tt).
Proof. apply (run_pair (handleAdd _)). vm_compute. reflexivity. Qed.

(** A key in hex without the digit 0. *)
Definition dave_key : bytes := replicate 32 Byte.x5a.
Example hex_key_example : length dave_key = 32%nat /\ unhex (hex dave_key) = Some dave_key /\
  (exists w', handleAdd [hex dave_key; "Dave"] bob_term = (w', Ok tt) /\
     output (obj w') = [FormatErrorString "Invalid public key length: expected 32 bytes, got 47"]).
Proof.
  split; [done|]. split; [vm_compute; reflexivity|].
  destruct (hex_key_refused (hex dave_key) (default [] (base58_Decode (hex dave_key))) ["Dave"] bob_term) as (w' & H & _ & Ho); [vm_compute; reflexivity|by vm_compute|].
  exists w'. split; [exact H|]. rewrite Ho. vm_compute. reflexivity.
Qed.
End CliDemo.
Import NodeDemo MessagingDemo CliDemo.

Lemma typed_text_arrives_witness :
  exists bs n wB1 wB2 name,
    ps_Publish (TopicFromPublicKey bob_key) bs n = Some (the_net (ipfsNode (messaging (obj typed.1)))) /\
    with_messaging (listen_message bs) bob_term = (wB1, Ok tt) /\ cli_step orders Incoming Reading wB1 = (wB2, Ok Reading) /\
    output (obj wB2) = [FormatIncomingNotification name; FormatMessage (mkMessage "hello" 100) name false; FormatInfo "Type /chat to reply."].
Proof.
  destruct (typed_text_arrives envelope_nonempty orders " hello " alice_term typed.1 false (keys_pair Byte.x01) eq_refl eq_refl ltac:(by vm_compute) typed_ok)
    as [(e & He)|(bs & n & contact & t' & Hc & _ & Hp & H)].
  - exfalso. apply (f_equal (fun l => String.substring 0 3 <$> l)) in He. vm_compute in He. discriminate He.
  - assert (contact = bob_contact) as -> by (vm_compute in Hc; injection Hc as <-; vm_compute; reflexivity).
    destruct (H bob_term) as (wB1 & wB2 & name & H1 & H2 & H3); [by vm_compute..|].
    exists bs, n, wB1, wB2, name. split; [exact Hp|]. split; [exact H1|]. split; [exact H2|]. rewrite H3. vm_compute. reflexivity.
Defined.

Lemma added_contact_found_witness :
  exists t, findContact (base58_Encode carol_key) add_carol.1 =
    (add_carol.1, Ok (mkContact carol_key "Carol" (to_unix t) (OwnX25519PubKey (keys Byte.x03)) "" [] 0)).
Proof.
  destruct (added_contact_found (base58_Encode carol_key) ["Carol"] (hex (OwnX25519PubKey (keys Byte.x03))) carol_key (OwnX25519PubKey (keys Byte.x03))
    bob_term add_carol.1) as [(e & He)|(t & Hf & _)]; [vm_compute; reflexivity..|apply carol_added| |].
  - exfalso. apply (f_equal (fun l => String.substring 0 3 <$> l)) in He. vm_compute in He. discriminate He.
  - exists t. exact Hf.
Defined.
