(* ===== verification/DomainErrors.v ===== *)
(** * pkg/errors: domain errors and guarded goroutines

    [errors.go] and [recovery.go].  An error of the repository is a [BabylonError]
    or any other error; [errors.Is] follows the causes.  The other packages use
    the sentinels of [sentinels.go], which are where they are used. *)
From S2P Require Import Prelude.
#[local] Open Scope string_scope.

Definition DomainMessaging : string := "messaging".
Definition DomainStorage : string := "storage".
Definition DomainNetwork : string := "network".
Definition DomainCrypto : string := "crypto".
Definition DomainConfig : string := "config".
Definition DomainMailbox : string := "mailbox".
Definition DomainIdentity : string := "identity".
Definition DomainPeerstore : string := "peerstore".
Definition DomainProtocol : string := "protocol".
Definition DomainReputation : string := "reputation".
Definition DomainRTC : string := "rtc".

(** A cause that is nil is [NoCause]. *)
Inductive cause := NoCause | Other (e : error) | Babylon (domain code message : string) (inner : cause).

Definition babylon_New (domain code message : string) : cause := Babylon domain code message NoCause.
Definition babylon_Wrap (domain code message : string) (inner : cause) : cause := Babylon domain code message inner.
Definition Unwrap (e : cause) : cause := match e with Babylon _ _ _ inner => inner | _ => NoCause end.

(** How other errors print is a parameter. *)
Fixpoint babylon_Error (text : error -> string) (e : cause) : string :=
  match e with
  | NoCause => ""
  | Other e => text e
  | Babylon domain code message inner =>
      "[" +:+ domain +:+ "/" +:+ code +:+ "] " +:+ message +:+
      match inner with NoCause => "" | _ => ": " +:+ babylon_Error text inner end
  end.

(** [errors.Is(e, target)] for a target that is no [BabylonError]. *)
Fixpoint cause_Is (e : cause) (target : error) : bool :=
  match e with NoCause => false | Other e => errors_Is e target | Babylon _ _ _ inner => cause_Is inner target end.

(** What a goroutine does: it ends, with or without a panic, which is logged. *)
Definition SafeGo {S} (fn : GoM S unit) : GoM S unit := fun s => ((fn s).1, Ok tt).

Lemma append_assoc (a b c : string) : (a +:+ b) +:+ c = a +:+ b +:+ c.
Proof. induction a as [|x a IH]; [done|exact (f_equal (String x) IH)]. Qed.

(** However often an error is wrapped, its cause is found, and its text ends with the text of the cause. *)
Lemma wrapped_cause l (inner : error) target text :
  let e := foldr (fun '(d, c, m) e => babylon_Wrap d c m e) (Other inner) l in
  cause_Is e target = errors_Is inner target /\ exists before, babylon_Error text e = before +:+ text inner.
Proof.
  induction l as [|[[d c] m] l (IH1 & before & IH2)]; cbn in *; [split; [done|by exists ""]|]. split; [done|].
  exists ("[" +:+ d +:+ "/" +:+ c +:+ "] " +:+ m +:+ ": " +:+ before).
  destruct (foldr _ (Other inner) l) eqn:E; [by destruct l as [|[[]]]| |]; cbn in *; rewrite IH2, !append_assoc; cbn; by rewrite ?append_assoc.
Qed.

Example wrapped_text :
  babylon_Error (fun e => match e with ErrText t => t | _ => "" end) (babylon_Wrap DomainStorage "E1" "no contact" (Other (ErrText "closed")))
  = "[storage/E1] no contact: closed".
Proof. reflexivity. Qed.
